(* ===== verification/_CoqProject ===== *)
-Q . S2P
Prelude.v
PyStr.v
Float64.v
Regex.v
Sha256.v
Json.v
Verdicts.v
AuditChain.v
Base64.v
ApiAuth.v
Incidents.v
Sampler.v
DetLifecycle.v
Events.v
Url.v
Divergence.v
Budget.v
Gate.v
Ipc.v
Bridge.v
Store.v
Dispatch.v
Sdk.v
Rules.v
Provenance.v
Judge.v
DetJudged.v
Signals.v
Hitl.v
Asi02.v
Orchestrator.v
Catalog.v
Redact.v
Scanner.v
Calibration.v
ReviewApi.v
Query.v
Runner.v
Search.v
Accounts.v
Export.v
Policy.v
AgentApi.v
Tools.v
Sysmon.v
Reports.v
Enforcement.v
Checkpoint.v
Startup.v
Tenancy.v
Attacks.v
GateAttacks.v
Agents.v
Ids.v
Certs.v
Logging.v
Observer.v
