(* ===== verification/Prelude.v ===== *)
(** * AI Auditor: a verification library

    AI Auditor watches LLM agents.  An agent runs in a harness process ([harness/]) whose telemetry client
    reports what the agent says it does (voluntary events) and asks the auditor before every tool call; an
    observer reports what the process really did (involuntary events).  The auditor ([auditor/]) receives
    the events over framed connections, decides tool calls at an inline gate, stores redacted events, and
    after a run samples it, runs detectors over its trace (some ask a judge model), aggregates their
    verdicts to a flag, opens incidents and queues flags for review; reviewers act through an HTTP API; an
    append-only hash chain records what was done; nightly calibration takes authority from detectors that
    are imprecise.  This library models that program, file by file, and proves what makes it correct, or
    what it does instead.

    ** Conventions

    Every definition is executable.  A Python function that may raise is a function into [result] (this
    file); an operation on an object or on the database takes the state and returns the new one; what runs
    concurrently is a step relation, with invariants by induction on its runs.  A dict is an association
    list with distinct keys where its order or its JSON matters ([dget], [dset] below), and a [gmap]
    where it does not.  Integers are unbounded as in Python; floats are binary64 ([Float64]); strings are
    sequences of the code points U+0000 to U+00FF ([PyStr]), bytes are strings, times are microseconds or
    seconds as integers.  Third-party code and services (Postgres, Redis, the policy server's HTTP, Presidio,
    pydantic's reading of a UUID, the model providers, AG2, the cryptography library, the local embedding model,
    the operating system's processes, the XML parser) are parameters or interfaces; the few laws assumed of
    them are named where they are used ([Budget] and [Hitl] for Redis, [AuditChain] for the uniqueness of a
    primary key, [Sdk] for the canonical text of a UUID, [Certs] for PEM texts and signatures).  SHA-256 and HMAC are computed, never assumed injective: the
    alternative of a security statement is a collision between two texts of a list it names, the texts the
    code hashed on that input ([Sha256.collision_in]), which can be computed and is refuted in the witnesses.
    Where a library or a server leaves an order open (the alternatives of a row-level policy in [Tenancy], the
    keys of a JSONB value in [Store]) the theorems hold of every order.  Clocks, fresh ids and random draws are
    arguments.

    ** The files

    Foundations: this file (results, dicts, lists, tactics and hints), [PyStr], [Float64], [Regex]
    (patterns are parsed from the source's own text and matched by backtracking), [Sha256], [Json] (printing,
    parsing and their round trip), [Base64], [Url].

    Data: [Verdicts] (verdicts/: schemas, severity, aggregator, checks), [Events] (events/schemas.py and
    the trace of detectors/base.py).

    Events on their way: [Sdk] (harness/telemetry/sdk.py), [Tools] (the harness's tools, their sandbox over
    a file system with symbolic links, the gated call, and what a harness reads from its environment),
    [Agents] (harness/agents/, the modes of harness/main.py, auth/secrets.py), [Ids] (ids.py and
    embeddings/), [Certs] (auth/ca.py, the contexts of ipc/auth.py and their use at both ends), [Ipc]
    (ipc/protocol, auth, server), [Bridge] (events/proto_bridge.py), [Dispatch] (ipc/dispatch.py), [Store]
    (events/store.py), [Sysmon] (the Sysmon translator and filter), [Observer] (involuntary/: both observers
    with their threads, queue and consumers), [Divergence] (events/correlator.py,
    inline_gate/divergence.py).

    The gate: [Gate] (decide.py, policy_engine.py, pii_scanner.py), [Budget] (budget.py and its Lua script),
    [Policy] (opa/policies/default.rego as the policy server's answer).

    The audit of a run: [Sampler] and [Signals] (async_pipeline/: sampler, budget_tracker, runtime_policy,
    signals, baseline), [Rules], [Asi02], [Provenance], [Catalog], [Judge], [DetJudged] (detectors/ and
    judge/), [DetLifecycle] (detectors/registry.py, lifecycle.py and its policy file), [Orchestrator]
    (orchestrator.py, pipeline.py and the storing of results), [Calibration] (calibration/), [Redact] and
    [Scanner] (the redactor, and the scan for personal data at rest).

    People: [Incidents] (incidents/ and its routes), [Hitl] (hitl/: queue, router, notifier), [ApiAuth]
    (api/auth.py), [ReviewApi] (api/hitl_routes.py with db/tenancy.py and the row-level policies),
    [Query] (audit_log/query.py), [Search] (api/search_routes.py), [Accounts] (api/auth_routes.py and
    admin.py), [Export] (api/replay.py and the replay route), [AgentApi] (api/agent_routes.py), [Runner]
    (harness_runner.py, its threads interleaved), [Reports] (action items, the reconstruction of an incident,
    shadow verdicts, calibration/label.py), [AuditChain] (audit_log/: chain, writer, verifier).

    The service and the machine: [Enforcement] (enforcement/: process trees, job objects and control groups
    over a machine that system calls act on), [Checkpoint] (hitl/checkpoint.py), [Startup] (main.py,
    api/health.py and the choice of the transport), [Tenancy] (db/migrations/versions/ as statements over a
    catalogue, db/tenancy.py), [Logging] (the redaction of log lines in logging.py).

    The red team: [Attacks] (adversarial/per_category and chained: the traces, through the detectors, the
    aggregation and the memory store), [GateAttacks] (the attacks on the gate and adversarial/runner.py).

    A file requires the files of the components it calls, so theorems about one path through the program
    are stated where the path ends: an agent's call from the client to the trace the detectors read
    ([Sdk.tool_call_reaches_trace]), a gated session's effect on the file system
    ([Tools.gated_session_confined]), the policy through the gate ([Policy.gate_enforces_default_policy]),
    a run from the API to its process to the tenant its events carry ([AgentApi.started_run_is_watched],
    [Tools.harness_reports_as_its_run]), the audit to the reviewer's view ([AgentApi.audited_exact],
    [AgentApi.agent_view_refines_checks]), redaction to the stored row
    ([Redact.stored_payload_has_no_secret]), a critical flag to the processes it halts and to its checkpoint
    ([Enforcement.critical_flag_halts_tree], [Checkpoint.pipeline_checkpoint_is_empty]), a reviewer's decision
    to the machine ([Enforcement.linux_abort_stops_nothing]), a certificate from the authority's files to the
    identity the server reads ([Certs.harness_identified]), the migrations to the routes' filter
    ([Tenancy.scoped_is_row_level_security]), an attack through client, gate, policy and budget
    ([GateAttacks.gate_attacks_denied]) or through detectors to a flag ([Attacks.fixtures_flagged]).

    ** What the theorems show

    Safety: the flag of a run exists exactly when a detector that counts found something; the gate takes
    its most severe vote and the client fails closed; the file tools stay in their sandbox; tokens, export
    bundles and the audit chain cannot be changed without a collision among the texts hashed for them; nobody becomes an
    administrator but through an administrator; a child process inherits no denied variable; reads stay in
    the tenant of a token, and the migrated database enforces the same; what the fallback redactor looks for
    is not stored outside the structural keys nor logged outside the reserved ones; an agent keeps to its
    tools; a harness is identified as the run its certificate was minted for, and cannot stand in for the
    service.

    Invariants of state machines: incidents, runs, detectors' lifecycle, concurrent appends to the chain, the
    threads of the runner, the queues of the live channel (with their bound), the observer's events between its
    threads, the authority's files under interruption.  Liveness: a run whose process
    has exited is reaped under every schedule that lets its own thread run.

    Functional behaviour, refinement and equivalence: aggregation, the rule detectors, the search for cycles,
    the influence walk, calibration, queries, sampling; the review queue and the Redis budget refine abstract
    specifications (the queue also under a listing other clients interrupt: [Hitl.list_awaiting_ok]); caches are
    transparent; the textual binding of parameters is a substitution; the view's
    grouping is that of the operator's checks.  Round trips: JSON, base64, tokens, frames, events through
    the store, export bundles, files through the tools.  Types: what the translators produce passes the
    schema's validation.  Errors: which exception escapes, what it loses, and which inputs it needs.

    Where the code does not do what it means to, the lemma states what it does (for instance
    [Sdk.sdk_late_answer_shifts], [Export.replay_route_always_fails], [ReviewApi.paging_loses_ties]); the
    rule of the default policy on destinations is one: no event of a connection is denied by it
    ([Policy.gate_enforces_default_policy]).

    ** Fuel

    Fuel appears where the recursion is not structural, and the definitions supply a bound that suffices,
    since every turn consumes what is counted; the round trips and the termination theorems of the files
    ([Provenance.walk_terminates], [Tools.resolve_terminates], [Runner.terminate_escalates]) rest on it:
    [Json.scan_value] (the length of the text), [Regex] (the length of the pattern and of the subject),
    [PyStr.replace_fuel] (the length of the text), [Sha256.sha_blocks] (the number of words),
    [Provenance.walk_loop] (the entries of the store), [Tools._joinrealpath] (the number of links),
    [Runner.terminate_loop] and [ReviewApi.read_pages] (any amount above what the theorem names), [Ipc.serve]
    (the bytes of the stream), [Ids.vector_loop] (the dimension).  In [Asi02.dfs] the fuel is the
    interpreter's recursion limit and running out of it is the exception the program raises.

    ** Not modelled

    Code whose behaviour is that of a library or of the operating system: what AG2 and the model choose to
    call and say in a conversation (arguments of [Agents]), how signatures and PEM texts are made, sockets,
    the system calls behind the enforcers (parameters that act on a machine), seccomp, the eBPF program
    (Rust; the Python side is a scaffold that raises), the local embedding model, compression, connection
    pools, construction of clients and routers at start, the configuration and rendering of structlog,
    metrics and settings (which are arguments of the definitions that use them), the frontend, command-line
    scripts, and the stubs of the harness's memory and message bus.  The Slack card of [Hitl] is not built:
    its bullet is outside the code points of [PyStr].  The job object of a child on Windows is left out of
    [Runner], and in [Sdk] the bytes of one frame arrive together.  Of the modelled files, texts of HTTP errors and of log
    lines are left out, and so are permissions and device errors of the file system. *)

From Stdlib Require Import ZArith Lia Ascii.
From Stdlib Require String.
From stdpp Require Import base tactics option list strings gmap relations.

Declare Scope auditor_scope.
Delimit Scope auditor_scope with auditor.
Open Scope auditor_scope.

(** Concatenation of strings computes on a constructor, as [app] on lists does. *)
#[global] Arguments String.append : simpl nomatch.

Create HintDb auditor.
Create Rewrite HintDb auditor_rw.

(** ** Python calls that may raise

    A Python function that either returns a value or raises is a function into [result]: [Ok v] for
    [return v], [Raise e] for [raise e].  [try_except] is [try: .. except Exception: ..]. *)

Inductive result (E A : Type) : Type :=
| Ok (a : A)
| Raise (e : E).
Arguments Ok {E A} a.
Arguments Raise {E A} e.

Definition result_bind {E A B} (m : result E A) (f : A → result E B) : result E B :=
  match m with Ok a => f a | Raise e => Raise e end.

Definition result_map {E A B} (f : A → B) (m : result E A) : result E B :=
  match m with Ok a => Ok (f a) | Raise e => Raise e end.

Definition try_except {E A} (m : result E A) (handler : E → A) : A :=
  match m with Ok a => a | Raise e => handler e end.

Definition is_ok {E A} (m : result E A) : bool :=
  match m with Ok _ => true | Raise _ => false end.

Notation "'let!' x ':=' m 'in' k" := (result_bind m (λ x, k))
  (at level 10, x pattern, m at level 100, k at level 200) : auditor_scope.

#[export] Instance result_eq_dec {E A} `{EqDecision E, EqDecision A} : EqDecision (result E A).
Proof. solve_decision. Defined.

Lemma result_bind_ok {E A B} (m : result E A) (f : A → result E B) b :
  result_bind m f = Ok b ↔ ∃ a, m = Ok a ∧ f a = Ok b.
Proof. destruct m; simpl; naive_solver. Qed.

Lemma result_bind_raise {E A B} (m : result E A) (f : A → result E B) e :
  result_bind m f = Raise e ↔ m = Raise e ∨ ∃ a, m = Ok a ∧ f a = Raise e.
Proof. destruct m; simpl; naive_solver. Qed.

Lemma result_seq_ok {E A} (m : result E ()) (k : result E A) b :
  result_bind m (λ _, k) = Ok b ↔ m = Ok tt ∧ k = Ok b.
Proof. destruct m as [[]|]; simpl; naive_solver. Qed.

Lemma is_ok_spec {E A} (m : result E A) : is_ok m = true ↔ ∃ a, m = Ok a.
Proof. destruct m; simpl; naive_solver. Qed.

(** [guard_raise b e]: [if b: raise e]. *)
Definition guard_raise {E} (b : bool) (e : E) : result E () :=
  if b then Raise e else Ok ().

Lemma guard_raise_ok {E} b (e : E) : guard_raise b e = Ok tt ↔ b = false.
Proof. destruct b; simpl; naive_solver. Qed.

#[export] Hint Rewrite @guard_raise_ok @result_bind_ok : auditor_rw.

(** ** Python dicts

    A dict iterates in insertion order, and assigning to an existing key keeps the key's place, so
    where the code iterates over a dict the model is an association list with distinct keys. *)

Section pdict.
Context {K V : Type} `{EqDecision K}.
Implicit Types (d : list (K * V)) (k : K) (v : V).

(** [d.get(k)] *)
Fixpoint dget k d : option V :=
  match d with
  | [] => None
  | (k', v) :: d' => if decide (k' = k) then Some v else dget k d'
  end.

(** [d[k] = v] *)
Fixpoint dset k v d : list (K * V) :=
  match d with
  | [] => [(k, v)]
  | (k', v') :: d' => if decide (k' = k) then (k', v) :: d' else (k', v') :: dset k v d'
  end.

Definition dkeys d : list K := d.*1.
Definition dvalues d : list V := d.*2.

Lemma dget_dset_eq k v d : dget k (dset k v d) = Some v.
Proof. induction d as [|[k' v'] d IH]; simpl; repeat (case_decide; simpl); congruence. Qed.

Lemma dget_dset_ne k k' v d : k ≠ k' → dget k' (dset k v d) = dget k' d.
Proof.
  intros Hne. induction d as [|[k0 v0] d IH]; simpl; repeat (case_decide; simpl); congruence.
Qed.

Lemma dget_dset k k' v d :
  dget k' (dset k v d) = if decide (k = k') then Some v else dget k' d.
Proof. case_decide; subst; auto using dget_dset_eq, dget_dset_ne. Qed.

Lemma dkeys_cons x d : dkeys (x :: d) = x.1 :: dkeys d.
Proof. done. Qed.

Lemma dkeys_dset k v d :
  dkeys (dset k v d) = if decide (k ∈ dkeys d) then dkeys d else dkeys d ++ [k].
Proof.
  induction d as [|[k0 v0] d IH]; [done|]. cbn [dset]. rewrite dkeys_cons.
  destruct (decide (k0 = k)) as [->|Hne]; rewrite dkeys_cons; simpl.
  - rewrite decide_True by set_solver. done.
  - rewrite IH. destruct (decide (k ∈ dkeys d)) as [Hi|Hi],
      (decide (k ∈ k0 :: dkeys d)) as [Hj|Hj]; [done| | |done]; exfalso; set_solver.
Qed.

Lemma NoDup_dkeys_dset k v d : NoDup (dkeys d) → NoDup (dkeys (dset k v d)).
Proof.
  intros Hd. rewrite dkeys_dset. case_decide; [done|].
  apply NoDup_app. split_and!; [done| |apply NoDup_singleton]. set_solver.
Qed.

Lemma elem_of_dkeys k d : k ∈ dkeys d ↔ is_Some (dget k d).
Proof.
  unfold dkeys. induction d as [|[k0 v0] d IH]; simpl.
  - rewrite elem_of_nil. split; [done|by intros [? ?]].
  - rewrite elem_of_cons, IH. case_decide; subst; naive_solver.
Qed.

Lemma dget_elem_of k v d : dget k d = Some v → (k, v) ∈ d.
Proof.
  induction d as [|[k0 v0] d IH]; simpl; [done|].
  case_decide; intros; simplify_eq; set_solver.
Qed.

Lemma elem_of_dget k v d : NoDup (dkeys d) → (k, v) ∈ d → dget k d = Some v.
Proof.
  unfold dkeys. induction d as [|[k0 v0] d IH]; simpl; [set_solver|].
  intros [Hn Hd]%NoDup_cons [Heq|Hin]%elem_of_cons; simplify_eq.
  - by rewrite decide_True.
  - rewrite decide_False; [auto|]. intros ->. apply Hn.
    apply list_elem_of_fmap. by exists (k, v).
Qed.

Lemma dget_None k d : dget k d = None ↔ k ∉ dkeys d.
Proof. rewrite elem_of_dkeys, <-eq_None_not_Some. done. Qed.
End pdict.

#[export] Hint Rewrite @dget_dset_eq : auditor_rw.
#[export] Hint Resolve NoDup_dkeys_dset dget_elem_of elem_of_dget : auditor.

(** ** Lists *)

(** [l[-n:]] for [n > 0]. *)
Definition take_last {A} (n : nat) (l : list A) : list A := drop (length l - n) l.

Lemma length_take_last {A} n (l : list A) : length (take_last n l) = n `min` length l.
Proof. unfold take_last. rewrite length_drop. lia. Qed.

(** [[x for x in l if p x]] over a boolean test. *)
Definition bfilter {A} (p : A → bool) (l : list A) : list A := filter (λ x, p x = true) l.

Lemma elem_of_bfilter {A} (p : A → bool) l x : x ∈ bfilter p l ↔ p x = true ∧ x ∈ l.
Proof. unfold bfilter. by rewrite list_elem_of_filter. Qed.

Lemma bfilter_cons {A} (p : A → bool) x l :
  bfilter p (x :: l) = if p x then x :: bfilter p l else bfilter p l.
Proof. unfold bfilter. rewrite filter_cons. by destruct (p x). Qed.

(** Looking up in what a test on keys keeps. *)
Lemma dget_bfilter_key {V} (p : string → bool) k (d : list (string * V)) :
  dget k (bfilter (λ kv, p kv.1) d) = if p k then dget k d else None.
Proof.
  induction d as [|[k0 v0] d IH]; [by destruct (p k)|]. rewrite bfilter_cons. simpl.
  destruct (p k0) eqn:E; simpl; case_decide as Hk; subst; rewrite ?E in *; done.
Qed.

Lemma bfilter_one {A} (p : A → bool) x : bfilter p [x] = if p x then [x] else [].
Proof. by rewrite bfilter_cons. Qed.

Lemma bfilter_all {A} (p : A → bool) l : (∀ x, x ∈ l → p x = true) → bfilter p l = l.
Proof.
  induction l as [|a l IH]; intros H; [done|].
  rewrite bfilter_cons, (H a) by left. f_equal. apply IH. intros. apply H. by right.
Qed.

Lemma bfilter_app {A} (p : A → bool) l1 l2 :
  bfilter p (l1 ++ l2) = bfilter p l1 ++ bfilter p l2.
Proof. apply filter_app. Qed.

Lemma bfilter_nil {A} (p : A → bool) l : bfilter p l = [] ↔ ∀ x, x ∈ l → p x = false.
Proof.
  induction l as [|a l IH]; [split; [set_solver|done]|].
  unfold bfilter in *. rewrite filter_cons. case_decide as Ha.
  - split; [done|]. intros H. exfalso. specialize (H a ltac:(left)). congruence.
  - rewrite IH. split; intros H x Hx; [|set_solver].
    apply elem_of_cons in Hx as [->|Hx]; [by apply not_true_is_false|by apply H].
Qed.

Lemma omap_cons {A B} (f : A → option B) x l :
  omap f (x :: l) = match f x with Some y => y :: omap f l | None => omap f l end.
Proof. done. Qed.

Lemma elem_of_map {A B} (f : A → B) l y : y ∈ map f l ↔ ∃ x, y = f x ∧ x ∈ l.
Proof. apply (list_elem_of_fmap f). Qed.

Lemma concat_map_nil {A B} (f : A → list B) l : concat (map f l) = [] ↔ ∀ x, x ∈ l → f x = [].
Proof.
  induction l as [|a l IH]; simpl; [split; [intros _ x Hx; by apply elem_of_nil in Hx|done]|].
  rewrite app_nil, IH. setoid_rewrite elem_of_cons. naive_solver.
Qed.

Lemma Forall2_in_l {A B} (R : A → B → Prop) l k x :
  Forall2 R l k → x ∈ l → ∃ y, y ∈ k ∧ R x y.
Proof.
  induction 1 as [|a b l k Hab _ IH]; [by intros ?%elem_of_nil|].
  intros [->|Hx]%elem_of_cons; [exists b; split; [left|done]|].
  destruct (IH Hx) as (y & Hy & HR). exists y. split; [by right|done].
Qed.

Lemma Forall2_in_r {A B} (R : A → B → Prop) l k y :
  Forall2 R l k → y ∈ k → ∃ x, x ∈ l ∧ R x y.
Proof.
  induction 1 as [|a b l k Hab _ IH]; [by intros ?%elem_of_nil|].
  intros [->|Hy]%elem_of_cons; [exists a; split; [left|done]|].
  destruct (IH Hy) as (x & Hx & HR). exists x. split; [by right|done].
Qed.

(** Order-preserving removal of later duplicates: the loop [if x not in seen: seen.add(x); out.append(x)]. *)
Fixpoint dedup_from {A B} `{EqDecision B} (key : A → B) (seen : list B) (l : list A) : list A :=
  match l with
  | [] => []
  | x :: l' => if decide (key x ∈ seen) then dedup_from key seen l'
               else x :: dedup_from key (key x :: seen) l'
  end.

Section dedup.
Context {A B : Type} `{EqDecision B} (key : A → B).
Implicit Types (l : list A) (seen : list B).

Lemma dedup_from_sub seen l : dedup_from key seen l `sublist_of` l.
Proof.
  revert seen. induction l as [|x l IH]; intros seen; simpl; [constructor|].
  case_decide; [by apply sublist_cons|by apply sublist_skip].
Qed.

Lemma dedup_from_fresh seen l x : x ∈ dedup_from key seen l → key x ∉ seen.
Proof.
  revert seen. induction l as [|y l IH]; intros seen; simpl; [set_solver|].
  case_decide as Hy; [by apply IH|].
  intros [->|Hx]%elem_of_cons; [done|]. apply IH in Hx. set_solver.
Qed.

Lemma dedup_from_NoDup seen l : NoDup (key <$> dedup_from key seen l).
Proof.
  revert seen. induction l as [|x l IH]; intros seen; simpl; [constructor|].
  case_decide; [apply IH|]. simpl. apply NoDup_cons. split; [|apply IH].
  intros (y & Hy & Hin)%list_elem_of_fmap. apply dedup_from_fresh in Hin. set_solver.
Qed.

Lemma dedup_from_keys seen l k :
  k ∈ (key <$> dedup_from key seen l) ↔ k ∈ (key <$> l) ∧ k ∉ seen.
Proof.
  revert seen. induction l as [|x l IH]; intros seen; simpl; [set_solver|].
  case_decide as Hx; simpl; rewrite ?elem_of_cons, IH; [set_solver|].
  rewrite elem_of_cons. destruct (decide (k = key x)) as [->|]; naive_solver.
Qed.
End dedup.

(** [max(l, key=..)] keeps the first maximal element. *)
Fixpoint max_by {A} (key : A → Z) (best : A) (l : list A) : A :=
  match l with
  | [] => best
  | x :: l' => max_by key (if (key best <? key x)%Z then x else best) l'
  end.

Lemma max_by_spec {A} (key : A → Z) best l :
  max_by key best l ∈ best :: l ∧ ∀ x, x ∈ best :: l → (key x ≤ key (max_by key best l))%Z.
Proof.
  revert best. induction l as [|y l IH]; intros best; simpl.
  { split; [left|]. intros x ->%list_elem_of_singleton. lia. }
  destruct (key best <? key y)%Z eqn:E.
  - apply Z.ltb_lt in E. destruct (IH y) as [H1 H2]. split; [set_solver|].
    intros x Hx. rewrite !elem_of_cons in Hx. destruct Hx as [->|Hx].
    + specialize (H2 y ltac:(left)). lia.
    + apply H2. set_solver.
  - apply Z.ltb_ge in E. destruct (IH best) as [H1 H2]. split; [set_solver|].
    intros x Hx. rewrite !elem_of_cons in Hx. destruct Hx as [->|[->|Hx]].
    + apply H2. left.
    + specialize (H2 best ltac:(left)). lia.
    + apply H2. set_solver.
Qed.

Lemma max_by_snoc {A} (key : A → Z) best l x :
  max_by key best (l ++ [x]) =
    if (key (max_by key best l) <? key x)%Z then x else max_by key best l.
Proof. revert best. induction l as [|y l IH]; intros best; [done|]. apply IH. Qed.

(** ** Identifiers and times

    A UUID is carried as its canonical text, [str(u)]; a timezone-aware [datetime] as the number of
    microseconds since the epoch, the resolution of the type. *)
Notation uuid := String.string (only parsing).
Notation datetime := Z (only parsing).

(** ** Tactics *)

Ltac inv_bind :=
  repeat match goal with
  | H : result_bind _ _ = Ok _ |- _ => apply result_bind_ok in H; destruct H as (? & ? & ?)
  | H : guard_raise _ _ = Ok _ |- _ => apply guard_raise_ok in H
  end.

(** A decidable goal without free variables that matter. *)
Ltac by_decision := apply (bool_decide_unpack _); vm_compute; exact I.

Ltac case_bool :=
  repeat match goal with
  | H : context [if ?b then _ else _] |- _ => destruct b eqn:?
  | |- context [if ?b then _ else _] => destruct b eqn:?
  end.

Ltac bool_solver :=
  rewrite ?andb_true_iff, ?orb_true_iff, ?negb_true_iff in *; naive_solver.
