(* ===== verification/PyStr.v ===== *)
(** * Python strings and bytes

    A Python [str] is a Rocq [string] whose characters are its code points, so the model covers the
    strings over U+0000..U+00FF; on them every operation below is Python's.  A Python [bytes] is a
    Rocq [string] of its bytes, and [utf8] is [s.encode("utf-8")]. *)

From Stdlib Require Import ZArith Lia Ascii DecimalString DecimalZ.
From Stdlib Require String.
From stdpp Require Import base tactics option list strings sets sorting.
From S2P Require Import Prelude.

(** ** Appending *)

Lemma str_app_nil_r (s : string) : s +:+ "" = s.
Proof. induction s; simpl; congruence. Qed.

Lemma str_app_assoc (a b c : string) : a +:+ (b +:+ c) = (a +:+ b) +:+ c.
Proof. induction a; simpl; congruence. Qed.

Lemma str_length_app (a b : string) :
  String.length (a +:+ b) = (String.length a + String.length b)%nat.
Proof. induction a; simpl; congruence. Qed.

(** Two equal concatenations whose left parts have the same length split the same way. *)
Lemma str_app_inj_length (a b c d : string) :
  String.length a = String.length c → a +:+ b = c +:+ d → a = c ∧ b = d.
Proof.
  revert c. induction a as [|x a IH]; intros [|y c] Hl Heq; simplify_eq/=; [done|].
  destruct (IH c) as [-> ->]; auto.
Qed.

Lemma str_app_inj_r (a b c : string) : a +:+ c = b +:+ c → a = b.
Proof.
  intros Heq. assert (String.length a = String.length b) as Hl.
  { apply (f_equal String.length) in Heq. rewrite !str_length_app in Heq. lia. }
  by apply (str_app_inj_length a c b c) in Hl as [??].
Qed.

(** ** Searching *)

Fixpoint starts_with (p s : string) : bool :=
  match p, s with
  | EmptyString, _ => true
  | String a p', String b s' => if ascii_dec a b then starts_with p' s' else false
  | String _ _, EmptyString => false
  end.

Lemma starts_with_spec p s : starts_with p s = true ↔ ∃ r, s = p +:+ r.
Proof.
  revert s. induction p as [|a p IH]; intros s; simpl; [naive_solver|].
  destruct s as [|b s]; [naive_solver|].
  destruct (ascii_dec a b) as [->|Hne]; [rewrite IH|]; naive_solver.
Qed.

(** [needle in hay] *)
Fixpoint contains (needle hay : string) : bool :=
  starts_with needle hay ||
  match hay with EmptyString => false | String _ hay' => contains needle hay' end.

Lemma contains_spec needle hay :
  contains needle hay = true ↔ ∃ a b, hay = a +:+ needle +:+ b.
Proof.
  induction hay as [|c hay IH]; cbn [contains].
  - rewrite orb_false_r, starts_with_spec. split.
    + intros [r Hr]. by exists "", r.
    + intros (a & b & Hab). destruct a; [by exists b|done].
  - rewrite orb_true_iff, starts_with_spec, IH. split.
    + intros [[r Hr]|(a & b & ->)]; [by exists "", r|by exists (String c a), b].
    + intros ([|c' a] & b & Hab); simplify_eq/=; [left; by exists b|right; by exists a, b].
Qed.

Lemma contains_refl s : contains s s = true.
Proof. apply contains_spec. exists "", "". by rewrite str_app_nil_r. Qed.

Lemma contains_app a s b : contains s (a +:+ s +:+ b) = true.
Proof. apply contains_spec. by exists a, b. Qed.

Lemma contains_trans a b c : contains a b = true → contains b c = true → contains a c = true.
Proof.
  rewrite !contains_spec. intros (p & q & ->) (r & s & ->).
  exists (r +:+ p), (q +:+ s). by rewrite !str_app_assoc.
Qed.

(** [drop_str n s] is [s[n:]], [take_str n s] is [s[:n]] for [n >= 0]. *)
Fixpoint drop_str (n : nat) (s : string) : string :=
  match n, s with
  | 0%nat, _ => s
  | S n', String _ s' => drop_str n' s'
  | S _, EmptyString => EmptyString
  end.

Fixpoint take_str (n : nat) (s : string) : string :=
  match n, s with
  | S n', String c s' => String c (take_str n' s')
  | _, _ => EmptyString
  end.

Lemma take_drop_str n s : take_str n s +:+ drop_str n s = s.
Proof. revert s. induction n as [|n IH]; intros [|c s]; simpl; try done. by rewrite IH. Qed.

Lemma take_str_app a b : take_str (String.length a) (a +:+ b) = a.
Proof. induction a; simpl; [by destruct b|congruence]. Qed.

Lemma drop_str_app a b : drop_str (String.length a) (a +:+ b) = b.
Proof. induction a; simpl; congruence. Qed.

Lemma length_take_str n s : String.length (take_str n s) = (n `min` String.length s)%nat.
Proof. revert s. induction n as [|n IH]; intros [|c s]; simpl; try done. by rewrite IH. Qed.

Lemma length_drop_str n s : String.length (drop_str n s) = (String.length s - n)%nat.
Proof. revert s. induction n as [|n IH]; intros [|c s]; simpl; done. Qed.

(** ** Splitting and joining *)

(** [s.split(c)] for a one-character separator. *)
Fixpoint split_on (c : ascii) (s : string) : list string :=
  match s with
  | EmptyString => [""]
  | String a s' =>
      if ascii_dec a c then "" :: split_on c s'
      else match split_on c s' with
           | [] => [String a ""]
           | w :: ws => String a w :: ws
           end
  end.

(** [sep.join(l)] *)
Fixpoint join (sep : string) (l : list string) : string :=
  match l with
  | [] => ""
  | [x] => x
  | x :: l' => x +:+ sep +:+ join sep l'
  end.

Lemma join_cons2 sep x l : l ≠ [] → join sep (x :: l) = x +:+ sep +:+ join sep l.
Proof. by destruct l. Qed.

Definition char_in (c : ascii) (s : string) : bool := contains (String c "") s.

Lemma char_in_cons c a s : char_in c (String a s) = bool_decide (a = c) || char_in c s.
Proof.
  unfold char_in. cbn [contains starts_with]. destruct (ascii_dec c a) as [->|Hne].
  - rewrite bool_decide_eq_true_2 by done. by destruct s.
  - rewrite bool_decide_eq_false_2 by done. done.
Qed.

Lemma char_in_app c a b : char_in c (a +:+ b) = char_in c a || char_in c b.
Proof. induction a as [|x a IH]; [done|]. simpl. by rewrite !char_in_cons, IH, orb_assoc. Qed.

Lemma split_on_nonempty c s : split_on c s ≠ [].
Proof. destruct s; simpl; repeat case_match; done. Qed.

Lemma split_on_no_sep c s : char_in c s = false → split_on c s = [s].
Proof.
  induction s as [|a s IH]; [done|]. rewrite char_in_cons. intros [Ha Hs]%orb_false_iff.
  apply bool_decide_eq_false in Ha. simpl. destruct (ascii_dec a c); [done|]. by rewrite IH.
Qed.

Lemma split_on_app c s t :
  char_in c s = false → split_on c (s +:+ String c t) = s :: split_on c t.
Proof.
  induction s as [|a s IH]; simpl; [by destruct (ascii_dec c c)|].
  rewrite char_in_cons. intros [Ha Hs]%orb_false_iff. apply bool_decide_eq_false in Ha.
  destruct (ascii_dec a c); [done|]. by rewrite IH.
Qed.

Lemma split_on_join c s : join (String c "") (split_on c s) = s.
Proof.
  induction s as [|a s IH]; [done|]. simpl.
  pose proof (split_on_nonempty c s) as Hn.
  destruct (ascii_dec a c) as [->|]; destruct (split_on c s) as [|w [|w2 ws]]; simplify_eq/=;
    congruence.
Qed.

Lemma split_on_parts c s x : x ∈ split_on c s → char_in c x = false.
Proof.
  revert x. induction s as [|a s IH]; intros x; simpl; [by intros ->%list_elem_of_singleton|].
  destruct (ascii_dec a c) as [->|Hne].
  - intros [->|Hx]%elem_of_cons; [done|auto].
  - destruct (split_on c s) as [|w ws] eqn:E; [by destruct (split_on_nonempty c s)|].
    intros [->|Hx]%elem_of_cons; [|by apply IH; right].
    rewrite char_in_cons, bool_decide_eq_false_2 by done. apply IH. left.
Qed.

(** [s.partition(c)]: the text before the first [c], whether [c] occurs, the text after it. *)
Fixpoint partition_on (c : ascii) (s : string) : string * bool * string :=
  match s with
  | EmptyString => ("", false, "")
  | String a s' =>
      if ascii_dec a c then ("", true, s')
      else let '(h, f, t) := partition_on c s' in (String a h, f, t)
  end.

Lemma partition_on_app c s t :
  char_in c s = false → partition_on c (s +:+ String c t) = (s, true, t).
Proof.
  induction s as [|a s IH]; simpl; [by destruct (ascii_dec c c)|].
  rewrite char_in_cons. intros [Ha Hs]%orb_false_iff. apply bool_decide_eq_false in Ha.
  destruct (ascii_dec a c); [done|]. by rewrite IH.
Qed.

(** ** Case and white space *)

(** [c.lower()] and [c.upper()] up to U+00FF; [ß], [µ] and [ÿ], whose upper case is outside the
    range, are left alone by [ascii_upper], which is only used for case-insensitive matching. *)
Definition ascii_lower (c : ascii) : ascii :=
  let n := nat_of_ascii c in
  if ((65 <=? n)%nat && (n <=? 90)%nat) ||
     ((192 <=? n)%nat && (n <=? 222)%nat && negb (n =? 215)%nat)
  then ascii_of_nat (n + 32) else c.

Definition ascii_upper (c : ascii) : ascii :=
  let n := nat_of_ascii c in
  if ((97 <=? n)%nat && (n <=? 122)%nat) ||
     ((224 <=? n)%nat && (n <=? 254)%nat && negb (n =? 247)%nat)
  then ascii_of_nat (n - 32) else c.

Fixpoint map_str (f : ascii → ascii) (s : string) : string :=
  match s with EmptyString => EmptyString | String c s' => String (f c) (map_str f s') end.

(** [s.lower()] *)
Definition lower : string → string := map_str ascii_lower.

Lemma map_str_app f a b : map_str f (a +:+ b) = map_str f a +:+ map_str f b.
Proof. induction a; simpl; congruence. Qed.

Lemma lower_app a b : lower (a +:+ b) = lower a +:+ lower b.
Proof. apply map_str_app. Qed.

Lemma ascii_lower_idemp c : ascii_lower (ascii_lower c) = ascii_lower c.
Proof. destruct c as [[] [] [] [] [] [] [] []]; reflexivity. Qed.

Lemma lower_idemp s : lower (lower s) = lower s.
Proof. unfold lower. induction s; simpl; [done|]. by rewrite ascii_lower_idemp, IHs. Qed.

(** [c.isspace()]: the characters [str.strip] removes and [\s] matches. *)
Definition is_space (c : ascii) : bool :=
  let n := nat_of_ascii c in
  ((9 <=? n)%nat && (n <=? 13)%nat) || ((28 <=? n)%nat && (n <=? 32)%nat) ||
  (n =? 133)%nat || (n =? 160)%nat.

Fixpoint lstrip (s : string) : string :=
  match s with
  | EmptyString => EmptyString
  | String c s' => if is_space c then lstrip s' else s
  end.

Fixpoint rstrip (s : string) : string :=
  match s with
  | EmptyString => EmptyString
  | String c s' =>
      match rstrip s' with
      | EmptyString => if is_space c then EmptyString else String c EmptyString
      | r => String c r
      end
  end.

(** [s.strip()] *)
Definition strip (s : string) : string := rstrip (lstrip s).

(** [not s.strip()]: the string is empty or all white space. *)
Definition is_blank (s : string) : bool := String.eqb (strip s) "".

(** Truth value of a [str]. *)
Definition str_truthy (s : string) : bool := negb (String.eqb s "").

Lemma str_truthy_spec s : str_truthy s = true ↔ s ≠ "".
Proof. unfold str_truthy. by rewrite negb_true_iff, String.eqb_neq. Qed.

(** Truth value of a [str | None]. *)
Definition ostr_truthy (o : option string) : bool :=
  match o with Some s => str_truthy s | None => false end.

(** ** UTF-8 *)

(** [s.encode("utf-8")] *)
Fixpoint utf8 (s : string) : string :=
  match s with
  | EmptyString => EmptyString
  | String c s' =>
      let n := N_of_ascii c in
      if (n <? 128)%N then String c (utf8 s')
      else String (ascii_of_N (192 + n / 64)) (String (ascii_of_N (128 + n mod 64)) (utf8 s'))
  end.

(** [b.decode("utf-8")] on the encodings of the characters above. *)
Fixpoint utf8_decode (b : string) : option string :=
  match b with
  | EmptyString => Some EmptyString
  | String c b' =>
      let n := N_of_ascii c in
      if (n <? 128)%N then String c <$> utf8_decode b'
      else match b' with
           | String d b'' =>
               let m := N_of_ascii d in
               if (194 <=? n)%N && (n <=? 195)%N && (128 <=? m)%N && (m <? 192)%N
               then String (ascii_of_N ((n - 192) * 64 + (m - 128))) <$> utf8_decode b''
               else None
           | EmptyString => None
           end
  end.

Lemma utf8_decode_utf8 s : utf8_decode (utf8 s) = Some s.
Proof.
  induction s as [|c s IH]; [done|].
  assert (utf8_decode (utf8 (String c s)) = String c <$> utf8_decode (utf8 s)) as ->.
  { destruct c as [[] [] [] [] [] [] [] []]; reflexivity. }
  by rewrite IH.
Qed.

#[export] Instance utf8_inj : Inj (=) (=) utf8.
Proof. intros a b Heq. apply (inj Some). by rewrite <-!utf8_decode_utf8, Heq. Qed.

Lemma utf8_app a b : utf8 (a +:+ b) = utf8 a +:+ utf8 b.
Proof. induction a as [|c a IH]; simpl; [done|]. rewrite IH. by destruct (_ <? _)%N. Qed.

(** ASCII text is its own encoding. *)
Fixpoint is_ascii (s : string) : bool :=
  match s with
  | EmptyString => true
  | String c s' => (N_of_ascii c <? 128)%N && is_ascii s'
  end.

Lemma utf8_ascii s : is_ascii s = true → utf8 s = s.
Proof.
  induction s as [|c s IH]; simpl; [done|]. intros [-> Hs]%andb_true_iff. by rewrite IH.
Qed.

Lemma is_ascii_app a b : is_ascii (a +:+ b) = is_ascii a && is_ascii b.
Proof. induction a as [|c a IH]; simpl; [done|]. by rewrite IH, andb_assoc. Qed.

(** ** Numbers as text *)

(** [str(n)] for an [int]. *)
Definition dec (z : Z) : string := NilEmpty.string_of_int (Z.to_int z).

(** [int(s)] on the canonical decimal text. *)
Definition undec (s : string) : option Z := Z.of_int <$> NilEmpty.int_of_string s.

Lemma undec_dec z : undec (dec z) = Some z.
Proof. unfold undec, dec. rewrite NilEmpty.isi. simpl. by rewrite DecimalZ.of_to. Qed.

#[export] Instance dec_inj : Inj (=) (=) dec.
Proof. intros a b Heq. apply (inj Some). by rewrite <-!undec_dec, Heq. Qed.

(** [b.hex()] *)
Definition hex_digit (n : N) : ascii :=
  ascii_of_N (if (n <? 10)%N then n + 48 else n + 87)%N.

Fixpoint to_hex (b : string) : string :=
  match b with
  | EmptyString => EmptyString
  | String c b' =>
      let n := N_of_ascii c in
      String (hex_digit (N.div n 16)) (String (hex_digit (N.modulo n 16)) (to_hex b'))
  end.

Definition unhex_digit (c : ascii) : option N :=
  let n := N_of_ascii c in
  if (48 <=? n)%N && (n <=? 57)%N then Some (n - 48)%N
  else if (97 <=? n)%N && (n <=? 102)%N then Some (n - 87)%N
  else if (65 <=? n)%N && (n <=? 70)%N then Some (n - 55)%N
  else None.

Definition is_c_space (c : ascii) : bool :=
  let n := nat_of_ascii c in ((9 <=? n)%nat && (n <=? 13)%nat) || (n =? 32)%nat.

(** [bytes.fromhex(s)]: [None] is its [ValueError].  ASCII white space between the bytes is skipped,
    as [fromhex] does. *)
Fixpoint of_hex (s : string) : option string :=
  match s with
  | EmptyString => Some EmptyString
  | String a s' =>
      if is_c_space a then of_hex s'
      else match s' with
           | EmptyString => None
           | String b s'' =>
               match unhex_digit a, unhex_digit b with
               | Some h, Some l => String (ascii_of_N (16 * h + l)) <$> of_hex s''
               | _, _ => None
               end
           end
  end.

Lemma length_to_hex b : String.length (to_hex b) = (2 * String.length b)%nat.
Proof. induction b; simpl in *; lia. Qed.

Lemma of_hex_to_hex b : of_hex (to_hex b) = Some b.
Proof.
  induction b as [|c b IH]; [done|].
  assert (of_hex (to_hex (String c b)) = String c <$> of_hex (to_hex b)) as ->.
  { destruct c as [[] [] [] [] [] [] [] []]; reflexivity. }
  by rewrite IH.
Qed.

#[export] Instance to_hex_inj : Inj (=) (=) to_hex.
Proof. intros a b Heq. apply (inj Some). by rewrite <-!of_hex_to_hex, Heq. Qed.

(** ** [uuid.UUID(s)] *)

(** [s.replace(old, new)] for a non-empty [old]; the text shrinks by [old] at each replacement. *)
Fixpoint replace_fuel (fuel : nat) (old new s : string) : string :=
  match fuel with
  | O => s
  | S f =>
      match s with
      | EmptyString => EmptyString
      | String c s' =>
          if starts_with old s then new +:+ replace_fuel f old new (drop_str (String.length old) s)
          else String c (replace_fuel f old new s')
      end
  end.

Definition replace (old new s : string) : string := replace_fuel (S (String.length s)) old new s.

Fixpoint lstrip_in (cs s : string) : string :=
  match s with
  | String c s' => if char_in c cs then lstrip_in cs s' else s
  | EmptyString => EmptyString
  end.

Fixpoint rstrip_in (cs s : string) : string :=
  match s with
  | EmptyString => EmptyString
  | String c s' =>
      match rstrip_in cs s' with
      | EmptyString => if char_in c cs then EmptyString else String c EmptyString
      | r => String c r
      end
  end.

(** [s.strip(cs)] *)
Definition strip_in (cs s : string) : string := rstrip_in cs (lstrip_in cs s).

(** The digits of [int(s, 16)], with single underscores between them. *)
Fixpoint hex_digits (acc : Z) (s : string) : option Z :=
  match s with
  | EmptyString => None
  | String c s' =>
      match unhex_digit c with
      | None => None
      | Some d =>
          let acc := (acc * 16 + Z.of_N d)%Z in
          match s' with
          | EmptyString => Some acc
          | String u s'' => if ascii_dec u "_"%char then hex_digits acc s'' else hex_digits acc s'
          end
      end
  end.

Definition int16 (s : string) : option Z :=
  let s := strip s in
  let '(neg, s) := match s with
                   | String c s' => if ascii_dec c "-"%char then (true, s')
                                    else if ascii_dec c "+"%char then (false, s') else (false, s)
                   | EmptyString => (false, s)
                   end in
  let s := if starts_with "0x" s || starts_with "0X" s then
             let r := drop_str 2 s in if starts_with "_" r then drop_str 1 r else r
           else s in
  (λ z, if neg : bool then (- z)%Z else z) <$> hex_digits 0 s.

Fixpoint hex_of_Z (n : nat) (z : Z) : string :=
  match n with
  | O => EmptyString
  | S n => hex_of_Z n (z / 16) +:+ String (hex_digit (Z.to_N (z mod 16))) EmptyString
  end.

(** [str(UUID(int=z))] *)
Definition uuid_text (z : Z) : string :=
  let h := hex_of_Z 32 z in
  take_str 8 h +:+ "-" +:+ take_str 4 (drop_str 8 h) +:+ "-" +:+ take_str 4 (drop_str 12 h)
  +:+ "-" +:+ take_str 4 (drop_str 16 h) +:+ "-" +:+ drop_str 20 h.

(** The canonical text of [uuid.UUID(value)]; [None] is its [ValueError]. *)
Definition parse_uuid (value : string) : option string :=
  let hex := replace "-" EmptyString
               (strip_in "{}" (replace "uuid:" EmptyString (replace "urn:" EmptyString value))) in
  if negb (String.length hex =? 32)%nat then None
  else
    match int16 hex with
    | Some z => if (0 <=? z)%Z && (z <? 2 ^ 128)%Z then Some (uuid_text z) else None
    | None => None
    end.

Example parse_uuid_braced :
  parse_uuid "{urn:uuid:00112233-4455-6677-8899-AABBCCDDEEFF}"
  = Some "00112233-4455-6677-8899-aabbccddeeff".
Proof. vm_compute. reflexivity. Qed.

#[export] Hint Rewrite str_app_nil_r str_length_app length_to_hex : auditor_rw.
#[export] Hint Resolve contains_refl contains_app : auditor.

(** ** [sorted] of a set of strings

    [sorted(S)] for a set of strings is the strictly increasing list of its elements; Python
    compares strings by code point, which is the order of their UTF-8 bytes. *)

Fixpoint insert_sorted (x : string) (l : list string) : list string :=
  match l with
  | [] => [x]
  | y :: l' => match String.compare x y with
               | Lt => x :: l
               | Eq => l
               | Gt => y :: insert_sorted x l'
               end
  end.

(** [sorted({x for x in l})] *)
Definition sorted_set (l : list string) : list string := foldr insert_sorted [] l.

Lemma elem_of_insert_sorted x y l : y ∈ insert_sorted x l ↔ y = x ∨ y ∈ l.
Proof.
  induction l as [|z l IH]; simpl; [set_solver|].
  destruct (String.compare x z) eqn:E; rewrite ?elem_of_cons, ?IH; [|set_solver|set_solver].
  apply String.compare_eq_iff in E as ->. set_solver.
Qed.

Lemma elem_of_sorted_set y l : y ∈ sorted_set l ↔ y ∈ l.
Proof.
  induction l as [|x l IH]; simpl; [done|]. rewrite elem_of_insert_sorted, IH. set_solver.
Qed.

Definition str_lt (a b : string) : Prop := String.compare a b = Lt.

Lemma str_compare_refl a : String.compare a a = Eq.
Proof.
  pose proof (String.compare_antisym a a) as H. by destruct (String.compare a a).
Qed.

Lemma str_lt_le a b : str_lt a b ↔ String.le a b ∧ a ≠ b.
Proof.
  unfold str_lt, String.le, String.leb. destruct (String.compare a b) eqn:E; simpl.
  - apply String.compare_eq_iff in E as ->. split; [done|]. by intros [_ ?].
  - split; [|done]. intros _. split; [done|]. intros ->.
    by rewrite str_compare_refl in E.
  - split; [done|]. by intros [[] _].
Qed.

#[export] Instance str_lt_trans : Transitive str_lt.
Proof.
  intros a b c. rewrite !str_lt_le. intros [Hab Hne] [Hbc Hne']. split; [by etrans|].
  intros ->. apply Hne. by apply (anti_symm String.le).
Qed.

Lemma str_lt_irrefl a : ¬ str_lt a a.
Proof. rewrite str_lt_le. by intros [_ ?]. Qed.

Lemma str_gt_lt a b : String.compare a b = Gt → str_lt b a.
Proof. unfold str_lt. intros H. rewrite String.compare_antisym, H. done. Qed.

Lemma insert_sorted_sorted x l :
  StronglySorted str_lt l → StronglySorted str_lt (insert_sorted x l).
Proof.
  induction 1 as [|y l Hl IH Hy]; simpl; [by repeat constructor|].
  destruct (String.compare x y) eqn:E; [by constructor| |].
  - constructor; [by constructor|]. constructor; [done|].
    eapply Forall_impl; [exact Hy|]. intros z Hz. by etrans.
  - constructor; [done|]. rewrite Forall_forall in *. intros z.
    rewrite elem_of_insert_sorted. intros [->|Hz]; [by apply str_gt_lt|by apply Hy].
Qed.

Lemma sorted_set_sorted l : StronglySorted str_lt (sorted_set l).
Proof. induction l; simpl; [constructor|by apply insert_sorted_sorted]. Qed.

Lemma sorted_lt_NoDup l : StronglySorted str_lt l → NoDup l.
Proof.
  induction 1 as [|x l Hl IH Hx]; constructor; [|done].
  rewrite Forall_forall in Hx. intros Hin. by apply (str_lt_irrefl x), Hx.
Qed.

Lemma sorted_set_NoDup l : NoDup (sorted_set l).
Proof. apply sorted_lt_NoDup, sorted_set_sorted. Qed.

(** A strictly increasing list is determined by its members. *)
Lemma sorted_lt_unique l1 l2 :
  StronglySorted str_lt l1 → StronglySorted str_lt l2 → (∀ x, x ∈ l1 ↔ x ∈ l2) → l1 = l2.
Proof.
  intros H1. revert l2. induction H1 as [|x l1 Hl1 IH Hx]; intros l2 H2 Hmem.
  { destruct l2 as [|y l2]; [done|]. specialize (Hmem y). set_solver. }
  destruct H2 as [|y l2 Hl2 Hy].
  { specialize (Hmem x). set_solver. }
  rewrite Forall_forall in Hx, Hy.
  assert (x = y) as <-.
  { destruct (decide (x = y)) as [|Hne]; [done|].
    pose proof (proj1 (Hmem x) ltac:(left)) as Hxin.
    pose proof (proj2 (Hmem y) ltac:(left)) as Hyin.
    apply elem_of_cons in Hxin as [->|Hxin]; [done|].
    apply elem_of_cons in Hyin as [->|Hyin]; [done|].
    exfalso. apply (str_lt_irrefl x). etrans; [by apply Hx|by apply Hy]. }
  f_equal. apply IH; [done|]. intros z. specialize (Hmem z).
  rewrite !elem_of_cons in Hmem. split; intros Hz.
  - destruct (proj1 Hmem (or_intror Hz)) as [->|]; [|done].
    exfalso. by apply (str_lt_irrefl x), Hx.
  - destruct (proj2 Hmem (or_intror Hz)) as [->|]; [|done].
    exfalso. by apply (str_lt_irrefl x), Hy.
Qed.

(** [sorted] of a set does not depend on the order the set was built in. *)
Lemma sorted_set_ext l1 l2 : (∀ x, x ∈ l1 ↔ x ∈ l2) → sorted_set l1 = sorted_set l2.
Proof.
  intros H. apply sorted_lt_unique; auto using sorted_set_sorted.
  intros x. by rewrite !elem_of_sorted_set.
Qed.

#[export] Hint Resolve sorted_set_sorted sorted_set_NoDup : auditor.
#[export] Hint Rewrite elem_of_sorted_set : auditor_rw.
