(* ===== verification/Float64.v ===== *)
(** * Python floats

    A Python [float] is an IEEE-754 binary64 number, here a [spec_float] of the standard library with
    a 53-bit mantissa and exponents below 1024.  Arithmetic is the standard library's correctly
    rounded one, so that the comparisons and thresholds of the code are computed on the same doubles
    as in Python. *)

From Stdlib Require Import ZArith Lia.
From Stdlib Require Import SpecFloat.
From Stdlib Require String.
From stdpp Require Import base tactics option strings numbers.
From S2P Require Import Prelude PyStr.

Definition f64 : Type := spec_float.

#[export] Instance f64_eq_dec : EqDecision f64.
Proof. intros x y. unfold Decision, f64 in *. repeat decide equality. Defined.

Definition f_prec : Z := 53.
Definition f_emax : Z := 1024.

Definition fadd : f64 → f64 → f64 := SFadd f_prec f_emax.
Definition fsub : f64 → f64 → f64 := SFsub f_prec f_emax.
Definition fmul : f64 → f64 → f64 := SFmul f_prec f_emax.
Definition fdiv : f64 → f64 → f64 := SFdiv f_prec f_emax.
Definition fsqrt : f64 → f64 := SFsqrt f_prec f_emax.
Definition fabs : f64 → f64 := SFabs.

(** The comparisons [x < y], [x <= y], [x == y]; all are false when an operand is a NaN. *)
Definition fltb : f64 → f64 → bool := SFltb.
Definition fleb : f64 → f64 → bool := SFleb.
Definition feqb : f64 → f64 → bool := SFeqb.

Definition fzero : f64 := S754_zero false.

(** An integer as an exact unrounded quotient operand. *)
Definition exact (z : Z) : f64 :=
  match z with
  | Z0 => S754_zero false
  | Zpos p => S754_finite false p 0
  | Zneg p => S754_finite true p 0
  end.

(** [float(z)]. *)
Definition of_Z (z : Z) : f64 := binary_normalize f_prec f_emax z 0 false.

(** [a / b] on integers, which Python rounds once; the decimal literal [a·10⁻ᵏ] is [ratio a (10^k)].
    Division by zero raises in Python, and the code's divisions are guarded. *)
Definition ratio (a b : Z) : f64 := SFdiv f_prec f_emax (exact a) (exact b).

(** Truth value of a float: everything but the zeros. *)
Definition ftruthy (x : f64) : bool := match x with S754_zero _ => false | _ => true end.

Definition is_nan (x : f64) : bool := match x with S754_nan => true | _ => false end.

(** Python's two-argument [max] and [min] keep the first argument unless the second is strictly
    better. *)
Definition fmax (a b : f64) : f64 := if fltb a b then b else a.
Definition fmin (a b : f64) : f64 := if fltb b a then b else a.

Definition is_finite (x : f64) : bool :=
  match x with S754_zero _ | S754_finite _ _ _ => true | _ => false end.

(** [sum(xs)] over floats: since Python 3.12 a compensated (Neumaier) sum, started at the integer 0.
    [fsum_loop r c xs] carries the running sum [r] and the compensation [c]. *)
Fixpoint fsum_loop (r c : f64) (xs : list f64) : f64 :=
  match xs with
  | [] => if ftruthy c && is_finite c then fadd r c else r
  | x :: xs' =>
      let t := fadd r x in
      let c' := if fleb (fabs x) (fabs r) then fadd c (fadd (fsub r t) x)
                else fadd c (fadd (fsub x t) r) in
      fsum_loop t c' xs'
  end.

Definition fsum (xs : list f64) : f64 :=
  match xs with
  | [] => fzero
  | x :: xs' => fsum_loop (fadd fzero x) fzero xs'
  end.

(** [⌊·⌉] of [m·2ᵉ·10ᵏ], ties to even, for a non-negative magnitude. *)
Definition scaled_round (m : positive) (e : Z) (k : Z) : Z :=
  if (0 <=? e)%Z then (Zpos m * 2 ^ e * 10 ^ k)%Z
  else
    let d := (2 ^ (- e))%Z in
    let n := (Zpos m * 10 ^ k)%Z in
    let q := (n / d)%Z in
    let r := (n mod d)%Z in
    match (2 * r ?= d)%Z with
    | Lt => q
    | Gt => (q + 1)%Z
    | Eq => if Z.even q then q else (q + 1)%Z
    end.

(** [round(x, k)]: the double nearest to the decimal with [k] digits nearest to [x]. *)
Definition fround (k : Z) (x : f64) : f64 :=
  match x with
  | S754_finite s m e =>
      let r := ratio (scaled_round m e k) (10 ^ k) in
      if s then SFopp r else r
  | _ => x
  end.

(** [int(x)]: truncation toward zero; [None] is the exception [int] raises on an infinity or a NaN. *)
Definition ftrunc (x : f64) : option Z :=
  match x with
  | S754_zero _ => Some 0%Z
  | S754_finite s m e =>
      let n := if (0 <=? e)%Z then (Zpos m * 2 ^ e)%Z else (Zpos m / 2 ^ (- e))%Z in
      Some (if s then (- n)%Z else n)
  | _ => None
  end.

(** Left padding with zeros to width [n]. *)
Definition zpad (n : nat) (s : string) : string :=
  String.concat "" (replicate (n - String.length s) "0") +:+ s.

(** [f"{x:.kf}"] *)
Definition fmt_f (k : nat) (x : f64) : string :=
  match x with
  | S754_nan => "nan"
  | S754_infinity s => if s then "-inf" else "inf"
  | _ =>
      let '(s, n) := match x with
                     | S754_finite s m e => (s, scaled_round m e (Z.of_nat k))
                     | S754_zero s => (s, 0%Z)
                     | _ => (false, 0%Z)
                     end in
      let digits := zpad (S k) (dec n) in
      let cut := (String.length digits - k)%nat in
      (if (s : bool) then "-" else "") +:+ take_str cut digits +:+
      (match k with O => "" | _ => "." +:+ drop_str cut digits end)
  end.

(** [f"{x:.k%}"] *)
Definition fmt_pct (k : nat) (x : f64) : string := fmt_f k (fmul x (of_Z 100)) +:+ "%".

(** ** Order *)

Lemma fcompare_antisym (x y : f64) : SFcompare y x = CompOpp <$> SFcompare x y.
Proof.
  destruct x as [[]|[]| |[] m e], y as [[]|[]| |[] n f]; simpl; try done;
    rewrite (Z.compare_antisym e f); destruct (e ?= f)%Z; simpl; try done;
    change (Pos.compare_cont Eq n m) with (n ?= m)%positive;
    change (Pos.compare_cont Eq m n) with (m ?= n)%positive;
    rewrite (Pos.compare_antisym m n); by destruct (m ?= n)%positive.
Qed.

Lemma fltb_asym x y : fltb x y = true → fltb y x = false.
Proof.
  unfold fltb, SFltb. rewrite (fcompare_antisym x y).
  by destruct (SFcompare x y) as [[]|].
Qed.

Lemma fltb_irrefl x : fltb x x = false.
Proof. destruct (fltb x x) eqn:E; [|done]. by rewrite (fltb_asym x x E) in E. Qed.

(** On numbers, [<=] is the negation of [>]. *)
Lemma fleb_negb_fltb x y :
  is_nan x = false → is_nan y = false → fleb x y = negb (fltb y x).
Proof.
  intros Hx Hy. unfold fleb, fltb, SFleb, SFltb. rewrite (fcompare_antisym x y).
  assert (SFcompare x y ≠ None) as Hn.
  { destruct x as [[]|[]| |[] ? ?], y as [[]|[]| |[] ? ?]; done. }
  by destruct (SFcompare x y) as [[]|].
Qed.

Lemma fltb_fleb x y : fltb x y = true → fleb x y = true.
Proof. unfold fltb, fleb, SFltb, SFleb. by destruct (SFcompare x y) as [[]|]. Qed.

(** The order of doubles is the lexicographic order of this key. *)
Definition fkey (x : f64) : Z * Z * Z :=
  match x with
  | S754_infinity true => (-2, 0, 0)%Z
  | S754_finite true m e => (-1, - e, - Zpos m)%Z
  | S754_zero _ => (0, 0, 0)%Z
  | S754_finite false m e => (1, e, Zpos m)%Z
  | S754_infinity false => (2, 0, 0)%Z
  | S754_nan => (3, 0, 0)%Z
  end.

Definition key_lt (a b : Z * Z * Z) : Prop :=
  let '(a1, a2, a3) := a in
  let '(b1, b2, b3) := b in
  (a1 < b1 ∨ (a1 = b1 ∧ (a2 < b2 ∨ (a2 = b2 ∧ a3 < b3))))%Z.

Lemma fltb_key x y :
  fltb x y = true ↔ is_nan x = false ∧ is_nan y = false ∧ key_lt (fkey x) (fkey y).
Proof.
  unfold fltb, SFltb.
  destruct x as [[]|[]| |[] m e], y as [[]|[]| |[] n f]; simpl;
    try (split; [done|]; intros (?&?&?); first [done|lia]);
    try (split; [intros _; split_and!; [done|done|lia]|done]);
    destruct (Z.compare_spec e f); simpl;
    try (split; [done|]; intros (?&?&?); lia);
    try (split; [intros _; split_and!; [done|done|lia]|done]);
    change (Pos.compare_cont Eq m n) with (m ?= n)%positive;
    destruct (Pos.compare_spec m n); simpl; subst;
    try (split; [done|]; intros (?&?&?); lia);
    try (split; [intros _; split_and!; [done|done|lia]|done]).
Qed.

Lemma fltb_trans x y z : fltb x y = true → fltb y z = true → fltb x z = true.
Proof.
  rewrite !fltb_key. intros (Hx & _ & H1) (_ & Hz & H2). split_and!; [done|done|].
  destruct (fkey x) as [[x1 x2] x3], (fkey y) as [[y1 y2] y3], (fkey z) as [[z1 z2] z3].
  unfold key_lt in *. lia.
Qed.

Lemma fleb_refl x : is_nan x = false → fleb x x = true.
Proof. intros H. by rewrite fleb_negb_fltb, fltb_irrefl. Qed.

Lemma fleb_is_nan x y : fleb x y = true → is_nan x = false ∧ is_nan y = false.
Proof. by destruct x as [[]|[]| |[] ? ?], y as [[]|[]| |[] ? ?]. Qed.

Lemma fleb_trans x y z : fleb x y = true → fleb y z = true → fleb x z = true.
Proof.
  intros H1 H2. pose proof (fleb_is_nan _ _ H1) as [Hx Hy].
  pose proof (fleb_is_nan _ _ H2) as [_ Hz].
  rewrite fleb_negb_fltb in H1, H2 |- * by done. apply negb_true_iff in H1, H2.
  apply negb_true_iff, not_true_is_false. intros H3. apply not_true_iff_false in H1, H2.
  rewrite fltb_key in H1, H2, H3. destruct H3 as (_ & _ & H3).
  destruct (fkey x) as [[x1 x2] x3], (fkey y) as [[y1 y2] y3], (fkey z) as [[z1 z2] z3].
  unfold key_lt in *. destruct (decide (y1 < x1 ∨ (y1 = x1 ∧ (y2 < x2 ∨ (y2 = x2 ∧ y3 < x3))))%Z).
  - by apply H1.
  - apply H2. split_and!; [done|done|lia].
Qed.

Lemma fmax_ub_l a b : is_nan a = false → is_nan b = false → fleb a (fmax a b) = true.
Proof.
  intros Ha Hb. unfold fmax. destruct (fltb a b) eqn:E; [by apply fltb_fleb|by apply fleb_refl].
Qed.

Lemma fmax_ub_r a b : is_nan a = false → is_nan b = false → fleb b (fmax a b) = true.
Proof.
  intros Ha Hb. unfold fmax. destruct (fltb a b) eqn:E; [by apply fleb_refl|].
  rewrite fleb_negb_fltb by done. by rewrite E.
Qed.

Lemma fmax_cases a b : fmax a b = a ∨ fmax a b = b.
Proof. unfold fmax. destruct (fltb a b); auto. Qed.

#[export] Hint Resolve fltb_fleb fleb_refl fleb_trans : auditor.
