(* ===== verification/Regex.v ===== *)
(** * Regular expressions of the [re] module

    The patterns of the source are kept as the texts the source has: [re_parse] reads the part of the
    syntax they use, [re_search] and [re_sub] are [pattern.search] and [pattern.sub] by backtracking in
    the order of Python's engine (leftmost, greedy or lazy as written).  [den] is the language of an
    expression, and [mt_den] shows that the engine finds a match exactly when there is one. *)

From Stdlib Require Import NArith ZArith Lia Ascii.
From Stdlib Require String.
From stdpp Require Import base tactics option list strings.
From S2P Require Import Prelude PyStr.

(** ** Characters *)

Inductive citem :=
| Range (lo hi : nat)
| Space
| Digit
| Word.

(** A set of characters, as a bracket expression or a class; [CDot] is [.]. *)
Inductive cset :=
| CSet (negated : bool) (items : list citem)
| CDot.

Definition is_digit_char (c : ascii) : bool :=
  let n := nat_of_ascii c in (48 <=? n)%nat && (n <=? 57)%nat.

(** [c.isalnum() or c == "_"], up to U+00FF. *)
Definition is_word (c : ascii) : bool :=
  let n := nat_of_ascii c in
  is_digit_char c || ((65 <=? n)%nat && (n <=? 90)%nat) || ((97 <=? n)%nat && (n <=? 122)%nat)
  || (n =? 95)%nat
  || bool_decide (n ∈ [170; 178; 179; 181; 185; 186; 188; 189; 190]%nat)
  || ((192 <=? n)%nat && negb (n =? 215)%nat && negb (n =? 247)%nat).

Definition in_item (c : ascii) (i : citem) : bool :=
  match i with
  | Range lo hi => (lo <=? nat_of_ascii c)%nat && (nat_of_ascii c <=? hi)%nat
  | Space => is_space c
  | Digit => is_digit_char c
  | Word => is_word c
  end.

(** The two flags the source passes. *)
Record flags := { IGNORECASE : bool; DOTALL : bool }.

Definition in_cset (fl : flags) (cs : cset) (c : ascii) : bool :=
  match cs with
  | CDot => DOTALL fl || negb (nat_of_ascii c =? 10)%nat
  | CSet neg items =>
      let has x := existsb (in_item x) items in
      xorb neg (has c || (IGNORECASE fl && (has (ascii_lower c) || has (ascii_upper c))))
  end.

(** ** Expressions *)

Inductive regex :=
| REps
| RChr (cs : cset)
| RCat (a b : regex)
| RAlt (a b : regex)
| RStar (greedy : bool) (a : regex)
| ROpt (greedy : bool) (a : regex)
| RBound
| RNotBehind (cs : cset)
| RNotAhead (cs : cset).

(** [a{m,n}] and [a{m,}] *)
Fixpoint rcopies (m : nat) (a b : regex) : regex :=
  match m with O => b | S m' => RCat a (rcopies m' a b) end.

Fixpoint ropts (greedy : bool) (n : nat) (a : regex) : regex :=
  match n with O => REps | S n' => ROpt greedy (RCat a (ropts greedy n' a)) end.

Definition rrep (greedy : bool) (m : nat) (n : option nat) (a : regex) : regex :=
  rcopies m a (match n with Some n => ropts greedy (n - m) a | None => RStar greedy a end).

(** ** Syntax *)

Definition ch (c : ascii) : citem := Range (nat_of_ascii c) (nat_of_ascii c).

Definition esc_item (c : ascii) : citem :=
  if ascii_dec c "s" then Space
  else if ascii_dec c "d" then Digit
  else if ascii_dec c "w" then Word
  else if ascii_dec c "n" then Range 10 10
  else ch c.

Definition backslash_char : ascii := ascii_of_nat 92.

(** The items of a bracket expression, up to the closing bracket. *)
Fixpoint p_items (fuel : nat) (s : string) : option (list citem * string) :=
  match fuel with
  | O => None
  | S fuel' =>
      match s with
      | EmptyString => None
      | String c s1 =>
          if ascii_dec c "]" then Some ([], s1)
          else
            let '(item, is_esc, s2) :=
              if ascii_dec c backslash_char then
                match s1 with String e s2 => (esc_item e, true, s2) | EmptyString => (ch c, true, s1) end
              else (ch c, false, s1) in
            match is_esc, s2 with
            | false, String d (String e s3) =>
                if ascii_dec d "-" then
                  if ascii_dec e "]" then
                    '(l, r) ← p_items fuel' s2; Some (item :: l, r)
                  else '(l, r) ← p_items fuel' s3; Some (Range (nat_of_ascii c) (nat_of_ascii e) :: l, r)
                else '(l, r) ← p_items fuel' s2; Some (item :: l, r)
            | _, _ => '(l, r) ← p_items fuel' s2; Some (item :: l, r)
            end
      end
  end.

Fixpoint p_number (s : string) (acc : option nat) : option nat * string :=
  match s with
  | String c s' =>
      if is_digit_char c then p_number s' (Some (10 * default 0 acc + (nat_of_ascii c - 48)))%nat
      else (acc, s)
  | EmptyString => (acc, s)
  end.

(** A trailing [?] makes the quantifier lazy. *)
Definition p_lazy (s : string) : bool * string :=
  match s with
  | String c s' => if ascii_dec c "?" then (false, s') else (true, s)
  | EmptyString => (true, s)
  end.

Definition p_quant (a : regex) (s : string) : regex * string :=
  match s with
  | EmptyString => (a, s)
  | String c s1 =>
      if ascii_dec c "*" then let '(g, r) := p_lazy s1 in (RStar g a, r)
      else if ascii_dec c "+" then let '(g, r) := p_lazy s1 in (RCat a (RStar g a), r)
      else if ascii_dec c "?" then let '(g, r) := p_lazy s1 in (ROpt g a, r)
      else if ascii_dec c "{" then
        let '(m, s2) := p_number s1 None in
        match m, s2 with
        | Some m, String d s3 =>
            if ascii_dec d "}" then let '(g, r) := p_lazy s3 in (rrep g m (Some m) a, r)
            else if ascii_dec d "," then
              let '(n, s4) := p_number s3 None in
              match s4 with
              | String e s5 => if ascii_dec e "}" then let '(g, r) := p_lazy s5 in (rrep g m n a, r)
                               else (a, s)
              | EmptyString => (a, s)
              end
            else (a, s)
        | _, _ => (a, s)
        end
      else (a, s)
  end.

Fixpoint p_alt (fuel : nat) (s : string) : option (regex * string) :=
  match fuel with
  | O => None
  | S fuel' =>
      '(a, r) ← p_cat fuel' s;
      match r with
      | String c r' => if ascii_dec c "|" then '(b, r2) ← p_alt fuel' r'; Some (RAlt a b, r2)
                       else Some (a, r)
      | EmptyString => Some (a, r)
      end
  end
with p_cat (fuel : nat) (s : string) : option (regex * string) :=
  match fuel with
  | O => None
  | S fuel' =>
      match s with
      | EmptyString => Some (REps, s)
      | String c _ =>
          if bool_decide (c ∈ ["|"; ")"]%char) then Some (REps, s)
          else '(a, r) ← p_atom fuel' s;
               let '(q, r2) := p_quant a r in
               '(b, r3) ← p_cat fuel' r2; Some (RCat q b, r3)
      end
  end
with p_atom (fuel : nat) (s : string) : option (regex * string) :=
  match fuel with
  | O => None
  | S fuel' =>
      let close r := match r with
                     | String c r' => if ascii_dec c ")" then Some r' else None
                     | EmptyString => None
                     end in
      match s with
      | EmptyString => None
      | String c s1 =>
          if ascii_dec c "(" then
            if starts_with "?:" s1 then
              '(a, r) ← p_alt fuel' (drop_str 2 s1); r' ← close r; Some (a, r')
            else if starts_with "?<!" s1 then
              '(a, r) ← p_atom fuel' (drop_str 3 s1); r' ← close r;
              match a with RChr cs => Some (RNotBehind cs, r') | _ => None end
            else if starts_with "?!" s1 then
              '(a, r) ← p_atom fuel' (drop_str 2 s1); r' ← close r;
              match a with RChr cs => Some (RNotAhead cs, r') | _ => None end
            else '(a, r) ← p_alt fuel' s1; r' ← close r; Some (a, r')
          else if ascii_dec c "[" then
            match s1 with
            | String d s2 =>
                let '(neg, s3) := if ascii_dec d "^" then (true, s2) else (false, s1) in
                '(l, r) ← p_items fuel' s3; Some (RChr (CSet neg l), r)
            | EmptyString => None
            end
          else if ascii_dec c "." then Some (RChr CDot, s1)
          else if ascii_dec c backslash_char then
            match s1 with
            | String e s2 => if ascii_dec e "b" then Some (RBound, s2)
                             else Some (RChr (CSet false [esc_item e]), s2)
            | EmptyString => None
            end
          else Some (RChr (CSet false [ch c]), s1)
      end
  end.

(** A compiled pattern: the text, its flags and its expression ([(?i)] in front sets the flag). *)
Record Pattern := { pattern : string; p_flags : flags; p_regex : option regex }.

Definition re_parse (s : string) : option regex :=
  '(a, r) ← p_alt (3 * String.length s + 3) s;
  match r with EmptyString => Some a | _ => None end.

Definition re_compile (fl : flags) (s : string) : Pattern :=
  if starts_with "(?i)" s then
    {| pattern := s; p_flags := {| IGNORECASE := true; DOTALL := DOTALL fl |};
       p_regex := re_parse (drop_str 4 s) |}
  else {| pattern := s; p_flags := fl; p_regex := re_parse s |}.

Definition no_flags : flags := {| IGNORECASE := false; DOTALL := false |}.
Definition icase : flags := {| IGNORECASE := true; DOTALL := false |}.
Definition icase_dotall : flags := {| IGNORECASE := true; DOTALL := true |}.

(** ** Matching *)

(** The character before and after a position. *)
Definition at_bound (prev : option ascii) (s : string) : bool :=
  let w o := match o with Some c => is_word c | None => false end in
  xorb (w prev) (w (match s with String c _ => Some c | EmptyString => None end)).

Section matching.
Context (fl : flags).

(** [mt r prev s k]: the first way, in the engine's order, to match [r] at the start of [s] for which
    [k], given what is left, succeeds.  An iteration that consumes nothing ends a loop. *)
Fixpoint mt {R} (r : regex) (prev : option ascii) (s : string)
    (k : option ascii → string → option R) : option R :=
  match r with
  | REps => k prev s
  | RChr cs => match s with
               | String c s' => if in_cset fl cs c then k (Some c) s' else None
               | EmptyString => None
               end
  | RCat a b => mt a prev s (λ p' s', mt b p' s' k)
  | RAlt a b => match mt a prev s k with Some x => Some x | None => mt b prev s k end
  | ROpt g a =>
      if g then match mt a prev s k with Some x => Some x | None => k prev s end
      else match k prev s with Some x => Some x | None => mt a prev s k end
  | RStar g a =>
      (fix loop (n : nat) (prev : option ascii) (s : string) : option R :=
         let again := match n with
                      | O => None
                      | S n' => mt a prev s (λ p' s', if (String.length s' <? String.length s)%nat
                                                      then loop n' p' s' else None)
                      end in
         if g then match again with Some x => Some x | None => k prev s end
         else match k prev s with Some x => Some x | None => again end)
        (String.length s) prev s
  | RBound => if at_bound prev s then k prev s else None
  | RNotBehind cs => match prev with
                     | Some c => if in_cset fl cs c then None else k prev s
                     | None => k prev s
                     end
  | RNotAhead cs => match s with
                    | String c _ => if in_cset fl cs c then None else k prev s
                    | EmptyString => k prev s
                    end
  end.

(** The first position with a match, and what is left after it. *)
Fixpoint find_match (r : regex) (prev : option ascii) (s : string)
    : option (string * option ascii * string) :=
  match mt r prev s (λ p' s', Some (p', s')) with
  | Some (p', s') => Some ("", p', s')
  | None => match s with
            | String c s' => '(before, p', rest) ← find_match r (Some c) s';
                             Some (String c before, p', rest)
            | EmptyString => None
            end
  end.

(** Replacing every match; a match is assumed to consume something. *)
Fixpoint sub_loop (fuel : nat) (r : regex) (tag : string) (prev : option ascii) (s : string) : string :=
  match fuel with
  | O => s
  | S fuel' =>
      match find_match r prev s with
      | Some (before, p', rest) =>
          if (String.length rest <? String.length s)%nat
          then before +:+ tag +:+ sub_loop fuel' r tag p' rest
          else s
      | None => s
      end
  end.
End matching.

(** [pattern.search(s) is not None] *)
Definition re_search (p : Pattern) (s : string) : bool :=
  match p_regex p with
  | Some r => bool_decide (is_Some (find_match (p_flags p) r None s))
  | None => false
  end.

(** [pattern.sub(tag, s)] *)
Definition re_sub (p : Pattern) (tag s : string) : string :=
  match p_regex p with
  | Some r => sub_loop (p_flags p) (S (String.length s)) r tag None s
  | None => s
  end.

(** ** The language of an expression *)

Section language.
Context (fl : flags).

(** [den r p s p' s']: at a position after [p] with [s] left, [r] can match so as to leave [s'], the
    character before being [p']. *)
Inductive den : regex → option ascii → string → option ascii → string → Prop :=
| den_eps p s : den REps p s p s
| den_chr cs p c s : in_cset fl cs c = true → den (RChr cs) p (String c s) (Some c) s
| den_cat a b p s p1 s1 p2 s2 : den a p s p1 s1 → den b p1 s1 p2 s2 → den (RCat a b) p s p2 s2
| den_alt_l a b p s p' s' : den a p s p' s' → den (RAlt a b) p s p' s'
| den_alt_r a b p s p' s' : den b p s p' s' → den (RAlt a b) p s p' s'
| den_opt_none g a p s : den (ROpt g a) p s p s
| den_opt_some g a p s p' s' : den a p s p' s' → den (ROpt g a) p s p' s'
| den_star_nil g a p s : den (RStar g a) p s p s
| den_star_cons g a p s p1 s1 p2 s2 :
    den a p s p1 s1 → den (RStar g a) p1 s1 p2 s2 → den (RStar g a) p s p2 s2
| den_bound p s : at_bound p s = true → den RBound p s p s
| den_not_behind cs p s :
    match p with Some c => in_cset fl cs c = false | None => True end → den (RNotBehind cs) p s p s
| den_not_ahead cs p s :
    match s with String c _ => in_cset fl cs c = false | EmptyString => True end →
    den (RNotAhead cs) p s p s.

(** A match consumes, or changes nothing. *)
Lemma den_consumes r p s p' s' :
  den r p s p' s' → (String.length s' < String.length s)%nat ∨ (p' = p ∧ s' = s).
Proof.
  induction 1; try (by right); try done.
  - left. simpl. lia.
  - naive_solver lia.
  - naive_solver lia.
Qed.

Definition matched {R} (r : regex) (p : option ascii) (s : string) (k : option ascii → string → option R) : Prop :=
  ∃ p' s', den r p s p' s' ∧ is_Some (k p' s').

Lemma is_Some_or {R} (x y : option R) :
  is_Some (match x with Some v => Some v | None => y end) ↔ is_Some x ∨ is_Some y.
Proof. destruct x; simpl; unfold is_Some; naive_solver. Qed.

(** A loop accepts at once or after an iteration that consumes. *)
Lemma star_cases g a p s (P : option ascii → string → Prop) :
  (∃ p' s', den (RStar g a) p s p' s' ∧ P p' s') ↔
  P p s ∨ ∃ p1 s1, den a p s p1 s1 ∧ (String.length s1 < String.length s)%nat ∧
                   ∃ p' s', den (RStar g a) p1 s1 p' s' ∧ P p' s'.
Proof.
  split.
  - intros (p' & s' & Hd & HP). remember (RStar g a) as r eqn:Er.
    induction Hd; simplify_eq; [by left|].
    destruct (den_consumes _ _ _ _ _ Hd1) as [Hlt|[-> ->]]; [|by apply IHHd2]. right. eauto 10.
  - intros [HP|(p1 & s1 & Hd & _ & p' & s' & Hd' & HP)]; [exists p, s; by split; [constructor|]|].
    exists p', s'. split; [by econstructor|done].
Qed.

(** The engine finds a match exactly when there is one that the continuation accepts. *)
Lemma mt_den r : ∀ R p s (k : option ascii → string → option R), is_Some (mt fl r p s k) ↔ matched r p s k.
Proof.
  unfold matched.
  induction r as [|cs|a IHa b IHb|a IHa b IHb|g a IHa|g a IHa| |cs|cs]; intros R p s k; cbn [mt].
  - split; [intros ?; exists p, s; by split; [constructor|]|].
    intros (p' & s' & Hd & Hk). by inversion Hd; subst.
  - split.
    + destruct s as [|c s]; [by intros [? ?]|]. destruct (in_cset fl cs c) eqn:E; [|by intros [? ?]].
      intros Hk. exists (Some c), s. by split; [constructor|].
    + intros (p' & s' & Hd & Hk). inversion Hd as [|? ? ? ? Hc| | | | | | | | | |]; subst. by rewrite Hc.
  - rewrite IHa. setoid_rewrite IHb. split.
    + intros (p1 & s1 & H1 & p2 & s2 & H2 & Hk). exists p2, s2. split; [by econstructor|done].
    + intros (p2 & s2 & Hd & Hk). inversion Hd; subst. eauto 10.
  - rewrite is_Some_or, IHa, IHb. split.
    + intros [(p' & s' & Hd & Hk)|(p' & s' & Hd & Hk)]; exists p', s'; split; eauto using den.
    + intros (p' & s' & Hd & Hk). inversion Hd; subst; eauto 10.
  - set (loop := fix loop (n : nat) (prev : option ascii) (s0 : string) : option R := _).
    assert (∀ n p s, (String.length s ≤ n)%nat →
              is_Some (loop n p s) ↔ ∃ p' s', den (RStar g a) p s p' s' ∧ is_Some (k p' s')) as H;
      [|by apply H].
    clear p s. induction n as [|n IHn]; intros p s Hn; rewrite (star_cases g a p s (λ p s, is_Some (k p s))).
    + assert (is_Some (loop 0%nat p s) ↔ is_Some (k p s)) as ->.
      { simpl. destruct g; [done|]. by destruct (k p s). }
      split; [by left|]. intros [?|(? & ? & ? & ? & _)]; [done|lia].
    + cbn [loop]. fold loop. set (again := mt fl a p s _).
      assert (is_Some again ↔ ∃ p1 s1, den a p s p1 s1 ∧ (String.length s1 < String.length s)%nat ∧
               ∃ p' s', den (RStar g a) p1 s1 p' s' ∧ is_Some (k p' s')) as Hag.
      { unfold again. rewrite IHa. split.
        - intros (p1 & s1 & Hd & Hk). destruct (_ <? _)%nat eqn:El; [|by destruct Hk].
          apply Nat.ltb_lt in El. exists p1, s1. split_and!; [done..|]. apply IHn; [lia|done].
        - intros (p1 & s1 & Hd & El & Hk). exists p1, s1. split; [done|].
          rewrite (proj2 (Nat.ltb_lt _ _) El). apply IHn; [lia|done]. }
      destruct g; rewrite is_Some_or, Hag; tauto.
  - destruct g; rewrite is_Some_or, IHa; (split; [|intros (p' & s' & Hd & Hk); inversion Hd; subst; eauto 10]).
    + intros [(p' & s' & Hd & Hk)|Hk]; [exists p', s'|exists p, s]; split; eauto using den.
    + intros [Hk|(p' & s' & Hd & Hk)]; [exists p, s|exists p', s']; split; eauto using den.
  - destruct (at_bound p s) eqn:E; split; try (by intros [? ?]).
    + intros Hk. exists p, s. by split; [constructor|].
    + intros (p' & s' & Hd & Hk). by inversion Hd; subst.
    + intros (p' & s' & Hd & Hk). inversion Hd; subst. congruence.
  - split.
    + destruct p as [c|]; [destruct (in_cset fl cs c) eqn:E; [by intros [? ?]|]|];
        intros Hk; eexists _, s; (split; [by constructor|done]).
    + intros (p' & s' & Hd & Hk). inversion Hd; subst. destruct p' as [c|]; [|done].
      by match goal with H : in_cset _ _ _ = _ |- _ => rewrite H end.
  - split.
    + destruct s as [|c s]; [|destruct (in_cset fl cs c) eqn:E; [by intros [? ?]|]];
        intros Hk; exists p; eexists; (split; [by constructor|done]).
    + intros (p' & s' & Hd & Hk). inversion Hd; subst. destruct s' as [|c s']; [done|].
      by match goal with H : in_cset _ _ _ = _ |- _ => rewrite H end.
Qed.

(** The character before the position reached by reading [a] after [p]. *)
Fixpoint after (p : option ascii) (a : string) : option ascii :=
  match a with EmptyString => p | String c a' => after (Some c) a' end.

Lemma find_match_den r p s :
  is_Some (find_match fl r p s) ↔
  ∃ a b, s = a +:+ b ∧ ∃ p' s', den r (after p a) b p' s'.
Proof.
  assert (∀ p s, is_Some (mt fl r p s (λ p' s', Some (p', s'))) ↔ ∃ p' s', den r p s p' s') as Hm.
  { intros p0 s0. rewrite mt_den. unfold matched. split; [naive_solver|].
    intros (p' & s' & Hd). exists p', s'. split; [done|by eexists]. }
  revert p. induction s as [|c s IH]; intros p; cbn [find_match].
  - specialize (Hm p ""). destruct (mt _ _ _ _ _) as [[p' s']|].
    + split; [|by eexists]. intros _. exists "", "". split; [done|]. apply Hm. by eexists.
    + split; [by intros [? ?]|]. intros ([|] & b & Heq & Hd); [|done]. simpl in Heq. subst b.
      apply Hm in Hd. by destruct Hd.
  - specialize (Hm p (String c s)). specialize (IH (Some c)). destruct (mt _ _ _ _ _) as [[p' s']|].
    + split; [|by eexists]. intros _. exists "", (String c s). split; [done|]. apply Hm. by eexists.
    + transitivity (is_Some (find_match fl r (Some c) s)).
      { destruct (find_match fl r (Some c) s) as [[[? ?] ?]|]; simpl; split; by intros [? ?]. }
      rewrite IH. split.
      * intros (a & b & -> & Hd). by exists (String c a), b.
      * intros ([|d a] & b & Heq & Hd); simpl in Heq.
        { subst b. apply Hm in Hd. by destruct Hd. }
        injection Heq as <- ->. by exists a, b.
Qed.
End language.

(** Some part of the text is in the language of the pattern. *)
Definition occurs (p : Pattern) (s : string) : Prop :=
  ∃ r a b p' s', p_regex p = Some r ∧ s = a +:+ b ∧ den (p_flags p) r (after None a) b p' s'.

Lemma re_search_occurs p s : re_search p s = true ↔ occurs p s.
Proof.
  unfold re_search, occurs. destruct (p_regex p) as [r|] eqn:E.
  - rewrite bool_decide_eq_true, find_match_den. split.
    + intros (a & b & -> & p' & s' & Hd). by exists r, a, b, p', s'.
    + intros (r' & a & b & p' & s' & [= <-] & -> & Hd). eauto 10.
  - split; [done|]. by intros (r & ? & ? & ? & ? & [=] & _).
Qed.

(** ** Words and substitution *)

Section substitution.
Context (fl : flags).

(** A successful match leaves what the language says. *)
Lemma mt_sound r : ∀ R p s (k : option ascii → string → option R) x,
  mt fl r p s k = Some x → ∃ p' s', den fl r p s p' s' ∧ k p' s' = Some x.
Proof.
  induction r as [|cs|a IHa b IHb|a IHa b IHb|g a IHa|g a IHa| |cs|cs]; intros R p s k x; cbn [mt].
  - eauto using den.
  - destruct s as [|c s]; [done|]. destruct (in_cset fl cs c) eqn:E; [|done]. eauto using den.
  - intros (p1 & s1 & H1 & (p2 & s2 & H2 & Hk)%IHb)%IHa. eauto using den.
  - destruct (mt fl a p s k) as [y|] eqn:Ea.
    + intros [= <-]. apply IHa in Ea as (p1 & s1 & ? & ?). eauto using den.
    + intros (p1 & s1 & ? & ?)%IHb. eauto using den.
  - set (loop := fix loop (n : nat) (prev : option ascii) (s0 : string) : option R := _).
    generalize (String.length s) as n. intros n. revert p s. induction n as [|n IHn]; intros p s; cbn [loop].
    + destruct g; intros Hk; [|destruct (k p s) eqn:Ek; [injection Hk as <-|done]]; eauto using den.
    + fold loop. set (again := mt fl a p s _).
      assert (again = Some x → ∃ p' s', den fl (RStar g a) p s p' s' ∧ k p' s' = Some x) as Hag.
      { intros (p1 & s1 & H1 & Hk)%IHa. destruct (_ <? _)%nat; [|done].
        apply IHn in Hk as (p2 & s2 & H2 & Hk). eauto using den. }
      destruct g.
      * destruct again as [y|]; [intros [= <-]; by apply Hag|]. eauto using den.
      * destruct (k p s) as [y|] eqn:Ek; [intros [= <-]; eauto using den|apply Hag].
  - destruct g.
    + destruct (mt fl a p s k) as [y|] eqn:Ea; [|eauto using den].
      intros [= <-]. apply IHa in Ea as (p1 & s1 & ? & ?). eauto using den.
    + destruct (k p s) as [y|] eqn:Ek; [intros [= <-]; eauto using den|].
      intros (p1 & s1 & ? & ?)%IHa. eauto using den.
  - destruct (at_bound p s) eqn:E; [|done]. eauto using den.
  - destruct p as [c|]; [destruct (in_cset fl cs c) eqn:E; [done|]|]; eauto using den.
  - destruct s as [|c s]; [|destruct (in_cset fl cs c) eqn:E; [done|]]; intros; do 2 eexists; (split; [by constructor|done]).
Qed.

(** Expressions without assertions denote sets of words. *)
Fixpoint plain_regex (r : regex) : bool :=
  match r with
  | REps | RChr _ => true
  | RCat a b | RAlt a b => plain_regex a && plain_regex b
  | RStar _ a | ROpt _ a => plain_regex a
  | RBound | RNotBehind _ | RNotAhead _ => false
  end.

(** No word contains [d]. *)
Fixpoint avoids (d : ascii) (r : regex) : bool :=
  match r with
  | RChr cs => negb (in_cset fl cs d)
  | RCat a b | RAlt a b => avoids d a && avoids d b
  | RStar _ a | ROpt _ a => avoids d a
  | _ => true
  end.

(** Every word has a character. *)
Fixpoint consumes (r : regex) : bool :=
  match r with
  | RChr _ => true
  | RCat a b => consumes a || consumes b
  | RAlt a b => consumes a && consumes b
  | _ => false
  end.

Definition word (r : regex) (w : string) : Prop := ∀ p t, den fl r p (w +:+ t) (after p w) t.

Lemma after_app p a b : after p (a +:+ b) = after (after p a) b.
Proof. revert p. induction a as [|c a IH]; intros p; [done|]. apply IH. Qed.

Lemma den_suffix r p s p' s' : den fl r p s p' s' → ∃ w, s = w +:+ s' ∧ p' = after p w.
Proof.
  induction 1; try (by exists ""); try done.
  - by exists (String c "").
  - destruct IHden1 as (w1 & -> & ->), IHden2 as (w2 & -> & ->). exists (w1 +:+ w2).
    by rewrite after_app, <-str_app_assoc.
  - destruct IHden1 as (w1 & -> & ->), IHden2 as (w2 & -> & ->). exists (w1 +:+ w2).
    by rewrite after_app, <-str_app_assoc.
Qed.

Lemma den_word r p s p' s' :
  plain_regex r = true → den fl r p s p' s' → ∃ w, s = w +:+ s' ∧ word r w.
Proof.
  intros Hr Hd. induction Hd; simpl in Hr; rewrite ?andb_true_iff in Hr; try done.
  - exists "". split; [done|]. intros q u. constructor.
  - exists (String c ""). split; [done|]. intros q u. by constructor.
  - destruct IHHd1 as (w1 & -> & H1); [tauto|]. destruct IHHd2 as (w2 & -> & H2); [tauto|].
    exists (w1 +:+ w2). split; [by rewrite str_app_assoc|].
    intros q u. rewrite after_app, <-str_app_assoc. econstructor; [apply H1|apply H2].
  - destruct IHHd as (w & -> & H); [tauto|]. exists w. split; [done|]. intros q u. by apply den_alt_l.
  - destruct IHHd as (w & -> & H); [tauto|]. exists w. split; [done|]. intros q u. by apply den_alt_r.
  - exists "". split; [done|]. intros q u. constructor.
  - destruct IHHd as (w & -> & H); [tauto|]. exists w. split; [done|]. intros q u. by apply den_opt_some.
  - exists "". split; [done|]. intros q u. constructor.
  - destruct IHHd1 as (w1 & -> & H1); [tauto|]. destruct IHHd2 as (w2 & -> & H2); [done|].
    exists (w1 +:+ w2). split; [by rewrite str_app_assoc|].
    intros q u. rewrite after_app, <-str_app_assoc. econstructor; [apply H1|apply H2].
Qed.
Lemma den_avoids d r p s p' s' :
  avoids d r = true → den fl r p s p' s' → ∃ w, s = w +:+ s' ∧ char_in d w = false.
Proof.
  intros Hr Hd. induction Hd; simpl in Hr; rewrite ?andb_true_iff in Hr; try (by exists ""); try tauto.
  - exists (String c ""). split; [done|]. rewrite char_in_cons, orb_false_iff. split; [|done].
    apply bool_decide_eq_false. intros ->. apply negb_true_iff in Hr. congruence.
  - destruct IHHd1 as (w1 & -> & H1); [tauto|]. destruct IHHd2 as (w2 & -> & H2); [tauto|].
    exists (w1 +:+ w2). by rewrite str_app_assoc, char_in_app, H1, H2.
  - destruct IHHd1 as (w1 & -> & H1); [tauto|]. destruct IHHd2 as (w2 & -> & H2); [done|].
    exists (w1 +:+ w2). by rewrite str_app_assoc, char_in_app, H1, H2.
Qed.

Lemma den_shortens r p s p' s' :
  consumes r = true → den fl r p s p' s' → (String.length s' < String.length s)%nat.
Proof.
  intros Hr Hd.
  induction Hd; simpl in *; rewrite ?andb_true_iff, ?orb_true_iff in Hr; try done; try naive_solver lia.
  apply den_consumes in Hd1 as [?|[-> ->]], Hd2 as [?|[-> ->]]; naive_solver lia.
Qed.

Definition has_word (r : regex) (s : string) : Prop := ∃ a w t, s = a +:+ w +:+ t ∧ word r w.

Lemma word_avoids d r w : avoids d r = true → word r w → char_in d w = false.
Proof.
  intros Hr Hw. destruct (den_avoids d r None (w +:+ "") (after None w) "" Hr (Hw None "")) as (w' & E & H).
  rewrite !str_app_nil_r in E. by subst.
Qed.

Lemma word_nonempty r w : consumes r = true → word r w → w ≠ "".
Proof. intros Hr Hw ->. pose proof (den_shortens _ _ _ _ _ Hr (Hw None "")) as H. simpl in H. lia. Qed.

Lemma has_word_app r a s b : has_word r s → has_word r (a +:+ s +:+ b).
Proof.
  intros (x & w & y & -> & Hw). exists (a +:+ x), w, (y +:+ b).
  split; [by rewrite <-!str_app_assoc|done].
Qed.

Lemma find_match_word r p s :
  plain_regex r = true → is_Some (find_match fl r p s) ↔ has_word r s.
Proof.
  intros Hr. rewrite find_match_den. split.
  - intros (a & b & -> & p' & s' & (w & -> & Hw)%den_word); [|done]. by exists a, w, s'.
  - intros (a & w & t & -> & Hw). exists a, (w +:+ t). split; [done|]. eauto.
Qed.
(** A word without [d] lies on one side of it. *)
Lemma split_avoiding d w t x y :
  char_in d w = false → w +:+ t = x +:+ String d y → ∃ t', x = w +:+ t'.
Proof.
  revert x. induction w as [|c w IH]; intros x; [by exists x|].
  rewrite char_in_cons, orb_false_iff, bool_decide_eq_false. intros [Hc Hw].
  destruct x as [|c' x]; simpl; intros E; [by simplify_eq|]. injection E as <- E.
  destruct (IH _ Hw E) as [t' ->]. by exists t'.
Qed.

Lemma has_word_sep d r x y :
  avoids d r = true → consumes r = true → has_word r (x +:+ String d y) → has_word r x ∨ has_word r y.
Proof.
  intros Ha Hc. induction x as [|c x IH]; intros (a & w & t & E & Hw).
  - pose proof (word_avoids _ _ _ Ha Hw) as Hd.
    destruct a as [|c a]; simpl in E; [|injection E as <- ->; right; by exists a, w, t].
    destruct (split_avoiding d w t "" y Hd (eq_sym E)) as [t' Et].
    by destruct w; [apply word_nonempty in Hw|].
  - destruct a as [|c' a]; simpl in E.
    + destruct (split_avoiding d w t (String c x) y (word_avoids _ _ _ Ha Hw) (eq_sym E)) as [t' ->].
      left. by exists "", w, t'.
    + injection E as <- E. destruct IH as [(a' & w' & t' & -> & ?)|?]; [by exists a, w, t| |by right].
      left. by exists (String c a'), w', t'.
Qed.

Lemma find_match_split r p s b p' rest :
  find_match fl r p s = Some (b, p', rest) → ∃ w, s = b +:+ w +:+ rest.
Proof.
  revert p b. induction s as [|c s IH]; intros p b; cbn [find_match];
    destruct (mt fl r p _ _) as [[q s']|] eqn:E; try done.
  - intros [= <- <- <-]. apply mt_sound in E as (? & ? & (w & E & _)%den_suffix & [= -> ->]). by exists w.
  - intros [= <- <- <-]. apply mt_sound in E as (? & ? & (w & E & _)%den_suffix & [= -> ->]). by exists w.
  - destruct (find_match fl r (Some c) s) as [[[b' q] s']|] eqn:Ef; [|done]. intros [= <- <- <-].
    destruct (IH _ _ Ef) as [w ->]. by exists w.
Qed.

(** The text before the leftmost match has none. *)
Lemma find_match_before r p s b p' rest :
  consumes r = true → find_match fl r p s = Some (b, p', rest) → ¬ has_word r b.
Proof.
  intros Hc. revert p b. induction s as [|c s IH]; intros p b; cbn [find_match];
    destruct (mt fl r p _ _) as [[q s']|] eqn:E; try done.
  1,2: intros [= <- <- <-] ([|] & w & t & Ew & Hw); [|done]; simpl in Ew;
       apply (word_nonempty r w Hc Hw); by destruct w.
  destruct (find_match fl r (Some c) s) as [[[b' q] s']|] eqn:Ef; [|done]. intros [= <- <- <-].
  destruct (find_match_split _ _ _ _ _ _ Ef) as [u ->].
  intros ([|a0 a] & w & t & Ew & Hw); simpl in Ew.
  - apply eq_None_not_Some in E. apply E, mt_den.
    exists (after p w), (t +:+ u +:+ s'). split; [|by eexists].
    replace (String c (b' +:+ u +:+ s')) with (w +:+ t +:+ u +:+ s'); [apply Hw|].
    by rewrite str_app_assoc, <-Ew.
  - injection Ew as <- ->. apply (IH _ _ Ef). by exists a, w, t.
Qed.

Lemma find_match_shortens r p s b p' rest :
  consumes r = true → find_match fl r p s = Some (b, p', rest) → (String.length rest < String.length s)%nat.
Proof.
  intros Hc. revert p b. induction s as [|c s IH]; intros p b; cbn [find_match];
    destruct (mt fl r p _ _) as [[q s']|] eqn:E; try done.
  1,2: intros [= <- <- <-]; apply mt_sound in E as (? & ? & Hd & [= -> ->]); by apply (den_shortens r p _ q).
  destruct (find_match fl r (Some c) s) as [[[b' q] s']|] eqn:Ef; [|done]. intros [= <- <- <-].
  apply IH in Ef. simpl. lia.
Qed.

(** A tag: a text in angle brackets. *)
Definition tag_of (inner : string) : string := "<" +:+ inner +:+ ">".

Definition bracket_free (r : regex) : bool := avoids "<" r && avoids ">" r && consumes r.

Lemma has_word_tagged r b inner rest :
  bracket_free r = true → has_word r (b +:+ tag_of inner +:+ rest) →
  has_word r b ∨ has_word r inner ∨ has_word r rest.
Proof.
  unfold bracket_free, tag_of. rewrite !andb_true_iff. intros [[Hl Hg] Hc] H.
  apply (has_word_sep "<") in H as [?|H]; [by left| |done..]. right.
  change (String.append "" (String.append inner ">")) with (inner +:+ ">") in H.
  rewrite <-str_app_assoc in H. by apply (has_word_sep ">") in H.
Qed.

(** Replacing the matches of [r] leaves no word of [r], when the tag brings none. *)
Lemma sub_loop_clean fuel r inner p s :
  plain_regex r = true → bracket_free r = true → ¬ has_word r inner → (String.length s < fuel)%nat →
  ¬ has_word r (sub_loop fl fuel r (tag_of inner) p s).
Proof.
  intros Hp Hb Hi. revert p s. induction fuel as [|fuel IH]; intros p s Hf; [lia|]. cbn [sub_loop].
  assert (consumes r = true) as Hc by (unfold bracket_free in Hb; rewrite !andb_true_iff in Hb; tauto).
  destruct (find_match fl r p s) as [[[b p'] rest]|] eqn:E.
  - pose proof (find_match_shortens _ _ _ _ _ _ Hc E) as Hlt.
    rewrite (proj2 (Nat.ltb_lt _ _) Hlt).
    intros [H|[H|H]]%has_word_tagged; [| |revert H; apply IH; lia|done].
    + by apply (find_match_before _ _ _ _ _ _ Hc E).
    + done.
  - rewrite <-find_match_word, E by done. by intros [? ?].
Qed.
End substitution.

(** Replacing the matches of another expression brings no word the tag does not have. *)
Lemma sub_loop_keeps flr r flq q fuel inner p s :
  bracket_free flq q = true → has_word flq q (sub_loop flr fuel r (tag_of inner) p s) →
  has_word flq q s ∨ has_word flq q inner.
Proof.
  intros Hq. revert p s. induction fuel as [|fuel IH]; intros p s; [by left|]. cbn [sub_loop].
  destruct (find_match flr r p s) as [[[b p'] rest]|] eqn:E; [|by left].
  destruct (_ <? _)%nat; [|by left]. destruct (find_match_split _ _ _ _ _ _ _ E) as [w ->].
  intros [H|[H|H]]%has_word_tagged; [| |apply IH in H as [H|H]|done]; try (by right); left.
  - by apply (has_word_app _ _ "" b (w +:+ rest)).
  - replace (b +:+ w +:+ rest) with ((b +:+ w) +:+ rest +:+ "") by
      (by rewrite str_app_nil_r, str_app_assoc). by apply has_word_app.
Qed.

(** A pattern without assertions that finds nothing after its own substitution, nor after others'. *)
Definition plain_pattern (p : Pattern) : bool :=
  match p_regex p with
  | Some r => plain_regex r && bracket_free (p_flags p) r
  | None => false
  end.

Lemma re_search_word p s r :
  p_regex p = Some r → plain_regex r = true → re_search p s = true ↔ has_word (p_flags p) r s.
Proof.
  intros E Hr. unfold re_search. rewrite E, bool_decide_eq_true. by apply find_match_word.
Qed.

Lemma re_sub_clean p inner s :
  plain_pattern p = true → re_search p inner = false → re_search p (re_sub p (tag_of inner) s) = false.
Proof.
  unfold plain_pattern. destruct (p_regex p) as [r|] eqn:E; [|done].
  intros [Hr Hb]%andb_true_iff. rewrite <-!not_true_iff_false, !(re_search_word _ _ _ E Hr).
  intros Hi. unfold re_sub. rewrite E. apply sub_loop_clean; auto with lia.
Qed.

Lemma re_sub_keeps p p' inner s :
  plain_pattern p = true → re_search p s = false → re_search p inner = false →
  re_search p (re_sub p' (tag_of inner) s) = false.
Proof.
  unfold plain_pattern. destruct (p_regex p) as [r|] eqn:E; [|done].
  intros [Hr Hb]%andb_true_iff. rewrite <-!not_true_iff_false, !(re_search_word _ _ _ E Hr).
  intros Hs Hi. unfold re_sub. destruct (p_regex p') as [r'|]; [|done].
  intros [?|?]%sub_loop_keeps; tauto.
Qed.

(** A pattern that is not found replaces nothing. *)
Lemma re_sub_none p tag s : re_search p s = false → re_sub p tag s = s.
Proof.
  unfold re_search, re_sub. destruct (p_regex p) as [r|]; [|done].
  intros H%bool_decide_eq_false%eq_None_not_Some. cbn [sub_loop]. by rewrite H.
Qed.

(** ** Examples *)

Example search_spaces :
  re_search (re_compile icase "ignore\s+(all\s+)?previous\s+instructions")
    "please IGNORE  all previous instructions" = true.
Proof. by vm_compute. Qed.

Example search_boundary :
  map (re_search (re_compile icase "\b\d{3}-\d{2}-\d{4}\b")) ["ssn 123-45-6789."; "9123-45-6789"] = [true; false].
Proof. by vm_compute. Qed.

Example search_lazy_dotall :
  re_search (re_compile icase_dotall "<!--.*?(instruction|ignore|system).*?-->") "x<!-- a
 System --> y" = true.
Proof. by vm_compute. Qed.

Example sub_greedy :
  re_sub (re_compile no_flags "[a-zA-Z0-9._%+\-]+@[a-zA-Z0-9.\-]+\.[a-zA-Z]{2,}") "<EMAIL_ADDRESS>"
    "mail a.b@c.org, d@e.io!" = "mail <EMAIL_ADDRESS>, <EMAIL_ADDRESS>!".
Proof. by vm_compute. Qed.
