(* ===== verification/Sha256.v ===== *)
(** * [hashlib.sha256] and [hmac]

    SHA-256 (FIPS 180-4) on byte strings with its words kept at 32 bits, and HMAC-SHA256 over it.
    Security statements elsewhere never assume that SHA-256 is injective: their alternative is a
    collision among the texts the code hashed, listed in the statement ([collision_in]). *)

From Stdlib Require Import ZArith Lia Ascii.
From Stdlib Require String.
From stdpp Require Import base tactics option list strings numbers.
From S2P Require Import Prelude PyStr.

(** ** 32-bit words *)

Definition w32 (x : Z) : Z := Z.land x (Z.ones 32).
Definition add32 (x y : Z) : Z := w32 (x + y).
Definition rotr (n x : Z) : Z := Z.lor (Z.shiftr x n) (w32 (Z.shiftl x (32 - n))).
Definition not32 (x : Z) : Z := Z.lxor x (Z.ones 32).

Definition ch (x y z : Z) : Z := Z.lxor (Z.land x y) (Z.land (not32 x) z).
Definition maj (x y z : Z) : Z := Z.lxor (Z.lxor (Z.land x y) (Z.land x z)) (Z.land y z).
Definition bsig0 (x : Z) : Z := Z.lxor (Z.lxor (rotr 2 x) (rotr 13 x)) (rotr 22 x).
Definition bsig1 (x : Z) : Z := Z.lxor (Z.lxor (rotr 6 x) (rotr 11 x)) (rotr 25 x).
Definition ssig0 (x : Z) : Z := Z.lxor (Z.lxor (rotr 7 x) (rotr 18 x)) (Z.shiftr x 3).
Definition ssig1 (x : Z) : Z := Z.lxor (Z.lxor (rotr 17 x) (rotr 19 x)) (Z.shiftr x 10).

(** The constants, by their definition: the first 32 bits of the fractional parts of the cube roots of
    the first 64 primes, and of the square roots of the first eight. *)
Fixpoint root_below (n : nat) (k : Z) (target acc : Z) : Z :=
  match n with
  | O => acc
  | S n' =>
      let acc' := (acc + 2 ^ Z.of_nat n')%Z in
      root_below n' k target (if (acc' ^ k <=? target)%Z then acc' else acc)
  end.

Definition root_fraction (k p : Z) : Z := (root_below 40 k (p * 2 ^ (32 * k)) 0 mod 2 ^ 32)%Z.

Definition divides_none (p : Z) (l : list Z) : bool := forallb (λ d, negb (p mod d =? 0)%Z) l.

Definition primes_below (n : nat) : list Z :=
  foldl (λ l k, let p := Z.of_nat k in if divides_none p l then l ++ [p] else l) [] (seq 2 (n - 2)).

Definition K256 : list Z := Eval vm_compute in map (root_fraction 3) (primes_below 312).
Definition H256 : list Z := Eval vm_compute in map (root_fraction 2) (take 8 (primes_below 312)).

(** ** Padding and blocks *)

(** [n] bytes of [x], big-endian. *)
Fixpoint be_bytes (n : nat) (x : Z) : string :=
  match n with
  | O => EmptyString
  | S n' => be_bytes n' (x / 256) +:+ String (ascii_of_N (Z.to_N (x mod 256))) EmptyString
  end.

Fixpoint zeros (n : nat) : string :=
  match n with O => EmptyString | S n' => String zero (zeros n') end.

Definition sha_pad (m : string) : string :=
  let len := String.length m in
  m +:+ String (ascii_of_nat 128) (zeros ((119 - len mod 64) mod 64)%nat)
    +:+ be_bytes 8 (8 * Z.of_nat len).

Fixpoint words_of (s : string) : list Z :=
  match s with
  | String a (String b (String c (String d s'))) =>
      let z x := Z.of_N (N_of_ascii x) in
      (z a * 16777216 + z b * 65536 + z c * 256 + z d)%Z :: words_of s'
  | _ => []
  end.

(** The message schedule, newest word first: [w] holds the last sixteen words. *)
Fixpoint schedule (n : nat) (w : list Z) : list Z :=
  match n with
  | O => w
  | S n' =>
      let w16 := nth 15 w 0%Z in let w15 := nth 14 w 0%Z in
      let w7 := nth 6 w 0%Z in let w2 := nth 1 w 0%Z in
      schedule n' (add32 (add32 (ssig1 w2) w7) (add32 (ssig0 w15) w16) :: w)
  end.

Definition sha_round (st : list Z) (kw : Z * Z) : list Z :=
  match st with
  | [a; b; c; d; e; f; g; h] =>
      let t1 := add32 h (add32 (bsig1 e) (add32 (ch e f g) (add32 kw.1 kw.2))) in
      let t2 := add32 (bsig0 a) (maj a b c) in
      [add32 t1 t2; a; b; c; add32 d t1; e; f; g]
  | _ => st
  end.

Definition compress (st : list Z) (block : list Z) : list Z :=
  zip_with add32 st (foldl sha_round st (zip K256 (rev (schedule 48 (rev block))))).

Fixpoint sha_blocks (fuel : nat) (st : list Z) (ws : list Z) : list Z :=
  match fuel, ws with
  | O, _ | _, [] => st
  | S fuel', _ => sha_blocks fuel' (compress st (take 16 ws)) (drop 16 ws)
  end.

(** [hashlib.sha256(m).digest()] *)
Definition sha256 (m : string) : string :=
  let ws := words_of (sha_pad m) in
  foldr (λ w acc, be_bytes 4 w +:+ acc) EmptyString (sha_blocks (length ws) H256 ws).

(** [hashlib.sha256(m).hexdigest()] *)
Definition sha256_hex (m : string) : string := to_hex (sha256 m).

Example sha256_abc :
  sha256_hex "abc" = "ba7816bf8f01cfea414140de5dae2223b00361a396177a9cb410ff61f20015ad".
Proof. vm_compute. reflexivity. Qed.

Example sha256_two_blocks :
  sha256_hex "abcdbcdecdefdefgefghfghighijhijkijkljklmklmnlmnomnopnopq"
  = "248d6a61d20638b8e5c026930c3e6039a33ce45964ff2167f6ecedd419db06c1".
Proof. vm_compute. reflexivity. Qed.

(** A text of [xs] and a different one of [ys] with one digest.  That some two texts have one digest
    says nothing (there are more texts than digests); that two of these do is decided by hashing them. *)
Definition collision_in (xs ys : list string) : Prop :=
  Exists (λ x, Exists (λ y, x ≠ y ∧ sha256 x = sha256 y) ys) xs.

#[global] Instance collision_in_dec xs ys : Decision (collision_in xs ys) := _.

Lemma collision_in_spec xs ys :
  collision_in xs ys ↔ ∃ x y, x ∈ xs ∧ y ∈ ys ∧ x ≠ y ∧ sha256 x = sha256 y.
Proof.
  unfold collision_in. rewrite list.Exists_exists. split.
  - intros (x & Hx & (y & Hy & Hne & He)%list.Exists_exists). by exists x, y.
  - intros (x & y & Hx & Hy & Hne & He). exists x. split; [done|].
    apply list.Exists_exists. by exists y.
Qed.

Lemma collision_in_mono xs ys xs' ys' : xs ⊆ xs' → ys ⊆ ys' → collision_in xs ys → collision_in xs' ys'.
Proof.
  rewrite !collision_in_spec. intros Hx Hy (x & y & ? & ? & ?). exists x, y. split_and!; [by apply Hx|by apply Hy|naive_solver..].
Qed.

Lemma sha256_eq_or_collision xs ys x y :
  x ∈ xs → y ∈ ys → sha256 x = sha256 y → x = y ∨ collision_in xs ys.
Proof.
  intros Hx Hy H. destruct (decide (x = y)); [by left|right]. apply collision_in_spec. by exists x, y.
Qed.

(** ** The digest is 32 bytes *)

Lemma length_be_bytes n x : String.length (be_bytes n x) = n.
Proof.
  revert x. induction n as [|n IH]; intros x; [done|]. simpl. rewrite str_length_app, IH. simpl. lia.
Qed.

Lemma length_sha_round st kw : length st = 8%nat → length (sha_round st kw) = 8%nat.
Proof. intros H. by do 9 (destruct st as [|? st]; try done). Qed.

Lemma length_foldl_round l st : length st = 8%nat → length (foldl sha_round st l) = 8%nat.
Proof. revert st. induction l; simpl; auto using length_sha_round. Qed.

Lemma length_compress st b : length st = 8%nat → length (compress st b) = 8%nat.
Proof.
  intros H. unfold compress. rewrite length_zip_with, length_foldl_round, H; done.
Qed.

Lemma length_sha_blocks fuel st ws : length st = 8%nat → length (sha_blocks fuel st ws) = 8%nat.
Proof.
  revert st ws. induction fuel as [|f IH]; intros st ws H; [done|].
  destruct ws; [done|]. apply IH. by apply length_compress.
Qed.

Lemma length_sha256 m : String.length (sha256 m) = 32%nat.
Proof.
  unfold sha256. set (st := sha_blocks _ _ _).
  assert (length st = 8%nat) as Hst by by apply length_sha_blocks.
  assert (∀ l, String.length (foldr (λ w acc, be_bytes 4 w +:+ acc) "" l) = (4 * length l)%nat) as Hl.
  { clear. induction l; [done|]. cbn [foldr]. rewrite str_length_app, length_be_bytes, IHl. simpl. lia. }
  rewrite Hl, Hst. done.
Qed.

#[global] Opaque sha256.

(** ** HMAC-SHA256 *)

Definition xor_byte (n : N) (c : ascii) : ascii := ascii_of_N (N.lxor (N_of_ascii c) n).

Definition hmac_key (key : string) : string :=
  let k := if (64 <? String.length key)%nat then sha256 key else key in
  k +:+ zeros (64 - String.length k)%nat.

(** [hmac.new(key, msg, hashlib.sha256).digest()] *)
Definition hmac_sha256 (key msg : string) : string :=
  let k := hmac_key key in
  sha256 (map_str (xor_byte 92) k +:+ sha256 (map_str (xor_byte 54) k +:+ msg)).

Lemma length_hmac k m : String.length (hmac_sha256 k m) = 32%nat.
Proof. apply length_sha256. Qed.

(** The two texts hashed for the tag of a message. *)
Definition hmac_inputs (key msg : string) : list string :=
  let inner := map_str (xor_byte 54) (hmac_key key) +:+ msg in
  [inner; map_str (xor_byte 92) (hmac_key key) +:+ sha256 inner].

(** Under one key, two messages have one tag only when two of the texts hashed for them collide. *)
Lemma hmac_inj_or_collision k m1 m2 :
  hmac_sha256 k m1 = hmac_sha256 k m2 →
  m1 = m2 ∨ collision_in (hmac_inputs k m1) (hmac_inputs k m2).
Proof.
  unfold hmac_sha256, hmac_inputs. intros H.
  eapply sha256_eq_or_collision in H as [H|H]; [|by right|right; left|right; left].
  apply (inj (String.append _)) in H.
  eapply sha256_eq_or_collision in H as [H|H]; [|by right|left|left].
  apply (inj (String.append _)) in H. by left.
Qed.

Example hmac_rfc4231_2 :
  to_hex (hmac_sha256 "Jefe" "what do ya want for nothing?")
  = "5bdcc146bf60754e6a042426089575c75a003f089d2739839dec58b964ec3843".
Proof. vm_compute. reflexivity. Qed.

(** ** [int.from_bytes(b, "big")] *)

Fixpoint be_int (acc : Z) (b : string) : Z :=
  match b with
  | EmptyString => acc
  | String c b' => be_int (acc * 256 + Z.of_N (N_of_ascii c)) b'
  end.

Lemma ascii_bound c : (0 <= Z.of_N (N_of_ascii c) < 256)%Z.
Proof. destruct c as [[] [] [] [] [] [] [] []]; vm_compute; split; congruence. Qed.

Lemma be_int_bound acc b :
  (0 <= acc)%Z →
  (0 <= be_int acc b < (acc + 1) * 256 ^ Z.of_nat (String.length b))%Z.
Proof.
  revert acc. induction b as [|c b IH]; intros acc Hacc; [simpl; lia|].
  cbn [be_int String.length]. pose proof (ascii_bound c) as Hc.
  destruct (IH (acc * 256 + Z.of_N (N_of_ascii c))%Z ltac:(lia)) as [H1 H2].
  rewrite Nat2Z.inj_succ, Z.pow_succ_r by lia. split; [done|].
  eapply Z.lt_le_trans; [exact H2|].
  pose proof (Z.pow_nonneg 256 (Z.of_nat (String.length b)) ltac:(lia)). nia.
Qed.

Lemma be_int_be_bytes n x acc :
  (0 <= x < 256 ^ Z.of_nat n)%Z →
  be_int acc (be_bytes n x) = (acc * 256 ^ Z.of_nat n + x)%Z.
Proof.
  assert (∀ a b acc, be_int acc (a +:+ b) = be_int (be_int acc a) b) as Happ.
  { induction a; intros; simpl; auto. }
  revert x. induction n as [|n IH]; intros x Hx; [simpl in *; lia|].
  rewrite Nat2Z.inj_succ, Z.pow_succ_r in * by lia. cbn [be_bytes].
  pose proof (Z.mod_pos_bound x 256 ltac:(lia)) as Hm. pose proof (Z.div_mod x 256 ltac:(lia)) as Hd.
  rewrite Happ, IH.
  - cbn [be_int]. rewrite N_ascii_embedding by lia. rewrite Z2N.id by lia. lia.
  - split; [apply Z.div_pos; lia|]. apply Z.div_lt_upper_bound; lia.
Qed.

#[export] Hint Rewrite length_sha256 length_hmac length_be_bytes : auditor_rw.
