(* ===== verification/Json.v ===== *)
(** * [json.dumps] and [json.loads]

    JSON values, the standard library's serialiser (default [ensure_ascii], with or without
    [sort_keys], in the two separator styles the code uses) and its parser.  A float is carried as the
    lexeme [repr] prints for it; [float_of_lexeme] is its value.  The main result is
    [loads_dumps]: parsing what was printed gives the value back, hence [dumps] is injective. *)

From Stdlib Require Import ZArith Lia Ascii DecimalString DecimalZ DecimalPos SpecFloat.
From Stdlib Require String.
From stdpp Require Import base tactics option list strings sets sorting.
From S2P Require Import Prelude PyStr Float64.

Unset Elimination Schemes.
Inductive json : Type :=
| JNull
| JBool (b : bool)
| JInt (z : Z)
| JFloat (lexeme : string)
| JStr (s : string)
| JArr (l : list json)
| JObj (m : list (string * json)).
Set Elimination Schemes.

Section json_ind.
Variable P : json → Prop.
Hypothesis Hnull : P JNull.
Hypothesis Hbool : ∀ b, P (JBool b).
Hypothesis Hint : ∀ z, P (JInt z).
Hypothesis Hfloat : ∀ s, P (JFloat s).
Hypothesis Hstr : ∀ s, P (JStr s).
Hypothesis Harr : ∀ l, Forall P l → P (JArr l).
Hypothesis Hobj : ∀ m, Forall (λ kv, P kv.2) m → P (JObj m).

Fixpoint json_ind (v : json) : P v :=
  match v with
  | JNull => Hnull
  | JBool b => Hbool b
  | JInt z => Hint z
  | JFloat s => Hfloat s
  | JStr s => Hstr s
  | JArr l => Harr l ((fix go l := match l return Forall P l with
                                   | [] => Forall_nil_2 _
                                   | x :: l' => Forall_cons_2 _ _ _ (json_ind x) (go l')
                                   end) l)
  | JObj m => Hobj m ((fix go m := match m return Forall (λ kv, P kv.2) m with
                                   | [] => Forall_nil_2 _
                                   | x :: m' => Forall_cons_2 _ _ _ (json_ind x.2) (go m')
                                   end) m)
  end.
End json_ind.

#[export] Instance json_eq_dec : EqDecision json.
Proof.
  refine (fix go (x y : json) {struct x} : Decision (x = y) :=
    match x, y with
    | JNull, JNull => left eq_refl
    | JBool a, JBool b => cast_if (decide (a = b))
    | JInt a, JInt b => cast_if (decide (a = b))
    | JFloat a, JFloat b => cast_if (decide (a = b))
    | JStr a, JStr b => cast_if (decide (a = b))
    | JArr l, JArr k => cast_if (@decide (l = k) (@list_eq_dec _ go l k))
    | JObj l, JObj k => cast_if (@decide (l = k) (@list_eq_dec _ (@prod_eq_dec _ _ _ go) l k))
    | _, _ => right _
    end); abstract congruence.
Defined.

(** ** Printing *)

Record json_style := { item_sep : string; key_sep : string }.

(** [separators=(",", ":")] and the default [(", ", ": ")]. *)
Definition compact : json_style := {| item_sep := ","; key_sep := ":" |}.
Definition spaced : json_style := {| item_sep := ", "; key_sep := ": " |}.

Definition quote : ascii := ascii_of_nat 34.
Definition backslash : ascii := ascii_of_nat 92.

Definition esc2 (c : ascii) : string := String backslash (String c EmptyString).

(** One character of a JSON string, with [ensure_ascii]. *)
Definition esc_char (c : ascii) : string :=
  let n := nat_of_ascii c in
  if (n =? 34)%nat then esc2 c
  else if (n =? 92)%nat then esc2 c
  else if (n =? 10)%nat then esc2 "n"%char
  else if (n =? 13)%nat then esc2 "r"%char
  else if (n =? 9)%nat then esc2 "t"%char
  else if (n =? 12)%nat then esc2 "f"%char
  else if (n =? 8)%nat then esc2 "b"%char
  else if (n <? 32)%nat || (126 <? n)%nat
       then esc2 "u"%char +:+ "00" +:+ to_hex (String c EmptyString)
  else String c EmptyString.

Fixpoint esc_str (s : string) : string :=
  match s with EmptyString => EmptyString | String c s' => esc_char c +:+ esc_str s' end.

Definition quoted (s : string) : string :=
  String quote (esc_str s +:+ String quote EmptyString).

Section dumps.
Context (st : json_style).

Fixpoint dumps (v : json) : string :=
  match v with
  | JNull => "null"
  | JBool true => "true"
  | JBool false => "false"
  | JInt z => dec z
  | JFloat lex => lex
  | JStr s => quoted s
  | JArr l => "[" +:+ join (item_sep st) (map dumps l) +:+ "]"
  | JObj m =>
      "{" +:+ join (item_sep st) (map (λ kv, quoted kv.1 +:+ key_sep st +:+ dumps kv.2) m) +:+ "}"
  end.
End dumps.

(** [json.dumps(v, indent=2)]: every item on a line of its own, two spaces per level. *)
Definition line_feed : ascii := ascii_of_nat 10.
Definition new_line (level : nat) : string := String line_feed (String.concat "" (replicate level "  ")).

Fixpoint dumps_indent (level : nat) (v : json) : string :=
  match v with
  | JArr ((_ :: _) as l) =>
      "[" +:+ new_line (S level) +:+ join ("," +:+ new_line (S level)) (map (dumps_indent (S level)) l)
        +:+ new_line level +:+ "]"
  | JObj ((_ :: _) as m) =>
      "{" +:+ new_line (S level)
        +:+ join ("," +:+ new_line (S level)) (map (λ kv, quoted kv.1 +:+ ": " +:+ dumps_indent (S level) kv.2) m)
        +:+ new_line level +:+ "}"
  | _ => dumps compact v
  end.

(** [sort_keys=True]: every object printed with its keys in increasing order. *)
Fixpoint insert_key (kv : string * json) (m : list (string * json)) : list (string * json) :=
  match m with
  | [] => [kv]
  | x :: m' => if String.leb kv.1 x.1 then kv :: m else x :: insert_key kv m'
  end.

Fixpoint sort_keys (v : json) : json :=
  match v with
  | JArr l => JArr (map sort_keys l)
  | JObj m => JObj (foldr insert_key [] (map (λ kv, (kv.1, sort_keys kv.2)) m))
  | _ => v
  end.

(** ** Parsing *)

Definition is_ws (c : ascii) : bool :=
  let n := nat_of_ascii c in (n =? 32)%nat || (n =? 9)%nat || (n =? 10)%nat || (n =? 13)%nat.

Fixpoint skip_ws (s : string) : string :=
  match s with
  | String c s' => if is_ws c then skip_ws s' else s
  | EmptyString => s
  end.

Definition is_digit (c : ascii) : bool :=
  let n := nat_of_ascii c in (48 <=? n)%nat && (n <=? 57)%nat.

(** The longest prefix of digits. *)
Fixpoint span_digits (s : string) : string * string :=
  match s with
  | String c s' => if is_digit c then let '(d, r) := span_digits s' in (String c d, r) else ("", s)
  | EmptyString => ("", "")
  end.

Definition opt_frac (s : string) : string * string :=
  match s with
  | String c s' =>
      if (nat_of_ascii c =? 46)%nat then
        match span_digits s' with
        | (EmptyString, _) => ("", s)
        | (d, r) => (String c d, r)
        end
      else ("", s)
  | EmptyString => ("", s)
  end.

Definition opt_sign (s : string) : string * string :=
  match s with
  | String c s' =>
      if (nat_of_ascii c =? 43)%nat || (nat_of_ascii c =? 45)%nat then (String c "", s') else ("", s)
  | EmptyString => ("", s)
  end.

Definition opt_exp (s : string) : string * string :=
  match s with
  | String c s' =>
      if (nat_of_ascii c =? 101)%nat || (nat_of_ascii c =? 69)%nat then
        let '(g, s1) := opt_sign s' in
        match span_digits s1 with
        | (EmptyString, _) => ("", s)
        | (d, r) => (String c (g +:+ d), r)
        end
      else ("", s)
  | EmptyString => ("", s)
  end.

(** The scanner's number: an integer part without leading zeros, then optional fraction and exponent. *)
Definition scan_int (s : string) : option (string * string) :=
  let '(sg, s1) := match s with
                   | String c s' => if (nat_of_ascii c =? 45)%nat then (String c "", s') else ("", s)
                   | EmptyString => ("", s)
                   end in
  match s1 with
  | String c s2 =>
      if (nat_of_ascii c =? 48)%nat then Some (sg +:+ String c "", s2)
      else match span_digits s1 with
           | (EmptyString, _) => None
           | (d, r) => Some (sg +:+ d, r)
           end
  | EmptyString => None
  end.

Definition scan_number (s : string) : option (json * string) :=
  match scan_int s with
  | None => None
  | Some (i, s1) =>
      let '(f, s2) := opt_frac s1 in
      let '(e, s3) := opt_exp s2 in
      match f, e with
      | EmptyString, EmptyString => z ← undec i; Some (JInt z, s3)
      | _, _ => Some (JFloat (i +:+ f +:+ e), s3)
      end
  end.

Definition hex4 (a b c d : ascii) : option N :=
  x ← unhex_digit a; y ← unhex_digit b; z ← unhex_digit c; w ← unhex_digit d;
  Some (4096 * x + 256 * y + 16 * z + w)%N.

Definition unesc (c : ascii) : option ascii :=
  let n := nat_of_ascii c in
  if (n =? 34)%nat || (n =? 92)%nat || (n =? 47)%nat then Some c
  else if (n =? 110)%nat then Some (ascii_of_nat 10)
  else if (n =? 114)%nat then Some (ascii_of_nat 13)
  else if (n =? 116)%nat then Some (ascii_of_nat 9)
  else if (n =? 102)%nat then Some (ascii_of_nat 12)
  else if (n =? 98)%nat then Some (ascii_of_nat 8)
  else None.

(** The characters of a string literal up to its closing quote.  A [\u] escape above U+00FF is
    outside the modelled strings and is reported as a failure. *)
Fixpoint scan_str (s : string) : option (string * string) :=
  match s with
  | EmptyString => None
  | String c s' =>
      if ascii_dec c quote then Some ("", s')
      else if ascii_dec c backslash then
        match s' with
        | String u s2 =>
            if (nat_of_ascii u =? 117)%nat then
              match s2 with
              | String h1 (String h2 (String h3 (String h4 s3))) =>
                  n ← hex4 h1 h2 h3 h4;
                  if (n <? 256)%N then
                    '(t, r) ← scan_str s3; Some (String (ascii_of_N n) t, r)
                  else None
              | _ => None
              end
            else
              x ← unesc u; '(t, r) ← scan_str s2; Some (String x t, r)
        | EmptyString => None
        end
      else if (nat_of_ascii c <? 32)%nat then None
      else '(t, r) ← scan_str s'; Some (String c t, r)
  end.

Fixpoint scan_value (fuel : nat) (s : string) : option (json * string) :=
  match fuel with
  | O => None
  | S f =>
      if starts_with "null" s then Some (JNull, drop_str 4 s)
      else if starts_with "true" s then Some (JBool true, drop_str 4 s)
      else if starts_with "false" s then Some (JBool false, drop_str 5 s)
      else if starts_with "NaN" s then Some (JFloat "NaN", drop_str 3 s)
      else if starts_with "Infinity" s then Some (JFloat "Infinity", drop_str 8 s)
      else if starts_with "-Infinity" s then Some (JFloat "-Infinity", drop_str 9 s)
      else match s with
           | String c s' =>
               if ascii_dec c quote then '(t, r) ← scan_str s'; Some (JStr t, r)
               else if (nat_of_ascii c =? 91)%nat then
                 let s1 := skip_ws s' in
                 if starts_with "]" s1 then Some (JArr [], drop_str 1 s1)
                 else '(l, r) ← scan_items f s1; Some (JArr l, r)
               else if (nat_of_ascii c =? 123)%nat then
                 let s1 := skip_ws s' in
                 if starts_with "}" s1 then Some (JObj [], drop_str 1 s1)
                 else '(m, r) ← scan_pairs f s1;
                      Some (JObj (foldl (λ d kv, dset kv.1 kv.2 d) [] m), r)
               else scan_number s
           | EmptyString => None
           end
  end
with scan_items (fuel : nat) (s : string) : option (list json * string) :=
  match fuel with
  | O => None
  | S f =>
      '(v, r) ← scan_value f s;
      let r1 := skip_ws r in
      if starts_with "]" r1 then Some ([v], drop_str 1 r1)
      else if starts_with "," r1 then
        '(l, r2) ← scan_items f (skip_ws (drop_str 1 r1)); Some (v :: l, r2)
      else None
  end
with scan_pairs (fuel : nat) (s : string) : option (list (string * json) * string) :=
  match fuel with
  | O => None
  | S f =>
      if starts_with (String quote "") s then
        '(k, r) ← scan_str (drop_str 1 s);
        let r1 := skip_ws r in
        if starts_with ":" r1 then
          '(v, r2) ← scan_value f (skip_ws (drop_str 1 r1));
          let r3 := skip_ws r2 in
          if starts_with "}" r3 then Some ([(k, v)], drop_str 1 r3)
          else if starts_with "," r3 then
            '(m, r4) ← scan_pairs f (skip_ws (drop_str 1 r3)); Some ((k, v) :: m, r4)
          else None
        else None
      else None
  end.

(** [json.loads(s)]; [None] is [JSONDecodeError].  The fuel is never exhausted: each level of
    nesting consumes a character. *)
Definition loads (s : string) : option json :=
  '(v, r) ← scan_value (S (2 * String.length s)) (skip_ws s);
  if String.eqb (skip_ws r) "" then Some v else None.

(** ** The value of a float lexeme *)

Definition digits_Z (s : string) : Z :=
  (fix go acc s := match s with
                   | EmptyString => acc
                   | String c s' => go (acc * 10 + Z.of_nat (nat_of_ascii c - 48))%Z s'
                   end) 0%Z s.

Definition float_of_lexeme (s : string) : f64 :=
  if String.eqb s "NaN" then S754_nan
  else if String.eqb s "Infinity" then S754_infinity false
  else if String.eqb s "-Infinity" then S754_infinity true
  else
    let '(neg, s1) := if starts_with "-" s then (true, drop_str 1 s) else (false, s) in
    let '(i, s2) := span_digits s1 in
    let '(f, s3) := match s2 with
                    | String c s' => if (nat_of_ascii c =? 46)%nat then span_digits s' else ("", s2)
                    | EmptyString => ("", s2)
                    end in
    let e := match s3 with
             | String _ s4 =>
                 let '(g, s5) := opt_sign s4 in
                 (if String.eqb g "-" then -1 else 1) * digits_Z s5
             | EmptyString => 0
             end%Z in
    let m := digits_Z (i +:+ f) in
    let e10 := (e - Z.of_nat (String.length f))%Z in
    let x := if (0 <=? e10)%Z then ratio (m * 10 ^ e10) 1 else ratio m (10 ^ (- e10)) in
    if (neg : bool) then SFopp x else x.


(** ** Round trip *)

(** What may follow a value: the end of the text, a structural character or a new line. *)
Definition delim (r : string) : Prop :=
  r = "" ∨ ∃ c t, r = String c t ∧ (c = ","%char ∨ c = "]"%char ∨ c = "}"%char ∨ c = line_feed).

(** A float lexeme is scanned back as itself, up to any delimiter. *)
Definition float_lexeme (lex : string) : Prop :=
  ∀ r f, delim r → scan_value (S f) (lex +:+ r) = Some (JFloat lex, r).

Definition value_head (c : ascii) : bool :=
  negb (is_ws c) && negb (bool_decide (c = "]"%char)) && negb (bool_decide (c = "}"%char)).

Definition head_ok (s : string) : Prop := ∃ c t, s = String c t ∧ value_head c = true.

(** Well-formed values: distinct keys in every object, canonical float lexemes. *)
Fixpoint json_wf (v : json) : Prop :=
  match v with
  | JFloat lex => float_lexeme lex ∧ head_ok lex
  | JArr l => (fix go l := match l with [] => True | x :: l' => json_wf x ∧ go l' end) l
  | JObj m =>
      NoDup (m.*1) ∧
      (fix go m := match m with [] => True | x :: m' => json_wf x.2 ∧ go m' end) m
  | _ => True
  end.

Lemma json_wf_arr l : json_wf (JArr l) ↔ Forall json_wf l.
Proof.
  simpl. induction l as [|x l IH]; [by rewrite Forall_nil|]. by rewrite Forall_cons, IH.
Qed.

Lemma json_wf_obj m : json_wf (JObj m) ↔ NoDup (m.*1) ∧ Forall (λ kv, json_wf kv.2) m.
Proof.
  simpl. apply and_iff_compat_l. induction m as [|x m IH]; [by rewrite Forall_nil|].
  by rewrite Forall_cons, IH.
Qed.

Definition style_ok (st : json_style) : Prop :=
  (∃ w, item_sep st = "," +:+ w ∧ ∀ s, skip_ws (w +:+ s) = skip_ws s) ∧
  (∃ w, key_sep st = ":" +:+ w ∧ ∀ s, skip_ws (w +:+ s) = skip_ws s).

Lemma compact_ok : style_ok compact.
Proof. split; by exists "". Qed.

Lemma spaced_ok : style_ok spaced.
Proof. split; by exists " ". Qed.

Lemma scan_str_char c t :
  scan_str (esc_char c +:+ t) = '(x, r) ← scan_str t; Some (String c x, r).
Proof. destruct c as [[] [] [] [] [] [] [] []]; reflexivity. Qed.

Lemma scan_str_esc s r : scan_str (esc_str s +:+ String quote r) = Some (s, r).
Proof.
  induction s as [|c s IH]; [reflexivity|]. simpl esc_str.
  rewrite <-str_app_assoc, scan_str_char, IH. done.
Qed.

(** *** Integers *)

Lemma span_digits_uint d r :
  (match r with String c _ => is_digit c = false | _ => True end) →
  span_digits (NilEmpty.string_of_uint d +:+ r) = (NilEmpty.string_of_uint d, r).
Proof.
  intros Hr. induction d; simpl; try (rewrite IHd; reflexivity).
  destruct r as [|c r]; simpl; [done|]. by rewrite Hr.
Qed.

Lemma to_uint_head p :
  ∃ c t, NilEmpty.string_of_uint (Pos.to_uint p) = String c t ∧
         (49 ≤ nat_of_ascii c ≤ 57)%nat.
Proof.
  pose proof (DecimalPos.Unsigned.to_uint_nonnil p) as Hnil.
  assert (∀ d, Pos.to_uint p ≠ Decimal.D0 d) as H0.
  { intros d Hd. pose proof (DecimalPos.Unsigned.to_of (Pos.to_uint p)) as Hto.
    rewrite DecimalPos.Unsigned.of_to in Hto. simpl in Hto.
    rewrite Hd, DecimalFacts.unorm_D0 in Hto.
    destruct (Decimal.uint_eq_dec (Decimal.nzhead d) Decimal.Nil) as [Hz|Hz].
    - apply DecimalFacts.unorm_0 in Hz. apply (DecimalPos.Unsigned.to_uint_nonzero p). congruence.
    - rewrite DecimalFacts.unorm_nzhead in Hto by done.
      by apply (DecimalFacts.nzhead_nonzero d d). }
  destruct (Pos.to_uint p) as [|d|d|d|d|d|d|d|d|d|d] eqn:E; [done|by destruct (H0 d)|..];
    (eexists _, _; split; [reflexivity|]; vm_compute; split; repeat constructor).
Qed.

Definition no_num (r : string) : Prop :=
  match r with
  | String c _ => is_digit c = false ∧ opt_frac r = ("", r) ∧ opt_exp r = ("", r)
  | EmptyString => True
  end.

Lemma delim_no_num r : delim r → no_num r.
Proof. intros [->|(c & t & -> & [->|[->|[->| ->]]])]; simpl; done. Qed.

Lemma scan_int_dec z r : no_num r → scan_int (dec z +:+ r) = Some (dec z, r).
Proof.
  intros Hr. assert (match r with String c _ => is_digit c = false | _ => True end) as Hd.
  { destruct r; [done|]. by destruct Hr. }
  destruct z as [|p|p].
  - reflexivity.
  - change (dec (Z.pos p)) with (NilEmpty.string_of_uint (Pos.to_uint p)).
    destruct (to_uint_head p) as (c & t & E & Hc). rewrite E at 1. unfold scan_int. simpl.
    replace (nat_of_ascii c =? 45)%nat with false by (symmetry; apply Nat.eqb_neq; lia).
    replace (nat_of_ascii c =? 48)%nat with false by (symmetry; apply Nat.eqb_neq; lia).
    change (String c (t +:+ r)) with (String c t +:+ r). rewrite <-E.
    rewrite span_digits_uint by done. by rewrite E.
  - change (dec (Z.neg p)) with (String "-" (NilEmpty.string_of_uint (Pos.to_uint p))).
    destruct (to_uint_head p) as (c & t & E & Hc). unfold scan_int. simpl.
    rewrite E at 1. simpl.
    replace (nat_of_ascii c =? 48)%nat with false by (symmetry; apply Nat.eqb_neq; lia).
    rewrite span_digits_uint by done. by rewrite E.
Qed.

Lemma scan_number_dec z r : no_num r → scan_number (dec z +:+ r) = Some (JInt z, r).
Proof.
  intros Hr. unfold scan_number. rewrite scan_int_dec by done.
  destruct r as [|c r].
  - simpl. by rewrite undec_dec.
  - destruct Hr as (_ & -> & ->). by rewrite undec_dec.
Qed.

Lemma dec_head z : ∃ c t, dec z = String c t ∧
  ((nat_of_ascii c = 45)%nat ∧ (∃ d u, t = String d u ∧ (48 ≤ nat_of_ascii d ≤ 57)%nat)
   ∨ (48 ≤ nat_of_ascii c ≤ 57)%nat).
Proof.
  destruct z as [|p|p]; [exists "0"%char, ""; split; [done|right; vm_compute; split; repeat constructor]|..].
  - destruct (to_uint_head p) as (c & t & E & Hc). exists c, t. split; [done|right; lia].
  - destruct (to_uint_head p) as (c & t & E & Hc). exists "-"%char, (String c t).
    split; [by rewrite <-E|]. left. split; [done|]. exists c, t. split; [done|lia].
Qed.

Lemma scan_value_int f z r : delim r → scan_value (S f) (dec z +:+ r) = Some (JInt z, r).
Proof.
  intros Hr%delim_no_num. pose proof (scan_number_dec z r Hr) as Hn.
  destruct (dec_head z) as (c & t & E & Hc).
  assert (∀ k, starts_with (String "n" k) (String c (t +:+ r)) = false ∧
     starts_with (String "t" k) (String c (t +:+ r)) = false ∧
     starts_with (String "f" k) (String c (t +:+ r)) = false ∧
     starts_with (String "N" k) (String c (t +:+ r)) = false ∧
     starts_with (String "I" k) (String c (t +:+ r)) = false) as Hk.
  { intros k. cbn [starts_with]. destruct Hc as [(Hc & _)|Hc];
    split_and!; (destruct (ascii_dec _ c) as [<-|]; [vm_compute in Hc; lia|done]). }
  assert (starts_with "-Infinity" (String c (t +:+ r)) = false) as Hm.
  { destruct Hc as [(Hc & d & u & -> & Hd)|Hc].
    - cbn [starts_with String.append]. destruct (ascii_dec _ c); [|done].
      destruct (ascii_dec _ d) as [<-|]; [vm_compute in Hd; lia|done].
    - cbn [starts_with]. destruct (ascii_dec _ c) as [<-|]; [vm_compute in Hc; lia|done]. }
  rewrite E in *. cbn [String.append] in *. cbn [scan_value].
  rewrite (proj1 (Hk _)), (proj1 (proj2 (Hk _))), (proj1 (proj2 (proj2 (Hk _)))),
    (proj1 (proj2 (proj2 (proj2 (Hk _))))), (proj2 (proj2 (proj2 (proj2 (Hk _))))), Hm.
  destruct (ascii_dec c quote) as [->|_].
  { exfalso. destruct Hc as [(Hc & _)|Hc]; vm_compute in Hc; lia. }
  replace (nat_of_ascii c =? 91)%nat with false by (symmetry; apply Nat.eqb_neq; lia).
  replace (nat_of_ascii c =? 123)%nat with false by (symmetry; apply Nat.eqb_neq; lia).
  done.
Qed.

Lemma scan_value_str f s r :
  scan_value (S f) (quoted s +:+ r) = Some (JStr s, r).
Proof.
  unfold quoted. cbn [String.append]. rewrite <-str_app_assoc. cbn [String.append scan_value].
  cbn -[scan_str]. by rewrite scan_str_esc.
Qed.

Lemma dumps_head st v : json_wf v → head_ok (dumps st v).
Proof.
  destruct v as [|[]|z|lex|s|l|m]; simpl; try (intros _; by eexists _, _).
  - intros _. destruct (dec_head z) as (c & t & -> & Hc). exists c, t. split; [done|].
    unfold value_head, is_ws. rewrite !andb_true_iff, !negb_true_iff. split_and!.
    + rewrite !orb_false_iff, !Nat.eqb_neq. lia.
    + apply bool_decide_eq_false. intros ->. vm_compute in Hc. lia.
    + apply bool_decide_eq_false. intros ->. vm_compute in Hc. lia.
  - by intros [_ ?].
Qed.

Lemma skip_ws_head s r : head_ok s → skip_ws (s +:+ r) = s +:+ r.
Proof.
  intros (c & t & -> & Hc). unfold value_head in Hc.
  rewrite !andb_true_iff, !negb_true_iff in Hc. cbn [String.append skip_ws].
  by destruct Hc as [[-> _] _].
Qed.

Lemma head_not_close s r : head_ok s →
  starts_with "]" (s +:+ r) = false ∧ starts_with "}" (s +:+ r) = false.
Proof.
  intros (c & t & -> & Hc). unfold value_head in Hc.
  rewrite !andb_true_iff, !negb_true_iff, !bool_decide_eq_false in Hc.
  cbn [String.append starts_with]. destruct Hc as [[_ H1] H2].
  split; destruct (ascii_dec _ c); congruence.
Qed.

Lemma head_ok_app s r : head_ok s → head_ok (s +:+ r).
Proof. intros (c & t & -> & Hc). by exists c, (t +:+ r). Qed.

Lemma foldl_dset_app (m d : list (string * json)) :
  NoDup ((d ++ m).*1) → foldl (λ d kv, dset kv.1 kv.2 d) d m = d ++ m.
Proof.
  revert d. induction m as [|[k v] m IH]; intros d Hd; simpl; [by rewrite app_nil_r|].
  rewrite fmap_app in Hd. simpl in Hd.
  assert (dset k v d = d ++ [(k, v)]) as Hset.
  { assert (k ∉ d.*1) as Hk.
    { apply NoDup_app in Hd as (_ & Hd & _). intros Hin. apply (Hd k Hin). left. }
    clear -Hk. induction d as [|[k' v'] d IH]; [done|]. simpl in *.
    rewrite decide_False by set_solver. rewrite IH by set_solver. done. }
  rewrite Hset, IH; [by rewrite <-app_assoc|].
  rewrite !fmap_app. simpl. by rewrite <-app_assoc.
Qed.

Lemma scan_value_arr f s l r :
  starts_with "]" (skip_ws s) = false → scan_items f (skip_ws s) = Some (l, r) →
  scan_value (S f) (String "[" s) = Some (JArr l, r).
Proof.
  intros Hc Hl.
  transitivity (if starts_with "]" (skip_ws s) then Some (JArr [], drop_str 1 (skip_ws s))
                else '(l, r) ← scan_items f (skip_ws s); Some (JArr l, r)); [reflexivity|].
  by rewrite Hc, Hl.
Qed.

Lemma scan_value_obj f s m r :
  starts_with "}" (skip_ws s) = false → scan_pairs f (skip_ws s) = Some (m, r) →
  scan_value (S f) (String "{" s) = Some (JObj (foldl (λ d kv, dset kv.1 kv.2 d) [] m), r).
Proof.
  intros Hc Hm.
  transitivity (if starts_with "}" (skip_ws s) then Some (JObj [], drop_str 1 (skip_ws s))
                else '(m, r) ← scan_pairs f (skip_ws s);
                     Some (JObj (foldl (λ d kv, dset kv.1 kv.2 d) [] m), r)); [reflexivity|].
  by rewrite Hc, Hm.
Qed.

Lemma scan_items_close_ws f s v w t :
  scan_value f s = Some (v, w) → skip_ws w = String "]" t → scan_items (S f) s = Some ([v], t).
Proof. intros Hv Hw. cbn [scan_items]. rewrite Hv. cbn [mbind option_bind]. by rewrite Hw. Qed.

Lemma scan_items_close f s v t :
  scan_value f s = Some (v, String "]" t) → scan_items (S f) s = Some ([v], t).
Proof. intros Hv. by eapply scan_items_close_ws. Qed.

Lemma scan_items_comma f s v t :
  scan_value f s = Some (v, String "," t) →
  scan_items (S f) s = '(l, r) ← scan_items f (skip_ws t); Some (v :: l, r).
Proof. intros Hv. cbn [scan_items]. rewrite Hv. reflexivity. Qed.

Lemma scan_pairs_close_ws f s k t v w r :
  scan_str s = Some (k, String ":" t) → scan_value f (skip_ws t) = Some (v, w) → skip_ws w = String "}" r →
  scan_pairs (S f) (String quote s) = Some ([(k, v)], r).
Proof.
  intros Hk Hv Hw. cbn [scan_pairs].
  change (drop_str 1 (String quote s)) with s. rewrite Hk.
  change (starts_with (String quote "") (String quote s)) with true.
  cbn [mbind option_bind].
  change (skip_ws (String ":" t)) with (String ":" t).
  change (starts_with ":" (String ":" t)) with true.
  change (drop_str 1 (String ":" t)) with t. rewrite Hv. cbn [mbind option_bind]. by rewrite Hw.
Qed.

Lemma scan_pairs_close f s k t v r :
  scan_str s = Some (k, String ":" t) → scan_value f (skip_ws t) = Some (v, String "}" r) →
  scan_pairs (S f) (String quote s) = Some ([(k, v)], r).
Proof. intros Hk Hv. by eapply scan_pairs_close_ws. Qed.

Lemma scan_pairs_comma f s k t v r :
  scan_str s = Some (k, String ":" t) → scan_value f (skip_ws t) = Some (v, String "," r) →
  scan_pairs (S f) (String quote s) =
    '(m, r') ← scan_pairs f (skip_ws r); Some ((k, v) :: m, r').
Proof.
  intros Hk Hv. cbn [scan_pairs].
  change (drop_str 1 (String quote s)) with s. rewrite Hk.
  change (starts_with (String quote "") (String quote s)) with true.
  cbn [mbind option_bind].
  change (skip_ws (String ":" t)) with (String ":" t).
  change (starts_with ":" (String ":" t)) with true.
  change (drop_str 1 (String ":" t)) with t. rewrite Hv. reflexivity.
Qed.

Section roundtrip.
Context (st : json_style) (Hst : style_ok st).

Definition scans (v : json) : Prop :=
  ∀ r f, delim r → (2 * String.length (dumps st v) ≤ f)%nat →
         scan_value f (dumps st v +:+ r) = Some (v, r).

Lemma delim_comma w r : delim (("," +:+ w) +:+ r).
Proof. right. exists ","%char, (w +:+ r). auto. Qed.

Lemma delim_close c r : c = "]"%char ∨ c = "}"%char → delim (String c r).
Proof. intros Hc. right. exists c, r. naive_solver. Qed.

Lemma scan_items_dumps l r f :
  l ≠ [] → Forall (λ v, json_wf v ∧ scans v) l →
  (2 * String.length (join (item_sep st) (map (dumps st) l)) + 1 ≤ f)%nat →
  scan_items f (join (item_sep st) (map (dumps st) l) +:+ String "]" r) = Some (l, r).
Proof.
  destruct Hst as [(w & Hw & Hskip) _]. intros Hne Hl. revert f.
  induction Hl as [|v l [Hwf Hv] Hl IH]; intros f Hf; [done|].
  destruct f as [|f]; [lia|]. destruct l as [|v2 l].
  - apply scan_items_close, Hv; [by apply delim_close; left|]. cbn [map join] in Hf. lia.
  - change (map (dumps st) (v :: v2 :: l)) with (dumps st v :: map (dumps st) (v2 :: l)) in *.
    rewrite join_cons2 in * by done. rewrite !str_length_app in Hf.
    assert (1 ≤ String.length (item_sep st))%nat as Hlen by (rewrite Hw; simpl; lia).
    set (rest := join (item_sep st) (map (dumps st) (v2 :: l))) in *.
    assert (head_ok rest) as Hrh.
    { unfold rest. apply Forall_cons in Hl as [[Hwf2 _] _].
      destruct l; cbn [map join]; [by apply dumps_head|by apply head_ok_app, dumps_head]. }
    rewrite <-!str_app_assoc, Hw.
    rewrite (scan_items_comma f _ v (w +:+ rest +:+ String "]" r)).
    + rewrite Hskip, skip_ws_head by done. by rewrite IH by (done || lia).
    + apply Hv; [by apply (delim_comma w)|lia].
Qed.

Definition pair_text (kv : string * json) : string :=
  quoted kv.1 +:+ key_sep st +:+ dumps st kv.2.

Lemma scan_pair_dumps kv t f :
  json_wf kv.2 → scans kv.2 → delim t → (2 * String.length (pair_text kv) ≤ f)%nat →
  ∃ s u, pair_text kv +:+ t = String quote s ∧ scan_str s = Some (kv.1, String ":" u) ∧
         scan_value f (skip_ws u) = Some (kv.2, t).
Proof.
  intros Hwf Hv Ht Hf. destruct Hst as [_ (w & Hw & Hskip)].
  unfold pair_text in *. rewrite !str_length_app in Hf.
  exists (esc_str kv.1 +:+ String quote (key_sep st +:+ dumps st kv.2 +:+ t)),
    (w +:+ dumps st kv.2 +:+ t). split_and!.
  - unfold quoted. cbn [String.append]. by rewrite <-!str_app_assoc.
  - rewrite scan_str_esc. by rewrite Hw.
  - rewrite Hskip, skip_ws_head by by apply dumps_head. apply Hv; [done|lia].
Qed.

Lemma scan_pairs_dumps m r f :
  m ≠ [] → Forall (λ kv, json_wf kv.2 ∧ scans kv.2) m →
  (2 * String.length (join (item_sep st) (map pair_text m)) + 1 ≤ f)%nat →
  scan_pairs f (join (item_sep st) (map pair_text m) +:+ String "}" r) = Some (m, r).
Proof.
  pose proof Hst as [(w & Hw & Hskip) _]. intros Hne Hm. revert f.
  induction Hm as [|[k v] m [Hwf Hv] Hm IH]; intros f Hf; [done|].
  destruct f as [|f]; [lia|]. destruct m as [|kv2 m].
  - cbn [map join] in *.
    destruct (scan_pair_dumps (k, v) (String "}" r) f) as (s & u & -> & Hs & Hu);
      [done|done|by apply delim_close; right|lia|]. by eapply scan_pairs_close.
  - change (map pair_text ((k, v) :: kv2 :: m))
      with (pair_text (k, v) :: map pair_text (kv2 :: m)) in *.
    rewrite join_cons2 in * by done. rewrite !str_length_app in Hf.
    assert (1 ≤ String.length (item_sep st))%nat as Hlen by (rewrite Hw; simpl; lia).
    set (rest := join (item_sep st) (map pair_text (kv2 :: m))) in *.
    assert (head_ok rest) as Hrh.
    { unfold rest. assert (head_ok (pair_text kv2)) by by eexists _, _.
      destruct m; cbn [map join]; [done|by apply head_ok_app]. }
    rewrite <-!str_app_assoc, Hw.
    change (("," +:+ w) +:+ rest +:+ String "}" r)
      with (String "," (w +:+ rest +:+ String "}" r)).
    destruct (scan_pair_dumps (k, v) (String "," (w +:+ rest +:+ String "}" r)) f)
      as (s & u & -> & Hs & Hu); [done|done|by apply (delim_comma w)|lia|].
    cbn [String.append] in *.
    erewrite scan_pairs_comma by done.
    rewrite Hskip, skip_ws_head by done. by rewrite IH by (done || lia).
Qed.

Lemma scans_wf v : json_wf v → scans v.
Proof.
  induction v as [|b|z|lex|s|l IH|m IH] using json_ind; intros Hwf r f Hr Hf.
  - destruct f as [|f]; [simpl in Hf; lia|]. reflexivity.
  - destruct f as [|f]; [destruct b; simpl in Hf; lia|]. by destruct b.
  - destruct f as [|f]; [|by apply scan_value_int].
    exfalso. simpl in Hf. destruct (dec_head z) as (c & t & E & _). rewrite E in Hf.
    simpl in Hf. lia.
  - simpl in *. destruct Hwf as [Hlex (c & t & -> & _)].
    destruct f as [|f]; [simpl in Hf; lia|]. by apply Hlex.
  - destruct f as [|f]; [simpl in Hf; lia|]. apply scan_value_str.
  - apply json_wf_arr in Hwf.
    assert (Forall (λ v, json_wf v ∧ scans v) l) as Hl.
    { rewrite Forall_forall in *. intros x Hx. split; [by apply Hwf|by apply IH, Hwf]. }
    clear IH Hwf. cbn [dumps] in *. rewrite !str_length_app in Hf. simpl in Hf.
    destruct f as [|f]; [lia|]. destruct l as [|x l]; [reflexivity|].
    remember (join (item_sep st) (map (dumps st) (x :: l))) as body eqn:Hb.
    assert (head_ok body) as Hh.
    { rewrite Hb. apply Forall_cons in Hl as [[Hx _] _].
      destruct l; cbn [map join]; [by apply dumps_head|by apply head_ok_app, dumps_head]. }
    rewrite <-!str_app_assoc. apply scan_value_arr; cbn [String.append].
    + rewrite skip_ws_head by done. apply (head_not_close _ _ Hh).
    + rewrite skip_ws_head by done. rewrite Hb. apply scan_items_dumps; [done..|].
      rewrite <-Hb. lia.
  - apply json_wf_obj in Hwf as [Hnd Hwf].
    assert (Forall (λ kv, json_wf kv.2 ∧ scans kv.2) m) as Hm.
    { rewrite Forall_forall in *. intros x Hx. split; [by apply Hwf|by apply IH, Hwf]. }
    clear IH Hwf. cbn [dumps] in *. rewrite !str_length_app in Hf. simpl in Hf.
    destruct f as [|f]; [lia|]. destruct m as [|x m]; [reflexivity|].
    fold pair_text in *. change (map _ (x :: m)) with (map pair_text (x :: m)) in *.
    remember (join (item_sep st) (map pair_text (x :: m))) as body eqn:Hb.
    assert (head_ok body) as Hh.
    { rewrite Hb. destruct m; cbn [map join]; by eexists _, _. }
    rewrite <-!str_app_assoc. cbn [String.append].
    pose proof (foldl_dset_app (x :: m) [] Hnd) as Hfold. cbn [app] in Hfold.
    replace (JObj (x :: m)) with (JObj (foldl (λ d kv, dset kv.1 kv.2 d) [] (x :: m)))
      by by rewrite Hfold.
    apply scan_value_obj; rewrite skip_ws_head by done.
    + apply (head_not_close _ _ Hh).
    + rewrite Hb. apply scan_pairs_dumps; [done..|]. rewrite <-Hb. lia.
Qed.

(** [json.loads(json.dumps(v)) == v] *)
Lemma loads_dumps v : json_wf v → loads (dumps st v) = Some v.
Proof.
  intros Hwf. unfold loads.
  pose proof (skip_ws_head (dumps st v) "" (dumps_head st v Hwf)) as Hs.
  pose proof (scans_wf v Hwf "" (S (2 * String.length (dumps st v)))) as Hv.
  rewrite str_app_nil_r in *. rewrite Hs, Hv; [done|by left|lia].
Qed.

Lemma dumps_inj v1 v2 : json_wf v1 → json_wf v2 → dumps st v1 = dumps st v2 → v1 = v2.
Proof. intros H1 H2 Heq. apply (inj Some). by rewrite <-!loads_dumps, Heq. Qed.
End roundtrip.

(** ** Indented text *)

Lemma skip_new_line level s : skip_ws (new_line level +:+ s) = skip_ws s.
Proof. unfold new_line. cbn. induction level as [|[|level] IH]; [done..|]. cbn in *. exact IH. Qed.

Lemma delim_new_line level r : delim (new_line level +:+ r).
Proof. right. eexists line_feed, _. split; [reflexivity|auto]. Qed.

Definition scans_indented (level : nat) (v : json) : Prop :=
  ∀ r f, delim r → (2 * String.length (dumps_indent level v) ≤ f)%nat →
         scan_value f (dumps_indent level v +:+ r) = Some (v, r).

Lemma dumps_indent_head level v : json_wf v → head_ok (dumps_indent level v).
Proof.
  intros Hwf. pose proof (dumps_head compact v Hwf) as Hh.
  destruct v as [| | | | |[|]|[|]]; try exact Hh; by eexists _, _.
Qed.

Definition pair_indented (level : nat) (kv : string * json) : string :=
  quoted kv.1 +:+ ": " +:+ dumps_indent level kv.2.

Section indented.
Context (level : nat).
Notation sep := ("," +:+ new_line (S level)).

Lemma scan_items_indented l r f :
  l ≠ [] → Forall (λ v, json_wf v ∧ scans_indented (S level) v) l →
  (2 * String.length (join sep (map (dumps_indent (S level)) l)) + 1 ≤ f)%nat →
  scan_items f (join sep (map (dumps_indent (S level)) l) +:+ new_line level +:+ String "]" r) = Some (l, r).
Proof.
  intros Hne Hl. revert f. induction Hl as [|v l [Hwf Hv] Hl IH]; intros f Hf; [done|].
  destruct f as [|f]; [lia|]. destruct l as [|v2 l].
  - eapply scan_items_close_ws; [apply Hv; [apply delim_new_line|cbn [map join] in Hf; lia]|by rewrite skip_new_line].
  - change (map (dumps_indent (S level)) (v :: v2 :: l))
      with (dumps_indent (S level) v :: map (dumps_indent (S level)) (v2 :: l)) in *.
    rewrite join_cons2 in * by done. rewrite !str_length_app in Hf.
    set (rest := join sep (map (dumps_indent (S level)) (v2 :: l))) in *.
    assert (head_ok rest) as Hrh.
    { unfold rest. apply Forall_cons in Hl as [[Hwf2 _] _].
      destruct l; cbn [map join]; [by apply dumps_indent_head|by apply head_ok_app, dumps_indent_head]. }
    rewrite <-!str_app_assoc.
    rewrite (scan_items_comma f _ v (new_line (S level) +:+ rest +:+ new_line level +:+ String "]" r)).
    + rewrite skip_new_line, skip_ws_head by done. change (String.length ",") with 1%nat in Hf. by rewrite IH by (done || lia).
    + apply Hv; [right; eexists _, _; split; [reflexivity|auto]|lia].
Qed.

Lemma scan_pair_indented kv t f :
  json_wf kv.2 → scans_indented (S level) kv.2 → delim t → (2 * String.length (pair_indented (S level) kv) ≤ f)%nat →
  ∃ s u, pair_indented (S level) kv +:+ t = String quote s ∧ scan_str s = Some (kv.1, String ":" u) ∧
         scan_value f (skip_ws u) = Some (kv.2, t).
Proof.
  intros Hwf Hv Ht Hf. unfold pair_indented in *. rewrite !str_length_app in Hf.
  exists (esc_str kv.1 +:+ String quote (": " +:+ dumps_indent (S level) kv.2 +:+ t)),
    (" " +:+ dumps_indent (S level) kv.2 +:+ t). split_and!.
  - unfold quoted. cbn [String.append]. by rewrite <-!str_app_assoc.
  - by rewrite scan_str_esc.
  - change (skip_ws (" " +:+ dumps_indent (S level) kv.2 +:+ t)) with (skip_ws (dumps_indent (S level) kv.2 +:+ t)).
    rewrite skip_ws_head by by apply dumps_indent_head. apply Hv; [done|lia].
Qed.

Lemma scan_pairs_indented m r f :
  m ≠ [] → Forall (λ kv, json_wf kv.2 ∧ scans_indented (S level) kv.2) m →
  (2 * String.length (join sep (map (pair_indented (S level)) m)) + 1 ≤ f)%nat →
  scan_pairs f (join sep (map (pair_indented (S level)) m) +:+ new_line level +:+ String "}" r) = Some (m, r).
Proof.
  intros Hne Hm. revert f. induction Hm as [|[k v] m [Hwf Hv] Hm IH]; intros f Hf; [done|].
  destruct f as [|f]; [lia|]. destruct m as [|kv2 m].
  - cbn [map join] in *.
    destruct (scan_pair_indented (k, v) (new_line level +:+ String "}" r) f) as (s & u & -> & Hs & Hu);
      [done|done|apply delim_new_line|lia|]. eapply scan_pairs_close_ws; [done..|by rewrite skip_new_line].
  - change (map (pair_indented (S level)) ((k, v) :: kv2 :: m))
      with (pair_indented (S level) (k, v) :: map (pair_indented (S level)) (kv2 :: m)) in *.
    rewrite join_cons2 in * by done. rewrite !str_length_app in Hf.
    set (rest := join sep (map (pair_indented (S level)) (kv2 :: m))) in *.
    assert (head_ok rest) as Hrh.
    { unfold rest. assert (head_ok (pair_indented (S level) kv2)) by by eexists _, _.
      destruct m; cbn [map join]; [done|by apply head_ok_app]. }
    rewrite <-!str_app_assoc.
    destruct (scan_pair_indented (k, v) ("," +:+ new_line (S level) +:+ rest +:+ new_line level +:+ String "}" r) f)
      as (s & u & -> & Hs & Hu); [done|done|right; eexists _, _; split; [reflexivity|auto]|lia|].
    erewrite scan_pairs_comma; [|exact Hs|exact Hu].
    rewrite skip_new_line, skip_ws_head by done. change (String.length ",") with 1%nat in Hf. by rewrite IH by (done || lia).
Qed.
End indented.

Lemma scans_indented_wf v level : json_wf v → scans_indented level v.
Proof.
  revert level. induction v as [|b|z|lex|s|l IH|m IH] using json_ind; intros level Hwf;
    try exact (scans_wf compact compact_ok _ Hwf); intros r f Hr Hf.
  - destruct l as [|x l]; [exact (scans_wf compact compact_ok _ Hwf r f Hr Hf)|].
    apply json_wf_arr in Hwf.
    assert (Forall (λ v, json_wf v ∧ scans_indented (S level) v) (x :: l)) as Hl.
    { rewrite Forall_forall in *. intros y Hy. split; [by apply Hwf|by apply IH, Hwf]. }
    clear IH Hwf. cbn [dumps_indent] in *. rewrite !str_length_app in Hf. cbn [String.length] in Hf.
    destruct f as [|f]; [lia|].
    remember (join ("," +:+ new_line (S level)) (map (dumps_indent (S level)) (x :: l))) as body eqn:Hb.
    assert (head_ok body) as Hh.
    { rewrite Hb. apply Forall_cons in Hl as [[Hx _] _].
      destruct l; cbn [map join]; [by apply dumps_indent_head|by apply head_ok_app, dumps_indent_head]. }
    rewrite <-!str_app_assoc.
    cbn [String.append]. apply scan_value_arr; rewrite skip_new_line, skip_ws_head by done.
    + apply (head_not_close _ _ Hh).
    + rewrite Hb. apply scan_items_indented; [done..|]. rewrite <-Hb. lia.
  - destruct m as [|x m]; [exact (scans_wf compact compact_ok _ Hwf r f Hr Hf)|].
    apply json_wf_obj in Hwf as [Hnd Hwf].
    assert (Forall (λ kv, json_wf kv.2 ∧ scans_indented (S level) kv.2) (x :: m)) as Hm.
    { rewrite Forall_forall in *. intros y Hy. split; [by apply Hwf|by apply IH, Hwf]. }
    clear IH Hwf. cbn [dumps_indent] in *. rewrite !str_length_app in Hf. cbn [String.length] in Hf.
    destruct f as [|f]; [lia|]. fold (pair_indented (S level)) in *.
    change (map _ (x :: m)) with (map (pair_indented (S level)) (x :: m)) in *.
    remember (join ("," +:+ new_line (S level)) (map (pair_indented (S level)) (x :: m))) as body eqn:Hb.
    assert (head_ok body) as Hh.
    { rewrite Hb. destruct m; cbn [map join]; by eexists _, _. }
    rewrite <-!str_app_assoc.
    pose proof (foldl_dset_app (x :: m) [] Hnd) as Hfold. cbn [app] in Hfold.
    replace (JObj (x :: m)) with (JObj (foldl (λ d kv, dset kv.1 kv.2 d) [] (x :: m))) by by rewrite Hfold.
    cbn [String.append]. apply scan_value_obj; rewrite skip_new_line, skip_ws_head by done.
    + apply (head_not_close _ _ Hh).
    + rewrite Hb. apply scan_pairs_indented; [done..|]. rewrite <-Hb. lia.
Qed.

(** [json.loads(json.dumps(v, indent=2)) == v] *)
Lemma loads_dumps_indent v : json_wf v → loads (dumps_indent 0 v) = Some v.
Proof.
  intros Hwf. unfold loads.
  pose proof (skip_ws_head (dumps_indent 0 v) "" (dumps_indent_head 0 v Hwf)) as Hs.
  pose proof (scans_indented_wf v 0 Hwf "" (S (2 * String.length (dumps_indent 0 v)))) as Hv.
  rewrite str_app_nil_r in *. rewrite Hs, Hv; [done|by left|lia].
Qed.

(** ** [sort_keys] *)

Lemma insert_key_perm kv m : insert_key kv m ≡ₚ kv :: m.
Proof.
  induction m as [|x m IH]; simpl; [done|]. destruct (String.leb kv.1 x.1); [done|].
  rewrite IH. apply Permutation_swap.
Qed.

Lemma foldr_insert_key_perm m : foldr insert_key [] m ≡ₚ m.
Proof. induction m; simpl; [done|]. by rewrite insert_key_perm, IHm. Qed.

Lemma sort_keys_wf v : json_wf v → json_wf (sort_keys v).
Proof.
  induction v as [|b|z|lex|s|l IH|m IH] using json_ind; intros Hwf; try done.
  - apply json_wf_arr in Hwf. cbn [sort_keys]. apply json_wf_arr.
    rewrite Forall_forall in *. intros x (y & -> & Hy)%list_elem_of_fmap. auto.
  - apply json_wf_obj in Hwf as [Hnd Hwf]. cbn [sort_keys]. apply json_wf_obj. split.
    + rewrite foldr_insert_key_perm. by rewrite <-list_fmap_compose.
    + rewrite foldr_insert_key_perm. rewrite Forall_forall in *.
      intros x (y & -> & Hy)%list_elem_of_fmap. simpl. auto.
Qed.

Lemma leb_total_ne a b : a ≠ b → String.leb a b = negb (String.leb b a).
Proof.
  intros Hne. unfold String.leb. rewrite (String.compare_antisym b a).
  destruct (String.compare a b) eqn:E; simpl; [|done|done].
  by apply String.compare_eq_iff in E.
Qed.

Lemma leb_trans a b c : String.leb a b = true → String.leb b c = true → String.leb a c = true.
Proof.
  pose proof (λ x y, str_lt_le x y) as Hlt. intros H1 H2.
  assert (String.le a c) as H; [|unfold String.le in H; destruct (String.leb a c); done].
  transitivity b; unfold String.le; [by rewrite H1|by rewrite H2].
Qed.

Lemma insert_key_comm x y m :
  x.1 ≠ y.1 → insert_key x (insert_key y m) = insert_key y (insert_key x m).
Proof.
  intros Hne. pose proof (leb_total_ne _ _ Hne) as Hxy.
  induction m as [|z m IH]; simpl.
  { rewrite Hxy. by destruct (String.leb y.1 x.1). }
  destruct (String.leb y.1 z.1) eqn:Ey, (String.leb x.1 z.1) eqn:Ex; simpl; rewrite ?Ex, ?Ey.
  - rewrite Hxy. by destruct (String.leb y.1 x.1).
  - destruct (String.leb x.1 y.1) eqn:E; [|done].
    rewrite (leb_trans _ _ _ E Ey) in Ex. done.
  - destruct (String.leb y.1 x.1) eqn:E; [|done]. rewrite (leb_trans _ _ _ E Ex) in Ey. done.
  - by rewrite IH.
Qed.

(** Objects that differ in the order of their (distinct) keys have one sorted form. *)
Lemma foldr_insert_key_ext m1 m2 :
  NoDup (m1.*1) → m1 ≡ₚ m2 → foldr insert_key [] m1 = foldr insert_key [] m2.
Proof.
  intros Hnd Hp. induction Hp as [|x m1 m2 Hp IH|x y m|m1 m2 m3 Hp1 IH1 Hp2 IH2]; simpl in *.
  - done.
  - apply NoDup_cons in Hnd as [_ ?]. by rewrite IH.
  - apply insert_key_comm. apply NoDup_cons in Hnd as [Hn _]. set_solver.
  - rewrite IH1 by done. apply IH2. by rewrite <-Hp1.
Qed.

Lemma sort_keys_perm m1 m2 :
  NoDup (m1.*1) → m1 ≡ₚ m2 → sort_keys (JObj m1) = sort_keys (JObj m2).
Proof.
  intros Hnd Hp. cbn [sort_keys]. f_equal. apply foldr_insert_key_ext; [|by apply fmap_Permutation].
  by rewrite <-list_fmap_compose.
Qed.

(** ** [json.loads] of bytes

    [json.detect_encoding] followed by the decoding it selects.  The strings of the model are over
    U+0000..U+00FF, and so are the texts decoded here. *)

Fixpoint utf16_latin (big : bool) (b : string) : option string :=
  match b with
  | EmptyString => Some EmptyString
  | String x (String y r) =>
      let '(hi, lo) := if big then (x, y) else (y, x) in
      if ascii_dec hi zero then String lo <$> utf16_latin big r else None
  | _ => None
  end.

Fixpoint utf32_latin (big : bool) (b : string) : option string :=
  match b with
  | EmptyString => Some EmptyString
  | String x (String y (String z (String w r))) =>
      let '(h1, h2, h3, lo) := if big then (x, y, z, w) else (w, z, y, x) in
      if String.eqb (String h1 (String h2 (String h3 EmptyString)))
           (String zero (String zero (String zero EmptyString)))
      then String lo <$> utf32_latin big r else None
  | _ => None
  end.

Definition byte_str (l : list nat) : string :=
  foldr (λ n s, String (ascii_of_nat n) s) EmptyString l.

Definition is_nul (s : string) : bool :=
  match s with String c _ => bool_decide (c = zero) | EmptyString => false end.

Definition decode_detected (b : string) : option string :=
  let at_ n := is_nul (drop_str n b) in
  let len := String.length b in
  if starts_with (byte_str [0; 0; 254; 255]%nat) b then utf32_latin true (drop_str 4 b)
  else if starts_with (byte_str [255; 254; 0; 0]%nat) b then utf32_latin false (drop_str 4 b)
  else if starts_with (byte_str [254; 255]%nat) b then utf16_latin true (drop_str 2 b)
  else if starts_with (byte_str [255; 254]%nat) b then utf16_latin false (drop_str 2 b)
  else if starts_with (byte_str [239; 187; 191]%nat) b then utf8_decode (drop_str 3 b)
  else if (4 <=? len)%nat && at_ 0%nat then
    if at_ 1%nat then utf32_latin true b else utf16_latin true b
  else if (4 <=? len)%nat && at_ 1%nat then
    if at_ 2%nat && at_ 3%nat then utf32_latin false b else utf16_latin false b
  else if (len =? 2)%nat && at_ 0%nat then utf16_latin true b
  else if (len =? 2)%nat && at_ 1%nat then utf16_latin false b
  else utf8_decode b.

Definition loads_bytes (b : string) : option json := decode_detected b ≫= loads.

(** Printable ASCII: neither a NUL nor the first byte of a byte-order mark. *)
Definition plain (c : ascii) : bool :=
  let n := nat_of_ascii c in (0 <? n)%nat && (n <? 128)%nat.

Lemma decode_detected_plain c d r :
  plain c = true → plain d = true →
  decode_detected (String c (String d r)) = utf8_decode (String c (String d r)).
Proof.
  intros Hc Hd. unfold decode_detected.
  assert (∀ n p s, (128 ≤ n < 256)%nat → starts_with (String (ascii_of_nat n) p) (String c s) = false)
    as Hbom.
  { intros n p s Hn. cbn [starts_with]. destruct (ascii_dec _ _) as [E|]; [|done].
    unfold plain in Hc. rewrite <-E, nat_ascii_embedding in Hc by lia.
    rewrite (proj2 (Nat.ltb_ge n 128)) in Hc by lia. by rewrite andb_false_r in Hc. }
  assert (∀ x s, plain x = true → is_nul (String x s) = false) as Hnul.
  { intros x s Hx. simpl. apply bool_decide_eq_false. by intros ->. }
  change (drop_str 0 ?s) with s. change (drop_str 1 (String c ?s)) with s.
  rewrite !Hnul by done. unfold byte_str; simpl foldr.
  replace (starts_with (String (ascii_of_nat 0) _) _) with false.
  - rewrite !Hbom by lia. by rewrite !andb_false_r.
  - symmetry. cbn [starts_with]. destruct (ascii_dec _ _) as [E|]; [|done]. by rewrite <-E in Hc.
Qed.

(** ** [str] and [repr] of a value

    The text Python gives a decoded JSON value: what [str(v)] and the [!r] of a format string print.  A
    float lexeme is the one [repr] prints, up to the names of the infinities. *)

Definition unprintable (c : ascii) : bool :=
  let n := nat_of_ascii c in
  (n <? 32)%nat || (n =? 127)%nat || ((127 <? n)%nat && (n <? 161)%nat) || (n =? 173)%nat.

Definition repr_char (q c : ascii) : string :=
  let n := nat_of_ascii c in
  if bool_decide (c = q) || (n =? 92)%nat then String backslash (String c EmptyString)
  else if (n =? 9)%nat then esc2 "t"%char
  else if (n =? 10)%nat then esc2 "n"%char
  else if (n =? 13)%nat then esc2 "r"%char
  else if unprintable c then String backslash (String "x"%char (to_hex (String c EmptyString)))
  else String c EmptyString.

Definition apostrophe : ascii := ascii_of_nat 39.

Definition py_repr_str (s : string) : string :=
  let q := if char_in apostrophe s && negb (char_in quote s) then quote else apostrophe in
  let body := (fix go s := match s with
                           | EmptyString => EmptyString
                           | String c s' => repr_char q c +:+ go s'
                           end) s in
  String q (body +:+ String q EmptyString).

Definition py_float_text (lex : string) : string :=
  if String.eqb lex "NaN" then "nan"
  else if String.eqb lex "Infinity" then "inf"
  else if String.eqb lex "-Infinity" then "-inf" else lex.

Fixpoint py_repr (v : json) : string :=
  match v with
  | JNull => "None"
  | JBool true => "True"
  | JBool false => "False"
  | JInt z => dec z
  | JFloat lex => py_float_text lex
  | JStr s => py_repr_str s
  | JArr l => "[" +:+ join ", " (map py_repr l) +:+ "]"
  | JObj m => "{" +:+ join ", " (map (λ kv, py_repr_str kv.1 +:+ ": " +:+ py_repr kv.2) m) +:+ "}"
  end.

Definition py_str (v : json) : string := match v with JStr s => s | _ => py_repr v end.

(** Truth value. *)
Definition py_truthy (v : json) : bool :=
  match v with
  | JNull => false
  | JBool b => b
  | JInt z => negb (z =? 0)%Z
  | JFloat lex => ftruthy (float_of_lexeme lex)
  | JStr s => str_truthy s
  | JArr l => match l with [] => false | _ => true end
  | JObj m => match m with [] => false | _ => true end
  end.

(** [d.get(k) or ..]: the value under a key when it is true. *)
Definition get_truthy (k : string) (d : list (string * json)) : option json :=
  match dget k d with Some v => if py_truthy v then Some v else None | None => None end.
