(* ===== verification/Verdicts.v ===== *)
(** * Verdicts, severities, flags and operator checks

    Models [auditor/verdicts/]: [schemas.py] (the data), [severity.py] ([classify],
    [score_severity]), [aggregator.py] ([aggregate], which reduces the verdicts of a run to a flag)
    and [checks.py] (the four operator-facing lenses). *)

From Stdlib Require Import ZArith Lia Ascii SpecFloat.
From Stdlib Require String.
From stdpp Require Import base tactics option list strings sets sorting.
From S2P Require Import Prelude PyStr Float64 Json.

(** ** Data ([schemas.py]) *)

Inductive VerdictResult := VIOLATION | OK | NEEDS_REVIEW.
Inductive Severity := LOW | MEDIUM | HIGH | CRITICAL.

#[export] Instance VerdictResult_eq_dec : EqDecision VerdictResult.
Proof. solve_decision. Defined.
#[export] Instance Severity_eq_dec : EqDecision Severity.
Proof. solve_decision. Defined.

(** The value of a [StrEnum] member, and the lookup of a member by value ([Severity(s)]). *)
Definition VerdictResult_value (r : VerdictResult) : string :=
  match r with VIOLATION => "VIOLATION" | OK => "OK" | NEEDS_REVIEW => "NEEDS_REVIEW" end.

Definition Severity_value (s : Severity) : string :=
  match s with LOW => "low" | MEDIUM => "medium" | HIGH => "high" | CRITICAL => "critical" end.

Definition Severity_of_value (s : string) : option Severity :=
  if String.eqb s "low" then Some LOW
  else if String.eqb s "medium" then Some MEDIUM
  else if String.eqb s "high" then Some HIGH
  else if String.eqb s "critical" then Some CRITICAL
  else None.

Record Evidence := { ev_event_id : option uuid; ev_reason : string }.

Record Verdict := {
  v_verdict_id : uuid;
  v_run_id : uuid;
  v_tenant_id : uuid;
  v_detector : string;
  v_asi_category : string;
  v_result : VerdictResult;
  v_confidence : f64;
  v_evidence : list Evidence;
  v_judge_model : option string;
  v_judge_prompt_v : option Z;
  v_rubric_scores : option (list (string * json));
  v_ts : datetime
}.

(** [v.result != VerdictResult.OK] *)
Definition not_ok (v : Verdict) : bool := negb (bool_decide (v_result v = OK)).

(** ** Severity ([severity.py]) *)

Definition severity_order (s : Severity) : Z :=
  match s with LOW => 0 | MEDIUM => 1 | HIGH => 2 | CRITICAL => 3 end.

Definition CRITICAL_CATEGORIES : list string := ["ASI04"; "ASI07"].
Definition HIGH_CONFIDENCE : f64 := ratio 3 4.

(** [float(x or d)] *)
Definition f_or (x d : f64) : f64 := if ftruthy x then x else d.

Definition classify (v : Verdict) : option Severity :=
  match v_result v with
  | OK => None
  | NEEDS_REVIEW => Some LOW
  | VIOLATION =>
      let explicit :=
        match dget "severity" (default [] (v_rubric_scores v)) with
        | Some (JStr s) => Severity_of_value s
        | _ => None
        end in
      match explicit with
      | Some s => Some s
      | None =>
          if String.eqb (v_detector v) "channel_divergence"
             || bool_decide (v_asi_category v ∈ CRITICAL_CATEGORIES)
          then Some CRITICAL
          else if fleb HIGH_CONFIDENCE (f_or (v_confidence v) fzero) then Some HIGH
          else Some MEDIUM
      end
  end.

Definition score_severity (verdicts : list Verdict) : Severity :=
  match omap classify verdicts with
  | [] => LOW
  | s :: ss => max_by severity_order s ss
  end.

(** ** The aggregator ([aggregator.py]) *)

Definition JUDGE_DETECTORS : list string :=
  ["asi01_goal_hijack"; "asi06_memory_poisoning"; "asi09_trust_exploit"; "asi10_rogue_agent"].

Record Flag := {
  flag_id : uuid;
  f_run_id : uuid;
  f_tenant_id : uuid;
  f_severity : Severity;
  f_asi_categories : list string;
  f_verdict_ids : list uuid;
  f_status : string;
  f_confidence : f64;
  f_evidence : list Evidence;
  f_created_at : datetime
}.

Definition verdict_weight (v : Verdict) : f64 :=
  if bool_decide (v_detector v ∈ JUDGE_DETECTORS) then f_or (v_confidence v) fzero else of_Z 1.

Definition weighted_confidence (verdicts : list Verdict) : f64 :=
  let weights := map verdict_weight verdicts in
  let confs := map (λ v, fmul (f_or (v_confidence v) (of_Z 1)) (verdict_weight v)) verdicts in
  if ftruthy (fsum weights) then fdiv (fsum confs) (fsum weights) else of_Z 1.

(** [(str(e.event_id), e.reason)]; the text of [None] is the string None. *)
Definition evidence_key (e : Evidence) : string * string :=
  (default "None" (ev_event_id e), ev_reason e).

Definition dedup_evidence (verdicts : list Verdict) : list Evidence :=
  dedup_from evidence_key [] (mjoin (map v_evidence verdicts)).

(** [aggregate(run_id, tenant_id, verdicts)]; [fresh] and [now] are the values of the default factories
    [uuid7()] and [datetime.now()]. *)
Definition aggregate (fresh : uuid) (now : datetime) (run_id tenant_id : uuid)
    (verdicts : list Verdict) : option Flag :=
  match bfilter not_ok verdicts with
  | [] => None
  | actionable =>
      Some {| flag_id := fresh;
              f_run_id := run_id;
              f_tenant_id := tenant_id;
              f_severity := score_severity actionable;
              f_asi_categories := sorted_set (map v_asi_category actionable);
              f_verdict_ids := map v_verdict_id actionable;
              f_status := "open";
              f_confidence := fround 4 (weighted_confidence actionable);
              f_evidence := dedup_evidence actionable;
              f_created_at := now |}
  end.

(** ** Operator checks ([checks.py]) *)

Inductive Check := INSTRUCTION_FOLLOWING | UNAUTHORIZED_ACCESS | DATA_EXFILTRATION | SENSITIVE_DATA_HYGIENE.

#[export] Instance Check_eq_dec : EqDecision Check.
Proof. solve_decision. Defined.

Definition Check_value (c : Check) : string :=
  match c with
  | INSTRUCTION_FOLLOWING => "instruction_following"
  | UNAUTHORIZED_ACCESS => "unauthorized_access"
  | DATA_EXFILTRATION => "data_exfiltration"
  | SENSITIVE_DATA_HYGIENE => "sensitive_data_hygiene"
  end.

Definition CHECK_TITLES (c : Check) : string :=
  match c with
  | INSTRUCTION_FOLLOWING => "Instruction Following"
  | UNAUTHORIZED_ACCESS => "Unauthorized Access"
  | DATA_EXFILTRATION => "Data Exfiltration"
  | SENSITIVE_DATA_HYGIENE => "Sensitive-Data Hygiene"
  end.

Definition DETECTOR_CHECK : list (string * Check) :=
  [("instruction_following", INSTRUCTION_FOLLOWING);
   ("asi01_goal_hijack", INSTRUCTION_FOLLOWING);
   ("asi10_rogue_agent", INSTRUCTION_FOLLOWING);
   ("asi09_trust_exploit", INSTRUCTION_FOLLOWING);
   ("asi02_tool_misuse", UNAUTHORIZED_ACCESS);
   ("asi03_identity_abuse", UNAUTHORIZED_ACCESS);
   ("asi04_supply_chain", UNAUTHORIZED_ACCESS);
   ("asi04_catalog_integrity", UNAUTHORIZED_ACCESS);
   ("asi05_code_execution", UNAUTHORIZED_ACCESS);
   ("asi08_cascading", UNAUTHORIZED_ACCESS);
   ("asi07_inter_agent", DATA_EXFILTRATION);
   ("channel_divergence", DATA_EXFILTRATION);
   ("asi06_memory_poisoning", SENSITIVE_DATA_HYGIENE)].

Definition CATEGORY_CHECK : list (string * Check) :=
  [("INSTRUCTION_FOLLOWING", INSTRUCTION_FOLLOWING);
   ("ASI01", INSTRUCTION_FOLLOWING);
   ("ASI10", INSTRUCTION_FOLLOWING);
   ("ASI09", INSTRUCTION_FOLLOWING);
   ("ASI02", UNAUTHORIZED_ACCESS);
   ("ASI03", UNAUTHORIZED_ACCESS);
   ("ASI04", UNAUTHORIZED_ACCESS);
   ("ASI05", UNAUTHORIZED_ACCESS);
   ("ASI08", UNAUTHORIZED_ACCESS);
   ("ASI07", DATA_EXFILTRATION);
   ("ASI06", SENSITIVE_DATA_HYGIENE)].

Definition check_for_detector (detector : string) (asi_category : option string) : option Check :=
  match dget detector DETECTOR_CHECK with
  | Some c => Some c
  | None =>
      match asi_category with
      | Some cat => if str_truthy cat then dget cat CATEGORY_CHECK else None
      | None => None
      end
  end.

(** One step of the loop: [grouped.setdefault(check.value, []).append(verdict)]. *)
Definition group_verdict (grouped : list (string * list Verdict)) (v : Verdict)
    : list (string * list Verdict) :=
  if negb (not_ok v) then grouped
  else
    match check_for_detector (v_detector v) (Some (v_asi_category v)) with
    | None => grouped
    | Some c =>
        dset (Check_value c) (default [] (dget (Check_value c) grouped) ++ [v]) grouped
    end.

Definition checks_for_verdicts (verdicts : list Verdict) : list (string * list Verdict) :=
  foldl group_verdict [] verdicts.

(** ** Severity of a run *)

Implicit Types (vs : list Verdict) (v : Verdict).

Lemma severity_order_inj s1 s2 : severity_order s1 = severity_order s2 → s1 = s2.
Proof. by destruct s1, s2. Qed.

Lemma classify_ok v : classify v = None ↔ v_result v = OK.
Proof.
  unfold classify. destruct (v_result v); [|done|done].
  destruct (match dget _ _ with Some (JStr s) => Severity_of_value s | _ => None end); [done|].
  destruct (_ || _); [done|]. by destruct (fleb HIGH_CONFIDENCE _).
Qed.

Lemma elem_of_omap_classify s vs : s ∈ omap classify vs ↔ ∃ v, v ∈ vs ∧ classify v = Some s.
Proof. apply list_elem_of_omap. Qed.

Lemma score_severity_upper vs v s :
  v ∈ vs → classify v = Some s → (severity_order s ≤ severity_order (score_severity vs))%Z.
Proof.
  intros Hv Hs. assert (s ∈ omap classify vs) as Hin by (apply elem_of_omap_classify; eauto).
  unfold score_severity. destruct (omap classify vs) as [|s0 ss]; [set_solver|].
  by apply max_by_spec.
Qed.

Lemma score_severity_attained vs :
  (∃ v, v ∈ vs ∧ v_result v ≠ OK) →
  ∃ v, v ∈ vs ∧ classify v = Some (score_severity vs).
Proof.
  intros (v & Hv & Hr). destruct (classify v) as [s|] eqn:Hs; [|by apply classify_ok in Hs].
  assert (s ∈ omap classify vs) as Hin by (apply elem_of_omap_classify; eauto).
  unfold score_severity. rewrite <-elem_of_omap_classify.
  destruct (omap classify vs) as [|s0 ss]; [set_solver|]. apply max_by_spec.
Qed.

(** The severity of a run depends on the set of its verdicts only. *)
Lemma score_severity_ext vs1 vs2 :
  (∀ v, v ∈ vs1 ↔ v ∈ vs2) → score_severity vs1 = score_severity vs2.
Proof.
  intros Hext.
  destruct (decide (Exists (λ v, v_result v ≠ OK) vs1)) as [Hex|Hex].
  - rewrite Exists_exists in Hex. destruct Hex as (v & Hv & Hr).
    destruct (score_severity_attained vs1) as (v1 & H1 & E1); [eauto|].
    destruct (score_severity_attained vs2) as (v2 & H2 & E2);
      [exists v; split; [by apply Hext|done]|].
    apply severity_order_inj, Z.le_antisymm.
    + eapply score_severity_upper; [by apply Hext, H1|done].
    + eapply score_severity_upper; [by apply Hext, H2|done].
  - assert (∀ vs, (∀ v, v ∈ vs → v ∈ vs1) → omap classify vs = []) as Hnil.
    { intros vs Hsub. apply elem_of_nil_inv. intros s (v & Hv & Hs)%elem_of_omap_classify.
      apply Hex, Exists_exists. exists v. split; [auto|]. intros Hr.
      by rewrite (proj2 (classify_ok v) Hr) in Hs. }
    unfold score_severity. rewrite (Hnil vs1), (Hnil vs2); naive_solver.
Qed.

Lemma not_ok_spec v : not_ok v = true ↔ v_result v ≠ OK.
Proof. unfold not_ok. by rewrite negb_true_iff, bool_decide_eq_false. Qed.

Lemma elem_of_actionable vs v : v ∈ bfilter not_ok vs ↔ v_result v ≠ OK ∧ v ∈ vs.
Proof. by rewrite elem_of_bfilter, not_ok_spec. Qed.

Section aggregate.
Context (fresh : uuid) (now : datetime) (run_id tenant_id : uuid).

Lemma aggregate_Some vs f :
  aggregate fresh now run_id tenant_id vs = Some f →
  f = {| flag_id := fresh; f_run_id := run_id; f_tenant_id := tenant_id;
         f_severity := score_severity (bfilter not_ok vs);
         f_asi_categories := sorted_set (map v_asi_category (bfilter not_ok vs));
         f_verdict_ids := map v_verdict_id (bfilter not_ok vs);
         f_status := "open";
         f_confidence := fround 4 (weighted_confidence (bfilter not_ok vs));
         f_evidence := dedup_evidence (bfilter not_ok vs);
         f_created_at := now |}.
Proof. unfold aggregate. destruct (bfilter not_ok vs); [done|]. by intros [= <-]. Qed.

Lemma aggregate_is_None vs : aggregate fresh now run_id tenant_id vs = None ↔ bfilter not_ok vs = [].
Proof. unfold aggregate. by destruct (bfilter not_ok vs). Qed.

(** Verdicts that all classify to one severity give a flag of that severity. *)
Lemma aggregate_uniform vs s :
  vs ≠ [] → (∀ v, v ∈ vs → classify v = Some s) →
  ∃ f, aggregate fresh now run_id tenant_id vs = Some f ∧ f_severity f = s ∧
       f_run_id f = run_id ∧ f_tenant_id f = tenant_id.
Proof.
  intros Hne Hall. destruct (aggregate fresh now run_id tenant_id vs) as [f|] eqn:E.
  - exists f. apply aggregate_Some in E as ->. split_and!; [done| |done..]. cbn.
    destruct vs as [|v vs]; [done|]. assert (v_result v ≠ OK) as Hv.
    { intros Hv%classify_ok. rewrite Hall in Hv; [done|left]. }
    destruct (score_severity_attained (bfilter not_ok (v :: vs))) as (w & Hw & Hs).
    { exists v. rewrite elem_of_actionable. split_and!; [done|left|done]. }
    apply elem_of_actionable in Hw as [_ Hw]. apply Hall in Hw. congruence.
  - exfalso. rewrite aggregate_is_None, bfilter_nil in E. destruct vs as [|v vs]; [done|].
    specialize (E v ltac:(left)). unfold not_ok in E.
    apply negb_false_iff, bool_decide_eq_true, classify_ok in E. rewrite Hall in E; [done|left].
Qed.

Lemma elem_of_dedup_evidence vs k :
  k ∈ (evidence_key <$> dedup_evidence vs) ↔
  ∃ v e, v ∈ vs ∧ e ∈ v_evidence v ∧ evidence_key e = k.
Proof.
  unfold dedup_evidence. rewrite dedup_from_keys, list_elem_of_fmap. split.
  - intros [(e & -> & He) _]. apply list_elem_of_join in He as (l & He & Hl).
    apply list_elem_of_fmap in Hl as (v & -> & Hv). eauto.
  - intros (v & e & Hv & He & <-). split; [|set_solver]. exists e. split; [done|].
    apply list_elem_of_join. exists (v_evidence v). split; [done|].
    apply list_elem_of_fmap. eauto.
Qed.

(** C1: a run is flagged exactly when some detector returned something else than OK, and the flag
    then carries: the largest severity any of its verdicts classifies to; the strictly sorted set of
    the categories of the non-OK verdicts; their ids, in order; and each piece of their evidence
    once, none lost. *)
Theorem aggregate_correct vs :
  (aggregate fresh now run_id tenant_id vs = None ↔ ∀ v, v ∈ vs → v_result v = OK) ∧
  ∀ f, aggregate fresh now run_id tenant_id vs = Some f →
    (∀ v s, v ∈ vs → classify v = Some s → (severity_order s ≤ severity_order (f_severity f))%Z) ∧
    (∃ v, v ∈ vs ∧ classify v = Some (f_severity f)) ∧
    StronglySorted str_lt (f_asi_categories f) ∧
    (∀ c, c ∈ f_asi_categories f ↔ ∃ v, v ∈ vs ∧ v_result v ≠ OK ∧ v_asi_category v = c) ∧
    f_verdict_ids f = map v_verdict_id (bfilter not_ok vs) ∧
    NoDup (evidence_key <$> f_evidence f) ∧
    (∀ k, k ∈ (evidence_key <$> f_evidence f) ↔
          ∃ v e, v ∈ vs ∧ v_result v ≠ OK ∧ e ∈ v_evidence v ∧ evidence_key e = k).
Proof.
  split.
  { rewrite aggregate_is_None, bfilter_nil. unfold not_ok.
    setoid_rewrite negb_false_iff. by setoid_rewrite bool_decide_eq_true. }
  intros f Hf. assert (bfilter not_ok vs ≠ []) as Hne.
  { intros H%aggregate_is_None. congruence. }
  apply aggregate_Some in Hf as ->. cbn. split_and!.
  - intros v s Hv Hs. eapply score_severity_upper; [|done]. apply elem_of_actionable.
    split; [|done]. intros Hr%classify_ok. congruence.
  - destruct (score_severity_attained (bfilter not_ok vs)) as (v & Hv & Hs).
    { destruct (bfilter not_ok vs) as [|v l] eqn:E; [done|]. exists v. split; [left|].
      apply (elem_of_actionable vs). rewrite E. left. }
    exists v. split; [by apply elem_of_actionable in Hv as [_ ?]|done].
  - apply sorted_set_sorted.
  - intros c. rewrite elem_of_sorted_set, list_elem_of_fmap.
    setoid_rewrite elem_of_actionable. naive_solver.
  - done.
  - apply dedup_from_NoDup.
  - intros k. rewrite elem_of_dedup_evidence. setoid_rewrite elem_of_actionable. naive_solver.
Qed.

(** The order in which the concurrent detectors return their verdicts changes neither whether
    a run is flagged, nor the severity of the flag, nor its categories. *)
Theorem aggregate_order_insensitive vs1 vs2 :
  vs1 ≡ₚ vs2 →
  (λ f, (f_severity f, f_asi_categories f)) <$> aggregate fresh now run_id tenant_id vs1 =
  (λ f, (f_severity f, f_asi_categories f)) <$> aggregate fresh now run_id tenant_id vs2.
Proof.
  intros Hp.
  assert (∀ v, v ∈ bfilter not_ok vs1 ↔ v ∈ bfilter not_ok vs2) as Hext.
  { intros v. rewrite !elem_of_actionable. by rewrite Hp. }
  destruct (aggregate fresh now run_id tenant_id vs1) as [f1|] eqn:E1, (aggregate fresh now run_id tenant_id vs2) as [f2|] eqn:E2; try done.
  - apply aggregate_Some in E1 as ->. apply aggregate_Some in E2 as ->. cbn. f_equal. f_equal.
    + by apply score_severity_ext.
    + apply sorted_set_ext. intros c. rewrite !list_elem_of_fmap. by setoid_rewrite Hext.
  - exfalso. rewrite aggregate_is_None, bfilter_nil in E2.
    assert (aggregate fresh now run_id tenant_id vs1 = None); [|congruence]. rewrite aggregate_is_None, bfilter_nil.
    intros v Hv. apply E2. by rewrite <-Hp.
  - exfalso. rewrite aggregate_is_None, bfilter_nil in E1.
    assert (aggregate fresh now run_id tenant_id vs2 = None); [|congruence]. rewrite aggregate_is_None, bfilter_nil.
    intros v Hv. apply E1. by rewrite Hp.
Qed.
End aggregate.

(** ** The operator checks partition the findings *)

#[export] Instance Check_value_inj : Inj (=) (=) Check_value.
Proof. by intros [] []. Qed.

Definition under_check (c : Check) (v : Verdict) : bool :=
  not_ok v && bool_decide (check_for_detector (v_detector v) (Some (v_asi_category v)) = Some c).

Lemma group_verdict_lookup grouped v c :
  default [] (dget (Check_value c) (group_verdict grouped v)) =
  default [] (dget (Check_value c) grouped) ++ bfilter (under_check c) [v].
Proof.
  unfold group_verdict, under_check, bfilter. rewrite filter_cons, filter_nil.
  destruct (not_ok v); simpl; [|by rewrite app_nil_r].
  destruct (check_for_detector _ _) as [c'|]; simpl; [|by rewrite app_nil_r].
  rewrite dget_dset. destruct (decide (c' = c)) as [->|Hne].
  - rewrite !decide_True by first [done|by apply bool_decide_eq_true]. done.
  - rewrite decide_False by (intros ?%(inj _); done).
    rewrite decide_False by (rewrite bool_decide_eq_true; congruence). by rewrite app_nil_r.
Qed.

Lemma group_verdict_keys grouped v :
  NoDup (dkeys grouped) ∧ (∀ k, k ∈ dkeys grouped → ∃ c, k = Check_value c) →
  NoDup (dkeys (group_verdict grouped v)) ∧
  (∀ k, k ∈ dkeys (group_verdict grouped v) → ∃ c, k = Check_value c).
Proof.
  intros [Hnd Hk]. unfold group_verdict. destruct (negb _); [done|].
  destruct (check_for_detector _ _) as [c|]; [|done]. split; [auto with auditor|].
  intros k. rewrite dkeys_dset. case_decide; [auto|].
  rewrite elem_of_app, list_elem_of_singleton. naive_solver.
Qed.

(** Grouping under the four operator checks is a partition of the run's findings: the list under a
    check is, in order, the non-OK verdicts whose detector (or category) maps to it, and no other key
    is present. *)
Theorem checks_for_verdicts_partition vs :
  (∀ c, default [] (dget (Check_value c) (checks_for_verdicts vs)) = bfilter (under_check c) vs) ∧
  NoDup (dkeys (checks_for_verdicts vs)) ∧
  (∀ k, k ∈ dkeys (checks_for_verdicts vs) → ∃ c, k = Check_value c).
Proof.
  unfold checks_for_verdicts. split.
  - intros c. induction vs as [|v vs IH] using rev_ind; [done|].
    by rewrite foldl_snoc, group_verdict_lookup, IH, bfilter_app.
  - induction vs as [|v vs IH] using rev_ind; [split; [constructor|set_solver]|].
    rewrite foldl_snoc. by apply group_verdict_keys.
Qed.

(** ** Witnesses *)

Definition sample_verdict (id det cat : string) (r : VerdictResult) (c : f64) : Verdict :=
  {| v_verdict_id := id; v_run_id := "r"; v_tenant_id := "t"; v_detector := det;
     v_asi_category := cat; v_result := r; v_confidence := c;
     v_evidence := [{| ev_event_id := Some "e"; ev_reason := det |}];
     v_judge_model := None; v_judge_prompt_v := None; v_rubric_scores := None; v_ts := 0 |}.

Lemma aggregate_order_insensitive_witness :
  let a := sample_verdict "1" "asi07_inter_agent" "ASI07" VIOLATION (of_Z 1) in
  let b := sample_verdict "2" "asi01_goal_hijack" "ASI01" NEEDS_REVIEW (ratio 1 2) in
  (λ f, (f_severity f, f_asi_categories f)) <$> aggregate "f" 0 "r" "t" [a; b] =
  (λ f, (f_severity f, f_asi_categories f)) <$> aggregate "f" 0 "r" "t" [b; a].
Proof. intros a b. apply aggregate_order_insensitive. apply perm_swap. Defined.
