(* ===== verification/AuditChain.v ===== *)
(** * The tamper-evident audit log

    Models [auditor/audit_log/]: [chain.py] (hashing and [verify_chain]), [writer.py]
    ([AuditLogWriter.append], one transaction under a per-tenant advisory lock) and [verifier.py]
    ([AuditLogVerifier.verify]).  The concurrent writers are a step relation whose steps are the
    statements of the transaction; [lock_id] stands for the database's text hash. *)

From Stdlib Require Import ZArith Lia Ascii.
From Stdlib Require String.
From stdpp Require Import base tactics option list strings gmap relations sorting.
From S2P Require Import Prelude PyStr Sha256 Json.

(** ** Chain primitives ([chain.py]) *)

Definition GENESIS_HASH : string := zeros 32.

Definition compute_payload_hash (payload : list (string * json)) : string :=
  sha256 (utf8 (dumps compact (sort_keys (JObj payload)))).

Definition compute_chain_hash (prev_chain_hash payload_hash : string) : string :=
  sha256 (prev_chain_hash +:+ payload_hash).

Record AuditLogRow := {
  al_seq : Z;
  al_tenant_id : uuid;
  al_actor_type : string;
  al_actor_id : option uuid;
  al_action : string;
  al_target_type : option string;
  al_target_id : option uuid;
  al_payload_hash : string;
  al_chain_hash : string;
  al_blob_uri : option string
}.

Record ChainVerification := {
  cv_ok : bool;
  cv_count : nat;
  cv_first_break_seq : option Z;
  cv_reason : option string
}.

Definition break_reason (seq : Z) (expected got : string) : string :=
  "chain_hash mismatch at seq=" +:+ dec seq +:+ ": expected " +:+ take_str 16 (to_hex expected)
  +:+ ".. got " +:+ take_str 16 (to_hex got) +:+ "..".

(** The loop of [verify_chain]; [count] is [len(entries)] of the whole list. *)
Fixpoint verify_from (count : nat) (prev : string) (entries : list AuditLogRow) : ChainVerification :=
  match entries with
  | [] => {| cv_ok := true; cv_count := count; cv_first_break_seq := None; cv_reason := None |}
  | entry :: rest =>
      let expected := compute_chain_hash prev (al_payload_hash entry) in
      if String.eqb expected (al_chain_hash entry) then verify_from count (al_chain_hash entry) rest
      else {| cv_ok := false; cv_count := count; cv_first_break_seq := Some (al_seq entry);
              cv_reason := Some (break_reason (al_seq entry) expected (al_chain_hash entry)) |}
  end.

Definition verify_chain (entries : list AuditLogRow) : ChainVerification :=
  verify_from (length entries) GENESIS_HASH entries.

(** ** The writer ([writer.py]) *)

Record AppendReq := {
  rq_tenant_id : uuid;
  rq_actor_type : string;
  rq_action : string;
  rq_actor_id : option uuid;
  rq_target_type : option string;
  rq_target_id : option uuid;
  rq_payload : option (list (string * json));
  rq_blob_uri : option string
}.

Definition jopt (o : option string) : json := match o with Some s => JStr s | None => JNull end.

(** [compute_payload_hash({**body, "__meta__": body_meta})] *)
Definition request_hash (r : AppendReq) : string :=
  let meta := [("actor_type", JStr (rq_actor_type r)); ("action", JStr (rq_action r));
               ("target_type", jopt (rq_target_type r)); ("target_id", jopt (rq_target_id r))] in
  compute_payload_hash (dset "__meta__" (JObj meta) (default [] (rq_payload r))).

(** [.where(tenant_id == t)], in commit order. *)
Definition of_tenant (t : uuid) (rows : list AuditLogRow) : list AuditLogRow :=
  bfilter (λ r, String.eqb (al_tenant_id r) t) rows.

(** [.order_by(seq.asc())] *)
Fixpoint insert_seq (x : AuditLogRow) (l : list AuditLogRow) : list AuditLogRow :=
  match l with
  | [] => [x]
  | y :: l' => if (al_seq x <=? al_seq y)%Z then x :: l else y :: insert_seq x l'
  end.

Definition order_by_seq (l : list AuditLogRow) : list AuditLogRow := foldr insert_seq [] l.

(** [prev.scalar_one_or_none() or GENESIS_HASH] of the row with the greatest [seq]. *)
Definition prev_chain (t : uuid) (rows : list AuditLogRow) : string :=
  match last (order_by_seq (of_tenant t rows)) with
  | Some r => if str_truthy (al_chain_hash r) then al_chain_hash r else GENESIS_HASH
  | None => GENESIS_HASH
  end.

Definition new_row (r : AppendReq) (seq : Z) (prev : string) : AuditLogRow :=
  let p_hash := request_hash r in
  {| al_seq := seq;
     al_tenant_id := rq_tenant_id r;
     al_actor_type := rq_actor_type r;
     al_actor_id := rq_actor_id r;
     al_action := rq_action r;
     al_target_type := rq_target_type r;
     al_target_id := rq_target_id r;
     al_payload_hash := p_hash;
     al_chain_hash := compute_chain_hash prev p_hash;
     al_blob_uri := rq_blob_uri r |}.

(** The table's check constraint on [actor_type]. *)
Definition actor_type_ok (s : string) : bool := bool_decide (s ∈ ["system"; "user"; "agent"]).

(** *** Concurrent transactions

    A writer runs: take the advisory lock of the tenant; read the predecessor; insert (which draws a
    [seq] from the table's sequence and checks the constraint); commit, which publishes the row and
    releases the lock.  A transaction may be rolled back at any point: the lock is released and the
    drawn [seq] is lost. *)

Inductive Writer :=
| WStart (r : AppendReq)
| WLocked (r : AppendReq)
| WRead (r : AppendReq) (prev : string)
| WInserted (row : AuditLogRow)
| WDone (chain_hash : string)
| WFailed.

Record LogState := {
  committed : list AuditLogRow;
  next_seq : Z;
  locks : gmap Z nat;
  writers : gmap nat Writer
}.

Section writers.
Context (lock_id : uuid → Z).

Definition set_writer (p : nat) (w : Writer) (s : LogState) : LogState :=
  {| committed := committed s; next_seq := next_seq s; locks := locks s;
     writers := <[p := w]> (writers s) |}.

(** The tenant whose lock a writer holds. *)
Definition holds (w : Writer) : option uuid :=
  match w with
  | WLocked r | WRead r _ => Some (rq_tenant_id r)
  | WInserted row => Some (al_tenant_id row)
  | _ => None
  end.

Inductive log_step : LogState → LogState → Prop :=
| step_begin s p r :
    writers s !! p = None → log_step s (set_writer p (WStart r) s)
| step_lock s p r :
    writers s !! p = Some (WStart r) → locks s !! lock_id (rq_tenant_id r) = None →
    log_step s
      {| committed := committed s; next_seq := next_seq s;
         locks := <[lock_id (rq_tenant_id r) := p]> (locks s);
         writers := <[p := WLocked r]> (writers s) |}
| step_read s p r :
    writers s !! p = Some (WLocked r) →
    log_step s (set_writer p (WRead r (prev_chain (rq_tenant_id r) (committed s))) s)
| step_insert s p r prev :
    writers s !! p = Some (WRead r prev) → actor_type_ok (rq_actor_type r) = true →
    log_step s
      {| committed := committed s; next_seq := next_seq s + 1; locks := locks s;
         writers := <[p := WInserted (new_row r (next_seq s) prev)]> (writers s) |}
| step_commit s p row :
    writers s !! p = Some (WInserted row) →
    log_step s
      {| committed := committed s ++ [row]; next_seq := next_seq s;
         locks := delete (lock_id (al_tenant_id row)) (locks s);
         writers := <[p := WDone (al_chain_hash row)]> (writers s) |}
| step_rollback s p w t :
    writers s !! p = Some w → holds w = Some t →
    log_step s
      {| committed := committed s; next_seq := next_seq s;
         locks := delete (lock_id t) (locks s);
         writers := <[p := WFailed]> (writers s) |}.

Definition empty_log : LogState :=
  {| committed := []; next_seq := 1; locks := ∅; writers := ∅ |}.

Definition log_reachable (s : LogState) : Prop := rtc log_step empty_log s.
End writers.

(** ** The verifier ([verifier.py]) *)

Definition verify (tenant_id : uuid) (rows : list AuditLogRow) : ChainVerification :=
  verify_chain (order_by_seq (of_tenant tenant_id rows)).

(** Exit code of the command line, after argument parsing. *)
Definition verifier_exit (tenant_id : uuid) (rows : list AuditLogRow) : Z :=
  if cv_ok (verify tenant_id rows) then 0 else 1.

Definition chain_length (tenant_id : uuid) (rows : list AuditLogRow) : nat :=
  length (of_tenant tenant_id rows).

(** ** Chains as hash lists *)

(** What a verified entry commits to. *)
Definition link (r : AuditLogRow) : string * string := (al_payload_hash r, al_chain_hash r).

(** The chain hash after walking [entries] from [prev]. *)
Definition head_hash (prev : string) (entries : list AuditLogRow) : string :=
  match last entries with Some r => al_chain_hash r | None => prev end.

(** What [verify_chain] hashes on its way through a chain that verifies: the stored predecessor and the
    stored payload hash of every entry. *)
Fixpoint chain_inputs (prev : string) (entries : list AuditLogRow) : list string :=
  match entries with
  | [] => []
  | e :: rest => (prev +:+ al_payload_hash e) :: chain_inputs (al_chain_hash e) rest
  end.

(** The ways in which SHA-256 may fail two chains: a collision between what was hashed for the one and
    for the other, or one of those texts hashing to the genesis value. *)
Definition hash_broken (xs ys : list AuditLogRow) : Prop :=
  collision_in (chain_inputs GENESIS_HASH xs) (chain_inputs GENESIS_HASH ys) ∨
  Exists (λ x, sha256 x = GENESIS_HASH) (chain_inputs GENESIS_HASH xs ++ chain_inputs GENESIS_HASH ys).

#[global] Instance hash_broken_dec xs ys : Decision (hash_broken xs ys) := _.

Lemma chain_inputs_app prev xs ys :
  chain_inputs prev (xs ++ ys) = chain_inputs prev xs ++ chain_inputs (head_hash prev xs) ys.
Proof.
  revert prev. induction xs as [|x xs IH]; intros prev; [done|]. cbn [app chain_inputs]. rewrite IH.
  unfold head_hash. destruct xs as [|y xs]; [done|]. change (last (x :: y :: xs)) with (last (y :: xs)).
  destruct (last (y :: xs)) eqn:E; [done|]. by apply last_None in E.
Qed.

Lemma hash_broken_app xs xs' ys ys' : hash_broken xs ys → hash_broken (xs ++ xs') (ys ++ ys').
Proof.
  unfold hash_broken. rewrite !chain_inputs_app, !Exists_app. intros [H|[H|H]]; [left|tauto|tauto].
  eapply collision_in_mono; [..|exact H]; set_solver.
Qed.

Lemma verify_from_app n prev xs ys :
  cv_ok (verify_from n prev (xs ++ ys)) = true ↔
  cv_ok (verify_from n prev xs) = true ∧ cv_ok (verify_from n (head_hash prev xs) ys) = true.
Proof.
  revert prev. induction xs as [|x xs IH]; intros prev; simpl; [naive_solver|].
  destruct (String.eqb _ _); simpl; [|naive_solver]. rewrite IH.
  unfold head_hash. destruct xs as [|y xs]; [done|]. change (last (x :: y :: xs)) with (last (y :: xs)).
  destruct (last (y :: xs)) eqn:E; [done|]. by apply last_None in E.
Qed.

Lemma verify_from_count n m prev xs : cv_ok (verify_from n prev xs) = cv_ok (verify_from m prev xs).
Proof. revert prev. induction xs; intros; simpl; [done|]. by destruct (String.eqb _ _). Qed.

Lemma verify_chain_from n xs : cv_ok (verify_chain xs) = cv_ok (verify_from n GENESIS_HASH xs).
Proof. apply verify_from_count. Qed.

Lemma verify_from_snoc n prev xs e :
  cv_ok (verify_from n prev (xs ++ [e])) = true ↔
  cv_ok (verify_from n prev xs) = true ∧
  al_chain_hash e = compute_chain_hash (head_hash prev xs) (al_payload_hash e).
Proof.
  rewrite verify_from_app. simpl. apply and_iff_compat_l.
  destruct (String.eqb_spec (compute_chain_hash (head_hash prev xs) (al_payload_hash e))
    (al_chain_hash e)); simpl; split; congruence.
Qed.

Lemma head_hash_snoc prev xs e : head_hash prev (xs ++ [e]) = al_chain_hash e.
Proof. unfold head_hash. by rewrite last_snoc. Qed.

Lemma head_hash_length n xs :
  cv_ok (verify_from n GENESIS_HASH xs) = true →
  String.length (head_hash GENESIS_HASH xs) = 32%nat.
Proof.
  induction xs as [|x xs _] using rev_ind; [done|]. rewrite verify_from_snoc, head_hash_snoc.
  intros [_ ->]. apply length_sha256.
Qed.

(** Two chain hashes are equal only for equal predecessors and payload hashes. *)
Lemma chain_hash_inj xs x ys y :
  let p1 := head_hash GENESIS_HASH xs in let p2 := head_hash GENESIS_HASH ys in
  String.length p1 = String.length p2 →
  compute_chain_hash p1 (al_payload_hash x) = compute_chain_hash p2 (al_payload_hash y) →
  (p1 = p2 ∧ al_payload_hash x = al_payload_hash y) ∨ hash_broken (xs ++ [x]) (ys ++ [y]).
Proof.
  intros p1 p2 Hlen H. unfold hash_broken. rewrite !chain_inputs_app.
  eapply sha256_eq_or_collision in H as [H|H]; [|by right; left|set_solver..].
  left. by apply str_app_inj_length.
Qed.

(** Two verified chains with the same head hash hold the same entries. *)
Lemma verified_same_head n xs ys :
  cv_ok (verify_from n GENESIS_HASH xs) = true → cv_ok (verify_from n GENESIS_HASH ys) = true →
  head_hash GENESIS_HASH xs = head_hash GENESIS_HASH ys →
  map link xs = map link ys ∨ hash_broken xs ys.
Proof.
  assert (∀ e zs, e ∈ chain_inputs GENESIS_HASH zs → sha256 e = GENESIS_HASH →
            Exists (λ x, sha256 x = GENESIS_HASH) (chain_inputs GENESIS_HASH zs)) as Hex.
  { intros e zs ??. apply Exists_exists. eauto. }
  revert ys. induction xs as [|x xs IH] using rev_ind; intros ys Hx Hy Hh.
  - destruct ys as [|y ys _] using rev_ind; [by left|]. right; right.
    apply verify_from_snoc in Hy as [_ Hy]. rewrite head_hash_snoc, Hy in Hh.
    eapply Hex; [|symmetry; exact Hh]. rewrite chain_inputs_app. set_solver.
  - apply verify_from_snoc in Hx as [Hx Ex]. rewrite head_hash_snoc in Hh.
    destruct ys as [|y ys _] using rev_ind.
    { right; right. rewrite Ex in Hh. apply Exists_app. left. eapply Hex; [|exact Hh].
      rewrite chain_inputs_app. set_solver. }
    apply verify_from_snoc in Hy as [Hy Ey]. rewrite head_hash_snoc in Hh.
    pose proof Hh as Hc. rewrite Ex, Ey in Hc.
    apply chain_hash_inj in Hc as [[Hc Hp]|Hb]; [|by right|].
    + destruct (IH ys Hx Hy Hc) as [IHl|Hb]; [|by right; apply hash_broken_app]. left.
      rewrite !map_app, IHl. simpl. unfold link. by rewrite Hp, Hh.
    + by rewrite (head_hash_length n xs), (head_hash_length n ys).
Qed.

(** C2: tamper evidence.  If a log verifies, and after any change of the entries before an
    untouched one (insertion, deletion, reorder, replacement) it still verifies, then the change left
    every payload hash and chain hash as they were, or SHA-256 fails on these very entries: one of the
    texts [predecessor ++ payload hash] hashed for the one log and a different one hashed for the other
    have the same digest, or one of them hashes to the genesis value. *)
Theorem verify_chain_tamper_evident before before' kept after :
  cv_ok (verify_chain (before ++ kept :: after)) = true →
  cv_ok (verify_chain (before' ++ kept :: after)) = true →
  map link before = map link before' ∨ hash_broken (before ++ [kept]) (before' ++ [kept]).
Proof.
  rewrite !(verify_chain_from 0). change (kept :: after) with ([kept] ++ after).
  rewrite !(app_assoc _ [kept] after), !(verify_from_app _ _ (_ ++ [kept])). intros [Hv1 _] [Hv2 _].
  destruct (verified_same_head 0 _ _ Hv1 Hv2) as [H|H]; [by rewrite !head_hash_snoc| |right; exact H].
  left. rewrite !map_app in H. by apply app_inj_tail in H as [H _].
Qed.

(** The chain has no anchor at its end: removing any number of its last entries leaves a log that
    verifies. *)
Theorem verify_chain_truncation_undetected xs ys :
  cv_ok (verify_chain (xs ++ ys)) = true → cv_ok (verify_chain xs) = true.
Proof. rewrite !(verify_chain_from 0), verify_from_app. by intros [? _]. Qed.

(** A failed verification reports the first bad link: everything before the reported [seq]
    verifies, and the entry with that [seq] does not extend it. *)
Theorem verify_chain_first_break entries :
  cv_ok (verify_chain entries) = false →
  ∃ good bad rest,
    entries = good ++ bad :: rest ∧
    cv_ok (verify_chain good) = true ∧
    cv_ok (verify_chain (good ++ [bad])) = false ∧
    cv_first_break_seq (verify_chain entries) = Some (al_seq bad) ∧
    cv_count (verify_chain entries) = length entries.
Proof.
  assert (∀ n xs prev, cv_ok (verify_from n prev xs) = false →
    ∃ good bad rest, xs = good ++ bad :: rest ∧ cv_ok (verify_from n prev good) = true ∧
      cv_ok (verify_from n prev (good ++ [bad])) = false ∧
      cv_first_break_seq (verify_from n prev xs) = Some (al_seq bad) ∧
      cv_count (verify_from n prev xs) = n) as Hgen.
  { intros n. induction xs as [|x xs IH]; intros prev; simpl; [done|].
    destruct (String.eqb _ _) eqn:E; intros Hf.
    - destruct (IH _ Hf) as (g & b & r & -> & Hg & Hb & Hs & Hn).
      exists (x :: g), b, r. simpl. rewrite E. by split_and!.
    - exists [], x, xs. simpl. rewrite E. by split_and!. }
  intros Hf. destruct (Hgen _ _ _ Hf) as (g & b & r & He & Hg & Hb & Hs & Hn).
  exists g, b, r. rewrite !(verify_chain_from (length entries)). by split_and!.
Qed.

(** The payload hash does not depend on the order of the payload's keys, and it commits to the
    payload: two payloads of different canonical form have the same hash only when these two forms
    collide. *)
Theorem payload_hash_canonical p1 p2 :
  json_wf (JObj p1) → json_wf (JObj p2) →
  (p1 ≡ₚ p2 → compute_payload_hash p1 = compute_payload_hash p2) ∧
  (compute_payload_hash p1 = compute_payload_hash p2 →
   sort_keys (JObj p1) = sort_keys (JObj p2) ∨
   collision_in [utf8 (dumps compact (sort_keys (JObj p1)))] [utf8 (dumps compact (sort_keys (JObj p2)))]).
Proof.
  intros H1 H2. unfold compute_payload_hash. split.
  - intros Hp. apply json_wf_obj in H1 as [Hnd _]. by rewrite (sort_keys_perm p1 p2).
  - intros Heq. eapply sha256_eq_or_collision in Heq as [Heq|Hc];
      [left|right; exact Hc|apply list_elem_of_here|apply list_elem_of_here].
    apply (inj utf8) in Heq. eapply dumps_inj; [apply compact_ok|by apply sort_keys_wf..|done].
Qed.

(** ** Sorting *)

Definition seq_sorted (l : list AuditLogRow) : Prop := StronglySorted Z.lt (map al_seq l).

Lemma order_by_seq_sorted l : seq_sorted l → order_by_seq l = l.
Proof.
  unfold seq_sorted. induction l as [|x l IH]; [done|]. simpl.
  intros [Hs Hx]%StronglySorted_inv. change (foldr insert_seq [] l) with (order_by_seq l).
  rewrite IH by done. destruct l as [|y l]; [done|]. simpl in *.
  apply Forall_cons in Hx as [Hx _]. by rewrite (proj2 (Z.leb_le _ _)) by lia.
Qed.

Lemma seq_sorted_snoc l x :
  seq_sorted l → (∀ y, y ∈ l → (al_seq y < al_seq x)%Z) → seq_sorted (l ++ [x]).
Proof.
  unfold seq_sorted. intros Hs Hx. induction l as [|y l IH]; simpl in *; [repeat constructor|].
  apply StronglySorted_inv in Hs as [Hs Hy]. constructor.
  - apply IH; [done|]. intros z Hz. apply Hx. by right.
  - rewrite map_app, Forall_app. split; [done|]. constructor; [|constructor]. apply Hx. left.
Qed.

Lemma of_tenant_snoc t rows row :
  of_tenant t (rows ++ [row]) =
  if String.eqb (al_tenant_id row) t then of_tenant t rows ++ [row] else of_tenant t rows.
Proof.
  unfold of_tenant. rewrite bfilter_app. unfold bfilter at 2. rewrite filter_cons, filter_nil.
  destruct (String.eqb _ _); simpl; [done|]. by rewrite app_nil_r.
Qed.

Lemma elem_of_of_tenant t rows r : r ∈ of_tenant t rows ↔ al_tenant_id r = t ∧ r ∈ rows.
Proof. unfold of_tenant. by rewrite elem_of_bfilter, String.eqb_eq. Qed.

(** ** Concurrent appends never fork a chain *)

Section log_invariant.
Context (lock_id : uuid → Z).
Implicit Types (s : LogState) (t : uuid) (p : nat) (w : Writer).

(** What a writer's local state promises about the committed rows [rows] of its tenant. *)
Definition writer_inv (rows : list AuditLogRow) (next : Z) (w : Writer) : Prop :=
  match w with
  | WRead r prev => prev = head_hash GENESIS_HASH (of_tenant (rq_tenant_id r) rows)
  | WInserted row =>
      (al_seq row < next)%Z ∧
      (∀ r, r ∈ of_tenant (al_tenant_id row) rows → (al_seq r < al_seq row)%Z) ∧
      al_chain_hash row =
        compute_chain_hash (head_hash GENESIS_HASH (of_tenant (al_tenant_id row) rows))
          (al_payload_hash row)
  | WDone h => ∃ r, r ∈ rows ∧ al_chain_hash r = h
  | _ => True
  end.

Record log_inv (s : LogState) : Prop := {
  inv_locks p w t :
    writers s !! p = Some w → holds w = Some t → locks s !! lock_id t = Some p;
  inv_writers p w : writers s !! p = Some w → writer_inv (committed s) (next_seq s) w;
  inv_seq r : r ∈ committed s → (al_seq r < next_seq s)%Z;
  inv_chain t :
    cv_ok (verify_from 0 GENESIS_HASH (of_tenant t (committed s))) = true ∧
    seq_sorted (of_tenant t (committed s))
}.

Lemma log_inv_empty : log_inv empty_log.
Proof.
  split; simpl.
  - intros p w t Hp. by rewrite lookup_empty in Hp.
  - intros p w Hp. by rewrite lookup_empty in Hp.
  - intros r. by intros ?%elem_of_nil.
  - intros t. split; [done|constructor].
Qed.

Lemma prev_chain_head s t :
  log_inv s → prev_chain t (committed s) = head_hash GENESIS_HASH (of_tenant t (committed s)).
Proof.
  intros Hi. destruct (inv_chain s Hi t) as [Hv Hs]. unfold prev_chain, head_hash.
  rewrite order_by_seq_sorted by done.
  destruct (of_tenant t (committed s)) as [|r rows _] using rev_ind; [done|]. rewrite last_snoc.
  apply verify_from_snoc in Hv as [_ Hr]. destruct (al_chain_hash r) eqn:E; [|done].
  exfalso. symmetry in Hr. pose proof (length_sha256
    (head_hash GENESIS_HASH rows +:+ al_payload_hash r)) as Hl.
  unfold compute_chain_hash in Hr. by rewrite Hr in Hl.
Qed.

(** Two writers inside their critical sections work for tenants with different locks. *)
Lemma holds_exclusive s p p' w w' t t' :
  log_inv s → writers s !! p = Some w → writers s !! p' = Some w' →
  holds w = Some t → holds w' = Some t' → p ≠ p' → lock_id t ≠ lock_id t'.
Proof.
  intros Hi Hp Hp' Ht Ht' Hne Heq. apply Hne.
  pose proof (inv_locks s Hi _ _ _ Hp Ht) as H1. pose proof (inv_locks s Hi _ _ _ Hp' Ht') as H2.
  congruence.
Qed.

(** Releasing the lock of [p] keeps the lock of every other holder. *)
Lemma release_locks s p w t w' :
  log_inv s → writers s !! p = Some w → holds w = Some t → holds w' = None →
  ∀ p0 w0 t0, <[p := w']> (writers s) !! p0 = Some w0 → holds w0 = Some t0 →
              delete (lock_id t) (locks s) !! lock_id t0 = Some p0.
Proof.
  intros Hi Hp Ht Hw' p0 w0 t0 H0 Ht0. destruct (decide (p0 = p)) as [->|Hne].
  { rewrite lookup_insert_eq in H0. congruence. }
  rewrite lookup_insert_ne in H0 by done.
  rewrite lookup_delete_ne; [by eapply inv_locks|].
  by eapply (holds_exclusive s p p0 w w0).
Qed.

(** A writer's promises survive a commit for another tenant. *)
Lemma writer_inv_commit rows next row w :
  (∀ t, holds w = Some t → t ≠ al_tenant_id row) →
  writer_inv rows next w → writer_inv (rows ++ [row]) next w.
Proof.
  intros Hh. assert (∀ t, holds w = Some t → of_tenant t (rows ++ [row]) = of_tenant t rows) as Ho.
  { intros t Ht. rewrite of_tenant_snoc. destruct (String.eqb_spec (al_tenant_id row) t); [|done].
    exfalso. by apply (Hh t Ht). }
  destruct w; simpl in *; rewrite ?Ho by done; try done.
  intros (r & Hr & E). exists r. split; [|done]. set_solver.
Qed.

Lemma writer_inv_next rows next w : writer_inv rows next w → writer_inv rows (next + 1) w.
Proof. destruct w; simpl; try done. intros (?&?&?). split_and!; [lia|done|done]. Qed.

(** A step that changes one writer, and neither rows nor locks, keeps the invariant. *)
Lemma log_inv_set_writer s p w :
  log_inv s →
  (∀ t, holds w = Some t → locks s !! lock_id t = Some p) →
  writer_inv (committed s) (next_seq s) w → log_inv (set_writer p w s).
Proof.
  intros Hi Hl Hw. destruct Hi as [H1 H2 H3 H4]. split; simpl; [| |done|done];
    intros p0 w0; destruct (decide (p0 = p)) as [->|]; rewrite ?lookup_insert_eq,
      ?lookup_insert_ne by done; naive_solver.
Qed.

Lemma commit_chain s p row t :
  log_inv s → writers s !! p = Some (WInserted row) →
  cv_ok (verify_from 0 GENESIS_HASH (of_tenant t (committed s ++ [row]))) = true ∧
  seq_sorted (of_tenant t (committed s ++ [row])).
Proof.
  intros Hi Hp. pose proof (inv_writers s Hi _ _ Hp) as (_ & Hlt & Hc).
  destruct (inv_chain s Hi t) as [Hv Hs]. rewrite of_tenant_snoc.
  destruct (String.eqb_spec (al_tenant_id row) t) as [<-|]; [|done].
  rewrite verify_from_snoc. split; [done|]. by apply seq_sorted_snoc.
Qed.

Lemma log_step_inv s s' : log_inv s → log_step lock_id s s' → log_inv s'.
Proof.
  intros Hi Hstep. pose proof Hi as [H1 H2 H3 H4].
  destruct Hstep as [s p r Hp|s p r Hp Hl|s p r Hp|s p r prev Hp Ha|s p row Hp|s p w t Hp Ht].
  - by apply log_inv_set_writer.
  - split; simpl; [| |done|done]; intros p0 w0.
    + intros t0 H0 Ht0. destruct (decide (p0 = p)) as [->|].
      { rewrite lookup_insert_eq in H0. simplify_eq. simpl in Ht0. simplify_eq.
        by rewrite lookup_insert_eq. }
      rewrite lookup_insert_ne in H0 by done. pose proof (H1 _ _ _ H0 Ht0) as Hl0.
      rewrite lookup_insert_ne; [done|]. congruence.
    + destruct (decide (p0 = p)) as [->|]; rewrite ?lookup_insert_eq, ?lookup_insert_ne by done;
        naive_solver.
  - apply log_inv_set_writer; [done| |by apply prev_chain_head].
    simpl. intros t [= <-]. by apply (H1 _ _ _ Hp).
  - pose proof (H2 _ _ Hp) as Hprev. simpl in Hprev. split; simpl.
    + intros p0 w0 t0. destruct (decide (p0 = p)) as [->|]; rewrite ?lookup_insert_eq,
        ?lookup_insert_ne by done; [|by apply H1].
      intros [= <-] [= <-]. by apply (H1 _ _ _ Hp).
    + intros p0 w0. destruct (decide (p0 = p)) as [->|]; rewrite ?lookup_insert_eq,
        ?lookup_insert_ne by done; [|by intros; apply writer_inv_next, (H2 p0)].
      intros [= <-]. simpl. split_and!; [lia| |by rewrite <-Hprev].
      intros r0 [_ Hr0]%elem_of_of_tenant. by apply H3.
    + intros r0 Hr0%H3. lia.
    + done.
  - pose proof (H2 _ _ Hp) as (Hlt & _ & _). split; simpl.
    + by apply (release_locks s p (WInserted row)).
    + intros p0 w0. destruct (decide (p0 = p)) as [->|Hne]; rewrite ?lookup_insert_eq,
        ?lookup_insert_ne by done.
      * intros [= <-]. exists row. set_solver.
      * intros H0. apply writer_inv_commit; [|by apply (H2 p0)]. intros t0 Ht0 ->.
        by eapply (holds_exclusive s p p0).
    + intros r0 [Hr0| ->%list_elem_of_singleton]%elem_of_app; [by apply H3|done].
    + intros t. by apply (commit_chain s p).
  - split; simpl; [by apply (release_locks s p w t)| |done|done].
    intros p0 w0. destruct (decide (p0 = p)) as [->|]; rewrite ?lookup_insert_eq,
      ?lookup_insert_ne by done; naive_solver.
Qed.

Lemma log_reachable_inv s : log_reachable lock_id s → log_inv s.
Proof.
  unfold log_reachable. revert s. apply (rtc_ind_r log_inv); [apply log_inv_empty|].
  intros s1 s2 _ Hs Hi. by eapply log_step_inv.
Qed.

(** C12: however the transactions of concurrent writers interleave, commit or roll back, in every
    reachable state each tenant's log verifies, its stored order is its [seq] order, and the chain
    hash every finished append returned is that of a committed row. *)
Theorem concurrent_appends_verify s :
  log_reachable lock_id s →
  (∀ t, cv_ok (verify t (committed s)) = true ∧
        order_by_seq (of_tenant t (committed s)) = of_tenant t (committed s)) ∧
  (∀ p h, writers s !! p = Some (WDone h) → ∃ r, r ∈ committed s ∧ al_chain_hash r = h).
Proof.
  intros Hi%log_reachable_inv. split; [|by intros p h Hp; apply (inv_writers s Hi _ _ Hp)].
  intros t. destruct (inv_chain s Hi t) as [Hv Hs].
  unfold verify. rewrite order_by_seq_sorted by done. by rewrite (verify_chain_from 0).
Qed.
End log_invariant.

(** ** Witnesses *)

Definition sample_req (action : string) : AppendReq :=
  {| rq_tenant_id := "t"; rq_actor_type := "system"; rq_action := action; rq_actor_id := None;
     rq_target_type := Some "run"; rq_target_id := Some "r1";
     rq_payload := Some [("b", JInt 2); ("a", JStr "x")]; rq_blob_uri := None |}.

Definition sample_row1 : AuditLogRow := new_row (sample_req "open") 1 GENESIS_HASH.
Definition sample_row2 : AuditLogRow := new_row (sample_req "close") 2 (al_chain_hash sample_row1).

(** [sample_row1] with its actor rewritten, which no hash covers. *)
Definition sample_row1' : AuditLogRow :=
  {| al_seq := 1; al_tenant_id := "t"; al_actor_type := "agent"; al_actor_id := Some "x";
     al_action := "open"; al_target_type := Some "run"; al_target_id := Some "r1";
     al_payload_hash := al_payload_hash sample_row1; al_chain_hash := al_chain_hash sample_row1;
     al_blob_uri := None |}.

Lemma verify_chain_tamper_evident_witness :
  sample_row1 ≠ sample_row1' ∧ map link [sample_row1] = map link [sample_row1'].
Proof.
  split; [discriminate|].
  destruct (verify_chain_tamper_evident [sample_row1] [sample_row1'] sample_row2 []) as [H|H];
    [vm_compute; reflexivity|vm_compute; reflexivity|exact H|].
  apply (bool_decide_pack _) in H. vm_compute in H. destruct H.
Defined.

Lemma verify_chain_truncation_undetected_witness : cv_ok (verify_chain [sample_row1]) = true.
Proof. apply (verify_chain_truncation_undetected [sample_row1] [sample_row2]). vm_compute. reflexivity. Defined.

Lemma verify_chain_first_break_witness :
  ∃ good bad rest,
    [sample_row1; sample_row1] = good ++ bad :: rest ∧
    cv_ok (verify_chain good) = true ∧
    cv_ok (verify_chain (good ++ [bad])) = false ∧
    cv_first_break_seq (verify_chain [sample_row1; sample_row1]) = Some (al_seq bad) ∧
    cv_count (verify_chain [sample_row1; sample_row1]) = 2%nat.
Proof. apply verify_chain_first_break. vm_compute. reflexivity. Defined.

Lemma payload_hash_canonical_witness :
  let p1 := [("b", JInt 2); ("a", JStr "x")] in
  let p2 := [("a", JStr "x"); ("b", JInt 2)] in
  (p1 ≡ₚ p2 → compute_payload_hash p1 = compute_payload_hash p2) ∧
  (compute_payload_hash p1 = compute_payload_hash p2 →
   sort_keys (JObj p1) = sort_keys (JObj p2) ∨
   collision_in [utf8 (dumps compact (sort_keys (JObj p1)))] [utf8 (dumps compact (sort_keys (JObj p2)))]).
Proof.
  intros p1 p2. apply payload_hash_canonical; apply json_wf_obj; (split; [|by repeat constructor]);
    apply (bool_decide_unpack _); vm_compute; exact I.
Defined.

(** A run of one writer, from the empty log to its commit. *)
Lemma one_append_reachable :
  log_reachable (λ _, 0%Z) {| committed := [sample_row1]; next_seq := 2; locks := delete 0%Z {[0%Z := 7%nat]};
                            writers := <[7%nat := WDone (al_chain_hash sample_row1)]>
                              (<[7%nat := WInserted sample_row1]> (<[7%nat := WRead (sample_req "open") GENESIS_HASH]>
                              (<[7%nat := WLocked (sample_req "open")]>
                              (<[7%nat := WStart (sample_req "open")]> ∅)))) |}.
Proof.
  eapply rtc_l; [apply (step_begin _ empty_log 7 (sample_req "open")); reflexivity|].
  eapply rtc_l; [apply (step_lock _ _ 7 (sample_req "open")); reflexivity|].
  eapply rtc_l; [apply (step_read _ _ 7 (sample_req "open")); reflexivity|].
  eapply rtc_l; [apply (step_insert _ _ 7 (sample_req "open") GENESIS_HASH); reflexivity|].
  eapply rtc_l; [apply (step_commit _ _ 7 sample_row1); reflexivity|].
  apply rtc_refl.
Qed.

Lemma concurrent_appends_verify_witness :
  cv_ok (verify "t" [sample_row1]) = true.
Proof. apply (concurrent_appends_verify _ _ one_append_reachable). Defined.
