(* ===== verification/Base64.v ===== *)
(** * URL-safe base64

    [base64.urlsafe_b64encode] and the lenient [base64.urlsafe_b64decode] of the standard library
    (characters outside the alphabet are skipped, decoding stops at a complete padding), and the
    unpadded encoding the tokens use.  The result is the round trip [b64_decode_encode]. *)

From Stdlib Require Import NArith ZArith Lia Ascii.
From Stdlib Require String.
From stdpp Require Import base tactics option list strings numbers list_numbers.
From S2P Require Import Prelude PyStr.

Local Open Scope N_scope.
#[local] Ltac Zify.zify_post_hook ::= Z.to_euclidean_division_equations.

(** ** Alphabet *)

Definition b64_char (n : N) : ascii :=
  if n <? 26 then ascii_of_N (65 + n)
  else if n <? 52 then ascii_of_N (71 + n)
  else if n <? 62 then ascii_of_N (n - 4)
  else if n =? 62 then "-"%char else "_"%char.

(** Both the URL-safe and the standard last two characters are accepted on decoding. *)
Definition unb64_char (c : ascii) : option N :=
  let n := N_of_ascii c in
  if (65 <=? n) && (n <=? 90) then Some (n - 65)
  else if (97 <=? n) && (n <=? 122) then Some (n - 71)
  else if (48 <=? n) && (n <=? 57) then Some (n + 4)
  else if (n =? 45) || (n =? 43) then Some 62
  else if (n =? 95) || (n =? 47) then Some 63
  else None.

Definition str1 (c : ascii) : string := String c EmptyString.

Definition pad_char : ascii := "="%char.

(** [base64.urlsafe_b64encode(data)] *)
Fixpoint urlsafe_b64encode (data : string) : string :=
  match data with
  | String a (String b (String c r)) =>
      let '(x, y, z) := (N_of_ascii a, N_of_ascii b, N_of_ascii c) in
      String (b64_char (x / 4)) (String (b64_char (x mod 4 * 16 + y / 16))
        (String (b64_char (y mod 16 * 4 + z / 64)) (String (b64_char (z mod 64))
          (urlsafe_b64encode r))))
  | String a (String b EmptyString) =>
      let '(x, y) := (N_of_ascii a, N_of_ascii b) in
      String (b64_char (x / 4)) (String (b64_char (x mod 4 * 16 + y / 16))
        (String (b64_char (y mod 16 * 4)) (str1 pad_char)))
  | String a EmptyString =>
      let x := N_of_ascii a in
      String (b64_char (x / 4)) (String (b64_char (x mod 4 * 16))
        (String pad_char (str1 pad_char)))
  | EmptyString => EmptyString
  end.

(** [b.rstrip(b"=")] *)
Fixpoint rstrip_pad (s : string) : string :=
  match s with
  | EmptyString => EmptyString
  | String c s' =>
      match rstrip_pad s' with
      | EmptyString => if ascii_dec c pad_char then EmptyString else str1 c
      | r => String c r
      end
  end.

Definition b64_encode (data : string) : string := rstrip_pad (urlsafe_b64encode data).

(** [binascii.a2b_base64] in lenient mode: [quad] characters of the current group are read, [left]
    holds their undelivered bits, [pads] the padding characters seen since the last one. *)
Fixpoint a2b (quad : nat) (left : N) (pads : nat) (s : string) : option string :=
  match s with
  | EmptyString => if (quad =? 0)%nat then Some EmptyString else None
  | String c s' =>
      if ascii_dec c pad_char then
        if (2 <=? quad)%nat then
          if (4 <=? quad + S pads)%nat then Some EmptyString else a2b quad left (S pads) s'
        else a2b quad left pads s'
      else
        match unb64_char c with
        | None => a2b quad left pads s'
        | Some t =>
            match quad with
            | 0%nat => a2b 1 t 0 s'
            | 1%nat => String (ascii_of_N (left * 4 + t / 16)) <$> a2b 2 (t mod 16) 0 s'
            | 2%nat => String (ascii_of_N (left * 16 + t / 4)) <$> a2b 3 (t mod 4) 0 s'
            | _ => String (ascii_of_N (left * 64 + t)) <$> a2b 0 0 0 s'
            end
        end
  end.

(** [base64.urlsafe_b64decode(s)] of a text, which must be ASCII. *)
Definition urlsafe_b64decode (s : string) : option string :=
  if is_ascii s then a2b 0 0 0 s else None.

Fixpoint pad_string (n : nat) : string :=
  match n with O => EmptyString | S n => String pad_char (pad_string n) end.

(** The token helper: pad to a multiple of four, then decode. *)
Definition b64_decode (data : string) : option string :=
  let padding := (4 - String.length data mod 4)%nat in
  urlsafe_b64decode (if (padding =? 4)%nat then data else data +:+ pad_string padding).

(** ** Round trip *)

Definition b64_char_ok (n : N) : bool :=
  bool_decide (unb64_char (b64_char n) = Some n) && bool_decide (b64_char n ≠ pad_char)
  && is_ascii (str1 (b64_char n)) && bool_decide (b64_char n ≠ "."%char).

Lemma b64_char_all_ok : forallb b64_char_ok (N.of_nat <$> seq 0 64) = true.
Proof. vm_compute. reflexivity. Qed.

Lemma b64_char_spec n :
  n < 64 →
  unb64_char (b64_char n) = Some n ∧ b64_char n ≠ pad_char ∧ is_ascii (str1 (b64_char n)) = true ∧
  b64_char n ≠ "."%char.
Proof.
  intros Hn. pose proof (proj1 (List.forallb_forall _ _) b64_char_all_ok) as Hall.
  assert (b64_char_ok n = true) as Hok.
  { apply Hall, list_elem_of_In, list_elem_of_fmap. exists (N.to_nat n). rewrite elem_of_seq. lia. }
  unfold b64_char_ok in Hok. rewrite !andb_true_iff, !bool_decide_eq_true in Hok. naive_solver.
Qed.

Lemma N_of_ascii_bound c : N_of_ascii c < 256.
Proof. apply N_ascii_bounded. Qed.

Lemma byte_back c n : n = N_of_ascii c → ascii_of_N n = c.
Proof. intros ->. apply ascii_N_embedding. Qed.

(** The sextets of a group of bytes. *)
Inductive sextets : string → string → Prop :=
| sx_nil : sextets EmptyString EmptyString
| sx_1 a : sextets (str1 a)
    (String (b64_char (N_of_ascii a / 4)) (str1 (b64_char (N_of_ascii a mod 4 * 16))))
| sx_2 a b : sextets (String a (str1 b))
    (String (b64_char (N_of_ascii a / 4))
      (String (b64_char (N_of_ascii a mod 4 * 16 + N_of_ascii b / 16))
        (str1 (b64_char (N_of_ascii b mod 16 * 4)))))
| sx_3 a b c r e : sextets r e → sextets (String a (String b (String c r)))
    (String (b64_char (N_of_ascii a / 4))
      (String (b64_char (N_of_ascii a mod 4 * 16 + N_of_ascii b / 16))
        (String (b64_char (N_of_ascii b mod 16 * 4 + N_of_ascii c / 64))
          (String (b64_char (N_of_ascii c mod 64)) e)))).

Lemma string_ind3 (P : string → Prop) :
  P EmptyString → (∀ a, P (str1 a)) → (∀ a b, P (String a (str1 b))) →
  (∀ a b c r, P r → P (String a (String b (String c r)))) → ∀ s, P s.
Proof.
  intros H0 H1 H2 H3 s. enough (P s ∧ (∀ a, P (String a s)) ∧ ∀ a b, P (String a (String b s)))
    by naive_solver.
  induction s as [|c s (IH & IH1 & IH2)]; [done|]. split_and!; [done|done|]. intros a b. by apply H3.
Qed.

Lemma rstrip_pad_cons c s : c ≠ pad_char → rstrip_pad (String c s) = String c (rstrip_pad s).
Proof.
  intros Hc. simpl. destruct (rstrip_pad s); [|done]. by destruct (ascii_dec c pad_char).
Qed.

Ltac sextet_bounds :=
  repeat match goal with
  | c : ascii |- _ =>
      lazymatch goal with
      | H : N_of_ascii c < 256 |- _ => fail
      | _ => pose proof (N_of_ascii_bound c)
      end
  end.

Lemma b64_encode_sextets s : sextets s (b64_encode s).
Proof.
  unfold b64_encode. induction s as [|a|a b|a b c r IH] using string_ind3.
  - constructor.
  - cbn [urlsafe_b64encode str1]. sextet_bounds.
    rewrite !rstrip_pad_cons by (apply b64_char_spec; lia). apply sx_1.
  - cbn [urlsafe_b64encode str1]. sextet_bounds.
    rewrite !rstrip_pad_cons by (apply b64_char_spec; lia). apply sx_2.
  - cbn [urlsafe_b64encode]. sextet_bounds.
    rewrite !rstrip_pad_cons by (apply b64_char_spec; lia). by constructor.
Qed.

Lemma a2b_char quad left pads n s :
  n < 64 →
  a2b quad left pads (String (b64_char n) s) =
    match quad with
    | 0%nat => a2b 1 n 0 s
    | 1%nat => String (ascii_of_N (left * 4 + n / 16)) <$> a2b 2 (n mod 16) 0 s
    | 2%nat => String (ascii_of_N (left * 16 + n / 4)) <$> a2b 3 (n mod 4) 0 s
    | _ => String (ascii_of_N (left * 64 + n)) <$> a2b 0 0 0 s
    end.
Proof.
  intros Hn. destruct (b64_char_spec n Hn) as (Hu & Hp & _). simpl.
  destruct (ascii_dec _ _); [done|]. by rewrite Hu.
Qed.

Ltac bytes_back := unfold str1; repeat first [reflexivity | apply byte_back; lia | f_equal].

(** What [b64_decode] appends to an encoding of length [n] modulo 4. *)
Definition padding_of (n : nat) : string :=
  match (n mod 4)%nat with 2%nat => pad_string 2 | 3%nat => pad_string 1 | _ => EmptyString end.

Lemma a2b_sextets s e : sextets s e → a2b 0 0 0 (e +:+ padding_of (String.length e)) = Some s.
Proof.
  induction 1 as [|a|a b|a b c r e He IH]; sextet_bounds; cbn [String.append str1].
  - done.
  - rewrite !a2b_char by lia. cbn. bytes_back.
  - rewrite !a2b_char by lia. cbn. bytes_back.
  - rewrite !a2b_char by lia. cbn [String.length].
    replace (padding_of _) with (padding_of (String.length e)); [rewrite IH|].
    + cbn. bytes_back.
    + unfold padding_of. replace (S (S (S (S (String.length e))))) with (String.length e + 1 * 4)%nat
        by lia. by rewrite Nat.Div0.mod_add.
Qed.

Lemma sextets_length s e : sextets s e → (String.length e mod 4 ≠ 1)%nat.
Proof.
  induction 1 as [|a|a b|a b c r e He IH]; [done..|]. cbn [String.length].
  replace (S (S (S (S (String.length e))))) with (String.length e + 1 * 4)%nat by lia.
  by rewrite Nat.Div0.mod_add.
Qed.

Lemma is_ascii_cons c s : is_ascii (String c s) = is_ascii (str1 c) && is_ascii s.
Proof. change (String c s) with (str1 c +:+ s). apply is_ascii_app. Qed.

Lemma is_ascii_b64 n s : n < 64 → is_ascii (String (b64_char n) s) = is_ascii s.
Proof. intros Hn. rewrite is_ascii_cons. by destruct (b64_char_spec n Hn) as (_ & _ & -> & _). Qed.

Lemma no_dot_b64 n s : n < 64 → char_in "." (String (b64_char n) s) = char_in "." s.
Proof.
  intros Hn. rewrite char_in_cons. destruct (b64_char_spec n Hn) as (_ & _ & _ & Hd).
  by rewrite bool_decide_eq_false_2.
Qed.

Lemma sextets_ascii s e : sextets s e → is_ascii e = true ∧ char_in "." e = false.
Proof.
  induction 1 as [|a|a b|a b c r e He IH]; sextet_bounds; [done|..]; unfold str1;
    rewrite !is_ascii_b64, !no_dot_b64 by lia; done.
Qed.

(** Decoding an unpadded encoding gives the bytes back. *)
Lemma b64_decode_encode s : b64_decode (b64_encode s) = Some s.
Proof.
  pose proof (b64_encode_sextets s) as He. pose proof (sextets_length _ _ He) as Hl.
  destruct (sextets_ascii _ _ He) as [Ha _]. pose proof (a2b_sextets _ _ He) as Hd.
  unfold b64_decode, urlsafe_b64decode, padding_of in *.
  pose proof (Nat.mod_upper_bound (String.length (b64_encode s)) 4 ltac:(lia)).
  destruct (String.length (b64_encode s) mod 4)%nat as [|[|[|[|n]]]]; [|done| | |lia]; simpl in *;
    rewrite ?str_app_nil_r in Hd; by rewrite ?is_ascii_app, ?Ha.
Qed.

Lemma b64_encode_ascii s : is_ascii (b64_encode s) = true.
Proof. by destruct (sextets_ascii _ _ (b64_encode_sextets s)). Qed.

Lemma b64_encode_no_dot s : char_in "." (b64_encode s) = false.
Proof. by destruct (sextets_ascii _ _ (b64_encode_sextets s)). Qed.

#[export] Instance b64_encode_inj : Inj (=) (=) b64_encode.
Proof. intros s1 s2 H. apply (inj Some). by rewrite <-!b64_decode_encode, H. Qed.
