(* ===== verification/ApiAuth.v ===== *)
(** * API authentication

    Models [auditor/api/auth.py]: the signed token ([issue_token], [verify_token]) and the request
    dependencies [get_current_user] and [require_role].  The secret of the settings and the clock are
    arguments; the text of an HTTP error is not modelled, its status is. *)

From Stdlib Require Import NArith ZArith Lia Ascii.
From Stdlib Require String.
From stdpp Require Import base tactics option list strings sets.
From S2P Require Import Prelude PyStr Float64 Sha256 Json Base64.

Open Scope Z_scope.

Definition TTL_DEFAULT_S : Z := 28800.

Definition HEADER_B64 : string :=
  b64_encode (utf8 (dumps compact (JObj [("alg", JStr "HS256"); ("typ", JStr "JWT")]))).

(** [AuthError], or another exception class escaping [verify_token]. *)
Inductive auth_exn :=
| AuthError (msg : string)
| OtherError (class_name : string).

Section auth.
Context (jwt_secret : string).

Definition sign (signing_input : string) : string :=
  b64_encode (hmac_sha256 (utf8 jwt_secret) (utf8 signing_input)).

Definition token_payload (user_id tenant_id role : string) (ttl_s now : Z) : list (string * json) :=
  [("sub", JStr user_id); ("tenant_id", JStr tenant_id); ("role", JStr role);
   ("iat", JInt now); ("exp", JInt (now + ttl_s))].

(** [issue_token]; [now] is [int(time.time())]. *)
Definition issue_token (user_id tenant_id role : string) (ttl_s now : Z) : string :=
  let payload := JObj (token_payload user_id tenant_id role ttl_s now) in
  let payload_b64 := b64_encode (utf8 (dumps compact payload)) in
  let signing_input := HEADER_B64 +:+ "." +:+ payload_b64 in
  signing_input +:+ "." +:+ sign signing_input.

(** [int(time.time()) >= claims.get("exp", 0)]; the comparison raises on a non-number. *)
Definition expired (now : Z) (claims : list (string * json)) : result auth_exn bool :=
  match default (JInt 0) (dget "exp" claims) with
  | JInt e => Ok (e <=? now)
  | JBool b => Ok ((if b then 1 else 0) <=? now)
  | JFloat lex => Ok (fleb (float_of_lexeme lex) (of_Z now))
  | _ => Raise (OtherError "TypeError")
  end.

(** [hmac.compare_digest] of two texts, which must both be ASCII. *)
Definition compare_digest (a b : string) : result auth_exn bool :=
  if is_ascii a && is_ascii b then Ok (String.eqb a b) else Raise (OtherError "TypeError").

Definition verify_token (now : Z) (token : string) : result auth_exn (list (string * json)) :=
  match split_on "." token with
  | [header_b64; payload_b64; sig_b64] =>
      let signing_input := header_b64 +:+ "." +:+ payload_b64 in
      let! same := compare_digest (sign signing_input) sig_b64 in
      if negb same then Raise (AuthError "token signature is invalid")
      else
        match b64_decode payload_b64 ≫= loads_bytes with
        | None => Raise (AuthError "token payload is not valid JSON")
        | Some (JObj claims) =>
            let! ex := expired now claims in
            if ex then Raise (AuthError "token has expired") else Ok claims
        | Some _ => Raise (OtherError "AttributeError")
        end
  | _ => Raise (AuthError "malformed token: expected 3 dot-separated parts")
  end.

(** ** Request dependencies *)

Inductive http_exn :=
| HTTPException (status_code : Z)
| ServerError (class_name : string).

Definition extract_raw_token (bearer session : option string) : option string :=
  match bearer with
  | Some credentials => if str_truthy credentials then Some credentials else session
  | None => session
  end.

Definition get_current_user (now : Z) (bearer session : option string)
    : result http_exn (list (string * json)) :=
  let raw := extract_raw_token bearer session in
  if negb (ostr_truthy raw) then Raise (HTTPException 401)
  else
    match verify_token now (default EmptyString raw) with
    | Ok claims => Ok claims
    | Raise (AuthError _) => Raise (HTTPException 401)
    | Raise (OtherError c) => Raise (ServerError c)
    end.

Definition role_in (roles : list string) (claims : list (string * json)) : bool :=
  match dget "role" claims with
  | Some (JStr r) => bool_decide (r ∈ roles)
  | _ => false
  end.

Definition require_role (roles : list string) (now : Z) (bearer session : option string)
    : result http_exn (list (string * json)) :=
  let! claims := get_current_user now bearer session in
  if negb (role_in roles claims) then Raise (HTTPException 403) else Ok claims.

(** ** Properties *)

Lemma split_three a b c :
  char_in "." a = false → char_in "." b = false → char_in "." c = false →
  split_on "." ((a +:+ "." +:+ b) +:+ "." +:+ c) = [a; b; c].
Proof.
  intros Ha Hb Hc. rewrite <-!str_app_assoc. cbn [String.append].
  by rewrite !split_on_app, !split_on_no_sep by done.
Qed.

Lemma compare_sign s : compare_digest (sign s) (sign s) = Ok true.
Proof. unfold compare_digest, sign. by rewrite b64_encode_ascii, String.eqb_refl. Qed.

(** The only way to a successful verification. *)
Lemma verify_token_ok now token claims :
  verify_token now token = Ok claims ↔
  ∃ h p, split_on "." token = [h; p; sign (h +:+ "." +:+ p)] ∧
         b64_decode p ≫= loads_bytes = Some (JObj claims) ∧ expired now claims = Ok false.
Proof.
  unfold verify_token. split.
  - destruct (split_on "." token) as [|h [|p [|s [|]]]]; try done. intros H.
    unfold compare_digest in H. destruct (_ && _); simpl in H; [|done].
    destruct (String.eqb (sign _) s) eqn:E; simpl in H; [|done].
    apply String.eqb_eq in E as <-.
    exists h, p. split; [done|].
    destruct (b64_decode p ≫= loads_bytes) as [[| | | | | |m]|]; try done.
    apply result_bind_ok in H as (ex & Hex & H). destruct ex; by simplify_eq.
  - intros (h & p & -> & -> & He). rewrite compare_sign. simpl. by rewrite He.
Qed.

Lemma token_payload_wf u t r ttl now : json_wf (JObj (token_payload u t r ttl now)).
Proof.
  apply json_wf_obj. split; [|by repeat constructor].
  apply (bool_decide_unpack _). vm_compute. exact I.
Qed.

Lemma payload_roundtrip u t r ttl now :
  loads_bytes (utf8 (dumps compact (JObj (token_payload u t r ttl now)))) =
    Some (JObj (token_payload u t r ttl now)).
Proof.
  unfold loads_bytes.
  assert (∃ s, utf8 (dumps compact (JObj (token_payload u t r ttl now))) =
               String "{" (String quote s)) as [s Hs] by (eexists; reflexivity).
  rewrite Hs, decode_detected_plain, <-Hs, utf8_decode_utf8 by done.
  cbn [mbind option_bind]. apply loads_dumps; [apply compact_ok|apply token_payload_wf].
Qed.

Lemma issue_verify_exact user_id tenant_id role ttl_s now later :
  verify_token later (issue_token user_id tenant_id role ttl_s now) =
    if later <? now + ttl_s then Ok (token_payload user_id tenant_id role ttl_s now)
    else Raise (AuthError "token has expired").
Proof.
  unfold verify_token, issue_token.
  rewrite split_three; [|vm_compute; reflexivity|apply b64_encode_no_dot|apply b64_encode_no_dot].
  rewrite compare_sign. cbn [result_bind negb]. rewrite b64_decode_encode. cbn [mbind option_bind]. rewrite payload_roundtrip.
  change (expired later (token_payload user_id tenant_id role ttl_s now))
    with (@Ok auth_exn bool (now + ttl_s <=? later)).
  cbn [result_bind]. rewrite Z.leb_antisym. by destruct (later <? now + ttl_s).
Qed.

(** A token the service issues is accepted, with exactly the claims it was issued for, at every
    second before its expiry, and refused as expired from then on. *)
Theorem issue_verify user_id tenant_id role ttl_s now later :
  verify_token later (issue_token user_id tenant_id role ttl_s now) =
    if later <? now + ttl_s then Ok (token_payload user_id tenant_id role ttl_s now)
    else Raise (AuthError "token has expired").
Proof. apply issue_verify_exact. Qed.

(** What the signature of a token is over: its parts but the last. *)
Definition signed_part (token : string) : string := join "." (take 2 (split_on "." token)).

(** The claim [exp] is a number after [now]; without it a token counts as expired at second 0. *)
Definition in_time (now : Z) (claims : list (string * json)) : Prop :=
  match dget "exp" claims with
  | None => now < 0
  | Some (JInt e) => now < e
  | Some (JBool b) => now < (if b then 1 else 0)
  | Some (JFloat lex) => fleb (float_of_lexeme lex) (of_Z now) = false
  | Some _ => False
  end.

Lemma expired_false now claims : expired now claims = Ok false ↔ in_time now claims.
Proof.
  assert (∀ b : bool, @Ok auth_exn bool b = Ok false ↔ b = false) as Hb by (split; [by intros [= ?]|by intros ->]).
  unfold expired, in_time. destruct (dget "exp" claims) as [v|]; [destruct v as [|b|e|lex|s|l|m]|];
    cbv beta iota delta [from_option Datatypes.id]; rewrite ?Hb, ?Z.leb_gt; done.
Qed.

(** C8: an accepted token is three parts, of which the last is the base64 HMAC of the first two
    under the server's secret; its claims are the JSON object its second part decodes to; and its
    [exp] lies after the current second.  Two accepted tokens with one signature are the same token
    with the same claims, unless two of the texts hashed for the one and for the other collide. *)
Theorem verified_tokens_authentic now1 now2 tok1 tok2 c1 c2 :
  verify_token now1 tok1 = Ok c1 →
  (∃ h p, split_on "." tok1 =
            [h; p; b64_encode (hmac_sha256 (utf8 jwt_secret) (utf8 (h +:+ "." +:+ p)))] ∧
          b64_decode p ≫= loads_bytes = Some (JObj c1) ∧ in_time now1 c1) ∧
  (verify_token now2 tok2 = Ok c2 → last (split_on "." tok1) = last (split_on "." tok2) →
   (tok1 = tok2 ∧ c1 = c2) ∨
   collision_in (hmac_inputs (utf8 jwt_secret) (utf8 (signed_part tok1)))
                (hmac_inputs (utf8 jwt_secret) (utf8 (signed_part tok2)))).
Proof.
  rewrite !verify_token_ok. intros (h1 & p1 & E1 & D1 & T1).
  split; [exists h1, p1; by rewrite <-expired_false|]. intros (h2 & p2 & E2 & D2 & _) Hl.
  unfold signed_part. rewrite E1, E2 in *. cbn [take join].
  assert (∀ h p tok, split_on "." tok = [h; p; sign (h +:+ "." +:+ p)] →
    tok = h +:+ "." +:+ p +:+ "." +:+ sign (h +:+ "." +:+ p)) as Htok.
  { intros h p tok E. pose proof (split_on_join "." tok) as Hj. rewrite E in Hj.
    by rewrite <-Hj. }
  simpl in Hl. injection Hl as Hl. unfold sign in Hl.
  apply (inj b64_encode) in Hl. apply hmac_inj_or_collision in Hl as [Hl|Hl]; [left|by right].
  apply (inj utf8) in Hl.
  assert (h1 = h2 ∧ p1 = p2) as [-> ->].
  { assert (∀ h p, split_on "." tok1 = [h; p; sign (h +:+ "." +:+ p)] ∨
                   split_on "." tok2 = [h; p; sign (h +:+ "." +:+ p)] →
                   split_on "." (h +:+ "." +:+ p) = [h; p]) as Hs.
    { intros h p Hs. assert (char_in "." h = false ∧ char_in "." p = false) as [Hh Hp].
      { destruct Hs as [Hs|Hs]; split; eapply split_on_parts; rewrite Hs; set_solver. }
      cbn [String.append]. by rewrite split_on_app, split_on_no_sep. }
    pose proof (Hs h1 p1 (or_introl E1)) as Hs1. pose proof (Hs h2 p2 (or_intror E2)) as Hs2.
    cbn [String.append] in *. rewrite Hl, Hs2 in Hs1.
    naive_solver. }
  split; [by rewrite (Htok _ _ _ E1), (Htok _ _ _ E2)|congruence].
Qed.

Lemma require_role_ok roles now bearer session claims :
  require_role roles now bearer session = Ok claims →
  ∃ tok, extract_raw_token bearer session = Some tok ∧ verify_token now tok = Ok claims ∧
         role_in roles claims = true.
Proof.
  unfold require_role, get_current_user. intros (c & Hc & Hr)%result_bind_ok.
  destruct (role_in roles c) eqn:Hin; [|done]. simplify_eq/=.
  destruct (extract_raw_token bearer session) as [tok|]; [|done].
  destruct (negb _) in Hc; [done|]. simpl in Hc. exists tok. split; [done|].
  by destruct (verify_token now tok) as [c|[]]; simplify_eq.
Qed.

(** A handler behind [require_role] runs only on claims that were verified from the bearer
    token or else the session cookie, whose role is one of those listed; a request without a token is
    answered 401 and one with an accepted token of another role 403. *)
Theorem require_role_gate roles now bearer session :
  (∀ claims, require_role roles now bearer session = Ok claims →
     role_in roles claims = true ∧
     ∃ tok, extract_raw_token bearer session = Some tok ∧ verify_token now tok = Ok claims) ∧
  (ostr_truthy (extract_raw_token bearer session) = false →
     require_role roles now bearer session = Raise (HTTPException 401)) ∧
  (∀ tok claims, extract_raw_token bearer session = Some tok → verify_token now tok = Ok claims →
     role_in roles claims = false →
     require_role roles now bearer session = Raise (HTTPException 403)).
Proof.
  unfold require_role, get_current_user. split_and!.
  - intros claims H. apply require_role_ok in H as (tok & ? & ? & ?). eauto.
  - by intros ->.
  - intros tok claims -> Hv Hr. simpl. rewrite Hv.
    assert (str_truthy tok = true) as ->; [|simpl; by rewrite Hr].
    destruct tok; [|done]. by apply verify_token_ok in Hv as (? & ? & ? & _).
Qed.
End auth.

(** A signature part that is not ASCII is not an [AuthError]: the comparison itself raises. *)
Lemma non_ascii_signature_escapes secret now h p c :
  char_in "." h = false → char_in "." p = false → (128 ≤ N_of_ascii c)%N →
  c ≠ "."%char →
  verify_token secret now ((h +:+ "." +:+ p) +:+ "." +:+ String c EmptyString) =
    Raise (OtherError "TypeError").
Proof.
  intros Hh Hp Hc Hd. unfold verify_token. rewrite split_three; [|done|done|].
  - unfold compare_digest. cbn [is_ascii].
    rewrite (proj2 (N.ltb_ge _ _)) by done. by rewrite andb_false_r.
  - by rewrite char_in_cons, bool_decide_eq_false_2.
Qed.

(** ** Witnesses *)

Definition sample_token : string := issue_token "secret" "u" "t" "admin" 100 1000.

Lemma verified_tokens_authentic_witness :
  in_time 1001 (token_payload "u" "t" "admin" 100 1000) ∧
  ((sample_token = sample_token ∧
    token_payload "u" "t" "admin" 100 1000 = token_payload "u" "t" "admin" 100 1000) ∨
   collision_in (hmac_inputs "secret" (utf8 (signed_part sample_token)))
                (hmac_inputs "secret" (utf8 (signed_part sample_token)))).
Proof.
  destruct (verified_tokens_authentic "secret" 1001 1002 sample_token sample_token
    (token_payload "u" "t" "admin" 100 1000) (token_payload "u" "t" "admin" 100 1000))
    as [(h & p & _ & _ & Ht) H]; [vm_compute; reflexivity|].
  split; [exact Ht|]. apply H; [vm_compute; reflexivity|reflexivity].
Defined.
