(* ===== verification/Incidents.v ===== *)
(** * Incidents

    Models [auditor/incidents/]: the state machine of [lifecycle.py], the service of [service.py]
    (opening an incident for a flag, comments, similarity search), and the routes of
    [auditor/api/incidents_routes.py] over a database of incidents and comments. *)

From Stdlib Require Import NArith ZArith Lia Ascii.
From Stdlib Require String.
From stdpp Require Import base tactics option list strings sets relations sorting.
From S2P Require Import Prelude PyStr Float64 Sha256 Json Verdicts AuditChain Base64 ApiAuth.

Open Scope Z_scope.

(** ** Data ([db/models.py]) *)

Record Incident := {
  incident_id : uuid;
  i_tenant_id : uuid;
  primary_flag_id : uuid;
  related_flag_ids : list uuid;
  i_severity : string;
  i_state : string;
  assignee_id : option uuid;
  opened_at : datetime;
  triaged_at : option datetime;
  contained_at : option datetime;
  resolved_at : option datetime;
  post_mortem_uri : option string;
  dismissal_rationale : option string
}.

Record IncidentComment := {
  comment_id : uuid;
  c_incident_id : uuid;
  author_id : uuid;
  c_body : string;
  c_ts : datetime
}.

Record IncidentActionItem := {
  action_id : uuid;
  a_incident_id : uuid;
  owner_id : option uuid;
  a_description : string;
  a_status : string;
  a_due_date : option string;
  a_created_at : datetime;
  a_completed_at : option datetime
}.

(** ** The state machine ([lifecycle.py]) *)

Definition ALL_STATES : list string :=
  ["OPEN"; "TRIAGING"; "INVESTIGATING"; "CONTAINED"; "RESOLVED"; "POST_MORTEM_COMPLETE"; "DISMISSED"].

Definition LEGAL_TRANSITIONS : list (string * list string) :=
  [("OPEN", ["TRIAGING"; "DISMISSED"]);
   ("TRIAGING", ["INVESTIGATING"]);
   ("INVESTIGATING", ["CONTAINED"]);
   ("CONTAINED", ["RESOLVED"]);
   ("RESOLVED", ["POST_MORTEM_COMPLETE"]);
   ("POST_MORTEM_COMPLETE", []);
   ("DISMISSED", [])].

Definition REVIEWER_TARGETS : list string := ["TRIAGING"; "INVESTIGATING"; "CONTAINED"; "DISMISSED"].
Definition ADMIN_ONLY_TARGETS : list string := ["RESOLVED"; "POST_MORTEM_COMPLETE"].

(** [IncidentTransitionError], one constructor per place that raises it. *)
Inductive IncidentTransitionError :=
| UnknownState (target : string)
| IllegalTransition (current target : string)
| ReadonlyRole
| NotAuthorised (actor_role target : string)
| RationaleRequired (target : string)
| PostMortemRequired.

Definition member (x : string) (l : list string) : bool := bool_decide (x ∈ l).

(** [not s or not s.strip()] of an optional text. *)
Definition missing_text (s : option string) : bool :=
  negb (ostr_truthy s) || is_blank (default EmptyString s).

Definition validate_target_state (target : string) : result IncidentTransitionError () :=
  guard_raise (negb (member target ALL_STATES)) (UnknownState target).

Definition validate_legal (current target : string) : result IncidentTransitionError () :=
  guard_raise (negb (member target (default [] (dget current LEGAL_TRANSITIONS))))
    (IllegalTransition current target).

Definition validate_rbac (target actor_role : string) : result IncidentTransitionError () :=
  if String.eqb actor_role "admin" then Ok tt
  else if String.eqb actor_role "reviewer" && member target REVIEWER_TARGETS then Ok tt
  else if String.eqb actor_role "readonly" then Raise ReadonlyRole
  else Raise (NotAuthorised actor_role target).

Definition require_rationale (rationale : option string) (target : string)
    : result IncidentTransitionError () :=
  guard_raise (missing_text rationale) (RationaleRequired target).

Definition check_post_mortem_gate (i : Incident) (uri : option string)
    : result IncidentTransitionError () :=
  if String.eqb (lower (i_severity i)) "critical" then guard_raise (missing_text uri) PostMortemRequired
  else Ok tt.

Definition apply_transition (now : datetime) (target : string) (rationale uri : option string)
    (i : Incident) : Incident :=
  {| incident_id := incident_id i; i_tenant_id := i_tenant_id i;
     primary_flag_id := primary_flag_id i; related_flag_ids := related_flag_ids i;
     i_severity := i_severity i;
     i_state := target;
     assignee_id := assignee_id i; opened_at := opened_at i;
     triaged_at := if String.eqb target "TRIAGING" then Some now else triaged_at i;
     contained_at := if String.eqb target "CONTAINED" then Some now else contained_at i;
     resolved_at := if String.eqb target "RESOLVED" then Some now else resolved_at i;
     post_mortem_uri := if String.eqb target "POST_MORTEM_COMPLETE" && ostr_truthy uri then uri
                        else post_mortem_uri i;
     dismissal_rationale := if String.eqb target "DISMISSED" then rationale
                            else dismissal_rationale i |}.

(** [IncidentStateMachine.transition]; [now] is the clock when the change is applied. *)
Definition transition (now : datetime) (i : Incident) (target actor_role : string)
    (uri rationale : option string) : result IncidentTransitionError Incident :=
  let! _ := validate_target_state target in
  let! _ := validate_legal (i_state i) target in
  let! _ := validate_rbac target actor_role in
  let! _ := (if String.eqb target "DISMISSED" then require_rationale rationale target else Ok tt) in
  let! _ := (if String.eqb target "POST_MORTEM_COMPLETE" then check_post_mortem_gate i uri
             else Ok tt) in
  Ok (apply_transition now target rationale uri i).

Definition can_transition (actor_role target : string) : bool :=
  if member target REVIEWER_TARGETS then member actor_role ["reviewer"; "admin"]
  else if member target ADMIN_ONLY_TARGETS then String.eqb actor_role "admin"
  else false.

(** ** The service ([service.py]) *)

Definition INCIDENT_SEVERITIES : list string := ["high"; "critical"].

(** [open_incident_for_flag(flag)]: the incident and whether it is marked for paging. *)
Definition open_incident_for_flag (fresh : uuid) (now : datetime) (flag_id tenant_id : uuid)
    (flag_severity : string) : option (Incident * bool) :=
  let severity := lower flag_severity in
  if negb (member severity INCIDENT_SEVERITIES) then None
  else
    Some ({| incident_id := fresh; i_tenant_id := tenant_id; primary_flag_id := flag_id;
             related_flag_ids := []; i_severity := severity; i_state := "OPEN"; assignee_id := None;
             opened_at := now; triaged_at := None; contained_at := None; resolved_at := None;
             post_mortem_uri := None; dismissal_rationale := None |},
          String.eqb severity "critical").

Definition build_comment (fresh : uuid) (now : datetime) (incident_id author_id : uuid)
    (body : string) : IncidentComment :=
  {| comment_id := fresh; c_incident_id := incident_id; author_id := author_id; c_body := body;
     c_ts := now |}.

Definition build_action_item (fresh : uuid) (now : datetime) (incident_id : uuid)
    (owner_id : option uuid) (description : string) (due_date : option string) : IncidentActionItem :=
  {| action_id := fresh; a_incident_id := incident_id; owner_id := owner_id;
     a_description := description; a_status := "open"; a_due_date := due_date;
     a_created_at := now; a_completed_at := None |}.

(** An object offered to [find_similar]: its id and the optional attributes [_detector],
    [_asi_categories], [_agent_role], [_tools], with the defaults [getattr] gives when absent. *)
Record Correlated := {
  k_incident : Incident;
  k_detector : string;
  k_asi_categories : list string;
  k_agent_role : string;
  k_tools : list string
}.

(** [len(set(a) & set(b))] *)
Definition overlap (a b : list string) : Z :=
  Z.of_nat (length (bfilter (λ x, member x b) (sorted_set a))).

Definition similarity (ref cand : Correlated) : Z :=
  (if str_truthy (k_detector ref) && String.eqb (k_detector cand) (k_detector ref) then 3 else 0)
  + overlap (k_asi_categories ref) (k_asi_categories cand) * 2
  + (if str_truthy (k_agent_role ref) && String.eqb (k_agent_role cand) (k_agent_role ref)
     then 1 else 0)
  + overlap (k_tools ref) (k_tools cand) * 2.

Definition same_id (a b : Correlated) : bool :=
  String.eqb (incident_id (k_incident a)) (incident_id (k_incident b)).

(** [scored.sort(key=score, reverse=True)]: stable, greatest first. *)
Fixpoint insert_score {A} (x : A * Z) (l : list (A * Z)) : list (A * Z) :=
  match l with
  | [] => [x]
  | y :: l' => if y.2 <=? x.2 then x :: l else y :: insert_score x l'
  end.

Definition sort_by_score {A} (l : list (A * Z)) : list (A * Z) := foldr insert_score [] l.

Definition find_similar (incident : Correlated) (recent : list Correlated) : list (Correlated * Z) :=
  sort_by_score
    (bfilter (λ p : Correlated * Z, 0 <? p.2)
       (map (λ c, (c, similarity incident c))
          (bfilter (λ c, negb (same_id c incident)) recent))).

(** ** The routes ([api/incidents_routes.py]) *)

Record IncidentDb := {
  db_incidents : list Incident;
  db_comments : list IncidentComment;
  db_action_items : list IncidentActionItem;
  db_users : list uuid
}.

(** [order_by(key)], ascending; among equal keys the order of the table. *)
Fixpoint insert_key_asc {A} (key : A → Z) (x : A) (l : list A) : list A :=
  match l with
  | [] => [x]
  | y :: l' => if key x <=? key y then x :: l else y :: insert_key_asc key x l'
  end.

Definition order_by {A} (key : A → Z) (l : list A) : list A := foldr (insert_key_asc key) [] l.

Definition filter_opt {A} (f : A → string) (v : option string) (l : list A) : list A :=
  if ostr_truthy v then bfilter (λ x, String.eqb (f x) (default EmptyString v)) l else l.

Definition list_incidents_query (db : IncidentDb) (state_filter severity_filter tenant_id : option string)
    : list Incident :=
  order_by (λ i, - opened_at i)
    (filter_opt i_tenant_id tenant_id
      (filter_opt i_severity severity_filter
        (filter_opt i_state state_filter (db_incidents db)))).

Definition get_incident_row (db : IncidentDb) (id : uuid) : option Incident :=
  head (bfilter (λ i, String.eqb (incident_id i) id) (db_incidents db)).

Definition get_comments (db : IncidentDb) (id : uuid) : list IncidentComment :=
  order_by c_ts (bfilter (λ c, String.eqb (c_incident_id c) id) (db_comments db)).

Definition get_action_items (db : IncidentDb) (id : uuid) : list IncidentActionItem :=
  order_by a_created_at (bfilter (λ a, String.eqb (a_incident_id a) id) (db_action_items db)).

Definition get_recent_incidents (db : IncidentDb) (tenant_id exclude_id : uuid) : list Incident :=
  take 100 (order_by (λ i, - opened_at i)
    (bfilter (λ i, String.eqb (i_tenant_id i) tenant_id && negb (String.eqb (incident_id i) exclude_id))
       (db_incidents db))).

(** A row loaded from the database has the columns of the table and none of the optional attributes
    [find_similar] reads. *)
Definition loaded (i : Incident) : Correlated :=
  {| k_incident := i; k_detector := EmptyString; k_asi_categories := []; k_agent_role := EmptyString;
     k_tools := [] |}.

Definition update_incident (db : IncidentDb) (i' : Incident) : IncidentDb :=
  {| db_incidents := map (λ i, if String.eqb (incident_id i) (incident_id i') then i' else i)
                       (db_incidents db);
     db_comments := db_comments db; db_action_items := db_action_items db; db_users := db_users db |}.

Definition claim_str (claims : list (string * json)) (key dflt : string) : option string :=
  match dget key claims with
  | Some (JStr s) => Some s
  | Some _ => None
  | None => Some dflt
  end.

Record TransitionRequest := {
  tr_target : string;
  tr_rationale : option string;
  tr_post_mortem_uri : option string
}.

Record IncidentDetail := {
  d_incident : Incident;
  d_comments : list IncidentComment;
  d_action_items : list IncidentActionItem;
  d_similar : list (Correlated * Z)
}.

Section routes.
Context (jwt_secret : string).

Definition list_incidents (db : IncidentDb) (now_s : Z) (bearer session : option string)
    (state severity : option string) : result http_exn (list Incident) :=
  let! claims := get_current_user jwt_secret now_s bearer session in
  match dget "tenant_id" claims with
  | Some (JStr t) => Ok (list_incidents_query db state severity (Some t))
  | Some _ => Raise (ServerError "DBAPIError")
  | None => Raise (ServerError "KeyError")
  end.

Definition get_incident (db : IncidentDb) (now_s : Z) (bearer session : option string)
    (id : uuid) : result http_exn IncidentDetail :=
  let! _ := get_current_user jwt_secret now_s bearer session in
  match get_incident_row db id with
  | None => Raise (HTTPException 404)
  | Some i =>
      let recent := get_recent_incidents db (i_tenant_id i) id in
      Ok {| d_incident := i; d_comments := get_comments db id;
            d_action_items := get_action_items db id;
            d_similar := take 10 (find_similar (loaded i) (map loaded recent)) |}
  end.

(** The best-effort audit entry; [None] when building it raises, which the handler swallows. *)
Definition transition_audit (claims : list (string * json)) (i : Incident) (id : uuid)
    (body : TransitionRequest) : option AppendReq :=
  t ← claim_str claims "tenant_id" (i_tenant_id i);
  tenant ← parse_uuid t;
  actor ← claim_str claims "sub" EmptyString;
  Some {| rq_tenant_id := tenant; rq_actor_type := "user"; rq_action := "incident_transition";
          rq_actor_id := parse_uuid actor; rq_target_type := Some "incident";
          rq_target_id := parse_uuid id;
          rq_payload := Some [("target_state", JStr (tr_target body));
                              ("rationale", jopt (tr_rationale body));
                              ("post_mortem_uri", jopt (tr_post_mortem_uri body))];
          rq_blob_uri := None |}.

(** The handler: the database after the request, the audit entry it appends, and its answer. *)
Definition transition_incident (db : IncidentDb) (now_s : Z) (now : datetime)
    (bearer session : option string) (id : uuid) (body : TransitionRequest)
    : IncidentDb * option AppendReq * result http_exn Incident :=
  match require_role jwt_secret ["admin"; "reviewer"] now_s bearer session with
  | Raise e => (db, None, Raise e)
  | Ok claims =>
      match get_incident_row db id with
      | None => (db, None, Raise (HTTPException 404))
      | Some i =>
          let actor_role := default EmptyString (claim_str claims "role" EmptyString) in
          match transition now i (tr_target body) actor_role (tr_post_mortem_uri body)
                  (tr_rationale body) with
          | Raise _ => (db, None, Raise (HTTPException 422))
          | Ok i' => (update_incident db i', transition_audit claims i id body, Ok i')
          end
      end
  end.

Definition add_comment (db : IncidentDb) (now_s : Z) (now : datetime) (fresh : uuid)
    (bearer session : option string) (id : uuid) (body : string)
    : IncidentDb * result http_exn IncidentComment :=
  match require_role jwt_secret ["admin"; "reviewer"] now_s bearer session with
  | Raise e => (db, Raise e)
  | Ok claims =>
      match get_incident_row db id with
      | None => (db, Raise (HTTPException 404))
      | Some _ =>
          let author := default EmptyString (claim_str claims "sub" EmptyString) in
          if negb (member author (db_users db)) then (db, Raise (ServerError "DBAPIError"))
          else
            let c := build_comment fresh now id author body in
            ({| db_incidents := db_incidents db; db_comments := db_comments db ++ [c];
                db_action_items := db_action_items db; db_users := db_users db |}, Ok c)
      end
  end.
End routes.

(** ** The lifecycle *)

Lemma member_spec x l : member x l = true ↔ x ∈ l.
Proof. apply bool_decide_eq_true. Qed.

Lemma validate_target_ok target :
  validate_target_state target = Ok tt ↔ member target ALL_STATES = true.
Proof. unfold validate_target_state. by rewrite guard_raise_ok, negb_false_iff. Qed.

Lemma validate_legal_ok current target :
  validate_legal current target = Ok tt ↔
  member target (default [] (dget current LEGAL_TRANSITIONS)) = true.
Proof. unfold validate_legal. by rewrite guard_raise_ok, negb_false_iff. Qed.

Lemma validate_rbac_ok target role :
  validate_rbac target role = Ok tt ↔
  role = "admin" ∨ (role = "reviewer" ∧ member target REVIEWER_TARGETS = true).
Proof.
  unfold validate_rbac. destruct (String.eqb_spec role "admin") as [->|]; [naive_solver|].
  destruct (String.eqb_spec role "reviewer") as [->|]; cbn [andb].
  - destruct (member target REVIEWER_TARGETS); [naive_solver|]. split; [done|naive_solver].
  - destruct (String.eqb role "readonly"); split; (done || naive_solver).
Qed.

Lemma check_post_mortem_ok i uri :
  check_post_mortem_gate i uri = Ok tt ↔
  (lower (i_severity i) = "critical" → missing_text uri = false).
Proof.
  unfold check_post_mortem_gate. destruct (String.eqb_spec (lower (i_severity i)) "critical").
  - rewrite guard_raise_ok. naive_solver.
  - naive_solver.
Qed.

Lemma legal_in_states current target :
  member target (default [] (dget current LEGAL_TRANSITIONS)) = true → member target ALL_STATES = true.
Proof.
  unfold LEGAL_TRANSITIONS, ALL_STATES. rewrite !member_spec. simpl.
  repeat case_decide; simpl; set_solver.
Qed.

(** [transition] succeeds exactly under these conditions, and then applies the change. *)
Lemma transition_ok now i target role uri rationale i' :
  transition now i target role uri rationale = Ok i' ↔
  i' = apply_transition now target rationale uri i ∧
  member target (default [] (dget (i_state i) LEGAL_TRANSITIONS)) = true ∧
  (role = "admin" ∨ (role = "reviewer" ∧ member target REVIEWER_TARGETS = true)) ∧
  (target = "DISMISSED" → missing_text rationale = false) ∧
  (target = "POST_MORTEM_COMPLETE" → lower (i_severity i) = "critical" → missing_text uri = false).
Proof.
  unfold transition.
  rewrite !result_seq_ok, validate_target_ok, validate_legal_ok, validate_rbac_ok.
  assert ((if String.eqb target "DISMISSED" then require_rationale rationale target else Ok tt) = Ok tt
          ↔ (target = "DISMISSED" → missing_text rationale = false)) as ->.
  { destruct (String.eqb_spec target "DISMISSED"); [|naive_solver].
    unfold require_rationale. rewrite guard_raise_ok. naive_solver. }
  assert ((if String.eqb target "POST_MORTEM_COMPLETE" then check_post_mortem_gate i uri else Ok tt)
          = Ok tt ↔ (target = "POST_MORTEM_COMPLETE" → lower (i_severity i) = "critical" →
                     missing_text uri = false)) as ->.
  { destruct (String.eqb_spec target "POST_MORTEM_COMPLETE"); [|naive_solver].
    rewrite check_post_mortem_ok. naive_solver. }
  pose proof (legal_in_states (i_state i) target). naive_solver.
Qed.

Definition lifecycle_step (i i' : Incident) : Prop :=
  ∃ now target role uri rationale, transition now i target role uri rationale = Ok i'.

(** How far along the lifecycle a state is. *)
Definition state_rank (s : string) : nat :=
  match s with
  | "OPEN" => 0 | "TRIAGING" => 1 | "INVESTIGATING" => 2 | "CONTAINED" => 3 | "RESOLVED" => 4
  | "POST_MORTEM_COMPLETE" => 5 | "DISMISSED" => 5 | _ => 6
  end.

Definition legal_pairs : list (string * string) :=
  mjoin (map (λ kv, map (pair kv.1) kv.2) LEGAL_TRANSITIONS).

Lemma legal_transition_pairs current target :
  member target (default [] (dget current LEGAL_TRANSITIONS)) = true → (current, target) ∈ legal_pairs.
Proof.
  rewrite member_spec. unfold LEGAL_TRANSITIONS, legal_pairs. simpl.
  repeat case_decide; simpl; set_solver.
Qed.

(** The moves of the graph, one by one. *)
Lemma legal_transition_cases current target :
  member target (default [] (dget current LEGAL_TRANSITIONS)) = true →
  (current = "OPEN" ∧ target = "TRIAGING") ∨ (current = "OPEN" ∧ target = "DISMISSED") ∨
  (current = "TRIAGING" ∧ target = "INVESTIGATING") ∨ (current = "INVESTIGATING" ∧ target = "CONTAINED") ∨
  (current = "CONTAINED" ∧ target = "RESOLVED") ∨ (current = "RESOLVED" ∧ target = "POST_MORTEM_COMPLETE").
Proof.
  intros H%legal_transition_pairs. cbn in H. rewrite !elem_of_cons in H.
  destruct H as [|[|[|[|[|[|[]%elem_of_nil]]]]]]; simplify_eq; naive_solver.
Qed.

(** What holds of an incident at each stage. *)
Record incident_inv (i : Incident) : Prop := {
  inv_severity : i_severity i = "high" ∨ i_severity i = "critical";
  inv_state : i_state i ∈ ALL_STATES;
  inv_triaged : is_Some (triaged_at i) ↔ i_state i ≠ "OPEN" ∧ i_state i ≠ "DISMISSED";
  inv_contained : is_Some (contained_at i) ↔
    i_state i = "CONTAINED" ∨ i_state i = "RESOLVED" ∨ i_state i = "POST_MORTEM_COMPLETE";
  inv_resolved : is_Some (resolved_at i) ↔
    i_state i = "RESOLVED" ∨ i_state i = "POST_MORTEM_COMPLETE";
  inv_dismissed : i_state i = "DISMISSED" → missing_text (dismissal_rationale i) = false;
  inv_post_mortem : i_state i = "POST_MORTEM_COMPLETE" → i_severity i = "critical" →
    missing_text (post_mortem_uri i) = false
}.

Lemma open_incident_inv fresh now flag t sev i page :
  open_incident_for_flag fresh now flag t sev = Some (i, page) → incident_inv i.
Proof.
  unfold open_incident_for_flag.
  destruct (member (lower sev) INCIDENT_SEVERITIES) eqn:Hm; [|done]. simpl. intros [= <- _].
  apply member_spec in Hm. split; simpl; try done.
  - unfold INCIDENT_SEVERITIES in Hm. set_solver.
  - left.
  - split; [by intros [? ?]|naive_solver].
  - split; [by intros [? ?]|naive_solver].
  - split; [by intros [? ?]|naive_solver].
Qed.

Lemma missing_text_truthy uri : missing_text uri = false → ostr_truthy uri = true.
Proof. unfold missing_text. by destruct (ostr_truthy uri). Qed.

Lemma lifecycle_step_inv i i' : incident_inv i → lifecycle_step i i' → incident_inv i'.
Proof.
  intros [H1 H2 H3 H4 H5 H6 H7] (now & target & role & uri & rat & Ht).
  apply transition_ok in Ht as (-> & Hl & _ & Hd & Hp).
  assert (i_severity i = "critical" → lower (i_severity i) = "critical") as Hlow by by intros ->.
  apply legal_transition_cases in Hl as [[E ->]|[[E ->]|[[E ->]|[[E ->]|[[E ->]|[E ->]]]]]];
    rewrite E in H3, H4, H5; split; simpl; try done; rewrite ?H3, ?H4, ?H5; try by_decision.
  intros _ Hc. specialize (Hp eq_refl (Hlow Hc)). by rewrite (missing_text_truthy _ Hp).
Qed.

Lemma lifecycle_step_rank i i' :
  lifecycle_step i i' → (state_rank (i_state i) < state_rank (i_state i') ≤ 5)%nat.
Proof.
  intros (now & target & role & uri & rat & Ht). apply transition_ok in Ht as (-> & Hl & _).
  apply legal_transition_cases in Hl as [[E ->]|[[E ->]|[[E ->]|[[E ->]|[[E ->]|[E ->]]]]]];
    rewrite E; simpl; lia.
Qed.

(** C9: an incident opened for a flag and moved by any sequence of accepted transitions: it takes at
    most five; its timestamps are set exactly for the stages it has reached; a dismissed one has a
    non-blank rationale; a critical one whose post-mortem is complete has a non-blank document link. *)
Theorem lifecycle_invariant fresh now flag t sev i0 page n i :
  open_incident_for_flag fresh now flag t sev = Some (i0, page) →
  nsteps lifecycle_step n i0 i →
  incident_inv i ∧ (n ≤ 5)%nat.
Proof.
  intros Ho Hn. assert (incident_inv i0) as Hi by by eapply open_incident_inv.
  assert (state_rank (i_state i0) = 0%nat) as Hr.
  { unfold open_incident_for_flag in Ho. destruct (negb _); naive_solver. }
  assert (incident_inv i ∧ (state_rank (i_state i0) + n ≤ state_rank (i_state i))%nat ∧
          (state_rank (i_state i0) ≤ 5 → state_rank (i_state i) ≤ 5)%nat) as (Hinv & Hle & Hb).
  2: { split; [done|]. specialize (Hb ltac:(lia)). lia. }
  clear Ho Hr. induction Hn as [|n x y z Hs Hn IH]; [split_and!; [done|lia|done]|].
  pose proof (lifecycle_step_rank _ _ Hs) as Hr.
  destruct (IH (lifecycle_step_inv _ _ Hi Hs)) as (? & ? & ?). split_and!; [done|lia|lia].
Qed.

(** Every accepted transition was allowed to the actor: its target is one [can_transition]
    grants the role, only an admin reaches RESOLVED or POST_MORTEM_COMPLETE, only an admin or a
    reviewer moves an incident at all, and nobody moves a closed one. *)
Theorem transition_authorised now i target role uri rationale i' :
  transition now i target role uri rationale = Ok i' →
  can_transition role target = true ∧
  (target = "RESOLVED" ∨ target = "POST_MORTEM_COMPLETE" → role = "admin") ∧
  (role = "admin" ∨ role = "reviewer") ∧
  i_state i ≠ "DISMISSED" ∧ i_state i ≠ "POST_MORTEM_COMPLETE".
Proof.
  intros (_ & Hl & Hr & _ & _)%transition_ok.
  apply legal_transition_cases in Hl as [[-> ->]|[[-> ->]|[[-> ->]|[[-> ->]|[[-> ->]|[-> ->]]]]]];
    destruct Hr as [->|[-> Hm]]; vm_compute in *; try done; naive_solver.
Qed.

(** ** Similar incidents *)

Lemma insert_score_perm {A} (x : A * Z) l : insert_score x l ≡ₚ x :: l.
Proof.
  induction l as [|y l IH]; simpl; [done|]. destruct (y.2 <=? x.2); [done|].
  rewrite IH. apply Permutation_swap.
Qed.

Lemma sort_by_score_perm {A} (l : list (A * Z)) : sort_by_score l ≡ₚ l.
Proof. unfold sort_by_score. induction l; simpl; [done|]. by rewrite insert_score_perm, IHl. Qed.

Definition score_ge {A} (x y : A * Z) : Prop := y.2 ≤ x.2.

Lemma sort_by_score_sorted {A} (l : list (A * Z)) : StronglySorted score_ge (sort_by_score l).
Proof.
  unfold sort_by_score. induction l as [|x l IH]; simpl; [constructor|].
  induction IH as [|y m Hm IHm Hy]; simpl; [by repeat constructor|].
  destruct (y.2 <=? x.2) eqn:E.
  - apply Z.leb_le in E. constructor; [by constructor|]. constructor; [done|].
    eapply Forall_impl; [exact Hy|]. intros z. unfold score_ge. lia.
  - apply Z.leb_gt in E. constructor; [done|]. rewrite Forall_forall in *. intros z.
    rewrite insert_score_perm, elem_of_cons. intros [->|Hz]; [unfold score_ge; lia|by apply Hy].
Qed.

Lemma find_similar_perm incident recent :
  find_similar incident recent ≡ₚ
    map (λ c, (c, similarity incident c))
      (bfilter (λ c, negb (same_id c incident) && (0 <? similarity incident c)) recent).
Proof.
  unfold find_similar. rewrite sort_by_score_perm.
  induction recent as [|c l IH]; [done|]. rewrite !bfilter_cons.
  destruct (same_id c incident); cbn [negb andb map]; [done|].
  rewrite bfilter_cons. cbn [snd]. destruct (0 <? similarity incident c); cbn [map]; by rewrite IH.
Qed.

(** The similar incidents are, in descending order of score, exactly the other recent incidents
    with a positive score, each as often as it was offered. *)
Theorem find_similar_ranked incident recent :
  StronglySorted score_ge (find_similar incident recent) ∧
  find_similar incident recent ≡ₚ
    map (λ c, (c, similarity incident c))
      (bfilter (λ c, negb (same_id c incident) && (0 <? similarity incident c)) recent).
Proof.
  split; [apply sort_by_score_sorted|apply find_similar_perm].
Qed.

(** Rows loaded from the database never carry the attributes the score reads, so the similar
    incidents a detail request returns are always empty, whatever the database holds. *)
Theorem loaded_incidents_never_similar secret db now_s bearer session id d :
  get_incident secret db now_s bearer session id = Ok d → d_similar d = [].
Proof.
  unfold get_incident. intros (claims & _ & H)%result_bind_ok.
  destruct (get_incident_row db id) as [i|]; [|done]. simplify_eq/=.
  assert (find_similar (loaded i) (map loaded (get_recent_incidents db (i_tenant_id i) id)) = [])
    as ->; [|done].
  apply Permutation_nil_r. symmetry. rewrite find_similar_perm.
  replace (bfilter _ _) with (@nil Correlated); [done|]. symmetry. apply bfilter_nil.
  intros c (j & -> & _)%list_elem_of_fmap. by rewrite andb_false_r.
Qed.

(** ** The transition route *)

(** A refused request (401, 403, 404, 422) leaves the database as it was and appends nothing to
    the audit log; an accepted one ran the state machine on the stored row with the role of verified
    claims, and stored its result in that row only. *)
Theorem transition_route_atomic secret db now_s now bearer session id body :
  let '(db', audit, reply) := transition_incident secret db now_s now bearer session id body in
  match reply with
  | Raise _ => db' = db ∧ audit = None
  | Ok i' =>
      ∃ claims role i,
        require_role secret ["admin"; "reviewer"] now_s bearer session = Ok claims ∧
        dget "role" claims = Some (JStr role) ∧
        get_incident_row db id = Some i ∧
        transition now i (tr_target body) role (tr_post_mortem_uri body) (tr_rationale body) = Ok i' ∧
        ∀ j, get_incident_row db' j =
             if String.eqb j id then Some i' else get_incident_row db j
  end.
Proof.
  unfold transition_incident.
  destruct (require_role _ _ _ _ _) as [claims|e] eqn:Hr; [|done].
  destruct (get_incident_row db id) as [i|] eqn:Hi; [|done].
  assert (∃ role, dget "role" claims = Some (JStr role)) as [role Hrole].
  { unfold require_role in Hr. apply result_bind_ok in Hr as (c & _ & Hr).
    destruct (role_in _ c) eqn:Hin; [|done]. simplify_eq/=. unfold role_in in Hin.
    destruct (dget "role" claims) as [[]|]; naive_solver. }
  unfold claim_str at 1. rewrite Hrole. cbn [default].
  destruct (transition _ _ _ _ _ _) as [i'|] eqn:Ht; [|done].
  exists claims, role, i. split_and!; [done..|]. intros j.
  assert (incident_id i = id) as Hid.
  { unfold get_incident_row in Hi. apply head_Some_elem_of, elem_of_bfilter in Hi as [Hi _].
    by apply String.eqb_eq in Hi. }
  assert (incident_id i' = id) as Hid'.
  { apply transition_ok in Ht as (-> & _). done. }
  revert Hi. unfold get_incident_row, update_incident. cbn [db_incidents]. rewrite Hid'.
  induction (db_incidents db) as [|x l IH]; [done|]. cbn [map]. rewrite !bfilter_cons.
  destruct (String.eqb_spec (incident_id x) id) as [Hx|Hx].
  - rewrite Hid'. rewrite Hx. intros [= ->].
    destruct (String.eqb_spec id j) as [->|Hj]; [by rewrite String.eqb_refl|].
    destruct (String.eqb_spec j id) as [->|_]; [done|].
    clear -Hj Hid'. induction l as [|x l IH]; [done|]. cbn [map]. rewrite !bfilter_cons.
    destruct (String.eqb_spec (incident_id x) id) as [Hx|Hx].
    + rewrite Hid', Hx. destruct (String.eqb_spec id j); [done|exact IH].
    + destruct (String.eqb (incident_id x) j); [done|exact IH].
  - intros Hh. destruct (String.eqb_spec (incident_id x) j) as [Hj|Hj]; [|by apply IH].
    destruct (String.eqb_spec j id) as [->|_]; done.
Qed.

(** The routes that name an incident look it up by id alone: the tenant of the caller has no part in
    the decision, so an admin of one tenant moves the incidents of another. *)
Lemma transition_not_tenant_scoped :
  let i := {| incident_id := "i"; i_tenant_id := "tenant-a"; primary_flag_id := "f";
              related_flag_ids := []; i_severity := "high"; i_state := "OPEN"; assignee_id := None;
              opened_at := 0; triaged_at := None; contained_at := None; resolved_at := None;
              post_mortem_uri := None; dismissal_rationale := None |} in
  let db := {| db_incidents := [i]; db_comments := []; db_action_items := []; db_users := [] |} in
  let tok := issue_token "s" "u" "tenant-b" "admin" 100 0 in
  let body := {| tr_target := "TRIAGING"; tr_rationale := None; tr_post_mortem_uri := None |} in
  (transition_incident "s" db 1 5 (Some tok) None "i" body).2 =
    Ok (apply_transition 5 "TRIAGING" None None i).
Proof. vm_compute. reflexivity. Qed.

(** ** Witnesses *)

Definition sample_incident : Incident :=
  {| incident_id := "i"; i_tenant_id := "t"; primary_flag_id := "f"; related_flag_ids := [];
     i_severity := "critical"; i_state := "OPEN"; assignee_id := None; opened_at := 3;
     triaged_at := None; contained_at := None; resolved_at := None; post_mortem_uri := None;
     dismissal_rationale := None |}.

Lemma lifecycle_invariant_witness :
  incident_inv (apply_transition 9 "DISMISSED" (Some "noise") None sample_incident) ∧ (1 ≤ 5)%nat.
Proof.
  apply (lifecycle_invariant "i" 3 "f" "t" "critical" sample_incident true 1); [reflexivity|].
  eapply nsteps_l; [|apply nsteps_O].
  exists 9, "DISMISSED", "reviewer", None, (Some "noise"). reflexivity.
Defined.

Lemma transition_authorised_witness :
  can_transition "reviewer" "TRIAGING" = true ∧
  ("TRIAGING" = "RESOLVED" ∨ "TRIAGING" = "POST_MORTEM_COMPLETE" → "reviewer" = "admin") ∧
  ("reviewer" = "admin" ∨ "reviewer" = "reviewer") ∧
  i_state sample_incident ≠ "DISMISSED" ∧ i_state sample_incident ≠ "POST_MORTEM_COMPLETE".
Proof.
  apply (transition_authorised 9 sample_incident "TRIAGING" "reviewer" None None
           (apply_transition 9 "TRIAGING" None None sample_incident)).
  reflexivity.
Defined.

Lemma loaded_incidents_never_similar_witness :
  let db := {| db_incidents := [sample_incident; sample_incident]; db_comments := [];
               db_action_items := []; db_users := [] |} in
  let d := {| d_incident := sample_incident; d_comments := []; d_action_items := [];
              d_similar := take 10 (find_similar (loaded sample_incident)
                             (map loaded (get_recent_incidents db "t" "i"))) |} in
  d_similar d = [].
Proof.
  intros db d. apply (loaded_incidents_never_similar "s" db 1
    (Some (issue_token "s" "u" "t" "admin" 100 0)) None "i").
  vm_compute. reflexivity.
Defined.
