(* ===== verification/Sampler.v ===== *)
(** * Trace sampling

    Models [auditor/async_pipeline/sampler.py] (policy providers, novelty indexes, the tiered
    [Sampler.decide]), [budget_tracker.py] and [runtime_policy.py] (the runtime-configurable policy and
    its process-wide state).  The novelty index is an interface with two implementations. *)

From Stdlib Require Import NArith ZArith Lia Ascii SpecFloat.
From Stdlib Require String.
From stdpp Require Import base tactics option list strings gmap sets.
From S2P Require Import Prelude PyStr Float64 Sha256.

Local Open Scope Z_scope.

(** ** Data *)

Definition CRITICAL_RISK_THRESHOLD : Z := 70.

Record RunSignals := {
  tool_category : string;
  channel_divergence : bool;
  cheap_risk_score : Z;
  touched_sensitive_data : bool;
  in_allowlisted_path : bool;
  tools_used : gset string;
  egress_domains : gset string;
  tenant_recent_incident_count : Z
}.

Inductive Tier := L1 | L2 | L3 | NONE.

#[export] Instance Tier_eq_dec : EqDecision Tier.
Proof. solve_decision. Defined.

Record SamplerDecision := {
  tier : Tier;
  reason : string;
  audit : bool;
  judge_allowed : bool;
  cohort_rate : option f64
}.

Definition decision (t : Tier) (r : string) (a j : bool) (rate : option f64) : SamplerDecision :=
  {| tier := t; reason := r; audit := a; judge_allowed := j; cohort_rate := rate |}.

(** ** Policy providers *)

Definition StaticPolicyProvider (default_rate : f64) (overrides : list (string * f64))
    (tenant_id : uuid) (category : string) : f64 :=
  default default_rate (dget category overrides).

Definition DbPolicyProvider (rates : list (uuid * list (string * f64))) (default_rate : f64)
    (tenant_id : uuid) (category : string) : f64 :=
  let cats := default [] (dget tenant_id rates) in
  match dget category cats with
  | Some r => r
  | None => default default_rate (dget "default" cats)
  end.

(** [load_tenant_sample_rates] over the rows of the policies table: the tenant of a row and its rates
    after [float(rate)], [None] when the column is not a JSON object. *)
Definition merge_rates (existing rates : list (string * f64)) : list (string * f64) :=
  foldl (λ d '(category, rate), dset category (fmax (default fzero (dget category d)) rate) d)
    existing rates.

Definition load_tenant_sample_rates (rows : list (uuid * option (list (string * f64))))
    : list (uuid * list (string * f64)) :=
  foldl (λ out '(t, rates), dset t (merge_rates (default [] (dget t out)) (default [] rates)) out)
    [] rows.

(** ** Novelty indexes

    The interface: an index remembers, per tenant, the tools and destinations it was shown, and answers
    whether a query shows something it has not seen. *)

Class NoveltyIndex (S : Type) := {
  is_novel : uuid → gset string → gset string → S → bool * S;
  seen_tools : S → uuid → gset string;
  seen_egress : S → uuid → gset string;
  is_novel_answer t tools egress s :
    (is_novel t tools egress s).1 =
      negb (bool_decide (tools ⊆ seen_tools s t) && bool_decide (egress ⊆ seen_egress s t));
  is_novel_tools t tools egress s t' :
    seen_tools (is_novel t tools egress s).2 t' =
      if decide (t' = t) then seen_tools s t ∪ tools else seen_tools s t';
  is_novel_egress t tools egress s t' :
    seen_egress (is_novel t tools egress s).2 t' =
      if decide (t' = t) then seen_egress s t ∪ egress else seen_egress s t'
}.

(** [InMemoryNoveltyIndex]: two dicts from tenants to sets. *)
Record InMemoryNovelty := {
  nm_tools : gmap string (gset string);
  nm_egress : gmap string (gset string)
}.

Definition seen_in (m : gmap string (gset string)) (k : string) : gset string := default ∅ (m !! k).

Definition in_memory_is_novel (t : uuid) (tools egress : gset string) (s : InMemoryNovelty)
    : bool * InMemoryNovelty :=
  let seen_t := seen_in (nm_tools s) t in
  let seen_e := seen_in (nm_egress s) t in
  let novel := bool_decide (tools ∖ seen_t ≠ ∅) || bool_decide (egress ∖ seen_e ≠ ∅) in
  (novel, {| nm_tools := <[t := seen_t ∪ tools]> (nm_tools s);
             nm_egress := <[t := seen_e ∪ egress]> (nm_egress s) |}).

(** The Redis client the other index calls: the members of the set stored under a key. *)
Class RedisSets (C : Type) := {
  smembers : C → string → gset string;
  sismember : C → string → string → bool;
  sadd : C → string → gset string → C;
  sismember_spec c k x : sismember c k x = bool_decide (x ∈ smembers c k);
  sadd_spec c k xs k' :
    smembers (sadd c k xs) k' = if decide (k' = k) then smembers c k ∪ xs else smembers c k'
}.

Section redis_novelty.
Context {C : Type} `{RedisSets C} (ns : string).

Definition tools_key (t : uuid) : string := ns +:+ ":tools:" +:+ t.
Definition egress_key (t : uuid) : string := ns +:+ ":egress:" +:+ t.

(** [RedisNoveltyIndex.is_novel] *)
Definition redis_is_novel (t : uuid) (tools egress : gset string) (c : C) : bool * C :=
  let new_tools := filter (λ x, sismember c (tools_key t) x = false) tools in
  let new_egress := filter (λ x, sismember c (egress_key t) x = false) egress in
  let c1 := if decide (new_tools = ∅) then c else sadd c (tools_key t) new_tools in
  let c2 := if decide (new_egress = ∅) then c1 else sadd c1 (egress_key t) new_egress in
  (negb (bool_decide (new_tools = ∅)) || negb (bool_decide (new_egress = ∅)), c2).
End redis_novelty.

(** ** The daily budget ([budget_tracker.py]) *)

Definition DEFAULT_DAILY_CAP_USD : f64 := of_Z 10.

(** Spend per tenant and UTC day; the day is an argument. *)
Record BudgetTracker := {
  bt_cap : f64;
  bt_spent : list ((uuid * Z) * f64)
}.

Definition spent (b : BudgetTracker) (day : Z) (t : uuid) : f64 :=
  default fzero (dget (t, day) (bt_spent b)).

Definition has_budget (b : BudgetTracker) (day : Z) (t : uuid) : bool := fltb (spent b day t) (bt_cap b).

Definition record_cost (b : BudgetTracker) (day : Z) (t : uuid) (usd : f64) : BudgetTracker :=
  {| bt_cap := bt_cap b;
     bt_spent := dset (t, day) (fadd (default fzero (dget (t, day) (bt_spent b))) usd) (bt_spent b) |}.

(** ** The sampler *)

Definition stable_hash (key : string) : Z := be_int 0 (take_str 8 (sha256 (utf8 key))).

Definition run_bucket (tenant_id : uuid) (category : string) (run_id : uuid) : Z :=
  stable_hash (tenant_id +:+ ":" +:+ category +:+ ":" +:+ run_id) mod 10000.

(** [int(rate * 10_000)]; raises on an infinite or undefined rate. *)
Definition rate_cutoff (rate : f64) : result string Z :=
  match ftrunc (fmul rate (of_Z 10000)) with
  | Some n => Ok n
  | None => Raise (if is_nan rate then "ValueError" else "OverflowError")
  end.

Section sampler.
Context {S : Type} `{NoveltyIndex S}.
Context (sample_rate_for : uuid → string → f64) (budget_ok : uuid → bool)
        (critical_risk_threshold : Z).

(** [Sampler.decide]: the novelty index after the call and the decision. *)
Definition sampler_decide (run_id tenant_id : uuid) (signals : RunSignals) (s : S)
    : S * result string SamplerDecision :=
  if channel_divergence signals then (s, Ok (decision L1 "channel divergence" true true None))
  else if critical_risk_threshold <=? cheap_risk_score signals then
    (s, Ok (decision L1 ("risk score " +:+ dec (cheap_risk_score signals)) true true None))
  else if touched_sensitive_data signals && negb (in_allowlisted_path signals) then
    (s, Ok (decision L1 "sensitive data outside allowlist" true true None))
  else
    let '(novel, s') := is_novel tenant_id (tools_used signals) (egress_domains signals) s in
    if novel then (s', Ok (decision L1 "novel tool/egress" true true None))
    else if 0 <? tenant_recent_incident_count signals then
      (s', Ok (decision L1 "recent tenant incidents" true true None))
    else
      let rate := sample_rate_for tenant_id (tool_category signals) in
      let bucket := run_bucket tenant_id (tool_category signals) run_id in
      (s', let! cutoff := rate_cutoff rate in
           Ok (if bucket <? cutoff then
                 if budget_ok tenant_id
                 then decision L2 ("stratified at " +:+ fmt_pct 4 rate) true true (Some rate)
                 else decision L3 "budget exhausted (cheap detectors only)" true false (Some rate)
               else decision NONE "not sampled" false false (Some rate))).
End sampler.

(** ** The runtime policy ([runtime_policy.py]) *)

Definition VALID_MODES : list string := ["percentage"; "every_nth"; "interval"; "always"; "never"].

Record SamplerSettings := {
  mode : string;
  rate : f64;
  every_n : Z;
  interval_seconds : f64;
  risk_threshold : Z
}.

Definition default_settings : SamplerSettings :=
  {| mode := "percentage"; rate := ratio 5 100; every_n := 10; interval_seconds := of_Z 60;
     risk_threshold := 70 |}.

(** [_initial_settings]: the value of SAMPLER_MODE, and of SAMPLER_RATE after [float] ([Some None] is
    its [ValueError]). *)
Definition initial_settings (env_mode : string) (env_rate : option (option f64)) : SamplerSettings :=
  let m := lower (strip env_mode) in
  {| mode := if bool_decide (m ∈ VALID_MODES) then m else mode default_settings;
     rate := match env_rate with
             | Some (Some r) => fmax fzero (fmin (of_Z 1) r)
             | _ => rate default_settings
             end;
     every_n := 10; interval_seconds := of_Z 60; risk_threshold := 70 |}.

(** [_validate]: the field whose check raises [ValueError]. *)
Definition validate_settings (s : SamplerSettings) : result string () :=
  let! _ := guard_raise (negb (bool_decide (mode s ∈ VALID_MODES))) "mode" in
  let! _ := guard_raise (negb (fleb fzero (rate s) && fleb (rate s) (of_Z 1))) "rate" in
  let! _ := guard_raise (every_n s <? 1) "every_n" in
  let! _ := guard_raise (fleb (interval_seconds s) fzero) "interval_seconds" in
  guard_raise (negb ((0 <=? risk_threshold s) && (risk_threshold s <=? 100))) "critical_risk_threshold".

(** The process-wide state, guarded by one lock: every access below is one critical section. *)
Record PolicyState := {
  settings : SamplerSettings;
  counter : Z;
  last_audit_ts : f64
}.

Definition set_settings (new : SamplerSettings) (st : PolicyState) : result string PolicyState :=
  let! _ := validate_settings new in
  Ok {| settings := new; counter := 0; last_audit_ts := fzero |}.

(** The hard triggers of [decide], which fire in every mode except never. *)
Definition hard_trigger (threshold : Z) (signals : RunSignals) : option string :=
  if channel_divergence signals then Some "channel divergence"
  else if threshold <=? cheap_risk_score signals then
    Some ("cheap risk score " +:+ dec (cheap_risk_score signals))
  else if touched_sensitive_data signals && negb (in_allowlisted_path signals) then
    Some "sensitive data outside allowlist"
  else if 0 <? tenant_recent_incident_count signals then Some "recent tenant incidents"
  else None.

(** [decide(run_id, tenant_id, signals)]; [now] is [time.time()]. *)
Definition policy_decide (now : f64) (run_id tenant_id : uuid) (signals : RunSignals)
    (st : PolicyState) : PolicyState * result string SamplerDecision :=
  let cfg := settings st in
  if String.eqb (mode cfg) "never" then
    (st, Ok (decision NONE "sampler off (mode=never)" false false None))
  else
    match hard_trigger (risk_threshold cfg) signals with
    | Some why => (st, Ok (decision L1 why true true None))
    | None =>
        if String.eqb (mode cfg) "always" then
          (st, Ok (decision L2 "mode=always (every run audited)" true true None))
        else if String.eqb (mode cfg) "every_nth" then
          let current := counter st + 1 in
          let st' := {| settings := cfg; counter := current; last_audit_ts := last_audit_ts st |} in
          if every_n cfg =? 0 then (st', Raise "ZeroDivisionError")
          else if current mod every_n cfg =? 0 then
            (st', Ok (decision L2 ("every " +:+ dec (every_n cfg) +:+ "th run (#" +:+ dec current +:+ ")")
                        true true None))
          else
            (st', Ok (decision NONE ("skip - run #" +:+ dec current +:+ " is not a multiple of "
                        +:+ dec (every_n cfg)) false false None))
        else if String.eqb (mode cfg) "interval" then
          let elapsed := fsub now (last_audit_ts st) in
          if fleb (interval_seconds cfg) elapsed then
            ({| settings := cfg; counter := counter st; last_audit_ts := now |},
             Ok (decision L2 ("audit window elapsed (" +:+ fmt_f 0 (interval_seconds cfg) +:+ "s)")
                   true true None))
          else
            (st, Ok (decision NONE ("within interval (last audit " +:+ fmt_f 0 elapsed
                       +:+ "s ago, window " +:+ fmt_f 0 (interval_seconds cfg) +:+ "s)")
                       false false None))
        else
          let bucket := run_bucket tenant_id (tool_category signals) run_id in
          (st, let! cutoff := rate_cutoff (rate cfg) in
               Ok (if bucket <? cutoff then
                     decision L2 ("stratified at " +:+ fmt_pct 2 (rate cfg)) true true (Some (rate cfg))
                   else decision NONE ("skip - not sampled (rate " +:+ fmt_pct 2 (rate cfg) +:+ ")")
                          false false (Some (rate cfg))))
    end.

(** ** The indexes implement the interface *)

Lemma difference_nonempty (A B : gset string) : bool_decide (A ∖ B ≠ ∅) = negb (bool_decide (A ⊆ B)).
Proof.
  rewrite <-bool_decide_not. apply bool_decide_ext. split; intros H1 H2; apply H1; set_solver.
Qed.

Lemma seen_in_insert m (t t' : string) (X : gset string) :
  seen_in (<[t := X]> m) t' = if decide (t' = t) then X else seen_in m t'.
Proof.
  unfold seen_in. case_decide; [subst; by rewrite lookup_insert_eq|by rewrite lookup_insert_ne].
Qed.

#[export] Instance in_memory_novelty : NoveltyIndex InMemoryNovelty.
Proof.
  refine {| is_novel := in_memory_is_novel; seen_tools s t := seen_in (nm_tools s) t;
            seen_egress s t := seen_in (nm_egress s) t |}.
  - intros t T E s. simpl. rewrite !difference_nonempty. by rewrite negb_andb.
  - intros t T E s t'. apply seen_in_insert.
  - intros t T E s t'. apply seen_in_insert.
Defined.

Section redis_instance.
Context {C : Type} `{RedisSets C} (ns : string).

Lemma novelty_keys_distinct t t' : tools_key ns t ≠ egress_key ns t'.
Proof. unfold tools_key, egress_key. intros Heq%(inj (String.append ns)). done. Qed.

Lemma tools_key_inj t t' : tools_key ns t = tools_key ns t' ↔ t = t'.
Proof.
  unfold tools_key. split; [|by intros ->]. intros Heq%(inj (String.append ns)).
  by apply (inj (String.append ":tools:")) in Heq.
Qed.

Lemma egress_key_inj t t' : egress_key ns t = egress_key ns t' ↔ t = t'.
Proof.
  unfold egress_key. split; [|by intros ->]. intros Heq%(inj (String.append ns)).
  by apply (inj (String.append ":egress:")) in Heq.
Qed.

Lemma new_members (c : C) k (xs : gset string) :
  filter (λ x, sismember c k x = false) xs = xs ∖ smembers c k.
Proof.
  apply set_eq. intros x. rewrite elem_of_filter, sismember_spec, bool_decide_eq_false. set_solver.
Qed.

(** Adding only the new members, when there are any, adds them all. *)
Lemma sadd_new (c : C) k (xs : gset string) k' :
  smembers (if decide (xs ∖ smembers c k = ∅) then c else sadd c k (xs ∖ smembers c k)) k' =
    if decide (k' = k) then smembers c k ∪ xs else smembers c k'.
Proof.
  destruct (decide (xs ∖ smembers c k = ∅)) as [Hd|Hd]; [|rewrite sadd_spec];
    (destruct (decide (k' = k)) as [->|]; [|done]); apply set_eq; intros x.
  - rewrite elem_of_union. split; [by left|]. intros [Hx|Hx]; [done|].
    destruct (decide (x ∈ smembers c k)) as [|Hn]; [done|].
    assert (x ∈ xs ∖ smembers c k) as Hin by by apply elem_of_difference.
    by rewrite Hd, elem_of_empty in Hin.
  - rewrite !elem_of_union, elem_of_difference. destruct (decide (x ∈ smembers c k)); naive_solver.
Qed.

Lemma redis_members t T E (c : C) k :
  smembers (redis_is_novel ns t T E c).2 k =
    if decide (k = egress_key ns t) then smembers c k ∪ E
    else if decide (k = tools_key ns t) then smembers c k ∪ T else smembers c k.
Proof.
  pose proof (novelty_keys_distinct t t) as Hne.
  unfold redis_is_novel. cbn [snd]. rewrite !new_members.
  set (c1 := if decide (T ∖ smembers c (tools_key ns t) = ∅) then c else _).
  assert (∀ k, smembers c1 k = if decide (k = tools_key ns t) then smembers c (tools_key ns t) ∪ T
                               else smembers c k) as Hc1 by (intros; apply sadd_new).
  replace (smembers c (egress_key ns t)) with (smembers c1 (egress_key ns t))
    by (by rewrite Hc1, decide_False).
  rewrite sadd_new. case_decide; subst.
  - by rewrite Hc1, decide_False.
  - rewrite Hc1. case_decide; by subst.
Qed.

#[export] Instance redis_novelty : NoveltyIndex C.
Proof.
  refine {| is_novel := redis_is_novel ns; seen_tools c t := smembers c (tools_key ns t);
            seen_egress c t := smembers c (egress_key ns t) |}.
  - intros t T E c. unfold redis_is_novel. cbn [fst]. rewrite !new_members.
    rewrite <-!bool_decide_not, !difference_nonempty. by rewrite negb_andb.
  - intros t T E c t'. rewrite redis_members. pose proof (novelty_keys_distinct t' t).
    rewrite decide_False by done. rewrite (decide_ext _ (t' = t)) by apply tools_key_inj.
    case_decide; by subst.
  - intros t T E c t'. rewrite redis_members. rewrite (decide_ext _ (t' = t)) by apply egress_key_inj.
    case_decide; [by subst|]. pose proof (novelty_keys_distinct t t').
    by rewrite decide_False by done.
Defined.
End redis_instance.

(** A store of sets meets the client's specification. *)
Definition SetStore := gmap string (gset string).

#[export] Instance set_store_redis : RedisSets SetStore.
Proof.
  refine {| smembers c k := seen_in c k; sismember c k x := bool_decide (x ∈ seen_in c k);
            sadd c k xs := <[k := seen_in c k ∪ xs]> c |}.
  - done.
  - intros c k xs k'. apply seen_in_insert.
Defined.

(** ** The tiers *)

Lemma stable_hash_nonneg key : 0 ≤ stable_hash key.
Proof. unfold stable_hash. apply be_int_bound. lia. Qed.

Lemma run_bucket_bound t c r : 0 ≤ run_bucket t c r < 10000.
Proof. unfold run_bucket. apply Z.mod_pos_bound. lia. Qed.

(** Why [Sampler.decide] must audit a run, given what the index has seen. *)
Definition l1_trigger {S} `{NoveltyIndex S} (threshold : Z) (s : S) (t : uuid) (sg : RunSignals) : bool :=
  channel_divergence sg || (threshold <=? cheap_risk_score sg)
  || (touched_sensitive_data sg && negb (in_allowlisted_path sg))
  || negb (bool_decide (tools_used sg ⊆ seen_tools s t)
           && bool_decide (egress_domains sg ⊆ seen_egress s t))
  || (0 <? tenant_recent_incident_count sg).

Section tiers.
Context {S : Type} `{NoveltyIndex S}.
Context (sample_rate_for : uuid → string → f64) (budget_ok : uuid → bool) (threshold : Z).

Lemma sampler_decide_cases run_id t sg s :
  let sampled cutoff := run_bucket t (tool_category sg) run_id <? cutoff in
  let rate := sample_rate_for t (tool_category sg) in
  match (sampler_decide sample_rate_for budget_ok threshold run_id t sg s).2 with
  | Ok d =>
      (l1_trigger threshold s t sg = true ∧ tier d = L1 ∧ audit d = true ∧ judge_allowed d = true) ∨
      (l1_trigger threshold s t sg = false ∧
       ∃ cutoff, rate_cutoff rate = Ok cutoff ∧
         tier d = (if sampled cutoff then if budget_ok t then L2 else L3 else NONE) ∧
         audit d = sampled cutoff ∧ judge_allowed d = (sampled cutoff && budget_ok t))
  | Raise e => l1_trigger threshold s t sg = false ∧ rate_cutoff rate = Raise e
  end.
Proof.
  intros sampled rate. unfold sampler_decide, l1_trigger. rewrite <-is_novel_answer.
  destruct (channel_divergence sg); [simpl; auto|].
  destruct (threshold <=? cheap_risk_score sg); [simpl; auto|].
  destruct (touched_sensitive_data sg && _); [simpl; auto|].
  destruct (is_novel t (tools_used sg) (egress_domains sg) s) as [[] s']; [simpl; auto|].
  destruct (0 <? tenant_recent_incident_count sg); [simpl; auto|]. simpl. fold rate.
  destruct (rate_cutoff rate) as [cutoff|e]; simpl; [|done]. right. split; [done|].
  exists cutoff. split; [done|]. unfold sampled.
  by destruct (run_bucket _ _ _ <? cutoff), (budget_ok t).
Qed.

(** No risky run escapes the deep audit: if a hard trigger holds (divergence, risk score, sensitive
    access, something the tenant's index has not seen, a recent incident) the run is audited at tier
    L1 with the judge allowed, whatever the rate and the budget; otherwise it is audited exactly when its
    bucket is below the cutoff of its rate, and with the judge exactly when budget is left. *)
Theorem sampler_tiers run_id t sg s d :
  (sampler_decide sample_rate_for budget_ok threshold run_id t sg s).2 = Ok d →
  (l1_trigger threshold s t sg = true → tier d = L1 ∧ audit d = true ∧ judge_allowed d = true) ∧
  (l1_trigger threshold s t sg = false →
   ∃ cutoff, rate_cutoff (sample_rate_for t (tool_category sg)) = Ok cutoff ∧
     tier d ≠ L1 ∧
     audit d = (run_bucket t (tool_category sg) run_id <? cutoff) ∧
     judge_allowed d = (audit d && budget_ok t)) ∧
  (tier d = L3 ↔ audit d = true ∧ judge_allowed d = false).
Proof.
  intros Hd. pose proof (sampler_decide_cases run_id t sg s) as Hc. simpl in Hc. rewrite Hd in Hc.
  destruct Hc as [(Ht & Htier & Ha & Hj)|(Ht & cutoff & Hr & Htier & Ha & Hj)]; rewrite Ht, Htier, Ha, Hj.
  - split_and!; [done|done|split; [done|by intros [_ ?]]].
  - split_and!; [done| |].
    + intros _. exists cutoff. by destruct (_ <? cutoff), (budget_ok t).
    + destruct (_ <? cutoff), (budget_ok t); simpl; naive_solver.
Qed.

(** A rate of 1 audits every run and a rate of 0 none but those with a hard trigger: the buckets
    are the integers below 10000. *)
Theorem sampler_extreme_rates run_id t sg s :
  (sample_rate_for t (tool_category sg) = of_Z 1 →
   ∃ d, (sampler_decide sample_rate_for budget_ok threshold run_id t sg s).2 = Ok d ∧
        audit d = true) ∧
  (sample_rate_for t (tool_category sg) = fzero →
   ∃ d, (sampler_decide sample_rate_for budget_ok threshold run_id t sg s).2 = Ok d ∧
        audit d = l1_trigger threshold s t sg).
Proof.
  pose proof (sampler_decide_cases run_id t sg s) as Hc. simpl in Hc.
  pose proof (run_bucket_bound t (tool_category sg) run_id) as Hb.
  split; intros Hr; rewrite Hr in Hc;
    destruct (sampler_decide _ _ _ _ _ _ _).2 as [d|e];
    [|by destruct Hc|..|by destruct Hc]; exists d; (split; [done|]);
    destruct Hc as [(Ht & _ & -> & _)|(Ht & cutoff & Hcut & _ & -> & _)]; rewrite ?Ht; try done;
    vm_compute in Hcut; simplify_eq; [apply Z.ltb_lt|apply Z.ltb_ge]; lia.
Qed.
End tiers.

(** The sampler does not depend on the kind of novelty index: two indexes that have seen the same
    tools and destinations give the same decision, and have again seen the same afterwards.  (So the
    in-memory and the Redis index are interchangeable over any sequence of runs.) *)
Theorem sampler_index_independent {S1 S2} `{NoveltyIndex S1, NoveltyIndex S2}
    (sample_rate_for : uuid → string → f64) (budget_ok : uuid → bool) threshold run_id t sg
    (s1 : S1) (s2 : S2) :
  (∀ t, seen_tools s1 t = seen_tools s2 t ∧ seen_egress s1 t = seen_egress s2 t) →
  let r1 := sampler_decide sample_rate_for budget_ok threshold run_id t sg s1 in
  let r2 := sampler_decide sample_rate_for budget_ok threshold run_id t sg s2 in
  r1.2 = r2.2 ∧
  ∀ t, seen_tools r1.1 t = seen_tools r2.1 t ∧ seen_egress r1.1 t = seen_egress r2.1 t.
Proof.
  intros Heq. cbv zeta. unfold sampler_decide.
  destruct (channel_divergence sg); [done|].
  destruct (threshold <=? cheap_risk_score sg); [done|].
  destruct (touched_sensitive_data sg && _); [done|].
  pose proof (is_novel_answer t (tools_used sg) (egress_domains sg) s1) as A1.
  pose proof (is_novel_answer t (tools_used sg) (egress_domains sg) s2) as A2.
  pose proof (is_novel_tools t (tools_used sg) (egress_domains sg) s1) as T1.
  pose proof (is_novel_tools t (tools_used sg) (egress_domains sg) s2) as T2.
  pose proof (is_novel_egress t (tools_used sg) (egress_domains sg) s1) as E1.
  pose proof (is_novel_egress t (tools_used sg) (egress_domains sg) s2) as E2.
  destruct (is_novel t _ _ s1) as [n1 s1'], (is_novel t _ _ s2) as [n2 s2']. simpl in *.
  destruct (Heq t) as [Ht He]. rewrite <-Ht, <-He, <-A1 in A2. subst n2.
  assert (∀ t', seen_tools s1' t' = seen_tools s2' t' ∧ seen_egress s1' t' = seen_egress s2' t')
    as Hseen.
  { intros t'. rewrite T1, T2, E1, E2. destruct (Heq t') as [-> ->]. by rewrite Ht, He. }
  destruct n1; [done|]. by destruct (0 <? tenant_recent_incident_count sg).
Qed.

(** ** Runs of the runtime policy *)

Lemma policy_decide_settings now run_id t sg st :
  settings (policy_decide now run_id t sg st).1 = settings st.
Proof.
  unfold policy_decide. destruct (String.eqb _ "never"); [done|].
  destruct (hard_trigger _ _); [done|]. destruct (String.eqb _ "always"); [done|].
  destruct (String.eqb _ "every_nth").
  { destruct (every_n _ =? 0); [done|]. by destruct (_ mod _ =? 0). }
  destruct (String.eqb _ "interval"); [|done]. by destruct (fleb _ _).
Qed.

(** An operation on the process-wide state: a settings update (refused ones change nothing), or the
    decision for a run at some time. *)
Inductive policy_op :=
| OpSet (new : SamplerSettings)
| OpDecide (now : f64) (run_id tenant_id : uuid) (signals : RunSignals).

Definition policy_step (st : PolicyState) (op : policy_op) : PolicyState :=
  match op with
  | OpSet new => try_except (set_settings new st) (λ _, st)
  | OpDecide now r t sg => (policy_decide now r t sg st).1
  end.

(** The decisions of a sequence of operations, in order. *)
Fixpoint policy_decisions (st : PolicyState) (ops : list policy_op) : list (result string SamplerDecision) :=
  match ops with
  | [] => []
  | op :: ops' =>
      match op with
      | OpDecide now r t sg => [(policy_decide now r t sg st).2]
      | OpSet _ => []
      end ++ policy_decisions (policy_step st op) ops'
  end.

Definition initial_policy (env_mode : string) (env_rate : option (option f64)) : PolicyState :=
  {| settings := initial_settings env_mode env_rate; counter := 0; last_audit_ts := fzero |}.

Lemma clamp_rate_valid (r : f64) :
  let c := fmax fzero (fmin (of_Z 1) r) in fleb fzero c && fleb c (of_Z 1) = true.
Proof.
  cbv zeta. unfold fmax, fmin.
  destruct (fltb r (of_Z 1)) eqn:E1.
  - destruct (fltb fzero r) eqn:E2; [|by vm_compute].
    apply andb_true_iff. auto using fltb_fleb.
  - by vm_compute.
Qed.

Lemma initial_settings_valid env_mode env_rate :
  validate_settings (initial_settings env_mode env_rate) = Ok tt.
Proof.
  unfold validate_settings, initial_settings. rewrite !result_seq_ok, !guard_raise_ok.
  cbn [mode rate every_n interval_seconds risk_threshold]. split_and!; try done.
  - rewrite negb_false_iff, bool_decide_eq_true.
    case_bool_decide; [done|]. unfold VALID_MODES. simpl. set_solver.
  - rewrite negb_false_iff. destruct env_rate as [[r|]|]; [apply clamp_rate_valid|by vm_compute..].
Qed.


(** Whatever updates are submitted and whatever runs are decided, from any environment the process
    starts in, the live settings pass their own validation; in particular no decision divides by zero. *)
Theorem runtime_settings_always_valid env_mode env_rate ops :
  let st := foldl policy_step (initial_policy env_mode env_rate) ops in
  validate_settings (settings st) = Ok tt ∧
  ∀ now r t sg, (policy_decide now r t sg st).2 ≠ Raise "ZeroDivisionError".
Proof.
  cbv zeta. set (st := foldl _ _ _).
  assert (validate_settings (settings st) = Ok tt) as Hv.
  { unfold st. induction ops as [|op ops IH] using rev_ind; [apply initial_settings_valid|].
    rewrite foldl_snoc. destruct op as [new|now r t sg]; simpl; [|by rewrite policy_decide_settings].
    unfold set_settings. destruct (validate_settings new) as [[]|] eqn:E; simpl; [done|exact IH]. }
  split; [done|]. intros now r t sg.
  assert (every_n (settings st) =? 0 = false) as Hn.
  { unfold validate_settings in Hv. rewrite !result_seq_ok, !guard_raise_ok in Hv.
    apply Z.eqb_neq. destruct Hv as (_ & _ & Hn & _). apply Z.ltb_ge in Hn. lia. }
  unfold policy_decide. rewrite Hn. destruct (String.eqb _ "never"); [done|].
  destruct (hard_trigger _ _); [done|]. destruct (String.eqb _ "always"); [done|].
  destruct (String.eqb _ "every_nth"); [by destruct (_ mod _ =? 0)|].
  destruct (String.eqb _ "interval"); [by destruct (fleb _ _)|].
  simpl. unfold rate_cutoff. destruct (ftrunc _); [done|]. by destruct (is_nan _).
Qed.

(** A run without hard trigger. *)
Definition quiet (cfg : SamplerSettings) (op : policy_op) : Prop :=
  match op with
  | OpDecide _ _ _ sg => hard_trigger (risk_threshold cfg) sg = None
  | OpSet _ => False
  end.

Definition audits (d : result string SamplerDecision) : bool :=
  match d with Ok d => audit d | Raise _ => false end.

Lemma next_multiple c n :
  0 < n → 0 ≤ c → (c + 1) / n = c / n + (if (c + 1) mod n =? 0 then 1 else 0).
Proof.
  intros Hn Hc. pose proof (Z.div_mod c n ltac:(lia)) as H1. pose proof (Z.mod_pos_bound c n Hn).
  destruct ((c + 1) mod n =? 0) eqn:E.
  - apply Z.eqb_eq in E. pose proof (Z.div_mod (c + 1) n ltac:(lia)) as H2.
    rewrite E in H2. nia.
  - apply Z.eqb_neq in E. symmetry. rewrite Z.add_0_r. apply (Z.div_unique _ _ _ (c mod n + 1)); [|lia].
    left. split; [lia|]. destruct (decide (c mod n + 1 = n)) as [He|]; [|lia].
    exfalso. apply E. replace (c + 1) with (n * (c / n + 1)) by lia.
    rewrite Z.mul_comm. apply Z.mod_mul. lia.
Qed.

(** In the every-nth mode, of any [k] consecutive runs without hard trigger counted from [c] exactly
    [⌊(c+k)/n⌋ - ⌊c/n⌋] are audited; just after a settings update that is [⌊k/n⌋]. *)
Theorem every_nth_audit_count st ops :
  mode (settings st) = "every_nth" → 1 ≤ every_n (settings st) → 0 ≤ counter st →
  Forall (quiet (settings st)) ops →
  Z.of_nat (length (bfilter audits (policy_decisions st ops))) =
    (counter st + Z.of_nat (length ops)) / every_n (settings st)
    - counter st / every_n (settings st).
Proof.
  intros Hm Hn Hc Hq. revert st Hm Hn Hc Hq.
  induction ops as [|op ops IH]; intros st Hm Hn Hc Hq.
  { simpl. rewrite Z.add_0_r. lia. }
  apply Forall_cons in Hq as [Hop Hq]. destruct op as [|now r t sg]; [done|]. simpl in Hop.
  assert (∃ d, policy_decide now r t sg st =
    ({| settings := settings st; counter := counter st + 1; last_audit_ts := last_audit_ts st |}, d)
    ∧ audits d = ((counter st + 1) mod every_n (settings st) =? 0)) as (d & Hd & Ha).
  { unfold policy_decide. rewrite Hm, Hop. cbn [String.eqb]. simpl.
    rewrite (proj2 (Z.eqb_neq _ _)) by lia.
    destruct (_ mod _ =? 0) eqn:E; eexists; (split; [reflexivity|done]). }
  cbn [policy_decisions policy_step length]. rewrite Hd. cbn [fst snd app].
  set (st' := {| settings := settings st; counter := counter st + 1; |}) in *.
  specialize (IH st' Hm Hn ltac:(simpl; lia) Hq). simpl in IH.
  rewrite bfilter_cons, Ha. rewrite next_multiple in IH by lia.
  replace (counter st + Z.of_nat (S (length ops))) with (counter st + 1 + Z.of_nat (length ops)) by lia.
  destruct (_ mod _ =? 0); simpl length; lia.
Qed.

(** The times of the audited runs. *)
Fixpoint audit_times (st : PolicyState) (ops : list policy_op) : list f64 :=
  match ops with
  | [] => []
  | op :: ops' =>
      match op with
      | OpDecide now r t sg => if audits (policy_decide now r t sg st).2 then [now] else []
      | OpSet _ => []
      end ++ audit_times (policy_step st op) ops'
  end.

Fixpoint spaced_by (gap : f64) (last : f64) (times : list f64) : Prop :=
  match times with
  | [] => True
  | t :: ts => fleb gap (fsub t last) = true ∧ spaced_by gap t ts
  end.

(** In the interval mode, runs without hard trigger are audited at least the configured number of
    seconds apart. *)
Theorem interval_audits_spaced st ops :
  mode (settings st) = "interval" → Forall (quiet (settings st)) ops →
  spaced_by (interval_seconds (settings st)) (last_audit_ts st) (audit_times st ops).
Proof.
  intros Hm Hq. revert st Hm Hq. induction ops as [|op ops IH]; intros st Hm Hq; [done|].
  apply Forall_cons in Hq as [Hop Hq]. destruct op as [|now r t sg]; [done|]. simpl in Hop.
  cbn [audit_times policy_step]. pose proof (policy_decide_settings now r t sg st) as Hs.
  revert Hs. unfold policy_decide. rewrite Hm, Hop. simpl.
  destruct (fleb (interval_seconds (settings st)) (fsub now (last_audit_ts st))) eqn:E; simpl; intros _.
  - split; [done|]. by apply (IH {| settings := settings st; counter := counter st; last_audit_ts := now |}).
  - by apply IH.
Qed.

(** ** Witnesses *)

Definition quiet_signals : RunSignals :=
  {| tool_category := "generic"; channel_divergence := false; cheap_risk_score := 0;
     touched_sensitive_data := false; in_allowlisted_path := true; tools_used := ∅;
     egress_domains := ∅; tenant_recent_incident_count := 0 |}.

Definition fresh_index : InMemoryNovelty := {| nm_tools := ∅; nm_egress := ∅ |}.

Lemma sampler_tiers_witness :
  let d := decision L2 ("stratified at " +:+ fmt_pct 4 (of_Z 1)) true true (Some (of_Z 1)) in
  (l1_trigger 70 fresh_index "t" quiet_signals = true → tier d = L1 ∧ audit d = true ∧ judge_allowed d = true) ∧
  (l1_trigger 70 fresh_index "t" quiet_signals = false →
   ∃ cutoff, rate_cutoff (of_Z 1) = Ok cutoff ∧ tier d ≠ L1 ∧
     audit d = (run_bucket "t" "generic" "r" <? cutoff) ∧ judge_allowed d = (audit d && true)) ∧
  (tier d = L3 ↔ audit d = true ∧ judge_allowed d = false).
Proof.
  intros d. apply (sampler_tiers (λ _ _, of_Z 1) (λ _, true) 70 "r" "t" quiet_signals fresh_index d).
  vm_compute. reflexivity.
Defined.

Lemma sampler_index_independent_witness :
  let r1 := sampler_decide (λ _ _, of_Z 1) (λ _, true) 70 "r" "t" quiet_signals fresh_index in
  let r2 := sampler_decide (H := redis_novelty "novelty") (λ _ _, of_Z 1) (λ _, true) 70 "r" "t"
              quiet_signals (∅ : SetStore) in
  r1.2 = r2.2 ∧
  ∀ t, seen_tools r1.1 t = seen_tools (NoveltyIndex := redis_novelty "novelty") r2.1 t ∧
       seen_egress r1.1 t = seen_egress (NoveltyIndex := redis_novelty "novelty") r2.1 t.
Proof.
  apply (sampler_index_independent (H0 := redis_novelty "novelty")). intros t.
  split; cbn; unfold seen_in; by rewrite !lookup_empty.
Defined.

Definition every_third : PolicyState :=
  {| settings := {| mode := "every_nth"; rate := ratio 5 100; every_n := 3; interval_seconds := of_Z 60;
                    risk_threshold := 70 |}; counter := 0; last_audit_ts := fzero |}.

Lemma every_nth_audit_count_witness :
  Z.of_nat (length (bfilter audits
    (policy_decisions every_third (replicate 7 (OpDecide fzero "r" "t" quiet_signals))))) =
  (0 + Z.of_nat 7) / 3 - 0 / 3.
Proof. apply (every_nth_audit_count every_third); [done|done|done|by repeat constructor]. Defined.

Definition every_minute : PolicyState :=
  {| settings := {| mode := "interval"; rate := ratio 5 100; every_n := 3; interval_seconds := of_Z 60;
                    risk_threshold := 70 |}; counter := 0; last_audit_ts := fzero |}.

Lemma interval_audits_spaced_witness :
  let ops := map (λ n, OpDecide (of_Z n) "r" "t" quiet_signals) [100; 130; 170] in
  audit_times every_minute ops = [of_Z 100; of_Z 170] ∧
  spaced_by (of_Z 60) fzero (audit_times every_minute ops).
Proof.
  intros ops. split; [vm_compute; reflexivity|].
  apply (interval_audits_spaced every_minute); [done|by repeat constructor].
Defined.
