(* ===== verification/DetLifecycle.v ===== *)
(** * Detector lifecycle

    Models [auditor/detectors/registry.py] (states, registration) and [auditor/detectors/lifecycle.py]
    with its policy file [detector_lifecycle_policy.yaml]: the legal transition graph, the gates, the
    store of lifecycle rows, [transition] and the canary routing. *)

From Stdlib Require Import NArith ZArith Lia Ascii SpecFloat.
From Stdlib Require String.
From stdpp Require Import base tactics option list strings sets.
From S2P Require Import Prelude PyStr Float64 Sha256 Json AuditChain Sampler.

Local Open Scope Z_scope.

(** ** States and registration ([registry.py]) *)

Inductive DetectorState :=
| PROPOSED | SHADOW | CANARY | ENFORCING | DISABLED | DEPRECATED | REMOVED.

#[export] Instance DetectorState_eq_dec : EqDecision DetectorState.
Proof. solve_decision. Defined.

Definition DetectorState_value (s : DetectorState) : string :=
  match s with
  | PROPOSED => "PROPOSED" | SHADOW => "SHADOW" | CANARY => "CANARY" | ENFORCING => "ENFORCING"
  | DISABLED => "DISABLED" | DEPRECATED => "DEPRECATED" | REMOVED => "REMOVED"
  end.

Record DetectorRegistration := {
  reg_name : string;
  reg_version : string;
  reg_asi_category : string;
  reg_requires_judge : bool;
  reg_state : DetectorState
}.

(** [register_detector(..)(factory)] on the registry; the last argument is the optional state. *)
Definition register_detector (name version asi_category : string) (requires_judge : bool)
    (state : option DetectorState) (registry : list (string * DetectorRegistration))
    : list (string * DetectorRegistration) :=
  dset name {| reg_name := name; reg_version := version; reg_asi_category := asi_category;
               reg_requires_judge := requires_judge; reg_state := default PROPOSED state |} registry.

(** ** The transition graph and the policy *)

Definition transition_key (a b : DetectorState) : string :=
  DetectorState_value a +:+ "->" +:+ DetectorState_value b.

Definition LEGAL_TRANSITIONS : list ((DetectorState * DetectorState) * string) :=
  [((PROPOSED, SHADOW), "PROPOSED->SHADOW");
   ((SHADOW, CANARY), "SHADOW->CANARY");
   ((CANARY, ENFORCING), "CANARY->ENFORCING");
   ((ENFORCING, DISABLED), "ENFORCING->DISABLED");
   ((ENFORCING, DEPRECATED), "ENFORCING->DEPRECATED");
   ((DISABLED, SHADOW), "DISABLED->SHADOW");
   ((DEPRECATED, REMOVED), "DEPRECATED->REMOVED")].

Record Gates := {
  min_days : Z;
  precision_min : option f64;
  fp_rate_max : option f64;
  admin_approval : bool;
  no_critical_incidents : bool
}.

Definition no_gates : Gates :=
  {| min_days := 0; precision_min := None; fp_rate_max := None; admin_approval := false;
     no_critical_incidents := false |}.

Definition admin_only : Gates :=
  {| min_days := 0; precision_min := None; fp_rate_max := None; admin_approval := true;
     no_critical_incidents := false |}.

(** The transitions of the policy file. *)
Definition POLICY : list (string * Gates) :=
  [("PROPOSED->SHADOW", no_gates);
   ("SHADOW->CANARY",
    {| min_days := 7; precision_min := Some (ratio 80 100); fp_rate_max := Some (ratio 5 100);
       admin_approval := true; no_critical_incidents := false |});
   ("CANARY->ENFORCING",
    {| min_days := 7; precision_min := Some (ratio 85 100); fp_rate_max := None;
       admin_approval := true; no_critical_incidents := true |});
   ("ENFORCING->DISABLED", no_gates);
   ("ENFORCING->DEPRECATED", admin_only);
   ("DISABLED->SHADOW", admin_only);
   ("DEPRECATED->REMOVED", admin_only)].

Definition default_partition : f64 := ratio 5 100.

(** ** The gates *)

(** [LifecycleError], one constructor per place that raises it, and the other exceptions that escape. *)
Inductive lifecycle_exn :=
| IllegalTransition (current target : DetectorState)
| TooEarly (policy_key : string)
| ApprovalRequired (policy_key : string)
| MetricMissing (policy_key metric : string)
| PrecisionTooLow (policy_key : string)
| FpRateTooHigh (policy_key : string)
| CriticalIncidents (policy_key : string)
| PyError (class_name : string).

(** A metric compared with a number: [TypeError] when it is not one. *)
Definition metric_number (v : json) : result lifecycle_exn f64 :=
  match v with
  | JInt z => Ok (of_Z z)
  | JBool b => Ok (of_Z (if b then 1 else 0))
  | JFloat lex => Ok (float_of_lexeme lex)
  | _ => Raise (PyError "TypeError")
  end.

(** [m.get(metric)] with its presence check. *)
Definition observed_metric (policy_key metric : string) (m : list (string * json))
    : result lifecycle_exn f64 :=
  match dget metric m with
  | None | Some JNull => Raise (MetricMissing policy_key metric)
  | Some v => metric_number v
  end.

Definition check_precision (policy_key : string) (bound : option f64) (m : list (string * json))
    : result lifecycle_exn () :=
  match bound with
  | None => Ok tt
  | Some b =>
      let! x := observed_metric policy_key "precision" m in
      guard_raise (fltb x b) (PrecisionTooLow policy_key)
  end.

Definition check_fp_rate (policy_key : string) (bound : option f64) (m : list (string * json))
    : result lifecycle_exn () :=
  match bound with
  | None => Ok tt
  | Some b =>
      let! x := observed_metric policy_key "fp_rate" m in
      guard_raise (fltb b x) (FpRateTooHigh policy_key)
  end.

Definition check_critical (policy_key : string) (required : bool) (m : list (string * json))
    : result lifecycle_exn () :=
  if required then
    let! x := metric_number (default (JInt 0) (dget "critical_incidents" m)) in
    guard_raise (fltb fzero x) (CriticalIncidents policy_key)
  else Ok tt.

Definition check_gates (policy_key : string) (metrics : option (list (string * json)))
    (days_in_state : f64) (actor_id : option string) (force : bool) : result lifecycle_exn () :=
  if force then Ok tt
  else
    match dget policy_key POLICY with
    | None => Raise (PyError "KeyError")
    | Some gates =>
        let m := default [] metrics in
        let! _ := guard_raise ((0 <? min_days gates) && fltb days_in_state (of_Z (min_days gates)))
                    (TooEarly policy_key) in
        let! _ := guard_raise (admin_approval gates && negb (ostr_truthy actor_id))
                    (ApprovalRequired policy_key) in
        let! _ := check_precision policy_key (precision_min gates) m in
        let! _ := check_fp_rate policy_key (fp_rate_max gates) m in
        check_critical policy_key (no_critical_incidents gates) m
    end.

(** ** The store *)

Record LifecycleRow := {
  lr_detector : string;
  lr_version : string;
  lr_state : DetectorState;
  lr_previous_state : DetectorState;
  lr_rationale : option string;
  lr_metrics_snapshot : option (list (string * json));
  lr_changed_by : option string;
  lr_tenant_id : option uuid;
  lr_canary_partition : option f64;
  lr_changed_at : datetime
}.

Definition rows_of (rows : list LifecycleRow) (detector version : string) : list LifecycleRow :=
  bfilter (λ r, String.eqb (lr_detector r) detector && String.eqb (lr_version r) version) rows.

(** [latest_state]: the row with the greatest [changed_at], else PROPOSED. *)
Definition latest_state (rows : list LifecycleRow) (detector version : string)
    : DetectorState * option datetime :=
  match rows_of rows detector version with
  | [] => (PROPOSED, None)
  | r :: rs => let l := max_by lr_changed_at r rs in (lr_state l, Some (lr_changed_at l))
  end.

(** ** Transitions *)

Record TransitionArgs := {
  ta_actor_id : option string;
  ta_rationale : option string;
  ta_metrics : option (list (string * json));
  ta_force : bool;
  ta_tenant_id : option uuid;
  ta_canary_partition : option f64
}.

Definition microseconds_per_day : Z := 86400000000.

(** [(now - entered_at) / timedelta(days=1)] *)
Definition days_in_state (now : datetime) (entered_at : option datetime) : f64 :=
  match entered_at with
  | Some e => ratio (now - e) microseconds_per_day
  | None => fzero
  end.

(** What is appended to the audit log after the row is written. *)
Definition audit_entry (default_tenant : uuid) (detector version : string) (current target : DetectorState)
    (a : TransitionArgs) (actor : option uuid) : AppendReq :=
  {| rq_tenant_id := default default_tenant (ta_tenant_id a);
     rq_actor_type := if ostr_truthy (ta_actor_id a) then "user" else "system";
     rq_action := "detector_lifecycle_transition";
     rq_actor_id := actor;
     rq_target_type := Some "detector";
     rq_target_id := None;
     rq_payload := Some
       [("detector", JStr detector); ("version", JStr version);
        ("previous_state", JStr (DetectorState_value current));
        ("new_state", JStr (DetectorState_value target));
        ("rationale", jopt (ta_rationale a));
        ("metrics_snapshot", match ta_metrics a with Some m => JObj m | None => JNull end)];
     rq_blob_uri := None |}.

(** [transition]: [now] is the clock when the gates are checked, [written] when the row is stored.  The
    row is stored before the actor id is parsed for the audit log. *)
Definition transition (default_tenant : uuid) (now written : datetime) (rows : list LifecycleRow)
    (detector version : string) (target : DetectorState) (a : TransitionArgs)
    : list LifecycleRow * option AppendReq * result lifecycle_exn DetectorState :=
  let '(current, entered_at) := latest_state rows detector version in
  match dget (current, target) LEGAL_TRANSITIONS with
  | None => (rows, None, Raise (IllegalTransition current target))
  | Some policy_key =>
      match check_gates policy_key (ta_metrics a) (days_in_state now entered_at) (ta_actor_id a)
              (ta_force a) with
      | Raise e => (rows, None, Raise e)
      | Ok _ =>
          let partition := match ta_canary_partition a with
                           | Some p => Some p
                           | None => if decide (target = CANARY) then Some default_partition else None
                           end in
          let row := {| lr_detector := detector; lr_version := version; lr_state := target;
                        lr_previous_state := current; lr_rationale := ta_rationale a;
                        lr_metrics_snapshot := ta_metrics a; lr_changed_by := ta_actor_id a;
                        lr_tenant_id := ta_tenant_id a; lr_canary_partition := partition;
                        lr_changed_at := written |} in
          let rows' := rows ++ [row] in
          if ostr_truthy (ta_actor_id a) then
            match parse_uuid (default EmptyString (ta_actor_id a)) with
            | Some u => (rows', Some (audit_entry default_tenant detector version current target a (Some u)),
                         Ok target)
            | None => (rows', None, Raise (PyError "ValueError"))
            end
          else (rows', Some (audit_entry default_tenant detector version current target a None), Ok target)
      end
  end.

Definition current_state (rows : list LifecycleRow) (detector version : string) : DetectorState :=
  (latest_state rows detector version).1.

(** ** Canary routing *)

Definition is_canary_selected (detector : string) (run_id : uuid) (partition : f64) : result string bool :=
  let bucket := stable_hash (detector +:+ ":" +:+ run_id) mod 10000 in
  let! cutoff := rate_cutoff partition in
  Ok (bucket <? cutoff).

(** ** Histories *)

(** The transitions requested over time.  Each row is stored later than the rows before it;
    [may_force] says whether requests may skip the gates. *)
Inductive lifecycle_run (default_tenant : uuid) (may_force : bool) : list LifecycleRow → Prop :=
| run_nil : lifecycle_run default_tenant may_force []
| run_step rows now written d v target a rows' audit res :
    lifecycle_run default_tenant may_force rows →
    (∀ r, r ∈ rows → lr_changed_at r < written) →
    (ta_force a = true → may_force = true) →
    transition default_tenant now written rows d v target a = (rows', audit, res) →
    lifecycle_run default_tenant may_force rows'.

(** The rows of a version form a path of the graph, each row naming the state it left. *)
Fixpoint linked (s : DetectorState) (rows : list LifecycleRow) : Prop :=
  match rows with
  | [] => True
  | r :: rows' =>
      lr_previous_state r = s ∧ is_Some (dget (s, lr_state r) LEGAL_TRANSITIONS) ∧ linked (lr_state r) rows'
  end.

Definition final_state (s : DetectorState) (rows : list LifecycleRow) : DetectorState :=
  match last rows with Some r => lr_state r | None => s end.

(** The request that stored a row passed the gates of its transition (or was forced). *)
Definition row_gated (may_force : bool) (r : LifecycleRow) : Prop :=
  ∃ key days force,
    dget (lr_previous_state r, lr_state r) LEGAL_TRANSITIONS = Some key ∧
    check_gates key (lr_metrics_snapshot r) days (lr_changed_by r) force = Ok tt ∧
    (force = true → may_force = true).

Record history_inv (may_force : bool) (rows : list LifecycleRow) : Prop := {
  hist_path d v : linked PROPOSED (rows_of rows d v);
  hist_latest d v : current_state rows d v = final_state PROPOSED (rows_of rows d v);
  hist_gated r : r ∈ rows → row_gated may_force r
}.

Lemma final_state_snoc s l x : final_state s (l ++ [x]) = lr_state x.
Proof. unfold final_state. by rewrite last_snoc. Qed.

Lemma final_state_cons s y l : final_state s (y :: l) = final_state (lr_state y) l.
Proof.
  unfold final_state. destruct l as [|z l]; [done|]. change (last (y :: z :: l)) with (last (z :: l)).
  destruct (last (z :: l)) eqn:E; [done|]. by apply last_None in E.
Qed.

Lemma linked_snoc s l x :
  linked s (l ++ [x]) ↔
  linked s l ∧ lr_previous_state x = final_state s l ∧
  is_Some (dget (final_state s l, lr_state x) LEGAL_TRANSITIONS).
Proof.
  revert s. induction l as [|y l IH]; intros s; [unfold final_state; simpl; naive_solver|].
  cbn [linked app]. rewrite IH, final_state_cons. naive_solver.
Qed.

Lemma rows_of_snoc rows r d v :
  rows_of (rows ++ [r]) d v =
  rows_of rows d v ++ (if String.eqb (lr_detector r) d && String.eqb (lr_version r) v then [r] else []).
Proof. unfold rows_of. rewrite bfilter_app. f_equal. by rewrite bfilter_cons. Qed.

Lemma elem_of_rows_of rows d v r :
  r ∈ rows_of rows d v ↔ r ∈ rows ∧ lr_detector r = d ∧ lr_version r = v.
Proof. unfold rows_of. rewrite elem_of_bfilter, andb_true_iff, !String.eqb_eq. naive_solver. Qed.

Lemma current_state_snoc rows r d v :
  (∀ x, x ∈ rows → lr_changed_at x < lr_changed_at r) →
  current_state (rows ++ [r]) d v =
    if String.eqb (lr_detector r) d && String.eqb (lr_version r) v then lr_state r
    else current_state rows d v.
Proof.
  intros Hlt. unfold current_state, latest_state. rewrite rows_of_snoc.
  destruct (String.eqb _ _ && _); [|by rewrite app_nil_r].
  destruct (rows_of rows d v) as [|x xs] eqn:E; simpl; [done|]. rewrite max_by_snoc.
  assert (max_by lr_changed_at x xs ∈ rows) as Hin.
  { apply (elem_of_rows_of rows d v). rewrite E. apply max_by_spec. }
  by rewrite (proj2 (Z.ltb_lt _ _)) by by apply Hlt.
Qed.

(** What an accepted or half-completed transition stores. *)
Lemma transition_rows t now written rows d v target a rows' audit res :
  transition t now written rows d v target a = (rows', audit, res) →
  rows' = rows ∨
  ∃ r key, rows' = rows ++ [r] ∧ lr_detector r = d ∧ lr_version r = v ∧ lr_state r = target ∧
    lr_previous_state r = current_state rows d v ∧ lr_changed_at r = written ∧
    lr_metrics_snapshot r = ta_metrics a ∧ lr_changed_by r = ta_actor_id a ∧
    dget (current_state rows d v, target) LEGAL_TRANSITIONS = Some key ∧
    check_gates key (ta_metrics a) (days_in_state now (latest_state rows d v).2) (ta_actor_id a)
      (ta_force a) = Ok tt.
Proof.
  unfold transition, current_state. destruct (latest_state rows d v) as [cur ent]. cbn [fst snd].
  destruct (dget (cur, target) LEGAL_TRANSITIONS) as [key|] eqn:Hk; [|intros [= <- _ _]; by left].
  destruct (check_gates _ _ _ _ _) as [[]|e] eqn:Hg; [|intros [= <- _ _]; by left].
  intros H. right.
  assert (∃ r, rows' = rows ++ [r] ∧ lr_detector r = d ∧ lr_version r = v ∧ lr_state r = target ∧
    lr_previous_state r = cur ∧ lr_changed_at r = written ∧
    lr_metrics_snapshot r = ta_metrics a ∧ lr_changed_by r = ta_actor_id a) as (r & Hr).
  { destruct (ostr_truthy (ta_actor_id a)); [destruct (parse_uuid _)|]; simplify_eq;
      (eexists; split; [reflexivity|done]). }
  exists r, key. naive_solver.
Qed.

Lemma history_inv_run t may_force rows : lifecycle_run t may_force rows → history_inv may_force rows.
Proof.
  induction 1 as [|rows now written d v target a rows' audit res Hrun IH Hlt Hforce Htr].
  { split; [done|done|]. intros r. by rewrite elem_of_nil. }
  apply transition_rows in Htr as [->|(r & key & -> & Hd & Hv & Hs & Hp & Hw & Hm & Hc & Hk & Hg)]; [done|].
  destruct IH as [IH1 IH2 IH3]. rewrite <-Hw in Hlt. split.
  - intros d' v'. rewrite rows_of_snoc. destruct (_ && _) eqn:E; [|by rewrite app_nil_r].
    apply andb_true_iff in E as [Ed%String.eqb_eq Ev%String.eqb_eq].
    apply linked_snoc. rewrite <-IH2, Hs, <-Ed, <-Ev, Hd, Hv. split_and!; [done|done|eauto].
  - intros d' v'. rewrite (current_state_snoc rows r) by done. rewrite rows_of_snoc.
    destruct (_ && _) eqn:E; [|by rewrite app_nil_r]. by rewrite final_state_snoc.
  - intros x [Hx| ->%list_elem_of_singleton]%elem_of_app; [by apply IH3|].
    exists key, (days_in_state now (latest_state rows d v).2), (ta_force a).
    rewrite Hp, Hs, Hm, Hc. done.
Qed.

(** *** What the gates check *)

(** A metric is a number and not below (above) the bound. *)
Definition metric_not_below (m : option (list (string * json))) (name : string) (bound : f64) : Prop :=
  ∃ v x, dget name (default [] m) = Some v ∧ metric_number v = Ok x ∧ fltb x bound = false.

Definition metric_not_above (m : option (list (string * json))) (name : string) (bound : f64) : Prop :=
  ∃ v x, dget name (default [] m) = Some v ∧ metric_number v = Ok x ∧ fltb bound x = false.

Lemma observed_metric_ok key name m x :
  observed_metric key name m = Ok x → ∃ v, dget name m = Some v ∧ metric_number v = Ok x.
Proof. unfold observed_metric. destruct (dget name m) as [[]|]; naive_solver. Qed.

Lemma check_gates_ok key gates m days actor :
  dget key POLICY = Some gates → check_gates key m days actor false = Ok tt →
  (0 < min_days gates → fltb days (of_Z (min_days gates)) = false) ∧
  (admin_approval gates = true → ostr_truthy actor = true) ∧
  (∀ b, precision_min gates = Some b → metric_not_below m "precision" b) ∧
  (∀ b, fp_rate_max gates = Some b → metric_not_above m "fp_rate" b) ∧
  (no_critical_incidents gates = true →
   ∃ x, metric_number (default (JInt 0) (dget "critical_incidents" (default [] m))) = Ok x ∧
        fltb fzero x = false).
Proof.
  intros Hk. unfold check_gates. rewrite Hk, !result_seq_ok, !guard_raise_ok.
  rewrite !andb_false_iff, negb_false_iff. intros (Hd & Ha & Hp & Hf & Hc). split_and!.
  - intros Hpos. destruct Hd as [Hd|Hd]; [apply Z.ltb_ge in Hd; lia|done].
  - intros Happ. destruct Ha as [Ha|Ha]; [congruence|done].
  - intros b Hb. rewrite Hb in Hp. cbn in Hp. apply result_bind_ok in Hp as (x & Hx & Hp).
    apply guard_raise_ok in Hp. apply observed_metric_ok in Hx as (v & ? & ?). by exists v, x.
  - intros b Hb. rewrite Hb in Hf. cbn in Hf. apply result_bind_ok in Hf as (x & Hx & Hf).
    apply guard_raise_ok in Hf. apply observed_metric_ok in Hx as (v & ? & ?). by exists v, x.
  - intros Hn. rewrite Hn in Hc. apply result_bind_ok in Hc as (x & Hx & Hc).
    apply guard_raise_ok in Hc. eauto.
Qed.

(** The only way into CANARY is from SHADOW, and into ENFORCING from CANARY. *)
Lemma legal_into s s' :
  is_Some (dget (s, s') LEGAL_TRANSITIONS) →
  (s' = ENFORCING → s = CANARY) ∧ (s' = CANARY → s = SHADOW) ∧ s' ≠ PROPOSED.
Proof. intros [k Hk]. by destruct s, s'. Qed.

(** A path that ends in a state it did not start in has a last row, which entered it. *)
Lemma linked_last s l b :
  linked s l → final_state s l = b → s ≠ b →
  ∃ l' x, l = l' ++ [x] ∧ lr_state x = b ∧ linked s l' ∧
    lr_previous_state x = final_state s l' ∧ is_Some (dget (final_state s l', b) LEGAL_TRANSITIONS).
Proof.
  destruct l as [|x l _] using rev_ind; [done|]. rewrite linked_snoc, final_state_snoc.
  intros (? & ? & ?) <- _. by exists l, x.
Qed.

(** Nobody ships a detector straight to ENFORCING.  In any history of requests that do not skip the
    gates, a version that is ENFORCING has as its last three rows SHADOW, CANARY, ENFORCING; the
    promotion to CANARY was approved by a named actor on a precision not below 0.80 and a
    false-positive rate not above 0.05, the one to ENFORCING was approved on a precision not below
    0.85, each after at least seven days as the code counts them. *)
Theorem enforcing_was_promoted t rows d v :
  lifecycle_run t false rows → current_state rows d v = ENFORCING →
  ∃ before shadow canary enforcing,
    rows_of rows d v = before ++ [shadow; canary; enforcing] ∧
    lr_state shadow = SHADOW ∧ lr_state canary = CANARY ∧ lr_state enforcing = ENFORCING ∧
    ostr_truthy (lr_changed_by canary) = true ∧ ostr_truthy (lr_changed_by enforcing) = true ∧
    metric_not_below (lr_metrics_snapshot canary) "precision" (ratio 80 100) ∧
    metric_not_above (lr_metrics_snapshot canary) "fp_rate" (ratio 5 100) ∧
    metric_not_below (lr_metrics_snapshot enforcing) "precision" (ratio 85 100) ∧
    ∃ days1 days2,
      check_gates "SHADOW->CANARY" (lr_metrics_snapshot canary) days1 (lr_changed_by canary) false = Ok tt ∧
      check_gates "CANARY->ENFORCING" (lr_metrics_snapshot enforcing) days2 (lr_changed_by enforcing) false
        = Ok tt ∧
      fltb days1 (of_Z 7) = false ∧ fltb days2 (of_Z 7) = false.
Proof.
  intros [Hpath Hlast Hgate]%history_inv_run Hcur. rewrite Hlast in Hcur.
  destruct (linked_last _ _ _ (Hpath d v) Hcur) as (l1 & e & E1 & He & Hl1 & Pe & Le); [done|].
  apply legal_into in Le as (Le & _). specialize (Le eq_refl).
  destruct (linked_last _ _ _ Hl1 Le) as (l2 & c & E2 & Hc & Hl2 & Pc & Lc); [done|].
  apply legal_into in Lc as (_ & Lc & _). specialize (Lc eq_refl).
  destruct (linked_last _ _ _ Hl2 Lc) as (l3 & s & E3 & Hs & _); [done|].
  exists l3, s, c, e.
  assert (rows_of rows d v = l3 ++ [s; c; e]) as E by (by rewrite E1, E2, E3, <-!app_assoc).
  assert (∀ x, x ∈ [c; e] → row_gated false x) as Hin.
  { intros x Hx. apply Hgate, (elem_of_rows_of _ d v). rewrite E. set_solver. }
  destruct (Hin c ltac:(set_solver)) as (k1 & days1 & f1 & K1 & G1 & F1).
  destruct (Hin e ltac:(set_solver)) as (k2 & days2 & f2 & K2 & G2 & F2).
  rewrite Pc, Lc, Hc in K1. rewrite Pe, Le, He in K2. vm_compute in K1, K2. simplify_eq.
  destruct f1; [by specialize (F1 eq_refl)|]. destruct f2; [by specialize (F2 eq_refl)|].
  destruct (check_gates_ok "SHADOW->CANARY" _ _ _ _ eq_refl G1) as (D1 & A1 & P1 & B1 & _).
  destruct (check_gates_ok "CANARY->ENFORCING" _ _ _ _ eq_refl G2) as (D2 & A2 & P2 & _).
  split_and!; [done|done|done|done|by apply A1|by apply A2|by apply P1|by apply B1|by apply P2|].
  exists days1, days2. split_and!; [done|done|by apply D1|by apply D2].
Qed.

(** Whether the gates hold or are skipped, the rows of every version, in the order they were stored,
    form a path of the legal graph from PROPOSED, each row naming the state it left; the current state
    is the end of that path, and a REMOVED version never changes again. *)
Theorem lifecycle_rows_form_legal_path t may_force rows d v :
  lifecycle_run t may_force rows →
  linked PROPOSED (rows_of rows d v) ∧
  current_state rows d v = final_state PROPOSED (rows_of rows d v) ∧
  (current_state rows d v = REMOVED →
   ∀ now written target a, (transition t now written rows d v target a).1.1 = rows).
Proof.
  intros [Hpath Hlast _]%history_inv_run. split_and!; [done|done|].
  intros Hr now written target a. unfold transition, current_state in *.
  destruct (latest_state rows d v) as [cur ent]. simpl in Hr. subst cur. by destruct target.
Qed.

(** A canary partition of 0 selects no run and one of 1 every run. *)
Theorem canary_partition_extremes detector run_id :
  is_canary_selected detector run_id fzero = Ok false ∧
  is_canary_selected detector run_id (of_Z 1) = Ok true.
Proof.
  unfold is_canary_selected.
  pose proof (Z.mod_pos_bound (stable_hash (detector +:+ ":" +:+ run_id)) 10000 ltac:(lia)) as Hb.
  change (rate_cutoff fzero) with (@Ok string Z 0). change (rate_cutoff (of_Z 1)) with (@Ok string Z 10000).
  cbn [result_bind]. split; f_equal; [apply Z.ltb_ge|apply Z.ltb_lt]; lia.
Qed.

(** An actor id that is not a UUID passes the approval gate, stores the row, and then raises: the state
    has changed although the call failed and nothing was audited. *)
Lemma non_uuid_actor_changes_state_unaudited :
  transition "t" 0 0 [] "d" "1" SHADOW
    {| ta_actor_id := Some "alice"; ta_rationale := None; ta_metrics := None; ta_force := false;
       ta_tenant_id := None; ta_canary_partition := None |} =
  ([{| lr_detector := "d"; lr_version := "1"; lr_state := SHADOW; lr_previous_state := PROPOSED;
       lr_rationale := None; lr_metrics_snapshot := None; lr_changed_by := Some "alice";
       lr_tenant_id := None; lr_canary_partition := None; lr_changed_at := 0 |}],
   None, Raise (PyError "ValueError")).
Proof. vm_compute. reflexivity. Qed.

(** ** Witnesses *)

Definition sample_actor : string := "00112233-4455-6677-8899-aabbccddeeff".

Definition sample_args : TransitionArgs :=
  {| ta_actor_id := Some sample_actor; ta_rationale := None;
     ta_metrics := Some [("precision", JFloat "0.9"); ("fp_rate", JFloat "0.01")];
     ta_force := false; ta_tenant_id := None; ta_canary_partition := None |}.

Definition sample_day (n : Z) : datetime := n * microseconds_per_day.

Definition sample_rows (n : nat) : list LifecycleRow :=
  foldl (λ rows '(day, target), (transition "t" (sample_day day) (sample_day day) rows "d" "1" target sample_args).1.1)
    [] (take n [(1, SHADOW); (9, CANARY); (17, ENFORCING)]).

Lemma sample_run : lifecycle_run "t" false (sample_rows 3).
Proof.
  assert (∀ rows day target, lifecycle_run "t" false rows →
    forallb (λ r, lr_changed_at r <? sample_day day) rows = true →
    lifecycle_run "t" false (transition "t" (sample_day day) (sample_day day) rows "d" "1" target sample_args).1.1)
    as Hstep.
  { intros rows day target Hr Ht.
    destruct (transition _ _ _ _ _ _ _ _) as [[rows' a] res] eqn:E. simpl.
    eapply (run_step _ _ _ _ _ _ _ _ sample_args); [exact Hr| |done|exact E]. intros r Hr'.
    apply Z.ltb_lt. rewrite List.forallb_forall in Ht. apply Ht. by apply list_elem_of_In. }
  apply Hstep; [apply Hstep; [apply Hstep; [constructor|]|]|]; vm_compute; reflexivity.
Qed.

Lemma enforcing_was_promoted_witness :
  ∃ before shadow canary enforcing,
    rows_of (sample_rows 3) "d" "1" = before ++ [shadow; canary; enforcing] ∧
    lr_state shadow = SHADOW ∧ lr_state canary = CANARY ∧ lr_state enforcing = ENFORCING ∧
    ostr_truthy (lr_changed_by canary) = true ∧ ostr_truthy (lr_changed_by enforcing) = true ∧
    metric_not_below (lr_metrics_snapshot canary) "precision" (ratio 80 100) ∧
    metric_not_above (lr_metrics_snapshot canary) "fp_rate" (ratio 5 100) ∧
    metric_not_below (lr_metrics_snapshot enforcing) "precision" (ratio 85 100) ∧
    ∃ days1 days2,
      check_gates "SHADOW->CANARY" (lr_metrics_snapshot canary) days1 (lr_changed_by canary) false = Ok tt ∧
      check_gates "CANARY->ENFORCING" (lr_metrics_snapshot enforcing) days2 (lr_changed_by enforcing) false
        = Ok tt ∧
      fltb days1 (of_Z 7) = false ∧ fltb days2 (of_Z 7) = false.
Proof. apply (enforcing_was_promoted "t"); [apply sample_run|vm_compute; reflexivity]. Defined.

Lemma lifecycle_rows_form_legal_path_witness :
  linked PROPOSED (rows_of (sample_rows 3) "d" "1") ∧
  current_state (sample_rows 3) "d" "1" = final_state PROPOSED (rows_of (sample_rows 3) "d" "1") ∧
  (current_state (sample_rows 3) "d" "1" = REMOVED →
   ∀ now written target a, (transition "t" now written (sample_rows 3) "d" "1" target a).1.1 = sample_rows 3).
Proof. apply (lifecycle_rows_form_legal_path "t" false). apply sample_run. Defined.
