(* ===== verification/Events.v ===== *)
(** * Events

    Models [auditor/events/schemas.py] (the event classes: their fields, channels and types) and the
    [Trace] of [auditor/detectors/base.py]. *)

From Stdlib Require Import NArith ZArith Lia Ascii.
From Stdlib Require String.
From stdpp Require Import base tactics option list strings sets.
From S2P Require Import Prelude PyStr Float64 Json.

Inductive Channel := VOLUNTARY | INVOLUNTARY.

#[export] Instance Channel_eq_dec : EqDecision Channel.
Proof. solve_decision. Defined.

(** The fields of each event class beyond the common header. *)
Record ToolCallStart := {
  tcs_agent_id : uuid;
  tool_name : string;
  tool_args : list (string * json);
  declared_purpose : option string;
  tcs_tool_call_id : option uuid;
  schema_hash : option string
}.

Record ToolCallEnd := {
  tce_agent_id : uuid;
  tce_tool_call_id : uuid;
  tce_status : string;
  result_summary : option string;
  tce_error : option string
}.

Record LLMCall := {
  llm_agent_id : uuid;
  llm_model : string;
  messages_hash : string;
  tokens_in : Z;
  tokens_out : Z
}.

Record MemoryOp := {
  mem_is_write : bool;
  mem_agent_id : uuid;
  mem_store : string;
  keys_or_query : list string;
  mem_source : option string
}.

Record InterAgentMessage := {
  sender_id : uuid;
  receiver_id : uuid;
  message_hash : string;
  signature : string
}.

Record IntentDeclaration := {
  intent_agent_id : uuid;
  intent : string;
  plan_steps : list string
}.

Inductive EventBody :=
| EToolCallStart (b : ToolCallStart)
| EToolCallEnd (b : ToolCallEnd)
| ELLMCall (b : LLMCall)
| EMemoryOp (b : MemoryOp)
| EInterAgentMessage (b : InterAgentMessage)
| EIntentDeclaration (b : IntentDeclaration)
| ESyscallOpenat (path : string) (flags : Z)
| ESyscallConnect (family addr : string) (port : option Z)
| ESyscallExecve (binary : string) (argv : list string)
| ESyscallSendto (fd bytes_sent : Z) (dest_addr : option string)
| EDnsQuery (query_name : string) (results : list string).

Record BaseEvent := {
  event_id : uuid;
  e_run_id : uuid;
  e_tenant_id : uuid;
  span_id : uuid;
  parent_span_id : option uuid;
  ts : datetime;
  pid : option Z;
  schema_version : Z;
  body : EventBody
}.

Definition event_type (e : BaseEvent) : string :=
  match body e with
  | EToolCallStart _ => "tool_call.start"
  | EToolCallEnd _ => "tool_call.end"
  | ELLMCall _ => "llm.call"
  | EMemoryOp m => if mem_is_write m then "memory.write" else "memory.read"
  | EInterAgentMessage _ => "agent.message"
  | EIntentDeclaration _ => "intent.declare"
  | ESyscallOpenat _ _ => "syscall.openat"
  | ESyscallConnect _ _ _ => "syscall.connect"
  | ESyscallExecve _ _ => "syscall.execve"
  | ESyscallSendto _ _ _ => "syscall.sendto"
  | EDnsQuery _ _ => "syscall.dns"
  end.

Definition channel (e : BaseEvent) : Channel :=
  match body e with
  | ESyscallOpenat _ _ | ESyscallConnect _ _ _ | ESyscallExecve _ _ | ESyscallSendto _ _ _
  | EDnsQuery _ _ => INVOLUNTARY
  | _ => VOLUNTARY
  end.

Record Trace := {
  t_run_id : uuid;
  t_tenant_id : uuid;
  declared_goal : option string;
  events : list BaseEvent;
  metadata : list (string * json)
}.

(** [[e for e in trace.events if isinstance(e, ToolCallStart)]], with the class's fields at hand. *)
Definition as_tool_call_start (e : BaseEvent) : option (BaseEvent * ToolCallStart) :=
  match body e with EToolCallStart b => Some (e, b) | _ => None end.

Definition tool_call_starts (evs : list BaseEvent) : list (BaseEvent * ToolCallStart) :=
  omap as_tool_call_start evs.

Definition as_message (e : BaseEvent) : option (BaseEvent * InterAgentMessage) :=
  match body e with EInterAgentMessage b => Some (e, b) | _ => None end.

(** [event.ts.timestamp()] *)
Definition timestamp (t : datetime) : f64 := ratio t 1000000.
