(* ===== verification/Url.v ===== *)
(** * [urllib.parse]

    The host name of a URL: [urlparse(url).hostname] of the standard library, with the checks of
    [urlsplit] that raise [ValueError].  The address check of a bracketed host ([ipaddress]) is the
    argument [bracketed_host_ok]. *)

From Stdlib Require Import NArith ZArith Lia Ascii.
From Stdlib Require String.
From stdpp Require Import base tactics option list strings.
From S2P Require Import Prelude PyStr.

Definition is_c0_or_space (c : ascii) : bool := (nat_of_ascii c <=? 32)%nat.

Fixpoint lstrip_c0 (s : string) : string :=
  match s with
  | String c s' => if is_c0_or_space c then lstrip_c0 s' else s
  | EmptyString => EmptyString
  end.

(** Tabs and line ends are removed. *)
Fixpoint remove_unsafe (s : string) : string :=
  match s with
  | EmptyString => EmptyString
  | String c s' =>
      let n := nat_of_ascii c in
      if (n =? 9)%nat || (n =? 10)%nat || (n =? 13)%nat then remove_unsafe s'
      else String c (remove_unsafe s')
  end.

Definition is_alpha (c : ascii) : bool :=
  let n := nat_of_ascii c in
  ((65 <=? n)%nat && (n <=? 90)%nat) || ((97 <=? n)%nat && (n <=? 122)%nat).

Definition is_scheme_char (c : ascii) : bool :=
  let n := nat_of_ascii c in
  is_alpha c || ((48 <=? n)%nat && (n <=? 57)%nat) || (n =? 43)%nat || (n =? 45)%nat || (n =? 46)%nat.

Fixpoint str_forall (p : ascii → bool) (s : string) : bool :=
  match s with EmptyString => true | String c s' => p c && str_forall p s' end.

(** What follows a scheme, or the whole text when it has none. *)
Definition after_scheme (url : string) : string :=
  match partition_on ":" url with
  | (scheme, true, rest) =>
      match scheme with
      | String c _ => if is_alpha c && str_forall is_scheme_char scheme then rest else url
      | EmptyString => url
      end
  | _ => url
  end.

(** The text up to the first of the delimiters. *)
Fixpoint take_until (delims s : string) : string :=
  match s with
  | EmptyString => EmptyString
  | String c s' => if char_in c delims then EmptyString else String c (take_until delims s')
  end.

(** The text after the last [c], or all of it ([s.rpartition(c)[2]]). *)
Definition after_last (c : ascii) (s : string) : string := default s (last (split_on c s)).

Section url.
Context (bracketed_host_ok : string → bool).

(** The network location of [urlsplit(url)]; [None] is its [ValueError]. *)
Definition netloc (url : string) : option string :=
  let rest := after_scheme (remove_unsafe (lstrip_c0 url)) in
  if starts_with "//" rest then
    let loc := take_until "/?#" (drop_str 2 rest) in
    let open := char_in "[" loc in
    let close := char_in "]" loc in
    if xorb open close then None
    else if open && close then
      let '(_, _, after) := partition_on "[" loc in
      let '(host, _, _) := partition_on "]" after in
      if bracketed_host_ok host then Some loc else None
    else Some loc
  else Some EmptyString.

Definition hostname_of_netloc (loc : string) : string :=
  let hostinfo := after_last "@" loc in
  match partition_on "[" hostinfo with
  | (_, true, bracketed) => (partition_on "]" bracketed).1.1
  | _ => (partition_on ":" hostinfo).1.1
  end.

(** [(urlparse(url).hostname or "").lower()] *)
Definition url_hostname (url : string) : option string :=
  (λ loc, lower (hostname_of_netloc loc)) <$> netloc url.
End url.

Example url_hostname_port :
  url_hostname (λ _, true) "https://user@API.example.com:8443/x?y=1" = Some "api.example.com".
Proof. vm_compute. reflexivity. Qed.

Example url_hostname_open_bracket : url_hostname (λ _, true) "http://[" = None.
Proof. vm_compute. reflexivity. Qed.
