(* ===== verification/Divergence.v ===== *)
(** * Channel divergence

    Models [auditor/events/correlator.py] (which kernel-observed events a declared event accounts for)
    and [auditor/inline_gate/divergence.py] (the classification of the unaccounted ones).  A malformed
    URL makes the standard library raise, so the operations return a [result]. *)

From Stdlib Require Import NArith ZArith Lia Ascii SpecFloat.
From Stdlib Require String.
From stdpp Require Import base tactics option list strings sets.
From S2P Require Import Prelude PyStr Float64 Json Verdicts Events Url.

Local Open Scope Z_scope.

(** ** The correlator ([correlator.py]) *)

(** A (kind, value) pair. *)
Notation Signature := (String.string * String.string)%type.

Section correlator.
Context (bracketed_host_ok : string → bool).

(** [_host(url_or_host)] *)
Definition host_of (url_or_host : string) : result string string :=
  if String.eqb url_or_host EmptyString then Ok EmptyString
  else if contains "://" url_or_host then
    match url_hostname bracketed_host_ok url_or_host with
    | Some h => Ok h
    | None => Raise "ValueError"
    end
  else Ok (lower (partition_on ":" url_or_host).1.1).

Definition involuntary_signature (e : BaseEvent) : result string Signature :=
  match body e with
  | ESyscallOpenat path _ => Ok ("file", path)
  | ESyscallConnect _ addr _ => let! h := host_of addr in Ok ("net", h)
  | EDnsQuery name _ => let! h := host_of name in Ok ("net", h)
  | ESyscallSendto _ _ dest => let! h := host_of (default EmptyString dest) in Ok ("net", h)
  | ESyscallExecve binary _ => Ok ("exec", binary)
  | _ => Ok ("other", event_type e)
  end.

(** [str(args.get("url", "") or args.get("host", ""))] *)
Definition url_argument (args : list (string * json)) : string :=
  match get_truthy "url" args with
  | Some v => py_str v
  | None => py_str (default (JStr EmptyString) (dget "host" args))
  end.

Definition voluntary_produces (e : BaseEvent) : result string (list Signature) :=
  match body e with
  | EToolCallStart b =>
      let args := tool_args b in
      let tool := tool_name b in
      let files :=
        if bool_decide (tool ∈ ["file_read"; "file_write"]) then
          match get_truthy "path" args with Some v => [("file", py_str v)] | None => [] end
        else [] in
      let! nets :=
        (if bool_decide (tool ∈ ["http_get"; "http_post"]) then
           let! h := host_of (url_argument args) in
           Ok (if str_truthy h then [("net", h)] else [])
         else Ok []) in
      let execs := if String.eqb tool "exec_shell" then [("exec", "*")] else [] in
      Ok (files ++ nets ++ execs)
  | ELLMCall _ => Ok [("net", "api.anthropic.com")]
  | _ => Ok []
  end.

(** One comparison of [_matches]. *)
Definition sig_matches (inv produced : Signature) : bool :=
  let '(kind, value) := inv in
  let '(pkind, pvalue) := produced in
  String.eqb pkind kind &&
  (String.eqb pvalue "*" || String.eqb pvalue value
   || (String.eqb kind "net" && str_truthy value && str_truthy pvalue
       && (contains value pvalue || contains pvalue value))
   || (String.eqb kind "file" && str_truthy value && str_truthy pvalue && String.eqb value pvalue)).

Definition matches_any (inv : Signature) (produced : list Signature) : bool :=
  existsb (sig_matches inv) produced.

(** [[f(x) for x in l]] where [f] may raise. *)
Fixpoint map_result {A B} (f : A → result string B) (l : list A) : result string (list B) :=
  match l with
  | [] => Ok []
  | x :: l' => let! y := f x in let! ys := map_result f l' in Ok (y :: ys)
  end.

Definition is_voluntary (e : BaseEvent) : bool := bool_decide (channel e = VOLUNTARY).

(** [(e.ts - run_start).total_seconds() < baseline_s] *)
Definition in_baseline (run_start : datetime) (baseline_s : f64) (e : BaseEvent) : bool :=
  fltb (ratio (ts e - run_start) 1000000) baseline_s.

(** The declaration accounts for a signature observed at [ets]. *)
Definition correlated (window : f64) (sig : Signature) (ets : f64)
    (vol : f64 * list Signature) : bool :=
  matches_any sig vol.2 && fleb (fabs (fsub vol.1 ets)) window.

Fixpoint unmatched_loop (learning : BaseEvent → bool) (baseline : list Signature) (window : f64)
    (voluntary : list (f64 * list Signature)) (evs : list BaseEvent) : result string (list BaseEvent) :=
  match evs with
  | [] => Ok []
  | e :: rest =>
      if learning e then unmatched_loop learning baseline window voluntary rest
      else
        let! sig := involuntary_signature e in
        if bool_decide (sig ∈ baseline) then unmatched_loop learning baseline window voluntary rest
        else if existsb (correlated window sig (timestamp (ts e))) voluntary
        then unmatched_loop learning baseline window voluntary rest
        else let! others := unmatched_loop learning baseline window voluntary rest in Ok (e :: others)
  end.

(** [min(e.ts for e in events)] of a non-empty list. *)
Definition earliest (e : BaseEvent) (evs : list BaseEvent) : datetime :=
  foldl (λ t e, if ts e <? t then ts e else t) (ts e) evs.

Definition unmatched_involuntary (evs : list BaseEvent) (window_ms : Z) (baseline_s : f64)
    : result string (list BaseEvent) :=
  match evs with
  | [] => Ok []
  | e0 :: rest0 =>
      let run_start := earliest e0 rest0 in
      let window := fdiv (of_Z window_ms) (of_Z 1000) in
      let! voluntary := map_result (λ e, let! p := voluntary_produces e in Ok (timestamp (ts e), p))
                          (bfilter is_voluntary evs) in
      let involuntary := bfilter (λ e, negb (is_voluntary e)) evs in
      let learning e := fltb fzero baseline_s && in_baseline run_start baseline_s e in
      let! baseline := map_result involuntary_signature (bfilter learning involuntary) in
      unmatched_loop learning baseline window voluntary involuntary
  end.

(** ** Findings ([divergence.py]) *)

Definition SENSITIVE_PATHS : list string :=
  ["/etc/"; "/proc/"; "/sys/"; "/root/.ssh/"; "/.ssh/"; ".ssh/"; ".aws/credentials";
   "/proc/self/environ"; "id_rsa"; "\.ssh\"; "\.aws\"; "_history"].

Definition ALLOWLISTED_DESTS : list string := ["api.anthropic.com"; "127.0.0.1"; "localhost"].

Record DivergenceConfig := {
  window_ms : Z;
  baseline_s : f64;
  sensitive_paths : list string;
  allowlisted_dests : list string
}.

Definition default_config : DivergenceConfig :=
  {| window_ms := 800; baseline_s := fzero; sensitive_paths := SENSITIVE_PATHS;
     allowlisted_dests := ALLOWLISTED_DESTS |}.

(** [DivergenceConfig.for_platform()] *)
Definition for_platform (win32 : bool) : DivergenceConfig :=
  {| window_ms := if win32 then 800 else 200; baseline_s := fzero; sensitive_paths := SENSITIVE_PATHS;
     allowlisted_dests := ALLOWLISTED_DESTS |}.

Record DivergenceFinding := {
  df_severity : Severity;
  df_asi_category : string;
  df_reason : string;
  df_event : BaseEvent;
  df_detail : string
}.

Definition is_sensitive (path : string) (config : DivergenceConfig) : bool :=
  existsb (λ frag, contains (lower frag) (lower path)) (sensitive_paths config).

Definition is_allowlisted (host : string) (config : DivergenceConfig) : bool :=
  existsb (λ allowed, contains allowed (lower host)) (allowlisted_dests config).

Definition finding (s : Severity) (cat why : string) (e : BaseEvent) (detail : string)
    : DivergenceFinding :=
  {| df_severity := s; df_asi_category := cat; df_reason := why; df_event := e; df_detail := detail |}.

Definition classify_divergence (config : DivergenceConfig) (e : BaseEvent)
    : result string DivergenceFinding :=
  let! sig := involuntary_signature e in
  let '(kind, value) := sig in
  Ok (if String.eqb kind "exec" then finding CRITICAL "ASI05" "undeclared process execution" e value
      else if String.eqb kind "file" then
        if is_sensitive value config
        then finding CRITICAL "ASI03" "undeclared access to a sensitive path" e value
        else finding HIGH "ASI03" "undeclared file access" e value
      else if String.eqb kind "net" then
        if negb (is_allowlisted value config)
        then finding CRITICAL "ASI01" "undeclared egress to a non-allowlisted destination" e value
        else finding HIGH "ASI01" "undeclared network activity" e value
      else finding HIGH "ASI10" "undeclared involuntary activity" e value).

Definition analyze (config : DivergenceConfig) (evs : list BaseEvent)
    : result string (list DivergenceFinding) :=
  let! unmatched := unmatched_involuntary evs (window_ms config) (baseline_s config) in
  map_result (classify_divergence config) unmatched.

(** One verdict of [to_verdicts]; [fresh] and [now] are the default factories of its id and time. *)
Definition finding_verdict (run_id tenant_id : uuid) (now : datetime) (fresh : uuid)
    (f : DivergenceFinding) : Verdict :=
  {| v_verdict_id := fresh; v_run_id := run_id; v_tenant_id := tenant_id;
     v_detector := "channel_divergence"; v_asi_category := df_asi_category f; v_result := VIOLATION;
     v_confidence := of_Z 1;
     v_evidence := [{| ev_event_id := Some (event_id (df_event f));
                       ev_reason := df_reason f +:+ ": " +:+ df_detail f |}];
     v_judge_model := None; v_judge_prompt_v := None;
     v_rubric_scores := Some [("severity", JStr (Severity_value (df_severity f)))];
     v_ts := now |}.

Definition to_verdicts (run_id tenant_id : uuid) (now : datetime) (fresh : list uuid)
    (findings : list DivergenceFinding) : list Verdict :=
  zip_with (finding_verdict run_id tenant_id now) fresh findings.

Definition critical_findings (findings : list DivergenceFinding) : list DivergenceFinding :=
  bfilter (λ f, bool_decide (df_severity f = CRITICAL)) findings.
End correlator.

(** ** What is reported *)

Lemma map_result_ok {A B} (f : A → result string B) l ys :
  map_result f l = Ok ys ↔ Forall2 (λ x y, f x = Ok y) l ys.
Proof.
  revert ys. induction l as [|x l IH]; intros ys; simpl.
  - split; [intros [= <-]; constructor|]. by intros ->%Forall2_nil_inv_l.
  - rewrite result_bind_ok. split.
    + intros (y & Hy & (ys' & Hys & [= <-])%result_bind_ok). constructor; [done|by apply IH].
    + intros (y & ys' & Hy & Hys & ->)%Forall2_cons_inv_l. exists y. split; [done|].
      apply IH in Hys. by rewrite Hys.
Qed.

Lemma map_result_raise {A B} (f : A → result string B) l x e :
  x ∈ l → f x = Raise e → is_ok (map_result f l) = false.
Proof.
  intros Hx Hf. destruct (map_result f l) as [ys|] eqn:E; [|done].
  apply map_result_ok in E. destruct (Forall2_in_l _ _ _ _ E Hx) as (y & _ & Hy). congruence.
Qed.

Section reports.
Context (bracketed_host_ok : string → bool).
Notation inv_sig := (involuntary_signature bracketed_host_ok).

Lemma unmatched_loop_ok learning baseline window voluntary evs res :
  unmatched_loop bracketed_host_ok learning baseline window voluntary evs = Ok res →
  res `sublist_of` evs ∧
  ∀ e, e ∈ res → ∃ sig, inv_sig e = Ok sig.
Proof.
  revert res. induction evs as [|e evs IH]; intros res; simpl.
  { intros [= <-]. split; [constructor|]. intros e. by rewrite elem_of_nil. }
  destruct (learning e); [intros [? ?]%IH; split; [by apply sublist_cons|done]|].
  intros (sig & Hsig & H)%result_bind_ok.
  destruct (bool_decide _); [apply IH in H as [? ?]; split; [by apply sublist_cons|done]|].
  destruct (existsb _ _); [apply IH in H as [? ?]; split; [by apply sublist_cons|done]|].
  apply result_bind_ok in H as (others & Ho & [= <-]). apply IH in Ho as [? Hs].
  split; [by apply sublist_skip|]. intros e' [->|He]%elem_of_cons; [eauto|by apply Hs].
Qed.

Lemma elem_of_unmatched_loop learning baseline window voluntary evs res e :
  unmatched_loop bracketed_host_ok learning baseline window voluntary evs = Ok res →
  e ∈ res ↔ e ∈ evs ∧ learning e = false ∧
    ∃ sig, inv_sig e = Ok sig ∧ sig ∉ baseline ∧
           existsb (correlated window sig (timestamp (ts e))) voluntary = false.
Proof.
  revert res. induction evs as [|e0 evs IH]; intros res; simpl.
  { intros [= <-]. rewrite elem_of_nil. naive_solver. }
  rewrite elem_of_cons.
  destruct (learning e0) eqn:El.
  { intros ->%IH. split; [naive_solver|]. intros ([->|?] & ? & ?); [congruence|done]. }
  intros (sig & Hsig & H)%result_bind_ok.
  assert (∀ sig', inv_sig e0 = Ok sig' → sig' = sig) as Hone by congruence.
  destruct (bool_decide _) eqn:Eb.
  { apply bool_decide_eq_true in Eb. apply IH in H as ->. split; [naive_solver|].
    intros ([->|?] & ? & s' & Hs' & Hn & ?); [|naive_solver]. by rewrite (Hone _ Hs') in Hn. }
  apply bool_decide_eq_false in Eb.
  destruct (existsb _ _) eqn:Ex.
  { apply IH in H as ->. split; [naive_solver|].
    intros ([->|?] & ? & s' & Hs' & Hb & Hn); [|naive_solver]. rewrite (Hone _ Hs') in Hn. congruence. }
  apply result_bind_ok in H as (others & Ho & [= <-]). rewrite elem_of_cons, (IH others) by done.
  split.
  - intros [->|(? & ? & ?)]; [|by auto]. split; [by left|]. split; [done|]. by exists sig.
  - intros ([->|?] & ? & ?); [by left|by right].
Qed.

Lemma unmatched_loop_signed learning baseline window voluntary evs res :
  unmatched_loop bracketed_host_ok learning baseline window voluntary evs = Ok res →
  ∀ e, e ∈ evs → learning e = false → ∃ sig, inv_sig e = Ok sig.
Proof.
  revert res. induction evs as [|e0 evs IH]; intros res; simpl; [by intros _ e ?%elem_of_nil|].
  destruct (learning e0) eqn:El.
  { intros H e [->|He]%elem_of_cons Hl; [congruence|by eapply IH]. }
  intros (sig & Hsig & H)%result_bind_ok e [->|He]%elem_of_cons Hl; [eauto|].
  destruct (bool_decide _); [by eapply IH|]. destruct (existsb _ _); [by eapply IH|].
  apply result_bind_ok in H as (others & Ho & _). by eapply IH.
Qed.

(** Some declaration of the run accounts for [e]. *)
Definition accounted (window : f64) (evs : list BaseEvent) (e : BaseEvent) : Prop :=
  ∃ v produced sig,
    v ∈ evs ∧ channel v = VOLUNTARY ∧ voluntary_produces bracketed_host_ok v = Ok produced ∧
    inv_sig e = Ok sig ∧ matches_any sig produced = true ∧
    fleb (fabs (fsub (timestamp (ts v)) (timestamp (ts e)))) window = true.

Lemma elem_of_voluntary evs e : e ∈ bfilter is_voluntary evs ↔ e ∈ evs ∧ channel e = VOLUNTARY.
Proof. rewrite elem_of_bfilter. unfold is_voluntary. rewrite bool_decide_eq_true. naive_solver. Qed.

Lemma elem_of_involuntary evs e :
  e ∈ bfilter (λ e, negb (is_voluntary e)) evs ↔ e ∈ evs ∧ channel e = INVOLUNTARY.
Proof.
  rewrite elem_of_bfilter. unfold is_voluntary.
  rewrite negb_true_iff, bool_decide_eq_false. destruct (channel e); naive_solver.
Qed.

(** Without a learning phase the unmatched events are the involuntary events nothing accounts for. *)
Lemma elem_of_unmatched evs window_ms res e :
  unmatched_involuntary bracketed_host_ok evs window_ms fzero = Ok res →
  e ∈ res ↔ e ∈ evs ∧ channel e = INVOLUNTARY ∧
            ¬ accounted (fdiv (of_Z window_ms) (of_Z 1000)) evs e.
Proof.
  unfold unmatched_involuntary. destruct evs as [|e0 rest]; [intros [= <-]; set_solver|].
  set (evs := e0 :: rest). set (window := fdiv _ _). cbn [fltb fzero].
  intros (vol & Hvol & H)%result_bind_ok. apply map_result_ok in Hvol.
  apply result_bind_ok in H as (baseline & Hb & H).
  assert (baseline = []) as ->.
  { assert (bfilter (λ e, fltb fzero fzero && in_baseline (earliest e0 rest) fzero e)
      (bfilter (λ e, negb (is_voluntary e)) evs) = []) as E by by apply bfilter_nil.
    rewrite E in Hb. by injection Hb. }
  rewrite (elem_of_unmatched_loop _ _ _ _ _ _ _ H), elem_of_involuntary.
  assert (∀ sig, existsb (correlated window sig (timestamp (ts e))) vol = true ↔
    ∃ v produced, v ∈ evs ∧ channel v = VOLUNTARY ∧ voluntary_produces bracketed_host_ok v = Ok produced ∧
      matches_any sig produced = true ∧
      fleb (fabs (fsub (timestamp (ts v)) (timestamp (ts e)))) window = true) as Hex.
  { intros sig. rewrite List.existsb_exists. split.
    - intros ([vts p] & Hin%list_elem_of_In & [Hm Hw]%andb_true_iff).
      destruct (Forall2_in_r _ _ _ _ Hvol Hin) as (v & Hv & Hp).
      apply elem_of_voluntary in Hv as [Hv Hc].
      apply result_bind_ok in Hp as (p' & Hp & Heq). injection Heq as <- <-. by exists v, p'.
    - intros (v & p & Hv & Hc & Hp & Hm & Hw).
      assert (v ∈ bfilter is_voluntary evs) as Hin by by apply elem_of_voluntary.
      destruct (Forall2_in_l _ _ _ _ Hvol Hin) as (q & Hq & Hy).
      rewrite Hp in Hy. injection Hy as <-. exists (timestamp (ts v), p).
      split; [by apply list_elem_of_In|]. unfold correlated. simpl. by rewrite Hm, Hw. }
  split.
  - intros ([He Hc] & _ & sig & Hs & _ & Hno). split_and!; [done|done|].
    intros (v & p & sig' & Hv & Hvc & Hp & Hs' & Hm & Hw). rewrite Hs in Hs'. injection Hs' as <-.
    assert (existsb (correlated window sig (timestamp (ts e))) vol = true); [|congruence].
    apply Hex. eauto 10.
  - intros (He & Hc & Hno). split; [done|]. split; [done|].
    assert (∃ sig, inv_sig e = Ok sig) as [sig Hs].
    { by apply (unmatched_loop_signed _ _ _ _ _ _ H); [apply elem_of_involuntary|]. }
    exists sig. split_and!; [done|set_solver|]. apply not_true_is_false. rewrite Hex.
    intros (v & p & ?). apply Hno. exists v, p, sig. naive_solver.
Qed.
Lemma unmatched_sublist evs window_ms baseline res :
  unmatched_involuntary bracketed_host_ok evs window_ms baseline = Ok res → res `sublist_of` evs.
Proof.
  unfold unmatched_involuntary. destruct evs as [|e0 rest]; [intros [= <-]; constructor|].
  intros (vol & _ & H)%result_bind_ok. apply result_bind_ok in H as (b & _ & H).
  apply unmatched_loop_ok in H as [H _]. etrans; [exact H|]. apply sublist_filter.
Qed.

Lemma classify_divergence_ok config e f :
  classify_divergence bracketed_host_ok config e = Ok f →
  df_event f = e ∧
  ∃ kind value, inv_sig e = Ok (kind, value) ∧ df_detail f = value ∧
    (df_severity f = CRITICAL ↔
       kind = "exec" ∨ (kind = "file" ∧ is_sensitive value config = true) ∨
       (kind = "net" ∧ is_allowlisted value config = false)).
Proof.
  unfold classify_divergence. intros ([kind value] & Hs & H)%result_bind_ok.
  injection H as <-. rewrite Hs.
  assert (∀ cat why s, df_event (finding s cat why e value) = e ∧
    df_detail (finding s cat why e value) = value) as Hd by done.
  destruct (String.eqb_spec kind "exec") as [->|He].
  { split; [done|]. exists "exec", value. split_and!; [done|done|]. split; [by left|done]. }
  destruct (String.eqb_spec kind "file") as [->|Hf].
  { split; [by destruct (is_sensitive value config)|]. exists "file", value.
    destruct (is_sensitive value config) eqn:E; (split_and!; [done|done|]).
    - split; [by right; left|done].
    - split; [done|]. intros [?|[[_ ?]|[? _]]]; congruence. }
  destruct (String.eqb_spec kind "net") as [->|Hn].
  { split; [by destruct (is_allowlisted value config)|]. exists "net", value.
    destruct (is_allowlisted value config) eqn:E; (split_and!; [done|done|]).
    - split; [done|]. intros [?|[[? _]|[_ ?]]]; congruence.
    - split; [by right; right|done]. }
  split; [done|]. exists kind, value. split_and!; [done|done|].
  split; [done|]. intros [?|[[? _]|[? _]]]; congruence.
Qed.

(** When the analysis of a run completes (with no learning phase), its findings are, in the order of
    the run, exactly the kernel-observed events that no declaration of the run accounts for within the
    window; a finding is critical exactly for an execution, a sensitive file or a destination off the
    allowlist. *)
Theorem divergence_reports_exactly config evs fs :
  baseline_s config = fzero → analyze bracketed_host_ok config evs = Ok fs →
  map df_event fs `sublist_of` evs ∧
  (∀ e, e ∈ map df_event fs ↔
        e ∈ evs ∧ channel e = INVOLUNTARY ∧
        ¬ accounted (fdiv (of_Z (window_ms config)) (of_Z 1000)) evs e) ∧
  (∀ f, f ∈ fs → ∃ kind value, inv_sig (df_event f) = Ok (kind, value) ∧
        (df_severity f = CRITICAL ↔
           kind = "exec" ∨ (kind = "file" ∧ is_sensitive value config = true) ∨
           (kind = "net" ∧ is_allowlisted value config = false))).
Proof.
  intros Hb (res & Hres & Hfs)%result_bind_ok. rewrite Hb in Hres. apply map_result_ok in Hfs.
  assert (map df_event fs = res) as Hmap.
  { clear Hres. induction Hfs as [|e f res fs Hf _ IH]; [done|]. simpl.
    apply classify_divergence_ok in Hf as [-> _]. by rewrite IH. }
  rewrite Hmap. split_and!.
  - by eapply unmatched_sublist.
  - intros e. by apply elem_of_unmatched.
  - intros f Hf. destruct (Forall2_in_r _ _ _ _ Hfs Hf) as (e & _ & He).
    apply classify_divergence_ok in He as (<- & k & v & ? & _ & ?). eauto.
Qed.

(** One declared URL that the standard library rejects stops the whole analysis: whatever else the
    run did, no finding is reported. *)
Theorem malformed_url_stops_analysis config evs v err :
  v ∈ evs → channel v = VOLUNTARY → voluntary_produces bracketed_host_ok v = Raise err →
  is_ok (analyze bracketed_host_ok config evs) = false.
Proof.
  intros Hv Hc Hp. unfold analyze, unmatched_involuntary.
  destruct evs as [|e0 rest]; [by apply elem_of_nil in Hv|]. set (evs := e0 :: rest) in *.
  pose proof (map_result_raise
    (λ e, let! p := voluntary_produces bracketed_host_ok e in Ok (timestamp (ts e), p))
    (bfilter is_voluntary evs) v err) as Hr.
  specialize (Hr ltac:(by apply elem_of_voluntary) ltac:(simpl; by rewrite Hp)).
  by destruct (map_result _ (bfilter is_voluntary evs)).
Qed.
End reports.

(** *** From findings to the flag *)

Lemma finding_verdict_severity run t now fresh f :
  classify (finding_verdict run t now fresh f) = Some (df_severity f).
Proof. unfold classify. simpl. by destruct (df_severity f). Qed.

(** A critical finding makes the run's flag critical: the verdicts of the findings aggregate to a
    flag whose severity is the largest severity found. *)
Theorem critical_finding_critical_flag run t now fresh fs flag_id :
  length fresh = length fs → critical_findings fs ≠ [] →
  ∃ flag, aggregate flag_id now run t (to_verdicts run t now fresh fs) = Some flag ∧
          f_severity flag = CRITICAL.
Proof.
  intros Hlen Hcrit. set (vs := to_verdicts run t now fresh fs).
  assert (∃ v, v ∈ vs ∧ v_result v ≠ OK ∧ classify v = Some CRITICAL) as (v & Hv & Hr & Hc).
  { destruct (critical_findings fs) as [|f l] eqn:E; [done|].
    assert (f ∈ critical_findings fs) as Hf by (rewrite E; left).
    unfold critical_findings in Hf. apply elem_of_bfilter in Hf as [Hs%bool_decide_eq_true Hf].
    apply list_elem_of_lookup in Hf as [i Hi].
    destruct (lookup_lt_is_Some_2 fresh i) as [u Hu]; [rewrite Hlen; by eapply lookup_lt_Some|].
    exists (finding_verdict run t now u f). split_and!; [|done|by rewrite finding_verdict_severity, Hs].
    apply list_elem_of_lookup. exists i. unfold vs, to_verdicts. rewrite lookup_zip_with, Hu. simpl.
    by rewrite Hi. }
  destruct (aggregate flag_id now run t vs) as [flag|] eqn:E.
  - exists flag. split; [done|]. apply aggregate_Some in E as ->. simpl.
    assert (v ∈ bfilter not_ok vs) as Hin by by apply elem_of_actionable.
    pose proof (score_severity_upper _ _ _ Hin Hc) as Hle.
    destruct (score_severity (bfilter not_ok vs)); simpl in Hle; (done || lia).
  - apply aggregate_is_None in E. exfalso. assert (v ∈ bfilter not_ok vs) as Hin
      by by apply elem_of_actionable. rewrite E in Hin. by apply elem_of_nil in Hin.
Qed.

(** The allowlist test is a substring test: any host that contains an allowlisted name passes it. *)
Lemma allowlist_bypass prefix suffix :
  is_allowlisted (prefix +:+ "localhost" +:+ suffix) default_config = true.
Proof.
  unfold is_allowlisted. apply List.existsb_exists. exists "localhost". split; [simpl; auto|].
  rewrite !lower_app. apply contains_app.
Qed.

(** ** Witnesses *)

Definition sample_event (id : uuid) (t : datetime) (b : EventBody) : BaseEvent :=
  {| event_id := id; e_run_id := "r"; e_tenant_id := "t"; span_id := id; parent_span_id := None;
     ts := t; pid := None; schema_version := 1; body := b |}.

Definition sample_call (tool : string) (args : list (string * json)) : EventBody :=
  EToolCallStart {| tcs_agent_id := "a"; tool_name := tool; tool_args := args;
                    declared_purpose := None; tcs_tool_call_id := None; schema_hash := None |}.

Definition sample_events : list BaseEvent :=
  [sample_event "1" 0 (sample_call "file_read" [("path", JStr "/tmp/x")]);
   sample_event "2" 100000 (ESyscallOpenat "/tmp/x" 0);
   sample_event "3" 200000 (ESyscallExecve "/bin/bash" [])].

Definition sample_finding : DivergenceFinding :=
  finding CRITICAL "ASI05" "undeclared process execution"
    (sample_event "3" 200000 (ESyscallExecve "/bin/bash" [])) "/bin/bash".

Lemma divergence_reports_exactly_witness :
  map df_event [sample_finding] `sublist_of` sample_events ∧
  (∀ e, e ∈ map df_event [sample_finding] ↔
        e ∈ sample_events ∧ channel e = INVOLUNTARY ∧
        ¬ accounted (λ _, true) (fdiv (of_Z 800) (of_Z 1000)) sample_events e) ∧
  (∀ f, f ∈ [sample_finding] → ∃ kind value,
        involuntary_signature (λ _, true) (df_event f) = Ok (kind, value) ∧
        (df_severity f = CRITICAL ↔
           kind = "exec" ∨ (kind = "file" ∧ is_sensitive value default_config = true) ∨
           (kind = "net" ∧ is_allowlisted value default_config = false))).
Proof. apply (divergence_reports_exactly (λ _, true) default_config); vm_compute; reflexivity. Defined.

Lemma malformed_url_stops_analysis_witness :
  is_ok (analyze (λ _, true) default_config
    (sample_events ++ [sample_event "4" 0 (sample_call "http_get" [("url", JStr "http://[")])])) = false.
Proof.
  apply (malformed_url_stops_analysis (λ _, true) default_config _
    (sample_event "4" 0 (sample_call "http_get" [("url", JStr "http://[")])) "ValueError").
  - apply elem_of_app. right. left.
  - reflexivity.
  - vm_compute. reflexivity.
Defined.

Lemma critical_finding_critical_flag_witness :
  ∃ flag, aggregate "f" 0 "r" "t" (to_verdicts "r" "t" 0 ["v"] [sample_finding]) = Some flag ∧
          f_severity flag = CRITICAL.
Proof. apply critical_finding_critical_flag; [reflexivity|vm_compute; discriminate]. Defined.
