(* ===== verification/Budget.v ===== *)
(** * The tool budget of a run

    Models [auditor/inline_gate/budget.py]: the Lua script that counts a run's tool calls in Redis and
    the decision [BudgetEnforcer.check] takes from the counts.  Redis is an interface; its documented
    semantics of INCR, GET, SET and EXPIRE are the laws of the class.  The specification counts calls
    in the history of the run alone; [budget_check_refines] shows that the counters implement it
    whatever the other runs do. *)

From Stdlib Require Import ZArith Lia Ascii.
From Stdlib Require String.
From stdpp Require Import base tactics option list strings gmap sorting.
From S2P Require Import Prelude PyStr Float64 Json.

Local Open Scope Z_scope.

(** ** Exceptions and sub-decisions *)

(** An exception with the text [str(exc)] gives. *)
Record PyExn := { exn_class : string; exn_text : string }.

#[export] Instance PyExn_eq_dec : EqDecision PyExn.
Proof. solve_decision. Defined.

(** The dict a sub-check returns: [decision], [reasons] and the fields after them. *)
Record SubDecision := {
  sd_decision : json;
  sd_reasons : list json;
  sd_rest : list (string * json)
}.

#[export] Instance SubDecision_eq_dec : EqDecision SubDecision.
Proof. solve_decision. Defined.

Definition vote (d : SubDecision) : json :=
  JObj (("decision", sd_decision d) :: ("reasons", JArr (sd_reasons d)) :: sd_rest d).

(** ** Redis strings

    [live c now k]: the value stored under [k] and the time it expires at, when the key exists at time
    [now] (milliseconds).  A command takes the time it runs at; a script runs at one time. *)

Class RedisStrings (C : Type) := {
  live : C → Z → string → option (string * option Z);
  r_get : C → Z → string → option string;
  r_set : C → Z → string → string → C;
  r_incr : C → Z → string → C * result PyExn Z;
  r_expire : C → Z → string → Z → C;
  live_later c now now' k :
    now ≤ now' →
    live c now' k = match live c now k with
                    | Some (v, Some e) => if now' <=? e then Some (v, Some e) else None
                    | o => o
                    end;
  r_get_spec c now k : r_get c now k = fst <$> live c now k;
  r_set_spec c now k v k' :
    live (r_set c now k v) now k' = if decide (k' = k) then Some (v, None) else live c now k';
  r_incr_missing c now k :
    live c now k = None →
    (r_incr c now k).2 = Ok 1 ∧
    ∀ k', live (r_incr c now k).1 now k' = if decide (k' = k) then Some ("1", None) else live c now k';
  r_incr_spec c now k n e :
    live c now k = Some (dec n, e) → 0 ≤ n < 2 ^ 63 - 1 →
    (r_incr c now k).2 = Ok (n + 1) ∧
    ∀ k', live (r_incr c now k).1 now k' =
            if decide (k' = k) then Some (dec (n + 1), e) else live c now k';
  r_expire_spec c now k s k' :
    0 < s →
    live (r_expire c now k s) now k' =
      if decide (k' = k) then (λ '(v, _), (v, Some (now + 1000 * s))) <$> live c now k
      else live c now k'
}.

(** ** The enforcer *)

Definition MAX_CALLS_PER_RUN : Z := 200.
Definition MAX_SAME_TOOL_STREAK : Z := 50.
Definition BURST_LIMIT : Z := 20.
Definition _TTL : Z := 3600.
Definition _BURST_TTL : Z := 10.

Section budget.
Context {C : Type} `{RedisStrings C}.

Definition key_of (run_id suffix : string) : string := "budget:" +:+ run_id +:+ ":" +:+ suffix.
Definition k_total (run_id : string) : string := key_of run_id "total".
Definition k_last (run_id : string) : string := key_of run_id "last_tool".
Definition k_streak (run_id : string) : string := key_of run_id "streak".
Definition k_burst (run_id : string) : string := key_of run_id "burst".

(** The script [_LUA]; an error reply of a command aborts it, keeping the writes before it. *)
Definition budget_script (run_id tool : string) (now : Z) (c0 : C) : C * result PyExn (Z * Z * Z) :=
  let '(c1, r) := r_incr c0 now (k_total run_id) in
  match r with
  | Raise e => (c1, Raise e)
  | Ok total =>
      let c2 := r_expire c1 now (k_total run_id) _TTL in
      let '(c3, r) :=
        if decide (r_get c2 now (k_last run_id) = Some tool) then r_incr c2 now (k_streak run_id)
        else (r_set (r_set c2 now (k_last run_id) tool) now (k_streak run_id) "1", Ok 1) in
      match r with
      | Raise e => (c3, Raise e)
      | Ok streak =>
          let c4 := r_expire (r_expire c3 now (k_last run_id) _TTL) now (k_streak run_id) _TTL in
          let '(c5, r) := r_incr c4 now (k_burst run_id) in
          match r with
          | Raise e => (c5, Raise e)
          | Ok burst =>
              (if burst =? 1 then r_expire c5 now (k_burst run_id) _BURST_TTL else c5,
               Ok (total, streak, burst))
          end
      end
  end.

(** The part of [check] after the script. *)
Definition budget_decision (tool : string) (total streak burst : Z) : SubDecision :=
  let '(d, rs) :=
    if MAX_CALLS_PER_RUN <? total then
      ("DENY", ["run tool budget exceeded (" +:+ dec total +:+ " > " +:+ dec MAX_CALLS_PER_RUN +:+ ")"])
    else if MAX_SAME_TOOL_STREAK <? streak then
      ("DENY", ["tool '" +:+ tool +:+ "' called " +:+ dec streak +:+ "x in a row (loop > "
                +:+ dec MAX_SAME_TOOL_STREAK +:+ ")"])
    else if BURST_LIMIT <? burst then
      ("CONFIRM", ["burst " +:+ dec burst +:+ "/" +:+ dec _BURST_TTL +:+ "s exceeds "
                   +:+ dec BURST_LIMIT +:+ " (throttle)"])
    else ("ALLOW", []) in
  {| sd_decision := JStr d; sd_reasons := map JStr rs;
     sd_rest := [("total", JInt total); ("streak", JInt streak); ("burst", JInt burst)] |}.

(** [BudgetEnforcer.check] *)
Definition budget_check (run_id tool_name : string) (now : Z) (c : C) : C * result PyExn SubDecision :=
  let '(c', r) := budget_script run_id tool_name now c in
  (c', let! (total, streak, burst) := r in Ok (budget_decision tool_name total streak burst)).
End budget.

(** ** An implementation of the interface: a table whose expired entries are skipped *)

Record RedisTable := { entries : gmap string (string * option Z) }.

Definition t_live (c : RedisTable) (now : Z) (k : string) : option (string * option Z) :=
  match entries c !! k with
  | Some (v, Some e) => if now <=? e then Some (v, Some e) else None
  | o => o
  end.

Definition t_put (c : RedisTable) (k : string) (v : string * option Z) : RedisTable :=
  {| entries := <[k := v]> (entries c) |}.

Definition t_incr (c : RedisTable) (now : Z) (k : string) : RedisTable * result PyExn Z :=
  match t_live c now k with
  | None => (t_put c k ("1", None), Ok 1)
  | Some (v, e) =>
      match undec v with
      | Some n => if (- 2 ^ 63 <=? n) && (n <? 2 ^ 63 - 1)
                  then (t_put c k (dec (n + 1), e), Ok (n + 1))
                  else (c, Raise {| exn_class := "ResponseError"; exn_text := "increment or decrement would overflow" |})
      | None => (c, Raise {| exn_class := "ResponseError";
                             exn_text := "value is not an integer or out of range" |})
      end
  end.

Definition t_expire (c : RedisTable) (now : Z) (k : string) (s : Z) : RedisTable :=
  match t_live c now k with
  | None => c
  | Some (v, _) => t_put c k (v, Some (now + 1000 * s))
  end.

Lemma t_live_put c now k v e k' :
  (∀ t, e = Some t → now ≤ t) →
  t_live (t_put c k (v, e)) now k' = if decide (k' = k) then Some (v, e) else t_live c now k'.
Proof.
  intros He. unfold t_live, t_put; simpl. destruct (decide (k' = k)) as [->|Hne].
  - rewrite lookup_insert_eq. destruct e as [t|]; [|done].
    by rewrite (proj2 (Z.leb_le _ _) (He t eq_refl)).
  - by rewrite lookup_insert_ne.
Qed.

Lemma t_live_bound c now k v t : t_live c now k = Some (v, Some t) → now ≤ t.
Proof. unfold t_live. destruct (entries c !! k) as [[? [e|]]|]; case_bool; intros; simplify_eq. lia. Qed.

#[export] Program Instance RedisTable_strings : RedisStrings RedisTable := {
  live := t_live;
  r_get c now k := fst <$> t_live c now k;
  r_set c now k v := t_put c k (v, None);
  r_incr := t_incr;
  r_expire := t_expire
}.
Next Obligation.
  intros c now now' k Hle. unfold t_live. destruct (entries c !! k) as [[v [e|]]|]; [|done|done].
  destruct (now <=? e) eqn:E1, (now' <=? e) eqn:E2; rewrite ?E2; try done. lia.
Qed.
Next Obligation. done. Qed.
Next Obligation. intros. by apply t_live_put. Qed.
Next Obligation.
  intros c now k Hn. unfold t_incr. rewrite Hn. split; [done|]. intros k'. by apply t_live_put.
Qed.
Next Obligation.
  intros c now k n e Hl Hn. unfold t_incr. rewrite Hl, undec_dec.
  replace ((- 2 ^ 63 <=? n) && (n <? 2 ^ 63 - 1)) with true by lia.
  split; [done|]. intros k'. apply t_live_put. intros t ->. by eapply t_live_bound.
Qed.
Next Obligation.
  intros c now k s k' Hs. unfold t_expire. destruct (t_live c now k) as [[v e]|] eqn:E; simpl.
  - rewrite t_live_put; [done|]. intros ? [= <-]. lia.
  - destruct (decide (k' = k)) as [->|]; [by rewrite E|done].
Qed.

(** ** The keys of different runs and counters are different *)

Lemma rsplit_inj c a b x y :
  char_in c x = false → char_in c y = false →
  a +:+ String c x = b +:+ String c y → a = b ∧ x = y.
Proof.
  intros Hx Hy. revert b. induction a as [|d a IH]; intros [|e b] Heq; simpl in Heq; simplify_eq.
  - done.
  - rewrite char_in_app, char_in_cons, bool_decide_true, orb_true_r in Hx by done. done.
  - rewrite char_in_app, char_in_cons, bool_decide_true, orb_true_r in Hy by done. done.
  - destruct (IH b) as [-> ->]; done.
Qed.

Lemma key_of_inj r r' s s' :
  char_in ":" s = false → char_in ":" s' = false → key_of r s = key_of r' s' → r = r' ∧ s = s'.
Proof. unfold key_of. simpl. intros Hs Hs' Heq. injection Heq as Heq. by apply (rsplit_inj ":"). Qed.

Lemma key_of_ne r r' s s' :
  char_in ":" s = false → char_in ":" s' = false → (r ≠ r' ∨ s ≠ s') → key_of r s ≠ key_of r' s'.
Proof. intros Hs Hs' Hne Heq. apply key_of_inj in Heq as [? ?]; [|done..]. naive_solver. Qed.

(** ** Specification: counting in the history of the run

    A history lists the calls of the run, newest first.  The session at time [now] is what the calls
    not separated by more than an hour make up; bursts are counted in windows of ten seconds that
    start at the first call after the previous window. *)

Notation call := (Z * string)%type (only parsing).

Fixpoint session (now : Z) (h : list call) : list call :=
  match h with
  | [] => []
  | (t, x) :: h' => if now <=? t + 1000 * _TTL then (t, x) :: session t h' else []
  end.

Fixpoint same_tool (tool : string) (h : list call) : nat :=
  match h with
  | (_, x) :: h' => if decide (x = tool) then S (same_tool tool h') else 0%nat
  | [] => 0%nat
  end.

(** Start and size of the burst window of the newest call. *)
Fixpoint window (h : list call) : option (Z * nat) :=
  match h with
  | [] => None
  | (t, _) :: h' => match window h' with
                    | Some (s, n) => if t <=? s + 1000 * _BURST_TTL then Some (s, S n) else Some (t, 1%nat)
                    | None => Some (t, 1%nat)
                    end
  end.

Definition window_size (h : list call) : nat := default 0%nat (snd <$> window h).

Definition budget_spec (h : list call) (now : Z) (tool : string) : SubDecision :=
  budget_decision tool (Z.of_nat (S (length (session now h))))
    (Z.of_nat (S (same_tool tool (session now h))))
    (Z.of_nat (window_size ((now, tool) :: h))).

Lemma session_length now h : (length (session now h) ≤ length h)%nat.
Proof.
  revert now. induction h as [|[t x] h IH]; intros now; simpl; [lia|].
  case_match; simpl; [specialize (IH t)|]; lia.
Qed.

Lemma same_tool_length tool h : (same_tool tool h ≤ length h)%nat.
Proof. induction h as [|[t x] h IH]; simpl; [lia|]. case_decide; lia. Qed.

Lemma window_bound h s n : window h = Some (s, n) → (1 ≤ n ≤ length h)%nat.
Proof.
  revert s n. induction h as [|[t x] h IH]; intros s n; simpl; [done|].
  destruct (window h) as [[s0 n0]|]; [case_match|]; intros; simplify_eq; [|lia..].
  specialize (IH _ _ eq_refl). lia.
Qed.

(** ** Refinement *)

Section refinement.
Context {C : Type} `{RedisStrings C}.

(** What the four keys of a run hold when its history is [h]. *)
Definition until {A} (now e : Z) (v : A) : option (A * option Z) :=
  if now <=? e then Some (v, Some e) else None.

Definition total_entry (now : Z) (h : list call) : option (string * option Z) :=
  match h with
  | [] => None
  | (t, x) :: h' => until now (t + 1000 * _TTL) (dec (Z.of_nat (S (length (session t h')))))
  end.

Definition last_entry (now : Z) (h : list call) : option (string * option Z) :=
  match h with
  | [] => None
  | (t, x) :: _ => until now (t + 1000 * _TTL) x
  end.

Definition streak_entry (now : Z) (h : list call) : option (string * option Z) :=
  match h with
  | [] => None
  | (t, x) :: h' => until now (t + 1000 * _TTL) (dec (Z.of_nat (S (same_tool x (session t h')))))
  end.

Definition burst_entry (now : Z) (h : list call) : option (string * option Z) :=
  match window h with
  | None => None
  | Some (s, n) => until now (s + 1000 * _BURST_TTL) (dec (Z.of_nat n))
  end.

Record represents (c : C) (now : Z) (r : string) (h : list call) : Prop := {
  rep_total : live c now (k_total r) = total_entry now h;
  rep_last : live c now (k_last r) = last_entry now h;
  rep_streak : live c now (k_streak r) = streak_entry now h;
  rep_burst : live c now (k_burst r) = burst_entry now h
}.

Lemma until_later {A} now now' e (v : A) :
  now ≤ now' →
  match until now e v with
  | Some (v, Some e) => if now' <=? e then Some (v, Some e) else None
  | o => o
  end = until now' e v.
Proof.
  unfold until. intros Hle. destruct (now <=? e) eqn:E1, (now' <=? e) eqn:E2; rewrite ?E2; try done. lia.
Qed.

Lemma until_now {A} now s (v : A) : 0 < s → until now (now + 1000 * s) v = Some (v, Some (now + 1000 * s)).
Proof. intros Hs. unfold until. by rewrite (proj2 (Z.leb_le _ _)) by lia. Qed.

Lemma represents_later c now now' r h :
  now ≤ now' → represents c now r h → represents c now' r h.
Proof.
  intros Hle [Ht Hl Hs Hb].
  split; rewrite (live_later c now now') by done; rewrite ?Ht, ?Hl, ?Hs, ?Hb;
    unfold total_entry, last_entry, streak_entry, burst_entry;
    repeat case_match; try done; simplify_eq; try (by apply until_later);
    match goal with H : until now ?e ?v = _ |- _ => rewrite <-(until_later now now' e v Hle), H end;
    try case_match; done || congruence.
Qed.

Lemma r_incr_count c now k n e :
  live c now k = (if decide (n = 0%nat) then None else Some (dec (Z.of_nat n), e)) →
  Z.of_nat n < 2 ^ 63 - 1 →
  ∃ c1, r_incr c now k = (c1, Ok (Z.of_nat (S n))) ∧
    ∀ k', live c1 now k' = if decide (k' = k)
                           then Some (dec (Z.of_nat (S n)), if decide (n = 0%nat) then None else e)
                           else live c now k'.
Proof.
  intros Hl Hn. exists (r_incr c now k).1. destruct (r_incr c now k) as [c1 o] eqn:E; simpl.
  replace (Z.of_nat (S n)) with (Z.of_nat n + 1) by lia. case_decide as Hz.
  - destruct (r_incr_missing c now k Hl) as [Ho Hc]. rewrite E in Ho, Hc. simpl in *. subst n.
    split; [by rewrite Ho|done].
  - destruct (r_incr_spec c now k _ e Hl) as [Ho Hc]; [lia|]. rewrite E in Ho, Hc. simpl in *.
    split; [by rewrite Ho|done].
Qed.

Lemma total_entry_count now h :
  ∃ e, total_entry now h =
    if decide (length (session now h) = 0%nat) then None
    else Some (dec (Z.of_nat (length (session now h))), e).
Proof.
  destruct h as [|[t x] h]; simpl; [by exists None|]. unfold until.
  exists (Some (t + 1000 * _TTL)). by case_match.
Qed.

Lemma burst_entry_count now tool h :
  ∃ n s, burst_entry now h = (if decide (n = 0%nat) then None
                              else Some (dec (Z.of_nat n), Some (s + 1000 * _BURST_TTL))) ∧
    (n ≤ length h)%nat ∧
    window ((now, tool) :: h) = Some (if decide (n = 0%nat) then now else s, S n) ∧
    (n ≠ 0%nat → now ≤ s + 1000 * _BURST_TTL).
Proof.
  unfold burst_entry, until. simpl. destruct (window h) as [[s n]|] eqn:E.
  - pose proof (window_bound _ _ _ E). destruct (now <=? s + 1000 * _BURST_TTL) eqn:Hw.
    + exists n, s. rewrite !decide_False by lia. split_and!; done || lia.
    + exists 0%nat, s. split_and!; done || lia.
  - exists 0%nat, now. split_and!; done || lia.
Qed.

(** The second counter: the streak. *)
Lemma streak_entry_count now tool h :
  (fst <$> last_entry now h) = Some tool →
  ∃ n e, streak_entry now h = Some (dec (Z.of_nat (S n)), e) ∧
    same_tool tool (session now h) = S n.
Proof.
  unfold last_entry, streak_entry, until. destruct h as [|[t x] h]; simpl; [done|].
  case_match; simpl; [|done]. intros [= ->]. rewrite decide_True by done. eauto.
Qed.

Lemma streak_entry_reset now tool h :
  (fst <$> last_entry now h) ≠ Some tool → same_tool tool (session now h) = 0%nat.
Proof.
  unfold last_entry, until. destruct h as [|[t x] h]; simpl; [done|].
  case_match; simpl; [|done]. intros Hne. rewrite decide_False by congruence. done.
Qed.

Definition run_keys (r : string) : list string := [k_total r; k_last r; k_streak r; k_burst r].

Lemma run_keys_NoDup r : NoDup (run_keys r).
Proof.
  unfold run_keys, k_total, k_last, k_streak, k_burst.
  repeat (apply NoDup_cons; split; [|]); try apply NoDup_nil; try done;
    rewrite ?elem_of_cons, elem_of_nil; intros Hin; repeat destruct Hin as [Hin|Hin]; try done;
    apply key_of_inj in Hin as [_ ?]; done.
Qed.

Lemma run_keys_disjoint r r' k : r ≠ r' → k ∈ run_keys r → k ∈ run_keys r' → False.
Proof.
  unfold run_keys, k_total, k_last, k_streak, k_burst. intros Hne.
  rewrite !elem_of_cons, !elem_of_nil. intros Hin Hin'.
  repeat destruct Hin as [->|Hin]; repeat destruct Hin' as [Heq|Hin']; try done;
    apply key_of_inj in Heq as [? ?]; done.
Qed.

Ltac key_cases :=
  repeat match goal with
  | |- context [decide (?x = ?x)] => rewrite (decide_True (P := x = x)) by done
  | H : ?x ≠ ?y |- context [decide (?x = ?y)] => rewrite (decide_False (P := x = y)) by done
  | H : ?x ≠ ?y |- context [decide (?y = ?x)] => rewrite (decide_False (P := y = x)) by congruence
  end.

(** The total is one more, and expires an hour from now. *)
Lemma total_step c now k h :
  live c now k = total_entry now h → Z.of_nat (S (length h)) < 2 ^ 63 - 1 →
  ∃ c1, r_incr c now k = (c1, Ok (Z.of_nat (S (length (session now h))))) ∧
    ∀ k', live (r_expire c1 now k _TTL) now k' =
      if decide (k' = k) then Some (dec (Z.of_nat (S (length (session now h)))), Some (now + 1000 * _TTL))
      else live c now k'.
Proof.
  intros Hl Hlen. pose proof (session_length now h).
  destruct (total_entry_count now h) as (e & He). rewrite He in Hl.
  destruct (r_incr_count c now k (length (session now h)) e Hl) as (c1 & Hc1 & Hk); [lia|].
  exists c1. split; [done|]. intros k'. rewrite r_expire_spec, !Hk by done. destruct (decide (k' = k)) as [->|]; by key_cases.
Qed.

(** The last tool and the streak of its calls, which expire together. *)
Lemma streak_step c now kl ks h tool :
  kl ≠ ks → live c now kl = last_entry now h → live c now ks = streak_entry now h →
  Z.of_nat (S (length h)) < 2 ^ 63 - 1 →
  ∃ c1, (if decide (r_get c now kl = Some tool) then r_incr c now ks
         else (r_set (r_set c now kl tool) now ks "1", Ok 1)) =
      (c1, Ok (Z.of_nat (S (same_tool tool (session now h))))) ∧
    ∀ k, live (r_expire (r_expire c1 now kl _TTL) now ks _TTL) now k =
      if decide (k = kl) then Some (tool, Some (now + 1000 * _TTL))
      else if decide (k = ks)
      then Some (dec (Z.of_nat (S (same_tool tool (session now h)))), Some (now + 1000 * _TTL))
      else live c now k.
Proof.
  intros Hne Hl Hs Hlen. pose proof (same_tool_length tool (session now h)).
  pose proof (session_length now h). rewrite r_get_spec, Hl. case_decide as Hd.
  - destruct (streak_entry_count now tool h Hd) as (n & e & Hn & Hst). rewrite Hn in Hs.
    destruct (r_incr_count c now ks (S n) e Hs) as (c1 & Hc1 & Hk); [lia|].
    exists c1. rewrite Hst. split; [done|]. intros k. rewrite !r_expire_spec, !Hk by done.
    destruct (last_entry now h) as [[? ?]|]; [|done]. simpl in Hd. simplify_eq.
    destruct (decide (k = kl)), (decide (k = ks)); subst; key_cases; rewrite ?Hl; done.
  - rewrite (streak_entry_reset now tool h Hd). eexists. split; [done|].
    intros k. rewrite !r_expire_spec, !r_set_spec by done.
    destruct (decide (k = kl)), (decide (k = ks)); subst; key_cases; done.
Qed.

(** The burst counter, whose window starts when the counter does. *)
Lemma burst_step c now k h tool :
  live c now k = burst_entry now h → Z.of_nat (S (length h)) < 2 ^ 63 - 1 →
  ∃ c1, r_incr c now k = (c1, Ok (Z.of_nat (window_size ((now, tool) :: h)))) ∧
    ∀ k', live (if Z.of_nat (window_size ((now, tool) :: h)) =? 1
                then r_expire c1 now k _BURST_TTL else c1) now k' =
      if decide (k' = k) then burst_entry now ((now, tool) :: h) else live c now k'.
Proof.
  intros Hl Hlen. destruct (burst_entry_count now tool h) as (n & s & Hbe & Hn & Hw & Hws).
  rewrite Hbe in Hl. destruct (r_incr_count c now k n _ Hl) as (c1 & Hc1 & Hk); [lia|].
  exists c1. unfold window_size, burst_entry. rewrite Hw. simpl fmap. split; [done|]. intros k'.
  unfold until. destruct (decide (n = 0%nat)) as [->|Hz]; cbn [default snd fmap option_fmap option_map].
  - rewrite Z.eqb_refl, r_expire_spec, !Hk by done.
    rewrite (proj2 (Z.leb_le _ _)) by (unfold _BURST_TTL; lia). destruct (decide (k' = k)) as [->|]; by key_cases.
  - rewrite (proj2 (Z.eqb_neq _ _)), Hk by (simpl; lia).
    rewrite (proj2 (Z.leb_le _ _)) by auto. done.
Qed.

(** The script adds one call to the history of its run and leaves every other key alone. *)
Lemma budget_script_step c now r h tool :
  represents c now r h → Z.of_nat (S (length h)) < 2 ^ 63 - 1 →
  ∃ c', budget_script r tool now c =
      (c', Ok (Z.of_nat (S (length (session now h))), Z.of_nat (S (same_tool tool (session now h))),
               Z.of_nat (window_size ((now, tool) :: h)))) ∧
    represents c' now r ((now, tool) :: h) ∧
    ∀ k, k ∉ run_keys r → live c' now k = live c now k.
Proof.
  intros [Ht Hl Hs Hb] Hlen. unfold budget_script.
  pose proof (run_keys_NoDup r) as Hnd. unfold run_keys in Hnd |- *.
  rewrite !NoDup_cons, !not_elem_of_cons in Hnd.
  destruct Hnd as ((Htl & Hts & Htb & _) & (Hls & Hlb & _) & (Hsb & _) & _).
  destruct (total_step c now (k_total r) h Ht Hlen) as (c1 & -> & H2).
  set (c2 := r_expire c1 now (k_total r) _TTL) in *.
  destruct (streak_step c2 now (k_last r) (k_streak r) h tool) as (c3 & -> & H4);
    [done|by rewrite H2; key_cases|by rewrite H2; key_cases|done|].
  set (c4 := r_expire (r_expire c3 now (k_last r) _TTL) now (k_streak r) _TTL) in *.
  destruct (burst_step c4 now (k_burst r) h tool) as (c5 & -> & H6);
    [rewrite H4; key_cases; by rewrite H2; key_cases|done|].
  eexists. split; [done|]. split; [split|].
  - rewrite H6. key_cases. rewrite H4. key_cases. rewrite H2. key_cases. symmetry. by apply until_now.
  - rewrite H6. key_cases. rewrite H4. key_cases. symmetry. by apply until_now.
  - rewrite H6. key_cases. rewrite H4. key_cases. symmetry. by apply until_now.
  - rewrite H6. by key_cases.
  - intros k Hk. rewrite !not_elem_of_cons in Hk. destruct Hk as (? & ? & ? & ? & _).
    rewrite H6. key_cases. rewrite H4. key_cases. rewrite H2. by key_cases.
Qed.

(** A sequence of checks, of whatever runs: time, run and tool of each. *)
Fixpoint run_checks (calls : list (Z * string * string)) (c : C) : list (result PyExn SubDecision) :=
  match calls with
  | [] => []
  | (now, r, tool) :: calls' =>
      let '(c', o) := budget_check r tool now c in o :: run_checks calls' c'
  end.

(** The calls of one run in what happened before, newest first. *)
Definition history (past : list (Z * string * string)) (r : string) : list call :=
  omap (λ '(t, r', x), if decide (r' = r) then Some (t, x) else None) past.

Fixpoint spec_checks (past calls : list (Z * string * string)) : list SubDecision :=
  match calls with
  | [] => []
  | (now, r, tool) :: calls' =>
      budget_spec (history past r) now tool :: spec_checks ((now, r, tool) :: past) calls'
  end.

Lemma history_length past r : (length (history past r) ≤ length past)%nat.
Proof. induction past as [|[[t r'] x] past IH]; simpl; [lia|]. case_decide; simpl; lia. Qed.

Lemma represents_frame c c' now r h :
  (∀ k, k ∈ run_keys r → live c' now k = live c now k) → represents c now r h → represents c' now r h.
Proof.
  intros Hk [Ht Hl Hs Hb]. unfold run_keys in Hk.
  split; rewrite Hk by set_solver; done.
Qed.

Lemma run_checks_refine calls past c now :
  (∀ r, represents c now r (history past r)) →
  (∀ t, t ∈ calls.*1.*1 → now ≤ t) → StronglySorted Z.le (calls.*1.*1) →
  Z.of_nat (length past + length calls) < 2 ^ 63 - 1 →
  run_checks calls c = Ok <$> spec_checks past calls.
Proof.
  revert past c now. induction calls as [|[[t r] x] calls IH]; intros past c now Hr Hle Hs Hlen; [done|].
  simpl in Hs. apply StronglySorted_inv in Hs as [Hs Hall]. rewrite Forall_forall in Hall.
  simpl in Hlen. pose proof (history_length past r).
  assert (now ≤ t) as Ht by (apply Hle; left).
  destruct (budget_script_step c t r (history past r) x) as (c' & Hc & Hrep & Hframe).
  { by apply (represents_later c now). }
  { lia. }
  cbn [run_checks spec_checks fmap list_fmap]. unfold budget_check, budget_spec. rewrite Hc. simpl.
  f_equal. apply (IH _ c' t); [| |done|simpl; lia].
  - intros r'. simpl. case_decide as Hd; [by subst|].
    apply (represents_frame c); [|by apply (represents_later c now)].
    intros k Hk. apply Hframe. intros Hk'. by apply (run_keys_disjoint r r' k).
  - intros t' Ht'. by apply Hall.
Qed.

(** From a Redis without budget keys, whatever checks of whatever runs are made in whatever order
    (their times not decreasing), every check answers, and answers what counting the calls of its own
    run gives: more than 200 calls in the session, more than 50 calls of the tool in a row, more than
    20 calls in the window.  Runs do not share counters, also when a run id contains a colon. *)
Theorem budget_check_refines (calls : list (Z * string * string)) (c : C) (now : Z) :
  (∀ r k, k ∈ run_keys r → live c now k = None) →
  (∀ t, t ∈ calls.*1.*1 → now ≤ t) → StronglySorted Z.le (calls.*1.*1) →
  Z.of_nat (length calls) < 2 ^ 63 - 1 →
  run_checks calls c = Ok <$> spec_checks [] calls.
Proof.
  intros Hempty Hle Hs Hlen. apply (run_checks_refine _ [] c now); try done.
  intros r. split; apply (Hempty r); unfold run_keys; set_solver.
Qed.
End refinement.

Definition no_keys : RedisTable := {| entries := ∅ |}.

Lemma budget_check_refines_witness :
  let calls := (λ i, (1000 * Z.of_nat i, "r1", "search")) <$> seq 0 60 in
  run_checks calls no_keys = Ok <$> spec_checks [] calls ∧
  sd_decision <$> (spec_checks [] calls !! 49%nat) = Some (JStr "ALLOW") ∧
  sd_decision <$> (spec_checks [] calls !! 50%nat) = Some (JStr "DENY").
Proof.
  split; [|by vm_compute].
  apply (budget_check_refines _ no_keys 0); [done| | |by vm_compute].
  - intros t Ht. repeat (apply elem_of_cons in Ht as [->|Ht]; [by vm_compute|]).
    by apply elem_of_nil in Ht.
  - repeat constructor; by vm_compute.
Defined.
