(* ===== verification/Gate.v ===== *)
(** * The inline gate

    Models [auditor/inline_gate/decide.py] (the combiner), [policy_engine.py] (the policy client and
    its decision cache) and [pii_scanner.py] (the decision over the entities found).  The policy server
    and the entity analyser are parameters; the tool budget is the one of [Budget]. *)

From Stdlib Require Import ZArith Lia Ascii SpecFloat.
From Stdlib Require String.
From stdpp Require Import base tactics option list strings gmap sorting.
From S2P Require Import Prelude PyStr Float64 Json Budget.

Local Open Scope Z_scope.

Definition raise {A} (cls text : string) : result PyExn A :=
  Raise {| exn_class := cls; exn_text := text |}.

Definition json_type (v : json) : string :=
  match v with
  | JNull => "NoneType" | JBool _ => "bool" | JInt _ => "int" | JFloat _ => "float"
  | JStr _ => "str" | JArr _ => "list" | JObj _ => "dict"
  end.

(** [v.attr], for a method of dicts. *)
Definition as_dict (attr : string) (v : json) : result PyExn (list (string * json)) :=
  match v with
  | JObj m => Ok m
  | _ => raise "AttributeError" ("'" +:+ json_type v +:+ "' object has no attribute '" +:+ attr +:+ "'")
  end.

(** [d.get(k)] *)
Definition jget (k : string) (d : list (string * json)) : json := default JNull (dget k d).

(** [a or b], the second operand evaluated when needed. *)
Definition py_or (a : json) (b : () → result PyExn json) : result PyExn json :=
  if py_truthy a then Ok a else b ().

(** ** The PII scanner *)

Definition CRITICAL_ENTITIES : list string :=
  ["PRIVATE_KEY"; "AWS_ACCESS_KEY_ID"; "AWS_SECRET_ACCESS_KEY"; "GENERIC_API_KEY"].
Definition HIGH_ENTITIES : list string := ["US_SSN"; "CREDIT_CARD"; "US_PASSPORT"].

Definition str_list_repr (l : list string) : string := py_repr (JArr (map JStr l)).

Section pii.
(** [analyze text]: the entity types the analyser reports. *)
Context (analyze : string → result PyExn (list string)).

Definition scan (text : string) : result PyExn (list string) :=
  if String.eqb text "" then Ok [] else analyze text.

Definition evaluate_outbound (text : string) (allowlisted_dest : bool) : result PyExn SubDecision :=
  let! found := scan text in
  let types := sorted_set found in
  let critical := sorted_set (bfilter (λ x, bool_decide (x ∈ CRITICAL_ENTITIES)) types) in
  let high := sorted_set (bfilter (λ x, bool_decide (x ∈ HIGH_ENTITIES)) types) in
  let '(d, rs) :=
    if negb (bool_decide (critical = [])) then
      ("DENY", ["secret in outbound payload: " +:+ str_list_repr critical])
    else if negb (bool_decide (high = [])) then
      if allowlisted_dest then ("CONFIRM", ["PII to allowlisted destination: " +:+ str_list_repr high])
      else ("DENY", ["PII to non-allowlisted destination: " +:+ str_list_repr high])
    else ("ALLOW", []) in
  Ok {| sd_decision := JStr d; sd_reasons := map JStr rs;
        sd_rest := [("entities", JArr (map JStr types))] |}.
End pii.

(** ** The policy client *)

Definition _CACHE_MAX : nat := 10000.

Record OpaClient := {
  cache_ttl : f64;
  cache : list (string * (SubDecision * f64))
}.

Definition cache_key (event_input : json) : string := dumps spaced (sort_keys event_input).

(** [list(v)] *)
Definition py_list (v : json) : result PyExn (list json) :=
  match v with
  | JArr l => Ok l
  | JObj m => Ok (map JStr (dkeys m))
  | JStr s => Ok (map (λ c, JStr (String c EmptyString)) (String.list_ascii_of_string s))
  | _ => raise "TypeError" ("'" +:+ json_type v +:+ "' object is not iterable")
  end.

(** The decision read from the body of the server's response. *)
Definition opa_decision (body : json) : result PyExn SubDecision :=
  let! m := as_dict "get" body in
  let r := jget "result" m in
  if py_truthy r then
    let! d := as_dict "get" r in
    let! reasons := py_list (default (JArr []) (dget "reasons" d)) in
    Ok {| sd_decision := default (JStr "ALLOW") (dget "decision" d); sd_reasons := reasons; sd_rest := [] |}
  else Ok {| sd_decision := JStr "ALLOW"; sd_reasons := []; sd_rest := [] |}.

(** The two critical sections of [evaluate]: before the request is sent and after the response. *)
Definition cache_lookup (event_input : json) (now : f64) (st : OpaClient) : option SubDecision :=
  match dget (cache_key event_input) (cache st) with
  | Some (d, expires) => if fltb now expires then Some d else None
  | None => None
  end.

Definition cache_store (event_input : json) (now : f64) (d : SubDecision) (st : OpaClient) : OpaClient :=
  let c := if (_CACHE_MAX <=? length (cache st))%nat then [] else cache st in
  {| cache_ttl := cache_ttl st;
     cache := dset (cache_key event_input) (d, fadd now (cache_ttl st)) c |}.

(** [load_policy], after the server accepted the text. *)
Definition policy_loaded (st : OpaClient) : OpaClient := {| cache_ttl := cache_ttl st; cache := [] |}.

Section opa.
(** [post input]: the body of the response, or the transport, status or decoding error. *)
Context (post : json → result PyExn json).

(** [OpaClient.evaluate], run without interruption. *)
Definition evaluate (event_input : json) (now : f64) (st : OpaClient) : OpaClient * result PyExn SubDecision :=
  match cache_lookup event_input now st with
  | Some d => (st, Ok d)
  | None =>
      match (let! body := post event_input in opa_decision body) with
      | Ok d => (cache_store event_input now d st, Ok d)
      | Raise e => (st, Raise e)
      end
  end.
End opa.

(** ** The combiner *)

Definition _SEVERITY : list (string * Z) := [("ALLOW", 0); ("CONFIRM", 1); ("DENY", 2)].
Definition _OUTBOUND_TOOLS : list string := ["send_email"; "http_post"].

Record GateOutcome := {
  g_decision : string;
  g_reasons : list json;
  g_votes : list (string * json)
}.

(** [opa_input] *)
Definition opa_input (event : list (string * json)) : result PyExn json :=
  let! args := py_or (jget "tool_args" event) (λ _, Ok (JObj [])) in
  let args_get k := let! a := as_dict "get" args in Ok (jget k a) in
  let! path := py_or (jget "path" event) (λ _, args_get "path") in
  let! dest := py_or (jget "dest" event) (λ _, let! u := args_get "url" in
                                               py_or u (λ _, args_get "host")) in
  Ok (JObj (bfilter (λ kv, negb (bool_decide (kv.2 = JNull)))
       [("event_type", jget "event_type" event); ("tool_name", jget "tool_name" event);
        ("tool_args", args); ("declared_purpose", jget "declared_purpose" event);
        ("path", path); ("dest", dest)])).

(** [_SEVERITY[d]] *)
Definition severity_of (d : json) : result PyExn (string * Z) :=
  match d with
  | JStr s => match dget s _SEVERITY with
              | Some n => Ok (s, n)
              | None => raise "KeyError" (py_repr d)
              end
  | JArr _ | JObj _ => raise "TypeError" ("unhashable type: '" +:+ json_type d +:+ "'")
  | _ => raise "KeyError" (py_repr d)
  end.

Fixpoint severities (sub : list SubDecision) : result PyExn (list (string * Z)) :=
  match sub with
  | [] => Ok []
  | s :: sub' => let! x := severity_of (sd_decision s) in
                 let! xs := severities sub' in Ok (x :: xs)
  end.

(** [max((d for d, _ in sub), key=.., default="ALLOW")] *)
Definition final_decision (sub : list SubDecision) : result PyExn string :=
  let! ds := severities sub in
  match ds with
  | [] => Ok "ALLOW"
  | x :: xs => Ok (max_by snd x xs).1
  end.

(** The outcome of the sub-checks that ran, in their order. *)
Definition combine (subs : list (string * SubDecision)) : result PyExn GateOutcome :=
  let! d := final_decision (subs.*2) in
  Ok {| g_decision := d; g_reasons := concat (map sd_reasons (subs.*2));
        g_votes := map (λ '(n, s), (n, vote s)) subs |}.

(** What the client encodes as a script argument. *)
Definition redis_arg (v : json) : result PyExn string :=
  match v with
  | JStr s => Ok s
  | JInt z => Ok (dec z)
  | JFloat lex => Ok (py_float_text lex)
  | _ => raise "DataError" ("Invalid input of type: '" +:+ json_type v
           +:+ "'. Convert to a bytes, string, int or float first.")
  end.

(** [tool_name in _OUTBOUND_TOOLS] *)
Definition is_outbound (tool_name : json) : result PyExn bool :=
  match tool_name with
  | JStr s => Ok (bool_decide (s ∈ _OUTBOUND_TOOLS))
  | JArr _ | JObj _ => raise "TypeError" ("unhashable type: '" +:+ json_type tool_name +:+ "'")
  | _ => Ok false
  end.

Section decide.
Context {O C : Type} (opa_evaluate : json → O → O * result PyExn SubDecision)
        (check : string → string → C → C * result PyExn SubDecision)
        (pii : string → result PyExn SubDecision).

(** The policy check; anything it raises denies. *)
Definition opa_check (event : list (string * json)) (o : O) : O * SubDecision :=
  let '(o', r) := match opa_input event with
                  | Ok i => opa_evaluate i o
                  | Raise e => (o, Raise e)
                  end in
  (o', match r with
       | Ok d => d
       | Raise e => {| sd_decision := JStr "DENY";
                       sd_reasons := [JStr ("policy engine unavailable: " +:+ exn_text e)];
                       sd_rest := [] |}
       end).

Definition starts_tool (event : list (string * json)) : bool :=
  bool_decide (jget "event_type" event = JStr "tool_call.start").

(** The budget check, for a call of a named tool. *)
Definition budget_vote (run_id : string) (event : list (string * json)) (c : C)
    : C * result PyExn (list (string * SubDecision)) :=
  if starts_tool event && py_truthy (jget "tool_name" event) then
    match redis_arg (jget "tool_name" event) with
    | Ok tool => let '(c', r) := check run_id tool c in (c', let! d := r in Ok [("budget", d)])
    | Raise e => (c, Raise e)
    end
  else (c, Ok []).

(** The scan, for an outbound tool. *)
Definition pii_vote (event : list (string * json)) : result PyExn (list (string * SubDecision)) :=
  if starts_tool event then
    let! out := is_outbound (jget "tool_name" event) in
    if out then
      let! args := py_or (jget "tool_args" event) (λ _, Ok (JObj [])) in
      let! m := as_dict "values" args in
      let! d := pii (join " " (map py_str (dvalues m))) in
      Ok [("pii", d)]
    else Ok []
  else Ok [].

Definition gate_decide (event : list (string * json)) (run_id : string) (o : O) (c : C)
    : O * C * result PyExn GateOutcome :=
  let '(o', opa_out) := opa_check event o in
  let '(c', budget_out) := budget_vote run_id event c in
  (o', c', let! b := budget_out in
           let! p := pii_vote event in
           combine (("opa", opa_out) :: b ++ p)).
End decide.

(** ** The combiner takes the most severe vote *)

Definition known_decision (d : json) : bool :=
  match d with JStr s => bool_decide (s ∈ dkeys _SEVERITY) | _ => false end.

Lemma severity_of_ok d s n : severity_of d = Ok (s, n) → d = JStr s ∧ dget s _SEVERITY = Some n.
Proof.
  unfold severity_of. destruct d; try done. destruct (dget s0 _SEVERITY) eqn:E; [|done].
  by intros [= -> ->].
Qed.

Lemma severities_ok sub ds :
  severities sub = Ok ds → map sd_decision sub = map (λ x, JStr x.1) ds ∧
    Forall (λ x, dget x.1 _SEVERITY = Some x.2) ds.
Proof.
  revert ds. induction sub as [|s sub IH]; intros ds; simpl; [by intros [= <-]|].
  intros Hs. inv_bind. destruct x as [x n]. simplify_eq/=.
  apply severity_of_ok in H as [-> Hn]. destruct (IH _ H0) as [-> Hds]. by split; [|constructor].
Qed.

Lemma severities_total sub :
  Forall (λ s, known_decision (sd_decision s) = true) sub → ∃ ds, severities sub = Ok ds.
Proof.
  induction 1 as [|s sub Hs _ [ds Hds]]; [by exists []|]. unfold known_decision in Hs.
  destruct (sd_decision s) as [| | | |d| |] eqn:Ed; try done. apply bool_decide_eq_true in Hs.
  apply elem_of_dkeys in Hs as [n Hn]. simpl. rewrite Ed. unfold severity_of. rewrite Hn, Hds. eauto.
Qed.

Lemma severity_cases s n :
  dget s _SEVERITY = Some n →
  (s = "ALLOW" ∧ n = 0) ∨ (s = "CONFIRM" ∧ n = 1) ∨ (s = "DENY" ∧ n = 2).
Proof. simpl. repeat (case_decide; [intros [= <-]; auto|]). done. Qed.

Lemma final_decision_spec sub d :
  sub ≠ [] → final_decision sub = Ok d →
  (d = "DENY" ↔ ∃ s, s ∈ sub ∧ sd_decision s = JStr "DENY") ∧
  (d = "ALLOW" ↔ ∀ s, s ∈ sub → sd_decision s = JStr "ALLOW").
Proof.
  intros Hne Hf. unfold final_decision in Hf. inv_bind.
  destruct (severities_ok _ _ H) as [Hm Hall]. destruct x as [|x xs]; [by destruct sub|].
  injection H0 as <-. destruct (max_by_spec snd x xs) as [Hin Hmax].
  set (m := max_by snd x xs) in *. rewrite Forall_forall in Hall.
  assert (∀ y, y ∈ x :: xs → ∃ s, s ∈ sub ∧ sd_decision s = JStr y.1) as Hto.
  { intros y Hy. assert (JStr y.1 ∈ map sd_decision sub) as Hs.
    { rewrite Hm. by apply (list_elem_of_fmap_2 (λ x : string * Z, JStr x.1)). }
    apply list_elem_of_fmap in Hs as (s & Hs & Hin'). eauto. }
  assert (∀ s, s ∈ sub → ∃ y, y ∈ x :: xs ∧ sd_decision s = JStr y.1) as Hfrom.
  { intros s Hs. apply (list_elem_of_fmap_2 sd_decision) in Hs.
    change (sd_decision <$> sub) with (map sd_decision sub) in Hs.
    rewrite Hm in Hs. apply list_elem_of_fmap in Hs as (y & Hy & Hin'). eauto. }
  pose proof (severity_cases _ _ (Hall _ Hin)) as Hc. split; split.
  - intros Hd. destruct (Hto m Hin) as (s & ? & Hs). rewrite Hd in Hs. eauto.
  - intros (s & Hs & Hd). destruct (Hfrom s Hs) as (y & Hy & Hsy).
    pose proof (severity_cases _ _ (Hall _ Hy)) as Hcy. specialize (Hmax _ Hy).
    rewrite Hd in Hsy. injection Hsy as Hsy. rewrite <-Hsy in Hcy. naive_solver lia.
  - intros Hd s Hs. destruct (Hfrom s Hs) as (y & Hy & ->). specialize (Hmax _ Hy).
    pose proof (severity_cases _ _ (Hall _ Hy)) as Hcy. f_equal. rewrite Hd in Hc. naive_solver lia.
  - intros Ha. destruct (Hto m Hin) as (s & Hs & Hm'). rewrite (Ha s Hs) in Hm'. by injection Hm'.
Qed.

Lemma final_decision_known sub d :
  sub ≠ [] → final_decision sub = Ok d → d ∈ ["ALLOW"; "CONFIRM"; "DENY"].
Proof.
  intros Hne Hf. unfold final_decision in Hf. inv_bind.
  destruct (severities_ok _ _ H) as [Hm Hall]. destruct x as [|x xs]; [by destruct sub|].
  injection H0 as <-. destruct (max_by_spec snd x xs) as [Hin _]. rewrite Forall_forall in Hall.
  destruct (severity_cases _ _ (Hall _ Hin)) as [[-> _]|[[-> _]|[-> _]]]; set_solver.
Qed.

Section gate_props.
Context {O C : Type} (opa_evaluate : json → O → O * result PyExn SubDecision)
        (check : string → string → C → C * result PyExn SubDecision)
        (pii : string → result PyExn SubDecision).

(** The policy engine does not answer: the input cannot be built, or the evaluation raises. *)
Definition policy_fails (event : list (string * json)) (o : O) : bool :=
  match opa_input event with
  | Ok i => negb (is_ok (opa_evaluate i o).2)
  | Raise _ => true
  end.

Lemma policy_fails_denies event o :
  policy_fails event o = true → sd_decision (opa_check opa_evaluate event o).2 = JStr "DENY".
Proof.
  unfold policy_fails, opa_check. destruct (opa_input event) as [i|e]; [|done].
  by destruct (opa_evaluate i o) as [o' [d|e]].
Qed.

(** The policy check's vote is the engine's answer, or a denial. *)
Lemma opa_check_ok event o o' d :
  opa_check opa_evaluate event o = (o', d) →
  (∃ i, opa_input event = Ok i ∧ opa_evaluate i o = (o', Ok d)) ∨
  (policy_fails event o = true ∧ sd_decision d = JStr "DENY").
Proof.
  unfold policy_fails, opa_check. destruct (opa_input event) as [i|e]; [|intros [= _ <-]; by right].
  destruct (opa_evaluate i o) as [o1 [d1|e]] eqn:E; intros [= <- <-]; [left; eauto|by right].
Qed.

(** The outcome is at least as severe as the policy's vote. *)
Lemma gate_follows_opa event run_id o c o' c' g :
  gate_decide opa_evaluate check pii event run_id o c = (o', c', Ok g) →
  (sd_decision (opa_check opa_evaluate event o).2 = JStr "DENY" → g_decision g = "DENY") ∧
  (sd_decision (opa_check opa_evaluate event o).2 ≠ JStr "ALLOW" → g_decision g ≠ "ALLOW").
Proof.
  unfold gate_decide. destruct (opa_check opa_evaluate event o) as [o1 d].
  destruct (budget_vote check run_id event c) as [c1 b]. intros [= -> -> Hg].
  apply result_bind_ok in Hg as (b' & -> & Hg). apply result_bind_ok in Hg as (p & _ & Hg).
  unfold combine in Hg. apply result_bind_ok in Hg as (fd & Hfd & [= <-]). simpl.
  destruct (final_decision_spec (d :: (b' ++ p).*2) fd) as [Hd Ha]; [done..|].
  split; [intros E; apply Hd; exists d; split; [left|done]|].
  intros E Hf. apply E, Ha; [done|left].
Qed.

(** The budget check votes exactly for a call of a named tool, and its vote is what [check] answered. *)
Lemma budget_vote_ok run_id event c c' b :
  budget_vote check run_id event c = (c', Ok b) →
  if bool_decide (jget "event_type" event = JStr "tool_call.start") && py_truthy (jget "tool_name" event)
  then ∃ tool d, redis_arg (jget "tool_name" event) = Ok tool ∧ check run_id tool c = (c', Ok d) ∧
                 b = [("budget", d)]
  else b = [] ∧ c' = c.
Proof.
  unfold budget_vote, starts_tool. destruct (bool_decide _ && _); [|by intros [= <- <-]].
  destruct (redis_arg _) as [tool|e]; [|done]. destruct (check run_id tool c) as [c1 [d|e]] eqn:E; [|done].
  intros [= <- <-]. by exists tool, d.
Qed.

(** The scan votes exactly for a call of an outbound tool, and its vote is what [pii] answered of the
    values of the arguments. *)
Lemma pii_vote_ok event p :
  pii_vote pii event = Ok p →
  if bool_decide (jget "event_type" event = JStr "tool_call.start") &&
     bool_decide (jget "tool_name" event ∈ [JStr "send_email"; JStr "http_post"])
  then ∃ args d, (jget "tool_args" event = JObj args ∨
                  py_truthy (jget "tool_args" event) = false ∧ args = []) ∧
                 pii (join " " (map py_str (dvalues args))) = Ok d ∧ p = [("pii", d)]
  else p = [].
Proof.
  unfold pii_vote, starts_tool. destruct (bool_decide _); [|by intros [= <-]]. intros Hp. inv_bind.
  rename x into out. cbn [andb]. replace (bool_decide _) with out; cycle 1.
  { unfold is_outbound in H. destruct (jget "tool_name" event) eqn:E; simplify_eq; try done.
    apply bool_decide_ext. unfold _OUTBOUND_TOOLS. set_solver. }
  destruct out; [|by simplify_eq]. inv_bind. simplify_eq.
  unfold py_or in *. destruct (py_truthy (jget "tool_args" event)) eqn:Et; simplify_eq/=.
  - destruct (jget "tool_args" event); simplify_eq/=. eauto 10.
  - exists [], x1. eauto.
Qed.

(** C4: when the gate answers, the votes are, in this order: the policy engine's answer, or a denial when
    its input could not be built or it raised (the gate fails closed); for every call of a named tool, what
    the budget check answered for that run and tool; for a call of an outbound tool, what the content scan
    answered of the values of the arguments.  The gate denies exactly when one of these denied, allows
    exactly when each allowed, asks for confirmation otherwise, and gives every reason of every vote. *)
Theorem gate_decision_most_severe event run_id o c o' c' g :
  gate_decide opa_evaluate check pii event run_id o c = (o', c', Ok g) →
  ∃ d b p,
    ((∃ i, opa_input event = Ok i ∧ opa_evaluate i o = (o', Ok d)) ∨
     (policy_fails event o = true ∧ sd_decision d = JStr "DENY")) ∧
    (if bool_decide (jget "event_type" event = JStr "tool_call.start") && py_truthy (jget "tool_name" event)
     then ∃ tool db, redis_arg (jget "tool_name" event) = Ok tool ∧ check run_id tool c = (c', Ok db) ∧
                     b = [("budget", db)]
     else b = [] ∧ c' = c) ∧
    (if bool_decide (jget "event_type" event = JStr "tool_call.start") &&
        bool_decide (jget "tool_name" event ∈ [JStr "send_email"; JStr "http_post"])
     then ∃ args dp, (jget "tool_args" event = JObj args ∨
                      py_truthy (jget "tool_args" event) = false ∧ args = []) ∧
                     pii (join " " (map py_str (dvalues args))) = Ok dp ∧ p = [("pii", dp)]
     else p = []) ∧
    let subs := ("opa", d) :: b ++ p in
    g_votes g = map (λ '(n, s), (n, vote s)) subs ∧ g_reasons g = concat (map sd_reasons subs.*2) ∧
    g_decision g ∈ ["ALLOW"; "CONFIRM"; "DENY"] ∧
    (g_decision g = "DENY" ↔ ∃ s, s ∈ subs.*2 ∧ sd_decision s = JStr "DENY") ∧
    (g_decision g = "ALLOW" ↔ ∀ s, s ∈ subs.*2 → sd_decision s = JStr "ALLOW").
Proof.
  unfold gate_decide. pose proof (opa_check_ok event o) as Ho.
  destruct (opa_check opa_evaluate event o) as [o1 d] eqn:Eo.
  destruct (budget_vote check run_id event c) as [c1 b] eqn:Eb. intros [= -> -> Hg].
  apply result_bind_ok in Hg as (b' & -> & Hg). apply result_bind_ok in Hg as (p & Ep & Hg).
  unfold combine in Hg. apply result_bind_ok in Hg as (fd & Hfd & Hg). injection Hg as <-.
  exists d, b', p. split; [exact (Ho _ _ eq_refl)|]. split; [exact (budget_vote_ok _ _ _ _ _ Eb)|].
  split; [exact (pii_vote_ok _ _ Ep)|]. cbv zeta.
  assert ((("opa", d) :: b' ++ p).*2 ≠ []) as Hne by done.
  destruct (final_decision_spec _ fd Hne Hfd) as [Hd Ha].
  pose proof (final_decision_known _ fd Hne Hfd). by split_and!.
Qed.

(** The gate answers for every event as the bridge builds them (a text or no tool name, an object
    or no arguments), when the budget and the scan answer and the votes are ones it knows: whatever the
    policy engine does, an exception of it included. *)
Theorem gate_answers event run_id o c :
  (∃ s, jget "tool_name" event = JStr s) ∨ jget "tool_name" event = JNull →
  (∃ m, jget "tool_args" event = JObj m) ∨ jget "tool_args" event = JNull →
  (∀ i d, opa_input event = Ok i → (opa_evaluate i o).2 = Ok d → known_decision (sd_decision d) = true) →
  (∀ tool, ∃ d, (check run_id tool c).2 = Ok d ∧ known_decision (sd_decision d) = true) →
  (∀ text, ∃ d, pii text = Ok d ∧ known_decision (sd_decision d) = true) →
  ∃ g, (gate_decide opa_evaluate check pii event run_id o c).2 = Ok g.
Proof.
  intros Hn Hargs Hopa Hb Hp. unfold gate_decide.
  assert (known_decision (sd_decision (opa_check opa_evaluate event o).2) = true) as Hk.
  { unfold opa_check. destruct (opa_input event) as [i|e] eqn:Ei; [|done].
    destruct (opa_evaluate i o) as [o1 [d|e]] eqn:E; [|done]. apply (Hopa i d); [done|by rewrite E]. }
  destruct (opa_check opa_evaluate event o) as [o1 d]. simpl in Hk.
  assert (∃ b, (budget_vote check run_id event c).2 = Ok b ∧
               Forall (λ s, known_decision (sd_decision s.2) = true) b) as (b & Eb & Hkb).
  { unfold budget_vote. destruct (starts_tool event && _) eqn:Et; [|by exists []].
    destruct Hn as [[s Hs]|Hs]; rewrite Hs in *; [|by rewrite andb_false_r in Et].
    simpl. destruct (Hb s) as (db & Hdb & Hkd). destruct (check run_id s c) as [c1 r].
    simpl in Hdb |- *. subst r. exists [("budget", db)]. by repeat constructor. }
  assert (∃ p, pii_vote pii event = Ok p ∧
               Forall (λ s, known_decision (sd_decision s.2) = true) p) as (p & Ep & Hkp).
  { unfold pii_vote. destruct (starts_tool event); [|by exists []].
    destruct Hn as [[s Hs]|Hs]; rewrite Hs; simpl; [|by exists []].
    case_bool_decide; [|by exists []].
    destruct Hargs as [[m Hm]|Hm]; rewrite Hm; unfold py_or; [destruct (py_truthy (JObj m))|]; simpl;
      match goal with |- context [pii ?x] => destruct (Hp x) as (dp & -> & Hkd) end; simpl;
      exists [("pii", dp)]; by repeat constructor. }
  destruct (budget_vote check run_id event c) as [c1 r]. simpl in *. subst r. simpl. rewrite Ep. simpl.
  destruct (severities_total (d :: (b ++ p).*2)) as (ds & Hds).
  { constructor; [done|]. apply Forall_fmap, Forall_app. split; done. }
  unfold combine, final_decision. change ((("opa", d) :: b ++ p).*2) with (d :: (b ++ p).*2).
  rewrite Hds. destruct ds; simpl; eauto.
Qed.
End gate_props.

(** ** The decision cache *)

(** A history of one client: evaluations, and policies loaded (the function the server then is). *)
Inductive opa_op :=
| OpEval (event_input : json) (now : f64)
| OpLoad (policy : json → result PyExn json).

Fixpoint opa_run (policy : json → result PyExn json) (st : OpaClient) (ops : list opa_op)
    : list (result PyExn SubDecision) :=
  match ops with
  | [] => []
  | OpLoad policy' :: ops' => opa_run policy' (policy_loaded st) ops'
  | OpEval i now :: ops' =>
      let '(st', r) := evaluate policy i now st in r :: opa_run policy st' ops'
  end.

(** The same without a cache. *)
Fixpoint opa_direct (policy : json → result PyExn json) (ops : list opa_op)
    : list (result PyExn SubDecision) :=
  match ops with
  | [] => []
  | OpLoad policy' :: ops' => opa_direct policy' ops'
  | OpEval i now :: ops' => (let! body := policy i in opa_decision body) :: opa_direct policy ops'
  end.

(** A policy reads an object, not the order its members are written in. *)
Definition unordered (policy : json → result PyExn json) : Prop :=
  ∀ i j, sort_keys i = sort_keys j → policy i = policy j.

Definition op_ok (op : opa_op) : Prop :=
  match op with OpEval i _ => json_wf i | OpLoad policy => unordered policy end.

Lemma cache_key_inj i j : json_wf i → json_wf j → cache_key i = cache_key j → sort_keys i = sort_keys j.
Proof. intros Hi Hj. apply (dumps_inj spaced spaced_ok); by apply sort_keys_wf. Qed.

Definition cache_sound (policy : json → result PyExn json) (st : OpaClient) : Prop :=
  ∀ i d e, json_wf i → dget (cache_key i) (cache st) = Some (d, e) →
           (let! body := policy i in opa_decision body) = Ok d.

Lemma cache_store_sound policy i now d st :
  unordered policy → json_wf i → cache_sound policy st →
  (let! body := policy i in opa_decision body) = Ok d → cache_sound policy (cache_store i now d st).
Proof.
  intros Hu Hi Hst Hd j d' e Hj. simpl. rewrite dget_dset. case_decide as Hk.
  - intros [= <- _]. by rewrite <-(Hu i j (cache_key_inj _ _ Hi Hj Hk)).
  - case_match; [done|]. by apply Hst.
Qed.

Lemma evaluate_sound policy i now st :
  unordered policy → json_wf i → cache_sound policy st →
  (evaluate policy i now st).2 = (let! body := policy i in opa_decision body) ∧
  cache_sound policy (evaluate policy i now st).1.
Proof.
  intros Hu Hi Hst. unfold evaluate, cache_lookup.
  destruct (dget (cache_key i) (cache st)) as [[d e]|] eqn:E; [destruct (fltb now e)|].
  - by rewrite (Hst i d e Hi E).
  - destruct (let! body := _ in _) as [d'|] eqn:Ed; simpl; split; auto using cache_store_sound.
  - destruct (let! body := _ in _) as [d'|] eqn:Ed; simpl; split; auto using cache_store_sound.
Qed.

(** The cache is transparent.  Over any history of evaluations that are not interrupted and of
    policies loaded, at any clock readings, the client answers what the policy in force answers: inputs
    that share a cache key are the same up to the order of their members. *)
Theorem opa_cache_transparent policy ttl ops :
  unordered policy → Forall op_ok ops →
  opa_run policy {| cache_ttl := ttl; cache := [] |} ops = opa_direct policy ops.
Proof.
  assert (∀ policy st, unordered policy → cache_sound policy st → Forall op_ok ops →
            opa_run policy st ops = opa_direct policy ops) as H; [|intros; by apply H].
  induction ops as [|[i now|policy'] ops IH]; intros pol st Hu Hst Hops; [done|..];
    apply Forall_cons in Hops as [Hop Hops]; simpl in *.
  - destruct (evaluate_sound pol i now st Hu Hop Hst) as [Hr Hs].
    destruct (evaluate pol i now st) as [st' r]. simpl in *. subst r. f_equal. by apply IH.
  - by apply IH.
Qed.

(** An evaluation that is waiting for its response while a policy is loaded stores the old policy's
    decision after the cache was cleared, and until the entry expires the client goes on answering it,
    whatever the new policy says: loading a policy does not invalidate every cached decision. *)
Lemma opa_stale_after_reload new_policy i d now later st :
  fltb later (fadd now (cache_ttl st)) = true →
  let st' := cache_store i now d (policy_loaded st) in
  evaluate new_policy i later st' = (st', Ok d).
Proof.
  intros Hl. cbv zeta. unfold evaluate, cache_lookup.
  unfold cache_store. cbn [cache]. rewrite dget_dset_eq. cbn [policy_loaded cache_ttl]. by rewrite Hl.
Qed.

(** A server that has no such document answers an empty object, and the action is allowed. *)
Lemma undefined_policy_allows :
  opa_decision (JObj []) = Ok {| sd_decision := JStr "ALLOW"; sd_reasons := []; sd_rest := [] |}.
Proof. done. Qed.

(** ** Witnesses *)

Definition example_event : list (string * json) :=
  [("event_type", JStr "tool_call.start"); ("tool_name", JStr "http_post");
   ("tool_args", JObj [("url", JStr "https://x.test"); ("body", JStr "ssn 078-05-1120")])].

Definition finds_ssn (text : string) : result PyExn (list string) :=
  Ok (if contains "078-05-1120" text then ["US_SSN"] else []).

Definition allow_all (i : json) : result PyExn json :=
  Ok (JObj [("result", JObj [("decision", JStr "ALLOW"); ("reasons", JArr [])])]).

Definition unreachable (i : json) : result PyExn json := raise "ConnectError" "connection refused".

Definition fresh_client : OpaClient := {| cache_ttl := of_Z 5; cache := [] |}.

Definition gate_with (post : json → result PyExn json) :
    OpaClient * RedisTable * result PyExn GateOutcome :=
  gate_decide (λ i, evaluate post i fzero) (λ r tool, budget_check r tool 0)
    (λ text, evaluate_outbound finds_ssn text false) example_event "r1" fresh_client no_keys.

Lemma gate_decision_most_severe_witness :
  ∃ o c g, gate_with unreachable = (o, c, Ok g) ∧ g_decision g = "DENY" ∧
    ∃ d b p, b.*1 = ["budget"] ∧ p.*1 = ["pii"] ∧ sd_decision d = JStr "DENY" ∧
             g_reasons g = concat (map sd_reasons (("opa", d) :: b ++ p).*2).
Proof.
  destruct (gate_with unreachable) as [[o c] [g|e]] eqn:E; [|vm_compute in E; done].
  exists o, c, g. split; [done|]. split; [vm_compute in E; by simplify_eq/=|].
  destruct (gate_decision_most_severe (λ i, evaluate unreachable i fzero) (λ r tool, budget_check r tool 0)
           (λ text, evaluate_outbound finds_ssn text false) example_event "r1" fresh_client no_keys o c g E)
    as (d & b & p & Hd & Hb & Hp & _ & Hr & _).
  exists d, b, p. rewrite bool_decide_eq_true_2 in Hb, Hp by reflexivity.
  rewrite bool_decide_eq_true_2 in Hp by (right; left).
  destruct Hb as (? & ? & _ & _ & ->), Hp as (? & ? & _ & _ & ->).
  destruct Hd as [(i & _ & Hi)|[_ Hd]]; [discriminate Hi|].
  repeat split; [exact Hd|exact Hr].
Defined.

Lemma gate_answers_witness :
  ∃ g, (gate_decide (λ i, evaluate allow_all i fzero) (λ r tool, budget_check r tool 0)
    (λ text, evaluate_outbound finds_ssn text false) example_event "r1" fresh_client no_keys).2 = Ok g.
Proof.
  apply gate_answers.
  - left. by eexists.
  - left. by eexists.
  - intros i d _. unfold evaluate. simpl. by intros [= <-].
  - intros tool. eexists. by split.
  - intros text. unfold evaluate_outbound, scan, finds_ssn.
    destruct (String.eqb text ""); [by eexists|].
    destruct (contains "078-05-1120" text); by eexists.
Defined.

Lemma opa_cache_transparent_witness :
  let i := JObj [("tool_name", JStr "search"); ("event_type", JStr "tool_call.start")] in
  let j := JObj [("event_type", JStr "tool_call.start"); ("tool_name", JStr "search")] in
  let deny (_ : json) := Ok (JObj [("result", JObj [("decision", JStr "DENY")])]) in
  let ops := [OpEval i fzero; OpEval j fzero; OpLoad deny; OpEval i fzero] in
  opa_run allow_all fresh_client ops = opa_direct allow_all ops ∧
  map (result_map sd_decision) (opa_direct allow_all ops) =
    [Ok (JStr "ALLOW"); Ok (JStr "ALLOW"); Ok (JStr "DENY")].
Proof.
  split; [|done]. apply opa_cache_transparent; [done|].
  repeat constructor; simpl; try done; by_decision || set_solver.
Defined.
