(* ===== verification/Ipc.v ===== *)
(** * Framing and peer identity

    Models [auditor/ipc/protocol.py] (length-prefixed frames), [auditor/ipc/auth.py]
    ([parse_peer_identity]) with the subject name [auditor/auth/ca.py] writes into a certificate, and
    the connection loop of [auditor/ipc/server.py].  Bytes are strings of characters below 256; a
    stream is the bytes that remain until the peer closes. *)

From Stdlib Require Import NArith ZArith Lia Ascii.
From Stdlib Require String.
From stdpp Require Import base tactics option list strings.
From S2P Require Import Prelude PyStr Sha256.

Local Open Scope Z_scope.

(** ** Frames *)

Definition _LEN_size : nat := 4.
Definition MAX_FRAME_BYTES : Z := 16 * 1024 * 1024.

(** What ends the reading of a frame. *)
Inductive IpcError :=
| FrameError (message : string)
| IncompleteReadError
| HandlerError (message : string).

#[export] Instance IpcError_eq_dec : EqDecision IpcError.
Proof. solve_decision. Defined.

Definition blen (s : string) : Z := Z.of_nat (String.length s).

Definition encode_frame (payload : string) : result IpcError string :=
  if MAX_FRAME_BYTES <? blen payload then
    Raise (FrameError ("frame too large to send: " +:+ dec (blen payload) +:+ " > " +:+ dec MAX_FRAME_BYTES))
  else Ok (be_bytes _LEN_size (blen payload) +:+ payload).

Definition too_large (length : Z) : IpcError :=
  FrameError ("frame too large: " +:+ dec length +:+ " > " +:+ dec MAX_FRAME_BYTES).

Definition decode_frame (buf : string) : result IpcError (option string * string) :=
  if (String.length buf <? _LEN_size)%nat then Ok (None, buf)
  else
    let length := be_int 0 (take_str _LEN_size buf) in
    if MAX_FRAME_BYTES <? length then Raise (too_large length)
    else
      let end_ := Z.of_nat _LEN_size + length in
      if blen buf <? end_ then Ok (None, buf)
      else Ok (Some (drop_str _LEN_size (take_str (Z.to_nat end_) buf)), drop_str (Z.to_nat end_) buf).

(** [reader.readexactly(n)] on what is left of the stream. *)
Definition readexactly (n : nat) (stream : string) : result IpcError (string * string) :=
  if (String.length stream <? n)%nat then Raise IncompleteReadError
  else Ok (take_str n stream, drop_str n stream).

Definition read_frame (stream : string) : result IpcError (string * string) :=
  let! (header, rest) := readexactly _LEN_size stream in
  let length := be_int 0 header in
  if MAX_FRAME_BYTES <? length then Raise (too_large length)
  else readexactly (Z.to_nat length) rest.

(** ** Identity of the peer *)

Definition SAN_SCHEME : string := "x-auditor".

Record PeerIdentity := { role : string; peer_run_id : string; peer_tenant_id : string }.

#[export] Instance PeerIdentity_eq_dec : EqDecision PeerIdentity.
Proof. solve_decision. Defined.

Definition encode_san (role run_id tenant_id : string) : string :=
  SAN_SCHEME +:+ ":role=" +:+ role +:+ ";run_id=" +:+ run_id +:+ ";tenant_id=" +:+ tenant_id.

Definition san_fields (text : string) : list (string * string) :=
  foldl (λ fields part, let '(key, sep, value) := partition_on "=" part in
                        if sep : bool then dset key value fields else fields)
    [] (split_on ";" text).

Fixpoint parse_sans (sans : list (string * string)) : option PeerIdentity :=
  match sans with
  | [] => None
  | (san_type, san_value) :: sans' =>
      if String.eqb san_type "URI" && starts_with (SAN_SCHEME +:+ ":") san_value then
        let fields := san_fields (drop_str (String.length SAN_SCHEME + 1) san_value) in
        match dget "role" fields, dget "run_id" fields, dget "tenant_id" fields with
        | Some r, Some i, Some t => Some {| role := r; peer_run_id := i; peer_tenant_id := t |}
        | _, _, _ => parse_sans sans'
        end
      else parse_sans sans'
  end.

(** [parse_peer_identity]: [None] for a connection without TLS, else the certificate's alternative
    names ([None] when the peer showed no certificate). *)
Definition parse_peer_identity (ssl_object : option (option (list (string * string)))) : option PeerIdentity :=
  match ssl_object with
  | Some (Some sans) => parse_sans sans
  | _ => None
  end.

(** ** The connection loop *)

Section server.
Context {S : Type}.
Context (on_connect : S → S * result IpcError ())
        (on_frame : string → S → S * result IpcError (option string))
        (on_disconnect : S → S).

(** The loop of [_handle]: what it wrote, the state, and the exception that ended it. *)
Fixpoint serve (fuel : nat) (stream : string) (st : S) : S * string * IpcError :=
  match fuel with
  | O => (st, "", IncompleteReadError)
  | Datatypes.S fuel' =>
      match read_frame stream with
      | Raise e => (st, "", e)
      | Ok (raw, rest) =>
          match on_frame raw st with
          | (st', Raise e) => (st', "", e)
          | (st', Ok None) => serve fuel' rest st'
          | (st', Ok (Some response)) =>
              match encode_frame response with
              | Raise e => (st', "", e)
              | Ok bytes => let '(st'', out, e) := serve fuel' rest st' in (st'', bytes +:+ out, e)
              end
          end
      end
  end.

(** [IpcServer._handle]: every read consumes at least a header, so the length of the stream is enough
    fuel. *)
Definition handle (stream : string) (st : S) : S * string :=
  match on_connect st with
  | (st1, Raise e) => (on_disconnect st1, "")
  | (st1, Ok _) =>
      let '(st2, out, e) := serve (Datatypes.S (String.length stream)) stream st1 in
      (on_disconnect st2, out)
  end.
End server.

(** ** Round trips *)

Lemma blen_bound s : 0 ≤ blen s.
Proof. unfold blen. lia. Qed.

Lemma read_frame_header h p rest :
  String.length h = _LEN_size → be_int 0 h = blen p → blen p ≤ MAX_FRAME_BYTES →
  read_frame (h +:+ p +:+ rest) = Ok (p, rest).
Proof.
  intros Hh Hi Hp. unfold read_frame, readexactly at 1. rewrite str_length_app, Hh.
  rewrite (proj2 (Nat.ltb_ge _ _)) by lia. cbn [result_bind].
  rewrite <-Hh, take_str_app, drop_str_app, Hi, (proj2 (Z.ltb_ge _ _)) by done.
  unfold readexactly, blen. rewrite Nat2Z.id, str_length_app.
  rewrite (proj2 (Nat.ltb_ge _ _)) by lia. by rewrite take_str_app, drop_str_app.
Qed.

Lemma read_frame_encode p w rest :
  encode_frame p = Ok w → read_frame (w +:+ rest) = Ok (p, rest).
Proof.
  unfold encode_frame. destruct (MAX_FRAME_BYTES <? blen p) eqn:Hp; [done|].
  pose proof (blen_bound p) as Hb. generalize (length_be_bytes _LEN_size (blen p)).
  assert (be_int 0 (be_bytes _LEN_size (blen p)) = blen p) as Hi.
  { rewrite be_int_be_bytes; [lia|]. unfold MAX_FRAME_BYTES, _LEN_size in *. lia. }
  revert Hi. generalize (be_bytes _LEN_size (blen p)). intros h Hi Hh Heq.
  assert (w = h +:+ p) as -> by congruence. rewrite <-str_app_assoc.
  apply read_frame_header; [done..|lia].
Qed.

Lemma take_take_str n m s : (n ≤ m)%nat → take_str n (take_str m s) = take_str n s.
Proof.
  revert n s. induction m as [|m IH]; intros n s Hle; [by destruct n; [|lia]|].
  destruct n as [|n], s as [|c s]; simpl; try done. f_equal. apply IH. lia.
Qed.

Lemma drop_take_str n m s : drop_str n (take_str (n + m) s) = take_str m (drop_str n s).
Proof.
  revert s. induction n as [|n IH]; intros s; [done|]. destruct s as [|c s]; simpl; [by destruct m|apply IH].
Qed.

Lemma drop_drop_str n m s : drop_str (n + m) s = drop_str m (drop_str n s).
Proof.
  revert s. induction n as [|n IH]; intros s; [done|]. destruct s as [|c s]; simpl; [by destruct m|apply IH].
Qed.

(** The buffered decoder takes from a buffer what the stream reader takes from a stream, and waits
    exactly where the reader would run into the end. *)
Lemma decode_frame_read buf :
  decode_frame buf =
    match read_frame buf with
    | Ok (p, rest) => Ok (Some p, rest)
    | Raise IncompleteReadError => Ok (None, buf)
    | Raise e => Raise e
    end.
Proof.
  unfold decode_frame, read_frame, readexactly at 1.
  destruct (String.length buf <? _LEN_size)%nat eqn:Hl; [done|]. apply Nat.ltb_ge in Hl.
  cbn [result_bind]. set (n := be_int 0 (take_str _LEN_size buf)).
  assert (0 ≤ n) as Hn by (apply (be_int_bound 0 (take_str _LEN_size buf)); lia).
  destruct (MAX_FRAME_BYTES <? n); [done|]. unfold readexactly, blen. rewrite length_drop_str.
  assert (Z.to_nat (Z.of_nat _LEN_size + n) = _LEN_size + Z.to_nat n)%nat as -> by lia.
  destruct (Z.of_nat (String.length buf) <? Z.of_nat _LEN_size + n) eqn:H1.
  - by rewrite (proj2 (Nat.ltb_lt _ _)) by lia.
  - rewrite (proj2 (Nat.ltb_ge _ _)) by lia. by rewrite drop_take_str, drop_drop_str.
Qed.

Lemma be_int_inj acc acc' a b :
  String.length a = String.length b → be_int acc a = be_int acc' b → acc = acc' ∧ a = b.
Proof.
  revert acc acc' b. induction a as [|c a IH]; intros acc acc' [|d b]; simpl; intros Hl Heq; try done.
  destruct (IH _ _ _ (eq_add_S _ _ Hl) Heq) as [Hz ->].
  pose proof (ascii_bound c). pose proof (ascii_bound d).
  split; [lia|]. f_equal.
  rewrite <-(ascii_N_embedding c), <-(ascii_N_embedding d). f_equal. lia.
Qed.

Lemma readexactly_ok n s a b :
  readexactly n s = Ok (a, b) → (n ≤ String.length s)%nat ∧ a = take_str n s ∧ b = drop_str n s.
Proof.
  unfold readexactly. destruct (_ <? _)%nat eqn:Hl; [done|]. apply Nat.ltb_ge in Hl.
  intros Heq. split_and!; [done|congruence..].
Qed.

Lemma read_frame_canonical s p rest :
  read_frame s = Ok (p, rest) → ∃ w, encode_frame p = Ok w ∧ s = w +:+ rest.
Proof.
  unfold read_frame. intros Hr. apply result_bind_ok in Hr as ([h r] & Hh & Hr).
  apply readexactly_ok in Hh as (Hl & -> & ->). set (n := be_int 0 (take_str _LEN_size s)) in *.
  destruct (MAX_FRAME_BYTES <? n) eqn:Hn; [done|]. apply Z.ltb_ge in Hn.
  apply readexactly_ok in Hr as (Hl2 & -> & ->).
  assert (0 ≤ n) as Hn0 by (apply (be_int_bound 0 (take_str _LEN_size s)); lia).
  set (p := take_str (Z.to_nat n) (drop_str _LEN_size s)).
  assert (blen p = n) as Hp.
  { unfold blen, p. rewrite length_take_str. lia. }
  unfold encode_frame. rewrite Hp, (proj2 (Z.ltb_ge _ _)) by done.
  eexists. split; [done|]. rewrite <-str_app_assoc. unfold p. rewrite take_drop_str.
  rewrite <-(take_drop_str _LEN_size s) at 1. f_equal.
  apply (be_int_inj 0 0); [by rewrite length_be_bytes, length_take_str; unfold _LEN_size in *; lia|].
  rewrite be_int_be_bytes; [unfold n; lia|]. unfold MAX_FRAME_BYTES, _LEN_size in *. lia.
Qed.

(** Reading is the exact inverse of writing: a stream yields a payload and a rest exactly when it
    is the encoding of the payload followed by the rest, so frames are self-delimiting and each payload
    has one encoding; the buffered decoder agrees with the stream reader on every input, and waits
    exactly where the reader would hit the end of the stream. *)
Theorem frame_roundtrip s p rest :
  (read_frame s = Ok (p, rest) ↔ ∃ w, encode_frame p = Ok w ∧ s = w +:+ rest) ∧
  (decode_frame s = Ok (Some p, rest) ↔ read_frame s = Ok (p, rest)) ∧
  (decode_frame s = Ok (None, rest) ↔ read_frame s = Raise IncompleteReadError ∧ rest = s).
Proof.
  split_and!.
  - split; [apply read_frame_canonical|]. intros (w & Hw & ->). by apply read_frame_encode.
  - rewrite decode_frame_read. destruct (read_frame s) as [[? ?]|[]]; naive_solver.
  - rewrite decode_frame_read. destruct (read_frame s) as [[? ?]|[]]; naive_solver.
Qed.

(** ** The server on a stream of frames *)

Fixpoint frames (payloads : list string) : string :=
  match payloads with
  | [] => ""
  | p :: ps => be_bytes _LEN_size (blen p) +:+ p +:+ frames ps
  end.

Lemma frames_cons p ps tail :
  frames (p :: ps) +:+ tail = (be_bytes _LEN_size (blen p) +:+ p) +:+ (frames ps +:+ tail).
Proof. cbn [frames]. by rewrite <-!str_app_assoc. Qed.

Definition fits (p : string) : Prop := blen p ≤ MAX_FRAME_BYTES.

Section server_spec.
Context {S : Type}.
Context (on_connect : S → S * result IpcError ())
        (on_frame : string → S → S * result IpcError (option string))
        (on_disconnect : S → S).

(** What the connection ought to do with a list of payloads: handle them in order up to the first that
    fails, collecting the responses. *)
Fixpoint handle_all (payloads : list string) (st : S) : S * list string * option IpcError :=
  match payloads with
  | [] => (st, [], None)
  | p :: ps =>
      match on_frame p st with
      | (st', Raise e) => (st', [], Some e)
      | (st', Ok r) => let '(st'', rs, e) := handle_all ps st' in (st'', option_list r ++ rs, e)
      end
  end.

Lemma encode_frame_fits p : fits p → encode_frame p = Ok (be_bytes _LEN_size (blen p) +:+ p).
Proof. unfold fits, encode_frame. intros Hp. by rewrite (proj2 (Z.ltb_ge _ _)). Qed.

Lemma serve_frames fuel payloads tail st e0 :
  Forall fits payloads → (∀ p st r, (on_frame p st).2 = Ok (Some r) → fits r) →
  read_frame tail = Raise e0 → (length payloads < fuel)%nat →
  serve on_frame fuel (frames payloads +:+ tail) st =
    let '(st', rs, e) := handle_all payloads st in (st', frames rs, default e0 e).
Proof.
  intros Hp Hr Ht. revert fuel st. induction Hp as [|p ps Hp Hps IH]; intros [|fuel] st Hf; simpl in Hf;
    try lia.
  - simpl. by rewrite Ht.
  - rewrite frames_cons. cbn [serve handle_all].
    rewrite (read_frame_encode p) by (by apply encode_frame_fits).
    specialize (Hr p st). destruct (on_frame p st) as [st' [[r|]|e]]; [| |done].
    + rewrite (encode_frame_fits r) by auto. rewrite IH by lia.
      destruct (handle_all ps st') as [[st'' rs] e].
      change (frames (option_list (Some r) ++ rs)) with
        (be_bytes _LEN_size (blen r) +:+ r +:+ frames rs). by rewrite str_app_assoc.
    + rewrite IH by lia. by destruct (handle_all ps st') as [[st'' rs] e].
Qed.

Lemma frames_length payloads : (length payloads ≤ String.length (frames payloads))%nat.
Proof.
  induction payloads as [|p ps IH]; [done|]. cbn [frames length].
  rewrite !str_length_app, length_be_bytes. unfold _LEN_size. lia.
Qed.

(** C37: a connection whose peer sends some whole frames and then stops (closing, possibly in the middle
    of a frame, or sending an oversized header) has every whole frame handled once and in order, up to
    the first the dispatcher fails on; the peer can read back exactly the responses; and the disconnect
    handler runs once, last, in every case. *)
Theorem handle_processes_frames payloads tail st e0 :
  Forall fits payloads → (∀ p st r, (on_frame p st).2 = Ok (Some r) → fits r) →
  read_frame tail = Raise e0 →
  handle on_connect on_frame on_disconnect (frames payloads +:+ tail) st =
    match on_connect st with
    | (st1, Raise _) => (on_disconnect st1, "")
    | (st1, Ok _) => let '(st2, rs, _) := handle_all payloads st1 in (on_disconnect st2, frames rs)
    end.
Proof.
  intros Hp Hr Ht. unfold handle. destruct (on_connect st) as [st1 [[]|e]]; [|done].
  rewrite (serve_frames _ _ _ _ e0); try done.
  - by destruct (handle_all payloads st1) as [[st2 rs] e].
  - rewrite str_length_app. pose proof (frames_length payloads). lia.
Qed.
End server_spec.

(** ** Identities *)

(** The identity the auditor reads from a certificate it minted is the one the certificate was
    minted for, when no part of it contains a semicolon, whatever the host name in front of it. *)
Theorem san_roundtrip hostname role run_id tenant_id :
  char_in ";" role = false → char_in ";" run_id = false → char_in ";" tenant_id = false →
  parse_peer_identity (Some (Some [("DNS", hostname); ("URI", encode_san role run_id tenant_id)])) =
    Some {| role := role; peer_run_id := run_id; peer_tenant_id := tenant_id |}.
Proof.
  intros Hr Hi Ht. unfold parse_peer_identity, parse_sans, encode_san.
  cbn [String.eqb andb Ascii.eqb Bool.eqb].
  replace (starts_with _ _) with true by (symmetry; apply starts_with_spec; by eexists).
  change (drop_str _ _) with ("role=" +:+ role +:+ ";run_id=" +:+ run_id +:+ ";tenant_id=" +:+ tenant_id).
  unfold san_fields.
  change ("role=" +:+ role +:+ ";run_id=" +:+ run_id +:+ ";tenant_id=" +:+ tenant_id) with
    ("role=" +:+ role +:+ String ";" ("run_id=" +:+ run_id +:+ String ";" ("tenant_id=" +:+ tenant_id))).
  rewrite (str_app_assoc "role="), split_on_app by (by rewrite char_in_app, Hr).
  rewrite (str_app_assoc "run_id="), split_on_app by (by rewrite char_in_app, Hi).
  rewrite split_on_no_sep by (by rewrite char_in_app, Ht). cbn [foldl].
  change ("role=" +:+ role) with ("role" +:+ String "=" role).
  change ("run_id=" +:+ run_id) with ("run_id" +:+ String "=" run_id).
  change ("tenant_id=" +:+ tenant_id) with ("tenant_id" +:+ String "=" tenant_id).
  by rewrite !partition_on_app.
Qed.

(** ** Witnesses *)

Lemma san_roundtrip_witness :
  parse_peer_identity (Some (Some [("DNS", "localhost"); ("URI", encode_san "harness" "r=1" "t-1")])) =
    Some {| role := "harness"; peer_run_id := "r=1"; peer_tenant_id := "t-1" |}.
Proof. apply (san_roundtrip "localhost" "harness" "r=1" "t-1"); by vm_compute. Defined.

(** A dispatcher that counts frames and acknowledges those that are not empty. *)
Definition acknowledge (p : string) (n : nat) : nat * result IpcError (option string) :=
  (S n, Ok (if String.eqb p "" then None else Some "ack")).

Lemma handle_processes_frames_witness :
  handle (λ n, (n, Ok tt)) acknowledge (λ n, n + 100)%nat
    (frames ["hello"; ""; "world"] +:+ be_bytes 3 0) 0%nat = (103%nat, frames ["ack"; "ack"]).
Proof.
  rewrite (handle_processes_frames (λ n, (n, Ok tt)) acknowledge (λ n, n + 100)%nat
             ["hello"; ""; "world"] (be_bytes 3 0) 0%nat IncompleteReadError); [done| | |by vm_compute].
  - repeat constructor; by vm_compute.
  - intros p n r. unfold acknowledge. simpl. destruct (String.eqb p ""); [done|].
    intros [= <-]. by vm_compute.
Defined.
