(* ===== verification/Bridge.v ===== *)
(** * Wire events

    Models [auditor/events/proto_bridge.py] over the messages of [proto/events.proto]: the flat
    dictionary the gate and the store consume, and the decision codes of the response. *)

From Stdlib Require Import ZArith Lia Ascii.
From Stdlib Require String.
From stdpp Require Import base tactics option list strings gmap.
From S2P Require Import Prelude PyStr Float64 Json Budget Gate.

Local Open Scope Z_scope.

(** ** The messages; an absent scalar field of a message is its default, empty or 0 *)

Record WireBase := {
  wb_event_id : string;
  wb_run_id : string;
  wb_tenant_id : string;
  wb_span_id : string;
  wb_parent_span_id : string;
  wb_channel : Z;
  wb_event_type : string;
  wb_ts_unix_ns : Z;
  wb_pid : Z
}.

Inductive WirePayload :=
| WToolCallStart (agent_id tool_name tool_args_json declared_purpose tool_call_id schema_hash : string)
| WToolCallEnd (agent_id tool_call_id status result_summary error : string)
| WLLMCall (agent_id model messages_hash : string) (tokens_in tokens_out : Z)
| WMemoryOp (agent_id op store : string) (keys_or_query : list string) (source : string)
| WIntentDeclare (agent_id intent : string) (plan_steps : list string)
| WAgentMessage (sender_id receiver_id message_hash signature : string)
| WSyscallOpenat (path : string) (flags : Z)
| WSyscallConnect (family addr : string) (port : Z)
| WSyscallExecve (binary : string) (argv : list string)
| WSyscallSendto (fd bytes_sent : Z) (dest_addr : string)
| WDnsQuery (query_name : string) (results : list string)
| WNoPayload.

Record WireEvent := { w_base : WireBase; w_payload : WirePayload }.

(** ** Decisions *)

Definition DECISION_UNSPECIFIED : Z := 0.
Definition ALLOW : Z := 1.
Definition DENY : Z := 2.
Definition CONFIRM : Z := 3.

Definition _DECISION_FROM_STR : list (string * Z) :=
  [("ALLOW", ALLOW); ("DENY", DENY); ("CONFIRM", CONFIRM)].

Definition _DECISION_TO_STR : list (Z * string) := map (λ '(k, v), (v, k)) _DECISION_FROM_STR.

Definition decision_to_proto (decision : string) : Z := default ALLOW (dget decision _DECISION_FROM_STR).

Definition decision_from_proto (value : Z) : string := default "ALLOW" (dget value _DECISION_TO_STR).

(** ** The flat dictionary *)

(** [s or None] *)
Definition or_none (s : string) : json := if str_truthy s then JStr s else JNull.

(** [b.hex() if b else None] *)
Definition hex_or_none (b : string) : json := if str_truthy b then JStr (to_hex b) else JNull.

Definition str_list (l : list string) : json := JArr (map JStr l).

Definition _CHANNEL_TO_STR : list (Z * string) := [(1, "VOLUNTARY"); (2, "INVOLUNTARY")].

Definition _payload (p : WirePayload) : result PyExn (list (string * json)) :=
  match p with
  | WToolCallStart agent_id tool_name tool_args_json declared_purpose tool_call_id schema_hash =>
      let! args := if str_truthy tool_args_json then
                     match loads tool_args_json with
                     | Some v => Ok v
                     | None => raise "JSONDecodeError" "malformed document"
                     end
                   else Ok (JObj []) in
      Ok [("agent_id", or_none agent_id); ("tool_name", JStr tool_name); ("tool_args", args);
          ("declared_purpose", or_none declared_purpose); ("tool_call_id", or_none tool_call_id);
          ("schema_hash", or_none schema_hash)]
  | WToolCallEnd agent_id tool_call_id status result_summary error =>
      Ok [("agent_id", or_none agent_id); ("tool_call_id", or_none tool_call_id);
          ("status", JStr status); ("result_summary", or_none result_summary); ("error", or_none error)]
  | WLLMCall agent_id model messages_hash tokens_in tokens_out =>
      Ok [("agent_id", or_none agent_id); ("model", JStr model); ("tokens_in", JInt tokens_in);
          ("tokens_out", JInt tokens_out); ("messages_hash", hex_or_none messages_hash)]
  | WMemoryOp agent_id op store keys_or_query source =>
      Ok [("agent_id", or_none agent_id); ("op", JStr op); ("store", JStr store);
          ("keys_or_query", str_list keys_or_query); ("source", or_none source)]
  | WIntentDeclare agent_id intent plan_steps =>
      Ok [("agent_id", or_none agent_id); ("intent", JStr intent); ("plan_steps", str_list plan_steps)]
  | WAgentMessage sender_id receiver_id message_hash signature =>
      Ok [("sender_id", or_none sender_id); ("receiver_id", or_none receiver_id);
          ("message_hash", hex_or_none message_hash); ("signature", hex_or_none signature)]
  | WSyscallOpenat path flags => Ok [("path", JStr path); ("flags", JInt flags)]
  | WSyscallConnect family addr port =>
      Ok [("family", JStr family); ("addr", JStr addr); ("port", JInt port)]
  | WSyscallExecve binary argv => Ok [("binary", JStr binary); ("argv", str_list argv)]
  | WSyscallSendto fd bytes_sent dest_addr =>
      Ok [("fd", JInt fd); ("bytes_sent", JInt bytes_sent); ("dest_addr", or_none dest_addr)]
  | WDnsQuery query_name results => Ok [("query_name", JStr query_name); ("results", str_list results)]
  | WNoPayload => Ok []
  end.

Definition base_dict (b : WireBase) : list (string * json) :=
  [("event_id", JStr (wb_event_id b)); ("run_id", JStr (wb_run_id b));
   ("tenant_id", JStr (wb_tenant_id b)); ("span_id", JStr (wb_span_id b));
   ("parent_span_id", or_none (wb_parent_span_id b));
   ("channel", JStr (default "VOLUNTARY" (dget (wb_channel b) _CHANNEL_TO_STR)));
   ("event_type", JStr (wb_event_type b)); ("ts_unix_ns", JInt (wb_ts_unix_ns b));
   ("pid", if wb_pid b =? 0 then JNull else JInt (wb_pid b))].

(** [event_to_dict]: [out.update(_payload(ev))] *)
Definition event_to_dict (ev : WireEvent) : result PyExn (list (string * json)) :=
  let! p := _payload (w_payload ev) in
  Ok (foldl (λ d '(k, v), dset k v d) (base_dict (w_base ev)) p).

(** ** Lemmas *)

Lemma decision_roundtrip d : d ∈ dkeys _SEVERITY → decision_from_proto (decision_to_proto d) = d.
Proof.
  simpl. rewrite !elem_of_cons, elem_of_nil.
  intros [->|[->|[->|[]]]]; by vm_compute.
Qed.

(** Payload keys and header keys are apart, so updating appends. *)
Lemma foldl_dset_fresh {V} (p : list (string * V)) d :
  NoDup (dkeys p) → (∀ k, k ∈ dkeys p → k ∉ dkeys d) →
  foldl (λ d '(k, v), dset k v d) d p = d ++ p.
Proof.
  revert d. induction p as [|[k v] p IH]; intros d Hnd Hf; simpl; [by rewrite app_nil_r|].
  rewrite dkeys_cons in Hnd. apply NoDup_cons in Hnd as [Hk Hnd]. simpl in Hk.
  assert (dset k v d = d ++ [(k, v)]) as ->.
  { specialize (Hf k ltac:(rewrite dkeys_cons; left)). clear -Hf.
    induction d as [|[k0 v0] d IH]; [done|]. rewrite dkeys_cons in Hf. simpl in Hf. cbn [dset].
    rewrite decide_False by set_solver. rewrite IH by set_solver. done. }
  rewrite IH; [by rewrite <-app_assoc|done|].
  intros k' Hk'. unfold dkeys in *. rewrite fmap_app. simpl. specialize (Hf k').
  simpl in Hf. set_solver.
Qed.

Definition base_keys : list string :=
  ["event_id"; "run_id"; "tenant_id"; "span_id"; "parent_span_id"; "channel"; "event_type";
   "ts_unix_ns"; "pid"].

Lemma dkeys_base_dict b : dkeys (base_dict b) = base_keys.
Proof. reflexivity. Qed.

Lemma payload_keys p d :
  _payload p = Ok d → NoDup (dkeys d) ∧ ∀ k, k ∈ dkeys d → k ∉ base_keys.
Proof.
  intros Hd. rewrite <-Forall_forall.
  destruct p; simpl in Hd; [apply result_bind_ok in Hd as (v & _ & Hd)|..];
    injection Hd as <-; (split; by_decision).
Qed.

Lemma event_to_dict_app ev d :
  event_to_dict ev = Ok d ↔ ∃ p, _payload (w_payload ev) = Ok p ∧ d = base_dict (w_base ev) ++ p.
Proof.
  unfold event_to_dict. rewrite result_bind_ok. split; intros (p & Hp & Hd); exists p;
    destruct (payload_keys _ _ Hp) as [Hnd Hf]; (split; [done|]).
  - injection Hd as <-. by apply foldl_dset_fresh; [|intros k Hk; rewrite dkeys_base_dict; apply Hf].
  - subst d. f_equal. by apply foldl_dset_fresh; [|intros k Hk; rewrite dkeys_base_dict; apply Hf].
Qed.
