(* ===== verification/Store.v ===== *)
(** * The event store

    Models [auditor/events/store.py]: redaction of payloads before they are stored, the rows of events
    and runs, their operations, and the reconstruction of events from rows that the detectors read.
    The redactor (Presidio or its fallback) and pydantic's reading of a UUID are parameters. *)

From Stdlib Require Import NArith ZArith Lia Ascii.
From Stdlib Require String.
From stdpp Require Import base tactics option list strings gmap.
From S2P Require Import Prelude PyStr Float64 Sha256 Json Events Budget Gate Bridge.

Local Open Scope Z_scope.

(** ** Redaction *)

Definition _BASE_KEYS : list string := base_keys.

Definition _STRUCTURAL_KEYS : list string :=
  ["agent_id"; "tool_call_id"; "event_id"; "run_id"; "tenant_id"; "span_id"; "parent_span_id";
   "messages_hash"; "schema_hash"; "payload_hash"; "content_hash"; "schema_version"; "tokens_in";
   "tokens_out"; "pid"; "ts_unix_ns"; "channel"; "event_type"; "status"; "store"; "source"; "model"].

(** [key is not None and (key in _STRUCTURAL_KEYS or key.startswith("_"))] *)
Definition structural (key : option string) : bool :=
  match key with
  | Some k => bool_decide (k ∈ _STRUCTURAL_KEYS) || starts_with "_" k
  | None => false
  end.

Section redact.
Context (redact_text : string → string) (detect_entities : string → list string).

Fixpoint _walk_and_redact (value : json) (key : option string) : json :=
  if structural key then value
  else match value with
       | JStr s => JStr (redact_text s)
       | JObj m => JObj (map (λ kv, (kv.1, _walk_and_redact kv.2 (Some kv.1))) m)
       | JArr l => JArr (map (λ v, _walk_and_redact v None) l)
       | _ => value
       end.

Fixpoint _detect_entities_skipping_structural (value : json) (key : option string) : list string :=
  if structural key then []
  else match value with
       | JStr s => detect_entities s
       | JObj m => sorted_set (concat (map (λ kv,
                     _detect_entities_skipping_structural kv.2 (Some kv.1)) m))
       | JArr l => sorted_set (concat (map (λ v, _detect_entities_skipping_structural v None) l))
       | _ => []
       end.

(** [_redact_payload]; the flag is [_REDACT_AT_REST]. *)
Definition _redact_payload (redact_at_rest : bool) (payload : list (string * json))
    : list (string * json) * list string :=
  if negb redact_at_rest || bool_decide (payload = []) then (payload, [])
  else
    let entities := _detect_entities_skipping_structural (JObj payload) None in
    if bool_decide (entities = []) then (payload, [])
    else (dset "_pii_redacted" (str_list entities)
            (map (λ kv, (kv.1, _walk_and_redact kv.2 (Some kv.1))) payload), entities).
End redact.

(** ** Tables *)

Record EventRow := {
  er_event_id : uuid;
  er_run_id : uuid;
  er_tenant_id : uuid;
  er_span_id : uuid;
  er_parent_span_id : option uuid;
  er_channel : string;
  er_event_type : string;
  er_ts : datetime;
  er_pid : option Z;
  er_payload : list (string * json);
  er_payload_hash : string
}.

Record Run := {
  run_id : uuid;
  run_tenant_id : uuid;
  status : string;
  ended_at : option datetime;
  run_declared_goal : option string;
  run_metadata : list (string * json)
}.

Record GateDecisionRow := {
  gd_decision_id : uuid;
  gd_event_id : uuid;
  gd_decision : string;
  gd_detectors : list (string * json);
  gd_latency_ms : Z
}.

Record Db := {
  tenants : gset string;
  runs : gmap string Run;
  event_rows : list EventRow;
  gate_decisions : list GateDecisionRow
}.

Definition payload_hash (payload : list (string * json)) : string :=
  sha256 (utf8 (dumps spaced (sort_keys (JObj payload)))).

(** [UUID(s)] of a value of the dictionary. *)
Definition uuid_of (v : json) : result PyExn uuid :=
  match v with
  | JStr s => match parse_uuid s with
              | Some u => Ok u
              | None => raise "ValueError" "badly formed hexadecimal UUID string"
              end
  | _ => raise "AttributeError" ("'" +:+ json_type v +:+ "' object has no attribute 'replace'")
  end.

(** [d[k]] *)
Definition at_key (k : string) (d : list (string * json)) : result PyExn json :=
  match dget k d with Some v => Ok v | None => raise "KeyError" (py_repr_str k) end.

Definition integrity {A} : result PyExn A := raise "IntegrityError" "constraint violated".

(** ** Runs *)

Definition set_run (r : Run) (db : Db) : Db :=
  {| tenants := tenants db; runs := <[run_id r := r]> (runs db);
     event_rows := event_rows db; gate_decisions := gate_decisions db |}.

Definition upsert_run (rid tenant_id : uuid) (declared_goal : option string) (db : Db)
    : Db * result PyExn () :=
  match runs db !! rid with
  | Some _ => (db, Ok ())
  | None =>
      if bool_decide (tenant_id ∈ tenants db) then
        (set_run {| run_id := rid; run_tenant_id := tenant_id; status := "running"; ended_at := None;
                    run_declared_goal := declared_goal; run_metadata := [] |} db, Ok ())
      else (db, integrity)
  end.

Definition mark_run_completed (rid : uuid) (now : datetime) (db : Db) : Db :=
  match runs db !! rid with
  | Some r =>
      if String.eqb (status r) "running" then
        set_run {| run_id := run_id r; run_tenant_id := run_tenant_id r; status := "completed";
                   ended_at := Some now; run_declared_goal := run_declared_goal r;
                   run_metadata := run_metadata r |} db
      else db
  | None => db
  end.

(** The row update of [reap_orphaned_runs]. *)
Definition reap (now : datetime) (r : Run) : Run :=
  if String.eqb (status r) "running" then
    {| run_id := run_id r; run_tenant_id := run_tenant_id r; status := "aborted";
       ended_at := Some (default now (ended_at r)); run_declared_goal := run_declared_goal r;
       run_metadata := run_metadata r |}
  else r.

Definition reap_orphaned_runs (now : datetime) (db : Db) : Db * nat :=
  ({| tenants := tenants db; runs := reap now <$> runs db;
      event_rows := event_rows db; gate_decisions := gate_decisions db |},
   size (filter (λ '(_, r), status r = "running") (runs db))).

Definition update_run_declared_goal (rid : uuid) (declared_goal : string) (db : Db) : Db :=
  match runs db !! rid with
  | Some r =>
      if ostr_truthy (run_declared_goal r) then db
      else set_run {| run_id := run_id r; run_tenant_id := run_tenant_id r; status := status r;
                      ended_at := ended_at r;
                      run_declared_goal := Some (take_str 1000 declared_goal);
                      run_metadata := run_metadata r |} db
  | None => db
  end.

(** ** Events *)

Section store.
Context (redact_text : string → string) (detect_entities : string → list string)
        (redact_at_rest : bool).

(** The row [store_event] adds; [fresh] is [uuid7()], the row's id when the event has none.  The payload is
    what is written to the JSONB column; what the table gives back for it is [read_back]'s subject. *)
Definition event_row (event : list (string * json)) (ts : datetime) (fresh : uuid)
    : result PyExn EventRow :=
  let raw_payload := bfilter (λ kv, negb (bool_decide (kv.1 ∈ _BASE_KEYS))) event in
  let stored_payload := (_redact_payload redact_text detect_entities redact_at_rest raw_payload).1 in
  let! event_id := if py_truthy (jget "event_id" event) then uuid_of (jget "event_id" event)
                   else Ok fresh in
  let! rid := at_key "run_id" event in
  let! rid := uuid_of rid in
  let! tid := at_key "tenant_id" event in
  let! tid := uuid_of tid in
  let! span := at_key "span_id" event in
  let! span := uuid_of span in
  let! parent := if py_truthy (jget "parent_span_id" event)
                 then let! u := uuid_of (jget "parent_span_id" event) in Ok (Some u)
                 else Ok None in
  let! chan := at_key "channel" event in
  let! etype := at_key "event_type" event in
  match chan, etype with
  | JStr chan, JStr etype =>
      Ok {| er_event_id := event_id; er_run_id := rid; er_tenant_id := tid; er_span_id := span;
            er_parent_span_id := parent; er_channel := chan; er_event_type := etype; er_ts := ts;
            er_pid := match jget "pid" event with JInt z => Some z | _ => None end;
            er_payload := stored_payload; er_payload_hash := payload_hash raw_payload |}
  | _, _ => raise "DataError" "invalid input for query argument"
  end.

(** [store_event]: the insert obeys the primary key, the reference to the run and the check on the
    channel. *)
Definition store_event (event : list (string * json)) (ts : datetime) (fresh : uuid) (db : Db)
    : Db * result PyExn uuid :=
  match event_row event ts fresh with
  | Raise e => (db, Raise e)
  | Ok row =>
      if bool_decide (er_event_id row ∈ map er_event_id (event_rows db))
         || negb (bool_decide (is_Some (runs db !! er_run_id row)))
         || negb (bool_decide (er_channel row ∈ ["VOLUNTARY"; "INVOLUNTARY"]))
      then (db, integrity)
      else ({| tenants := tenants db; runs := runs db; event_rows := event_rows db ++ [row];
               gate_decisions := gate_decisions db |}, Ok (er_event_id row))
  end.
End store.

Definition store_gate_decision (event_id : uuid) (decision : string) (votes : list (string * json))
    (latency_ms : Z) (fresh : uuid) (db : Db) : Db * result PyExn uuid :=
  if bool_decide (event_id ∈ map er_event_id (event_rows db))
     && bool_decide (decision ∈ ["ALLOW"; "DENY"; "CONFIRM"])
     && negb (bool_decide (fresh ∈ map gd_decision_id (gate_decisions db)))
  then ({| tenants := tenants db; runs := runs db; event_rows := event_rows db;
           gate_decisions := gate_decisions db ++
             [{| gd_decision_id := fresh; gd_event_id := event_id; gd_decision := decision;
                 gd_detectors := votes; gd_latency_ms := latency_ms |}] |}, Ok fresh)
  else (db, integrity).

(** ** Reading events back *)

Definition _HEX_FIELDS : list string := ["messages_hash"; "signature"; "message_hash"].

(** The fields of the event models, [model.model_fields]. *)
Definition _MODEL_BY_TYPE : list (string * list string) :=
  let base := ["event_id"; "run_id"; "tenant_id"; "span_id"; "parent_span_id"; "channel"; "event_type";
               "ts"; "pid"; "schema_version"] in
  [("tool_call.start", base ++ ["agent_id"; "tool_name"; "tool_args"; "declared_purpose";
                                "tool_call_id"; "schema_hash"]);
   ("tool_call.end", base ++ ["agent_id"; "tool_call_id"; "status"; "result_summary"; "error"]);
   ("llm.call", base ++ ["agent_id"; "model"; "messages_hash"; "tokens_in"; "tokens_out"]);
   ("memory.read", base ++ ["agent_id"; "store"; "keys_or_query"; "source"]);
   ("memory.write", base ++ ["agent_id"; "store"; "keys_or_query"; "source"]);
   ("agent.message", base ++ ["sender_id"; "receiver_id"; "message_hash"; "signature"]);
   ("intent.declare", base ++ ["agent_id"; "intent"; "plan_steps"]);
   ("syscall.openat", base ++ ["path"; "flags"]);
   ("syscall.connect", base ++ ["family"; "addr"; "port"]);
   ("syscall.execve", base ++ ["binary"; "argv"]);
   ("syscall.sendto", base ++ ["fd"; "bytes_sent"; "dest_addr"]);
   ("syscall.dns", base ++ ["query_name"; "results"])].

(** Closed tests evaluate to their value. *)
Ltac closed_tests :=
  repeat match goal with
  | |- context [String.eqb ?a ?b] =>
      let r := eval vm_compute in (String.eqb a b) in
      match r with true => idtac | false => idtac end; change (String.eqb a b) with r
  | |- context [@bool_decide ?P ?dec] =>
      let r := eval vm_compute in (@bool_decide P dec) in
      match r with true => idtac | false => idtac end; change (@bool_decide P dec) with r
  end; cbv beta iota.

Section row_to_event.
(** How pydantic reads the text of a UUID. *)
Context (pydantic_uuid : string → option uuid).

(** Field validators over the data of a row: required and optional texts, UUIDs, integers with a
    default, lists of texts, and the fields that hold bytes. *)
Definition f_str (k : string) (d : list (string * json)) : option string :=
  match dget k d with Some (JStr s) => Some s | _ => None end.

Definition f_opt {A} (f : string → option A) (k : string) (d : list (string * json)) : option (option A) :=
  match dget k d with
  | None | Some JNull => Some None
  | Some (JStr s) => Some <$> f s
  | _ => None
  end.

Definition f_uuid (k : string) (d : list (string * json)) : option uuid := f_str k d ≫= pydantic_uuid.

Definition f_int (k : string) (dflt : option Z) (d : list (string * json)) : option Z :=
  match dget k d with Some (JInt z) => Some z | None => dflt | _ => None end.

Fixpoint all_str (l : list json) : option (list string) :=
  match l with
  | [] => Some []
  | JStr s :: l' => cons s <$> all_str l'
  | _ => None
  end.

Definition f_strs (k : string) (d : list (string * json)) : option (list string) :=
  match dget k d with Some (JArr l) => all_str l | None => Some [] | _ => None end.

(** [bytes.fromhex(s)], or the text's own bytes when it is not hexadecimal. *)
Definition f_bytes (k : string) (d : list (string * json)) : option string :=
  s ← f_str k d; Some (default (utf8 s) (of_hex s)).

Definition f_lit (lits : list string) (k : string) (d : list (string * json)) : option string :=
  s ← f_str k d; if bool_decide (s ∈ lits) then Some s else None.

(** The class-specific part of [model.model_validate]. *)
Definition validate_body (etype : string) (d : list (string * json)) : option EventBody :=
  if String.eqb etype "tool_call.start" then
    a ← f_uuid "agent_id" d; n ← f_str "tool_name" d;
    args ← match dget "tool_args" d with Some (JObj m) => Some m | None => Some [] | _ => None end;
    p ← f_opt Some "declared_purpose" d; i ← f_opt pydantic_uuid "tool_call_id" d;
    h ← f_opt Some "schema_hash" d;
    Some (EToolCallStart {| tcs_agent_id := a; tool_name := n; tool_args := args;
      declared_purpose := p; tcs_tool_call_id := i; schema_hash := h |})
  else if String.eqb etype "tool_call.end" then
    a ← f_uuid "agent_id" d; i ← f_uuid "tool_call_id" d; s ← f_lit ["success"; "error"] "status" d;
    r ← f_opt Some "result_summary" d; e ← f_opt Some "error" d;
    Some (EToolCallEnd {| tce_agent_id := a; tce_tool_call_id := i; tce_status := s;
      result_summary := r; tce_error := e |})
  else if String.eqb etype "llm.call" then
    a ← f_uuid "agent_id" d; m ← f_str "model" d; h ← f_bytes "messages_hash" d;
    ti ← f_int "tokens_in" (Some 0) d; to ← f_int "tokens_out" (Some 0) d;
    Some (ELLMCall {| llm_agent_id := a; llm_model := m; messages_hash := h;
      tokens_in := ti; tokens_out := to |})
  else if bool_decide (etype ∈ ["memory.read"; "memory.write"]) then
    a ← f_uuid "agent_id" d; s ← f_lit ["session"; "long_term"] "store" d;
    k ← f_strs "keys_or_query" d; src ← f_opt Some "source" d;
    Some (EMemoryOp {| mem_is_write := String.eqb etype "memory.write"; mem_agent_id := a;
      mem_store := s; keys_or_query := k; mem_source := src |})
  else if String.eqb etype "agent.message" then
    s ← f_uuid "sender_id" d; r ← f_uuid "receiver_id" d; h ← f_bytes "message_hash" d;
    sg ← f_bytes "signature" d;
    Some (EInterAgentMessage {| sender_id := s; receiver_id := r; message_hash := h; signature := sg |})
  else if String.eqb etype "intent.declare" then
    a ← f_uuid "agent_id" d; i ← f_str "intent" d; p ← f_strs "plan_steps" d;
    Some (EIntentDeclaration {| intent_agent_id := a; intent := i; plan_steps := p |})
  else if String.eqb etype "syscall.openat" then
    p ← f_str "path" d; fl ← f_int "flags" (Some 0) d; Some (ESyscallOpenat p fl)
  else if String.eqb etype "syscall.connect" then
    f ← f_lit ["AF_INET"; "AF_INET6"; "AF_UNIX"] "family" d; a ← f_str "addr" d;
    p ← match dget "port" d with None | Some JNull => Some None | Some (JInt z) => Some (Some z)
                            | _ => None end;
    Some (ESyscallConnect f a p)
  else if String.eqb etype "syscall.execve" then
    b ← f_str "binary" d; a ← f_strs "argv" d; Some (ESyscallExecve b a)
  else if String.eqb etype "syscall.sendto" then
    fd ← f_int "fd" None d; n ← f_int "bytes_sent" None d; a ← f_opt Some "dest_addr" d;
    Some (ESyscallSendto fd n a)
  else if String.eqb etype "syscall.dns" then
    q ← f_str "query_name" d; r ← f_strs "results" d; Some (EDnsQuery q r)
  else None.

(** [_row_to_event]: [None] for a row that is skipped. *)
Definition _row_to_event (row : EventRow) : option BaseEvent :=
  allowed ← dget (er_event_type row) _MODEL_BY_TYPE;
  let data := bfilter (λ kv, bool_decide (kv.1 ∈ allowed)) (er_payload row) in
  b ← validate_body (er_event_type row) data;
  let e := {| event_id := er_event_id row; e_run_id := er_run_id row; e_tenant_id := er_tenant_id row;
              span_id := er_span_id row; parent_span_id := er_parent_span_id row; ts := er_ts row;
              pid := er_pid row; schema_version := 1; body := b |} in
  (* the class fixes the channel *)
  if bool_decide (er_channel row = match channel e with VOLUNTARY => "VOLUNTARY"
                                                     | INVOLUNTARY => "INVOLUNTARY" end)
  then Some e else None.

(** [order_by(EventRow.ts)] *)
Fixpoint insert_by_ts (r : EventRow) (l : list EventRow) : list EventRow :=
  match l with
  | [] => [r]
  | x :: l' => if er_ts r <=? er_ts x then r :: l else x :: insert_by_ts r l'
  end.

Definition order_by_ts (l : list EventRow) : list EventRow := foldr insert_by_ts [] l.

Definition load_trace (rid tenant_id : uuid) (db : Db) : Trace :=
  let rows := order_by_ts (bfilter (λ r, bool_decide (er_run_id r = rid)) (event_rows db)) in
  {| t_run_id := rid; t_tenant_id := tenant_id;
     declared_goal := runs db !! rid ≫= run_declared_goal;
     events := omap _row_to_event rows;
     metadata := match runs db !! rid with Some r => run_metadata r | None => [] end |}.

(** ** What a wire event means, without going through the store *)

Definition wire_text (s : string) : option string := if str_truthy s then Some s else None.

Definition wire_uuid (s : string) : option uuid := wire_text s ≫= pydantic_uuid.

Definition wire_opt_uuid (s : string) : option (option uuid) :=
  if str_truthy s then Some <$> pydantic_uuid s else Some None.

(** [None] when the payload is not of the announced type or a field does not validate. *)
Definition typed_body (etype : string) (p : WirePayload) : option EventBody :=
  match p with
  | WToolCallStart agent_id name args purpose call_id hash =>
      if bool_decide (etype = "tool_call.start") then
        a ← wire_uuid agent_id;
        m ← (if str_truthy args then match loads args with Some (JObj m) => Some m | _ => None end
             else Some []);
        i ← wire_opt_uuid call_id;
        Some (EToolCallStart {| tcs_agent_id := a; tool_name := name; tool_args := m;
          declared_purpose := wire_text purpose; tcs_tool_call_id := i; schema_hash := wire_text hash |})
      else None
  | WToolCallEnd agent_id call_id st summary err =>
      if bool_decide (etype = "tool_call.end") then
        a ← wire_uuid agent_id; i ← wire_uuid call_id;
        if bool_decide (st ∈ ["success"; "error"]) then
          Some (EToolCallEnd {| tce_agent_id := a; tce_tool_call_id := i; tce_status := st;
            result_summary := wire_text summary; tce_error := wire_text err |})
        else None
      else None
  | WLLMCall agent_id model hash tin tout =>
      if bool_decide (etype = "llm.call") then
        a ← wire_uuid agent_id; h ← wire_text hash;
        Some (ELLMCall {| llm_agent_id := a; llm_model := model; messages_hash := h;
          tokens_in := tin; tokens_out := tout |})
      else None
  | WMemoryOp agent_id _ store keys source =>
      if bool_decide (etype ∈ ["memory.read"; "memory.write"]) then
        a ← wire_uuid agent_id;
        if bool_decide (store ∈ ["session"; "long_term"]) then
          Some (EMemoryOp {| mem_is_write := String.eqb etype "memory.write"; mem_agent_id := a;
            mem_store := store; keys_or_query := keys; mem_source := wire_text source |})
        else None
      else None
  | WIntentDeclare agent_id intent steps =>
      if bool_decide (etype = "intent.declare") then
        a ← wire_uuid agent_id;
        Some (EIntentDeclaration {| intent_agent_id := a; intent := intent; plan_steps := steps |})
      else None
  | WAgentMessage sender receiver hash sig =>
      if bool_decide (etype = "agent.message") then
        s ← wire_uuid sender; r ← wire_uuid receiver; h ← wire_text hash; sg ← wire_text sig;
        Some (EInterAgentMessage {| sender_id := s; receiver_id := r; message_hash := h; signature := sg |})
      else None
  | WSyscallOpenat path flags =>
      if bool_decide (etype = "syscall.openat") then Some (ESyscallOpenat path flags) else None
  | WSyscallConnect family addr port =>
      if bool_decide (etype = "syscall.connect") then
        if bool_decide (family ∈ ["AF_INET"; "AF_INET6"; "AF_UNIX"])
        then Some (ESyscallConnect family addr (Some port)) else None
      else None
  | WSyscallExecve binary argv =>
      if bool_decide (etype = "syscall.execve") then Some (ESyscallExecve binary argv) else None
  | WSyscallSendto fd n dest =>
      if bool_decide (etype = "syscall.sendto") then Some (ESyscallSendto fd n (wire_text dest)) else None
  | WDnsQuery q results =>
      if bool_decide (etype = "syscall.dns") then Some (EDnsQuery q results) else None
  | WNoPayload => None
  end.

(** The type announced in the header is the one of the payload. *)
Definition type_matches (etype : string) (p : WirePayload) : bool :=
  match p with
  | WToolCallStart _ _ _ _ _ _ => String.eqb etype "tool_call.start"
  | WToolCallEnd _ _ _ _ _ => String.eqb etype "tool_call.end"
  | WLLMCall _ _ _ _ _ => String.eqb etype "llm.call"
  | WMemoryOp _ _ _ _ _ => String.eqb etype "memory.read" || String.eqb etype "memory.write"
  | WIntentDeclare _ _ _ => String.eqb etype "intent.declare"
  | WAgentMessage _ _ _ _ => String.eqb etype "agent.message"
  | WSyscallOpenat _ _ => String.eqb etype "syscall.openat"
  | WSyscallConnect _ _ _ => String.eqb etype "syscall.connect"
  | WSyscallExecve _ _ => String.eqb etype "syscall.execve"
  | WSyscallSendto _ _ _ => String.eqb etype "syscall.sendto"
  | WDnsQuery _ _ => String.eqb etype "syscall.dns"
  | WNoPayload => false
  end.

Lemma f_str_at k d s : dget k d = Some (JStr s) → f_str k d = Some s.
Proof. unfold f_str. by intros ->. Qed.

Lemma f_opt_at {A} (f : string → option A) k d s :
  dget k d = Some (or_none s) → f_opt f k d = if str_truthy s then Some <$> f s else Some None.
Proof. unfold f_opt, or_none. intros ->. by destruct (str_truthy s). Qed.

Lemma f_text_at k d s : dget k d = Some (or_none s) → f_opt Some k d = Some (wire_text s).
Proof. intros H. rewrite (f_opt_at _ _ _ _ H). unfold wire_text. by destruct (str_truthy s). Qed.

Lemma f_uuid_at k d s : dget k d = Some (or_none s) → f_uuid k d = wire_uuid s.
Proof. unfold f_uuid, f_str, wire_uuid, wire_text, or_none. intros ->. by destruct (str_truthy s). Qed.

Lemma f_int_at k dflt d z : dget k d = Some (JInt z) → f_int k dflt d = Some z.
Proof. unfold f_int. by intros ->. Qed.

Lemma f_lit_at lits k d s :
  dget k d = Some (JStr s) → f_lit lits k d = if bool_decide (s ∈ lits) then Some s else None.
Proof. unfold f_lit. intros H. by rewrite (f_str_at _ _ _ H). Qed.

Lemma f_strs_at k d l : dget k d = Some (str_list l) → f_strs k d = Some l.
Proof.
  unfold f_strs. intros ->. simpl. induction l as [|s l IH]; [done|]. simpl. by rewrite IH.
Qed.

Lemma f_bytes_at k d b : dget k d = Some (hex_or_none b) → f_bytes k d = wire_text b.
Proof.
  unfold f_bytes, f_str, wire_text, hex_or_none. intros ->. destruct (str_truthy b); [|done].
  simpl. by rewrite of_hex_to_hex.
Qed.

(** A field read resolves to the wire value of the field. *)
Ltac field_reads :=
  repeat first [ erewrite f_uuid_at by reflexivity | erewrite f_text_at by reflexivity
               | erewrite f_lit_at by reflexivity | erewrite f_bytes_at by reflexivity
               | erewrite f_strs_at by reflexivity | erewrite f_int_at by reflexivity
               | erewrite f_str_at by reflexivity | erewrite f_opt_at by reflexivity ].

Lemma validate_typed etype p d allowed :
  type_matches etype p = true → _payload p = Ok d → dget etype _MODEL_BY_TYPE = Some allowed →
  validate_body etype (bfilter (λ kv, bool_decide (kv.1 ∈ allowed)) d) = typed_body etype p.
Proof.
  intros Ht Hd Ha. destruct p; simpl in Ht; try done;
    try (apply String.eqb_eq in Ht; subst etype);
    try (apply orb_true_iff in Ht as [Ht|Ht]; apply String.eqb_eq in Ht; subst etype);
    simpl in Hd; try (apply result_bind_ok in Hd as (v & Hv & Hd)); injection Hd as <-;
    vm_compute in Ha; injection Ha as <-;
    match goal with |- validate_body ?t ?d = _ => set (data := d) end;
    unfold validate_body, typed_body; closed_tests; field_reads;
    repeat case_bool_decide; unfold wire_uuid, wire_opt_uuid; try reflexivity;
    repeat match goal with
    | |- (wire_text ?s ≫= _) ≫= _ = _ => destruct (wire_text s); [|reflexivity]; simpl
    | |- pydantic_uuid ?s ≫= _ = _ => destruct (pydantic_uuid s); [|reflexivity]; simpl
    | |- wire_text ?s ≫= _ = _ => destruct (wire_text s); [|reflexivity]; simpl
    end; try reflexivity.
  replace (match v with JObj m => Some m | _ => None end) with
    (if str_truthy tool_args_json
     then match loads tool_args_json with Some (JObj m) => Some m | _ => None end else Some []);
    [reflexivity|].
  destruct (str_truthy tool_args_json); [|by injection Hv as <-].
  destruct (loads tool_args_json) as [w|]; [injection Hv as <-; by destruct w|done].
Qed.
End row_to_event.

(** ** The payload column

    The column is JSONB: PostgreSQL gives an object back with its members in an order of its own. *)

Definition same_json (v w : json) : Prop := sort_keys v = sort_keys w.

(** What the table may answer for a row: the row, its payload the same object up to the order of the
    members of its objects.  (Two things PostgreSQL does are outside of the relation: a number comes back
    in its own notation, and a text with U+0000 is refused when the row is inserted.) *)
Definition read_back (row row' : EventRow) : Prop :=
  row' = {| er_event_id := er_event_id row; er_run_id := er_run_id row; er_tenant_id := er_tenant_id row;
            er_span_id := er_span_id row; er_parent_span_id := er_parent_span_id row;
            er_channel := er_channel row; er_event_type := er_event_type row; er_ts := er_ts row;
            er_pid := er_pid row; er_payload := er_payload row'; er_payload_hash := er_payload_hash row |} ∧
  same_json (JObj (er_payload row)) (JObj (er_payload row')).

Definition sorted_members (m : list (string * json)) : list (string * json) :=
  foldr insert_key [] (map (λ kv, (kv.1, sort_keys kv.2)) m).

(** The event with the arguments of a call in sorted order: the one place of an event that holds JSON. *)
Definition sorted_body (b : EventBody) : EventBody :=
  match b with
  | EToolCallStart e =>
      EToolCallStart {| tcs_agent_id := tcs_agent_id e; tool_name := tool_name e;
        tool_args := sorted_members (tool_args e); declared_purpose := declared_purpose e;
        tcs_tool_call_id := tcs_tool_call_id e; schema_hash := schema_hash e |}
  | _ => b
  end.

Definition sorted_event (e : BaseEvent) : BaseEvent :=
  {| event_id := event_id e; e_run_id := e_run_id e; e_tenant_id := e_tenant_id e; span_id := span_id e;
     parent_span_id := parent_span_id e; ts := ts e; pid := pid e; schema_version := schema_version e;
     body := sorted_body (body e) |}.

Lemma dget_map_snd {V W} (f : string → V → W) k (m : list (string * V)) :
  dget k (map (λ kv, (kv.1, f kv.1 kv.2)) m) = f k <$> dget k m.
Proof. induction m as [|[k' v] m IH]; simpl; [done|]. case_decide; [by subst|done]. Qed.

Definition sorted_values (d : list (string * json)) : list (string * json) :=
  map (λ kv, (kv.1, sort_keys kv.2)) d.

Lemma dget_sorted_values k d : dget k (sorted_values d) = sort_keys <$> dget k d.
Proof. apply (dget_map_snd (λ _, sort_keys)). Qed.

Lemma dkeys_sorted_values d : dkeys (sorted_values d) = dkeys d.
Proof. unfold dkeys, sorted_values. induction d as [|kv d IH]; [done|]. simpl. f_equal. exact IH. Qed.

Lemma dget_perm {V} k (d1 d2 : list (string * V)) : NoDup (dkeys d1) → d1 ≡ₚ d2 → dget k d1 = dget k d2.
Proof.
  intros Hnd Hp. assert (NoDup (dkeys d2)) as Hnd2 by (unfold dkeys in *; by rewrite <-Hp).
  destruct (dget k d1) as [v|] eqn:E.
  - symmetry. apply elem_of_dget; [done|]. rewrite <-Hp. by apply dget_elem_of.
  - symmetry. apply dget_None. apply dget_None in E. unfold dkeys in *. by rewrite <-Hp.
Qed.

(** Equal objects have equal members. *)
Lemma same_members m1 m2 k :
  NoDup (dkeys m1) → same_json (JObj m1) (JObj m2) → sort_keys <$> dget k m1 = sort_keys <$> dget k m2.
Proof.
  intros Hnd [= Hs]. rewrite <-!dget_sorted_values. apply dget_perm.
  - by rewrite dkeys_sorted_values.
  - rewrite <-(foldr_insert_key_perm (sorted_values m1)), <-(foldr_insert_key_perm (sorted_values m2)).
    unfold sorted_values. by rewrite Hs.
Qed.

Section read_body.
Context (pydantic_uuid : string → option uuid).

(** A body is read from the members of a dictionary, whatever the order of its members' members. *)
Lemma validate_body_ext etype d1 d2 :
  (∀ k, dget k d1 = dget k d2) → validate_body pydantic_uuid etype d1 = validate_body pydantic_uuid etype d2.
Proof.
  intros H. unfold validate_body, f_uuid, f_bytes, f_lit, f_opt, f_int, f_strs, f_str. by rewrite !H.
Qed.

Lemma all_str_sorted l : all_str (map sort_keys l) = all_str l.
Proof. induction l as [|[] l IH]; simpl; try done. by rewrite IH. Qed.

Lemma validate_body_sorted etype d :
  validate_body pydantic_uuid etype (sorted_values d) =
    sorted_body <$> validate_body pydantic_uuid etype d.
Proof.
  assert (∀ k, f_str k (sorted_values d) = f_str k d) as Hs.
  { intros k. unfold f_str. rewrite dget_sorted_values. by destruct (dget k d) as [[]|]. }
  assert (∀ A (f : string → option A) k, f_opt f k (sorted_values d) = f_opt f k d) as Ho.
  { intros A f k. unfold f_opt. rewrite dget_sorted_values. by destruct (dget k d) as [[]|]. }
  assert (∀ k z, f_int k z (sorted_values d) = f_int k z d) as Hi.
  { intros k z. unfold f_int. rewrite dget_sorted_values. by destruct (dget k d) as [[]|]. }
  assert (∀ k, f_strs k (sorted_values d) = f_strs k d) as Hl.
  { intros k. unfold f_strs. rewrite dget_sorted_values. destruct (dget k d) as [[]|]; try done.
    apply all_str_sorted. }
  unfold validate_body, f_uuid, f_bytes, f_lit. rewrite !Hs, !Ho, !Hi, !Hl, !dget_sorted_values.
  repeat (match goal with
    | |- context [if ?b then _ else _] => destruct b
    | |- context [?o ≫= _] =>
        lazymatch o with
        | _ ≫= _ => fail
        | match sort_keys <$> ?x with _ => _ end => destruct x as [[]|]
        | match ?x with _ => _ end => destruct x as [[]|]
        | _ => destruct o
        end
    end; cbn [mbind option_bind fmap option_fmap option_map sort_keys sorted_body]; try reflexivity).
Qed.

Lemma validate_body_same etype d1 d2 :
  (∀ k, sort_keys <$> dget k d1 = sort_keys <$> dget k d2) →
  sorted_body <$> validate_body pydantic_uuid etype d1 = sorted_body <$> validate_body pydantic_uuid etype d2.
Proof.
  intros H. rewrite <-!validate_body_sorted. apply validate_body_ext. intros k. by rewrite !dget_sorted_values.
Qed.

(** Reading a row does not depend on the order the table gives the members back in. *)
Lemma row_to_event_read_back row row' :
  NoDup (dkeys (er_payload row)) → read_back row row' →
  sorted_event <$> _row_to_event pydantic_uuid row' = sorted_event <$> _row_to_event pydantic_uuid row.
Proof.
  intros Hnd [-> Hs]. unfold _row_to_event. cbn [er_event_id er_run_id er_tenant_id er_span_id
    er_parent_span_id er_channel er_event_type er_ts er_pid er_payload].
  destruct (dget (er_event_type row) _MODEL_BY_TYPE) as [allowed|]; [|done]. cbn [mbind option_bind].
  assert (∀ k d, dget k (bfilter (λ kv, bool_decide (kv.1 ∈ allowed)) d) =
            if bool_decide (k ∈ allowed) then dget k d else @None json) as Hk
    by (intros k d; exact (dget_bfilter_key (λ k, bool_decide (k ∈ allowed)) k d)).
  pose proof (validate_body_same (er_event_type row)
    (bfilter (λ kv, bool_decide (kv.1 ∈ allowed)) (er_payload row'))
    (bfilter (λ kv, bool_decide (kv.1 ∈ allowed)) (er_payload row))
    ltac:(intros k; rewrite !Hk; destruct (bool_decide _); [symmetry; by apply same_members|done])) as Hv.
  destruct (validate_body _ _ (bfilter _ (er_payload row'))) as [b1|],
    (validate_body _ _ (bfilter _ (er_payload row))) as [b2|]; try discriminate Hv; [|done].
  injection Hv as Hb. cbn [mbind option_bind]. unfold channel. cbn [body].
  assert (∀ A (x y : A), match b1 with ESyscallOpenat _ _ | ESyscallConnect _ _ _ | ESyscallExecve _ _
            | ESyscallSendto _ _ _ | EDnsQuery _ _ => x | _ => y end =
          match b2 with ESyscallOpenat _ _ | ESyscallConnect _ _ _ | ESyscallExecve _ _
            | ESyscallSendto _ _ _ | EDnsQuery _ _ => x | _ => y end) as Hc.
  { intros A x y. destruct b1, b2; simpl in Hb; try discriminate Hb; done. }
  rewrite Hc. case_bool_decide; [|done]. unfold sorted_event. cbn. by rewrite Hb.
Qed.
End read_body.

(** ** The round trip *)

Lemma raw_payload_app b p :
  (∀ k, k ∈ dkeys p → k ∉ base_keys) →
  bfilter (λ kv, negb (bool_decide (kv.1 ∈ _BASE_KEYS))) (base_dict b ++ p) = p.
Proof.
  intros Hp. rewrite bfilter_app. unfold _BASE_KEYS.
  replace (bfilter _ (base_dict b)) with (@nil (string * json)) by reflexivity. simpl.
  apply bfilter_all. intros [k v] Hin. apply negb_true_iff, bool_decide_eq_false, Hp. simpl.
  unfold dkeys. apply list_elem_of_fmap. by exists (k, v).
Qed.

Section roundtrip.
Context (redact_text : string → string) (detect_entities : string → list string)
        (redact_at_rest : bool) (pydantic_uuid : string → option uuid).

(** The event a wire message stands for: identifiers in canonical form, typed fields, and the channel
    its class has. *)
Definition typed_event (w : WireEvent) (t : datetime) : option BaseEvent :=
  let b := w_base w in
  eid ← parse_uuid (wb_event_id b); rid ← parse_uuid (wb_run_id b);
  tid ← parse_uuid (wb_tenant_id b); sid ← parse_uuid (wb_span_id b);
  par ← (if str_truthy (wb_parent_span_id b) then Some <$> parse_uuid (wb_parent_span_id b)
         else Some None);
  bd ← typed_body pydantic_uuid (wb_event_type b) (w_payload w);
  let e := {| event_id := eid; e_run_id := rid; e_tenant_id := tid; span_id := sid;
              parent_span_id := par; ts := t; pid := if wb_pid b =? 0 then None else Some (wb_pid b);
              schema_version := 1; body := bd |} in
  if bool_decide (default "VOLUNTARY" (dget (wb_channel b) _CHANNEL_TO_STR) =
                    match channel e with VOLUNTARY => "VOLUNTARY" | INVOLUNTARY => "INVOLUNTARY" end)
  then Some e else None.

Lemma uuid_of_str s u : uuid_of (JStr s) = Ok u ↔ parse_uuid s = Some u.
Proof. unfold uuid_of, raise. destruct (parse_uuid s); naive_solver. Qed.

(** The row of a bridged event, field by field. *)
Lemma event_row_bridged b p t fresh row :
  str_truthy (wb_event_id b) = true → (∀ k, k ∈ dkeys p → k ∉ base_keys) →
  event_row redact_text detect_entities redact_at_rest (base_dict b ++ p) t fresh = Ok row →
  parse_uuid (wb_event_id b) = Some (er_event_id row) ∧
  parse_uuid (wb_run_id b) = Some (er_run_id row) ∧
  parse_uuid (wb_tenant_id b) = Some (er_tenant_id row) ∧
  parse_uuid (wb_span_id b) = Some (er_span_id row) ∧
  (if str_truthy (wb_parent_span_id b) then Some <$> parse_uuid (wb_parent_span_id b) else Some None)
    = Some (er_parent_span_id row) ∧
  er_channel row = default "VOLUNTARY" (dget (wb_channel b) _CHANNEL_TO_STR) ∧
  er_event_type row = wb_event_type b ∧ er_ts row = t ∧
  er_pid row = (if wb_pid b =? 0 then None else Some (wb_pid b)) ∧
  er_payload row = (_redact_payload redact_text detect_entities redact_at_rest p).1 ∧
  er_payload_hash row = payload_hash p.
Proof.
  intros Hid Hp. unfold event_row. rewrite raw_payload_app by done.
  set (d := base_dict b ++ p).
  change (jget "event_id" d) with (JStr (wb_event_id b)).
  change (at_key "run_id" d) with (@Ok PyExn json (JStr (wb_run_id b))).
  change (at_key "tenant_id" d) with (@Ok PyExn json (JStr (wb_tenant_id b))).
  change (at_key "span_id" d) with (@Ok PyExn json (JStr (wb_span_id b))).
  change (jget "parent_span_id" d) with (or_none (wb_parent_span_id b)).
  change (at_key "channel" d) with
    (@Ok PyExn json (JStr (default "VOLUNTARY" (dget (wb_channel b) _CHANNEL_TO_STR)))).
  change (at_key "event_type" d) with (@Ok PyExn json (JStr (wb_event_type b))).
  change (jget "pid" d) with (if wb_pid b =? 0 then JNull else JInt (wb_pid b)).
  cbn [result_bind py_truthy]. unfold or_none.
  fold (str_truthy (wb_event_id b)). rewrite Hid.
  intros Hr. apply result_bind_ok in Hr as (eid & He%uuid_of_str & Hr).
  apply result_bind_ok in Hr as (rid & Hrid%uuid_of_str & Hr).
  apply result_bind_ok in Hr as (tid & Htid%uuid_of_str & Hr).
  apply result_bind_ok in Hr as (sid & Hsid%uuid_of_str & Hr).
  apply result_bind_ok in Hr as (par & Hpar & Hr). injection Hr as <-. simpl.
  split_and!; try done; [|by destruct (wb_pid b =? 0)].
  destruct (str_truthy (wb_parent_span_id b)) eqn:E; simpl in Hpar.
  - fold (str_truthy (wb_parent_span_id b)) in Hpar. rewrite E in Hpar.
    apply result_bind_ok in Hpar as (u & Hu%uuid_of_str & [= <-]). by rewrite Hu.
  - by injection Hpar as <-.
Qed.

Lemma redact_payload_clean p :
  (_redact_payload redact_text detect_entities redact_at_rest p).2 = [] →
  (_redact_payload redact_text detect_entities redact_at_rest p).1 = p.
Proof.
  unfold _redact_payload. destruct (_ || _); [done|]. case_bool_decide; done.
Qed.

Lemma type_matches_model etype p : type_matches etype p = true → is_Some (dget etype _MODEL_BY_TYPE).
Proof.
  destruct p; simpl; try done; rewrite ?orb_true_iff, ?String.eqb_eq; intros H;
    repeat destruct H as [H|H]; subst; by eexists.
Qed.

(** The row of a clean event reads back as the typed event. *)
Lemma row_to_event_typed w d t fresh row :
  event_to_dict w = Ok d →
  event_row redact_text detect_entities redact_at_rest d t fresh = Ok row →
  str_truthy (wb_event_id (w_base w)) = true →
  type_matches (wb_event_type (w_base w)) (w_payload w) = true →
  (∀ p, _payload (w_payload w) = Ok p →
        (_redact_payload redact_text detect_entities redact_at_rest p).2 = []) →
  _row_to_event pydantic_uuid row = typed_event w t.
Proof.
  intros Hd Hr Hid Hty Hclean. apply event_to_dict_app in Hd as (p & Hp & ->).
  destruct (event_row_bridged _ _ _ _ _ Hid (proj2 (payload_keys _ _ Hp)) Hr)
    as (He & Hrun & Hten & Hspan & Hpar & Hch & Het & Hts & Hpid & Hpl & _).
  unfold typed_event. rewrite He, Hrun, Hten, Hspan, Hpar. cbn [mbind option_bind].
  unfold _row_to_event. rewrite Het.
  destruct (type_matches_model _ _ Hty) as [allowed Ha]. rewrite Ha. cbn [mbind option_bind].
  rewrite Hpl, (redact_payload_clean p) by auto.
  rewrite (validate_typed pydantic_uuid _ _ _ allowed Hty Hp Ha).
  destruct (typed_body _ _ _) as [b|]; [|done]. cbn [mbind option_bind]. by rewrite Hts, Hpid, Hch.
Qed.

Lemma row_payload_nodup w d t fresh row :
  event_to_dict w = Ok d →
  event_row redact_text detect_entities redact_at_rest d t fresh = Ok row →
  (∀ p, _payload (w_payload w) = Ok p →
        (_redact_payload redact_text detect_entities redact_at_rest p).2 = []) →
  NoDup (dkeys (er_payload row)).
Proof.
  intros Hd Hr Hclean. apply event_to_dict_app in Hd as (p & Hp & ->).
  destruct (payload_keys _ _ Hp) as [Hnd Hk]. unfold event_row in Hr. rewrite raw_payload_app in Hr by done.
  rewrite (redact_payload_clean p) in Hr by auto.
  repeat (apply result_bind_ok in Hr as (? & _ & Hr)).
  repeat case_match; try discriminate Hr; by injection Hr as <-.
Qed.

(** The message with the event id it is stored under: its own, or the fresh one if it has none. *)
Definition with_stored_id (w : WireEvent) (fresh : uuid) : WireEvent :=
  let b := w_base w in
  {| w_base := {| wb_event_id := if str_truthy (wb_event_id b) then wb_event_id b else fresh;
                  wb_run_id := wb_run_id b; wb_tenant_id := wb_tenant_id b; wb_span_id := wb_span_id b;
                  wb_parent_span_id := wb_parent_span_id b; wb_channel := wb_channel b;
                  wb_event_type := wb_event_type b; wb_ts_unix_ns := wb_ts_unix_ns b;
                  wb_pid := wb_pid b |};
     w_payload := w_payload w |}.

Lemma event_row_stored_id w d t fresh row :
  event_to_dict w = Ok d → parse_uuid fresh = Some fresh →
  event_row redact_text detect_entities redact_at_rest d t fresh = Ok row →
  ∃ d', event_to_dict (with_stored_id w fresh) = Ok d' ∧
        event_row redact_text detect_entities redact_at_rest d' t fresh = Ok row ∧
        str_truthy (wb_event_id (w_base (with_stored_id w fresh))) = true.
Proof.
  intros Hd Hf Hr. destruct (str_truthy (wb_event_id (w_base w))) eqn:E.
  { exists d. unfold with_stored_id. rewrite E. by destruct w as [[] p]. }
  apply event_to_dict_app in Hd as (p & Hp & ->). unfold with_stored_id. rewrite E.
  exists (base_dict (w_base (with_stored_id w fresh)) ++ p). unfold with_stored_id. rewrite E.
  split; [apply event_to_dict_app; by exists p|]. split; [|by destruct fresh].
  assert (∀ k, k ∈ dkeys p → k ∉ base_keys) as Hk by by apply (payload_keys (w_payload w)).
  rewrite <-Hr. unfold event_row. rewrite !raw_payload_app by done.
  assert (jget "event_id" (base_dict (w_base w) ++ p) = JStr (wb_event_id (w_base w))) as -> by done.
  assert (py_truthy (JStr (wb_event_id (w_base w))) = false) as -> by exact E.
  match goal with |- context [py_truthy (jget "event_id" (base_dict ?b ++ p))] =>
    assert (jget "event_id" (base_dict b ++ p) = JStr fresh) as -> by done end.
  assert (py_truthy (JStr fresh) = true) as -> by by destruct fresh.
  rewrite (proj2 (uuid_of_str fresh fresh) Hf). reflexivity.
Qed.

(** C6: storing an event and loading it again is the identity on its meaning.  Take a wire event whose
    announced type is the one of its payload and in whose text nothing is found to redact, the row made of
    it, and the row as the table gives it back.  What is read from that row is exactly the typed event the
    message stands for (and the row is skipped exactly when the message stands for none): header, channel,
    every field, bytes through their hexadecimal form, and the arguments of a call up to the order of their
    keys.  A message without an event id stands for the event with the fresh id the store draws. *)
Theorem store_load_roundtrip w d t fresh row row' :
  event_to_dict w = Ok d → parse_uuid fresh = Some fresh →
  event_row redact_text detect_entities redact_at_rest d t fresh = Ok row → read_back row row' →
  type_matches (wb_event_type (w_base w)) (w_payload w) = true →
  (∀ p, _payload (w_payload w) = Ok p →
        (_redact_payload redact_text detect_entities redact_at_rest p).2 = []) →
  sorted_event <$> _row_to_event pydantic_uuid row' = sorted_event <$> typed_event (with_stored_id w fresh) t.
Proof.
  intros Hd Hf Hr Hb Hty Hclean.
  destruct (event_row_stored_id w d t fresh row Hd Hf Hr) as (d' & Hd' & Hr' & Hid).
  rewrite (row_to_event_read_back pydantic_uuid row row'); [|by apply (row_payload_nodup w d t fresh)|done].
  by rewrite (row_to_event_typed _ d' t fresh row Hd' Hr' Hid Hty Hclean).
Qed.
End roundtrip.

(** ** Redaction *)

Section redaction.
Context (redact_text : string → string) (detect_entities : string → list string).

Notation walk := (_walk_and_redact redact_text).
Notation detect := (_detect_entities_skipping_structural detect_entities).

Lemma sorted_set_concat_nil {A} (f : A → list string) l :
  sorted_set (concat (map f l)) = [] ↔ ∀ x, x ∈ l → f x = [].
Proof.
  rewrite <-concat_map_nil. split; [|by intros ->]. intros Hs.
  destruct (concat (map f l)) as [|y ys] eqn:E; [done|]. exfalso.
  assert (y ∈ sorted_set (y :: ys)) as Hy by (apply elem_of_sorted_set; left).
  rewrite Hs in Hy. by apply elem_of_nil in Hy.
Qed.

Lemma detect_structural v key : structural key = true → detect v key = [].
Proof. intros H. destruct v; cbn [_detect_entities_skipping_structural]; by rewrite H. Qed.

Lemma walk_structural v key : structural key = true → walk v key = v.
Proof. intros H. destruct v; cbn [_walk_and_redact]; by rewrite H. Qed.

(** Nothing is left to find after a walk. *)
Lemma detect_walk v key : (∀ s, detect_entities (redact_text s) = []) → detect (walk v key) key = [].
Proof.
  intros Hlaw. revert key.
  induction v as [|b|z|lex|s|l IH|m IH] using json_ind; intros key;
    destruct (structural key) eqn:Hk; simpl; rewrite ?Hk; simpl; rewrite ?Hk; try done.
  - apply sorted_set_concat_nil. intros x (y & -> & Hy)%elem_of_map.
    rewrite Forall_forall in IH. by apply IH.
  - apply sorted_set_concat_nil. intros x (y & -> & Hy)%elem_of_map. simpl.
    rewrite Forall_forall in IH. by apply IH.
Qed.

Lemma elem_of_dset_inv {V} k v (m : list (string * V)) x : x ∈ dset k v m → x.1 = k ∨ x ∈ m.
Proof.
  induction m as [|[k' v'] m IH]; simpl.
  - intros ->%list_elem_of_singleton. by left.
  - case_decide as Hk; intros [->|Hx]%elem_of_cons; simpl; subst; [by left|right; by right|right; by left|].
    destruct (IH Hx); [by left|right; by right].
Qed.

(** Redaction at rest is complete and keeps what it must.  If the redactor leaves nothing of its own
    kinds to find in a text, nothing is left to find in the free text of a stored payload, at any depth;
    the kinds reported are those found before; no key is lost; and a value under a structural key is
    stored unchanged. *)
Theorem redaction_sound p :
  (∀ s, detect_entities (redact_text s) = []) →
  let stored := (_redact_payload redact_text detect_entities true p).1 in
  let found := (_redact_payload redact_text detect_entities true p).2 in
  detect (JObj stored) None = [] ∧
  found = detect (JObj p) None ∧
  (∀ k, k ∈ dkeys p → k ∈ dkeys stored) ∧
  (∀ k v, dget k p = Some v → structural (Some k) = true → k ≠ "_pii_redacted" →
          dget k stored = Some v).
Proof.
  intros Hlaw. unfold _redact_payload. cbv zeta. simpl negb.
  destruct (bool_decide (p = [])) eqn:Hp; [apply bool_decide_eq_true in Hp; by subst|]. simpl orb. cbv iota.
  destruct (bool_decide (detect (JObj p) None = [])) eqn:He; cbn [fst snd].
  { apply bool_decide_eq_true in He. rewrite He. split_and!; auto. }
  split_and!; [|done| |].
  - simpl. apply sorted_set_concat_nil. intros [k v] Hx.
    destruct (elem_of_dset_inv _ _ _ _ Hx) as [Hk|Hin].
    { simpl in Hk. subst k. by apply detect_structural. }
    apply elem_of_map in Hin as ([k' v'] & [= -> ->] & _). by apply detect_walk.
  - intros k Hk. rewrite elem_of_dkeys in Hk |- *. rewrite dget_dset. case_decide; [by eexists|].
    rewrite (dget_map_snd (λ k v, walk v (Some k))). destruct Hk as [v ->]. by eexists.
  - intros k v Hk Hs Hne. rewrite dget_dset, decide_False by done.
    rewrite (dget_map_snd (λ k v, walk v (Some k))), Hk. cbn [fmap option_fmap option_map].
    by rewrite walk_structural.
Qed.

(** A text under a structural key is stored as it came, also where the key is an argument the agent
    chose: the arguments of a call are walked with their own keys. *)
Lemma structural_argument_not_redacted s :
  detect_entities s ≠ [] →
  let call m := [("tool_args", JObj m)] in
  _redact_payload redact_text detect_entities true (call [("source", JStr s)]) =
    (call [("source", JStr s)], []).
Proof. done. Qed.

Lemma event_type_of_message pydantic_uuid row :
  er_event_type row = "agent.message" →
  f_uuid pydantic_uuid "sender_id" (bfilter (λ kv, bool_decide (kv.1 ∈ default [] (dget "agent.message" _MODEL_BY_TYPE))) (er_payload row)) = None →
  _row_to_event pydantic_uuid row = None.
Proof.
  intros Het Hf. unfold _row_to_event. rewrite Het. cbn [mbind option_bind].
  change (dget "agent.message" _MODEL_BY_TYPE) with
    (Some (default [] (dget "agent.message" _MODEL_BY_TYPE))). cbn [mbind option_bind].
  unfold validate_body. closed_tests. by rewrite Hf.
Qed.

(** The identifiers of an inter-agent message are not among the structural keys: when the redactor
    finds something in the sender's identifier and replaces it, the stored message is skipped on
    loading, so no detector sees it. *)
Theorem redacted_message_is_lost pydantic_uuid b sender receiver hash sig d t fresh row :
  event_to_dict {| w_base := b; w_payload := WAgentMessage sender receiver hash sig |} = Ok d →
  event_row redact_text detect_entities true d t fresh = Ok row →
  str_truthy (wb_event_id b) = true → wb_event_type b = "agent.message" → str_truthy sender = true →
  detect_entities sender ≠ [] → pydantic_uuid (redact_text sender) = None →
  _row_to_event pydantic_uuid row = None.
Proof.
  intros Hd Hr Hid Het Hs Hdet Hbad. apply event_to_dict_app in Hd as (p & Hp & ->). simpl in Hp.
  injection Hp as <-. set (p := [_; _; _; _]) in *.
  destruct (event_row_bridged redact_text detect_entities true pydantic_uuid b p t fresh row)
    as (_ & _ & _ & _ & _ & _ & Het' & _ & _ & Hpl & _); [done| |done|].
  { apply (payload_keys (WAgentMessage sender receiver hash sig)). done. }
  apply event_type_of_message; [by rewrite Het'|]. rewrite Hpl. unfold _redact_payload. simpl negb.
  rewrite (bool_decide_false (p = [])) by done. simpl orb. cbv iota.
  destruct (bool_decide (detect (JObj p) None = [])) eqn:He.
  - exfalso. apply bool_decide_eq_true in He. apply sorted_set_concat_nil with (x := ("sender_id", or_none sender)) in He; [|left].
    unfold or_none in He. by rewrite Hs in He.
  - unfold p, or_none. rewrite Hs. simpl. unfold f_uuid, f_str. simpl. by rewrite Hbad.
Qed.
End redaction.

(** ** The life of a run *)

Section run_life.
Context (redact_text : string → string) (detect_entities : string → list string)
        (redact_at_rest : bool).

Inductive db_op :=
| OpUpsert (rid tenant_id : uuid) (goal : option string)
| OpComplete (rid : uuid) (now : datetime)
| OpReap (now : datetime)
| OpGoal (rid : uuid) (goal : string)
| OpEvent (event : list (string * json)) (t : datetime) (fresh : uuid)
| OpDecision (event_id : uuid) (d : string) (votes : list (string * json)) (latency : Z) (fresh : uuid).

Definition db_step (db : Db) (op : db_op) : Db :=
  match op with
  | OpUpsert rid t g => (upsert_run rid t g db).1
  | OpComplete rid now => mark_run_completed rid now db
  | OpReap now => (reap_orphaned_runs now db).1
  | OpGoal rid g => update_run_declared_goal rid g db
  | OpEvent e t fresh => (store_event redact_text detect_entities redact_at_rest e t fresh db).1
  | OpDecision eid d v l fresh => (store_gate_decision eid d v l fresh db).1
  end.

(** A row is stored under its key, has a status the operations use, and has ended unless it runs. *)
Definition run_ok (rid : uuid) (r : Run) : Prop :=
  run_id r = rid ∧ status r ∈ ["running"; "completed"; "aborted"] ∧
  (ended_at r = None ↔ status r = "running").

(** What may happen to a row: its tenant stays, a final status stays with its time, and a goal once
    recorded stays. *)
Definition evolves (r r' : Run) : Prop :=
  run_tenant_id r' = run_tenant_id r ∧
  (status r ≠ "running" → status r' = status r ∧ ended_at r' = ended_at r) ∧
  (ostr_truthy (run_declared_goal r) = true → run_declared_goal r' = run_declared_goal r).

#[export] Instance evolves_preorder : PreOrder evolves.
Proof.
  split; [intros r; by split_and!|]. intros r1 r2 r3 (H1 & H2 & H3) (H4 & H5 & H6).
  split_and!; [congruence| |].
  - intros Hs. destruct (H2 Hs) as [E1 E2]. destruct H5 as [E3 E4]; [congruence|]. split; congruence.
  - intros Hg. rewrite H6; [auto|]. by rewrite H3.
Qed.

Definition runs_ok (db : Db) : Prop := ∀ rid r, runs db !! rid = Some r → run_ok rid r.

Definition run_steps (db db' : Db) : Prop :=
  ∀ rid r, runs db !! rid = Some r → ∃ r', runs db' !! rid = Some r' ∧ evolves r r'.

Lemma set_run_step db r r' :
  runs db !! run_id r' = Some r → runs_ok db → run_ok (run_id r') r' → evolves r r' →
  runs_ok (set_run r' db) ∧ run_steps db (set_run r' db).
Proof.
  intros Hr Hdb Hok He. split.
  - intros rid x. simpl. rewrite lookup_insert. case_decide as Hd; [|by apply Hdb].
    intros [= <-]. by subst.
  - intros rid x Hx. simpl. rewrite lookup_insert. case_decide as Hd.
    + subst. rewrite Hr in Hx. simplify_eq. eauto.
    + exists x. by split.
Qed.

Lemma db_step_runs op db : runs_ok db → runs_ok (db_step db op) ∧ run_steps db (db_step db op).
Proof.
  intros Hdb.
  assert (∀ db', runs db' = runs db → runs_ok db' ∧ run_steps db db') as Hsame.
  { intros db' Heq. unfold runs_ok, run_steps. rewrite Heq. split; [done|]. intros rid r ?. by exists r. }
  destruct op as [rid t g|rid now|now|rid g|e t fresh|eid d v l fresh]; simpl.
  - unfold upsert_run. destruct (runs db !! rid) eqn:Hr; [by apply Hsame|].
    case_bool_decide; [|by apply Hsame]. simpl. split.
    + intros i x. simpl. rewrite lookup_insert. case_decide as Hd; [|by apply Hdb].
      intros [= <-]. split_and!; [done|by_decision|done].
    + intros i x Hx. simpl. rewrite lookup_insert_ne by (intros ->; congruence). by exists x.
  - unfold mark_run_completed. destruct (runs db !! rid) as [r|] eqn:Hr; [|by apply Hsame].
    destruct (Hdb _ _ Hr) as (Hid & Hs & He).
    destruct (String.eqb (status r) "running") eqn:Es; [|by apply Hsame].
    apply String.eqb_eq in Es. apply (set_run_step db r); simpl; [by rewrite Hid|done| |].
    + split_and!; [done|by_decision|done].
    + by split_and!.
  - split.
    + intros rid x. simpl. rewrite lookup_fmap. destruct (runs db !! rid) as [r|] eqn:Hr; [|done].
      destruct (Hdb _ _ Hr) as (Hid & Hs & He). intros [= <-]. unfold reap.
      destruct (String.eqb (status r) "running"); [|done]. split_and!; [done|by_decision|done].
    + intros rid r Hr. simpl. rewrite lookup_fmap, Hr. eexists. split; [done|]. unfold reap.
      destruct (String.eqb (status r) "running") eqn:Es; [|done]. apply String.eqb_eq in Es.
      by split_and!.
  - unfold update_run_declared_goal. destruct (runs db !! rid) as [r|] eqn:Hr; [|by apply Hsame].
    destruct (Hdb _ _ Hr) as (Hid & Hs & He).
    destruct (ostr_truthy (run_declared_goal r)) eqn:Eg; [by apply Hsame|].
    apply (set_run_step db r); simpl; [by rewrite Hid|done|done|]. split_and!; simpl; [done..|].
    by rewrite Eg.
  - apply Hsame. unfold store_event. destruct (event_row _ _ _ _ _ _); [|done].
    by destruct (_ || _).
  - apply Hsame. unfold store_gate_decision. by destruct (_ && _).
Qed.

(** Whatever operations are applied, in whatever order, to tables whose runs are in order: every run
    has status running, completed or aborted and an end time exactly unless it is running; the tenant
    of a run, its final status with its end time, and its recorded goal never change; and just after
    the start-up sweep no run is running. *)
Theorem run_lifecycle db ops :
  (∀ rid r, runs db !! rid = Some r → run_ok rid r) →
  let db' := foldl db_step db ops in
  (∀ rid r, runs db' !! rid = Some r → run_ok rid r) ∧
  (∀ rid r, runs db !! rid = Some r → ∃ r', runs db' !! rid = Some r' ∧ evolves r r') ∧
  (∀ now rid r, runs (reap_orphaned_runs now db').1 !! rid = Some r → status r ≠ "running").
Proof.
  intros Hdb. cbv zeta.
  assert (runs_ok (foldl db_step db ops) ∧ run_steps db (foldl db_step db ops)) as [Hok Hst].
  { induction ops as [|op ops IH] using rev_ind; [split; [done|]; intros rid r Hr; by exists r|].
    rewrite foldl_snoc. destruct IH as [IH1 IH2]. destruct (db_step_runs op _ IH1) as [H1 H2].
    split; [done|]. intros rid r Hr. destruct (IH2 _ _ Hr) as (r1 & Hr1 & He1).
    destruct (H2 _ _ Hr1) as (r2 & Hr2 & He2). exists r2. split; [done|]. by etrans. }
  split_and!; [exact Hok|exact Hst|].
  intros now rid r. simpl. rewrite lookup_fmap.
  destruct (runs _ !! rid) as [r0|]; [|done]. intros [= <-]. unfold reap.
  destruct (String.eqb (status r0) "running") eqn:Es; simpl; [done|]. by apply String.eqb_neq.
Qed.
End run_life.

(** ** Witnesses *)

Definition u1 : uuid := "00000000-0000-7000-8000-000000000001".
Definition u2 : uuid := "00000000-0000-7000-8000-000000000002".
Definition u3 : uuid := "00000000-0000-7000-8000-000000000003".

Definition sample_wire (etype : string) (p : WirePayload) : WireEvent :=
  {| w_base := {| wb_event_id := u1; wb_run_id := u2; wb_tenant_id := u3; wb_span_id := u1;
                  wb_parent_span_id := ""; wb_channel := 1; wb_event_type := etype;
                  wb_ts_unix_ns := 1; wb_pid := 0 |};
     w_payload := p |}.

(** A redactor that takes e-mail addresses and, as the source says of Presidio, identifiers. *)
Definition tag_entities (s : string) : list string :=
  if bool_decide (is_Some (parse_uuid s)) then ["ORGANIZATION"]
  else if contains "@" s then ["EMAIL_ADDRESS"] else [].

Definition tag_text (s : string) : string :=
  if bool_decide (is_Some (parse_uuid s)) then "<ORGANIZATION>"
  else if contains "@" s then "<EMAIL_ADDRESS>" else s.

Definition no_row : EventRow :=
  {| er_event_id := ""; er_run_id := ""; er_tenant_id := ""; er_span_id := ""; er_parent_span_id := None;
     er_channel := ""; er_event_type := ""; er_ts := 0; er_pid := None; er_payload := [];
     er_payload_hash := "" |}.

Definition row_of (w : WireEvent) : EventRow :=
  match (let! d := event_to_dict w in event_row tag_text tag_entities true d 5 "") with
  | Ok r => r
  | Raise _ => no_row
  end.

(** A message without an event id, and its row as a table might give it back: members reversed. *)
Definition anonymous_wire : WireEvent :=
  let w := sample_wire "tool_call.start" (WToolCallStart u2 "search"
             (dumps spaced (JObj [("q", JStr "x"); ("n", JInt 3)])) "" u3 "") in
  let b := w_base w in
  {| w_base := {| wb_event_id := ""; wb_run_id := wb_run_id b; wb_tenant_id := wb_tenant_id b;
                  wb_span_id := wb_span_id b; wb_parent_span_id := ""; wb_channel := 1;
                  wb_event_type := wb_event_type b; wb_ts_unix_ns := 1; wb_pid := 0 |};
     w_payload := w_payload w |}.

Definition anonymous_row (payload : list (string * json)) (hash : string) : EventRow :=
  {| er_event_id := u2; er_run_id := u2; er_tenant_id := u3; er_span_id := u1; er_parent_span_id := None;
     er_channel := "VOLUNTARY"; er_event_type := "tool_call.start"; er_ts := 5; er_pid := None;
     er_payload := payload; er_payload_hash := hash |}.

Definition anonymous_payload (args : list (string * json)) : list (string * json) :=
  [("agent_id", JStr u2); ("tool_name", JStr "search"); ("tool_args", JObj args);
   ("declared_purpose", JNull); ("tool_call_id", JStr u3); ("schema_hash", JNull)].

Lemma store_load_roundtrip_witness :
  let row' := anonymous_row (reverse (anonymous_payload [("n", JInt 3); ("q", JStr "x")]))
                (payload_hash (anonymous_payload [("q", JStr "x"); ("n", JInt 3)])) in
  sorted_event <$> _row_to_event parse_uuid row' =
    sorted_event <$> typed_event parse_uuid (with_stored_id anonymous_wire u2) 5 ∧
  event_id <$> typed_event parse_uuid (with_stored_id anonymous_wire u2) 5 = Some u2.
Proof.
  intros row'. split; [|vm_compute; reflexivity].
  set (p := anonymous_payload [("q", JStr "x"); ("n", JInt 3)]).
  assert (event_to_dict anonymous_wire = Ok (base_dict (w_base anonymous_wire) ++ p)) as Hd
    by (vm_compute; reflexivity).
  assert (event_row tag_text tag_entities true (base_dict (w_base anonymous_wire) ++ p) 5 u2 =
            Ok (anonymous_row p (payload_hash p))) as Hr by (vm_compute; reflexivity).
  apply (store_load_roundtrip tag_text tag_entities true parse_uuid anonymous_wire _ 5 u2
           (anonymous_row p (payload_hash p)) row' Hd); [vm_compute; reflexivity|exact Hr| |done|].
  - split; [reflexivity|vm_compute; reflexivity].
  - intros p' Hp. assert (_payload (w_payload anonymous_wire) = Ok p) as Hp' by (vm_compute; reflexivity).
    rewrite Hp' in Hp. injection Hp as <-. vm_compute. reflexivity.
Defined.

Lemma redaction_sound_witness :
  (_redact_payload tag_text tag_entities true [("intent", JStr "write to a@b.test")]).1 =
    [("intent", JStr "<EMAIL_ADDRESS>"); ("_pii_redacted", JArr [JStr "EMAIL_ADDRESS"])] ∧
  _detect_entities_skipping_structural tag_entities (JObj
    (_redact_payload tag_text tag_entities true [("intent", JStr "write to a@b.test")]).1) None = [].
Proof.
  split; [by vm_compute|]. apply (redaction_sound tag_text tag_entities).
  intros s. unfold tag_text, tag_entities.
  destruct (bool_decide (is_Some (parse_uuid s))) eqn:E1; [by vm_compute|].
  destruct (contains "@" s) eqn:E2; [by vm_compute|]. by rewrite E1, E2.
Defined.

Lemma redacted_message_is_lost_witness :
  let w := sample_wire "agent.message" (WAgentMessage u2 u3 "h" "s") in
  _row_to_event parse_uuid (row_of w) = None ∧ is_Some (typed_event parse_uuid w 5).
Proof.
  cbv zeta. split; [|by_decision].
  eapply (redacted_message_is_lost tag_text tag_entities parse_uuid (w_base (sample_wire "agent.message" WNoPayload))
    u2 u3 "h" "s" _ 5 ""); [vm_compute; reflexivity|vm_compute; reflexivity|done|done|done|by vm_compute|by vm_compute].
Defined.

Lemma run_lifecycle_witness :
  let db := {| tenants := {[ u3 ]}; runs := ∅; event_rows := []; gate_decisions := [] |} in
  let ops := [OpUpsert u1 u3 None; OpGoal u1 "g"; OpGoal u1 "h"; OpComplete u1 7; OpComplete u1 9] in
  let db' := foldl (db_step tag_text tag_entities true) db ops in
  (∀ rid r, runs db' !! rid = Some r → run_ok rid r) ∧
  (λ r, (status r, ended_at r, run_declared_goal r)) <$> runs db' !! u1 =
    Some ("completed", Some 7, Some "g").
Proof.
  intros db ops db'. split; [|by vm_compute].
  assert (∀ rid r, runs db !! rid = Some r → run_ok rid r) as Hdb.
  { intros rid r Hr. unfold db in Hr. simpl in Hr. by rewrite lookup_empty in Hr. }
  exact (proj1 (run_lifecycle tag_text tag_entities true db ops Hdb)).
Defined.
