(* ===== verification/Dispatch.v ===== *)
(** * The dispatcher and its client

    Models [auditor/ipc/dispatch.py] ([GateDispatcher]) over the inline gate and any store, and the
    gate request of the client in [harness/telemetry/sdk.py].  The store is an interface without laws:
    every operation may fail, and the theorems hold for all of them. *)

From Stdlib Require Import ZArith Lia Ascii.
From Stdlib Require String.
From stdpp Require Import base tactics option list strings gmap sorting.
From S2P Require Import Prelude PyStr Float64 Json Budget Gate Ipc Bridge Store.

Local Open Scope Z_scope.

(** ** What the dispatcher asks of the store *)

Class RunStore (D : Type) := {
  db_upsert_run : uuid → uuid → D → D * result PyExn ();
  db_store_event : list (string * json) → D → D * result PyExn uuid;
  db_store_gate_decision : uuid → string → list (string * json) → D → D * result PyExn ();
  db_update_goal : uuid → string → D → D * result PyExn ();
  db_mark_completed : uuid → D → D * result PyExn ()
}.

(** Frames, parsed. *)
Inductive Frame :=
| FEvent (ev : WireEvent)
| FReq (ev : WireEvent)
| FHeartbeat
| FSeccompUpdate.

Record GateDecisionResponse := { resp_decision : Z; resp_reasons : list string }.

#[export] Instance GateDecisionResponse_eq_dec : EqDecision GateDecisionResponse.
Proof. solve_decision. Defined.

(** The gate's own state is the policy client's and the Redis client's. *)
Record Dispatcher (G D : Type) := {
  gate_state : G;
  db : D;
  _known_runs : gset string;
  audits : list uuid
}.
Arguments gate_state {G D}.
Arguments db {G D}.
Arguments _known_runs {G D}.
Arguments audits {G D}.
Arguments Build_Dispatcher {G D}.

Section dispatcher.
Context {G D : Type} `{RunStore D}.
(** [decide] for an event and a run. *)
Context (decide_event : list (string * json) → string → G → G * result PyExn GateOutcome).
Notation Disp := (Dispatcher G D).

Definition with_db (s : Disp) (d : D) : Disp :=
  {| gate_state := gate_state s; db := d; _known_runs := _known_runs s; audits := audits s |}.

Definition with_known (s : Disp) (k : gset string) : Disp :=
  {| gate_state := gate_state s; db := db s; _known_runs := k; audits := audits s |}.

Definition parse_id (s : string) : result PyExn uuid := uuid_of (JStr s).

Definition on_connect (identity : option PeerIdentity) (s : Disp) : Disp * result PyExn () :=
  match identity with
  | None => (s, Ok tt)
  | Some i =>
      match parse_id (peer_run_id i), parse_id (peer_tenant_id i) with
      | Ok r, Ok t =>
          let '(d, o) := db_upsert_run r t (db s) in
          match o with
          | Ok _ => (with_known (with_db s d) (_known_runs s ∪ {[ peer_run_id i ]}), Ok tt)
          | Raise e => (with_db s d, Raise e)
          end
      | Raise e, _ | _, Raise e => (s, Raise e)
      end
  end.

Definition _ensure_run_row (run_id tenant_id : json) (s : Disp) : Disp :=
  match run_id, tenant_id with
  | JStr r, JStr t =>
      if negb (str_truthy r) || negb (str_truthy t) || bool_decide (r ∈ _known_runs s) then s
      else
        match parse_id r, parse_id t with
        | Ok ru, Ok tu =>
            let '(d, o) := db_upsert_run ru tu (db s) in
            if is_ok o then with_known (with_db s d) (_known_runs s ∪ {[ r ]}) else with_db s d
        | _, _ => s
        end
  | _, _ => s
  end.

Definition _store (ev : WireEvent) (s : Disp) : Disp * result PyExn () :=
  match event_to_dict ev with
  | Raise e => (s, Raise e)
  | Ok event_dict =>
      let s1 := _ensure_run_row (jget "run_id" event_dict) (jget "tenant_id" event_dict) s in
      let '(d, o) := db_store_event event_dict (db s1) in
      let s2 := with_db s1 d in
      match o with
      | Raise _ => (s2, Ok tt)
      | Ok _ =>
          if bool_decide (jget "event_type" event_dict = JStr "intent.declare") then
            match jget "run_id" event_dict, jget "intent" event_dict with
            | JStr r, JStr i =>
                if str_truthy r && str_truthy i then
                  match parse_id r with
                  | Ok ru => (with_db s2 (db_update_goal ru i d).1, Ok tt)
                  | Raise _ => (s2, Ok tt)
                  end
                else (s2, Ok tt)
            | _, _ => (s2, Ok tt)
            end
          else (s2, Ok tt)
      end
  end.

(** The repeated field holds texts. *)
Fixpoint text_reasons (l : list json) : result PyExn (list string) :=
  match l with
  | [] => Ok []
  | JStr x :: l' => let! xs := text_reasons l' in Ok (x :: xs)
  | v :: _ => raise "TypeError" ("bad argument type for built-in operation: " +:+ json_type v)
  end.

Definition gate_response (g : GateOutcome) : result PyExn GateDecisionResponse :=
  let! rs := text_reasons (g_reasons g) in
  Ok {| resp_decision := decision_to_proto (g_decision g); resp_reasons := rs |}.

Definition _gate (ev : WireEvent) (s : Disp) : Disp * result PyExn GateDecisionResponse :=
  match event_to_dict ev with
  | Raise e => (s, Raise e)
  | Ok event_dict =>
      let s1 := _ensure_run_row (jget "run_id" event_dict) (jget "tenant_id" event_dict) s in
      let '(d, event_id) := db_store_event event_dict (db s1) in
      let '(g', o) := decide_event event_dict (wb_run_id (w_base ev)) (gate_state s1) in
      let s2 := {| gate_state := g'; db := d; _known_runs := _known_runs s1; audits := audits s1 |} in
      match o with
      | Raise e => (s2, Raise e)
      | Ok outcome =>
          let s3 := match event_id with
                    | Ok eid => with_db s2 (db_store_gate_decision eid (g_decision outcome)
                                              (g_votes outcome) d).1
                    | Raise _ => s2
                    end in
          (s3, gate_response outcome)
      end
  end.

(** [on_frame]: the response, if the frame asks for one. *)
Definition on_frame (frame : Frame) (s : Disp) : Disp * result PyExn (option GateDecisionResponse) :=
  match frame with
  | FEvent ev => let '(s', o) := _store ev s in (s', let! _ := o in Ok None)
  | FReq ev => let '(s', o) := _gate ev s in (s', let! r := o in Ok (Some r))
  | FHeartbeat | FSeccompUpdate => (s, Ok None)
  end.

(** [on_disconnect]: the audits it schedules.  Without an identity every known run is audited. *)
Definition on_disconnect (identity : option PeerIdentity) (s : Disp) : Disp * result PyExn () :=
  match identity with
  | None =>
      ({| gate_state := gate_state s; db := db s; _known_runs := ∅;
          audits := audits s ++ omap (λ r, match parse_id r with Ok u => Some u | Raise _ => None end)
                                  (elements (_known_runs s)) |}, Ok tt)
  | Some i =>
      match parse_id (peer_run_id i), parse_id (peer_tenant_id i) with
      | Ok r, Ok _ =>
          ({| gate_state := gate_state s; db := (db_mark_completed r (db s)).1;
              _known_runs := _known_runs s; audits := audits s ++ [r] |}, Ok tt)
      | Raise e, _ | _, Raise e => (s, Raise e)
      end
  end.

(** ** Storage does not decide *)

Lemma ensure_gate_state rid tid s : gate_state (_ensure_run_row rid tid s) = gate_state s.
Proof.
  unfold _ensure_run_row. destruct rid as [| | | |r| |], tid as [| | | |t| |]; try done.
  destruct (_ || _); [done|]. destruct (parse_id r) as [ru|e]; [|done].
  destruct (parse_id t) as [tu|e]; [|done]. by destruct (db_upsert_run ru tu (db s)) as [d [|]].
Qed.

(** The gate's answer as a function of the event and the gate's state alone. *)
Definition gate_answer (ev : WireEvent) (g : G) : G * result PyExn GateDecisionResponse :=
  match event_to_dict ev with
  | Raise e => (g, Raise e)
  | Ok d => let '(g', o) := decide_event d (wb_run_id (w_base ev)) g in
            (g', let! outcome := o in gate_response outcome)
  end.

Lemma gate_answers_alone ev s :
  (gate_state (_gate ev s).1, (_gate ev s).2) = gate_answer ev (gate_state s).
Proof.
  unfold _gate, gate_answer. destruct (event_to_dict ev) as [d|e]; [|done].
  destruct (db_store_event d _) as [d' eid]. rewrite ensure_gate_state.
  destruct (decide_event d _ _) as [g' [outcome|e]]; [|done]. by destruct eid.
Qed.
End dispatcher.

(** ** Any two stores *)

(** What the client makes of a response: [_DECISION_TO_STR.get(resp.decision, "DENY")]. *)
Definition sdk_decision (r : GateDecisionResponse) : string :=
  if resp_decision r =? ALLOW then "ALLOW"
  else if resp_decision r =? DENY then "DENY"
  else if resp_decision r =? CONFIRM then "CONFIRM" else "DENY".

Lemma sdk_decision_proto d rs :
  d ∈ dkeys _SEVERITY →
  sdk_decision {| resp_decision := decision_to_proto d; resp_reasons := rs |} = d.
Proof.
  unfold sdk_decision. simpl. rewrite !elem_of_cons, elem_of_nil. intros [->|[->|[->|[]]]]; by vm_compute.
Qed.

Lemma combine_known subs g : combine subs = Ok g → g_decision g ∈ dkeys _SEVERITY.
Proof.
  unfold combine. intros (d & Hd & [= <-])%result_bind_ok. cbn [g_decision]. unfold final_decision in Hd.
  apply result_bind_ok in Hd as (ds & Hds & Hd). apply severities_ok in Hds as [_ Hall].
  destruct ds as [|x xs]; [injection Hd as <-; by_decision|].
  injection Hd as <-. rewrite Forall_forall in Hall. destruct (max_by_spec snd x xs) as [Hin _].
  apply elem_of_dkeys. rewrite (Hall _ Hin). by eexists.
Qed.

Lemma gate_decide_known {O C} (ope : json → O → O * result PyExn SubDecision)
    (chk : string → string → C → C * result PyExn SubDecision) (pii : string → result PyExn SubDecision)
    event run o c g :
  (gate_decide ope chk pii event run o c).2 = Ok g → g_decision g ∈ dkeys _SEVERITY.
Proof.
  unfold gate_decide. destruct (opa_check ope event o) as [o' d].
  destruct (budget_vote chk run event c) as [c' b]. simpl.
  intros (b' & _ & Hg)%result_bind_ok. apply result_bind_ok in Hg as (p & _ & Hg). by eapply combine_known.
Qed.

(** The decision function of a dispatcher whose gate state is the two clients' states. *)
Definition gate_of {O C} (ope : json → O → O * result PyExn SubDecision)
    (chk : string → string → C → C * result PyExn SubDecision) (pii : string → result PyExn SubDecision)
    (event : list (string * json)) (run : string) (g : O * C) : (O * C) * result PyExn GateOutcome :=
  gate_decide ope chk pii event run g.1 g.2.

(** Storage does not decide.  For two dispatchers in the same gate state, over any two stores in any
    states, however their operations fail, a gate request gets the same answer and leaves the same gate
    state; and when it is answered, what the client understands is the decision of the gate on the
    event. *)
Theorem store_cannot_change_decision {O C D1 D2} `{RunStore D1} `{RunStore D2}
    (ope : json → O → O * result PyExn SubDecision)
    (chk : string → string → C → C * result PyExn SubDecision) (pii : string → result PyExn SubDecision)
    (s1 : Dispatcher (O * C) D1) (s2 : Dispatcher (O * C) D2) ev :
  gate_state s1 = gate_state s2 →
  let r1 := _gate (gate_of ope chk pii) ev s1 in
  let r2 := _gate (gate_of ope chk pii) ev s2 in
  r1.2 = r2.2 ∧ gate_state r1.1 = gate_state r2.1 ∧
  ∀ resp, r1.2 = Ok resp →
    ∃ d g, event_to_dict ev = Ok d ∧
      (gate_of ope chk pii d (wb_run_id (w_base ev)) (gate_state s1)).2 = Ok g ∧
      sdk_decision resp = g_decision g.
Proof.
  intros Hg. cbv zeta.
  pose proof (gate_answers_alone (gate_of ope chk pii) ev s1) as H1.
  pose proof (gate_answers_alone (gate_of ope chk pii) ev s2) as H2.
  rewrite <-Hg, <-H1 in H2. injection H2 as E1 E2. split_and!; [done..|].
  intros resp Hr. rewrite Hr in H1. unfold gate_answer in H1.
  destruct (event_to_dict ev) as [d|e]; [|done]. exists d.
  destruct (gate_of ope chk pii d _ _) as [g' o] eqn:Eg. injection H1 as _ Ho. symmetry in Ho.
  apply result_bind_ok in Ho as (g & -> & Hgr). exists g. split_and!; [done..|].
  unfold gate_response in Hgr. apply result_bind_ok in Hgr as (rs & _ & [= <-]).
  apply sdk_decision_proto. apply (gate_decide_known ope chk pii d (wb_run_id (w_base ev))
    (gate_state s1).1 (gate_state s1).2). unfold gate_of in Eg. by rewrite Eg.
Qed.

(** ** The dispatcher over the tables *)

#[export] Program Instance Db_store (redact : string → string) (detect : string → list string)
    (now : datetime) (fresh : uuid) : RunStore Db := {
  db_upsert_run r t d := upsert_run r t None d;
  db_store_event e d := store_event redact detect true e now fresh d;
  db_store_gate_decision eid dec votes d :=
    let '(d', r) := store_gate_decision eid dec votes 0 fresh d in (d', let! _ := r in Ok tt);
  db_update_goal r g d := (update_run_declared_goal r g d, Ok tt);
  db_mark_completed r d := (mark_run_completed r now d, Ok tt)
}.

(** ** Disconnection without an identity *)

Section disconnect.
Context {G D : Type} `{RunStore D}.

(** Without an identity the end of any one connection schedules an audit for every run the
    dispatcher knows, those of connections that are still open included, and forgets them all: the
    audits scheduled are those of all known runs whose identifier reads as a UUID, each once. *)
Theorem disconnect_audits_every_known_run (s : Dispatcher G D) :
  let s' := (on_disconnect None s).1 in
  _known_runs s' = ∅ ∧ db s' = db s ∧
  ∃ new, audits s' = audits s ++ new ∧
    length new = length (bfilter (λ r, is_ok (parse_id r)) (elements (_known_runs s))) ∧
    ∀ u, u ∈ new ↔ ∃ r, r ∈ _known_runs s ∧ parse_id r = Ok u.
Proof.
  cbv zeta. simpl. split_and!; [done..|]. eexists. split; [done|]. split.
  - generalize (elements (_known_runs s)). intros l. induction l as [|r l IH]; [done|].
    rewrite bfilter_cons. simpl. destruct (parse_id r); simpl; [f_equal|]; exact IH.
  - intros u. rewrite list_elem_of_omap. setoid_rewrite elem_of_elements. split.
    + intros (r & Hr & Hu). exists r. split; [done|]. by destruct (parse_id r); simplify_eq.
    + intros (r & Hr & Hu). exists r. split; [done|]. by rewrite Hu.
Qed.
End disconnect.

(** A store whose every operation fails. *)
#[export] Instance broken_store : RunStore () := {
  db_upsert_run _ _ d := (d, raise "OperationalError" "down");
  db_store_event _ d := (d, raise "OperationalError" "down");
  db_store_gate_decision _ _ _ d := (d, raise "OperationalError" "down");
  db_update_goal _ _ d := (d, raise "OperationalError" "down");
  db_mark_completed _ d := (d, raise "OperationalError" "down")
}.

Definition with_store {D} (d : D) : Dispatcher (OpaClient * RedisTable) D :=
  {| gate_state := (fresh_client, no_keys); db := d; _known_runs := ∅; audits := [] |}.

Definition example_gate : list (string * json) → string → OpaClient * RedisTable →
    (OpaClient * RedisTable) * result PyExn GateOutcome :=
  gate_of (λ i, evaluate allow_all i (Float64.of_Z 0)) (λ r tool, budget_check r tool 0)
    (λ text, evaluate_outbound finds_ssn text false).

Definition example_db : Db :=
  {| tenants := {[ u3 ]}; runs := ∅; event_rows := []; gate_decisions := [] |}.

Definition example_request : WireEvent :=
  sample_wire "tool_call.start" (WToolCallStart u2 "send_email" (dumps spaced (JObj [("body", JStr "078-05-1120")])) "" u3 "").

Lemma store_cannot_change_decision_witness :
  let r1 := @_gate _ Db (Db_store tag_text tag_entities 5 u2) example_gate example_request (with_store example_db) in
  let r2 := @_gate _ () broken_store example_gate example_request (with_store ()) in
  r1.2 = r2.2 ∧ result_map sdk_decision r2.2 = Ok "DENY" ∧ length (event_rows (db r1.1)) = 1%nat.
Proof.
  intros r1 r2. split; [|split; [by vm_compute|by vm_compute]].
  destruct (store_cannot_change_decision (H := Db_store tag_text tag_entities 5 u2) (H0 := broken_store)
    (λ i, evaluate allow_all i (Float64.of_Z 0)) (λ r tool, budget_check r tool 0)
    (λ text, evaluate_outbound finds_ssn text false) (with_store example_db) (with_store ())
    example_request eq_refl) as [Heq _].
  exact Heq.
Defined.
