(* ===== verification/Sdk.v ===== *)
(** * The telemetry client

    Models the gated tool call of [harness/telemetry/sdk.py]: [_request_gate] on the one connection of
    the client, and what [tool_call] does with the answer.  The environment gives each request its
    reply: the frames that arrive (a response, frames the client skips, frames it cannot parse) and when,
    none at all, or a closed or lost connection; frames arrive in the order the server sent them and stay
    in the stream until they are read.  The bytes of a frame arrive together: a timeout between the header
    and the payload of one frame, after which the client would read the payload as a header, is not
    modelled. *)

From Stdlib Require Import ZArith Lia Ascii.
From Stdlib Require String.
From stdpp Require Import base tactics option list strings gmap.
From S2P Require Import Prelude PyStr Json Events Budget Gate Bridge Store Dispatch.

Local Open Scope Z_scope.

(** ** The events of a run

    The client's run and tenant; a fresh identifier and the clock are arguments of each event.  Every
    identifier is a UUID object in the source, so its text is canonical. *)

Record Telemetry := { tl_run_id : uuid; tl_tenant_id : uuid }.

Definition VOLUNTARY_CHANNEL : Z := 1.

Definition _new_event (t : Telemetry) (event_type : string) (span_id fresh : uuid) (time_ns : Z)
    (p : WirePayload) : WireEvent :=
  {| w_base := {| wb_event_id := fresh; wb_run_id := tl_run_id t; wb_tenant_id := tl_tenant_id t;
                  wb_span_id := span_id; wb_parent_span_id := ""; wb_channel := VOLUNTARY_CHANNEL;
                  wb_event_type := event_type; wb_ts_unix_ns := time_ns; wb_pid := 0 |};
     w_payload := p |}.

(** [if x: msg.field = x], for an optional text. *)
Definition opt_field (o : option string) : string := default "" o.

(** The start event of [tool_call]. *)
Definition start_event (t : Telemetry) (agent_id : uuid) (tool_name : string)
    (args : list (string * json)) (declared_purpose schema_hash : option string)
    (span_id fresh : uuid) (time_ns : Z) : WireEvent :=
  _new_event t "tool_call.start" span_id fresh time_ns
    (WToolCallStart agent_id tool_name (dumps spaced (JObj args)) (opt_field declared_purpose) span_id
       (opt_field schema_hash)).

(** The event [_send_tool_end] sends. *)
Definition end_event (t : Telemetry) (agent_id span_id : uuid) (status : string)
    (error result_summary : option string) (fresh : uuid) (time_ns : Z) : WireEvent :=
  _new_event t "tool_call.end" span_id fresh time_ns
    (WToolCallEnd agent_id span_id status (take_str 4000 (opt_field result_summary)) (opt_field error)).

Definition intent_event (t : Telemetry) (agent_id : uuid) (intent : string) (plan : list string)
    (span_id fresh : uuid) (time_ns : Z) : WireEvent :=
  _new_event t "intent.declare" span_id fresh time_ns (WIntentDeclare agent_id intent plan).

Definition llm_event (t : Telemetry) (agent_id : uuid) (model messages_hash : string)
    (tokens_in tokens_out : Z) (span_id fresh : uuid) (time_ns : Z) : WireEvent :=
  _new_event t "llm.call" span_id fresh time_ns
    (WLLMCall agent_id model messages_hash tokens_in tokens_out).

Definition memory_event (t : Telemetry) (agent_id : uuid) (op store : string) (keys : list string)
    (source : option string) (span_id fresh : uuid) (time_ns : Z) : WireEvent :=
  _new_event t ("memory." +:+ op) span_id fresh time_ns
    (WMemoryOp agent_id op store keys (opt_field source)).

(** [_GATE_TIMEOUT_S], in milliseconds. *)
Definition _GATE_TIMEOUT : Z := 100.

(** A frame the client reads: a response, a frame of another kind (a heartbeat), or bytes [ParseFromString]
    refuses. *)
Inductive Received :=
| Response (resp : GateDecisionResponse)
| OtherFrame
| Unparsable.

(** What the server does about a request: it answers at a time, sends other frames (each with its arrival
    time), sends nothing, closes its side of the connection, or the connection is lost, by which the write
    of the request or the read of its answer fails with the given text. *)
Inductive Reply :=
| ReplyAt (arrival : Z) (resp : GateDecisionResponse)
| Frames (l : list (Z * Received))
| NoReply
| PeerClosed
| ConnectionLost (msg : string).

Inductive GateError := TimeoutError | IncompleteRead | OSError (msg : string) | DecodeError.

Inductive Ending := Open | AtEof | Lost (msg : string).

(** The frames the client has not read, with their arrival times, and how the stream ends. *)
Record Stream := { unread : list (Z * Received); ending : Ending }.

Definition arrivals (reply : Reply) : list (Z * Received) :=
  match reply with
  | ReplyAt t r => [(t, Response r)]
  | Frames l => l
  | _ => []
  end.

Definition receive (reply : Reply) (s : Stream) : Stream :=
  {| unread := unread s ++ arrivals reply;
     ending := match reply, ending s with
               | _, Lost msg => Lost msg
               | PeerClosed, _ => AtEof
               | ConnectionLost msg, _ => Lost msg
               | _, e => e
               end |}.

(** The loop of [_request_gate] from time [now]: each [wait_for] gives the next frame the whole timeout,
    counted from when the last one was read. *)
Fixpoint read_response (timeout now : Z) (e : Ending) (l : list (Z * Received))
    : list (Z * Received) * result GateError GateDecisionResponse :=
  match l with
  | (t, f) :: l' =>
      if t <=? now + timeout then
        match f with
        | Response r => (l', Ok r)
        | OtherFrame => read_response timeout (Z.max now t) e l'
        | Unparsable => (l', Raise DecodeError)
        end
      else (l, Raise TimeoutError)
  | [] => ([], Raise (match e with AtEof => IncompleteRead | _ => TimeoutError end))
  end.

(** [_request_gate]: whatever response frame comes first is the answer.  On a lost connection the stream
    raises its error at the write, and at every read whatever is buffered. *)
Definition _request_gate (timeout now : Z) (reply : Reply) (s : Stream)
    : Stream * result GateError GateDecisionResponse :=
  let s := receive reply s in
  match ending s with
  | Lost msg => (s, Raise (OSError msg))
  | e => let '(l, o) := read_response timeout now e (unread s) in ({| unread := l; ending := e |}, o)
  end.

(** How a [tool_call] block starts: its body runs with a decision, it raises [GateDeniedError], or the
    exception is not one it catches.  [IncompleteReadError] is an [EOFError], not an [OSError], and the
    [DecodeError] of a frame that does not parse is neither. *)
Inductive CallOutcome :=
| Proceeds (decision : string)
| Denied (reasons : list string)
| Uncaught (e : GateError).

Definition decide_call (r : GateDecisionResponse) : CallOutcome :=
  if String.eqb (sdk_decision r) "DENY" then Denied (resp_reasons r) else Proceeds (sdk_decision r).

Definition tool_call (timeout now : Z) (reply : Reply) (s : Stream) : Stream * CallOutcome :=
  let '(s', o) := _request_gate timeout now reply s in
  (s', match o with
       | Ok r => decide_call r
       | Raise TimeoutError => Denied ["gate unavailable (fail-closed): "]
       | Raise (OSError msg) => Denied ["gate unavailable (fail-closed): " +:+ msg]
       | Raise e => Uncaught e
       end).

(** The calls of a run: when each asks, and the reply it gets. *)
Fixpoint tool_calls (timeout : Z) (calls : list (Z * Reply)) (s : Stream) : list CallOutcome :=
  match calls with
  | [] => []
  | (now, reply) :: calls' =>
      let '(s', o) := tool_call timeout now reply s in o :: tool_calls timeout calls' s'
  end.

Definition fresh_stream : Stream := {| unread := []; ending := Open |}.

(** ** Fail closed, and exact while answers are in time *)

(** The frames are a response behind frames of other kinds, each within the timeout of the one before. *)
Fixpoint in_turn (timeout now : Z) (l : list (Z * Received)) : Prop :=
  match l with
  | [(t, Response _)] => t ≤ now + timeout
  | (t, OtherFrame) :: l' => t ≤ now + timeout ∧ in_turn timeout (Z.max now t) l'
  | _ => False
  end.

Definition in_time (timeout : Z) (c : Z * Reply) : Prop :=
  match c.2 with
  | ReplyAt t _ => t ≤ c.1 + timeout
  | Frames l => in_turn timeout c.1 l
  | _ => False
  end.

Definition responses (l : list (Z * Received)) : list GateDecisionResponse :=
  omap (λ f, match f.2 with Response r => Some r | _ => None end) l.

Definition own_outcome (c : Z * Reply) : CallOutcome :=
  match c.2 with
  | ReplyAt _ r => decide_call r
  | Frames l => match responses l with
                | r :: _ => decide_call r
                | [] => Denied ["gate unavailable (fail-closed): "]
                end
  | NoReply => Denied ["gate unavailable (fail-closed): "]
  | PeerClosed => Uncaught IncompleteRead
  | ConnectionLost msg => Denied ["gate unavailable (fail-closed): " +:+ msg]
  end.

(** What the server sent during the calls. *)
Definition sent (calls : list (Z * Reply)) : list GateDecisionResponse :=
  calls ≫= λ c, responses (arrivals c.2).

Lemma responses_app l l' : responses (l ++ l') = responses l ++ responses l'.
Proof. apply omap_app. Qed.

Lemma read_response_sound timeout now e l l' o : read_response timeout now e l = (l', o) →
  (∀ r, o = Ok r → r ∈ responses l) ∧ (∀ r, r ∈ responses l' → r ∈ responses l).
Proof.
  revert now. induction l as [|[t f] l IH]; intros now; cbn [read_response]; [by intros [= <- <-]|].
  destruct (t <=? now + timeout); [|by intros [= <- <-]].
  destruct f as [r| |]; [intros [= <- <-]|intros H; by apply IH in H|by intros [= <- <-]].
  split; [intros ? [= ->]; left|by right].
Qed.

Lemma request_gate_sound timeout now reply s s' o : _request_gate timeout now reply s = (s', o) →
  (∀ r, o = Ok r → r ∈ responses (unread s) ++ responses (arrivals reply)) ∧
  (∀ r, r ∈ responses (unread s') → r ∈ responses (unread s) ++ responses (arrivals reply)).
Proof.
  unfold _request_gate. rewrite <-responses_app. change (unread s ++ arrivals reply) with (unread (receive reply s)).
  destruct (ending (receive reply s)); [| |by intros [= <- <-]];
    destruct (read_response _ _ _ _) as [l o'] eqn:E; intros [= <- <-]; by apply read_response_sound in E.
Qed.

Lemma tool_calls_sound timeout calls s d :
  Proceeds d ∈ tool_calls timeout calls s →
  ∃ r, r ∈ responses (unread s) ++ sent calls ∧ decide_call r = Proceeds d.
Proof.
  revert s. induction calls as [|[now reply] calls IH]; intros s; [by intros ?%elem_of_nil|].
  cbn [tool_calls]. unfold tool_call. destruct (_request_gate timeout now reply s) as [s' o] eqn:E.
  apply request_gate_sound in E as [Ho Hs].
  change (sent ((now, reply) :: calls)) with (responses (arrivals reply) ++ sent calls). rewrite app_assoc.
  setoid_rewrite elem_of_app. intros [Heq|Hd]%elem_of_cons.
  - destruct o as [r|[| | |]]; try done. exists r. split; [left; by apply Ho|done].
  - destruct (IH _ Hd) as (r & [Hr|Hr]%elem_of_app & ?); exists r; split; auto.
Qed.

Lemma read_response_in_turn timeout now e l : in_turn timeout now l →
  ∃ r, read_response timeout now e l = ([], Ok r) ∧ responses l = [r].
Proof.
  revert now. induction l as [|[t [r| |]] l IH]; intros now; cbn [in_turn read_response]; [done| | |done].
  - destruct l; [|done]. intros Ht. rewrite (proj2 (Z.leb_le _ _)) by done. by exists r.
  - intros [Ht Hl]. rewrite (proj2 (Z.leb_le _ _)) by done. by destruct (IH _ Hl) as (r & -> & Hr); exists r.
Qed.

Lemma tool_calls_exact timeout calls :
  Forall (in_time timeout) calls → tool_calls timeout calls fresh_stream = map own_outcome calls.
Proof.
  induction 1 as [|[now reply] calls Hc _ IH]; [done|]. cbn [tool_calls map]. unfold tool_call, _request_gate.
  destruct reply as [t r|l| | |]; try done; unfold in_time in Hc; cbn [fst snd] in Hc;
    cbn [receive arrivals unread ending fresh_stream app].
  - cbn [read_response]. rewrite (proj2 (Z.leb_le _ _)) by done. by rewrite <-IH.
  - destruct (read_response_in_turn timeout now Open l Hc) as (r & -> & Hr). rewrite <-IH. f_equal.
    unfold own_outcome. cbn [snd]. by rewrite Hr.
Qed.

(** C28: the client fails closed.  A tool runs only on a response the server sent on the connection that
    does not deny, whatever is lost, late, unreadable or closed; and as long as every reply arrives within
    the timeout, behind frames that are skipped or not, each call gets exactly the answer to its own
    request. *)
Theorem sdk_fails_closed timeout calls :
  (∀ d, Proceeds d ∈ tool_calls timeout calls fresh_stream →
        (d = "ALLOW" ∨ d = "CONFIRM") ∧ ∃ r, r ∈ sent calls ∧ sdk_decision r = d) ∧
  (Forall (in_time timeout) calls → tool_calls timeout calls fresh_stream = map own_outcome calls).
Proof.
  split; [|apply tool_calls_exact]. intros d Hd.
  destruct (tool_calls_sound _ _ _ _ Hd) as (r & Hr & Hdec). simpl in Hr.
  unfold decide_call in Hdec. destruct (String.eqb (sdk_decision r) "DENY") eqn:E; [done|].
  injection Hdec as Hdec. apply String.eqb_neq in E. split; [|by exists r].
  rewrite <-Hdec. revert E. unfold sdk_decision.
  destruct (_ =? ALLOW); [auto|]. destruct (_ =? DENY); [done|]. destruct (_ =? CONFIRM); [auto|done].
Qed.

(** ** One late answer *)

(** The reply of each call arrives before the deadline of the next one. *)
Fixpoint answered_by_next (timeout : Z) (calls : list (Z * Reply)) : Prop :=
  match calls with
  | (_, ReplyAt t _) :: (((now, _) :: _) as calls') => t ≤ now + timeout ∧ answered_by_next timeout calls'
  | (_, ReplyAt _ _) :: [] => True
  | [] => True
  | _ => False
  end.

Lemma tool_calls_behind timeout calls t r :
  answered_by_next timeout ((0, ReplyAt t r) :: calls) →
  tool_calls timeout calls {| unread := [(t, Response r)]; ending := Open |} =
    map own_outcome (take (length calls) ((0, ReplyAt t r) :: calls)).
Proof.
  revert t r. induction calls as [|[now reply] calls IH]; intros t r Ha; [done|].
  destruct Ha as [Ht Ha]. destruct reply as [t' r'| | | |]; [|done..].
  cbn [tool_calls]. unfold tool_call, _request_gate. cbn [receive arrivals unread app ending read_response].
  rewrite (proj2 (Z.leb_le _ _)) by done. rewrite (IH t' r').
  - by destruct calls as [|[? ?] ?].
  - by destruct calls as [|[? ?] ?].
Qed.

(** Responses carry no reference to their request, and a response that came too late stays in the
    stream.  After one timeout every later call whose predecessor's reply has arrived is decided by the
    answer to the call before it: the call that timed out is denied, the next one runs or not on that
    call's verdict, and so on for the rest of the connection. *)
Theorem sdk_late_answer_shifts timeout now t r calls :
  now + timeout < t → answered_by_next timeout ((now, ReplyAt t r) :: calls) →
  tool_calls timeout ((now, ReplyAt t r) :: calls) fresh_stream =
    Denied ["gate unavailable (fail-closed): "] ::
    map own_outcome (take (length calls) ((now, ReplyAt t r) :: calls)).
Proof.
  intros Hlate Ha. cbn [tool_calls]. unfold tool_call, _request_gate.
  cbn [receive arrivals unread fresh_stream app ending read_response]. rewrite (proj2 (Z.leb_gt _ _)) by done.
  f_equal. rewrite (tool_calls_behind timeout calls t r) by (by destruct calls as [|[? ?] ?]).
  by destruct calls as [|[? ?] ?].
Qed.

Definition allow : GateDecisionResponse := {| resp_decision := ALLOW; resp_reasons := [] |}.
Definition deny : GateDecisionResponse := {| resp_decision := DENY; resp_reasons := ["no"] |}.

(** A harmless call is answered late; the server denies the next call, and its body runs. *)
Lemma sdk_late_answer_shifts_witness :
  tool_calls _GATE_TIMEOUT [(0, ReplyAt 150 allow); (200, ReplyAt 250 deny)] fresh_stream =
    [Denied ["gate unavailable (fail-closed): "]; Proceeds "ALLOW"] ∧
  own_outcome (200, ReplyAt 250 deny) = Denied ["no"].
Proof.
  split; [|done].
  rewrite (sdk_late_answer_shifts _GATE_TIMEOUT 0 150 allow [(200, ReplyAt 250 deny)]); [done|done|].
  split; [unfold _GATE_TIMEOUT; lia|done].
Defined.

Lemma sdk_fails_closed_witness :
  tool_calls _GATE_TIMEOUT [(0, Frames [(90, OtherFrame); (180, Response allow)]); (200, ReplyAt 250 deny)]
    fresh_stream = [Proceeds "ALLOW"; Denied ["no"]].
Proof.
  apply (proj2 (sdk_fails_closed _GATE_TIMEOUT
    [(0, Frames [(90, OtherFrame); (180, Response allow)]); (200, ReplyAt 250 deny)])).
  repeat constructor; unfold in_time, _GATE_TIMEOUT; simpl; lia.
Defined.

(** The timeout counts from the last frame read: other frames put it off.  A frame that does not parse is not
    caught, and the response behind it answers the next call. *)
Example frames_put_off_timeout :
  tool_calls _GATE_TIMEOUT [(0, Frames [(90, OtherFrame); (191, Response allow)]); (300, NoReply);
                            (400, Frames [(410, Unparsable); (411, Response allow)]); (500, NoReply);
                            (600, ConnectionLost "reset"); (700, ReplyAt 710 allow)] fresh_stream =
    [Denied ["gate unavailable (fail-closed): "]; Proceeds "ALLOW"; Uncaught DecodeError; Proceeds "ALLOW";
     Denied ["gate unavailable (fail-closed): reset"]; Denied ["gate unavailable (fail-closed): reset"]].
Proof. reflexivity. Qed.

(** ** From the client to the trace *)

Section telemetry.
Context (pydantic_uuid : string → option uuid).
(** Pydantic reads the canonical text of a UUID as that UUID. *)
Hypothesis pydantic_canonical : ∀ u, parse_uuid u = Some u → pydantic_uuid u = Some u.

Definition canonical (u : uuid) : Prop := parse_uuid u = Some u.

Lemma canonical_truthy u : canonical u → str_truthy u = true.
Proof. unfold canonical. destruct u; [by vm_compute|done]. Qed.

Lemma wire_uuid_canonical u : canonical u → wire_uuid pydantic_uuid u = Some u.
Proof.
  intros Hu. unfold wire_uuid, wire_text. rewrite canonical_truthy by done. by apply pydantic_canonical.
Qed.

Lemma wire_text_opt o : ostr_truthy o = true ∨ o = None → wire_text (opt_field o) = o.
Proof.
  unfold wire_text, opt_field, ostr_truthy. destruct o as [s|]; simpl; [|done].
  intros [H|H]; [|done]. by rewrite H.
Qed.

Lemma dumps_obj_truthy st m : str_truthy (dumps st (JObj m)) = true.
Proof. done. Qed.

(** What an optional text is when an empty one counts as absent. *)
Definition nonempty (o : option string) : option string := o ≫= wire_text.

Lemma wire_text_nonempty o : wire_text (opt_field o) = nonempty o.
Proof. by destruct o. Qed.

Lemma typed_new_event t etype span fresh ns p ts :
  canonical fresh → canonical (tl_run_id t) → canonical (tl_tenant_id t) → canonical span →
  typed_event pydantic_uuid (_new_event t etype span fresh ns p) ts =
    b ← typed_body pydantic_uuid etype p;
    let e := {| event_id := fresh; e_run_id := tl_run_id t; e_tenant_id := tl_tenant_id t;
                span_id := span; parent_span_id := None; ts := ts; pid := None; schema_version := 1;
                body := b |} in
    if bool_decide (channel e = VOLUNTARY) then Some e else None.
Proof.
  intros Hf Hr Ht Hs. unfold typed_event, _new_event. cbn -[parse_uuid typed_body channel].
  rewrite Hf, Hr, Ht, Hs. cbn -[typed_body channel].
  destruct (typed_body pydantic_uuid etype p) as [b|]; [|done]. cbn -[channel].
  by destruct (channel _).
Qed.

(** C29: what the client reports is what the detectors read.  The start event of a tool call, sent over
    the wire, flattened, stored and loaded back, is the tool call with the arguments the agent passed
    (through their JSON text), its purpose and schema hash (an empty one counts as none), under the
    client's run and tenant; provided the redactor finds nothing in it. *)
Theorem tool_call_reaches_trace redact detect (rar : bool) t agent name args purpose hash span fresh ns
    now d spare row :
  canonical fresh → canonical (tl_run_id t) → canonical (tl_tenant_id t) → canonical span →
  canonical agent → json_wf (JObj args) →
  let w := start_event t agent name args purpose hash span fresh ns in
  event_to_dict w = Ok d → event_row redact detect rar d now spare = Ok row →
  (∀ p, _payload (w_payload w) = Ok p → (_redact_payload redact detect rar p).2 = []) →
  _row_to_event pydantic_uuid row =
    Some {| event_id := fresh; e_run_id := tl_run_id t; e_tenant_id := tl_tenant_id t; span_id := span;
            parent_span_id := None; ts := now; pid := None; schema_version := 1;
            body := EToolCallStart {| tcs_agent_id := agent; tool_name := name; tool_args := args;
              declared_purpose := nonempty purpose; tcs_tool_call_id := Some span;
              schema_hash := nonempty hash |} |}.
Proof.
  intros Hf Hr Ht Hs Ha Hwf w Hd Hrow Hclean.
  rewrite (row_to_event_typed redact detect rar pydantic_uuid w d now spare row Hd Hrow
             (canonical_truthy _ Hf) eq_refl Hclean).
  unfold w, start_event. rewrite typed_new_event by done. unfold typed_body.
  rewrite bool_decide_true by done. rewrite (wire_uuid_canonical agent Ha), dumps_obj_truthy.
  rewrite (loads_dumps spaced spaced_ok) by done. cbn [mbind option_bind].
  unfold wire_opt_uuid. rewrite (canonical_truthy span Hs), (pydantic_canonical span Hs).
  cbn [fmap option_fmap option_map mbind option_bind]. by rewrite !wire_text_nonempty.
Qed.
End telemetry.

Lemma tool_call_reaches_trace_witness :
  let t := {| tl_run_id := u1; tl_tenant_id := u3 |} in
  let w := start_event t u2 "search" [("q", JStr "x"); ("n", JInt 3)] (Some "look up") None u2 u1 5 in
  (λ e, (e_run_id e, body e)) <$> _row_to_event parse_uuid (row_of w) =
    Some (u1, EToolCallStart {| tcs_agent_id := u2; tool_name := "search";
      tool_args := [("q", JStr "x"); ("n", JInt 3)]; declared_purpose := Some "look up";
      tcs_tool_call_id := Some u2; schema_hash := None |}).
Proof.
  intros t w.
  assert (∀ u, u ∈ [u1; u2; u3] → canonical u) as Hc.
  { intros u. rewrite !elem_of_cons, elem_of_nil. intros [->|[->|[->|[]]]]; by vm_compute. }
  assert (∀ p, _payload (w_payload w) = Ok p → (_redact_payload tag_text tag_entities true p).2 = []) as Hp.
  { intros p Hp. vm_compute in Hp. injection Hp as <-. by vm_compute. }
  destruct (event_to_dict w) as [d|e] eqn:Hd; [|vm_compute in Hd; done].
  assert (event_row tag_text tag_entities true d 5 "" = Ok (row_of w)) as Hrow.
  { vm_compute in Hd. injection Hd as <-. by vm_compute. }
  assert (json_wf (JObj [("q", JStr "x"); ("n", JInt 3)])) as Hwf by (repeat constructor; set_solver).
  pose proof (tool_call_reaches_trace parse_uuid (λ u Hu, Hu) tag_text tag_entities true t u2 "search"
    [("q", JStr "x"); ("n", JInt 3)] (Some "look up") None u2 u1 5 5 d "" (row_of w)
    (Hc u1 ltac:(left)) (Hc u1 ltac:(left)) (Hc u3 ltac:(right; right; left))
    (Hc u2 ltac:(right; left)) (Hc u2 ltac:(right; left)) Hwf Hd Hrow Hp) as H.
  revert H. generalize (_row_to_event parse_uuid (row_of w)). intros o ->. done.
Defined.
