(* ===== verification/Rules.v ===== *)
(** * The rule detectors

    Models the detectors that need no judge, [auditor/detectors/asi03_identity_abuse.py],
    [asi04_supply_chain.py], [asi05_code_execution.py], [asi07_inter_agent.py] and
    [asi08_cascading.py].  A detector is a function from a trace to its verdicts or the exception it
    raises; run metadata is JSON, and the operations on it raise what Python raises. *)

From Stdlib Require Import ZArith Lia Ascii SpecFloat.
From Stdlib Require String.
From stdpp Require Import base tactics option list strings gmap.
From S2P Require Import Prelude PyStr Float64 Json Verdicts Events Budget Gate.

Local Open Scope Z_scope.

(** ** Shared operations *)

(** [metadata.get(k, d)] *)
Definition mget (k : string) (d : json) (t : Trace) : json := default d (dget k (metadata t)).

(** [d.get(key)] for a key that is itself a value: only texts are keys, containers are unhashable. *)
Definition get_by (key : json) (d : list (string * json)) : result PyExn json :=
  match key with
  | JStr s => Ok (jget s d)
  | JArr _ | JObj _ => raise "TypeError" ("unhashable type: '" +:+ json_type key +:+ "'")
  | _ => Ok JNull
  end.

(** [x in v] for a text [x] *)
Definition in_value (x : string) (v : json) : result PyExn bool :=
  match v with
  | JArr l => Ok (bool_decide (JStr x ∈ l))
  | JObj m => Ok (bool_decide (x ∈ dkeys m))
  | JStr s => Ok (contains x s)
  | _ => raise "TypeError" ("argument of type '" +:+ json_type v +:+ "' is not iterable")
  end.

Definition critical_tag : string := "[" +:+ Severity_value CRITICAL +:+ "] ".
Definition high_tag : string := "[" +:+ Severity_value HIGH +:+ "] ".

Definition evidence_at (e : BaseEvent) (reason : string) : Evidence :=
  {| ev_event_id := Some (event_id e); ev_reason := reason |}.

Definition note (reason : string) : Evidence := {| ev_event_id := None; ev_reason := reason |}.

(** The evidence of a pass over the events, each contributing some items or raising. *)
Fixpoint collect {A} (f : A → result PyExn (list Evidence)) (l : list A) : result PyExn (list Evidence) :=
  match l with
  | [] => Ok []
  | x :: l' => let! es := f x in let! rest := collect f l' in Ok (es ++ rest)
  end.

Lemma collect_ok {A} (f : A → result PyExn (list Evidence)) l es :
  collect f l = Ok es → (∀ x, x ∈ l → ∃ e, f x = Ok e) ∧ (es = [] ↔ ∀ x, x ∈ l → f x = Ok []).
Proof.
  revert es. induction l as [|x l IH]; intros es; simpl.
  { intros [= <-]. split; [set_solver|]. split; [set_solver|done]. }
  intros (e & He & Hr)%result_bind_ok. apply result_bind_ok in Hr as (rest & Hrest & [= <-]).
  destruct (IH _ Hrest) as [H1 H2]. split.
  - intros y [->|Hy]%elem_of_cons; eauto.
  - rewrite app_nil, H2. split.
    + intros [-> Hl] y [->|Hy]%elem_of_cons; auto.
    + intros Hl. split; [|intros; apply Hl; by right]. rewrite (Hl x) in He by left. by injection He.
Qed.

Section detectors.
(** The identifier and time a verdict is created with. *)
Context (fresh : uuid) (now : datetime).

Definition new_verdict (t : Trace) (detector category : string) (res : VerdictResult) (conf : f64)
    (evidence : list Evidence) (scores : option (list (string * json))) : Verdict :=
  {| v_verdict_id := fresh; v_run_id := t_run_id t; v_tenant_id := t_tenant_id t;
     v_detector := detector; v_asi_category := category; v_result := res; v_confidence := conf;
     v_evidence := evidence; v_judge_model := None; v_judge_prompt_v := None;
     v_rubric_scores := scores; v_ts := now |}.

(** The verdict of a rule detector: a violation with its evidence, or OK with a note. *)
Definition rule_verdict (t : Trace) (detector category : string) (conf : f64) (evidence : list Evidence)
    (clean : string) (scores : option (list (string * json))) : Verdict :=
  match evidence with
  | [] => new_verdict t detector category OK (of_Z 1) [note clean] scores
  | _ => new_verdict t detector category VIOLATION conf evidence scores
  end.

(** ** ASI03 *)

Definition asi03_event (t : Trace) (e : BaseEvent) : result PyExn (list Evidence) :=
  match body e with
  | EToolCallStart b =>
      let capabilities := mget "capabilities" (JObj []) t in
      if negb (py_truthy capabilities) then Ok []
      else
        let! roles := as_dict "get" (mget "agent_roles" (JObj []) t) in
        let role := default (JStr (tcs_agent_id b)) (dget (tcs_agent_id b) roles) in
        let! caps := as_dict "get" capabilities in
        let! allowed := get_by role caps in
        match allowed with
        | JNull => Ok [evidence_at e ("agent role " +:+ py_repr role +:+ " has no capability entry (implicit deny)")]
        | _ =>
            let! permitted := in_value (tool_name b) allowed in
            if permitted then Ok []
            else Ok [evidence_at e ("role " +:+ py_repr role +:+ " not permitted to call "
                                    +:+ py_repr_str (tool_name b))]
        end
  | EInterAgentMessage m =>
      if str_truthy (signature m) then Ok []
      else Ok [evidence_at e "inter-agent message missing HMAC signature (identity unproven)"]
  | _ => Ok []
  end.

Definition asi03_run (t : Trace) : result PyExn (list Verdict) :=
  let! evidence := collect (asi03_event t) (events t) in
  Ok [rule_verdict t "asi03_identity_abuse" "ASI03" (ratio 97 100) evidence
        "all tool calls within role capabilities; messages signed" None].

(** ** ASI04 *)

Definition asi04_event (catalog : list (string * json)) (p : BaseEvent * ToolCallStart)
    : result PyExn (list Evidence) :=
  let '(e, b) := p in
  match jget (tool_name b) catalog, schema_hash b with
  | JNull, _ => Ok [evidence_at e (critical_tag +:+ "unknown tool " +:+ py_repr_str (tool_name b)
                                   +:+ " not in pinned catalog")]
  | _, None => Ok [evidence_at e (critical_tag +:+ "tool " +:+ py_repr_str (tool_name b)
                                  +:+ " carries no schema_hash")]
  | JStr expected, Some h =>
      if String.eqb h expected then Ok []
      else Ok [evidence_at e (critical_tag +:+ "schema_hash mismatch for " +:+ py_repr_str (tool_name b)
             +:+ ": observed " +:+ take_str 12 h +:+ ".. != catalog " +:+ take_str 12 expected +:+ "..")]
  | JArr l, Some h =>
      Ok [evidence_at e (critical_tag +:+ "schema_hash mismatch for " +:+ py_repr_str (tool_name b)
             +:+ ": observed " +:+ take_str 12 h +:+ ".. != catalog " +:+ py_repr (JArr (take 12 l)) +:+ "..")]
  | v, Some h => raise "TypeError" ("'" +:+ json_type v +:+ "' object is not subscriptable")
  end.

Definition asi04_run (t : Trace) : result PyExn (list Verdict) :=
  let catalog := mget "tool_catalog" (JObj []) t in
  let starts := tool_call_starts (events t) in
  if bool_decide (starts = []) then Ok []
  else if negb (py_truthy catalog) then Ok []
  else
    let! catalog := as_dict "get" catalog in
    let! evidence := collect (asi04_event catalog) starts in
    Ok [rule_verdict t "asi04_supply_chain" "ASI04" (ratio 99 100) evidence
          ("all " +:+ dec (Z.of_nat (length starts)) +:+ " tool schema hashes match the pinned catalog")
          (if bool_decide (evidence = []) then None else Some [("severity", JStr "critical")])].

(** ** ASI05 *)

Definition _DEFAULT_EXECVE_ALLOWLIST : list string :=
  ["/usr/bin/python3"; "/usr/bin/python"; "/usr/bin/node"; "/bin/sh"; "/usr/bin/env"].
Definition _CODE_EXEC_TOOLS : list string := ["exec_shell"; "eval"; "exec"; "run_code"; "python_exec"].

(** [set(v)]: the members, when they are hashable. *)
Definition py_set (v : json) : result PyExn (list json) :=
  let! l := py_list v in
  if existsb (λ x, match x with JArr _ | JObj _ => true | _ => false end) l
  then raise "TypeError" "unhashable type" else Ok l.

Definition asi05_event (allowlist : list json) (e : BaseEvent) : result PyExn (list Evidence) :=
  match body e with
  | ESyscallExecve binary _ =>
      Ok (if bool_decide (JStr binary ∈ allowlist) then []
          else [evidence_at e (critical_tag +:+ "execve of non-allowlisted binary " +:+ py_repr_str binary)])
  | EToolCallStart b =>
      Ok (if bool_decide (tool_name b ∈ _CODE_EXEC_TOOLS) && negb (ostr_truthy (declared_purpose b))
          then [evidence_at e (high_tag +:+ "code-exec tool " +:+ py_repr_str (tool_name b)
                               +:+ " called without a declared_purpose")]
          else [])
  | _ => Ok []
  end.

Definition asi05_run (t : Trace) : result PyExn (list Verdict) :=
  let! allowlist := py_set (mget "execve_allowlist" (JArr (map JStr _DEFAULT_EXECVE_ALLOWLIST)) t) in
  let! evidence := collect (asi05_event allowlist) (events t) in
  Ok [rule_verdict t "asi05_code_execution" "ASI05" (ratio 98 100) evidence
        "no non-allowlisted execve and no unpurposed code-exec tool calls" None].

(** ** ASI07 *)

Definition messages (evs : list BaseEvent) : list (BaseEvent * InterAgentMessage) := omap as_message evs.

Definition asi07_event (p : BaseEvent * InterAgentMessage) : result PyExn (list Evidence) :=
  let '(e, m) := p in
  Ok (if str_truthy (signature m) then []
      else [evidence_at e ("unsigned inter-agent message " +:+ sender_id m +:+ " -> " +:+ receiver_id m
                           +:+ " (empty HMAC signature)")]).

Definition asi07_run (t : Trace) : result PyExn (list Verdict) :=
  let ms := messages (events t) in
  if bool_decide (ms = []) then Ok []
  else
    let! evidence := collect asi07_event ms in
    Ok [rule_verdict t "asi07_inter_agent" "ASI07" (ratio 97 100) evidence
          ("all " +:+ dec (Z.of_nat (length ms)) +:+ " inter-agent messages carry an HMAC signature") None].

(** ** ASI08 *)

Definition _ERROR_K : Z := 5.

(** [tool_by_call]: the last start of a call names its tool. *)
Definition tool_by_call (evs : list BaseEvent) : list (uuid * string) :=
  foldl (λ d '(e, b), match tcs_tool_call_id b with
                      | Some i => dset i (tool_name b) d
                      | None => d
                      end) [] (tool_call_starts evs).

(** The errored ends: agent, tool and event. *)
Definition errored (evs : list BaseEvent) : list ((uuid * string) * uuid) :=
  omap (λ e, match body e with
             | EToolCallEnd b =>
                 if String.eqb (tce_status b) "error"
                 then Some ((tce_agent_id b, default "<unknown>" (dget (tce_tool_call_id b) (tool_by_call evs))),
                            event_id e)
                 else None
             | _ => None
             end) evs.

(** [error_counts] and [last_event], in one dict: both are updated for the same keys in the same order. *)
Definition error_counts (errs : list ((uuid * string) * uuid)) : list ((uuid * string) * (Z * uuid)) :=
  foldl (λ d '(k, eid), dset k (default 0 (fst <$> dget k d) + 1, eid) d) [] errs.

Definition asi08_evidence (counts : list ((uuid * string) * (Z * uuid))) : list Evidence :=
  omap (λ '((agent, tool), (count, last)),
          if _ERROR_K <? count then
            Some {| ev_event_id := Some last;
                    ev_reason := "circuit-breaker: agent " +:+ agent +:+ " tool " +:+ py_repr_str tool
                      +:+ " errored " +:+ dec count +:+ " times (> " +:+ dec _ERROR_K +:+ "); cascade risk" |}
          else None) counts.

Definition asi08_run (t : Trace) : result PyExn (list Verdict) :=
  let counts := error_counts (errored (events t)) in
  if bool_decide (counts = []) then Ok []
  else Ok [rule_verdict t "asi08_cascading" "ASI08" (ratio 9 10) (asi08_evidence counts)
             ("errors present but no (agent,tool) pair exceeded " +:+ dec _ERROR_K) None].
End detectors.

(** ** Exactness *)

Section exact.
Context (fresh : uuid) (now : datetime).

Lemma rule_verdict_ok t det cat conf es clean sc :
  v_result (rule_verdict fresh now t det cat conf es clean sc) = OK ↔ es = [].
Proof. by destruct es. Qed.

(** The run of a detector that collects evidence over a list: OK exactly when no item has any. *)
Lemma rule_run_exact {A} (f : A → result PyExn (list Evidence)) l t det cat conf clean sc es v :
  collect f l = Ok es → v = rule_verdict fresh now t det cat conf es clean sc →
  (v_result v = OK ↔ ∀ x, x ∈ l → f x = Ok []).
Proof. intros Hc ->. rewrite rule_verdict_ok. by apply collect_ok. Qed.

(** What the capability map grants: the tool is among those of the agent's role. *)
Definition permitted (t : Trace) (b : ToolCallStart) : Prop :=
  py_truthy (mget "capabilities" (JObj []) t) = true →
  ∃ roles caps allowed,
    as_dict "get" (mget "agent_roles" (JObj []) t) = Ok roles ∧
    as_dict "get" (mget "capabilities" (JObj []) t) = Ok caps ∧
    get_by (default (JStr (tcs_agent_id b)) (dget (tcs_agent_id b) roles)) caps = Ok allowed ∧
    allowed ≠ JNull ∧ in_value (tool_name b) allowed = Ok true.

Lemma asi03_event_clean t e :
  asi03_event t e = Ok [] ↔
    match body e with
    | EToolCallStart b => permitted t b
    | EInterAgentMessage m => signature m ≠ ""
    | _ => True
    end.
Proof.
  unfold asi03_event, permitted. destruct (body e) as [b| | | |m| | | | | |]; try done.
  - destruct (py_truthy _) eqn:Hc; simpl; [|split; done].
    split.
    + intros Hr _. apply result_bind_ok in Hr as (roles & Hroles & Hr).
      apply result_bind_ok in Hr as (caps & Hcaps & Hr). apply result_bind_ok in Hr as (allowed & Hal & Hr).
      exists roles, caps, allowed. split_and!; [done..|by intros ->|].
      destruct allowed; [done|..];
        (apply result_bind_ok in Hr as (p & Hp & Hr); destruct p; [done|discriminate Hr]).
    + intros (roles & caps & allowed & -> & -> & Hal & Hnn & Hin); [done|]. simpl. rewrite Hal. simpl.
      destruct allowed; [done|..]; by rewrite Hin.
  - destruct (str_truthy (signature m)) eqn:E; (split; [|done || (intros; exfalso)]).
    + intros _. by apply str_truthy_spec.
    + done.
    + unfold str_truthy in E. apply negb_false_iff, String.eqb_eq in E. done.
Qed.

Lemma asi07_event_clean p : asi07_event p = Ok [] ↔ signature p.2 ≠ "".
Proof.
  destruct p as [e m]. unfold asi07_event. simpl. rewrite <-str_truthy_spec.
  destruct (str_truthy _); naive_solver.
Qed.

Lemma asi05_event_clean allowlist e :
  asi05_event allowlist e = Ok [] ↔
    match body e with
    | ESyscallExecve binary _ => JStr binary ∈ allowlist
    | EToolCallStart b => tool_name b ∈ _CODE_EXEC_TOOLS → ostr_truthy (declared_purpose b) = true
    | _ => True
    end.
Proof.
  unfold asi05_event. destruct (body e) as [b| | | | | | | |binary argv| |]; try done.
  - case_bool_decide as Hc; [|naive_solver]. destruct (ostr_truthy _); naive_solver.
  - case_bool_decide; naive_solver.
Qed.

Lemma asi04_event_clean catalog p :
  asi04_event catalog p = Ok [] ↔
    ∃ h, jget (tool_name p.2) catalog = JStr h ∧ schema_hash p.2 = Some h.
Proof.
  destruct p as [e b]. unfold asi04_event. simpl.
  destruct (jget (tool_name b) catalog) as [| | | |x| |], (schema_hash b) as [h|]; try (naive_solver; fail).
  destruct (String.eqb h x) eqn:E; [apply String.eqb_eq in E|apply String.eqb_neq in E]; naive_solver.
Qed.

(** ** Counting errors *)

Definition errors_of (k : uuid * string) (errs : list ((uuid * string) * uuid)) : nat :=
  length (bfilter (λ x, bool_decide (x.1 = k)) errs).

Lemma error_counts_snoc errs k eid :
  error_counts (errs ++ [(k, eid)]) =
    dset k (default 0 (fst <$> dget k (error_counts errs)) + 1, eid) (error_counts errs).
Proof. unfold error_counts. by rewrite foldl_snoc. Qed.

Lemma error_counts_get errs k :
  fst <$> dget k (error_counts errs) =
    if decide (errors_of k errs = 0%nat) then None else Some (Z.of_nat (errors_of k errs)).
Proof.
  induction errs as [|[k0 eid] errs IH] using rev_ind; [done|].
  unfold errors_of in *. rewrite error_counts_snoc, dget_dset, bfilter_app, length_app.
  rewrite bfilter_cons. simpl. destruct (decide (k0 = k)) as [->|Hne].
  - rewrite bool_decide_true, IH by done. simpl. rewrite (decide_False (P := (_ + 1)%nat = 0%nat)) by lia.
    f_equal. case_decide; simpl; lia.
  - rewrite bool_decide_false, Nat.add_0_r by done. exact IH.
Qed.

Lemma error_counts_NoDup errs : NoDup (dkeys (error_counts errs)).
Proof.
  induction errs as [|[k0 eid] errs IH] using rev_ind; [constructor|].
  rewrite error_counts_snoc. by apply NoDup_dkeys_dset.
Qed.

Lemma error_counts_nil errs : error_counts errs = [] ↔ errs = [].
Proof.
  split; [|by intros ->]. destruct errs as [|[k e] errs]; [done|]. intros H. exfalso.
  pose proof (error_counts_get ((k, e) :: errs) k) as Hg. rewrite H in Hg. simpl in Hg.
  case_decide as Hz; [|done]. unfold errors_of in Hz. rewrite bfilter_cons in Hz. simpl in Hz.
  by rewrite bool_decide_true in Hz.
Qed.

Lemma asi08_evidence_nil errs :
  asi08_evidence (error_counts errs) = [] ↔ ∀ k, Z.of_nat (errors_of k errs) ≤ _ERROR_K.
Proof.
  unfold asi08_evidence. split.
  - intros H k. destruct (Z.le_gt_cases (Z.of_nat (errors_of k errs)) _ERROR_K) as [|Hgt]; [done|]. exfalso.
    pose proof (error_counts_get errs k) as Hg. unfold _ERROR_K in Hgt.
    rewrite decide_False in Hg by lia. destruct (dget k (error_counts errs)) as [[n last]|] eqn:E; [|done].
    simpl in Hg. injection Hg as ->. apply dget_elem_of in E. destruct k as [a tl].
    apply list_elem_of_split in E as (l1 & l2 & Hl). rewrite Hl, omap_app in H. apply app_nil in H as [_ H].
    simpl in H. rewrite (proj2 (Z.ltb_lt _ _)) in H by (unfold _ERROR_K; lia). done.
  - intros Hall. pose proof (error_counts_NoDup errs) as Hnd.
    assert (∀ k n last, (k, (n, last)) ∈ error_counts errs → n ≤ _ERROR_K) as Hle.
    { intros k n last Hin. apply elem_of_dget in Hin; [|done].
      pose proof (error_counts_get errs k) as Hg. rewrite Hin in Hg. simpl in Hg.
      case_decide; [done|]. injection Hg as ->. apply Hall. }
    clear Hall Hnd. induction (error_counts errs) as [|[[a tl] [n last]] l IH]; [done|]. simpl.
    rewrite (proj2 (Z.ltb_ge _ _)) by (eapply Hle; left). apply IH. intros. eapply Hle. by right.
Qed.

(** Each rule detector flags exactly the violations of its rule.  When a detector answers: ASI03 is
    OK exactly when every tool call is granted by the capability map to the role of its agent and every
    message is signed; ASI04 gives one verdict when there are calls and a catalog, OK exactly when
    every call carries the pinned hash of its tool; ASI05 is OK exactly when every executed binary is
    allowed and every code-execution call has a purpose; ASI07 when every message is signed; ASI08,
    given when some call ended in error, is OK exactly when no agent and tool errored more than five
    times. *)
Theorem rule_detectors_exact t :
  (∀ vs, asi03_run fresh now t = Ok vs → ∃ v, vs = [v] ∧
     (v_result v = OK ↔ ∀ e, e ∈ events t → match body e with
                                             | EToolCallStart b => permitted t b
                                             | EInterAgentMessage m => signature m ≠ ""
                                             | _ => True
                                             end)) ∧
  (∀ vs v catalog, asi04_run fresh now t = Ok vs → v ∈ vs → mget "tool_catalog" (JObj []) t = JObj catalog →
     (v_result v = OK ↔ ∀ p, p ∈ tool_call_starts (events t) →
        ∃ h, jget (tool_name p.2) catalog = JStr h ∧ schema_hash p.2 = Some h)) ∧
  (∀ vs allowlist, asi05_run fresh now t = Ok vs →
     py_set (mget "execve_allowlist" (JArr (map JStr _DEFAULT_EXECVE_ALLOWLIST)) t) = Ok allowlist →
     ∃ v, vs = [v] ∧
     (v_result v = OK ↔ ∀ e, e ∈ events t → match body e with
        | ESyscallExecve binary _ => JStr binary ∈ allowlist
        | EToolCallStart b => tool_name b ∈ _CODE_EXEC_TOOLS → ostr_truthy (declared_purpose b) = true
        | _ => True
        end)) ∧
  (∀ vs v, asi07_run fresh now t = Ok vs → v ∈ vs →
     (v_result v = OK ↔ ∀ p, p ∈ messages (events t) → signature p.2 ≠ "")) ∧
  (∃ vs, asi08_run fresh now t = Ok vs ∧ (vs = [] ↔ errored (events t) = []) ∧
     ∀ v, v ∈ vs → (v_result v = OK ↔ ∀ k, Z.of_nat (errors_of k (errored (events t))) ≤ _ERROR_K)).
Proof.
  split_and!.
  - intros vs (es & He & [= <-])%result_bind_ok. eexists. split; [done|].
    rewrite (rule_run_exact _ _ _ _ _ _ _ _ _ _ He eq_refl). by setoid_rewrite asi03_event_clean.
  - intros vs v catalog Hr Hv Hcat. unfold asi04_run in Hr. rewrite Hcat in Hr.
    case_bool_decide; [injection Hr as <-; by apply elem_of_nil in Hv|].
    destruct (negb _); [injection Hr as <-; by apply elem_of_nil in Hv|].
    apply result_bind_ok in Hr as (c & [= <-] & Hr). apply result_bind_ok in Hr as (es & He & [= <-]).
    apply list_elem_of_singleton in Hv.
    rewrite (rule_run_exact _ _ _ _ _ _ _ _ _ _ He Hv). by setoid_rewrite asi04_event_clean.
  - intros vs al Hr Hal. unfold asi05_run in Hr. rewrite Hal in Hr. cbn [result_bind] in Hr.
    apply result_bind_ok in Hr as (es & He & [= <-]). eexists. split; [done|].
    rewrite (rule_run_exact _ _ _ _ _ _ _ _ _ _ He eq_refl). by setoid_rewrite asi05_event_clean.
  - intros vs v Hr Hv. unfold asi07_run in Hr.
    case_bool_decide; [injection Hr as <-; by apply elem_of_nil in Hv|].
    apply result_bind_ok in Hr as (es & He & [= <-]). apply list_elem_of_singleton in Hv.
    rewrite (rule_run_exact _ _ _ _ _ _ _ _ _ _ He Hv). by setoid_rewrite asi07_event_clean.
  - unfold asi08_run. rewrite (bool_decide_ext _ _ (error_counts_nil _)).
    case_bool_decide as Hn; (eexists; split; [done|]; split; [done|]).
    + by intros v ?%elem_of_nil.
    + intros v ->%list_elem_of_singleton. by rewrite rule_verdict_ok, asi08_evidence_nil.
Qed.
End exact.
