(* ===== verification/Signals.v ===== *)
(** * Cheap signals and baselines

    Models [auditor/async_pipeline/signals.py], which derives the sampler's signals from the events of a
    run, and [auditor/async_pipeline/baseline.py], the running mean and variance (Welford) per tenant,
    role and axis that the rogue-agent detector compares a run with. *)

From Stdlib Require Import ZArith Lia Ascii SpecFloat QArith Qcanon Field.
From Stdlib Require String.
From stdpp Require Import base tactics option list strings gmap sets.
From S2P Require Import Prelude PyStr Float64 Regex Json Events Sampler.

Local Open Scope Z_scope.

Definition _SENSITIVE_PATH : Pattern :=
  re_compile icase "(\.ssh|id_rsa|/etc/(passwd|shadow)|\.env\b|credentials?|secrets?)".
Definition _SENSITIVE_ARG : Pattern :=
  re_compile icase "(password|secret|credential|api[_-]?key|token|private[_-]?key)".
Definition _INJECTION : Pattern :=
  re_compile icase
    "(ignore\s+(all\s+)?previous\s+instructions|disregard\s+your\s+instructions|exfiltrate|attacker\.com)".

Definition _EGRESS_TOOLS : list string := ["http_post"; "http_get"; "send_email"].
Definition _SENSITIVE_TOOLS : list string := ["read_secret"; "reset_password"; "query_employee"].
Definition _CODE_EXEC_TOOLS : list string := ["exec_shell"; "eval"; "python"; "subprocess"].

Definition _arg_text (args : list (string * json)) : string := join " " (map (λ kv, py_str kv.2) args).

(** [str(args.get(a) or args.get(b) or "")] *)
Definition first_arg (a b : string) (args : list (string * json)) : string :=
  match get_truthy a args with
  | Some v => py_str v
  | None => match get_truthy b args with Some v => py_str v | None => "" end
  end.

(** [s.split("//", 1)[1]], for a text that holds the separator. *)
Fixpoint after_slashes (s : string) : option string :=
  match s with
  | String c s' => if starts_with "//" s then Some (drop_str 2 s) else after_slashes s'
  | EmptyString => None
  end.

Definition text_or_none (s : string) : option string := if str_truthy s then Some s else None.

Definition _egress_dest (tool : string) (args : list (string * json)) : option string :=
  if String.eqb tool "send_email" then
    let to := first_arg "to" "recipient" args in
    if char_in "@" to then Some (List.last (split_on "@" to) "") else text_or_none to
  else
    let url := first_arg "url" "endpoint" args in
    match after_slashes url with
    | Some r => Some (partition_on "/" r).1.1
    | None => text_or_none url
    end.

(** The variables of the loop. *)
Record Acc := {
  a_tools : gset string;
  a_egress : gset string;
  a_sensitive : bool;
  a_exec : bool;
  a_injection : bool;
  a_saw_secret : bool;
  a_secret_egress : bool
}.

Definition acc0 : Acc :=
  {| a_tools := ∅; a_egress := ∅; a_sensitive := false; a_exec := false; a_injection := false;
     a_saw_secret := false; a_secret_egress := false |}.

Definition add_dest (d : option string) (X : gset string) : gset string :=
  match d with Some x => if str_truthy x then {[ x ]} ∪ X else X | None => X end.

Definition call_sensitive (b : ToolCallStart) : bool :=
  bool_decide (tool_name b ∈ _SENSITIVE_TOOLS) || re_search _SENSITIVE_ARG (_arg_text (tool_args b)).

Definition acc_call (b : ToolCallStart) (a : Acc) : Acc :=
  let text := _arg_text (tool_args b) in
  let saw := a_saw_secret a || call_sensitive b in
  let out := bool_decide (tool_name b ∈ _EGRESS_TOOLS) in
  {| a_tools := {[ tool_name b ]} ∪ a_tools a;
     a_egress := if out then add_dest (_egress_dest (tool_name b) (tool_args b)) (a_egress a) else a_egress a;
     a_sensitive := a_sensitive a || call_sensitive b;
     a_exec := a_exec a || bool_decide (tool_name b ∈ _CODE_EXEC_TOOLS);
     a_injection := a_injection a || re_search _INJECTION text;
     a_saw_secret := saw;
     a_secret_egress := a_secret_egress a || (out && saw) |}.

Definition set_injection (x : bool) (a : Acc) : Acc :=
  {| a_tools := a_tools a; a_egress := a_egress a; a_sensitive := a_sensitive a; a_exec := a_exec a;
     a_injection := a_injection a || x; a_saw_secret := a_saw_secret a;
     a_secret_egress := a_secret_egress a |}.

Definition set_sensitive (x : bool) (a : Acc) : Acc :=
  {| a_tools := a_tools a; a_egress := a_egress a; a_sensitive := a_sensitive a || x; a_exec := a_exec a;
     a_injection := a_injection a; a_saw_secret := a_saw_secret a; a_secret_egress := a_secret_egress a |}.

Definition set_exec (a : Acc) : Acc :=
  {| a_tools := a_tools a; a_egress := a_egress a; a_sensitive := a_sensitive a; a_exec := true;
     a_injection := a_injection a; a_saw_secret := a_saw_secret a; a_secret_egress := a_secret_egress a |}.

Definition add_egress (d : string) (a : Acc) : Acc :=
  {| a_tools := a_tools a; a_egress := add_dest (Some d) (a_egress a); a_sensitive := a_sensitive a;
     a_exec := a_exec a; a_injection := a_injection a; a_saw_secret := a_saw_secret a;
     a_secret_egress := a_secret_egress a |}.

(** The body of the loop.  The attributes read from a [sendto] ([addr]) and from a DNS query ([domain],
    [query]) are not attributes of these classes, so the defaults are used and nothing is added. *)
Definition acc_event (a : Acc) (e : BaseEvent) : Acc :=
  match body e with
  | EToolCallStart b => acc_call b a
  | EToolCallEnd b =>
      match result_summary b with
      | Some out => set_injection (str_truthy out && re_search _INJECTION out) a
      | None => a
      end
  | EMemoryOp m => set_injection (re_search _INJECTION (join " " (keys_or_query m))) a
  | ESyscallExecve _ _ => set_exec a
  | ESyscallOpenat path _ => set_sensitive (re_search _SENSITIVE_PATH path) a
  | ESyscallConnect _ addr _ => add_egress addr a
  | _ => a
  end.

Definition risk_of (a : Acc) : Z :=
  Z.min 100
    ((if a_exec a then 40 else 0) + (if bool_decide (a_egress a = ∅) then 0 else 30)
     + (if a_sensitive a then 30 else 0) + (if a_injection a then 40 else 0)
     + (if a_secret_egress a then 30 else 0)).

Definition compute_run_signals (t : Trace) : RunSignals :=
  let a := foldl acc_event acc0 (events t) in
  {| tool_category := if a_exec a then "code_exec"
                      else if bool_decide (a_egress a = ∅) then "generic" else "egress";
     channel_divergence := false;
     cheap_risk_score := risk_of a;
     touched_sensitive_data := a_sensitive a;
     in_allowlisted_path := negb (a_sensitive a);
     tools_used := a_tools a;
     egress_domains := a_egress a;
     tenant_recent_incident_count := 0 |}.

(** ** Baselines *)

Definition DEFAULT_Z_THRESHOLD : f64 := of_Z 3.

(** The recurrence of [_Running.update], over the arithmetic of a number type: the program runs it on
    doubles; [welford_exact] below shows what it computes on exact rationals. *)
Section welford.
Context {N : Type} (add sub mul div : N → N → N) (of_int : Z → N).

Record Running := { count : Z; mean : N; m2 : N }.

Definition welford (value : N) (r : Running) : Running :=
  let count := count r + 1 in
  let delta := sub value (mean r) in
  let mean' := add (mean r) (div delta (of_int count)) in
  {| count := count; mean := mean'; m2 := add (m2 r) (mul delta (sub value mean')) |}.
End welford.
Arguments Running : clear implicits.

Definition _Running : Type := Running f64.

Definition running0 : _Running := {| count := 0; mean := fzero; m2 := fzero |}.

Definition update : f64 → _Running → _Running := welford fadd fsub fmul fdiv of_Z.

Definition std (r : _Running) : f64 :=
  if 2 <=? count r then fsqrt (fdiv (m2 r) (of_Z (count r - 1))) else fzero.

Record BaselineStore := {
  z_threshold : f64;
  _stats : list ((string * string) * list (string * _Running))
}.

Definition fold_axes (run_stats : list (string * f64)) (axes : list (string * _Running))
    : list (string * _Running) :=
  foldl (λ d '(axis, v), dset axis (update v (default running0 (dget axis d))) d) axes run_stats.

Definition observe (tenant_id role : string) (run_stats : list (string * f64)) (b : BaselineStore)
    : BaselineStore :=
  {| z_threshold := z_threshold b;
     _stats := dset (tenant_id, role) (fold_axes run_stats (default [] (dget (tenant_id, role) (_stats b))))
                 (_stats b) |}.

Definition observation_count (tenant_id role axis : string) (b : BaselineStore) : Z :=
  match dget axis (default [] (dget (tenant_id, role) (_stats b))) with
  | Some r => count r
  | None => 0
  end.

(** The threshold and, per axis, mean and deviation; [None] before any observation. *)
Definition baseline (tenant_id role : string) (b : BaselineStore)
    : option (f64 * list (string * (f64 * f64))) :=
  match dget (tenant_id, role) (_stats b) with
  | None | Some [] => None
  | Some axes => Some (z_threshold b, map (λ '(axis, r), (axis, (mean r, std r))) axes)
  end.

(** ** What the signals say *)

Definition runs_code (e : BaseEvent) : Prop :=
  match body e with
  | EToolCallStart b => tool_name b ∈ _CODE_EXEC_TOOLS
  | ESyscallExecve _ _ => True
  | _ => False
  end.

Definition touches_sensitive (e : BaseEvent) : Prop :=
  match body e with
  | EToolCallStart b => tool_name b ∈ _SENSITIVE_TOOLS ∨ occurs _SENSITIVE_ARG (_arg_text (tool_args b))
  | ESyscallOpenat path _ => occurs _SENSITIVE_PATH path
  | _ => False
  end.

Definition shows_injection (e : BaseEvent) : Prop :=
  match body e with
  | EToolCallStart b => occurs _INJECTION (_arg_text (tool_args b))
  | EToolCallEnd b => ∃ out, result_summary b = Some out ∧ occurs _INJECTION out
  | EMemoryOp m => occurs _INJECTION (join " " (keys_or_query m))
  | _ => False
  end.

(** The destination an event adds. *)
Definition reaches (e : BaseEvent) (d : string) : Prop :=
  d ≠ "" ∧
  match body e with
  | EToolCallStart b => tool_name b ∈ _EGRESS_TOOLS ∧ _egress_dest (tool_name b) (tool_args b) = Some d
  | ESyscallConnect _ addr _ => addr = d
  | _ => False
  end.

Lemma elem_of_snoc_ex {A} (P : A → Prop) (l : list A) x :
  (∃ y, y ∈ l ++ [x] ∧ P y) ↔ (∃ y, y ∈ l ∧ P y) ∨ P x.
Proof. setoid_rewrite elem_of_app. setoid_rewrite list_elem_of_singleton. naive_solver. Qed.

Lemma call_sensitive_spec b : call_sensitive b = true ↔
  tool_name b ∈ _SENSITIVE_TOOLS ∨ occurs _SENSITIVE_ARG (_arg_text (tool_args b)).
Proof. unfold call_sensitive. by rewrite orb_true_iff, bool_decide_eq_true, re_search_occurs. Qed.

Lemma injection_in_empty : re_search _INJECTION "" = false.
Proof. vm_compute. reflexivity. Qed.

Lemma acc_step_exec a e : a_exec (acc_event a e) = true ↔ a_exec a = true ∨ runs_code e.
Proof.
  unfold acc_event, runs_code. destruct (body e) as [b|b|b|m| | |p f| | | |]; simpl; try tauto.
  - by rewrite orb_true_iff, bool_decide_eq_true.
  - destruct (result_summary b); simpl; tauto.
Qed.

Lemma acc_step_sensitive a e : a_sensitive (acc_event a e) = true ↔ a_sensitive a = true ∨ touches_sensitive e.
Proof.
  unfold acc_event, touches_sensitive. destruct (body e) as [b|b|b|m| | |p f| | | |]; simpl; try tauto.
  - by rewrite orb_true_iff, call_sensitive_spec.
  - destruct (result_summary b); simpl; tauto.
  - by rewrite orb_true_iff, re_search_occurs.
Qed.

Lemma acc_step_injection a e : a_injection (acc_event a e) = true ↔ a_injection a = true ∨ shows_injection e.
Proof.
  unfold acc_event, shows_injection. destruct (body e) as [b|b|b|m| | |p f| | | |]; simpl; try tauto.
  - by rewrite orb_true_iff, re_search_occurs.
  - destruct (result_summary b) as [out|]; simpl; [|naive_solver].
    rewrite orb_true_iff, andb_true_iff, str_truthy_spec, re_search_occurs. split; [naive_solver|].
    intros [?|(? & [= <-] & Ho)]; [by left|right]. split; [|done]. intros ->.
    apply re_search_occurs in Ho. by rewrite injection_in_empty in Ho.
  - by rewrite orb_true_iff, re_search_occurs.
Qed.

Lemma elem_of_add_dest o d X : d ∈ add_dest o X ↔ d ∈ X ∨ (o = Some d ∧ d ≠ "").
Proof.
  unfold add_dest. destruct o as [x|]; [|naive_solver]. destruct (str_truthy x) eqn:E.
  - apply str_truthy_spec in E. set_solver.
  - unfold str_truthy in E. apply negb_false_iff, String.eqb_eq in E as ->. naive_solver.
Qed.

Lemma acc_step_egress a e d : d ∈ a_egress (acc_event a e) ↔ d ∈ a_egress a ∨ reaches e d.
Proof.
  unfold acc_event, reaches. destruct (body e) as [b|b|b|m| | |p f|fam addr port| | |];
    cbn [acc_call set_injection set_sensitive set_exec add_egress a_egress]; try naive_solver.
  - case_bool_decide; [rewrite elem_of_add_dest|]; naive_solver.
  - destruct (result_summary b); simpl; naive_solver.
  - rewrite elem_of_add_dest. naive_solver.
Qed.

Lemma acc_all evs :
  let a := foldl acc_event acc0 evs in
  (a_exec a = true ↔ ∃ e, e ∈ evs ∧ runs_code e) ∧
  (a_sensitive a = true ↔ ∃ e, e ∈ evs ∧ touches_sensitive e) ∧
  (a_injection a = true ↔ ∃ e, e ∈ evs ∧ shows_injection e) ∧
  (∀ d, d ∈ a_egress a ↔ ∃ e, e ∈ evs ∧ reaches e d).
Proof.
  induction evs as [|e evs IH] using rev_ind; simpl.
  { split_and!; [..|intros d]; set_solver. }
  rewrite foldl_snoc. destruct IH as (H1 & H2 & H3 & H4).
  rewrite acc_step_exec, acc_step_sensitive, acc_step_injection, H1, H2, H3.
  setoid_rewrite acc_step_egress. setoid_rewrite H4. setoid_rewrite elem_of_snoc_ex. done.
Qed.

(** The signals are exact: a run counts as touching sensitive data exactly when some call or opened
    path does, its destinations are exactly those the egress tools and connections reach, and its
    category follows from whether it runs code.  Composed with the runtime policy: unless the sampler is
    switched off, a run that touches sensitive data is always audited, and so is one that runs code and
    reaches a destination, or shows an injection and does either, while the threshold is at most 70. *)
Theorem risky_runs_are_audited t st now run_id tenant_id :
  let s := compute_run_signals t in
  (touched_sensitive_data s = true ↔ ∃ e, e ∈ events t ∧ touches_sensitive e) ∧
  (∀ d, d ∈ egress_domains s ↔ ∃ e, e ∈ events t ∧ reaches e d) ∧
  (tool_category s = "code_exec" ↔ ∃ e, e ∈ events t ∧ runs_code e) ∧
  (mode (settings st) ≠ "never" →
   (∃ e, e ∈ events t ∧ touches_sensitive e) ∨
   (risk_threshold (settings st) ≤ 70 ∧
    let code := ∃ e, e ∈ events t ∧ runs_code e in
    let out := ∃ e d, e ∈ events t ∧ reaches e d in
    let inj := ∃ e, e ∈ events t ∧ shows_injection e in
    (code ∧ out) ∨ (inj ∧ code) ∨ (inj ∧ out)) →
   ∃ why, policy_decide now run_id tenant_id s st = (st, Ok (decision L1 why true true None))).
Proof.
  intros s. destruct (acc_all (events t)) as (Hx & Hs & Hi & Ho).
  set (a := foldl acc_event acc0 (events t)) in *.
  assert (bool_decide (a_egress a = ∅) = false ↔ ∃ e d, e ∈ events t ∧ reaches e d) as Hout.
  { rewrite bool_decide_eq_false. split.
    - intros Hne. apply set_choose_L in Hne as [d Hd]. apply Ho in Hd. naive_solver.
    - intros (e & d & Hd) E. assert (d ∈ a_egress a) as Hin by (apply Ho; eauto). rewrite E in Hin. set_solver. }
  split_and!; [done|done| |].
  - unfold s, compute_run_signals. fold a. simpl. rewrite <-Hx. destruct (a_exec a); [done|].
    by case_bool_decide.
  - intros Hm Hrisk. unfold policy_decide. apply String.eqb_neq in Hm. rewrite Hm.
    assert (∃ why, hard_trigger (risk_threshold (settings st)) s = Some why) as [why ->]; [|eauto].
    unfold hard_trigger, s, compute_run_signals. fold a. simpl.
    destruct (risk_threshold (settings st) <=? risk_of a) eqn:E; [eauto|]. apply Z.leb_gt in E.
    destruct (a_sensitive a) eqn:Es; [simpl; eauto|]. exfalso.
    destruct Hrisk as [Hse|[Hthr Hr]]; [apply Hs in Hse; congruence|].
    unfold risk_of in E. rewrite Es in E. simpl in Hr. rewrite <-Hx, <-Hi, <-Hout in Hr.
    destruct Hr as [[-> ->]|[[-> ->]|[-> ->]]] in E; case_bool; lia.
Qed.

(** Neither DNS queries nor packets sent leave a trace in the signals. *)
Lemma signals_ignore_dns_and_sendto t :
  compute_run_signals t =
  compute_run_signals {| t_run_id := t_run_id t; t_tenant_id := t_tenant_id t; declared_goal := declared_goal t;
    events := bfilter (λ e, match body e with
                            | ESyscallSendto _ _ _ | EDnsQuery _ _ => false
                            | _ => true
                            end) (events t); metadata := metadata t |}.
Proof.
  unfold compute_run_signals. simpl.
  assert (∀ evs a, foldl acc_event a evs = foldl acc_event a (bfilter (λ e, match body e with
    | ESyscallSendto _ _ _ | EDnsQuery _ _ => false | _ => true end) evs)) as H; [|by rewrite H].
  induction evs as [|e evs IH]; intros a; [done|]. rewrite bfilter_cons.
  destruct (body e) eqn:E; simpl; try apply IH;
    (assert (acc_event a e = a) as -> by (unfold acc_event; by rewrite E)); apply IH.
Qed.

(** ** Baselines count what was observed *)

Definition observe_all (runs : list ((string * string) * list (string * f64))) (b : BaselineStore)
    : BaselineStore :=
  foldl (λ b '((tenant_id, role), stats), observe tenant_id role stats b) b runs.

Definition occurrences (axis : string) (stats : list (string * f64)) : Z :=
  Z.of_nat (length (bfilter (λ x, bool_decide (x.1 = axis)) stats)).

Lemma fold_axes_count stats axes axis :
  default 0 (count <$> dget axis (fold_axes stats axes)) =
    default 0 (count <$> dget axis axes) + occurrences axis stats.
Proof.
  unfold fold_axes, occurrences. revert axes. induction stats as [|[a v] stats IH]; intros axes; simpl; [lia|].
  rewrite IH, dget_dset, bfilter_cons. simpl. destruct (decide (a = axis)) as [->|Hne].
  - rewrite bool_decide_eq_true_2 by done. cbn [length fmap option_fmap option_map default].
    destruct (dget axis axes); simpl; lia.
  - by rewrite bool_decide_eq_false_2.
Qed.

Lemma observe_count tenant role stats b t' r' axis :
  observation_count t' r' axis (observe tenant role stats b) =
    observation_count t' r' axis b + (if decide ((tenant, role) = (t', r')) then occurrences axis stats else 0).
Proof.
  unfold observation_count, observe. simpl. rewrite dget_dset.
  destruct (decide ((tenant, role) = (t', r'))) as [<-|Hne]; simpl; [|lia].
  pose proof (fold_axes_count stats (default [] (dget (tenant, role) (_stats b))) axis) as H.
  destruct (dget axis (fold_axes _ _)), (dget axis (default [] _)); simpl in H; lia.
Qed.

(** ** Welford's recurrence, on exact rationals *)

Local Open Scope Qc_scope.

Definition qc_of_Z (z : Z) : Qc := Q2Qc (inject_Z z).

Definition running_exact : list Qc → Running Qc :=
  foldl (λ r x, welford Qcplus Qcminus Qcmult Qcdiv qc_of_Z x r)
    {| count := 0; mean := 0; m2 := 0 |}.

Definition qsum (l : list Qc) : Qc := foldr Qcplus 0 l.

Lemma qc_of_Z_succ n : qc_of_Z (n + 1) = qc_of_Z n + 1.
Proof.
  unfold qc_of_Z. apply Qc_is_canon. simpl. rewrite !Qred_correct. by rewrite inject_Z_plus.
Qed.

Lemma qc_of_Z_pos n : (0 < n)%Z → qc_of_Z n ≠ 0.
Proof.
  intros Hn H. unfold qc_of_Z in H. apply Q2Qc_eq_iff in H. unfold Qeq, inject_Z in H. simpl in H. lia.
Qed.

Lemma qsum_snoc l x : qsum (l ++ [x]) = qsum l + x.
Proof. unfold qsum. induction l as [|y l IH]; simpl; [ring|]. rewrite IH. ring. Qed.

Lemma qsum_dev l m :
  qsum (map (λ x, (x - m) * (x - m)) l) =
    qsum (map (λ x, x * x) l) - (m + m) * qsum l + qc_of_Z (Z.of_nat (length l)) * (m * m).
Proof.
  induction l as [|x l IH].
  - unfold qsum. simpl. change (qc_of_Z (Z.of_nat 0)) with (0 : Qc). ring.
  - cbn [map length qsum foldr]. fold (qsum l) (qsum (map (λ x, (x - m) * (x - m)) l))
      (qsum (map (λ x, x * x) l)). rewrite IH, Nat2Z.inj_succ, <-Z.add_1_r, qc_of_Z_succ. ring.
Qed.

Lemma running_exact_spec l :
  let r := running_exact l in
  count r = Z.of_nat (length l) ∧
  qc_of_Z (count r) * mean r = qsum l ∧
  m2 r = qsum (map (λ x, x * x) l) - qc_of_Z (count r) * (mean r * mean r).
Proof.
  induction l as [|x l IH] using rev_ind; simpl.
  { unfold qsum. simpl. change (qc_of_Z 0) with (0 : Qc). split_and!; [done|ring|ring]. }
  unfold running_exact in *. rewrite foldl_snoc, length_app, map_app. simpl.
  rewrite !qsum_snoc. destruct IH as (Hc & Hm & H2). set (r := foldl _ _ l) in *. simpl.
  rewrite qc_of_Z_succ. assert (qc_of_Z (count r) + 1 ≠ 0) as Hne.
  { rewrite <-qc_of_Z_succ. apply qc_of_Z_pos. lia. }
  split_and!; [lia| |].
  - rewrite <-Hm. field. done.
  - rewrite H2. field. done.
Qed.

(** Welford's update is right: on exact numbers, folding the observations one at a time leaves their
    number, their mean and the sum of their squared deviations from that mean (the numerator of the
    sample variance), whatever their order. *)
Theorem welford_exact l :
  l ≠ [] →
  let r := running_exact l in
  count r = Z.of_nat (length l) ∧
  mean r = qsum l / qc_of_Z (Z.of_nat (length l)) ∧
  m2 r = qsum (map (λ x, (x - mean r) * (x - mean r)) l).
Proof.
  intros Hl r. destruct (running_exact_spec l) as (Hc & Hm & H2). fold r in Hc, Hm, H2.
  assert (qc_of_Z (Z.of_nat (length l)) ≠ 0) as Hne.
  { apply qc_of_Z_pos. destruct l; [done|simpl; lia]. }
  rewrite Hc in Hm, H2. split_and!; [done| |].
  - rewrite <-Hm. field. done.
  - rewrite H2, qsum_dev, <-Hm. ring.
Qed.

Lemma welford_exact_witness :
  let r := running_exact [qc_of_Z 2; qc_of_Z 4; qc_of_Z 9] in
  count r = 3%Z ∧ mean r = qsum [qc_of_Z 2; qc_of_Z 4; qc_of_Z 9] / qc_of_Z 3 ∧
  m2 r = qsum (map (λ x, (x - mean r) * (x - mean r)) [qc_of_Z 2; qc_of_Z 4; qc_of_Z 9]).
Proof. apply (welford_exact [qc_of_Z 2; qc_of_Z 4; qc_of_Z 9]). discriminate. Defined.
