(* ===== verification/Hitl.v ===== *)
(** * Human review: queue, notification, routing

    Models [auditor/hitl/queue.py] (the pending flags in Redis), [notifier.py] (the Slack card) and
    [router.py] (what is done with a flag of each severity).  Redis is an interface: hashes that expire
    and sets of members; the texts of times and floats are parameters. *)

From Stdlib Require Import ZArith Lia Ascii SpecFloat.
From Stdlib Require String.
From stdpp Require Import base tactics option list strings gmap sets.
From S2P Require Import Prelude PyStr Float64 Json Verdicts Budget Gate Judge.

Local Open Scope Z_scope.

(** ** Redis

    [live c now k] is the hash under [k] at time [now] with its deadline, if the key exists and has not
    expired; [members c k] the set under [k].  The laws are those of HSET (which keeps the expiry of an
    existing key), EXPIRE, DEL, SADD and SREM. *)

Notation hash := (list (string * string)) (only parsing).

Definition merge_hash (old new : hash) : hash := foldl (λ d kv, dset kv.1 kv.2 d) old new.

Definition still (now : Z) (x : hash * option Z) : option (hash * option Z) :=
  match x.2 with Some dl => if dl <=? now then None else Some x | None => Some x end.

Class RedisHashes (C : Type) := {
  live : C → Z → string → option (hash * option Z);
  members : C → string → list string;
  hset : C → Z → string → hash → C;
  expire : C → Z → string → Z → C;
  del : C → Z → string → C;
  sadd : C → string → string → C;
  srem : C → string → string → C;
  live_later c now now' k : now ≤ now' → live c now' k = live c now k ≫= still now';
  live_hset c now k r k' :
    live (hset c now k r) now k' =
      if decide (k = k') then Some (merge_hash (default [] (fst <$> live c now k)) r, live c now k ≫= snd)
      else live c now k';
  live_expire c now k ttl k' : 0 < ttl →
    live (expire c now k ttl) now k' =
      if decide (k = k') then (λ x, (x.1, Some (now + ttl))) <$> live c now k else live c now k';
  live_del c now k k' : live (del c now k) now k' = if decide (k = k') then None else live c now k';
  live_sadd c now k x k' : k ≠ k' → live (sadd c k x) now k' = live c now k';
  live_srem c now k x k' : k ≠ k' → live (srem c k x) now k' = live c now k';
  members_hset c now k r k' : k ≠ k' → members (hset c now k r) k' = members c k';
  members_expire c now k ttl k' : k ≠ k' → members (expire c now k ttl) k' = members c k';
  members_del c now k k' : k ≠ k' → members (del c now k) k' = members c k';
  elem_of_sadd c k x k' y : y ∈ members (sadd c k x) k' ↔ y ∈ members c k' ∨ (k = k' ∧ y = x);
  elem_of_srem c k x k' y : y ∈ members (srem c k x) k' ↔ y ∈ members c k' ∧ ¬ (k = k' ∧ y = x);
  members_NoDup c k : NoDup (members c k)
}.

(** ** Keys and records *)

Definition _hash_key (tenant_id flag_id : string) : string := "hitl:queue:" +:+ tenant_id +:+ ":" +:+ flag_id.
Definition _index_key (tenant_id : string) : string := "hitl:index:" +:+ tenant_id.
Definition _digest_key (tenant_id date : string) : string := "hitl:digest:" +:+ tenant_id +:+ ":" +:+ date.

Section queue.
Context {C : Type} `{RedisHashes C}.
Context (isoformat : datetime → string) (repr_float : f64 → string).

Definition flag_record (flag : Flag) (now : datetime) : hash :=
  [("flag_id", flag_id flag); ("run_id", f_run_id flag); ("tenant_id", f_tenant_id flag);
   ("severity", Severity_value (f_severity flag));
   ("asi_categories", dumps spaced (JArr (map JStr (f_asi_categories flag))));
   ("confidence", repr_float (f_confidence flag)); ("status", f_status flag);
   ("enqueued_at", isoformat now)].

(** [HitlQueue.enqueue]: the pipeline is atomic. *)
Definition enqueue (flag : Flag) (ttl_s : Z) (now : Z) (c : C) : C :=
  let hkey := _hash_key (f_tenant_id flag) (flag_id flag) in
  let c := hset c now hkey (flag_record flag now) in
  let c := expire c now hkey ttl_s in
  sadd c (_index_key (f_tenant_id flag)) (flag_id flag).

(** [HitlQueue.list_pending]: stale members of the index are removed on the way.  This is the run no other
    client interrupts; [list_awaiting] is the run whose commands others' come between. *)
Fixpoint pending_of (tenant_id : string) (now : Z) (ids : list string) (c : C) : C * list hash :=
  match ids with
  | [] => (c, [])
  | fid :: rest =>
      (* hgetall: an absent key is an empty hash *)
      match default [] (fst <$> live c now (_hash_key tenant_id fid)) with
      | [] => pending_of tenant_id now rest (srem c (_index_key tenant_id) fid)
      | record => let '(c, rs) := pending_of tenant_id now rest c in (c, record :: rs)
      end
  end.

Definition list_pending (tenant_id : string) (now : Z) (c : C) : C * list hash :=
  pending_of tenant_id now (members c (_index_key tenant_id)) c.

(** [HitlQueue.ack] *)
Definition ack (tenant_id fid : string) (now : Z) (c : C) : C * bool :=
  let existed := bool_decide (is_Some (live c now (_hash_key tenant_id fid))) in
  let c := del c now (_hash_key tenant_id fid) in
  (srem c (_index_key tenant_id) fid, existed).

(** ** Histories and their specification *)

Inductive QueueOp :=
| OEnqueue (flag : Flag) (ttl_s : Z)
| OList (tenant_id : string)
| OAck (tenant_id fid : string).

Inductive QueueAnswer := ADone | APending (records : list hash) | AExisted (b : bool).

Definition queue_step (now : Z) (op : QueueOp) (c : C) : C * QueueAnswer :=
  match op with
  | OEnqueue flag ttl_s => (enqueue flag ttl_s now c, ADone)
  | OList tenant_id => let '(c, rs) := list_pending tenant_id now c in (c, APending rs)
  | OAck tenant_id fid => let '(c, b) := ack tenant_id fid now c in (c, AExisted b)
  end.

Fixpoint run_queue (ops : list (Z * QueueOp)) (c : C) : list QueueAnswer :=
  match ops with
  | [] => []
  | (now, op) :: rest => let '(c, a) := queue_step now op c in a :: run_queue rest c
  end.

(** The abstract queue: per tenant and flag, the flag as it was last enqueued and its deadline. *)
Notation Spec := (gmap (string * string) (Flag * Z * Z)) (only parsing).

Definition spec_live (now : Z) (q : Spec) (k : string * string) : option hash :=
  '(flag, at_, dl) ← q !! k; if dl <=? now then None else Some (flag_record flag at_).

Definition spec_step (now : Z) (op : QueueOp) (q : Spec) : Spec :=
  match op with
  | OEnqueue flag ttl_s => <[(f_tenant_id flag, flag_id flag) := (flag, now, now + ttl_s)]> q
  | OList _ => q
  | OAck tenant_id fid => delete (tenant_id, fid) q
  end.

(** What the answer must be: the records of the tenant that are live, once each; whether the flag was. *)
Definition answer_ok (now : Z) (op : QueueOp) (q : Spec) (a : QueueAnswer) : Prop :=
  match op, a with
  | OEnqueue _ _, ADone => True
  | OList t, APending rs =>
      ∃ fids, NoDup fids ∧ (∀ f, f ∈ fids ↔ is_Some (spec_live now q (t, f))) ∧
        Forall2 (λ f r, spec_live now q (t, f) = Some r) fids rs
  | OAck t f, AExisted b => b = bool_decide (is_Some (spec_live now q (t, f)))
  | _, _ => False
  end.

Fixpoint answers_ok (ops : list (Z * QueueOp)) (q : Spec) (answers : list QueueAnswer) : Prop :=
  match ops, answers with
  | [], [] => True
  | (now, op) :: ops', a :: answers' => answer_ok now op q a ∧ answers_ok ops' (spec_step now op q) answers'
  | _, _ => False
  end.

(** Tenant ids are UUID texts: they hold no colon.  Time does not go backwards. *)
Definition op_ok (op : QueueOp) : Prop :=
  match op with
  | OEnqueue flag ttl_s => char_in ":" (f_tenant_id flag) = false ∧ 0 < ttl_s
  | OList t | OAck t _ => char_in ":" t = false
  end.

Fixpoint ops_ok (from : Z) (ops : list (Z * QueueOp)) : Prop :=
  match ops with
  | [] => True
  | (now, op) :: rest => from ≤ now ∧ op_ok op ∧ ops_ok now rest
  end.

(** ** The refinement *)

Lemma hash_key_inj t f t' f' :
  char_in ":" t = false → char_in ":" t' = false → _hash_key t f = _hash_key t' f' → t = t' ∧ f = f'.
Proof.
  intros Ht Ht' Hk. unfold _hash_key in Hk. apply (inj (String.append "hitl:queue:")) in Hk.
  by apply cut_inj in Hk.
Qed.

Lemma index_key_inj t t' : _index_key t = _index_key t' ↔ t = t'.
Proof. split; [|by intros ->]. by apply (inj (String.append "hitl:index:")). Qed.

Lemma hash_not_index t f t' : _hash_key t f ≠ _index_key t'.
Proof. done. Qed.

(** At [now]: the live hashes are those of the specification, and every live flag is in its index. *)
Definition represents (now : Z) (c : C) (q : Spec) : Prop :=
  (∀ t f, char_in ":" t = false → live c now (_hash_key t f) =
     '(flag, at_, dl) ← q !! (t, f); if dl <=? now then None else Some (flag_record flag at_, Some dl)) ∧
  (∀ t f, char_in ":" t = false → is_Some (spec_live now q (t, f)) → f ∈ members c (_index_key t)).

Lemma queue_represents_later now now' c q : now ≤ now' → represents now c q → represents now' c q.
Proof.
  intros Hle [Hl Hm]. split.
  - intros t f Ht. rewrite (live_later c now now' _ Hle), (Hl t f Ht).
    destruct (q !! (t, f)) as [[[flag at_] dl]|]; [|done]. simpl.
    destruct (dl <=? now) eqn:E; simpl; [|done].
    apply Z.leb_le in E. by rewrite (proj2 (Z.leb_le dl now')) by lia.
  - intros t f Ht Hs. apply Hm; [done|]. unfold spec_live in *.
    destruct (q !! (t, f)) as [[[flag at_] dl]|]; [|done]. simpl in *.
    destruct (dl <=? now') eqn:E; [by destruct Hs|]. apply Z.leb_gt in E.
    by rewrite (proj2 (Z.leb_gt dl now)) by lia.
Qed.

Lemma represents_live now c q t f : represents now c q → char_in ":" t = false →
  fst <$> live c now (_hash_key t f) = spec_live now q (t, f).
Proof.
  intros [Hl _] Ht. rewrite (Hl t f Ht). unfold spec_live.
  destruct (q !! (t, f)) as [[[flag at_] dl]|]; [|done]. simpl. by destruct (dl <=? now).
Qed.

Lemma represents_srem now c q t f : represents now c q → char_in ":" t = false →
  live c now (_hash_key t f) = None → represents now (srem c (_index_key t) f) q.
Proof.
  intros Hr Ht Hn. pose proof (represents_live now c q t f Hr Ht) as Hs. rewrite Hn in Hs. simpl in Hs.
  destruct Hr as [Hl Hm]. split.
  - intros t' f' Ht'. rewrite live_srem by (by intros ?%eq_sym%hash_not_index). by apply Hl.
  - intros t' f' Ht' Hlive. apply elem_of_srem. split; [by apply Hm|]. intros [Hk ->].
    apply index_key_inj in Hk as <-. rewrite <-Hs in Hlive. by destruct Hlive.
Qed.

Lemma pending_of_ok now q t ids c :
  char_in ":" t = false → represents now c q →
  let '(c', rs) := pending_of t now ids c in
  represents now c' q ∧
  Forall2 (λ f r, spec_live now q (t, f) = Some r)
    (bfilter (λ f, bool_decide (is_Some (spec_live now q (t, f)))) ids) rs.
Proof.
  intros Ht. revert c. induction ids as [|f ids IH]; intros c Hr; simpl.
  { split; [done|constructor]. }
  pose proof (represents_live now c q t f Hr Ht) as Hs. rewrite bfilter_cons.
  destruct (live c now (_hash_key t f)) as [[record dl]|] eqn:E; simpl in Hs |- *.
  - rewrite (bool_decide_eq_true_2 (is_Some (spec_live now q (t, f)))) by (rewrite <-Hs; eauto).
    assert (record ≠ []) as Hne.
    { intros ->. unfold spec_live in Hs. destruct (q !! (t, f)) as [[[? ?] ?]|]; [|done]. simpl in Hs.
      by case_match. }
    destruct record as [|x record]; [done|].
    specialize (IH c Hr). destruct (pending_of t now ids c) as [c' rs]. destruct IH as [H1 H2].
    split; [done|]. by constructor.
  - rewrite (bool_decide_eq_false_2 (is_Some (spec_live now q (t, f)))) by (rewrite <-Hs; by intros []).
    apply IH. by apply represents_srem.
Qed.

Lemma enqueue_represents now c q flag ttl : represents now c q → char_in ":" (f_tenant_id flag) = false →
  0 < ttl → represents now (enqueue flag ttl now c) (spec_step now (OEnqueue flag ttl) q).
Proof.
  intros [Hl Hm] Ht Httl. unfold enqueue. set (hk := _hash_key _ _). set (ik := _index_key _).
  split.
  - intros t f Htf. rewrite live_sadd by (by intros ?%eq_sym%hash_not_index).
    rewrite live_expire by done. rewrite !live_hset. unfold spec_step.
    destruct (decide (hk = _hash_key t f)) as [Hk|Hk].
    + apply hash_key_inj in Hk as [<- <-]; [|done..]. rewrite decide_True by done.
      rewrite lookup_insert_eq. simpl. rewrite (proj2 (Z.leb_gt (now + ttl) now)) by lia.
      f_equal. f_equal. unfold hk. rewrite (Hl _ _ Ht).
      destruct (q !! _) as [[[flag0 at0] dl0]|]; [|reflexivity].
      simpl. destruct (dl0 <=? now); reflexivity.
    + rewrite lookup_insert_ne; [by apply Hl|]. intros [= <- <-]. by apply Hk.
  - intros t f Htf Hs. apply elem_of_sadd.
    destruct (decide ((f_tenant_id flag, flag_id flag) = (t, f))) as [[= <- <-]|Hne]; [by right|left].
    rewrite members_expire, members_hset by (by apply hash_not_index). apply Hm; [done|].
    unfold spec_live, spec_step in Hs. rewrite lookup_insert_ne in Hs by done. exact Hs.
Qed.

Lemma ack_represents now c q t f : represents now c q → char_in ":" t = false →
  represents now (ack t f now c).1 (spec_step now (OAck t f) q).
Proof.
  intros [Hl Hm] Ht. unfold ack, spec_step. cbn [fst]. split.
  - intros t' f' Ht'. rewrite live_srem by (by intros ?%eq_sym%hash_not_index). rewrite live_del.
    destruct (decide (_hash_key t f = _hash_key t' f')) as [Hk|Hk].
    + apply hash_key_inj in Hk as [<- <-]; [|done..]. by rewrite lookup_delete_eq.
    + rewrite lookup_delete_ne; [by apply Hl|]. intros [= <- <-]. by apply Hk.
  - intros t' f' Ht' Hs. unfold spec_live in Hs.
    destruct (decide ((t, f) = (t', f'))) as [[= <- <-]|Hne].
    { rewrite lookup_delete_eq in Hs. by destruct Hs. }
    rewrite lookup_delete_ne in Hs by done. apply elem_of_srem. split.
    + rewrite members_del by (by apply hash_not_index). by apply Hm.
    + intros [Hk <-]. apply index_key_inj in Hk as ->. by apply Hne.
Qed.

Lemma queue_step_ok now op c q : represents now c q → op_ok op →
  let '(c', a) := queue_step now op c in
  answer_ok now op q a ∧ represents now c' (spec_step now op q).
Proof.
  intros Hr Hop. destruct op as [flag ttl|t|t f]; simpl in Hop |- *.
  - split; [done|]. destruct Hop. by apply enqueue_represents.
  - unfold list_pending. pose proof (pending_of_ok now q t (members c (_index_key t)) c Hop Hr) as Hp.
    destruct (pending_of _ _ _ c) as [c' rs]. destruct Hp as [H1 H2]. split; [|done].
    eexists. split_and!; [| |exact H2].
    + apply NoDup_filter, members_NoDup.
    + intros f. rewrite elem_of_bfilter, bool_decide_eq_true. split; [by intros []|].
      intros Hs. split; [done|]. by apply Hr.
  - pose proof (ack_represents now c q t f Hr Hop) as Ha.
    pose proof (represents_live now c q t f Hr Hop) as Hs. unfold ack in *. cbn [fst] in Ha.
    split; [|done]. apply bool_decide_ext. rewrite <-Hs. by rewrite fmap_is_Some.
Qed.

(** C13: The review queue implements its specification.  Over any history of enqueuing, listing and
    acknowledging, in time order, listing a tenant returns exactly the flags of that tenant that were
    enqueued, are not acknowledged since and have not expired, each once and as last enqueued; and
    acknowledging says whether the flag was pending.  Flags of other tenants never show. *)
Theorem queue_refines_spec ops c from :
  (∀ k, live c from k = None) → ops_ok from ops → answers_ok ops ∅ (run_queue ops c).
Proof.
  intros Hc. assert (represents from c ∅) as Hr.
  { split; [intros t f _; by rewrite Hc|]. intros t f _ [? Hs]. done. }
  clear Hc. revert c from Hr. generalize (∅ : Spec). induction ops as [|[now op] ops IH];
    intros q c from Hr Hops; simpl; [done|]. destruct Hops as (Hle & Hop & Hops).
  apply (queue_represents_later _ _ _ _ Hle) in Hr. pose proof (queue_step_ok now op c q Hr Hop) as Hs.
  destruct (queue_step now op c) as [c' a]. destruct Hs as [Ha Hr']. simpl. split; [done|]. by eapply IH.
Qed.

(** ** A listing other clients interrupt

    Between two commands of a listing other clients may run theirs: the operations of [gap i], from time
    [s i] to [s (S i)], when the listing's next command runs. *)

Section awaiting.
Context (gap : nat → list (Z * QueueOp)) (s : nat → Z).

Definition others (ops : list (Z * QueueOp)) (c : C) : C := foldl (λ c x, (queue_step x.1 x.2 c).1) c ops.
Definition others_spec (ops : list (Z * QueueOp)) (q : Spec) : Spec := foldl (λ q x, spec_step x.1 x.2 q) q ops.

(** [list_pending] from the [i]-th gap, after [smembers] has answered [ids]: each [hgetall] and each [srem]
    awaits the server. *)
Fixpoint list_awaiting (tenant_id : string) (i : nat) (ids : list string) (c : C) : nat * C * list hash :=
  match ids with
  | [] => (i, c, [])
  | fid :: rest =>
      let c := others (gap i) c in
      match default [] (fst <$> live c (s (S i)) (_hash_key tenant_id fid)) with
      | [] => list_awaiting tenant_id (S (S i)) rest (srem (others (gap (S i)) c) (_index_key tenant_id) fid)
      | record => let '(i, c, rs) := list_awaiting tenant_id (S i) rest c in (i, c, record :: rs)
      end
  end.

(** The specification after the first [n] gaps. *)
Fixpoint spec_after (q : Spec) (n : nat) : Spec :=
  match n with O => q | S n => others_spec (gap n) (spec_after q n) end.

Definition in_gaps : Prop := ∀ i, s i ≤ s (S i) ∧ ops_ok (s i) (gap i) ∧ Forall (λ x, x.1 ≤ s (S i)) (gap i).

(** None of the flags is enqueued again meanwhile. *)
Definition not_again (tenant_id : string) (ids : list string) : Prop :=
  ∀ i now flag ttl_s, (now, OEnqueue flag ttl_s) ∈ gap i → f_tenant_id flag = tenant_id → flag_id flag ∉ ids.

Lemma others_represents lo hi ops c q : lo ≤ hi → ops_ok lo ops → Forall (λ x, x.1 ≤ hi) ops → represents lo c q →
  represents hi (others ops c) (others_spec ops q).
Proof.
  revert lo c q. induction ops as [|[now op] ops IH]; intros lo c q Hle Hok Hhi Hr; [by eapply queue_represents_later|].
  destruct Hok as (Hlo & Hop & Hok). apply Forall_cons in Hhi as [Hn Hhi]. simpl in Hn.
  apply (queue_represents_later _ now) in Hr; [|done].
  pose proof (queue_step_ok now op c q Hr Hop) as Hs. cbn [others others_spec foldl fst snd].
  destruct (queue_step now op c) as [c1 a]. destruct Hs as [_ Hs]. by apply (IH now).
Qed.

Lemma gap_represents q i c : in_gaps → represents (s i) c (spec_after q i) →
  represents (s (S i)) (others (gap i) c) (spec_after q (S i)).
Proof. intros Hg Hr. destruct (Hg i) as (? & ? & ?). by apply (others_represents (s i)). Qed.

(** A flag that is not live stays so as long as it is not enqueued again. *)
Lemma dead_stays t f lo hi ops q : lo ≤ hi →
  (∀ now flag ttl_s, (now, OEnqueue flag ttl_s) ∈ ops → f_tenant_id flag = t → flag_id flag ≠ f) →
  spec_live lo q (t, f) = None → spec_live hi (others_spec ops q) (t, f) = None.
Proof.
  revert q. induction ops as [|[now op] ops IH]; intros q Hle Hne Hd.
  - revert Hd. unfold spec_live, others_spec. cbn [foldl]. destruct (q !! (t, f)) as [[[flag at_] dl]|]; [|done].
    simpl. destruct (dl <=? lo) eqn:E; [|done]. apply Z.leb_le in E. by rewrite (proj2 (Z.leb_le dl hi)) by lia.
  - cbn [others_spec foldl fst snd]. apply IH; [done|intros; eapply Hne; [by right|done]|].
    unfold spec_live in *. destruct op as [flag ttl|t'|t' f']; cbn [spec_step]; [|done|].
    + rewrite lookup_insert_ne; [done|]. intros [= Ht Hf]. by apply (Hne now flag ttl (list_elem_of_here _ _) Ht).
    + destruct (decide ((t', f') = (t, f))) as [->|]; [by rewrite lookup_delete_eq|by rewrite lookup_delete_ne].
Qed.

(** A listing that other clients interrupt: every record it returns is that of a flag of the tenant, as the
    specification had it when it was read; every flag of the index that stayed pending is returned; and the
    queue is left implementing the specification, as long as nobody enqueues a listed flag again. *)
Theorem list_awaiting_ok q t ids i c :
  char_in ":" t = false → in_gaps → not_again t ids → represents (s i) c (spec_after q i) →
  let '(n, c', rs) := list_awaiting t i ids c in
  represents (s n) c' (spec_after q n) ∧
  (∀ r, r ∈ rs → ∃ f j, f ∈ ids ∧ spec_live (s j) (spec_after q j) (t, f) = Some r) ∧
  (∀ f, f ∈ ids → (∀ j, is_Some (spec_live (s j) (spec_after q j) (t, f))) →
        ∃ r j, r ∈ rs ∧ spec_live (s j) (spec_after q j) (t, f) = Some r).
Proof.
  intros Ht Hg. revert i c. induction ids as [|f ids IH]; intros i c Hna Hr.
  { cbn [list_awaiting]. split_and!; [done|by intros ? ?%elem_of_nil..]. }
  assert (not_again t ids) as Hna' by (intros j now flag ttl Hj Hf Hin; apply (Hna j now flag ttl Hj Hf); by right).
  pose proof (gap_represents q i c Hg Hr) as Hr1. cbn [list_awaiting].
  pose proof (represents_live _ _ _ t f Hr1 Ht) as Hl. set (c1 := others (gap i) c) in *.
  destruct (fst <$> live c1 (s (S i)) (_hash_key t f)) as [record|] eqn:E; cbn [default].
  - assert (record ≠ []) as Hne.
    { intros ->. unfold spec_live in Hl. symmetry in Hl. destruct (_ !! (t, f)) as [[[? ?] ?]|]; [|done].
      simpl in Hl. by case_match. }
    destruct record as [|x record]; [done|]. unfold default, from_option, id.
    specialize (IH (S i) c1 Hna' Hr1). destruct (list_awaiting t (S i) ids c1) as [[n c'] rs].
    destruct IH as (H1 & H2 & H3). split_and!; [done| |].
    + intros r [->|Hin]%elem_of_cons; [exists f, (S i); split; [left|done]|].
      destruct (H2 r Hin) as (f' & j & ? & ?). exists f', j. split; [by right|done].
    + intros f' [->|Hin]%elem_of_cons Hlive; [exists (x :: record), (S i); split; [left|done]|].
      destruct (H3 f' Hin Hlive) as (r & j & ? & ?). exists r, j. split; [by right|done].
  - pose proof (gap_represents q (S i) c1 Hg Hr1) as Hr2.
    assert (spec_live (s (S (S i))) (spec_after q (S (S i))) (t, f) = None) as Hd.
    { destruct (Hg (S i)) as (Hle & _). apply (dead_stays t f (s (S i))); [done| |done].
      intros now flag ttl Hj Hf. pose proof (Hna (S i) now flag ttl Hj Hf). set_solver. }
    pose proof (represents_live _ _ _ t f Hr2 Ht) as Hl2. rewrite Hd in Hl2.
    assert (represents (s (S (S i))) (srem (others (gap (S i)) c1) (_index_key t) f) (spec_after q (S (S i)))) as Hr3.
    { apply represents_srem; [done|done|]. by destruct (live _ (s (S (S i))) _). }
    specialize (IH (S (S i)) _ Hna' Hr3). destruct (list_awaiting t (S (S i)) ids _) as [[n c'] rs].
    destruct IH as (H1 & H2 & H3). split_and!; [done| |].
    + intros r Hin. destruct (H2 r Hin) as (f' & j & ? & ?). exists f', j. split; [by right|done].
    + intros f' [->|Hin]%elem_of_cons Hlive; [|by apply H3].
      destruct (Hlive (S i)) as [x Hx]. by rewrite <-Hl in Hx.
Qed.
End awaiting.
End queue.

(** ** A table that satisfies the laws *)

Record HashTable := { ht_hashes : gmap string (hash * option Z); ht_sets : gmap string (gset string) }.

Definition ht_live (c : HashTable) (now : Z) (k : string) : option (hash * option Z) :=
  ht_hashes c !! k ≫= still now.

Definition ht_set (c : HashTable) (k : string) : gset string := default ∅ (ht_sets c !! k).

Definition with_hashes (c : HashTable) h : HashTable := {| ht_hashes := h; ht_sets := ht_sets c |}.
Definition with_set (c : HashTable) k X : HashTable :=
  {| ht_hashes := ht_hashes c; ht_sets := <[k := X]> (ht_sets c) |}.

#[export] Program Instance hash_table : RedisHashes HashTable := {|
  live := ht_live;
  members c k := elements (ht_set c k);
  hset c now k r := with_hashes c (<[k := (merge_hash (default [] (fst <$> ht_live c now k)) r,
                                           ht_live c now k ≫= snd)]> (ht_hashes c));
  expire c now k ttl := match ht_live c now k with
                        | Some x => with_hashes c (<[k := (x.1, Some (now + ttl))]> (ht_hashes c))
                        | None => c
                        end;
  del c now k := with_hashes c (delete k (ht_hashes c));
  sadd c k x := with_set c k ({[ x ]} ∪ ht_set c k);
  srem c k x := with_set c k (ht_set c k ∖ {[ x ]})
|}.
Next Obligation.
  intros c now now' k Hle. unfold ht_live. destruct (ht_hashes c !! k) as [[r [dl|]]|]; [|done|done].
  cbn. unfold still. cbn. destruct (dl <=? now) eqn:E; cbn; [|done].
  apply Z.leb_le in E. by rewrite (proj2 (Z.leb_le dl now')) by lia.
Qed.
Next Obligation.
  intros c now k r k'. unfold ht_live at 1. simpl. destruct (decide (k = k')) as [<-|Hne].
  - rewrite lookup_insert_eq. unfold ht_live. destruct (ht_hashes c !! k) as [[r0 [dl|]]|]; [|done|done].
    cbn. unfold still. cbn. destruct (dl <=? now) eqn:E; cbn; [done|]. by rewrite E.
  - by rewrite lookup_insert_ne.
Qed.
Next Obligation.
  intros c now k ttl k' Hpos. simpl. destruct (decide (k = k')) as [<-|Hne].
  - destruct (ht_live c now k) as [[r d]|] eqn:E; [|by rewrite E]. unfold ht_live. cbn.
    rewrite lookup_insert_eq. cbn. unfold still. cbn. by rewrite (proj2 (Z.leb_gt _ _)) by lia.
  - destruct (ht_live c now k); [|done]. unfold ht_live. simpl. by rewrite lookup_insert_ne.
Qed.
Next Obligation.
  intros c now k k'. unfold ht_live. simpl. destruct (decide (k = k')) as [<-|Hne].
  - by rewrite lookup_delete_eq.
  - by rewrite lookup_delete_ne.
Qed.
Next Obligation. done. Qed.
Next Obligation. done. Qed.
Next Obligation. done. Qed.
Next Obligation. intros c now k ttl k' Hne. simpl. by destruct (ht_live c now k). Qed.
Next Obligation. done. Qed.
Next Obligation.
  intros c k x k' y. simpl. rewrite !elem_of_elements. unfold ht_set at 1. simpl.
  destruct (decide (k = k')) as [<-|Hne].
  - rewrite lookup_insert_eq. simpl. set_solver.
  - rewrite lookup_insert_ne by done. unfold ht_set. naive_solver.
Qed.
Next Obligation.
  intros c k x k' y. simpl. rewrite !elem_of_elements. unfold ht_set at 1. simpl.
  destruct (decide (k = k')) as [<-|Hne].
  - rewrite lookup_insert_eq. simpl. set_solver.
  - rewrite lookup_insert_ne by done. unfold ht_set. naive_solver.
Qed.
Next Obligation. intros c k. apply NoDup_elements. Qed.

Definition empty_table : HashTable := {| ht_hashes := ∅; ht_sets := ∅ |}.

Definition queue_flag (id tenant : string) : Flag :=
  {| flag_id := id; f_run_id := "r"; f_tenant_id := tenant; f_severity := HIGH; f_asi_categories := ["ASI01"];
     f_verdict_ids := []; f_status := "open"; f_confidence := of_Z 1; f_evidence := []; f_created_at := 0 |}.

Definition sample_ops : list (Z * QueueOp) :=
  [(0, OEnqueue (queue_flag "f1" "t1") 10); (1, OEnqueue (queue_flag "f2" "t1") 100);
   (2, OEnqueue (queue_flag "f1" "t2") 100); (5, OList "t1"); (20, OList "t1"); (21, OAck "t2" "f1");
   (22, OAck "t2" "f1")].

Lemma queue_refines_spec_witness :
  answers_ok (λ _, "now") (λ _, "1.0") sample_ops ∅
    (run_queue (λ _, "now") (λ _, "1.0") sample_ops empty_table).
Proof.
  apply (queue_refines_spec (λ _, "now") (λ _, "1.0") sample_ops empty_table 0); [done|].
  unfold sample_ops. simpl. split_and!; (done || lia).
Defined.

Example queue_run :
  map (λ a, match a with
            | APending rs => map (λ r, default "" (dget "flag_id" r)) rs
            | AExisted b => [if b then "yes" else "no"]
            | ADone => []
            end) (run_queue (λ _, "now") (λ _, "1.0") sample_ops empty_table)
  = [[]; []; []; ["f1"; "f2"]; ["f2"]; ["yes"]; ["no"]].
Proof. vm_compute. reflexivity. Qed.

(** A flag that expired and is enqueued again between the listing's two commands about it loses its place in
    the index: it is pending, and no listing shows it. *)
Example requeued_flag_lost :
  let again := OEnqueue (queue_flag "f1" "t1") 100 in
  let run := λ i, if decide (i = 1%nat) then [(20, again)] else [] in
  let clock := λ i : nat, 20 in
  let c := enqueue (λ _, "now") (λ _, "1.0") (queue_flag "f1" "t1") 10 0 empty_table in
  let c' := (list_awaiting (λ _, "now") (λ _, "1.0") run clock "t1" 0 ["f1"] c).1.2 in
  is_Some (live c' 20 (_hash_key "t1" "f1")) ∧ (list_pending "t1" 20 c').2 = [].
Proof. split; [by eexists; vm_compute|by vm_compute]. Qed.

(** ** Routing ([router.py])

    The collaborators act on a state [S] and may raise. *)

Definition _HIGH_TTL_S : Z := 4 * 60 * 60.

Record RoutingResult := {
  rt_tier : string;
  paused : bool;
  queued : bool;
  notified : bool;
  digested : bool;
  checkpoint_uri : option string;
  pause_error : option string
}.

Definition routing (tier : string) : RoutingResult :=
  {| rt_tier := tier; paused := false; queued := false; notified := false; digested := false;
     checkpoint_uri := None; pause_error := None |}.

Section router.
Context {S : Type}.
Context (capture : uuid → uuid → S → S * result PyExn (option string)).
Context (pause : uuid → S → S * result PyExn ()).
Context (q_enqueue : Flag → Z → S → S * result PyExn ()).
Context (append_digest : Flag → S → S * result PyExn ()).
Context (notify : Flag → option string → S → S * result PyExn bool).
Context (ui_base_url : option string).

Definition _ui_url (flag : Flag) : option string :=
  if ostr_truthy ui_base_url
  then Some (rstrip_in "/" (default "" ui_base_url) +:+ "/flags/" +:+ flag_id flag) else None.

Definition exn_of {A} (r : result PyExn A) : option string :=
  match r with Ok _ => None | Raise e => Some (exn_text e) end.

Definition _route_critical (flag : Flag) (s : S) : S * RoutingResult :=
  let '(s, uri) := capture (f_run_id flag) (f_tenant_id flag) s in
  let '(s, p) := pause (f_run_id flag) s in
  let '(s, q) := q_enqueue flag _HIGH_TTL_S s in
  let '(s, n) := notify flag (_ui_url flag) s in
  (s, {| rt_tier := "critical"; paused := is_ok p; queued := is_ok q;
         notified := try_except n (λ _, false); digested := false;
         checkpoint_uri := try_except uri (λ _, None); pause_error := exn_of p |}).

Definition _route_high (flag : Flag) (s : S) : S * RoutingResult :=
  let '(s, q) := q_enqueue flag _HIGH_TTL_S s in
  let '(s, n) := notify flag (_ui_url flag) s in
  (s, {| rt_tier := "high"; paused := false; queued := is_ok q; notified := try_except n (λ _, false);
         digested := false; checkpoint_uri := None; pause_error := None |}).

Definition _route_medium (flag : Flag) (s : S) : S * RoutingResult :=
  let '(s, d) := append_digest flag s in
  (s, {| rt_tier := "medium"; paused := false; queued := false; notified := false; digested := is_ok d;
         checkpoint_uri := None; pause_error := None |}).

Definition _route_low (flag : Flag) (s : S) : S * RoutingResult := (s, routing "low").

Definition route (flag : Flag) (s : S) : S * RoutingResult :=
  match f_severity flag with
  | CRITICAL => _route_critical flag s
  | HIGH => _route_high flag s
  | MEDIUM => _route_medium flag s
  | LOW => _route_low flag s
  end.

(** The run is paused exactly for a critical flag whose pause succeeds; a failing collaborator changes
    no other part of the result. *)
Lemma route_paused flag s :
  paused (route flag s).2 = true ↔
    f_severity flag = CRITICAL ∧
    is_Some (match (pause (f_run_id flag) (capture (f_run_id flag) (f_tenant_id flag) s).1).2 with
             | Ok _ => Some tt | Raise _ => None end).
Proof.
  unfold route. destruct (f_severity flag) eqn:E;
    try (split; [|by intros [? _]]; unfold _route_high, _route_medium, _route_low).
  - done.
  - destruct (append_digest flag s). done.
  - destruct (q_enqueue flag _ s) as [s1 ?]. by destruct (notify flag _ s1).
  - unfold _route_critical. destruct (capture _ _ s) as [s1 u]. cbn [fst].
    destruct (pause _ s1) as [s2 p]. destruct (q_enqueue _ _ s2) as [s3 q].
    destruct (notify _ _ s3) as [s4 n]. cbn [fst snd paused].
    rewrite is_ok_spec. destruct p as [[]|]; naive_solver.
Qed.
End router.

(** ** Notifying ([notifier.py]) *)

(** [SlackNotifier.notify]; [send] is the request with the card, which is built from the flag. *)
Definition slack_notify {S} (webhook_url : option string) (send : string → Flag → option string → S → S * result PyExn ())
    (flag : Flag) (ui_url : option string) (s : S) : S * result PyExn bool :=
  if ostr_truthy webhook_url then
    let '(s, r) := send (default "" webhook_url) flag ui_url s in (s, Ok (is_ok r))
  else (s, Ok false).

(** [PagerDutyNotifier.notify]: a stub, which never pages. *)
Definition pagerduty_notify {S} (routing_key : option string) (flag : Flag) (ui_url : option string) (s : S)
    : S * result PyExn bool := (s, Ok false).
