(* ===== verification/Asi02.v ===== *)
(** * Tool misuse: cycles, bursts and dangerous chains

    Models [auditor/detectors/asi02_tool_misuse.py].  The depth-first search shares its colours and its
    stack between the recursive calls, so both are state; the fuel is the depth of recursion the
    interpreter allows, and running out of it is the [RecursionError] it raises. *)

From Stdlib Require Import ZArith Lia Ascii SpecFloat.
From Stdlib Require String.
From stdpp Require Import base tactics option list strings gmap sets.
From S2P Require Import Prelude PyStr Float64 Json Verdicts Events Budget Gate Rules.

Definition _MIN_CYCLE_DEPTH : nat := 3.
Definition _MAX_SAME_TOOL : Z := 50.

Definition _DANGEROUS_CHAINS : list (string * list string) :=
  [("read_secret", ["http_post"; "send_email"; "exec_shell"]);
   ("query_employee", ["send_email"; "http_post"]);
   ("kb_search", ["exec_shell"])].

(** ** The search *)

Inductive Color := WHITE | GRAY | BLACK.

#[export] Instance Color_eq_dec : EqDecision Color.
Proof. solve_decision. Defined.

Definition Adjacency : Type := list (uuid * list uuid).

Record Search := { color : gmap string Color; stack : list uuid }.

(** [color.get(n, WHITE)] *)
Definition get_color (s : Search) (n : uuid) : Color := default WHITE (color s !! n).

Definition enter (n : uuid) (s : Search) : Search :=
  {| color := <[n := GRAY]> (color s); stack := stack s ++ [n] |}.

(** [stack.pop()] and the colouring that follows. *)
Definition leave (n : uuid) (s : Search) : Search :=
  {| color := <[n := BLACK]> (color s); stack := take (length (stack s) - 1) (stack s) |}.

(** [stack[stack.index(n):]] *)
Fixpoint from_node (n : uuid) (l : list uuid) : list uuid :=
  match l with
  | [] => []
  | x :: l' => if decide (x = n) then l else from_node n l'
  end.

Definition neighbours (adj : Adjacency) (n : uuid) : list uuid := default [] (dget n adj).

(** The loop over the neighbours, given the recursive call. *)
Fixpoint dfs_loop (rec : uuid → Search → option (Search * option (list uuid))) (node : uuid)
    (nxts : list uuid) (s : Search) : option (Search * option (list uuid)) :=
  match nxts with
  | [] => Some (leave node s, None)
  | nxt :: rest =>
      match get_color s nxt with
      | GRAY => let cycle := from_node nxt (stack s) in
                if (_MIN_CYCLE_DEPTH <=? length cycle)%nat then Some (s, Some cycle)
                else dfs_loop rec node rest s
      | WHITE => match rec nxt s with
                 | None => None
                 | Some (s', Some found) => Some (s', Some found)
                 | Some (s', None) => dfs_loop rec node rest s'
                 end
      | BLACK => dfs_loop rec node rest s
      end
  end.

Fixpoint dfs (adj : Adjacency) (fuel : nat) (node : uuid) (s : Search)
    : option (Search * option (list uuid)) :=
  match fuel with
  | O => None
  | S fuel' => dfs_loop (dfs adj fuel') node (neighbours adj node) (enter node s)
  end.

Fixpoint find_from (adj : Adjacency) (limit : nat) (starts : list uuid) (s : Search)
    : option (option (list uuid)) :=
  match starts with
  | [] => Some None
  | start :: rest =>
      match get_color s start with
      | WHITE => match dfs adj limit start s with
                 | None => None
                 | Some (_, Some found) => Some (Some found)
                 | Some (s', None) => find_from adj limit rest s'
                 end
      | _ => find_from adj limit rest s
      end
  end.

(** [_find_cycle]: [None] is the exceeded recursion limit. *)
Definition _find_cycle (limit : nat) (adj : Adjacency) : option (option (list uuid)) :=
  find_from adj limit (dkeys adj)
    {| color := list_to_map (map (λ n, (n, WHITE)) (dkeys adj)); stack := [] |}.

(** ** The detector *)

Local Open Scope Z_scope.

Definition add_edge (adj : Adjacency) (e : BaseEvent) : Adjacency :=
  let adj := if decide (is_Some (dget (span_id e) adj)) then adj else dset (span_id e) [] adj in
  match parent_span_id e with
  | Some p => dset p (default [] (dget p adj) ++ [span_id e]) adj
  | None => adj
  end.

Definition span_graph (starts : list BaseEvent) : Adjacency := foldl add_edge [] starts.

Definition tool_counts (tools : list string) : list (string * Z) :=
  foldl (λ d t, dset t (default 0 (dget t d) + 1) d) [] tools.

Definition burst_evidence (counts : list (string * Z)) : list Evidence :=
  omap (λ '(tool, n),
    if _MAX_SAME_TOOL <? n
    then Some (note ("tool " +:+ py_repr_str tool +:+ " invoked " +:+ dec n +:+ " times (> "
                     +:+ dec _MAX_SAME_TOOL +:+ ")"))
    else None) counts.

Fixpoint chain_evidence (seen_sources : list string) (starts : list (BaseEvent * ToolCallStart))
    : list Evidence :=
  match starts with
  | [] => []
  | (e, b) :: rest =>
      let tool := tool_name b in
      omap (λ '(source, sinks),
        if bool_decide (source ∈ seen_sources) && bool_decide (tool ∈ sinks)
        then Some (evidence_at e ("dangerous composition: " +:+ source +:+ " -> " +:+ tool))
        else None) _DANGEROUS_CHAINS
      ++ chain_evidence (if bool_decide (tool ∈ dkeys _DANGEROUS_CHAINS) then tool :: seen_sources
                         else seen_sources) rest
  end.

Definition asi02_run (limit : nat) (fresh : uuid) (now : datetime) (t : Trace) : result PyExn (list Verdict) :=
  let starts := tool_call_starts (events t) in
  if bool_decide (starts = []) then Ok []
  else
    match _find_cycle limit (span_graph (map fst starts)) with
    | None => raise "RecursionError" "maximum recursion depth exceeded"
    | Some cycle =>
        let evidence :=
          match cycle with
          | Some c => [note ("tool-call cycle of depth " +:+ dec (Z.of_nat (length c))
                             +:+ " detected in span graph")]
          | None => []
          end
          ++ burst_evidence (tool_counts (map (λ p, tool_name p.2) starts))
          ++ chain_evidence [] starts in
        Ok [rule_verdict fresh now t "asi02_tool_misuse" "ASI02" (ratio 95 100) evidence
              (dec (Z.of_nat (length starts)) +:+ " tool calls; no cycle/burst/dangerous chain") None]
    end.

(** ** What the search finds *)

Section search.
Context (adj : Adjacency).

Definition edge (u v : uuid) : Prop := v ∈ neighbours adj u.

Definition path (l : list uuid) : Prop := ∀ l1 a b l2, l = l1 ++ a :: b :: l2 → edge a b.

Definition cycle (c : list uuid) : Prop :=
  (_MIN_CYCLE_DEPTH <= length c)%nat ∧ NoDup c ∧ path c ∧
  ∃ a z, head c = Some a ∧ last c = Some z ∧ edge z a.

(** The nodes in the order they were finished: what a finished node points to was finished before it,
    but for edges to itself and back along an edge. *)
Definition finished_order (l : list uuid) : Prop :=
  NoDup l ∧ ∀ l1 u l2, l = l1 ++ u :: l2 → ∀ v, edge u v → v ∈ l1 ∨ v = u ∨ edge v u.

Record search_inv (l : list uuid) (s : Search) : Prop := {
  si_nodup : NoDup (stack s);
  si_gray : ∀ n, get_color s n = GRAY ↔ n ∈ stack s;
  si_black : ∀ n, get_color s n = BLACK ↔ n ∈ l;
  si_path : path (stack s);
  si_order : finished_order l
}.

Definition whites (s : Search) : nat :=
  length (bfilter (λ n, bool_decide (get_color s n = WHITE)) (dkeys adj)).

Lemma get_color_enter n s m : get_color (enter n s) m = if decide (n = m) then GRAY else get_color s m.
Proof.
  unfold get_color, enter. simpl. case_decide; subst; [by rewrite lookup_insert_eq|by rewrite lookup_insert_ne].
Qed.

Lemma get_color_leave n s m : get_color (leave n s) m = if decide (n = m) then BLACK else get_color s m.
Proof.
  unfold get_color, leave. simpl. case_decide; subst; [by rewrite lookup_insert_eq|by rewrite lookup_insert_ne].
Qed.

Lemma from_node_split n l : n ∈ l → ∃ l1, l = l1 ++ from_node n l ∧ head (from_node n l) = Some n.
Proof.
  induction l as [|x l IH]; [by intros ?%elem_of_nil|]. simpl. case_decide as Hx; subst.
  - intros _. by exists [].
  - intros [?|Hin]%elem_of_cons; [done|]. destruct (IH Hin) as (l1 & Hl & Hh). exists (x :: l1).
    split; [by rewrite <-app_comm_cons, <-Hl|done].
Qed.

Lemma path_suffix l1 l2 : path (l1 ++ l2) → path l2.
Proof. intros H a u v b ->. apply (H (l1 ++ a) u v b). by rewrite <-(assoc_L (++)). Qed.

Lemma path_snoc l z n : path l → (last l = Some z → edge z n) → (l = [] ∨ last l = Some z) → path (l ++ [n]).
Proof.
  intros Hp Hz Hl l1 a b l2 Heq. destruct l2 as [|y l2 _] using rev_ind.
  - assert (l ++ [n] = (l1 ++ [a]) ++ [b]) as E by (by rewrite <-(assoc_L (++))).
    apply app_inj_tail in E as [-> <-]. destruct Hl as [Hl|Hl]; [by destruct l1|].
    rewrite last_snoc in Hl. injection Hl as ->. apply Hz. by rewrite last_snoc.
  - assert (l ++ [n] = (l1 ++ a :: b :: l2) ++ [y]) as E by (by rewrite <-(assoc_L (++))).
    apply app_inj_tail in E as [-> _]. by apply (Hp l1 a b l2).
Qed.

Lemma bfilter_length_le {A} (p q : A → bool) l :
  (∀ x, x ∈ l → p x = true → q x = true) → (length (bfilter p l) <= length (bfilter q l))%nat.
Proof.
  induction l as [|x l IH]; intros H; [done|]. rewrite !bfilter_cons.
  assert (length (bfilter p l) <= length (bfilter q l))%nat as Hl by (apply IH; intros y Hy; apply H; by right).
  destruct (p x) eqn:Ep; [rewrite (H x) by (done || left); simpl; lia|]. destruct (q x); simpl; lia.
Qed.

Lemma bfilter_length_lt {A} (p q : A → bool) l x :
  (∀ y, y ∈ l → p y = true → q y = true) → x ∈ l → p x = false → q x = true →
  (length (bfilter p l) < length (bfilter q l))%nat.
Proof.
  intros H Hx Hp Hq. apply list_elem_of_split in Hx as (l1 & l2 & ->).
  rewrite !bfilter_app, !bfilter_cons, Hp, Hq, !length_app. simpl.
  assert (length (bfilter p l1) <= length (bfilter q l1))%nat
    by (apply bfilter_length_le; intros y Hy; apply H; set_solver).
  assert (length (bfilter p l2) <= length (bfilter q l2))%nat
    by (apply bfilter_length_le; intros y Hy; apply H; set_solver). lia.
Qed.

Lemma whites_mono s s' : (∀ n, get_color s' n = WHITE → get_color s n = WHITE) → (whites s' <= whites s)%nat.
Proof. intros H. apply bfilter_length_le. intros n _. rewrite !bool_decide_eq_true. apply H. Qed.

Lemma whites_enter n s : n ∈ dkeys adj → get_color s n = WHITE → (whites (enter n s) < whites s)%nat.
Proof.
  intros Hn Hw. apply (bfilter_length_lt _ _ _ n); [|done| |by apply bool_decide_eq_true].
  - intros y _. rewrite !bool_decide_eq_true, get_color_enter. by case_decide.
  - apply bool_decide_eq_false. rewrite get_color_enter. by rewrite decide_True.
Qed.

(** A neighbour of the node being searched that needs no further visit. *)
Definition settled (node : uuid) (l : list uuid) (v : uuid) : Prop := v ∈ l ∨ v = node ∨ edge v node.

Lemma enter_inv l s node z :
  search_inv l s → get_color s node = WHITE → (last (stack s) = Some z → edge z node) →
  (stack s = [] ∨ last (stack s) = Some z) → search_inv l (enter node s).
Proof.
  intros [Hnd Hg Hb Hp Ho] Hw Hz Hl. assert (node ∉ stack s) as Hn.
  { intros Hin. apply Hg in Hin. congruence. }
  split; simpl.
  - apply NoDup_app. split_and!; [done| |apply NoDup_singleton]. set_solver.
  - intros n. rewrite get_color_enter, elem_of_app, list_elem_of_singleton, <-Hg.
    case_decide; subst; naive_solver.
  - intros n. rewrite get_color_enter, <-Hb. case_decide; subst; [|done]. rewrite Hw. naive_solver.
  - by apply (path_snoc _ z).
  - done.
Qed.

Lemma leave_inv l s node stk :
  search_inv l s → stack s = stk ++ [node] → (∀ v, edge node v → settled node l v) →
  search_inv (l ++ [node]) (leave node s) ∧ stack (leave node s) = stk.
Proof.
  intros [Hnd Hg Hb Hp Ho] Hs Hset. rewrite Hs in *.
  assert (stack (leave node s) = stk) as Hstk.
  { simpl. rewrite Hs, length_app. simpl. by rewrite Nat.add_sub, take_app_length. }
  apply NoDup_app in Hnd as (Hnd & Hdis & _).
  assert (node ∉ stk) as Hn by (intros Hin; apply (Hdis node Hin); by left).
  assert (node ∉ l) as Hnl.
  { intros Hin. apply Hb in Hin. assert (get_color s node = GRAY) by (apply Hg; set_solver). congruence. }
  split; [split|done]; rewrite ?Hstk.
  - done.
  - intros n. rewrite get_color_leave. case_decide; subst; [naive_solver|].
    rewrite Hg, elem_of_app, list_elem_of_singleton. naive_solver.
  - intros n. rewrite get_color_leave, elem_of_app, list_elem_of_singleton, <-Hb. case_decide; naive_solver.
  - intros l1 a b l2 Heq. apply (Hp l1 a b (l2 ++ [node])). rewrite Heq. by rewrite <-(assoc_L (++)).
  - destruct Ho as [Hnd' Ho]. split.
    + apply NoDup_app. split_and!; [done| |apply NoDup_singleton]. set_solver.
    + intros l1 u l2 Heq v Huv. destruct l2 as [|y l2 _] using rev_ind.
      * apply app_inj_tail in Heq as [-> ->]. apply Hset, Huv.
      * assert (l ++ [node] = (l1 ++ u :: l2) ++ [y]) as E by (rewrite Heq; by rewrite <-(assoc_L (++))).
        apply app_inj_tail in E as [-> _]. by apply (Ho l1 u l2).
Qed.

(** A back edge closes a long cycle, or goes to the node itself or back along an edge. *)
Lemma back_edge l s node stk nxt :
  search_inv l s → stack s = stk ++ [node] → get_color s nxt = GRAY → edge node nxt →
  let c := from_node nxt (stack s) in
  if (_MIN_CYCLE_DEPTH <=? length c)%nat then cycle c else settled node l nxt.
Proof.
  intros [Hnd Hg Hb Hp Ho] Hs Hgray He c. apply Hg, from_node_split in Hgray as (l1 & Hl & Hh).
  fold c in Hl, Hh. assert (last c = Some node) as Hlast.
  { destruct c as [|y c' _] using rev_ind; [done|]. rewrite last_snoc.
    rewrite Hs, (assoc_L (++)) in Hl. by apply app_inj_tail in Hl as [_ ->]. }
  destruct (_MIN_CYCLE_DEPTH <=? length c)%nat eqn:E.
  - apply Nat.leb_le in E. split_and!; [done| | |by exists nxt, node].
    + rewrite Hl in Hnd. by apply NoDup_app in Hnd as (_ & _ & ?).
    + rewrite Hl in Hp. by apply path_suffix in Hp.
  - apply Nat.leb_gt in E. unfold _MIN_CYCLE_DEPTH in E.
    destruct c as [|a [|b [|? ?]]]; simpl in *; simplify_eq; [by right; left| |lia].
    right; right. apply (Hp l1 nxt node []). by rewrite Hl.
Qed.

(** What the search of a node promises, given how deep it may go. *)
Definition dfs_post (fuel : nat) (node : uuid) (l : list uuid) (s : Search)
    (out : option (Search * option (list uuid))) : Prop :=
  match out with
  | None => (fuel < whites s)%nat
  | Some (_, Some c) => cycle c
  | Some (s', None) => ∃ l', search_inv (l ++ l') s' ∧ stack s' = stack s ∧ node ∈ l ++ l' ∧
                         ∀ n, get_color s' n = WHITE → get_color s n = WHITE
  end.

Definition closed_graph : Prop := ∀ u v, edge u v → v ∈ dkeys adj.

Lemma dfs_loop_spec rec fuel node nxts stk l s :
  (∀ nxt l s, search_inv l s → get_color s nxt = WHITE → nxt ∈ dkeys adj → last (stack s) = Some node →
     edge node nxt → dfs_post fuel nxt l s (rec nxt s)) →
  closed_graph → search_inv l s → stack s = stk ++ [node] →
  (∀ v, v ∈ nxts → edge node v) → (∀ v, edge node v → v ∈ nxts ∨ settled node l v) →
  match dfs_loop rec node nxts s with
  | None => (fuel < whites s)%nat
  | Some (_, Some c) => cycle c
  | Some (s', None) => ∃ l', search_inv (l ++ l') s' ∧ stack s' = stk ∧ node ∈ l ++ l' ∧
                         ∀ n, get_color s' n = WHITE → get_color s n = WHITE
  end.
Proof.
  intros Hrec Hcl. revert l s. induction nxts as [|nxt nxts IH]; intros l s Hi Hs Hin Hset; cbn [dfs_loop].
  - destruct (leave_inv l s node stk Hi Hs) as [H1 H2].
    { intros v Hv. destruct (Hset v Hv) as [?%elem_of_nil|]; done. }
    exists [node]. split_and!; [done|done|set_solver|]. intros n. rewrite get_color_leave. by case_decide.
  - assert (edge node nxt) as He by (apply Hin; left).
    assert (∀ v, v ∈ nxts → edge node v) as Hin' by (intros v Hv; apply Hin; by right).
    destruct (get_color s nxt) eqn:Ec.
    + assert (last (stack s) = Some node) as Hl by (by rewrite Hs, last_snoc).
      pose proof (Hrec nxt l s Hi Ec (Hcl _ _ He) Hl He) as Hp.
      destruct (rec nxt s) as [[s' [c|]]|]; [done| |done]. destruct Hp as (l' & Hi' & Hs' & Hn & Hw).
      specialize (IH (l ++ l') s' Hi'). rewrite Hs' in IH. specialize (IH Hs Hin').
      pose proof (whites_mono s s' Hw) as Hle.
      assert (∀ v, edge node v → v ∈ nxts ∨ settled node (l ++ l') v) as Hset'.
      { intros v Hv. destruct (Hset v Hv) as [[->|?]%elem_of_cons|[?|?]]; unfold settled; set_solver. }
      specialize (IH Hset'). destruct (dfs_loop rec node nxts s') as [[s2 [c|]]|]; [done| |lia].
      destruct IH as (l2 & H1 & H2 & H3 & H4). exists (l' ++ l2). rewrite (assoc_L (++)). split_and!; auto.
    + pose proof (back_edge l s node stk nxt Hi Hs Ec He) as Hb. cbn zeta in Hb.
      destruct (_MIN_CYCLE_DEPTH <=? _)%nat; [done|]. apply IH; [done..|].
      intros v Hv. destruct (Hset v Hv) as [[->|?]%elem_of_cons|?]; auto.
    + apply IH; [done..|]. intros v Hv. destruct (Hset v Hv) as [[->|?]%elem_of_cons|?]; auto.
      right; left. by apply (si_black _ _ Hi).
Qed.

Lemma dfs_spec fuel node l s z :
  closed_graph → search_inv l s → get_color s node = WHITE → node ∈ dkeys adj →
  (stack s = [] ∨ last (stack s) = Some z) → (last (stack s) = Some z → edge z node) →
  dfs_post fuel node l s (dfs adj fuel node s).
Proof.
  intros Hcl. revert node l s z. induction fuel as [|fuel IH]; intros node l s z Hi Hw Hk Hl Hz; simpl.
  { pose proof (whites_enter node s Hk Hw). lia. }
  pose proof (whites_enter node s Hk Hw) as Hlt.
  pose proof (enter_inv l s node z Hi Hw Hz Hl) as Hi'.
  pose proof (dfs_loop_spec (dfs adj fuel) fuel node (neighbours adj node) (stack s) l (enter node s)) as H.
  specialize (H ltac:(intros nxt l0 s0 Hi0 Hw0 Hk0 Hl0 He0; apply (IH nxt l0 s0 node); auto)
    Hcl Hi' eq_refl ltac:(done) ltac:(by left)).
  destruct (dfs_loop _ _ _ _) as [[s' [c|]]|]; simpl; [done| |lia].
  destruct H as (l' & H1 & H2 & H3 & H4). exists l'. split_and!; [done..|].
  intros n Hn. apply H4 in Hn. rewrite get_color_enter in Hn. by case_decide.
Qed.

Lemma find_from_spec limit starts l s :
  closed_graph → search_inv l s → stack s = [] → (∀ n, n ∈ starts → n ∈ dkeys adj) →
  (∀ n, n ∈ dkeys adj → n ∈ starts ∨ n ∈ l) →
  match find_from adj limit starts s with
  | None => (limit < whites s)%nat
  | Some (Some c) => cycle c
  | Some None => ∃ l', finished_order l' ∧ ∀ n, n ∈ dkeys adj → n ∈ l'
  end.
Proof.
  intros Hcl. revert l s. induction starts as [|n starts IH]; intros l s Hi Hs Hk Hall; cbn [find_from].
  { exists l. split; [apply (si_order _ _ Hi)|]. intros m Hm. destruct (Hall m Hm) as [?%elem_of_nil|]; done. }
  assert (∀ m, m ∈ starts → m ∈ dkeys adj) as Hk' by (intros m Hm; apply Hk; by right).
  destruct (get_color s n) eqn:Ec.
  - pose proof (dfs_spec limit n l s n Hcl Hi Ec (Hk n ltac:(left)) (or_introl Hs)
      ltac:(rewrite Hs; done)) as Hp.
    destruct (dfs adj limit n s) as [[s' [c|]]|]; [done| |done]. destruct Hp as (l' & H1 & H2 & H3 & H4).
    specialize (IH (l ++ l') s' H1). rewrite H2, Hs in IH. specialize (IH eq_refl Hk').
    pose proof (whites_mono s s' H4) as Hle.
    assert (∀ m, m ∈ dkeys adj → m ∈ starts ∨ m ∈ l ++ l') as Hall'.
    { intros m Hm. destruct (Hall m Hm) as [[->|?]%elem_of_cons|?]; set_solver. }
    specialize (IH Hall'). destruct (find_from adj limit starts s') as [[c|]|]; [done..|lia].
  - apply (si_gray _ _ Hi) in Ec. rewrite Hs in Ec. by apply elem_of_nil in Ec.
  - apply (IH l); [done..|]. intros m Hm. destruct (Hall m Hm) as [[->|?]%elem_of_cons|?]; [|auto..].
    right. by apply (si_black _ _ Hi).
Qed.

Lemma find_cycle_spec limit :
  closed_graph →
  match _find_cycle limit adj with
  | None => (limit < length (dkeys adj))%nat
  | Some (Some c) => cycle c
  | Some None => ∃ l, finished_order l ∧ ∀ n, n ∈ dkeys adj → n ∈ l
  end.
Proof.
  intros Hcl. unfold _find_cycle. set (s0 := {| color := _; stack := [] |}).
  assert (∀ n, get_color s0 n = WHITE) as Hw.
  { intros n. unfold get_color, s0. simpl. destruct (_ !! n) as [c|] eqn:E; [|done]. simpl.
    apply elem_of_list_to_map_2, elem_of_map in E as (m & [= -> ->] & _). done. }
  assert (search_inv [] s0) as Hi.
  { split; simpl.
    - constructor.
    - intros n. rewrite Hw, elem_of_nil. done.
    - intros n. rewrite Hw, elem_of_nil. done.
    - intros l1 a b l2 H. by destruct l1.
    - split; [constructor|]. intros l1 u l2 H. by destruct l1. }
  pose proof (find_from_spec limit (dkeys adj) [] s0 Hcl Hi eq_refl ltac:(done) ltac:(by left)) as H.
  destruct (find_from _ _ _ _) as [[c|]|]; [done..|]. pose proof (length_filter (λ n, bool_decide (get_color s0 n = WHITE) = true) (dkeys adj)) as Hle.
  unfold whites, bfilter in H. lia.
Qed.

(** ** No cycle is missed when every node has one parent *)

Definition single_parent : Prop := ∀ u u' v, edge u v → edge u' v → u = u'.

Definition before (l : list uuid) (x y : uuid) : Prop := ∃ i j, l !! i = Some x ∧ l !! j = Some y ∧ (i < j)%nat.

Lemma before_trans l x y z : NoDup l → before l x y → before l y z → before l x z.
Proof.
  intros Hnd (i & j & Hi & Hj & ?) (j' & k & Hj' & Hk & ?).
  pose proof (NoDup_lookup _ _ _ _ Hnd Hj Hj') as <-. exists i, k. split_and!; [done..|lia].
Qed.

Lemma before_irrefl l x : NoDup l → ¬ before l x x.
Proof. intros Hnd (i & j & Hi & Hj & ?). pose proof (NoDup_lookup _ _ _ _ Hnd Hi Hj). lia. Qed.

Lemma finished_before l u v w :
  finished_order l → u ∈ l → edge u v → single_parent → edge w u → w ≠ v → u ≠ v → before l v u.
Proof.
  intros [Hnd Ho] Hu He Hsp Hw Hne Huv. apply list_elem_of_split in Hu as (l1 & l2 & ->).
  destruct (Ho l1 u l2 eq_refl v He) as [Hin|[->|Hb]]; [|done|].
  - apply list_elem_of_lookup in Hin as [i Hi]. exists i, (length l1). split_and!.
    + by apply lookup_app_l_Some.
    + by rewrite lookup_app_r, Nat.sub_diag by lia.
    + by eapply lookup_lt_Some.
  - exfalso. apply Hne. by apply (Hsp w v u).
Qed.

Lemma path_before l a c :
  NoDup l → (∀ l1 u v l2, a :: c = l1 ++ u :: v :: l2 → before l v u) → c ≠ [] →
  ∀ z, last c = Some z → before l z a.
Proof.
  intros Hnd. revert a. induction c as [|b c IH]; intros a Hb Hne z Hz; [done|].
  pose proof (Hb [] a b c eq_refl) as Hba. destruct c as [|b' c].
  - by injection Hz as ->.
  - apply (before_trans _ _ b); [done| |done]. apply IH; [|done|exact Hz].
    intros l1 u v l2 E. apply (Hb (a :: l1) u v l2). by rewrite E.
Qed.

Lemma no_long_cycle l c :
  single_parent → finished_order l → (∀ n, n ∈ c → n ∈ l) → ¬ cycle c.
Proof.
  intros Hsp Ho Hin (Hlen & Hnd & Hp & a & z & Ha & Hz & Hza). unfold _MIN_CYCLE_DEPTH in Hlen.
  destruct c as [|a' [|b [|d c]]]; simpl in Hlen; try lia. injection Ha as ->.
  set (full := a :: b :: d :: c) in *.
  assert (z ∈ d :: c) as Hzin.
  { apply last_Some_elem_of. unfold full in Hz. rewrite !last_cons_cons in Hz. exact Hz. }
  assert (∀ l1 u v l2, full = l1 ++ u :: v :: l2 → before l v u) as Hb.
  { intros l1 u v l2 E. assert (u ≠ v) as Huv.
    { rewrite E in Hnd. apply NoDup_app in Hnd as (_ & _ & Hnd). apply NoDup_cons in Hnd as [Hn _]. set_solver. }
    assert (u ∈ l) as Hul by (apply Hin; rewrite E; set_solver).
    pose proof (Hp l1 u v l2 E) as Huv'.
    destruct l1 as [|p l1 _] using rev_ind.
    - unfold full in E. injection E as <- <- <-. apply (finished_before l a b z); auto.
      intros ->. unfold full in Hnd. apply NoDup_cons in Hnd as [_ Hnd]. by apply NoDup_cons in Hnd as [? _].
    - rewrite <-(assoc_L (++)) in E. simpl in E. apply (finished_before l u v p); auto; [by apply (Hp l1 p u (v :: l2))|].
      intros ->. rewrite E in Hnd. apply NoDup_app in Hnd as (_ & _ & Hnd). apply NoDup_cons in Hnd as [Hn _].
      set_solver. }
  apply (before_irrefl l a); [apply Ho|]. apply (before_trans _ _ z); [apply Ho| |].
  - (* the closing edge *)
    destruct c as [|y c _] using rev_ind.
    + simpl in Hz. injection Hz as <-. apply (finished_before l d a b); auto; [apply Hin; set_solver|..].
      * by apply (Hp [a] b d []).
      * intros ->. unfold full in Hnd. apply NoDup_cons in Hnd as [? _]. set_solver.
      * intros ->. unfold full in Hnd. apply NoDup_cons in Hnd as [? _]. set_solver.
    + assert (z = y) as ->.
      { unfold full in Hz. rewrite !app_comm_cons, last_snoc in Hz. by injection Hz. }
      destruct (exists_last (l := d :: c)) as (c0 & p & Ec); [done|].
      assert (full = (a :: b :: c0) ++ p :: y :: []) as E.
      { unfold full. rewrite app_comm_cons, Ec. simpl. by rewrite <-(assoc_L (++)). }
      apply (finished_before l y a p); auto; [apply Hin; rewrite E; set_solver| | |].
      * by apply (Hp (a :: b :: c0) p y []).
      * intros ->. rewrite E in Hnd. simpl in Hnd. apply NoDup_cons in Hnd as [? _]. set_solver.
      * intros ->. rewrite E in Hnd. simpl in Hnd. apply NoDup_cons in Hnd as [? _]. set_solver.
  - apply (path_before l a (b :: d :: c)); [apply Ho|exact Hb|done|].
    unfold full in Hz. by rewrite last_cons_cons in Hz.
Qed.

Lemma cycle_nodes c n : closed_graph → cycle c → n ∈ c → n ∈ dkeys adj.
Proof.
  intros Hcl (_ & _ & Hp & a & z & Ha & Hz & Hza) Hn. apply list_elem_of_split in Hn as (l1 & l2 & ->).
  destruct l1 as [|y l1 _] using rev_ind.
  - simpl in Ha. injection Ha as ->. by apply (Hcl z).
  - apply (Hcl y). apply (Hp l1 y n l2). by rewrite <-(assoc_L (++)).
Qed.
End search.

(** ** The span graph *)

Lemma neighbours_dset n k v adj :
  neighbours (dset k v adj) n = if decide (k = n) then v else neighbours adj n.
Proof. unfold neighbours. rewrite dget_dset. by case_decide. Qed.

Lemma add_edge_edges adj e u v :
  edge (add_edge adj e) u v ↔ edge adj u v ∨ (parent_span_id e = Some u ∧ span_id e = v).
Proof.
  unfold add_edge. set (adj' := if decide _ then adj else _).
  assert (∀ n, neighbours adj' n = neighbours adj n) as Hn.
  { intros n. unfold adj'. case_decide as Hd; [done|]. rewrite neighbours_dset. case_decide; [subst|done].
    unfold neighbours. destruct (dget _ adj); [|done]. by destruct Hd. }
  assert (edge adj' u v ↔ edge adj u v) as He by (unfold edge; by rewrite Hn).
  destruct (parent_span_id e) as [p|]; [|rewrite He; naive_solver].
  unfold edge at 1. rewrite neighbours_dset. case_decide as Hp; subst.
  - fold (neighbours adj' u). rewrite Hn, elem_of_app, list_elem_of_singleton. unfold edge. naive_solver.
  - fold (edge adj' u v). rewrite He. naive_solver.
Qed.

Lemma span_graph_edges evs u v :
  edge (span_graph evs) u v ↔ ∃ e, e ∈ evs ∧ parent_span_id e = Some u ∧ span_id e = v.
Proof.
  unfold span_graph. induction evs as [|e evs IH] using rev_ind; simpl.
  - unfold edge, neighbours. simpl. setoid_rewrite elem_of_nil. naive_solver.
  - rewrite foldl_snoc, add_edge_edges, IH. setoid_rewrite elem_of_app.
    setoid_rewrite list_elem_of_singleton. naive_solver.
Qed.

Lemma add_edge_keys adj e n :
  n ∈ dkeys (add_edge adj e) ↔ n ∈ dkeys adj ∨ n = span_id e ∨ parent_span_id e = Some n.
Proof.
  unfold add_edge. set (adj' := if decide _ then adj else _).
  assert (n ∈ dkeys adj' ↔ n ∈ dkeys adj ∨ n = span_id e) as Hn.
  { unfold adj'. case_decide as Hd.
    - apply elem_of_dkeys in Hd. naive_solver.
    - rewrite <-elem_of_dkeys in Hd. rewrite dkeys_dset, decide_False, elem_of_app, list_elem_of_singleton by done.
      done. }
  destruct (parent_span_id e) as [p|]; [|rewrite Hn; naive_solver].
  rewrite dkeys_dset. case_decide as Hp.
  - rewrite Hn in *. split; [naive_solver|]. intros [?|[?|[= ->]]]; auto. by apply Hn.
  - rewrite elem_of_app, list_elem_of_singleton, Hn. naive_solver.
Qed.

Lemma span_graph_closed evs : closed_graph (span_graph evs).
Proof.
  intros u v (e & He & _ & <-)%span_graph_edges. unfold span_graph.
  induction evs as [|e' evs IH] using rev_ind; [by apply elem_of_nil in He|].
  rewrite foldl_snoc, add_edge_keys. apply elem_of_app in He as [He|He%list_elem_of_singleton]; [auto|].
  subst. auto.
Qed.

(** ** Bursts and chains *)

Definition calls_of (tool : string) (tools : list string) : Z :=
  Z.of_nat (length (bfilter (λ x, String.eqb x tool) tools)).

Lemma tool_counts_get tools tool : default 0 (dget tool (tool_counts tools)) = calls_of tool tools.
Proof.
  unfold tool_counts, calls_of. induction tools as [|x tools IH] using rev_ind; [done|].
  rewrite foldl_snoc, dget_dset, bfilter_app, length_app, bfilter_cons. simpl.
  destruct (decide (x = tool)) as [->|Hne].
  - rewrite String.eqb_refl, IH. simpl. lia.
  - apply String.eqb_neq in Hne. rewrite Hne, IH. simpl. lia.
Qed.

Lemma tool_counts_NoDup tools : NoDup (dkeys (tool_counts tools)).
Proof.
  unfold tool_counts. induction tools as [|x tools IH] using rev_ind; [constructor|].
  rewrite foldl_snoc. by apply NoDup_dkeys_dset.
Qed.

Lemma omap_nil {A B} (f : A → option B) l : omap f l = [] ↔ ∀ x, x ∈ l → f x = None.
Proof.
  induction l as [|a l IH]; simpl; [split; [by intros _ ? ?%elem_of_nil|done]|].
  setoid_rewrite elem_of_cons. destruct (f a) eqn:E; [split; [done|]|rewrite IH; naive_solver].
  intros H. specialize (H a (or_introl eq_refl)). congruence.
Qed.

Lemma burst_nil tools :
  burst_evidence (tool_counts tools) = [] ↔ ∀ tool, calls_of tool tools ≤ _MAX_SAME_TOOL.
Proof.
  unfold burst_evidence. rewrite omap_nil. split.
  - intros H tool. rewrite <-tool_counts_get. destruct (dget tool (tool_counts tools)) as [n|] eqn:E; [|done].
    specialize (H _ (dget_elem_of _ _ _ E)). simpl in *. destruct (_MAX_SAME_TOOL <? n) eqn:El; [done|].
    by apply Z.ltb_ge in El.
  - intros H [tool n] Hin. apply elem_of_dget in Hin; [|apply tool_counts_NoDup].
    specialize (H tool). rewrite <-tool_counts_get, Hin in H. simpl in H.
    by rewrite (proj2 (Z.ltb_ge _ _)).
Qed.

(** A risky source called strictly before one of its sinks. *)
Definition dangerous_pair (tools : list string) : Prop :=
  ∃ source sinks sink l1 l2 l3, (source, sinks) ∈ _DANGEROUS_CHAINS ∧ sink ∈ sinks ∧
    tools = l1 ++ source :: l2 ++ sink :: l3.

Lemma chain_nil seen starts :
  chain_evidence seen starts = [] ↔
    (∀ source sinks sink, (source, sinks) ∈ _DANGEROUS_CHAINS → sink ∈ sinks → source ∈ seen →
       sink ∉ map (λ p : BaseEvent * ToolCallStart, tool_name p.2) starts) ∧
    ¬ dangerous_pair (map (λ p, tool_name p.2) starts).
Proof.
  revert seen. induction starts as [|[e b] starts IH]; intros seen; cbn [chain_evidence map fst snd].
  { split; [|done]. intros _. split; [set_solver|].
    intros (? & ? & ? & l1 & l2 & l3 & _ & _ & E). by destruct l1. }
  rewrite app_nil, omap_nil, IH. set (tool := tool_name b). set (tools := map _ starts).
  assert ((∀ x, x ∈ _DANGEROUS_CHAINS → (λ '(source, sinks),
      if bool_decide (source ∈ seen) && bool_decide (tool ∈ sinks)
      then Some (evidence_at e ("dangerous composition: " +:+ source +:+ " -> " +:+ tool)) else None) x = None) ↔
    (∀ source sinks, (source, sinks) ∈ _DANGEROUS_CHAINS → source ∈ seen → tool ∉ sinks)) as ->.
  { split.
    - intros H source sinks Hin Hs Ht. specialize (H _ Hin). simpl in H.
      by rewrite !bool_decide_eq_true_2 in H.
    - intros H [source sinks] Hin. specialize (H source sinks Hin). simpl.
      case_bool_decide; [|done]. by rewrite bool_decide_eq_false_2 by auto. }
  assert (∀ source sinks, (source, sinks) ∈ _DANGEROUS_CHAINS → (source ∈
     (if bool_decide (tool ∈ dkeys _DANGEROUS_CHAINS) then tool :: seen else seen) ↔
     source ∈ seen ∨ source = tool)) as Hseen.
  { intros source sinks Hin. case_bool_decide as Hd; [set_solver|]. split; [by left|].
    intros [Hs|Hs]; [done|]. destruct Hd. apply list_elem_of_fmap. exists (tool, sinks). by rewrite <-Hs. }
  split.
  - intros (H1 & H2 & H3). split.
    + intros source sinks sink Hin Hs Hsrc [->|Ht]%elem_of_cons; [by apply (H1 source sinks)|].
      apply (H2 source sinks sink); [done..| |done]. apply (Hseen _ _ Hin). by left.
    + intros (source & sinks & sink & l1 & l2 & l3 & Hin & Hs & E). destruct l1 as [|x l1]; simpl in E.
      * injection E as Et El. apply (H2 source sinks sink); [done..| |].
        -- apply (Hseen _ _ Hin). by right.
        -- rewrite El. set_solver.
      * injection E as _ El. apply H3. by exists source, sinks, sink, l1, l2, l3.
  - intros (H1 & H2). split_and!.
    + intros source sinks Hin Hs Ht. apply (H1 source sinks tool); [done..|]. by left.
    + intros source sinks sink Hin Hs Hsrc Ht. apply (Hseen _ _ Hin) in Hsrc as [Hsrc|Hsrc]; [|subst source].
      * apply (H1 source sinks sink); [done..|]. by right.
      * apply H2. apply list_elem_of_split in Ht as (l2 & l3 & Ht). unfold tools in *.
        exists tool, sinks, sink, [], l2, l3. split_and!; [done..|]. simpl. by rewrite Ht.
    + intros (source & sinks & sink & l1 & l2 & l3 & Hin & Hs & E). apply H2.
      exists source, sinks, sink, (tool :: l1), l2, l3. split_and!; [done..|]. simpl. by rewrite E.
Qed.

(** C10: The tool-misuse detector.  When the interpreter allows a recursion as deep as there are spans,
    the search ends; every cycle it reports is a real one, of at least three distinct spans along the
    parent edges of the calls; the detector then flags every run in which a tool is called more than 50
    times or a risky source is called before one of its sinks, and flags for no other reason than these
    and a cycle.  When no span has two parents it is exact: it is OK if and only if there is no cycle, no
    burst and no dangerous pair. *)
Theorem tool_misuse_exact limit fresh now t :
  let starts := tool_call_starts (events t) in
  let tools := map (λ p, tool_name p.2) starts in
  let g := span_graph (map fst starts) in
  let quiet := (∀ tool, calls_of tool tools ≤ _MAX_SAME_TOOL) ∧ ¬ dangerous_pair tools in
  starts ≠ [] → (length (dkeys g) <= limit)%nat →
  (∀ u v, edge g u v ↔ ∃ e, e ∈ map fst starts ∧ parent_span_id e = Some u ∧ span_id e = v) ∧
  ∃ v, asi02_run limit fresh now t = Ok [v] ∧
    (v_result v = OK → quiet) ∧
    (v_result v ≠ OK → ¬ quiet ∨ ∃ c, cycle g c) ∧
    (single_parent g → (v_result v = OK ↔ quiet ∧ ¬ ∃ c, cycle g c)).
Proof.
  intros starts tools g quiet Hne Hlim. split; [apply span_graph_edges|].
  unfold asi02_run. fold starts. rewrite bool_decide_eq_false_2 by done. fold g tools.
  pose proof (find_cycle_spec g limit (span_graph_closed _)) as Hf.
  destruct (_find_cycle limit g) as [found|]; [|lia]. eexists. split; [done|].
  rewrite rule_verdict_ok, !app_nil, burst_nil, chain_nil. fold tools.
  assert (¬ dangerous_pair tools ↔ (∀ source sinks sink, (source, sinks) ∈ _DANGEROUS_CHAINS → sink ∈ sinks →
     source ∈ [] → sink ∉ tools) ∧ ¬ dangerous_pair tools) as Hd by (split; [set_solver|by intros []]).
  rewrite <-Hd. fold quiet. clear Hd. destruct found as [c|].
  - split_and!; [by intros [? _]|intros _; right; by exists c|]. intros _. split; [by intros [? _]|].
    intros [_ Hn]. destruct Hn. by exists c.
  - destruct Hf as (l & Ho & Hl). split_and!; [by intros [_ ?]|intros Hn; left; tauto|]. intros Hsp. split.
    + intros [_ Hq]. split; [done|]. intros [c Hc]. apply (no_long_cycle g l c Hsp Ho); [|done].
      intros n Hn. apply Hl. eapply cycle_nodes; [apply span_graph_closed|done|done].
    + by intros [Hq _].
Qed.

(** A run that reads a secret and then posts it. *)
Definition call_event (id span : string) (parent : option string) (tool : string) : BaseEvent :=
  {| event_id := id; e_run_id := "r"; e_tenant_id := "t"; span_id := span; parent_span_id := parent;
     ts := 0; pid := None; schema_version := 1;
     body := EToolCallStart {| tcs_agent_id := "a"; tool_name := tool; tool_args := [];
       declared_purpose := None; tcs_tool_call_id := None; schema_hash := None |} |}.

Definition looping_trace : Trace :=
  {| t_run_id := "r"; t_tenant_id := "t"; declared_goal := None; metadata := [];
     events := [call_event "1" "A" (Some "C") "read_secret"; call_event "2" "B" (Some "A") "kb_search";
                call_event "3" "C" (Some "B") "http_post"] |}.

Lemma tool_misuse_exact_witness :
  ∃ v, asi02_run 1000 "v" 0 looping_trace = Ok [v] ∧ v_result v ≠ OK.
Proof.
  pose proof (tool_misuse_exact 1000 "v" 0 looping_trace) as H. cbv zeta in H.
  destruct H as [_ (v & Hv & Hok & _ & _)]; [by vm_compute|apply Nat.leb_le; by vm_compute|].
  exists v. split; [exact Hv|]. intros E. destruct (Hok E) as [_ Hd]. apply Hd.
  exists "read_secret", ["http_post"; "send_email"; "exec_shell"], "http_post", [], ["kb_search"], [].
  split_and!; [left|left|reflexivity].
Defined.

Example looping_evidence :
  map ev_reason (match asi02_run 1000 "v" 0 looping_trace with Ok [v] => v_evidence v | _ => [] end)
  = ["tool-call cycle of depth 3 detected in span graph"; "dangerous composition: read_secret -> http_post"].
Proof. vm_compute. reflexivity. Qed.

(** A chain deeper than the interpreter's recursion limit makes the detector raise. *)
Example recursion_limit_raises :
  asi02_run 2 "v" 0 looping_trace = raise "RecursionError" "maximum recursion depth exceeded".
Proof. vm_compute. reflexivity. Qed.

(** With a second parent the search can miss a cycle: B -> C -> A -> B is a cycle of three spans, but
    the search first finishes A inside the short loop with B. *)
Definition two_parents : list BaseEvent :=
  [call_event "1" "B" (Some "A") "t"; call_event "2" "A" (Some "B") "t"; call_event "3" "C" (Some "B") "t";
   call_event "4" "A" (Some "C") "t"].

Lemma cycle_missed_with_two_parents :
  _find_cycle 1000 (span_graph two_parents) = Some None ∧ cycle (span_graph two_parents) ["B"; "C"; "A"].
Proof.
  split; [by vm_compute|]. split_and!.
  - unfold _MIN_CYCLE_DEPTH. simpl. lia.
  - by_decision.
  - intros l1 a b l2 E. destruct l1 as [|? [|? [|? l1]]]; simplify_eq/=; [unfold edge; by_decision|unfold edge; by_decision|].
    by destruct l1.
  - exists "B", "A". split_and!; [done|done|unfold edge; by_decision].
Qed.
