(* ===== verification/Orchestrator.v ===== *)
(** * The detectors together: orchestration, results and the post-run audit

    Models [auditor/async_pipeline/orchestrator.py], [store_run_result] of [auditor/events/store.py] and
    [auditor/async_pipeline/pipeline.py].  [W] is the world the detectors' judge, the shadow store and
    the review paths act on; the database is its own record. *)

From Stdlib Require Import ZArith Lia Ascii SpecFloat.
From Stdlib Require String.
From stdpp Require Import base tactics option list strings gmap sets.
From S2P Require Import Prelude PyStr Float64 Json Verdicts Incidents Sampler DetLifecycle Events Budget.
From S2P Require Import Gate Rules Provenance Judge DetJudged Signals Hitl Asi02.

Local Open Scope Z_scope.

(** ** The orchestrator *)

Definition _SKIP_STATES : list DetectorState := [PROPOSED; DISABLED; DEPRECATED; REMOVED].

Section orchestrator.
Context {W : Type} (fresh : string → uuid) (now : datetime).

Record Detector := {
  d_name : string;
  d_category : string;
  d_run : Trace → W → W * result PyExn (list Verdict)
}.

(** The eleven detectors, in the order of [_DETECTOR_MODULES]; [limit] is the interpreter's recursion
    limit, and a persisted trace carries no provenance store. *)
Definition default_detectors (limit : nat) (judge : JudgeFn W) (rubric : string → option string) : list Detector :=
  let rule r t w := (w, r t) in
  [{| d_name := "Asi01GoalHijackDetector"; d_category := "ASI01";
      d_run := asi01_run (fresh "asi01") now judge (rubric "asi01.md") |};
   {| d_name := "Asi02ToolMisuseDetector"; d_category := "ASI02"; d_run := rule (asi02_run limit (fresh "asi02") now) |};
   {| d_name := "Asi03IdentityAbuseDetector"; d_category := "ASI03"; d_run := rule (asi03_run (fresh "asi03") now) |};
   {| d_name := "Asi04SupplyChainDetector"; d_category := "ASI04"; d_run := rule (asi04_run (fresh "asi04") now) |};
   {| d_name := "Asi05CodeExecutionDetector"; d_category := "ASI05"; d_run := rule (asi05_run (fresh "asi05") now) |};
   {| d_name := "Asi06MemoryPoisoningDetector"; d_category := "ASI06";
      d_run := λ t w, let '(w, _, r) := asi06_run (fresh "asi06") now judge (rubric "asi06.md") t None w in (w, r) |};
   {| d_name := "Asi07InterAgentDetector"; d_category := "ASI07"; d_run := rule (asi07_run (fresh "asi07") now) |};
   {| d_name := "Asi08CascadingDetector"; d_category := "ASI08"; d_run := rule (asi08_run (fresh "asi08") now) |};
   {| d_name := "Asi09TrustExploitDetector"; d_category := "ASI09";
      d_run := asi09_run (fresh "asi09") now judge (rubric "asi09.md") |};
   {| d_name := "Asi10RogueAgentDetector"; d_category := "ASI10";
      d_run := asi10_run (fresh "asi10") now judge (rubric "asi10.md") |};
   {| d_name := "InstructionFollowingDetector"; d_category := CATEGORY;
      d_run := instruction_run (fresh "if") now judge (rubric "instruction_following.md") |}].

(** [d.asi_category or type(d).__name__] *)
Definition _detector_key (d : Detector) : string :=
  if str_truthy (d_category d) then d_category d else d_name d.

Definition _tag_canary (v : Verdict) : Verdict :=
  {| v_verdict_id := v_verdict_id v; v_run_id := v_run_id v; v_tenant_id := v_tenant_id v;
     v_detector := v_detector v; v_asi_category := v_asi_category v; v_result := v_result v;
     v_confidence := v_confidence v;
     v_evidence := note "[canary] verdict from CANARY-state detector" :: v_evidence v;
     v_judge_model := v_judge_model v; v_judge_prompt_v := v_judge_prompt_v v;
     v_rubric_scores := v_rubric_scores v; v_ts := v_ts v |}.

Definition _crash_verdict (t : Trace) (d : Detector) (message : string) : Verdict :=
  {| v_verdict_id := fresh (d_name d); v_run_id := t_run_id t; v_tenant_id := t_tenant_id t;
     v_detector := d_name d;
     v_asi_category := if str_truthy (d_category d) then d_category d else "UNKNOWN";
     v_result := NEEDS_REVIEW; v_confidence := fzero;
     v_evidence := [note ("detector raised an exception: " +:+ message)]; v_judge_model := None;
     v_judge_prompt_v := None; v_rubric_scores := None; v_ts := now |}.

Definition exn_message (e : PyExn) : string := exn_class e +:+ ": " +:+ exn_text e.

Context (state_for : option (string → DetectorState)).
Context (shadow_write : option (Verdict → W → W * result PyExn ())).
Context (canary_partition : f64).

(** [_write_shadow]: a failing write is logged. *)
Definition _write_shadow (vs : list Verdict) (w : W) : W :=
  match shadow_write with
  | None => w
  | Some write => foldl (λ w v, (write v w).1) w vs
  end.

(** [asyncio.gather(.., return_exceptions=True)]: every detector runs and its outcome, a result or an
    exception, is kept. *)
Fixpoint gather (ds : list Detector) (t : Trace) (w : W)
    : W * list (Detector * result PyExn (list Verdict)) :=
  match ds with
  | [] => (w, [])
  | d :: ds' => let '(w, o) := d_run d t w in
                let '(w, os) := gather ds' t w in (w, (d, o) :: os)
  end.

Record Buckets := {
  b_enforcing : list Verdict;
  b_all : list Verdict;
  b_errors : list (string * string)
}.

Definition runnable (ds : list Detector) : list Detector :=
  match state_for with
  | Some f => bfilter (λ d, negb (bool_decide (f (_detector_key d) ∈ _SKIP_STATES))) ds
  | None => ds
  end.

Definition lift_canary (r : result string bool) : result PyExn bool :=
  match r with Ok b => Ok b | Raise cls => raise cls "" end.

(** The body of the loop over the outcomes. *)
Definition sort_outcome (t : Trace) (d : Detector) (o : result PyExn (list Verdict)) (b : Buckets) (w : W)
    : W * result PyExn Buckets :=
  match o with
  | Raise e =>
      let crash := _crash_verdict t d (exn_message e) in
      (w, Ok {| b_enforcing := b_enforcing b ++ [crash]; b_all := b_all b ++ [crash];
                b_errors := b_errors b ++ [(if str_truthy (d_category d) then d_category d else d_name d,
                                            exn_message e)] |})
  | Ok vs =>
      let keep extra := {| b_enforcing := b_enforcing b ++ extra; b_all := b_all b ++ vs;
                           b_errors := b_errors b |} in
      match state_for with
      | None => (w, Ok (keep vs))
      | Some f =>
          match f (_detector_key d) with
          | SHADOW => (_write_shadow vs w, Ok (keep []))
          | CANARY =>
              match lift_canary (is_canary_selected (_detector_key d) (t_run_id t) canary_partition) with
              | Raise e => (w, Raise e)
              | Ok true => (w, Ok (keep (map _tag_canary vs)))
              | Ok false => (_write_shadow vs w, Ok (keep []))
              end
          | _ => (w, Ok (keep vs))
          end
      end
  end.

Fixpoint sort_outcomes (t : Trace) (os : list (Detector * result PyExn (list Verdict))) (b : Buckets) (w : W)
    : W * result PyExn Buckets :=
  match os with
  | [] => (w, Ok b)
  | (d, o) :: os' =>
      match sort_outcome t d o b w with
      | (w, Ok b) => sort_outcomes t os' b w
      | (w, Raise e) => (w, Raise e)
      end
  end.

Record OrchestratorResult := {
  or_flag : option Flag;
  or_verdicts : list Verdict;
  or_errors : list (string * string)
}.

Definition no_buckets : Buckets := {| b_enforcing := []; b_all := []; b_errors := [] |}.

(** [Orchestrator.analyze_trace], up to the persisting of the result. *)
Definition analyze_trace (flag_fresh : uuid) (ds : list Detector) (t : Trace) (w : W)
    : W * result PyExn OrchestratorResult :=
  let '(w, os) := gather (runnable ds) t w in
  let '(w, r) := sort_outcomes t os no_buckets w in
  (w, let! b := r in
      Ok {| or_flag := aggregate flag_fresh now (t_run_id t) (t_tenant_id t) (b_enforcing b);
            or_verdicts := b_all b; or_errors := b_errors b |}).

(** ** What counts toward the flag *)

Definition counts (t : Trace) (d : Detector) : bool :=
  match state_for with
  | None => true
  | Some f => match f (_detector_key d) with
              | SHADOW => false
              | CANARY => try_except (is_canary_selected (_detector_key d) (t_run_id t) canary_partition)
                            (λ _, false)
              | _ => true
              end
  end.

Definition contribution (t : Trace) (p : Detector * result PyExn (list Verdict)) : list Verdict :=
  match p.2 with
  | Raise e => [_crash_verdict t p.1 (exn_message e)]
  | Ok vs =>
      if counts t p.1 then
        match state_for with
        | Some f => if bool_decide (f (_detector_key p.1) = CANARY) then map _tag_canary vs else vs
        | None => vs
        end
      else []
  end.

Definition verdicts_of (t : Trace) (p : Detector * result PyExn (list Verdict)) : list Verdict :=
  match p.2 with
  | Raise e => [_crash_verdict t p.1 (exn_message e)]
  | Ok vs => vs
  end.

Lemma sort_outcome_ok t d o b w w' b' :
  sort_outcome t d o b w = (w', Ok b') →
  b_enforcing b' = b_enforcing b ++ contribution t (d, o) ∧ b_all b' = b_all b ++ verdicts_of t (d, o).
Proof.
  unfold sort_outcome, contribution, verdicts_of, counts, lift_canary. cbn [fst snd].
  destruct o as [vs|e]; [|by intros [= <- <-]].
  destruct state_for as [f|]; [|by intros [= <- <-]].
  destruct (f (_detector_key d)); simpl; try (by intros [= <- <-]).
  destruct (is_canary_selected _ _ _) as [[]|]; simpl; [..|done]; by intros [= <- <-].
Qed.

Lemma sort_outcomes_ok t os b w w' b' :
  sort_outcomes t os b w = (w', Ok b') →
  b_enforcing b' = b_enforcing b ++ concat (map (contribution t) os) ∧
  b_all b' = b_all b ++ concat (map (verdicts_of t) os).
Proof.
  revert b w. induction os as [|[d o] os IH]; intros b w; simpl.
  { intros [= <- <-]. by rewrite !app_nil_r. }
  destruct (sort_outcome t d o b w) as [w1 [b1|e]] eqn:E; [|done]. intros H.
  apply sort_outcome_ok in E as [E1 E2]. apply IH in H as [H1 H2].
  by rewrite H1, H2, E1, E2, <-!(assoc_L (++)).
Qed.

Lemma gather_detectors ds t w : map fst (gather ds t w).2 = ds.
Proof.
  revert w. induction ds as [|d ds IH]; intros w; simpl; [done|].
  destruct (d_run d t w) as [w1 o]. specialize (IH w1). destruct (gather ds t w1). simpl in *. by f_equal.
Qed.

Lemma tag_canary_result v : v_result (_tag_canary v) = v_result v.
Proof. done. Qed.

Lemma contribution_quiet t p :
  (∀ v, v ∈ contribution t p → v_result v = OK) ↔
  ∃ vs, p.2 = Ok vs ∧ (counts t p.1 = true → ∀ v, v ∈ vs → v_result v = OK).
Proof.
  unfold contribution. destruct p as [d [vs|e]]; cbn [fst snd].
  - assert (∀ P : Prop, (∃ vs', Ok (E := PyExn) vs = Ok vs' ∧ (counts t d = true → ∀ v, v ∈ vs' → v_result v = OK))
      ↔ (counts t d = true → ∀ v, v ∈ vs → v_result v = OK)) as Hvs by naive_solver.
    rewrite (Hvs True). destruct (counts t d).
    + destruct state_for as [f|]; [|naive_solver]. case_bool_decide; [|naive_solver].
      setoid_rewrite elem_of_map. split; [|naive_solver]. intros H1 _ v Hv.
      specialize (H1 (_tag_canary v)). rewrite tag_canary_result in H1. eauto.
    + split; [done|]. by intros _ v ?%elem_of_nil.
  - split.
    + intros H. specialize (H _ (list_elem_of_here _ _)). done.
    + by intros (vs & ? & _).
Qed.

(** C3: No finding is lost and nothing is passed in silence.  Whatever the detectors do, the detectors
    run are exactly those whose state allows it; every verdict they give is in the result, a detector that
    raises giving one that asks for review; and there is no flag if and only if no detector raised and
    every verdict of a detector that counts (one that is enforcing, or a canary selected for this run) is
    OK.  In particular a crash always raises a flag, and a shadow detector that answers never does. *)
Theorem flag_iff_finding flag_fresh ds t w w' r :
  analyze_trace flag_fresh ds t w = (w', Ok r) →
  let os := (gather (runnable ds) t w).2 in
  map fst os = runnable ds ∧
  or_verdicts r = concat (map (verdicts_of t) os) ∧
  (or_flag r = None ↔
     ∀ d o, (d, o) ∈ os → ∃ vs, o = Ok vs ∧ (counts t d = true → ∀ v, v ∈ vs → v_result v = OK)).
Proof.
  unfold analyze_trace. pose proof (gather_detectors (runnable ds) t w) as Hg.
  destruct (gather (runnable ds) t w) as [w1 os] eqn:E. cbn [snd] in Hg |- *. intros H.
  destruct (sort_outcomes t os no_buckets w1) as [w2 [b|e]] eqn:Es; [|done].
  apply sort_outcomes_ok in Es as [E1 E2]. injection H as _ <-. cbn [or_flag or_verdicts].
  split_and!; [done|done|]. rewrite E1. cbn [b_enforcing no_buckets]. rewrite app_nil_l.
  rewrite aggregate_is_None, bfilter_nil. unfold not_ok. setoid_rewrite negb_false_iff.
  setoid_rewrite bool_decide_eq_true. split.
  - intros Hq d o Hin. apply (contribution_quiet t (d, o)). intros v Hv. apply Hq.
    rewrite list_elem_of_In, in_concat. exists (contribution t (d, o)).
    split; apply list_elem_of_In; [|done]. apply elem_of_map. eauto.
  - intros Hq v Hv. rewrite list_elem_of_In, in_concat in Hv. destruct Hv as (l & Hl & Hv).
    apply list_elem_of_In, elem_of_map in Hl as ([d o] & -> & Hin). apply list_elem_of_In in Hv.
    revert v Hv. apply contribution_quiet. simpl. auto.
Qed.
End orchestrator.

(** Without lifecycle states the orchestrator always answers. *)
Lemma sort_outcomes_total {W} fresh now shadow canary t os b (w : W) :
  ∃ b', sort_outcomes fresh now None shadow canary t os b w = (w, Ok b').
Proof.
  revert b. induction os as [|[d o] os IH]; intros b; simpl; [eauto|].
  unfold sort_outcome. destruct o as [vs|e]; apply IH.
Qed.

(** ** Storing the result ([store_run_result]) *)

Record VerdictRow := {
  vr_verdict_id : uuid;
  vr_run_id : uuid;
  vr_tenant_id : uuid;
  vr_detector : string;
  vr_asi_category : string;
  vr_result : string;
  vr_confidence : f64;
  vr_evidence : json;
  vr_judge_model : option string;
  vr_judge_prompt_v : option Z;
  vr_rubric_scores : option (list (string * json));
  vr_ts : datetime
}.

Record FlagRow := {
  fr_flag_id : uuid;
  fr_run_id : uuid;
  fr_tenant_id : uuid;
  fr_severity : string;
  fr_asi_categories : list string;
  fr_verdict_ids : list uuid;
  fr_status : string;
  fr_created_at : datetime
}.

Record SamplerRow := {
  sr_run_id : uuid;
  sr_tier : string;
  sr_reason : string;
  sr_cohort_rate : option f64
}.

Record ResultDb := {
  verdict_rows : list VerdictRow;
  flag_rows : list FlagRow;
  incident_rows : list Incident;
  sampler_rows : list SamplerRow
}.

Definition _verdict_evidence_json (v : Verdict) : json :=
  JArr (map (λ e, JObj [("event_id", match ev_event_id e with Some i => JStr i | None => JNull end);
                        ("reason", JStr (ev_reason e))]) (v_evidence v)).

Definition verdict_row (v : Verdict) : VerdictRow :=
  {| vr_verdict_id := v_verdict_id v; vr_run_id := v_run_id v; vr_tenant_id := v_tenant_id v;
     vr_detector := v_detector v; vr_asi_category := v_asi_category v;
     vr_result := VerdictResult_value (v_result v); vr_confidence := v_confidence v;
     vr_evidence := _verdict_evidence_json v; vr_judge_model := v_judge_model v;
     vr_judge_prompt_v := v_judge_prompt_v v; vr_rubric_scores := v_rubric_scores v; vr_ts := v_ts v |}.

Definition flag_row (f : Flag) : FlagRow :=
  {| fr_flag_id := flag_id f; fr_run_id := f_run_id f; fr_tenant_id := f_tenant_id f;
     fr_severity := Severity_value (f_severity f); fr_asi_categories := f_asi_categories f;
     fr_verdict_ids := f_verdict_ids f; fr_status := f_status f; fr_created_at := f_created_at f |}.

(** The incident the flag opens, if any. *)
Definition incident_of (fresh : uuid) (now : datetime) (f : Flag) : option Incident :=
  fst <$> open_incident_for_flag fresh now (flag_id f) (f_tenant_id f) (Severity_value (f_severity f)).

Section store.
(** The database: whether it accepts a row.  A column of type NUMERIC(4,3) holds only values of absolute
    value below 10. *)
Context (accepts : VerdictRow → bool) (accepts_sampler : SamplerRow → bool).

Definition numeric_4_3 : Prop := ∀ row, accepts row = true → fleb (of_Z 10) (fabs (vr_confidence row)) = false.

Definition db_error {A} : result PyExn A := raise "DBAPIError" "numeric field overflow".

(** One transaction: all the rows or none. *)
Definition store_run_result (fresh : uuid) (now : datetime) (verdicts : list Verdict) (flag : option Flag)
    (db : ResultDb) : ResultDb * result PyExn () :=
  let rows := map verdict_row verdicts in
  if forallb accepts rows then
    ({| verdict_rows := verdict_rows db ++ rows;
        flag_rows := flag_rows db ++ match flag with Some f => [flag_row f] | None => [] end;
        incident_rows := incident_rows db ++
          match flag ≫= incident_of fresh now with Some i => [i] | None => [] end;
        sampler_rows := sampler_rows db |}, Ok tt)
  else (db, db_error).

(** ** The post-run audit ([pipeline.py]) *)

Record AuditOutcome := {
  ao_sampled : bool;
  ao_tier : Tier;
  ao_reason : string;
  ao_flag : option Flag;
  ao_verdicts : list Verdict
}.

Definition Tier_value (t : Tier) : string :=
  match t with L1 => "L1" | L2 => "L2" | L3 => "L3" | NONE => "NONE" end.

Definition _persist_sampler_decision (run_id : uuid) (d : SamplerDecision) (db : ResultDb) : ResultDb :=
  let row := {| sr_run_id := run_id; sr_tier := Tier_value (tier d); sr_reason := reason d;
                sr_cohort_rate := cohort_rate d |} in
  if accepts_sampler row then
    {| verdict_rows := verdict_rows db; flag_rows := flag_rows db; incident_rows := incident_rows db;
       sampler_rows := sampler_rows db ++ [row] |}
  else db.

Lemma sampler_row_only run_id d db :
  let db' := _persist_sampler_decision run_id d db in
  verdict_rows db' = verdict_rows db ∧ flag_rows db' = flag_rows db ∧ incident_rows db' = incident_rows db.
Proof. unfold _persist_sampler_decision. by destruct (accepts_sampler _). Qed.

Lemma incident_of_severity fresh now f :
  is_Some (incident_of fresh now f) ↔ f_severity f = HIGH ∨ f_severity f = CRITICAL.
Proof. unfold incident_of. destruct (f_severity f); cbn; split; try naive_solver; by intros []. Qed.

Definition flag_message (f : Flag) : json :=
  JObj [("flag_id", JStr (flag_id f)); ("run_id", JStr (f_run_id f)); ("tenant_id", JStr (f_tenant_id f));
        ("severity", JStr (Severity_value (f_severity f)));
        ("asi_categories", JArr (map JStr (f_asi_categories f))); ("status", JStr (f_status f))].

Context {W : Type} (fresh : string → uuid) (now : datetime).
Context (publish : json → W → W * result PyExn ()) (hitl : Flag → W → W * result PyExn RoutingResult).
Context (detectors : list (Detector (W := W))).

Record World := { w_world : W; w_policy : PolicyState; w_db : ResultDb }.

(** [_route_flag]: both halves are best effort. *)
Definition _route_flag (f : Flag) (w : W) : W := (hitl f (publish (flag_message f) w).1).1.

(** [audit_run] on the loaded trace, with the runtime policy. *)
Definition audit_run (persist : bool) (clock : f64) (t : Trace) (s : World) : World * result PyExn AuditOutcome :=
  let signals := compute_run_signals t in
  let '(policy, d) := policy_decide clock (t_run_id t) (t_tenant_id t) signals (w_policy s) in
  match d with
  | Raise cls => ({| w_world := w_world s; w_policy := policy; w_db := w_db s |}, raise cls "")
  | Ok d =>
      let db := _persist_sampler_decision (t_run_id t) d (w_db s) in
      if negb (audit d) then
        ({| w_world := w_world s; w_policy := policy; w_db := db |},
         Ok {| ao_sampled := false; ao_tier := tier d; ao_reason := reason d; ao_flag := None;
               ao_verdicts := [] |})
      else
        let '(w, r) := analyze_trace fresh now None None (ratio 5 100) (fresh "flag") detectors t (w_world s) in
        let '(db, r) := match r with
                        | Raise e => (db, Raise e)
                        | Ok r => if persist then
                                    let '(db, c) := store_run_result (fresh "incident") now (or_verdicts r)
                                                      (or_flag r) db in
                                    (db, let! _ := c in Ok r)
                                  else (db, Ok r)
                        end in
        match r with
        | Raise e => ({| w_world := w; w_policy := policy; w_db := db |}, Raise e)
        | Ok r =>
            ({| w_world := match or_flag r with Some f => _route_flag f w | None => w end;
                w_policy := policy; w_db := db |},
             Ok {| ao_sampled := true; ao_tier := tier d; ao_reason := reason d; ao_flag := or_flag r;
                   ao_verdicts := or_verdicts r |})
        end
  end.

Lemma analyze_unconditional t w : ∃ w' b,
  gather (runnable None detectors) t w = (w', b) ∧
  ∃ r, analyze_trace fresh now None None (ratio 5 100) (fresh "flag") detectors t w = (w', Ok r).
Proof.
  unfold analyze_trace. destruct (gather _ t w) as [w' os]. exists w', os. split; [done|].
  destruct (sort_outcomes_total fresh now None (ratio 5 100) t os no_buckets w') as [b ->]. simpl. eauto.
Qed.

(** A confidence the column cannot hold loses the whole audit.  The judge's confidence is not
    checked to lie between 0 and 1; when some verdict of an audited run carries one of absolute value 10
    or more (a judge answering 95 for 95 percent), the transaction fails: [audit_run] raises, and neither
    the verdicts nor the flag nor the incident is stored, and the flag is neither published nor routed
    for review (the world is as the detectors left it). *)
Theorem unstorable_confidence_loses_audit clock t s policy d w os r v :
  numeric_4_3 →
  policy_decide clock (t_run_id t) (t_tenant_id t) (compute_run_signals t) (w_policy s) = (policy, Ok d) →
  audit d = true →
  gather (runnable None detectors) t (w_world s) = (w, os) →
  analyze_trace fresh now None None (ratio 5 100) (fresh "flag") detectors t (w_world s) = (w, Ok r) →
  v ∈ or_verdicts r → fleb (of_Z 10) (fabs (v_confidence v)) = true →
  ∃ s' e, audit_run true clock t s = (s', Raise e) ∧ w_world s' = w ∧
    verdict_rows (w_db s') = verdict_rows (w_db s) ∧ flag_rows (w_db s') = flag_rows (w_db s) ∧
    incident_rows (w_db s') = incident_rows (w_db s).
Proof.
  intros Hnum Hd Ha Hg Hr Hv Hc. unfold audit_run. rewrite Hd, Ha. cbn [negb]. rewrite Hr.
  unfold store_run_result.
  assert (forallb accepts (map verdict_row (or_verdicts r)) = false) as ->.
  { apply not_true_iff_false. intros Hall. rewrite forallb_forall in Hall.
    assert (accepts (verdict_row v) = true) as Hacc.
    { apply Hall, in_map. by apply list_elem_of_In. }
    apply Hnum in Hacc. change (vr_confidence (verdict_row v)) with (v_confidence v) in Hacc. congruence. }
  destruct (sampler_row_only (t_run_id t) d (w_db s)) as (H1 & H2 & H3). by eexists _, _.
Qed.

(** What an audit leaves behind.  A run that is not selected runs no detector, stores nothing but the
    sampling decision and routes nothing; a run that is selected and whose result can be stored leaves its
    verdicts, its flag if it has one, and an incident exactly when the flag is high or critical, and the
    flag is published and routed.  The decision's word on whether the judge may be used plays no part. *)
Theorem audit_run_effects persist clock t s policy d :
  policy_decide clock (t_run_id t) (t_tenant_id t) (compute_run_signals t) (w_policy s) = (policy, Ok d) →
  (audit d = false →
     ∃ s' o, audit_run persist clock t s = (s', Ok o) ∧ ao_sampled o = false ∧ w_world s' = w_world s ∧
       verdict_rows (w_db s') = verdict_rows (w_db s) ∧ flag_rows (w_db s') = flag_rows (w_db s) ∧
       incident_rows (w_db s') = incident_rows (w_db s)) ∧
  (audit d = true →
     ∃ w r, analyze_trace fresh now None None (ratio 5 100) (fresh "flag") detectors t (w_world s) = (w, Ok r) ∧
       (forallb accepts (map verdict_row (or_verdicts r)) = true → persist = true →
        ∃ s' o, audit_run persist clock t s = (s', Ok o) ∧ ao_flag o = or_flag r ∧
          w_world s' = match or_flag r with Some f => _route_flag f w | None => w end ∧
          verdict_rows (w_db s') = verdict_rows (w_db s) ++ map verdict_row (or_verdicts r) ∧
          flag_rows (w_db s') = flag_rows (w_db s) ++ match or_flag r with Some f => [flag_row f] | None => [] end ∧
          (∀ i, i ∈ incident_rows (w_db s') ↔ i ∈ incident_rows (w_db s) ∨
             ∃ f, or_flag r = Some f ∧ (f_severity f = HIGH ∨ f_severity f = CRITICAL) ∧
                  incident_of (fresh "incident") now f = Some i))).
Proof.
  intros Hd. unfold audit_run. rewrite Hd. split; intros Ha; rewrite Ha; cbn [negb].
  - destruct (sampler_row_only (t_run_id t) d (w_db s)) as (H1 & H2 & H3). by eexists _, _.
  - destruct (analyze_unconditional t (w_world s)) as (w & os & _ & r & Hr). exists w, r. split; [done|].
    intros Hacc ->. rewrite Hr. unfold store_run_result. rewrite Hacc. cbn [result_bind].
    destruct (sampler_row_only (t_run_id t) d (w_db s)) as (H1 & H2 & H3).
    eexists _, _. split; [done|]. cbn [w_db w_world ao_flag verdict_rows flag_rows incident_rows].
    rewrite H1, H2, H3. split_and!; [done..|]. intros i. rewrite elem_of_app.
    destruct (or_flag r) as [f|]; cbn [mbind option_bind].
    2: { split; [intros [?|?%elem_of_nil]; [by left|done]|intros [?|(? & ? & _)]; [by left|done]]. }
    pose proof (incident_of_severity (fresh "incident") now f) as Hs.
    destruct (incident_of (fresh "incident") now f) as [j|] eqn:Ei.
    + rewrite list_elem_of_singleton. split.
      * intros [?| ->]; [by left|right]. exists f. split_and!; [done|by apply Hs; eexists|done].
      * intros [?|(f' & [= <-] & _ & Hj)]; [auto|right]. congruence.
    + split; [intros [?|?%elem_of_nil]; [by left|done]|].
      intros [?|(f' & [= <-] & Hsv & _)]; [by left|]. apply Hs in Hsv as [? ?]. done.
Qed.
End store.

(** ** Concrete runs *)

(** A judge that answers 95 for 95 percent. *)
Definition percent_judge : JudgeFn () := λ category _ _ pv w,
  (w, Ok {| jr_category := category; jr_verdict := VIOLATION; jr_confidence := of_Z 95; jr_evidence := [];
            jr_rubric_scores := []; abstain := false; abstain_reason := None; jr_model := Some "haiku";
            jr_prompt_version := Some pv |}).

Definition sample_detectors (judge : JudgeFn ()) : list (Detector (W := ())) :=
  default_detectors (λ s, s) 0 1000 judge (λ _, None).

Definition always_policy : PolicyState :=
  {| settings := {| mode := "always"; rate := of_Z 1; every_n := 1; interval_seconds := of_Z 1;
                    risk_threshold := 70 |}; counter := 0; last_audit_ts := fzero |}.

Definition numeric_column (row : VerdictRow) : bool := negb (fleb (of_Z 10) (fabs (vr_confidence row))).

Definition empty_db : ResultDb :=
  {| verdict_rows := []; flag_rows := []; incident_rows := []; sampler_rows := [] |}.

Definition sample_world : World (W := ()) :=
  {| w_world := tt; w_policy := always_policy; w_db := empty_db |}.

Definition sample_result (judge : JudgeFn ()) : option OrchestratorResult :=
  match (analyze_trace (λ s, s) 0 None None (ratio 5 100) "flag" (sample_detectors judge) empty_trace tt).2 with
  | Ok r => Some r
  | Raise _ => None
  end.

Lemma flag_iff_finding_witness :
  ∃ r, analyze_trace (λ s, s) 0 None None (ratio 5 100) "flag" (sample_detectors percent_judge) empty_trace tt
       = (tt, Ok r) ∧ or_flag r ≠ None.
Proof.
  eexists. split; [vm_compute; reflexivity|]. intros Hn.
  pose proof (flag_iff_finding (λ s, s) 0 None None (ratio 5 100) "flag" (sample_detectors percent_judge)
    empty_trace tt tt) as H.
  specialize (H _ ltac:(vm_compute; reflexivity)). destruct H as (_ & _ & Hf).
  assert (∀ d o, (d, o) ∈ (gather (runnable None (sample_detectors percent_judge)) empty_trace tt).2 →
    ∃ vs, o = Ok vs ∧ (counts None (ratio 5 100) empty_trace d = true → ∀ v, v ∈ vs → v_result v = OK)) as Hq.
  { apply Hf. reflexivity || exact Hn. }
  destruct (Hq _ _ (list_elem_of_here _ _)) as (vs & Hvs & Hall).
  vm_compute in Hvs. injection Hvs as <-. specialize (Hall eq_refl _ (list_elem_of_here _ _)). discriminate Hall.
Defined.

Definition quiet_publish (m : json) (w : ()) : () * result PyExn () := (w, Ok tt).
Definition quiet_hitl (f : Flag) (w : ()) : () * result PyExn RoutingResult := (w, Ok (routing "low")).

Lemma unstorable_confidence_loses_audit_witness :
  ∃ s' e, audit_run numeric_column (λ _, true) (λ s, s) 0 quiet_publish quiet_hitl
            (sample_detectors percent_judge) true (of_Z 100) empty_trace sample_world = (s', Raise e) ∧
    w_world s' = tt ∧ verdict_rows (w_db s') = [] ∧ flag_rows (w_db s') = [] ∧ incident_rows (w_db s') = [].
Proof.
  assert (∃ d, policy_decide (of_Z 100) (t_run_id empty_trace) (t_tenant_id empty_trace)
    (compute_run_signals empty_trace) (w_policy sample_world) = (always_policy, Ok d) ∧ audit d = true) as (d & Hd & Ha).
  { eexists. split; vm_compute; reflexivity. }
  assert (∃ os, gather (runnable None (sample_detectors percent_judge)) empty_trace (w_world sample_world) = (tt, os)) as (os & Hos).
  { destruct (gather _ _ _) as [[] os]. by exists os. }
  assert (∃ r v, analyze_trace (λ s, s) 0 None None (ratio 5 100) ((λ s, s) "flag") (sample_detectors percent_judge)
      empty_trace (w_world sample_world) = (tt, Ok r) ∧ v ∈ or_verdicts r ∧ fleb (of_Z 10) (fabs (v_confidence v)) = true)
    as (r & v & Hr & Hv & Hc).
  { eexists _, _. split; [vm_compute; reflexivity|]. split; [left|]. vm_compute. reflexivity. }
  assert (numeric_4_3 numeric_column) as Hn.
  { intros row. unfold numeric_column. by rewrite negb_true_iff. }
  pose proof (unstorable_confidence_loses_audit numeric_column (λ _, true) (λ s, s) 0 quiet_publish quiet_hitl
    (sample_detectors percent_judge) (of_Z 100) empty_trace sample_world always_policy d tt os r v
    Hn Hd Ha Hos Hr Hv Hc) as H.
  exact H.
Defined.

Lemma audit_run_effects_witness :
  ∃ w r, analyze_trace (λ s, s) 0 None None (ratio 5 100) "flag" (sample_detectors (stub_judge "stub"))
           empty_trace tt = (w, Ok r).
Proof.
  assert (∃ d, policy_decide (of_Z 100) (t_run_id empty_trace) (t_tenant_id empty_trace)
    (compute_run_signals empty_trace) (w_policy sample_world) = (always_policy, Ok d) ∧ audit d = true) as (d & Hd & Ha).
  { eexists. split; vm_compute; reflexivity. }
  destruct (audit_run_effects numeric_column (λ _, true) (λ s, s) 0 quiet_publish quiet_hitl
    (sample_detectors (stub_judge "stub")) true (of_Z 100) empty_trace sample_world always_policy d Hd) as [_ H].
  destruct (H Ha) as (w & r & Hr & _). exists w, r. exact Hr.
Defined.
