(* ===== verification/Catalog.v ===== *)
(** * Integrity of the tool catalogue

    Models [auditor/detectors/asi04_catalog_integrity.py]: the manifest of the hashes of the tools'
    implementation files ([publish_catalog]), its comparison with the files at the start of a run
    ([verify_catalog_integrity]) and the wrapper that keeps the manifest ([CatalogIntegrityCheck]).
    The file system is a function from paths to what reading the file gives; the order in which a
    Python set is iterated is an arbitrary permutation. *)

From Stdlib Require Import ZArith Lia Ascii SpecFloat.
From Stdlib Require String.
From stdpp Require Import base tactics option list strings sets.
From S2P Require Import Prelude PyStr Float64 Json Sha256 Verdicts Rules.

Local Open Scope Z_scope.

(** What reading a file raises. *)
Inductive OSError := FileNotFoundError | OtherOSError (text : string).

Lemma forall_or {A} (P : A → Prop) (Q : Prop) (l : list A) :
  (∀ x, x ∈ l → P x ∨ Q) → (∀ x, x ∈ l → P x) ∨ Q.
Proof.
  induction l as [|a l IH]; intros H; [left; set_solver|].
  destruct (H a) as [Ha|?]; [left| |by right].
  destruct IH as [IH|?]; [intros; apply H; by right| |by right].
  left. intros x [->|?]%elem_of_cons; auto.
Qed.

Lemma map_nil_iff {A B} (f : A → B) l : map f l = [] ↔ l = [].
Proof. by destruct l. Qed.

Section catalog.
(** The iteration order of a set whose elements are listed. *)
Context (set_order : list string → list string) (set_order_perm : ∀ l, set_order l ≡ₚ l).
(** The identifiers and the time the verdicts are created with. *)
Context (fresh : nat → uuid) (now : datetime).

Notation FileSystem := (string → result OSError string).

(** ** Hashing and publishing *)

Definition hash_tool_file (files : FileSystem) (path : string) : result OSError string :=
  let! bytes := files path in Ok (sha256_hex bytes).

Fixpoint publish_catalog (files : FileSystem) (tool_files : list (string * string))
    : result OSError (list (string * string)) :=
  match tool_files with
  | [] => Ok []
  | (name, path) :: rest =>
      let! h := hash_tool_file files path in
      let! m := publish_catalog files rest in Ok ((name, h) :: m)
  end.

(** ** Verification *)

Definition removed_reason (tool_name : string) : string :=
  critical_tag +:+ "tool " +:+ py_repr_str tool_name +:+ " was present at catalog publish "
  +:+ "but is missing from the current tool-file map (removed or unregistered)".

Definition added_reason (tool_name : string) : string :=
  critical_tag +:+ "tool " +:+ py_repr_str tool_name +:+ " was not present at catalog publish "
  +:+ "but exists in the current tool-file map (tool injected after publish)".

(** The body of the first loop: a tool that was published. *)
Definition published_evidence (files : FileSystem) (published current_files : list (string * string))
    (tool_name : string) : list Evidence :=
  match dget tool_name current_files with
  | None => [note (removed_reason tool_name)]
  | Some path =>
      let about := critical_tag +:+ "tool " +:+ py_repr_str tool_name +:+ " implementation file " in
      match hash_tool_file files path with
      | Raise FileNotFoundError =>
          [note (about +:+ py_repr_str path +:+ " no longer exists (file removed after catalog publish)")]
      | Raise (OtherOSError exc) =>
          [note (about +:+ py_repr_str path +:+ " could not be read: " +:+ exc)]
      | Ok current_hash =>
          let expected_hash := default "" (dget tool_name published) in
          if String.eqb current_hash expected_hash then []
          else [note (about +:+ "modified: published hash " +:+ take_str 12 expected_hash
                      +:+ ".. != current " +:+ take_str 12 current_hash +:+ "..")]
      end
  end.

Definition catalog_evidence (files : FileSystem) (published current_files : list (string * string))
    : list Evidence :=
  concat (map (published_evidence files published current_files) (set_order (dkeys published)))
  ++ map (λ tool_name, note (added_reason tool_name))
       (set_order (bfilter (λ t, negb (bool_decide (t ∈ dkeys published))) (dkeys current_files))).

Definition catalog_verdict (i : nat) (run_id tenant_id : uuid) (res : VerdictResult) (conf : f64)
    (ev : Evidence) (scores : option (list (string * json))) : Verdict :=
  {| v_verdict_id := fresh i; v_run_id := run_id; v_tenant_id := tenant_id;
     v_detector := "asi04_catalog_integrity"; v_asi_category := "ASI04"; v_result := res;
     v_confidence := conf; v_evidence := [ev]; v_judge_model := None; v_judge_prompt_v := None;
     v_rubric_scores := scores; v_ts := now |}.

Definition verify_catalog_integrity (files : FileSystem) (published current_files : list (string * string))
    (run_id tenant_id : uuid) : list Verdict :=
  match catalog_evidence files published current_files with
  | [] => [catalog_verdict 0 run_id tenant_id OK (of_Z 1)
             (note ("all " +:+ dec (Z.of_nat (length published))
                    +:+ " tool implementation file hashes match the published catalog")) None]
  | evidence =>
      imap (λ i ev, catalog_verdict i run_id tenant_id VIOLATION (ratio 99 100) ev
                      (Some [("severity", JStr "critical")])) evidence
  end.

(** ** The wrapper *)

Record CatalogIntegrityCheck := { _manifest : list (string * string) }.

Definition new_check : CatalogIntegrityCheck := {| _manifest := [] |}.

(** The manifest is assigned only when every file could be hashed. *)
Definition check_publish (files : FileSystem) (tool_files : list (string * string))
    (c : CatalogIntegrityCheck) : CatalogIntegrityCheck * result OSError (list (string * string)) :=
  match publish_catalog files tool_files with
  | Ok m => ({| _manifest := m |}, Ok m)
  | Raise e => (c, Raise e)
  end.

Definition check_verify (files : FileSystem) (current_files : list (string * string))
    (run_id tenant_id : uuid) (c : CatalogIntegrityCheck) : list Verdict :=
  verify_catalog_integrity files (_manifest c) current_files run_id tenant_id.

(** ** Properties *)

Lemma publish_keys files tools m : publish_catalog files tools = Ok m → dkeys m = dkeys tools.
Proof.
  revert m. induction tools as [|[n p] tools IH]; intros m; simpl; [by intros [= <-]|].
  intros H. inv_bind. simplify_eq. unfold dkeys in *. simpl. f_equal. by apply IH.
Qed.

Lemma publish_dget files tools m name path :
  publish_catalog files tools = Ok m → dget name tools = Some path →
  ∃ b, files path = Ok b ∧ dget name m = Some (sha256_hex b).
Proof.
  revert m. induction tools as [|[n p] tools IH]; intros m; simpl; [done|].
  intros H. inv_bind. simplify_eq. unfold hash_tool_file in *. inv_bind. simplify_eq. simpl.
  case_decide; [|by apply IH]. intros [= ->]. by eexists.
Qed.

(** What the check is to detect: the tools are those published, and each one's file can be read and
    holds the bytes it had. *)
Definition same_catalog (files files' : FileSystem) (tools current : list (string * string)) : Prop :=
  (∀ name, name ∈ dkeys tools ↔ name ∈ dkeys current) ∧
  ∀ name path path', dget name tools = Some path → dget name current = Some path' →
    ∃ b, files path = Ok b ∧ files' path' = Ok b.

(** The bytes hashed when the files of a catalogue are read. *)
Definition tool_bytes (files : FileSystem) (tools : list (string * string)) : list string :=
  omap (λ kv, match files kv.2 with Ok b => Some b | Raise _ => None end) tools.

Lemma elem_of_tool_bytes files tools name path b :
  dget name tools = Some path → files path = Ok b → b ∈ tool_bytes files tools.
Proof.
  intros Hd%dget_elem_of Hb. apply list_elem_of_omap. exists (name, path). cbn [snd]. by rewrite Hb.
Qed.

Lemma elem_of_set_order x l : x ∈ set_order l ↔ x ∈ l.
Proof using set_order_perm. by rewrite set_order_perm. Qed.

Lemma set_order_nil l : set_order l = [] ↔ l = [].
Proof using set_order_perm.
  split; intros E; apply Permutation_nil_r; [by rewrite <-E, set_order_perm|by rewrite set_order_perm, E].
Qed.

Lemma catalog_evidence_nil files' m current :
  catalog_evidence files' m current = [] ↔
  (∀ name, name ∈ dkeys m → published_evidence files' m current name = []) ∧
  (∀ name, name ∈ dkeys current → name ∈ dkeys m).
Proof using set_order_perm.
  unfold catalog_evidence. rewrite app_nil, concat_map_nil.
  setoid_rewrite elem_of_set_order. f_equiv.
  rewrite map_nil_iff, set_order_nil, bfilter_nil.
  setoid_rewrite negb_false_iff. by setoid_rewrite bool_decide_eq_true.
Qed.

Lemma published_evidence_nil files' m current name h :
  dget name m = Some h →
  (published_evidence files' m current name = [] ↔
   ∃ path', dget name current = Some path' ∧ hash_tool_file files' path' = Ok h).
Proof.
  intros Hm. unfold published_evidence. rewrite Hm. simpl.
  destruct (dget name current) as [path'|]; [|by split; [|intros (? & ? & _)]].
  transitivity (hash_tool_file files' path' = Ok h); [|split; [eauto|intros (? & [= <-] & ?); done]].
  destruct (hash_tool_file files' path') as [h'|e].
  - destruct (String.eqb_spec h' h) as [->|Hne]; split; congruence.
  - by destruct e.
Qed.

Lemma unchanged_no_evidence files files' tools current m :
  publish_catalog files tools = Ok m → same_catalog files files' tools current →
  catalog_evidence files' m current = [].
Proof using set_order_perm.
  intros Hp [Hk Hf]. apply catalog_evidence_nil. rewrite (publish_keys _ _ _ Hp).
  split; [|intros name ?; by apply Hk].
  intros name Hn. destruct (proj1 (elem_of_dkeys _ _) Hn) as [path Ht].
  destruct (proj1 (elem_of_dkeys _ _) (proj1 (Hk name) Hn)) as [path' Hc].
  destruct (publish_dget _ _ _ _ _ Hp Ht) as (b & Hb & Hm).
  apply (published_evidence_nil _ _ _ _ _ Hm). exists path'. split; [done|].
  destruct (Hf _ _ _ Ht Hc) as (b' & Hb1 & Hb2). unfold hash_tool_file. rewrite Hb2. simpl. congruence.
Qed.

Lemma no_evidence_unchanged files files' tools current m :
  publish_catalog files tools = Ok m → catalog_evidence files' m current = [] →
  same_catalog files files' tools current ∨ collision_in (tool_bytes files tools) (tool_bytes files' current).
Proof using set_order_perm.
  intros Hp [H1 H2]%catalog_evidence_nil. rewrite (publish_keys _ _ _ Hp) in H1, H2.
  assert (Hpath : ∀ name, name ∈ dkeys tools → ∃ path path' b b', dget name tools = Some path ∧
    dget name current = Some path' ∧ files path = Ok b ∧ files' path' = Ok b' ∧ 
    (b = b' ∨ collision_in (tool_bytes files tools) (tool_bytes files' current))).
  { intros name Hn. destruct (proj1 (elem_of_dkeys _ _) Hn) as [path Ht].
    destruct (publish_dget _ _ _ _ _ Hp Ht) as (b & Hb & Hm).
    apply (published_evidence_nil _ _ _ _ _ Hm) in H1 as (p' & Hc & Hh); [|done].
    unfold hash_tool_file in Hh. inv_bind. simplify_eq.
    unfold sha256_hex in *. simplify_eq. do 4 eexists. split_and!; [done..|].
    apply sha256_eq_or_collision; eauto using elem_of_tool_bytes. }
  destruct (forall_or (λ name, ∀ path path', dget name tools = Some path →
    dget name current = Some path' → ∃ b, files path = Ok b ∧ files' path' = Ok b)
    (collision_in (tool_bytes files tools) (tool_bytes files' current)) (dkeys tools)) as [Hf|]; [| |by right].
  - intros name (path & path' & b & b' & ? & ? & ? & ? & [->|?])%Hpath; [left|by right].
    intros; simplify_eq. eauto.
  - left. split.
    + intros name. split; [|apply H2]. intros (path & path' & b & b' & ? & ? & ?)%Hpath.
      apply elem_of_dkeys. eauto.
    + intros name path path' Ht Hc. apply (Hf name); auto. apply elem_of_dkeys. eauto.
Qed.

(** ** Every discrepancy gives one critical verdict *)

Definition catalog_flag (files : FileSystem) (published current_files : list (string * string))
    (run_id tenant_id flag_fresh : uuid) : option Flag :=
  aggregate flag_fresh now run_id tenant_id
    (verify_catalog_integrity files published current_files run_id tenant_id).
Lemma violations_classify m files' current run_id tenant_id e es v :
  catalog_evidence files' m current = e :: es →
  v ∈ verify_catalog_integrity files' m current run_id tenant_id → classify v = Some CRITICAL.
Proof.
  unfold verify_catalog_integrity. intros ->. intros (i & Hi)%list_elem_of_lookup.
  rewrite list_lookup_imap in Hi. by destruct ((e :: es) !! i); simplify_eq/=.
Qed.

(** Comparing the files at run start with the manifest taken at publication answers one OK
    verdict and no flag when the tools are the ones published and every file still holds the bytes it
    held; otherwise (an added, removed, unreadable or modified tool) the run gets a CRITICAL flag,
    unless the bytes of two of the files hashed collide. *)
Theorem catalog_check_exact files files' tools current m run_id tenant_id flag_fresh :
  publish_catalog files tools = Ok m →
  (same_catalog files files' tools current ∧
   (∃ v, verify_catalog_integrity files' m current run_id tenant_id = [v] ∧ v_result v = OK) ∧
   catalog_flag files' m current run_id tenant_id flag_fresh = None) ∨
  (¬ same_catalog files files' tools current ∧
   ∃ f, catalog_flag files' m current run_id tenant_id flag_fresh = Some f ∧ f_severity f = CRITICAL) ∨
  collision_in (tool_bytes files tools) (tool_bytes files' current).
Proof using set_order_perm.
  intros Hp. destruct (catalog_evidence files' m current) as [|e es] eqn:E.
  - destruct (no_evidence_unchanged _ _ _ _ _ Hp E) as [Hs|?]; [left|by right; right].
    unfold catalog_flag, verify_catalog_integrity. rewrite E. eauto.
  - right; left. split; [intros Hs; by rewrite (unchanged_no_evidence _ _ _ _ _ Hp Hs) in E|].
    unfold catalog_flag.
    destruct (aggregate_uniform flag_fresh now run_id tenant_id
                (verify_catalog_integrity files' m current run_id tenant_id) CRITICAL)
      as (f & ? & ? & _); [|by eauto using violations_classify|by eauto].
    unfold verify_catalog_integrity. by rewrite E.
Qed.

(** A check that was never published reports every tool as injected. *)
Lemma unpublished_check_flags_all files' current run_id tenant_id v :
  v ∈ check_verify files' current run_id tenant_id new_check → current ≠ [] → v_result v = VIOLATION.
Proof using set_order_perm.
  unfold check_verify, verify_catalog_integrity. intros Hv Hc.
  destruct (catalog_evidence files' (_manifest new_check) current) as [|e es] eqn:E.
  - apply catalog_evidence_nil in E as [_ E]. destruct current as [|[n p] c]; [done|].
    specialize (E n). simpl in E. exfalso. apply not_elem_of_nil with (x := n), E. left.
  - apply list_elem_of_lookup in Hv as (i & Hi). rewrite list_lookup_imap in Hi.
    by destruct ((e :: es) !! i); simplify_eq/=.
Qed.
End catalog.

(** ** Witness *)

Definition sample_files (body : string) (path : string) : result OSError string :=
  if String.eqb path "tools/kb.py" then Ok body else Raise FileNotFoundError.

Lemma catalog_check_exact_witness :
  (∀ l : list string, id l ≡ₚ l) ∧
  ∃ f, catalog_flag id (λ _, "v") 0 (sample_files "v2") [("kb", sha256_hex "v1")]
         [("kb", "tools/kb.py")] "r" "t" "f" = Some f ∧ f_severity f = CRITICAL.
Proof.
  split; [done|].
  assert (publish_catalog (sample_files "v1") [("kb", "tools/kb.py")] = Ok [("kb", sha256_hex "v1")])
    as Hp by reflexivity.
  destruct (catalog_check_exact id (λ _, reflexivity _) (λ _, "v") 0 (sample_files "v1") (sample_files "v2")
           _ [("kb", "tools/kb.py")] _ "r" "t" "f" Hp) as [[[_ Hs] _]|[[_ Hf]|Hc]].
  - destruct (Hs "kb" "tools/kb.py" "tools/kb.py") as (b & [= <-] & [=]); reflexivity.
  - exact Hf.
  - apply (bool_decide_pack _) in Hc. vm_compute in Hc. destruct Hc.
Defined.
