(* ===== verification/Redact.v ===== *)
(** * The redactor of personal data

    Models [auditor/audit_log/redactor.py]: the regex fallback, the choice between it and Presidio, the
    process-wide instances and the detection of entity types.  Presidio itself (loading its engines,
    analysing, anonymising) is a parameter.  The theorems show what the fallback guarantees of the
    payloads the event store keeps, and what it does not. *)

From Stdlib Require Import NArith ZArith Lia Ascii.
From Stdlib Require String.
From stdpp Require Import base tactics option list strings gmap.
From S2P Require Import Prelude PyStr Regex Json Budget Gate Bridge Store.

Local Open Scope Z_scope.

(** ** The fallback *)

Definition quote_opt : string := "['" +:+ String quote "]?".

Definition api_key_pattern : Pattern :=
  re_compile no_flags
    ("(?i)(?:api[_\-]?key|secret|token|password)\s*[=:]\s*" +:+ quote_opt +:+ "[A-Za-z0-9_\-]{20,}" +:+ quote_opt).

Definition email_pattern : Pattern :=
  re_compile no_flags "[a-zA-Z0-9._%+\-]+@[a-zA-Z0-9.\-]+\.[a-zA-Z]{2,}".

Definition _REGEX_PATTERNS : list (Pattern * string) :=
  [(api_key_pattern, "GENERIC_API_KEY");
   (re_compile no_flags "\b\d{3}-\d{2}-\d{4}\b", "US_SSN");
   (re_compile no_flags "\b(?:\d[ -]?){13,18}\d\b", "CREDIT_CARD");
   (email_pattern, "EMAIL_ADDRESS");
   (re_compile no_flags
      "(?<!\d)(?:\+?1[\s.\-]?)?(?:\(?\d{3}\)?[\s.\-]?)\d{3}[\s.\-]?\d{4}(?!\d)", "PHONE_NUMBER")].

(** [for pattern, tag in _REGEX_PATTERNS: text = pattern.sub(tag, text)]; the tag is the entity in
    angle brackets. *)
Definition _regex_redact (text : string) : string :=
  foldl (λ t '(p, entity), re_sub p (tag_of entity) t) text _REGEX_PATTERNS.

(** The loop over the patterns of [detect_entities]. *)
Definition regex_entities (text : string) : list string :=
  sorted_set (omap (λ '(p, entity), if re_search p text then Some entity else None) _REGEX_PATTERNS).

(** ** The process's redactors *)

Record Redactor := { _force_regex : bool }.

(** The module's globals. *)
Record Globals := {
  _PRESIDIO_AVAILABLE : option bool;
  _SINGLETON : option Redactor;
  _LOG_SINGLETON : option Redactor
}.

Definition reset_redactor_for_tests (g : Globals) : Globals :=
  {| _PRESIDIO_AVAILABLE := _PRESIDIO_AVAILABLE g; _SINGLETON := None; _LOG_SINGLETON := None |}.

Section redactor.
(** Presidio: whether its engines load, what the analyser finds, and the text with spans replaced. *)
Context {R : Type} (entity_type : R → string) (presidio_loads : bool)
        (analyze : string → result PyExn (list R))
        (anonymize : string → list R → list (string * string) → result PyExn string).

Definition _try_init_presidio (g : Globals) : Globals * bool :=
  match _PRESIDIO_AVAILABLE g with
  | Some b => (g, b)
  | None => ({| _PRESIDIO_AVAILABLE := Some presidio_loads; _SINGLETON := _SINGLETON g;
                _LOG_SINGLETON := _LOG_SINGLETON g |}, presidio_loads)
  end.

Definition new_redactor (force_regex : bool) (g : Globals) : Globals * Redactor :=
  (if force_regex then g else (_try_init_presidio g).1, {| _force_regex := force_regex |}).

(** The property [backend]. *)
Definition backend_presidio (g : Globals) (r : Redactor) : bool :=
  negb (_force_regex r) && default false (_PRESIDIO_AVAILABLE g).

Definition _presidio_redact (text : string) : result PyExn string :=
  let! results := analyze text in
  match results with
  | [] => Ok text
  | _ =>
      let operators := foldl (λ ops res, let e := entity_type res in
                                         match dget e ops with
                                         | Some _ => ops
                                         | None => dset e (tag_of e) ops
                                         end) [] results in
      anonymize text results operators
  end.

Definition redact_text (g : Globals) (r : Redactor) (text : string) : result PyExn string :=
  if negb (str_truthy text) then Ok text
  else if backend_presidio g r then _presidio_redact text
  else Ok (_regex_redact text).

Fixpoint _redact_value (g : Globals) (r : Redactor) (value : json) : result PyExn json :=
  match value with
  | JStr s => let! t := redact_text g r s in Ok (JStr t)
  | JObj m =>
      let! m' := (fix go (m : list (string * json)) : result PyExn (list (string * json)) :=
                    match m with
                    | [] => Ok []
                    | (k, v) :: m' => let! v' := _redact_value g r v in
                                      let! rest := go m' in Ok ((k, v') :: rest)
                    end) m in Ok (JObj m')
  | JArr l =>
      let! l' := (fix go (l : list json) : result PyExn (list json) :=
                    match l with
                    | [] => Ok []
                    | v :: l' => let! v' := _redact_value g r v in
                                 let! rest := go l' in Ok (v' :: rest)
                    end) l in Ok (JArr l')
  | _ => Ok value
  end.

(** [redact_dict] *)
Definition redact_dict (g : Globals) (r : Redactor) (payload : list (string * json)) : result PyExn json :=
  _redact_value g r (JObj payload).

(** The argument matters to the first call only. *)
Definition get_redactor (force_regex : bool) (g : Globals) : Globals * Redactor :=
  match _SINGLETON g with
  | Some r => (g, r)
  | None => let '(g', r) := new_redactor force_regex g in
            ({| _PRESIDIO_AVAILABLE := _PRESIDIO_AVAILABLE g'; _SINGLETON := Some r;
                _LOG_SINGLETON := _LOG_SINGLETON g' |}, r)
  end.

Definition get_log_redactor (g : Globals) : Globals * Redactor :=
  match _LOG_SINGLETON g with
  | Some r => (g, r)
  | None => let '(g', r) := new_redactor true g in
            ({| _PRESIDIO_AVAILABLE := _PRESIDIO_AVAILABLE g'; _SINGLETON := _SINGLETON g';
                _LOG_SINGLETON := Some r |}, r)
  end.

(** ** Detection *)

(** What is found with a redactor at hand; an analyser that raises falls through to the patterns. *)
Definition entities_with (g : Globals) (r : Redactor) (text : string) : list string :=
  if backend_presidio g r then
    match analyze text with
    | Ok results => sorted_set (map entity_type results)
    | Raise _ => regex_entities text
    end
  else regex_entities text.

Definition detect_entities (text : string) (g : Globals) : Globals * list string :=
  if negb (str_truthy text) then (g, [])
  else let '(g', r) := get_redactor false g in (g', entities_with g' r text).

(** [_walk], which adds to the set [entities] *)
Fixpoint _walk (v : json) (st : Globals * list string) : Globals * list string :=
  match v with
  | JStr s => let '(g, es) := detect_entities s st.1 in (g, st.2 ++ es)
  | JObj m => foldl (λ st kv, _walk kv.2 st) st m
  | JArr l => foldl (λ st x, _walk x st) st l
  | _ => st
  end.

Definition detect_entities_in_value (value : json) (g : Globals) : Globals * list string :=
  let '(g', es) := _walk value (g, []) in (g', sorted_set es).
End redactor.

(** ** What the fallback guarantees *)

Lemma api_key_plain : plain_pattern api_key_pattern = true.
Proof. by vm_compute. Qed.

Lemma email_plain : plain_pattern email_pattern = true.
Proof. by vm_compute. Qed.

Lemma api_key_not_in_tags p entity :
  (p, entity) ∈ _REGEX_PATTERNS → re_search api_key_pattern entity = false.
Proof.
  unfold _REGEX_PATTERNS. rewrite !elem_of_cons, elem_of_nil.
  by intros [[= -> ->]|[[= -> ->]|[[= -> ->]|[[= -> ->]|[[= -> ->]|[]]]]]]; vm_compute.
Qed.

Lemma email_not_in_tags p entity :
  (p, entity) ∈ _REGEX_PATTERNS → re_search email_pattern entity = false.
Proof.
  unfold _REGEX_PATTERNS. rewrite !elem_of_cons, elem_of_nil.
  by intros [[= -> ->]|[[= -> ->]|[[= -> ->]|[[= -> ->]|[[= -> ->]|[]]]]]]; vm_compute.
Qed.

(** A pattern without assertions whose words no tag contains finds nothing in the result. *)
Lemma redact_clean_of l p e text :
  plain_pattern p = true → (p, e) ∈ l → (∀ p' e', (p', e') ∈ l → re_search p e' = false) →
  re_search p (foldl (λ t '(p, entity), re_sub p (tag_of entity) t) text l) = false.
Proof.
  intros Hp Hin Hl. revert text. apply list_elem_of_split in Hin as (l1 & l2 & ->). intros text.
  rewrite foldl_app. generalize (foldl (λ t '(p, entity), re_sub p (tag_of entity) t) text l1) as t1.
  intros t1. simpl.
  assert (re_search p (re_sub p (tag_of e) t1) = false) as H1 by (apply re_sub_clean; [done|set_solver]).
  revert H1. generalize (re_sub p (tag_of e) t1) as t2.
  assert (∀ p' e', (p', e') ∈ l2 → re_search p e' = false) as Hl2 by set_solver.
  clear Hl t1. induction l2 as [|[p' e'] l2 IH]; intros t2 H2; [done|]. simpl. apply IH; [set_solver|].
  apply re_sub_keeps; [done|done|]. apply (Hl2 p'). left.
Qed.

Lemma regex_redact_clean text :
  re_search api_key_pattern (_regex_redact text) = false ∧
  re_search email_pattern (_regex_redact text) = false.
Proof.
  split; eapply redact_clean_of; eauto using api_key_plain, email_plain, api_key_not_in_tags, email_not_in_tags.
  - left.
  - do 3 right. left.
Qed.

Lemma regex_entities_nil text :
  regex_entities text = [] → ∀ p e, (p, e) ∈ _REGEX_PATTERNS → re_search p text = false.
Proof.
  unfold regex_entities. intros Hn p e Hin. destruct (re_search p text) eqn:E; [|done].
  assert (e ∈ ([] : list string)) as []%elem_of_nil.
  rewrite <-Hn, elem_of_sorted_set. apply list_elem_of_omap. exists (p, e). by rewrite E.
Qed.

Lemma regex_redact_none text : regex_entities text = [] → _regex_redact text = text.
Proof.
  intros Hn. pose proof (regex_entities_nil _ Hn) as Hl0. clear Hn. revert Hl0. unfold _regex_redact. generalize _REGEX_PATTERNS as l.
  induction l as [|[p e] l IH]; intros Hl; simpl; [done|].
  rewrite (re_sub_none p) by (apply (Hl p e); left). apply IH. set_solver.
Qed.

(** ** Stored payloads

    The texts of a value that the event store hands to the redactor: every text at any depth that is
    not under a structural key. *)
Fixpoint free_texts (value : json) (key : option string) : list string :=
  if structural key then []
  else match value with
       | JStr s => [s]
       | JObj m => concat (map (λ kv, free_texts kv.2 (Some kv.1)) m)
       | JArr l => concat (map (λ v, free_texts v None) l)
       | _ => []
       end.

Lemma elem_of_concat_map {A B} (f : A → list B) l y : y ∈ concat (map f l) ↔ ∃ x, x ∈ l ∧ y ∈ f x.
Proof.
  induction l as [|a l IH]; simpl; [set_solver|]. rewrite elem_of_app, IH. set_solver.
Qed.

Lemma free_texts_structural v key : structural key = true → free_texts v key = [].
Proof. intros H. destruct v; cbn [free_texts]; by rewrite H. Qed.

Lemma free_texts_walk redact v key s :
  s ∈ free_texts (_walk_and_redact redact v key) key → ∃ s', s = redact s' ∧ s' ∈ free_texts v key.
Proof.
  revert key. induction v as [|b|z|lex|t|l IH|m IH] using json_ind; intros key;
    destruct (structural key) eqn:Hk; simpl; rewrite ?Hk; simpl; rewrite ?Hk; try (by intros ?%elem_of_nil).
  - intros ->%list_elem_of_singleton. exists t. split; [done|left].
  - intros (x & (y & -> & Hy)%elem_of_map & Hs)%elem_of_concat_map.
    rewrite Forall_forall in IH. apply (IH _ Hy) in Hs as (s' & -> & Hs').
    exists s'. split; [done|]. apply elem_of_concat_map. eauto.
  - intros (x & (y & -> & Hy)%elem_of_map & Hs)%elem_of_concat_map. simpl in Hs.
    rewrite Forall_forall in IH. apply (IH _ Hy) in Hs as (s' & -> & Hs').
    exists s'. split; [done|]. apply elem_of_concat_map. eauto.
Qed.

Lemma detect_free_texts detect v key s :
  _detect_entities_skipping_structural detect v key = [] → s ∈ free_texts v key → detect s = [].
Proof.
  revert key. induction v as [|b|z|lex|t|l IH|m IH] using json_ind; intros key;
    destruct (structural key) eqn:Hk; simpl; rewrite ?Hk; simpl; rewrite ?Hk; try (by intros _ ?%elem_of_nil).
  - by intros Hd ->%list_elem_of_singleton.
  - rewrite sorted_set_concat_nil. intros Hd (x & Hx & Hs)%elem_of_concat_map.
    rewrite Forall_forall in IH. eauto.
  - rewrite sorted_set_concat_nil. intros Hd (x & Hx & Hs)%elem_of_concat_map.
    rewrite Forall_forall in IH. eauto.
Qed.

Lemma free_texts_detect detect v key :
  (∀ s, s ∈ free_texts v key → detect s = []) → _detect_entities_skipping_structural detect v key = [].
Proof.
  revert key. induction v as [|b|z|lex|t|l IH|m IH] using json_ind; intros key;
    destruct (structural key) eqn:Hk; simpl; rewrite ?Hk; try done.
  - intros H. apply H. left.
  - intros H. apply sorted_set_concat_nil. rewrite Forall_forall in IH. intros x Hx. apply IH; [done|].
    intros s Hs. apply H, elem_of_concat_map. eauto.
  - intros H. apply sorted_set_concat_nil. rewrite Forall_forall in IH. intros x Hx. apply IH; [done|].
    intros s Hs. apply H, elem_of_concat_map. eauto.
Qed.

Lemma stored_free_text p s :
  s ∈ free_texts (JObj (_redact_payload _regex_redact regex_entities true p).1) None →
  regex_entities s = [] ∨ ∃ s', s = _regex_redact s'.
Proof.
  unfold _redact_payload. cbv zeta. simpl negb.
  destruct (bool_decide (p = [])) eqn:Hp.
  { apply bool_decide_eq_true in Hp as ->. simpl. set_solver. }
  simpl orb. cbv iota. 
  destruct (bool_decide (_detect_entities_skipping_structural _ _ _ = [])) eqn:He; cbn [fst].
  { apply bool_decide_eq_true in He. intros Hs. left. by apply (detect_free_texts _ (JObj p) None). }
  intros (kv & Hkv & Hs)%elem_of_concat_map. destruct (elem_of_dset_inv _ _ _ _ Hkv) as [Hk|Hin].
  { rewrite Hk, free_texts_structural in Hs by done. by apply elem_of_nil in Hs. }
  apply elem_of_map in Hin as ([k v] & -> & _). simpl in Hs.
  apply free_texts_walk in Hs as (s' & -> & _). eauto.
Qed.

(** *** Places in a value *)

(** The value at a place: a list of keys and positions. *)
Fixpoint at_path (v : json) (path : list (string + nat)) : option json :=
  match path with
  | [] => Some v
  | inl k :: rest => match v with JObj m => dget k m ≫= λ w, at_path w rest | _ => None end
  | inr i :: rest => match v with JArr l => l !! i ≫= λ w, at_path w rest | _ => None end
  end.

(** No structural key on the way ([key] is the one the value itself is under). *)
Fixpoint covered (key : option string) (path : list (string + nat)) : bool :=
  negb (structural key) &&
  match path with
  | [] => true
  | inl k :: rest => covered (Some k) rest
  | inr _ :: rest => covered None rest
  end.

(** The key the value at a place is under. *)
Fixpoint key_at (key : option string) (path : list (string + nat)) : option string :=
  match path with
  | [] => key
  | inl k :: rest => key_at (Some k) rest
  | inr _ :: rest => key_at None rest
  end.

Lemma covered_key key path : covered key path = true → structural (key_at key path) = false.
Proof.
  revert key. induction path as [|[k|i] path IH]; intros key; simpl; rewrite andb_true_iff;
    intros [Hs%negb_true_iff Hp]; auto.
Qed.

Lemma walk_at redact v key path :
  at_path (_walk_and_redact redact v key) path =
    (λ w, if covered key path then _walk_and_redact redact w (key_at key path) else w) <$> at_path v path.
Proof.
  revert v key. induction path as [|[k|i] path IH]; intros v key.
  - cbn [covered at_path key_at]. destruct (structural key) eqn:E; [|done].
    rewrite walk_structural by done. done.
  - cbn [covered key_at]. destruct (structural key) eqn:E; cbn [negb andb].
    { rewrite walk_structural by done. by rewrite option_fmap_id. }
    destruct v; cbn [at_path _walk_and_redact]; rewrite E; try done.
    rewrite (dget_map_snd (λ k v, _walk_and_redact redact v (Some k))).
    destruct (dget k m); [|done]. cbn [fmap option_fmap option_map mbind option_bind]. apply IH.
  - cbn [covered key_at]. destruct (structural key) eqn:E; cbn [negb andb].
    { rewrite walk_structural by done. by rewrite option_fmap_id. }
    destruct v; cbn [at_path _walk_and_redact]; rewrite E; try done.
    change (map ?f ?x) with (f <$> x). rewrite list_lookup_fmap.
    destruct (l !! i); [|done]. cbn [fmap option_fmap option_map mbind option_bind]. apply IH.
Qed.

Lemma covered_free_text v key path t :
  at_path v path = Some (JStr t) → covered key path = true → t ∈ free_texts v key.
Proof.
  revert v key. induction path as [|[k|i] path IH]; intros v key; cbn [at_path covered];
    rewrite andb_true_iff, negb_true_iff.
  - intros [= ->] [Hs _]. simpl. rewrite Hs. left.
  - destruct v as [| | | | | |m]; try done. intros (w & Hw & Hp)%bind_Some [Hs Hc]. simpl. rewrite Hs.
    apply elem_of_concat_map. exists (k, w). split; [by apply dget_elem_of|by apply IH].
  - destruct v as [| | | | |l|]; try done. intros (w & Hw & Hp)%bind_Some [Hs Hc]. simpl. rewrite Hs.
    apply elem_of_concat_map. exists w. split; [by eapply list_elem_of_lookup_2|by apply IH].
Qed.

(** What is stored at a place for the value that came there. *)
Definition stored_value (path : list (string + nat)) (v : json) : json :=
  if covered None path then _walk_and_redact _regex_redact v (key_at None path) else v.

(** Either nothing was found anywhere and the payload is stored as it came, or every place is walked. *)
Lemma stored_at p k path v :
  let stored := (_redact_payload _regex_redact regex_entities true p).1 in
  k ≠ "_pii_redacted" → at_path (JObj p) (inl k :: path) = Some v →
  (at_path (JObj stored) (inl k :: path) = Some v ∧
   ∀ t, v = JStr t → covered None (inl k :: path) = true → regex_entities t = []) ∨
  at_path (JObj stored) (inl k :: path) = Some (stored_value (inl k :: path) v).
Proof.
  intros stored Hk Hv. unfold stored, _redact_payload. cbv zeta. simpl negb.
  destruct (bool_decide (p = [])) eqn:Hp; [by apply bool_decide_eq_true in Hp as ->|]. simpl orb. cbv iota.
  destruct (bool_decide (_detect_entities_skipping_structural _ _ _ = [])) eqn:He; cbn [fst].
  - left. apply bool_decide_eq_true in He. split; [done|]. intros t -> Hc.
    apply (detect_free_texts _ (JObj p) None); [done|]. by apply (covered_free_text _ _ (inl k :: path)).
  - right. cbn [at_path] in Hv |- *. rewrite dget_dset, decide_False by done.
    rewrite (dget_map_snd (λ k v, _walk_and_redact _regex_redact v (Some k))).
    destruct (dget k p) as [w|]; [|done]. cbn [fmap option_fmap option_map mbind option_bind] in *.
    rewrite walk_at, Hv. reflexivity.
Qed.

(** C11: With the fallback redactor, a stored payload carries neither a credential assignment
    ([api_key = ..], [password: ..] and the like) nor an e-mail address in any text outside the
    structural keys, whatever the payload was.  Nothing else is lost: at every place of the payload (but
    under [_pii_redacted], which the store writes itself) the stored payload has the same number, truth
    value or null, an object with the same keys, a list of the same length, and the text that came there
    with its spans replaced; a text in which the detector sees nothing, and a text under a structural key,
    is stored as it came.  Keys are not redacted. *)
Theorem stored_payload_has_no_secret p :
  let stored := (_redact_payload _regex_redact regex_entities true p).1 in
  (∀ s, s ∈ free_texts (JObj stored) None →
        re_search api_key_pattern s = false ∧ re_search email_pattern s = false) ∧
  (∀ k path v, k ≠ "_pii_redacted" → at_path (JObj p) (inl k :: path) = Some v →
     ∃ v', at_path (JObj stored) (inl k :: path) = Some v' ∧
       match v with
       | JStr t => v' = JStr (if covered None (inl k :: path) && negb (bool_decide (regex_entities t = []))
                              then _regex_redact t else t)
       | JObj m => ∃ m', v' = JObj m' ∧ dkeys m' = dkeys m
       | JArr l => ∃ l', v' = JArr l' ∧ length l' = length l
       | _ => v' = v
       end).
Proof.
  intros stored. split.
  - intros s [Hn|[s' ->]]%stored_free_text; [|by apply regex_redact_clean].
    pose proof (regex_entities_nil _ Hn) as Hl. split.
    + apply (Hl _ "GENERIC_API_KEY"). left.
    + apply (Hl _ "EMAIL_ADDRESS"). do 3 right. left.
  - intros k path v Hk Hv. destruct (stored_at p k path v Hk Hv) as [[Hs Hc]|Hs].
    + exists v. split; [exact Hs|]. destruct v; eauto. f_equal.
      destruct (covered None _) eqn:E; [|done]. by rewrite bool_decide_true by by apply Hc.
    + exists (stored_value (inl k :: path) v). split; [exact Hs|]. unfold stored_value.
      destruct (covered None (inl k :: path)) eqn:E; [|destruct v; eauto].
      pose proof (covered_key _ _ E) as Hst.
      destruct v as [| | | |t|l|m]; cbn [_walk_and_redact]; rewrite Hst; try done.
      * by case_bool_decide as Ht; [rewrite (regex_redact_none t Ht)|].
      * eexists. split; [done|]. by rewrite length_map.
      * eexists. split; [done|]. unfold dkeys. by rewrite <-list_fmap_compose.
Qed.

(** Each pattern runs once, so a replacement can uncover a span an earlier pattern did not see: a
    social security number glued to an e-mail address survives redaction, and so the law that nothing
    is left to find fails for the fallback. *)
Theorem redaction_uncovers_ssn :
  _regex_redact "a@b.co123-45-6789" = "<EMAIL_ADDRESS>123-45-6789" ∧
  regex_entities "a@b.co123-45-6789" = ["EMAIL_ADDRESS"] ∧
  regex_entities (_regex_redact "a@b.co123-45-6789") = ["US_SSN"].
Proof. split_and!; by vm_compute. Qed.

(** The process has one redactor for events: after the first call its argument no longer matters. *)
Lemma get_redactor_once presidio_loads b b' g :
  let '(g1, r1) := get_redactor presidio_loads b g in
  get_redactor presidio_loads b' g1 = (g1, r1).
Proof.
  unfold get_redactor. destruct (_SINGLETON g) as [r|] eqn:E; [by rewrite E|].
  by destruct (new_redactor _ _ _).
Qed.

(** The redactor for logs never uses Presidio. *)
Lemma log_redactor_is_regex {R} (et : R → string) an anon presidio_loads g text :
  (∀ r, _LOG_SINGLETON g = Some r → _force_regex r = true) →
  let '(g', r) := get_log_redactor presidio_loads g in
  redact_text et an anon g' r text = Ok (if str_truthy text then _regex_redact text else text) ∧
  _LOG_SINGLETON g' = Some r ∧ _force_regex r = true.
Proof.
  intros Hg. unfold get_log_redactor. destruct (_LOG_SINGLETON g) as [r|] eqn:E; simpl.
  - unfold redact_text, backend_presidio. rewrite (Hg r) by done. by destruct (str_truthy text).
  - unfold redact_text, backend_presidio. simpl. by destruct (str_truthy text).
Qed.

(** ** Detection over a value

    Once the process has its redactor, detection reads the globals without changing them. *)

Fixpoint texts (v : json) : list string :=
  match v with
  | JStr s => [s]
  | JObj m => concat (map (λ kv, texts kv.2) m)
  | JArr l => concat (map texts l)
  | _ => []
  end.

Definition nonempty_entities (ent : string → list string) (s : string) : list string :=
  if str_truthy s then ent s else [].

Definition value_entities (ent : string → list string) (v : json) : list string :=
  sorted_set (concat (map (nonempty_entities ent) (texts v))).

Section settled.
Context {R : Type} (entity_type : R → string) (presidio_loads : bool)
        (analyze : string → result PyExn (list R)).

Notation found g r := (concat (A := string) ∘ map (nonempty_entities (entities_with entity_type analyze g r))).

Lemma walk_settled g r v es :
  _SINGLETON g = Some r →
  _walk entity_type presidio_loads analyze v (g, es) = (g, es ++ found g r (texts v)).
Proof.
  intros Hg. revert es.
  induction v as [|b|z|lex|s|l IH|m IH] using json_ind; intros es; simpl; rewrite ?app_nil_r; try done.
  - unfold detect_entities, nonempty_entities. destruct (str_truthy s); simpl; [|done].
    unfold get_redactor. by rewrite Hg.
  - revert es. induction IH as [|v l Hv _ IHl]; intros es; simpl; [by rewrite app_nil_r|].
    by rewrite Hv, IHl, map_app, concat_app, app_assoc.
  - revert es. induction IH as [|v l Hv _ IHl]; intros es; simpl; [by rewrite app_nil_r|].
    by rewrite Hv, IHl, map_app, concat_app, app_assoc.
Qed.

Lemma detect_in_value_settled g r v :
  _SINGLETON g = Some r →
  detect_entities_in_value entity_type presidio_loads analyze v g =
    (g, value_entities (entities_with entity_type analyze g r) v).
Proof.
  intros Hg. unfold detect_entities_in_value. by rewrite (walk_settled g r v [] Hg).
Qed.
End settled.

Lemma elem_of_value_entities ent v e :
  e ∈ value_entities ent v ↔ ∃ s, s ∈ texts v ∧ s ≠ "" ∧ e ∈ ent s.
Proof.
  unfold value_entities. rewrite elem_of_sorted_set, elem_of_concat_map. unfold nonempty_entities.
  split; intros (s & Hs & He); exists s.
  - destruct (str_truthy s) eqn:Et; [|by apply elem_of_nil in He]. by apply str_truthy_spec in Et.
  - destruct He as [Hne He]. apply str_truthy_spec in Hne. by rewrite Hne.
Qed.

(** ** Witness *)

Lemma stored_payload_has_no_secret_witness :
  let p := [("intent", JStr "mail a@b.test"); ("plan_steps", JArr [JStr "look up"; JStr "done"])] in
  let stored := (_redact_payload _regex_redact regex_entities true p).1 in
  "mail <EMAIL_ADDRESS>" ∈ free_texts (JObj stored) None ∧
  re_search email_pattern "mail <EMAIL_ADDRESS>" = false ∧
  at_path (JObj stored) [inl "plan_steps"; inr 1%nat] = Some (JStr "done").
Proof.
  intros p stored.
  assert ("mail <EMAIL_ADDRESS>" ∈ free_texts (JObj stored) None) as H by by_decision.
  destruct (stored_payload_has_no_secret p) as [Hc Hk]. split; [exact H|].
  split; [exact (proj2 (Hc _ H))|].
  destruct (Hk "plan_steps" [inr 1%nat] (JStr "done")) as (v' & Hv & Ht); [done|reflexivity|].
  rewrite bool_decide_true, andb_false_r in Ht by by vm_compute. subst v'. exact Hv.
Defined.
