(* ===== verification/Scanner.v ===== *)
(** * The scanner for personal data at rest

    Models [auditor/scanner/memory_log_scan.py]: findings per run over the rows of events and of memory
    entries, the verdict and flag of each finding, and the summary of a scan.  Detection is a function
    from values to entity types ([Redact.detect_in_value_settled] gives the process's); whether the
    database takes a row is a parameter, as in the audit pipeline. *)

From Stdlib Require Import ZArith Lia Ascii SpecFloat.
From Stdlib Require String.
From stdpp Require Import base tactics option list strings gmap sets.
From S2P Require Import Prelude PyStr Float64 Regex Json Verdicts Incidents Budget Gate Store Redact.
From S2P Require Import Rules Orchestrator.

Local Open Scope Z_scope.

(** ** Findings *)

Definition _HIGH_SEVERITY_ENTITIES : list string := ["US_SSN"; "CREDIT_CARD"; "PRIVATE_KEY"; "GENERIC_API_KEY"].

Record RunFinding := {
  rf_run_id : uuid;
  rf_tenant_id : uuid;
  counts : list (string * Z);
  event_ids : list uuid;
  memory_hits : Z
}.

Definition new_finding (run_id tenant_id : uuid) : RunFinding :=
  {| rf_run_id := run_id; rf_tenant_id := tenant_id; counts := []; event_ids := []; memory_hits := 0 |}.

Definition total (f : RunFinding) : Z := foldr Z.add 0 (dvalues (counts f)).

Definition entity_types (f : RunFinding) : list string := sorted_set (dkeys (counts f)).

Definition severity_hint (f : RunFinding) : string :=
  if existsb (λ e, bool_decide (e ∈ _HIGH_SEVERITY_ENTITIES)) (dkeys (counts f)) then "high"
  else if 5 <=? total f then "medium"
  else "low".

(** ** The start of the scanned period *)

Definition hour : Z := 3600 * 1000000.
Definition day : Z := 24 * hour.
(** The largest [timedelta] and the first [datetime], in microseconds. *)
Definition timedelta_max_days : Z := 999999999.
Definition datetime_min : Z := -62135596800000000.

(** [fromisoformat] is [datetime.fromisoformat], [None] when it raises. *)
Definition _parse_since (fromisoformat : string → option datetime) (now : datetime) (value : option string)
    : result PyExn (option datetime) :=
  match value with
  | None | Some "" => Ok None
  | Some v =>
      let iso := match fromisoformat v with
                 | Some d => Ok (Some d)
                 | None => raise "ValueError" ("--since must be like '24h', '7d', or an ISO timestamp; got "
                                               +:+ py_repr_str v)
                 end in
      match span_digits (lower (strip v)) with
      | (n, u) =>
          if negb (str_truthy n) || negb (bool_decide (u ∈ ["h"; "d"])) then iso
          else if (4300 <? String.length n)%nat then
            raise "ValueError" "Exceeds the limit (4300 digits) for integer string conversion"
          else
            let delta := digits_Z n * (if String.eqb u "h" then hour else day) in
            if (timedelta_max_days + 1) * day <=? delta then raise "OverflowError" "date value out of range"
            else if now - delta <? datetime_min then raise "OverflowError" "date value out of range"
            else Ok (Some (now - delta))
      end
  end.

(** ** Scanning *)

Record MemoryEntry := {
  me_tenant_id : uuid;
  created_in_run_id : option uuid;
  me_flags : json
}.

Section scan.
Context (detect_entities_in_value : json → list string).

Definition _extract_entities_from_payload (payload : json) : list string :=
  match payload with
  | JObj m => if bool_decide ("_pii_redacted" ∈ dkeys m) then [] else detect_entities_in_value payload
  | _ => detect_entities_in_value payload
  end.

(** [for e in entities: f.counts[e] += 1] *)
Definition add_counts (entities : list string) (c : list (string * Z)) : list (string * Z) :=
  foldl (λ c e, dset e (default 0 (dget e c) + 1) c) c entities.

Definition scan_event (findings : list (uuid * RunFinding)) (row : EventRow) : list (uuid * RunFinding) :=
  match _extract_entities_from_payload (JObj (er_payload row)) with
  | [] => findings
  | entities =>
      let f := default (new_finding (er_run_id row) (er_tenant_id row)) (dget (er_run_id row) findings) in
      dset (er_run_id row)
        {| rf_run_id := rf_run_id f; rf_tenant_id := rf_tenant_id f;
           counts := add_counts entities (counts f);
           event_ids := event_ids f ++ [er_event_id row]; memory_hits := memory_hits f |} findings
  end.

Definition scan_events (tenant_id : uuid) (since : option datetime) (rows : list EventRow)
    : list (uuid * RunFinding) :=
  foldl scan_event []
    (bfilter (λ row, bool_decide (er_tenant_id row = tenant_id)
                     && match since with Some s => s <=? er_ts row | None => true end) rows).

(** [row.flags or {}] *)
Definition scan_memory_entry (findings : list (uuid * RunFinding)) (row : MemoryEntry)
    : list (uuid * RunFinding) :=
  match _extract_entities_from_payload (if py_truthy (me_flags row) then me_flags row else JObj []),
        created_in_run_id row with
  | [], _ | _, None => findings
  | entities, Some run =>
      let f := default (new_finding run (me_tenant_id row)) (dget run findings) in
      dset run
        {| rf_run_id := rf_run_id f; rf_tenant_id := rf_tenant_id f;
           counts := add_counts entities (counts f); event_ids := event_ids f;
           memory_hits := memory_hits f + 1 |} findings
  end.

(** [None]: the table cannot be read. *)
Definition scan_memory (tenant_id : uuid) (rows : option (list MemoryEntry))
    (findings : list (uuid * RunFinding)) : list (uuid * RunFinding) :=
  match rows with
  | None => findings
  | Some rows =>
      foldl scan_memory_entry findings (bfilter (λ row, bool_decide (me_tenant_id row = tenant_id)) rows)
  end.

(** ** Verdicts *)

Section emit.
Context (fresh : string → uuid → uuid) (now : datetime).

Definition breakdown (f : RunFinding) : string :=
  join ", " (map (λ e, e +:+ "x" +:+ dec (default 0 (dget e (counts f)))) (entity_types f)).

Definition _finding_to_verdict (f : RunFinding) : Verdict :=
  let n := Z.of_nat (length (event_ids f)) in
  {| v_verdict_id := fresh "verdict" (rf_run_id f); v_run_id := rf_run_id f; v_tenant_id := rf_tenant_id f;
     v_detector := "pii_at_rest"; v_asi_category := "PII_AT_REST"; v_result := VIOLATION;
     v_confidence := ratio 95 100;
     v_evidence :=
       note ("PII at rest detected across " +:+ dec n +:+ " event(s)"
             +:+ (if memory_hits f =? 0 then "" else " + " +:+ dec (memory_hits f) +:+ " memory entrie(s)")
             +:+ ": " +:+ breakdown f)
       :: map (λ eid, {| ev_event_id := Some eid; ev_reason := "contained PII at rest" |})
            (take 5 (event_ids f));
     v_judge_model := None; v_judge_prompt_v := None;
     v_rubric_scores := Some [("severity", JStr (severity_hint f));
                              ("entity_counts", JObj (map (λ '(e, c), (e, JInt c)) (counts f)));
                              ("events_scanned", JInt n); ("memory_hits", JInt (memory_hits f))];
     v_ts := now |}.

Definition finding_flag (f : RunFinding) : option Flag :=
  aggregate (fresh "flag" (rf_run_id f)) now (rf_run_id f) (rf_tenant_id f) [_finding_to_verdict f].

Context (accepts : VerdictRow → bool).

(** The body of the last loop; a finding that cannot be stored is logged. *)
Definition persist_finding (st : ResultDb * Z) (f : RunFinding) : ResultDb * Z :=
  let '(db, persisted) := st in
  match store_run_result accepts (fresh "incident" (rf_run_id f)) now [_finding_to_verdict f]
          (finding_flag f) db with
  | (db', Ok _) => (db', persisted + 1)
  | (db', Raise _) => (db', persisted)
  end.

Record ScanSummary := {
  events_findings : Z;
  memory_findings : Z;
  runs_flagged : Z;
  verdicts_persisted : Z
}.

Definition run_scan (tenant_id : uuid) (since : option datetime) (rows : list EventRow)
    (memory_rows : option (list MemoryEntry)) (db : ResultDb) : ResultDb * ScanSummary :=
  let before := scan_events tenant_id since rows in
  let findings := scan_memory tenant_id memory_rows before in
  let before_keys := dkeys before in
  let new_keys := bfilter (λ k, negb (bool_decide (k ∈ before_keys))) (dkeys findings) in
  let hit := bfilter (λ k, match dget k findings with Some f => 0 <? memory_hits f | None => false end)
               before_keys in
  let '(db, persisted) := foldl persist_finding (db, 0) (dvalues findings) in
  (db, {| events_findings := Z.of_nat (length before);
          memory_findings := Z.of_nat (length new_keys) + Z.of_nat (length hit);
          runs_flagged := Z.of_nat (length findings);
          verdicts_persisted := persisted |}).
End emit.
End scan.

(** ** The roll-up per run *)

Section rollup.
Context (ent : string → list string).
Notation ents row := (_extract_entities_from_payload (value_entities ent) (JObj (er_payload row))).

Lemma extract_NoDup v : NoDup (_extract_entities_from_payload (value_entities ent) v).
Proof.
  unfold _extract_entities_from_payload, value_entities.
  destruct v; try apply sorted_set_NoDup. case_bool_decide; [constructor|apply sorted_set_NoDup].
Qed.

Lemma add_counts_dget es c e :
  NoDup es → default 0 (dget e (add_counts es c)) = default 0 (dget e c) + (if decide (e ∈ es) then 1 else 0).
Proof.
  intros Hnd. revert c. induction Hnd as [|x es Hx _ IH]; intros c.
  - rewrite decide_False by set_solver. simpl. lia.
  - unfold add_counts in *. cbn [foldl]. rewrite IH, dget_dset.
    destruct (decide (x = e)) as [->|Hne]; simpl.
    + rewrite (decide_False (P := e ∈ es)) by done. rewrite decide_True by left. lia.
    + destruct (decide (e ∈ es)); [rewrite decide_True by (by right)|rewrite decide_False by set_solver]; lia.
Qed.

(** What the findings say of a run after the rows [seen]. *)
Definition rollup_of (seen : list EventRow) (run : uuid) (o : option RunFinding) : Prop :=
  let hits := bfilter (λ row, bool_decide (er_run_id row = run) && negb (bool_decide (ents row = []))) seen in
  match o with
  | None => hits = []
  | Some f => hits ≠ [] ∧ rf_run_id f = run ∧ event_ids f = map er_event_id hits ∧ memory_hits f = 0 ∧
      ∀ e, default 0 (dget e (counts f)) = Z.of_nat (length (bfilter (λ row, bool_decide (e ∈ ents row)) hits))
  end.

Lemma rollup_step seen row run fs :
  rollup_of seen run (dget run fs) →
  rollup_of (seen ++ [row]) run (dget run (scan_event (value_entities ent) fs row)).
Proof.
  unfold scan_event. pose proof (extract_NoDup (JObj (er_payload row))) as Hnd.
  destruct (ents row) as [|x xs] eqn:Ex.
  { unfold rollup_of. rewrite bfilter_app, bfilter_one.
    rewrite (bool_decide_true (ents row = [])), andb_false_r, app_nil_r by done. done. }
  rewrite dget_dset. unfold rollup_of. rewrite bfilter_app, bfilter_one.
  rewrite (bool_decide_false (ents row = [])), andb_true_r by (by rewrite Ex).
  destruct (decide (er_run_id row = run)) as [<-|Hne].
  - rewrite bool_decide_true by done. intros H.
    set (f0 := default _ (dget (er_run_id row) fs)). set (hits := bfilter _ seen) in *.
    assert (rf_run_id f0 = er_run_id row ∧ event_ids f0 = map er_event_id hits ∧ memory_hits f0 = 0 ∧
      ∀ e, default 0 (dget e (counts f0)) =
           Z.of_nat (length (bfilter (λ row, bool_decide (e ∈ ents row)) hits))) as (Hr & He & Hm & Hc).
    { unfold f0. destruct (dget (er_run_id row) fs) as [f|]; [tauto|]. by rewrite H. }
    split_and!; [by destruct hits|done|by rewrite map_app, <-He|done|].
    intros e. etrans; [by apply add_counts_dget|]. rewrite Hc, bfilter_app, length_app, bfilter_one, Ex.
    destruct (decide (e ∈ x :: xs)); [rewrite bool_decide_true by done|rewrite bool_decide_false by done];
      simpl; lia.
  - rewrite bool_decide_false by done. by rewrite app_nil_r.
Qed.

Definition in_scope (tenant_id : uuid) (since : option datetime) (row : EventRow) : bool :=
  bool_decide (er_tenant_id row = tenant_id) && match since with Some s => s <=? er_ts row | None => true end.

(** A scan rolls the events up by run, exactly: a run has a finding when some event of the tenant in
    the period holds personal data the redactor did not mark, the finding lists those events in order,
    and its count of an entity is the number of them that hold it. *)
Theorem scan_rollup_exact tenant_id since rows run :
  rollup_of (bfilter (in_scope tenant_id since) rows) run
    (dget run (scan_events (value_entities ent) tenant_id since rows)) ∧
  NoDup (dkeys (scan_events (value_entities ent) tenant_id since rows)).
Proof.
  unfold scan_events. fold (in_scope tenant_id since). generalize (bfilter (in_scope tenant_id since) rows) as seen.
  intros seen. induction seen as [|row seen [IH1 IH2]] using rev_ind; [by split; [|constructor]|].
  rewrite foldl_snoc. split; [by apply rollup_step|].
  unfold scan_event. destruct (ents row); [done|]. by apply NoDup_dkeys_dset.
Qed.

End rollup.

(** ** Scanning what the event store wrote *)

(** The scanner complements the redactor only under the structural keys.  Of a payload written with
    redaction on, it reports something exactly when the redactor found nothing in the free text and a
    text under a structural key (which the redactor does not look at) holds an entity; a payload with a
    redaction mark is never reported, whatever is left in it. *)
Theorem scan_sees_only_structural (redact : string → string) (ent : string → list string) p :
  "_pii_redacted" ∉ dkeys p →
  (_extract_entities_from_payload (value_entities ent) (JObj (_redact_payload redact ent true p).1) ≠ [] ↔
   (∀ s, s ∈ free_texts (JObj p) None → ent s = []) ∧
   ∃ s, s ∈ texts (JObj p) ∧ s ∉ free_texts (JObj p) None ∧ s ≠ "" ∧ ent s ≠ []).
Proof.
  intros Hk. unfold _redact_payload. cbv zeta. simpl negb.
  destruct (bool_decide (p = [])) eqn:Hp.
  { apply bool_decide_eq_true in Hp as ->. simpl. split; [done|]. intros (_ & s & Hs & _). by apply elem_of_nil in Hs. }
  simpl orb. cbv iota. destruct (bool_decide (_detect_entities_skipping_structural _ _ _ = [])) eqn:He; cbn [fst].
  - apply bool_decide_eq_true in He. cbn [_extract_entities_from_payload].
    rewrite bool_decide_false by done.
    assert (∀ s, s ∈ free_texts (JObj p) None → ent s = []) as Hfree by (intros; by eapply detect_free_texts).
    split.
    + intros Hne. split; [done|].
      destruct (value_entities ent (JObj p)) as [|e es] eqn:Ev; [done|].
      assert (e ∈ value_entities ent (JObj p)) as (s & Hs & Hs' & Hes)%elem_of_value_entities by (rewrite Ev; left).
      exists s. split_and!; [done| |done|intros E; rewrite E in Hes; by apply elem_of_nil in Hes].
      intros Hf%Hfree. rewrite Hf in Hes. by apply elem_of_nil in Hes.
    + intros (_ & s & Hs & _ & Hs' & Hes) Hn. destruct (ent s) as [|e es] eqn:E; [done|].
      assert (e ∈ value_entities ent (JObj p)) as Hin.
      { apply elem_of_value_entities. exists s. rewrite E. split_and!; [done..|left]. }
      rewrite Hn in Hin. by apply elem_of_nil in Hin.
  - apply bool_decide_eq_false in He. cbn [_extract_entities_from_payload].
    rewrite bool_decide_true by (rewrite dkeys_dset; case_decide; set_solver).
    split; [done|]. intros [Hfree _]. by apply free_texts_detect in Hfree.
Qed.

(** ** What a scan stores *)

#[local] Arguments finding_flag : simpl never.
#[local] Arguments _finding_to_verdict : simpl never.

Section effects.
Context (fresh : string → uuid → uuid) (now : datetime) (accepts : VerdictRow → bool).
Notation verdict_of := (_finding_to_verdict fresh now).
Notation storable f := (accepts (verdict_row (verdict_of f))).

Definition hint_severity (f : RunFinding) : Severity := default LOW (Severity_of_value (severity_hint f)).

Lemma hint_cases f : severity_hint f = "high" ∨ severity_hint f = "medium" ∨ severity_hint f = "low".
Proof. unfold severity_hint. destruct (existsb _ _); [by left|]. destruct (5 <=? _); auto. Qed.

Lemma finding_flag_Some f :
  ∃ fl, finding_flag fresh now f = Some fl ∧ f_severity fl = hint_severity f ∧
        f_run_id fl = rf_run_id f ∧ f_tenant_id fl = rf_tenant_id f.
Proof.
  apply aggregate_uniform; [done|]. intros v ->%list_elem_of_singleton.
  unfold classify, hint_severity, _finding_to_verdict. cbn. by destruct (hint_cases f) as [->|[->| ->]].
Qed.

Lemma persist_all fs db k :
  foldl (persist_finding fresh now accepts) (db, k) fs =
  let ok := bfilter (λ f, storable f) fs in
  ({| verdict_rows := verdict_rows db ++ map (λ f, verdict_row (verdict_of f)) ok;
      flag_rows := flag_rows db ++ map flag_row (omap (finding_flag fresh now) ok);
      incident_rows := incident_rows db ++
        omap (λ f, finding_flag fresh now f ≫= incident_of (fresh "incident" (rf_run_id f)) now) ok;
      sampler_rows := sampler_rows db |}, k + Z.of_nat (length ok)).
Proof.
  revert db k. induction fs as [|f fs IH]; intros db k.
  { cbn. rewrite !app_nil_r, Z.add_0_r. by destruct db. }
  cbn [foldl persist_finding]. unfold store_run_result. cbn [map forallb].
  rewrite andb_true_r, bfilter_cons. destruct (storable f) eqn:Ea; [|apply IH].
  rewrite IH. destruct (finding_flag_Some f) as (fl & Hf & _). rewrite Hf. cbn. rewrite Hf. cbn.
  rewrite <-!app_assoc. cbn. f_equal; [|lia]. f_equal. f_equal.
  by destruct (incident_of _ _ _).
Qed.

Context (detect : json → list string).

(** A run whose finding has hits in the memory entries. *)
Definition memory_hit (findings : list (uuid * RunFinding)) (k : uuid) : bool :=
  match dget k findings with Some f => 0 <? memory_hits f | None => false end.

(** The runs only the memory entries bring come after the others, each with a hit. *)
Definition extends (before findings : list (uuid * RunFinding)) : Prop :=
  NoDup (dkeys findings) ∧ (∀ k f, dget k findings = Some f → 0 <= memory_hits f) ∧
  ∃ fresh_keys, dkeys findings = dkeys before ++ fresh_keys ∧ ∀ k, k ∈ fresh_keys → memory_hit findings k = true.

Lemma extends_entry before findings row :
  extends before findings → extends before (scan_memory_entry detect findings row).
Proof.
  intros (Hnd & Hpos & ks & Hk & Hh). unfold scan_memory_entry.
  destruct (_extract_entities_from_payload _ _) as [|e es]; [by split_and!; eauto|].
  destruct (created_in_run_id row) as [run|]; [|by split_and!; eauto].
  set (f0 := default _ (dget run findings)).
  assert (0 <= memory_hits f0) as H0.
  { unfold f0. destruct (dget run findings) eqn:E; [by eapply Hpos|done]. }
  assert (∀ g k, memory_hit (dset run g findings) k = if decide (run = k) then 0 <? memory_hits g else memory_hit findings k) as Hm.
  { intros g k. unfold memory_hit. rewrite dget_dset. by case_decide. }
  split_and!; [by apply NoDup_dkeys_dset| |].
  - intros k f. rewrite dget_dset. case_decide; [|apply Hpos]. intros [= <-]. cbn. lia.
  - rewrite dkeys_dset. case_decide as Hin.
    + exists ks. split; [done|]. intros k Hks. rewrite Hm. case_decide; [|by apply Hh].
      cbn. apply Z.ltb_lt. lia.
    + exists (ks ++ [run]). rewrite Hk, app_assoc. split; [done|]. intros k Hks. rewrite Hm.
      case_decide; [cbn; apply Z.ltb_lt; lia|]. apply Hh. set_solver.
Qed.

Lemma extends_memory before tenant_id rows :
  NoDup (dkeys before) → (∀ k f, dget k before = Some f → 0 <= memory_hits f) →
  extends before (scan_memory detect tenant_id rows before).
Proof.
  intros Hnd Hpos. assert (extends before before) as H0.
  { split_and!; [done..|]. exists []. rewrite app_nil_r. split; [done|]. intros k ?%elem_of_nil. done. }
  unfold scan_memory. destruct rows as [rows|]; [|done].
  generalize (bfilter (λ row, bool_decide (me_tenant_id row = tenant_id)) rows) as l.
  intros l. induction l as [|row l IH] using rev_ind; [done|]. rewrite foldl_snoc. by apply extends_entry.
Qed.

Lemma events_no_memory tenant_id since rows :
  let before := scan_events detect tenant_id since rows in
  NoDup (dkeys before) ∧ ∀ k f, dget k before = Some f → 0 <= memory_hits f.
Proof.
  cbv zeta. unfold scan_events. generalize (bfilter (λ row, bool_decide (er_tenant_id row = tenant_id)
    && match since with Some s => s <=? er_ts row | None => true end) rows) as l.
  intros l. induction l as [|row l [IH1 IH2]] using rev_ind; [by split; [constructor|]|].
  rewrite foldl_snoc. unfold scan_event at 1 3. destruct (_extract_entities_from_payload _ _); [done|].
  split; [by apply NoDup_dkeys_dset|]. intros k f. rewrite dget_dset. case_decide; [|apply IH2].
  intros [= <-]. cbn. destruct (dget (er_run_id row) _) eqn:E; [by eapply IH2|done].
Qed.

(** A scan stores, for every finding the database takes and in order, one verdict and one flag of the
    finding's severity (high when a statutory or credential entity is among those found, else medium from
    five occurrences on, else low), and opens an incident for the high ones; a finding it does not take
    stops nothing.  The summary counts the findings, those with a hit in the memory entries, and those
    stored. *)
Theorem run_scan_exact tenant_id since rows memory_rows db db' s :
  run_scan detect fresh now accepts tenant_id since rows memory_rows db = (db', s) →
  let findings := scan_memory detect tenant_id memory_rows (scan_events detect tenant_id since rows) in
  let ok := bfilter (λ f, storable f) (dvalues findings) in
  verdict_rows db' = verdict_rows db ++ map (λ f, verdict_row (verdict_of f)) ok ∧
  (∃ flags, flag_rows db' = flag_rows db ++ map flag_row flags ∧
     Forall2 (λ f fl, f_run_id fl = rf_run_id f ∧ f_severity fl = hint_severity f) ok flags) ∧
  (∃ incidents, incident_rows db' = incident_rows db ++ incidents ∧
     length incidents = length (bfilter (λ f, bool_decide (hint_severity f = HIGH)) ok)) ∧
  runs_flagged s = Z.of_nat (length findings) ∧ verdicts_persisted s = Z.of_nat (length ok) ∧
  memory_findings s = Z.of_nat (length (bfilter (memory_hit findings) (dkeys findings))).
Proof.
  unfold run_scan. rewrite persist_all. cbv zeta. intros [= <- <-].
  set (findings := scan_memory _ _ _ _). set (ok := bfilter _ (dvalues findings)).
  cbn [verdict_rows flag_rows incident_rows runs_flagged verdicts_persisted memory_findings].
  split_and!; [done| | |done|lia|].
  - exists (omap (finding_flag fresh now) ok). split; [done|]. clear. induction ok as [|f ok IH]; [constructor|].
    destruct (finding_flag_Some f) as (fl & Hf & ? & ? & _). rewrite omap_cons, Hf. by constructor.
  - exists (omap (λ f, finding_flag fresh now f ≫= incident_of (fresh "incident" (rf_run_id f)) now) ok).
    split; [done|]. clear. induction ok as [|f ok IH]; [done|].
    rewrite bfilter_cons, omap_cons. cbv beta. destruct (finding_flag_Some f) as (fl & -> & Hs & _).
    pose proof (incident_of_severity (fresh "incident" (rf_run_id f)) now fl) as Hi. rewrite Hs in Hi.
    cbn [mbind option_bind]. destruct (incident_of _ now fl) eqn:E; case_bool_decide as Hh; cbn [length]; try lia.
    + exfalso. assert (hint_severity f = HIGH ∨ hint_severity f = CRITICAL) as [|Hc] by (by apply Hi); [done|].
      unfold hint_severity in Hc. by destruct (hint_cases f) as [Ef|[Ef|Ef]]; rewrite Ef in Hc.
    + exfalso. rewrite Hh in Hi. by destruct (proj2 Hi (or_introl eq_refl)).
  - destruct (events_no_memory tenant_id since rows) as [H1 H2].
    destruct (extends_memory (scan_events detect tenant_id since rows) tenant_id memory_rows H1 H2)
      as (Hnd & _ & ks & Hk & Hh). fold findings in Hnd, Hk, Hh.
    rewrite Hk, !bfilter_app, !length_app, !Nat2Z.inj_add.
    assert (∀ k, k ∈ ks → k ∉ dkeys (scan_events detect tenant_id since rows)) as Hdis.
    { rewrite Hk in Hnd. apply NoDup_app in Hnd as (_ & Hd & _). intros k Hks Hb. by apply (Hd k). }
    assert (bfilter (memory_hit findings) ks = ks) as -> by (by apply bfilter_all).
    assert (bfilter (λ k, negb (bool_decide (k ∈ dkeys (scan_events detect tenant_id since rows)))) ks = ks) as -> by (apply bfilter_all; intros k ?%Hdis; by rewrite bool_decide_false).
    rewrite (proj2 (bfilter_nil _ _)); [fold (memory_hit findings); simpl; lia|].
    intros k Hkb. by rewrite bool_decide_true.
Qed.
End effects.

(** ** Witnesses *)

Lemma scan_sees_only_structural_witness :
  let p := [("model", JStr "a@b.test")] in
  _extract_entities_from_payload (value_entities regex_entities)
    (JObj (_redact_payload _regex_redact regex_entities true p).1) ≠ [] ∧
  _extract_entities_from_payload (value_entities regex_entities)
    (JObj (_redact_payload _regex_redact regex_entities true p).1) = ["EMAIL_ADDRESS"].
Proof.
  cbv zeta. split; [|by vm_compute].
  assert ("_pii_redacted" ∉ dkeys [("model", JStr "a@b.test")]) as Hk by by_decision.
  apply (scan_sees_only_structural _regex_redact regex_entities _ Hk). split.
  - intros s Hs. vm_compute in Hs. inversion Hs.
  - exists "a@b.test". split_and!; by_decision.
Defined.

Definition stored_row (id run : uuid) (p : list (string * json)) : EventRow :=
  {| er_event_id := id; er_run_id := run; er_tenant_id := "t"; er_span_id := id; er_parent_span_id := None;
     er_channel := "VOLUNTARY"; er_event_type := "tool_call.start"; er_ts := 1; er_pid := None;
     er_payload := p; er_payload_hash := "" |}.

Definition sample_rows : list EventRow :=
  [stored_row "e1" "r1" [("intent", JStr "ssn 123-45-6789")]; stored_row "e2" "r2" [("intent", JStr "hello")];
   stored_row "e3" "r1" [("intent", JStr "a@b.test")]].

Definition sample_scan : ResultDb * ScanSummary :=
  run_scan (value_entities regex_entities) (λ kind run, kind +:+ run) 7 (λ _, true) "t" None sample_rows
    None empty_db.

Lemma run_scan_exact_witness :
  map fr_severity (flag_rows sample_scan.1) = ["high"] ∧
  verdict_rows sample_scan.1 = verdict_rows empty_db ++
    map (λ f, verdict_row (_finding_to_verdict (λ kind run, kind +:+ run) 7 f))
      (bfilter (λ f, true) (dvalues (scan_events (value_entities regex_entities) "t" None sample_rows))).
Proof.
  split; [by vm_compute|].
  assert (run_scan (value_entities regex_entities) (λ kind run, kind +:+ run) 7 (λ _, true) "t" None
            sample_rows None empty_db = (sample_scan.1, sample_scan.2)) as H.
  { unfold sample_scan. by destruct (run_scan _ _ _ _ _ _ _ _ _). }
  pose proof (run_scan_exact (λ kind run, kind +:+ run) 7 (λ _, true) (value_entities regex_entities) "t" None
    sample_rows None empty_db _ _ H) as H'.
  cbv zeta in H'. destruct H' as [Hv _]. exact Hv.
Defined.
