(* ===== verification/ReviewApi.v ===== *)
(** * The reviewer's API

    Models [auditor/api/hitl_routes.py] over a database whose rows are filtered by the row-level security
    of [auditor/db/tenancy.py] and [db/migrations/versions/0002_rls_policies.py]: the listing of flags,
    flag and run details, the paginated events of a run, the submission of a decision with its audit
    entry and its enforcement, and the broadcaster behind the live channel.  How the driver and the
    server read the text of a UUID are parameters, and so is the enforcer. *)

From Stdlib Require Import ZArith Lia Ascii.
From Stdlib Require String.
From stdpp Require Import base tactics option list strings gmap sets relations sorting.
From S2P Require Import Prelude PyStr Float64 Sha256 Json AuditChain ApiAuth Incidents Events Budget Gate.
From S2P Require Import Store.

Local Open Scope Z_scope.

(** ** Tables *)

Record FlagRecord := {
  rf_flag_id : uuid;
  rf_run_id : uuid;
  rf_tenant_id : uuid;
  rf_severity : string;
  rf_asi_categories : list string;
  rf_status : string;
  rf_created_at : datetime;
  rf_resolved_at : option datetime;
  rf_resolution : option string
}.

Record HitlDecision := {
  hd_hitl_id : uuid;
  hd_flag_id : uuid;
  hd_reviewer_id : uuid;
  hd_decision : string;
  hd_rationale : option string;
  hd_ts : datetime
}.

Record ReviewDb := {
  rd_flags : list FlagRecord;
  rd_runs : list Run;
  rd_events : list EventRow;
  rd_decisions : list HitlDecision;
  rd_users : list uuid
}.

Section api.
(** The token secret; the driver's and the server's reading of a UUID. *)
Context (jwt_secret : string) (bind_uuid pg_uuid : string → option uuid).

Definition db_exn {A} : result http_exn A := Raise (ServerError "DBAPIError").

(** ** Row-level security

    The policy on every table with a tenant: [current_setting('app.tenant_id') = ''] or the tenant of the
    row is the setting's.  The setting is only read as a UUID when there is a row to compare. *)
Definition scoped {A} (tenant_of : A → uuid) (setting : string) (rows : list A) : result http_exn (list A) :=
  if String.eqb setting "" then Ok rows
  else match rows with
       | [] => Ok []
       | _ => match pg_uuid setting with
              | Some t => Ok (bfilter (λ r, String.eqb (tenant_of r) t) rows)
              | None => db_exn
              end
       end.

(** [str(claims["tenant_id"])] *)
Definition tenant_setting (claims : list (string * json)) : result http_exn string :=
  match dget "tenant_id" claims with
  | Some v => Ok (py_str v)
  | None => Raise (ServerError "KeyError")
  end.

(** A parameter bound to a UUID column. *)
Definition bound (s : string) : result http_exn uuid :=
  match bind_uuid s with Some u => Ok u | None => db_exn end.

(** ** Queries *)

Definition _get_flags (status_filter severity_filter tenant_id_filter : option string)
    (flags : list FlagRecord) : result http_exn (list FlagRecord) :=
  let q := filter_opt rf_severity severity_filter (filter_opt rf_status status_filter flags) in
  let! q := if ostr_truthy tenant_id_filter
            then let! t := bound (default "" tenant_id_filter) in
                 Ok (bfilter (λ f, String.eqb (rf_tenant_id f) t) q)
            else Ok q in
  Ok (order_by (λ f, - rf_created_at f) q).

Definition _get_flag (flag_id : string) (flags : list FlagRecord) : result http_exn (option FlagRecord) :=
  let! u := bound flag_id in Ok (head (bfilter (λ f, String.eqb (rf_flag_id f) u) flags)).

Definition _get_run (run_id' : string) (rs : list Run) : result http_exn (option Run) :=
  let! u := bound run_id' in Ok (head (bfilter (λ r, String.eqb (run_id r) u) rs)).

Definition _get_run_events (run_id' : string) (since : option datetime) (limit : nat)
    (rows : list EventRow) : result http_exn (list EventRow) :=
  let! u := bound run_id' in
  let q := bfilter (λ e, String.eqb (er_run_id e) u) rows in
  let q := match since with Some s => bfilter (λ e, s <? er_ts e) q | None => q end in
  Ok (take limit (order_by er_ts q)).

(** ** Reading routes *)

Definition list_flags (db : ReviewDb) (now_s : Z) (bearer session status severity tenant_id : option string)
    : result http_exn (list FlagRecord) :=
  let! claims := get_current_user jwt_secret now_s bearer session in
  let! setting := tenant_setting claims in
  let! flags := scoped rf_tenant_id setting (rd_flags db) in
  _get_flags status severity tenant_id flags.

Definition get_flag_detail (db : ReviewDb) (now_s : Z) (bearer session : option string) (flag_id : string)
    : result http_exn (FlagRecord * list EventRow) :=
  let! claims := get_current_user jwt_secret now_s bearer session in
  let! setting := tenant_setting claims in
  let! flags := scoped rf_tenant_id setting (rd_flags db) in
  let! flag := _get_flag flag_id flags in
  match flag with
  | None => Raise (HTTPException 404)
  | Some f =>
      let! rows := scoped er_tenant_id setting (rd_events db) in
      let! events := _get_run_events (rf_run_id f) None 500 rows in
      Ok (f, events)
  end.

Definition get_run (db : ReviewDb) (now_s : Z) (bearer session : option string) (run_id' : string)
    : result http_exn Run :=
  let! claims := get_current_user jwt_secret now_s bearer session in
  let! setting := tenant_setting claims in
  let! rs := scoped run_tenant_id setting (rd_runs db) in
  let! run := _get_run run_id' rs in
  match run with Some r => Ok r | None => Raise (HTTPException 404) end.

(** The bounds on [limit] are the route's. *)
Definition get_run_events (db : ReviewDb) (now_s : Z) (bearer session : option string) (run_id' : string)
    (since : option datetime) (limit : Z) : result http_exn (list EventRow) :=
  let! claims := get_current_user jwt_secret now_s bearer session in
  if negb ((1 <=? limit) && (limit <=? 10000)) then Raise (HTTPException 422)
  else
    let! setting := tenant_setting claims in
    let! rs := scoped run_tenant_id setting (rd_runs db) in
    let! run := _get_run run_id' rs in
    match run with
    | None => Raise (HTTPException 404)
    | Some _ => let! rows := scoped er_tenant_id setting (rd_events db) in
                _get_run_events run_id' since (Z.to_nat limit) rows
    end.

(** ** Submitting a decision *)

Context {E : Type} (resume abort : uuid → E → E * result PyExn ()).

Record Enforcement := { en_action : string; en_ok : option bool; en_error : option string }.

Definition _apply_enforcement (decision : string) (run_id' : uuid) (e : E) : E * Enforcement :=
  let report (action : string) (r : E * result PyExn ()) :=
    (r.1, match r.2 with
          | Ok _ => {| en_action := action; en_ok := Some true; en_error := None |}
          | Raise exc => {| en_action := action; en_ok := Some false; en_error := Some (exn_class exc) |}
          end) in
  if String.eqb decision "continue" then report "resume" (resume run_id' e)
  else if bool_decide (decision ∈ ["abort"; "quarantine"]) then report "abort" (abort run_id' e)
  else (e, {| en_action := "none"; en_ok := None; en_error := None |}).

Definition allowed_decisions : list string := ["continue"; "abort"; "quarantine"].

Definition _RESOLUTION_FOR (decision : string) : string :=
  if String.eqb decision "continue" then "allowed"
  else if String.eqb decision "abort" then "aborted"
  else if String.eqb decision "quarantine" then "quarantined"
  else decision.

Definition resolve_flag (decision : string) (now : datetime) (f : FlagRecord) : FlagRecord :=
  {| rf_flag_id := rf_flag_id f; rf_run_id := rf_run_id f; rf_tenant_id := rf_tenant_id f;
     rf_severity := rf_severity f; rf_asi_categories := rf_asi_categories f; rf_status := "resolved";
     rf_created_at := rf_created_at f; rf_resolved_at := Some now;
     rf_resolution := Some (_RESOLUTION_FOR decision) |}.

(** The audit entry; [None] when building it raises. *)
Definition decision_audit (tenant_id_str reviewer_id flag_id decision : string) (rationale : option string)
    : option AppendReq :=
  tenant ← parse_uuid tenant_id_str;
  Some {| rq_tenant_id := tenant; rq_actor_type := "user"; rq_action := "hitl_decision";
          rq_actor_id := parse_uuid reviewer_id; rq_target_type := Some "flag";
          rq_target_id := parse_uuid flag_id;
          rq_payload := Some [("decision", JStr decision); ("rationale", jopt rationale);
                              ("flag_id", JStr flag_id)];
          rq_blob_uri := None |}.

(** The state after the request, the audit entry it appends if any, and its answer. *)
Definition submit_decision (db : ReviewDb) (e : E) (now_s : Z) (now : datetime) (fresh : uuid)
    (bearer session : option string) (flag_id decision : string) (rationale : option string)
    : ReviewDb * E * option AppendReq * result http_exn (HitlDecision * Enforcement) :=
  let outcome :=
    let! claims := require_role jwt_secret ["admin"; "reviewer"] now_s bearer session in
    if negb (bool_decide (decision ∈ allowed_decisions)) then Raise (HTTPException 422)
    else
      let! setting := tenant_setting claims in
      let! flags := scoped rf_tenant_id setting (rd_flags db) in
      let! flag := _get_flag flag_id flags in
      match flag with
      | None => Raise (HTTPException 404)
      | Some f =>
          let reviewer_id := match dget "sub" claims with Some v => py_str v | None => "unknown" end in
          let! reviewer := bound reviewer_id in
          if negb (bool_decide (reviewer ∈ rd_users db)) then db_exn
          else Ok (setting, f, reviewer_id,
                   {| hd_hitl_id := fresh; hd_flag_id := rf_flag_id f; hd_reviewer_id := reviewer;
                      hd_decision := decision; hd_rationale := rationale; hd_ts := now |})
      end in
  match outcome with
  | Raise x => (db, e, None, Raise x)
  | Ok (setting, f, reviewer_id, row) =>
      let db' := {| rd_flags := map (λ g, if String.eqb (rf_flag_id g) (rf_flag_id f)
                                          then resolve_flag decision now g else g) (rd_flags db);
                    rd_runs := rd_runs db; rd_events := rd_events db;
                    rd_decisions := rd_decisions db ++ [row]; rd_users := rd_users db |} in
      let '(e', enforcement) := _apply_enforcement decision (rf_run_id f) e in
      (db', e', decision_audit setting reviewer_id flag_id decision rationale, Ok (row, enforcement))
  end.
End api.

(** ** The live channel ([FlagBroadcaster]) *)

Record FlagBroadcaster := {
  _subscribers : gmap string (gset nat);
  queues : gmap nat (list (list (string * json)))
}.

Definition new_broadcaster : FlagBroadcaster := {| _subscribers := ∅; queues := ∅ |}.

Definition queue_maxsize : nat := 100.

(** [q] is the identity of the new queue. *)
Definition subscribe (tenant_id : string) (q : nat) (b : FlagBroadcaster) : FlagBroadcaster :=
  {| _subscribers := <[tenant_id := {[q]} ∪ default ∅ (_subscribers b !! tenant_id)]> (_subscribers b);
     queues := <[q := []]> (queues b) |}.

Definition unsubscribe (tenant_id : string) (q : nat) (b : FlagBroadcaster) : FlagBroadcaster :=
  match _subscribers b !! tenant_id with
  | Some bucket => {| _subscribers := <[tenant_id := bucket ∖ {[q]}]> (_subscribers b); queues := queues b |}
  | None => b
  end.

Definition put_nowait (flag : list (string * json)) (l : list (list (string * json)))
    : list (list (string * json)) :=
  if (length l <? queue_maxsize)%nat then l ++ [flag] else l.

Definition flag_tenant (flag : list (string * json)) : string :=
  match dget "tenant_id" flag with Some v => py_str v | None => "" end.

Definition publish (flag : list (string * json)) (b : FlagBroadcaster) : FlagBroadcaster :=
  let bucket := default ∅ (_subscribers b !! flag_tenant flag) in
  {| _subscribers := _subscribers b;
     queues := map_imap (λ q l, Some (if bool_decide (q ∈ bucket) then put_nowait flag l else l)) (queues b) |}.

(** [q.get()]: the oldest waiting flag, if any. *)
Definition get (q : nat) (b : FlagBroadcaster) : FlagBroadcaster * option (list (string * json)) :=
  match queues b !! q with
  | Some (flag :: rest) => ({| _subscribers := _subscribers b; queues := <[q := rest]> (queues b) |}, Some flag)
  | _ => (b, None)
  end.

(** ** Tenants are kept apart *)

Lemma order_by_perm {A} (key : A → Z) l : order_by key l ≡ₚ l.
Proof.
  assert (∀ y l, insert_key_asc key y l ≡ₚ y :: l) as Hi.
  { intros y k. induction k as [|z k IH]; simpl; [done|]. case_bool; [done|].
    rewrite IH. apply Permutation_swap. }
  induction l as [|y l IH]; [done|]. simpl. rewrite Hi. by constructor.
Qed.

Lemma elem_of_order_by {A} (key : A → Z) l x : x ∈ order_by key l ↔ x ∈ l.
Proof. by rewrite order_by_perm. Qed.

Section isolation.
Context (jwt_secret : string) (bind_uuid pg_uuid : string → option uuid).

Lemma scoped_ok {A} (tenant_of : A → uuid) t rows l :
  scoped pg_uuid tenant_of t rows = Ok l → t ≠ "" →
  ∀ x, x ∈ l → pg_uuid t = Some (tenant_of x) ∧ x ∈ rows.
Proof.
  unfold scoped. intros H Ht. rewrite (proj2 (String.eqb_neq t "") Ht) in H.
  destruct rows as [|r rows]; [injection H as <-; by intros x ?%elem_of_nil|].
  destruct (pg_uuid t) as [u|]; [|done]. injection H as <-.
  intros x [->%String.eqb_eq Hx]%elem_of_bfilter. done.
Qed.

Lemma elem_of_filter_opt {A} (f : A → string) v l x : x ∈ filter_opt f v l → x ∈ l.
Proof. unfold filter_opt. destruct (ostr_truthy v); [|done]. by intros [_ ?]%elem_of_bfilter. Qed.

Lemma get_flags_sub st sev ten flags l f : _get_flags bind_uuid st sev ten flags = Ok l → f ∈ l → f ∈ flags.
Proof.
  unfold _get_flags. intros (q & Hq & [= <-])%result_bind_ok Hf%elem_of_order_by.
  destruct (ostr_truthy ten).
  - apply result_bind_ok in Hq as (t & _ & [= <-]). apply elem_of_bfilter in Hf as [_ Hf].
    by apply elem_of_filter_opt, elem_of_filter_opt in Hf.
  - injection Hq as <-. by apply elem_of_filter_opt, elem_of_filter_opt in Hf.
Qed.

Lemma head_in {A} (l : list A) x : head l = Some x → x ∈ l.
Proof. destruct l; simpl; [done|]. intros [= ->]. left. Qed.

Lemma get_flag_in flag_id flags f :
  _get_flag bind_uuid flag_id flags = Ok (Some f) → f ∈ flags ∧ bind_uuid flag_id = Some (rf_flag_id f).
Proof.
  unfold _get_flag, bound. destruct (bind_uuid flag_id) as [u|]; [|done].
  intros [= Hh]. apply head_in, elem_of_bfilter in Hh as [->%String.eqb_eq Hf]. done.
Qed.

Lemma get_events_in run since limit rows l e :
  _get_run_events bind_uuid run since limit rows = Ok l → e ∈ l → e ∈ rows ∧ bind_uuid run = Some (er_run_id e).
Proof.
  unfold _get_run_events, bound. destruct (bind_uuid run) as [u|]; [|done]. intros [= <-] He.
  apply elem_of_take in He as (i & He & _). apply list_elem_of_lookup_2, elem_of_order_by in He.
  destruct since; [apply elem_of_bfilter in He as [_ He]|];
    by apply elem_of_bfilter in He as [->%String.eqb_eq ?].
Qed.

(** C19: What the reading routes answer belongs to the caller: for a token whose tenant is a non-empty
    text, every flag listed, the flag and every event of a detail page, the run, and every event of a
    run's page is a row of the database whose tenant is the one the token names. *)
Theorem reads_stay_in_tenant db now_s bearer session claims t :
  get_current_user jwt_secret now_s bearer session = Ok claims →
  dget "tenant_id" claims = Some (JStr t) → t ≠ "" →
  (∀ st sev ten flags f, list_flags jwt_secret bind_uuid pg_uuid db now_s bearer session st sev ten = Ok flags →
     f ∈ flags → pg_uuid t = Some (rf_tenant_id f) ∧ f ∈ rd_flags db) ∧
  (∀ id f evs, get_flag_detail jwt_secret bind_uuid pg_uuid db now_s bearer session id = Ok (f, evs) →
     (pg_uuid t = Some (rf_tenant_id f) ∧ f ∈ rd_flags db) ∧
     ∀ e, e ∈ evs → pg_uuid t = Some (er_tenant_id e) ∧ e ∈ rd_events db) ∧
  (∀ id r, get_run jwt_secret bind_uuid pg_uuid db now_s bearer session id = Ok r →
     pg_uuid t = Some (run_tenant_id r) ∧ r ∈ rd_runs db) ∧
  (∀ id since limit evs e, get_run_events jwt_secret bind_uuid pg_uuid db now_s bearer session id since limit = Ok evs →
     e ∈ evs → pg_uuid t = Some (er_tenant_id e) ∧ e ∈ rd_events db).
Proof.
  intros Hu Ht Hne.
  assert (tenant_setting claims = Ok t) as Hs by (unfold tenant_setting; by rewrite Ht).
  split_and!.
  - intros st sev ten flags f. unfold list_flags. rewrite Hu. cbn [result_bind]. rewrite Hs. cbn [result_bind].
    intros (all & Ha & Hf)%result_bind_ok Hin. eapply scoped_ok; eauto using get_flags_sub.
  - intros id f evs. unfold get_flag_detail. rewrite Hu. cbn [result_bind]. rewrite Hs. cbn [result_bind].
    intros (all & Ha & (o & Ho & Hf)%result_bind_ok)%result_bind_ok. destruct o as [g|]; [|done].
    apply result_bind_ok in Hf as (rows & Hr & (ev & Hev & [= <- <-])%result_bind_ok).
    apply get_flag_in in Ho as [Ho _]. split; [by eapply scoped_ok|].
    intros e [He _]%(get_events_in _ _ _ _ _ _ Hev). by eapply scoped_ok.
  - intros id r. unfold get_run. rewrite Hu. cbn [result_bind]. rewrite Hs. cbn [result_bind].
    intros (all & Ha & (o & Ho & Hr)%result_bind_ok)%result_bind_ok. destruct o as [g|]; [|done].
    injection Hr as ->. unfold _get_run in Ho. apply result_bind_ok in Ho as (u & _ & [= Hh]).
    apply head_in, elem_of_bfilter in Hh as [_ Hh]. by eapply scoped_ok.
  - intros id since limit evs e. unfold get_run_events. rewrite Hu. cbn [result_bind].
    destruct (negb _); [done|]. rewrite Hs. cbn [result_bind].
    intros (all & _ & (o & _ & Hr)%result_bind_ok)%result_bind_ok Hin. destruct o; [|done].
    apply result_bind_ok in Hr as (rows & Hr & Hev).
    apply (get_events_in _ _ _ _ _ _ Hev) in Hin as [Hin _]. by eapply scoped_ok.
Qed.

(** The policy is transparent when the setting is empty: a token whose tenant is the empty text lists the
    flags of every tenant. *)
Lemma empty_tenant_lists_all db now_s bearer session claims :
  get_current_user jwt_secret now_s bearer session = Ok claims →
  dget "tenant_id" claims = Some (JStr "") →
  ∃ flags, list_flags jwt_secret bind_uuid pg_uuid db now_s bearer session None None None = Ok flags ∧
    ∀ f, f ∈ flags ↔ f ∈ rd_flags db.
Proof.
  intros Hu Ht. unfold list_flags, tenant_setting. rewrite Hu. cbn [result_bind]. rewrite Ht.
  cbn [result_bind py_str scoped String.eqb]. unfold _get_flags, filter_opt. cbn. eexists. split; [done|].
  intros f. apply elem_of_order_by.
Qed.
End isolation.

(** ** Decisions *)

Section decisions.
Context (jwt_secret : string) (bind_uuid pg_uuid : string → option uuid).
Context {E : Type} (resume abort : uuid → E → E * result PyExn ()).

Notation submit := (submit_decision jwt_secret bind_uuid pg_uuid resume abort).

(** What a role check that passed says of the request. *)
Lemma role_claims now_s bearer session claims :
  require_role jwt_secret ["admin"; "reviewer"] now_s bearer session = Ok claims →
  (∃ tok, extract_raw_token bearer session = Some tok ∧ verify_token jwt_secret now_s tok = Ok claims) ∧
  (dget "role" claims = Some (JStr "admin") ∨ dget "role" claims = Some (JStr "reviewer")).
Proof.
  intros H. apply require_role_ok in H as (tok & Ht & Hv & Hr). split; [eauto|].
  unfold role_in in Hr. destruct (dget "role" claims) as [[]|]; try done.
  apply bool_decide_eq_true in Hr. set_solver.
Qed.

(** C18: A decision is all or nothing.  A refused request (no admin or reviewer role, an unknown decision,
    a flag that does not exist or is not visible to the caller's tenant, a reviewer who is no user) changes
    neither the database nor the run's process and appends no audit entry.  An accepted one carries a token
    of an admin or a reviewer; it appends one decision row, for that flag, with the decision and rationale
    given, by the user whom the token's subject names; it resolves that flag with the matching resolution
    and changes no other; it resumes the flag's run for a continue, aborts it for an abort or a quarantine;
    and its audit entry is under the token's tenant with the token's subject as the actor. *)
Theorem submit_decision_effects db e now_s now fresh bearer session flag_id decision rationale db' e' audit r :
  submit db e now_s now fresh bearer session flag_id decision rationale = (db', e', audit, r) →
  (∀ x, r = Raise x → db' = db ∧ e' = e ∧ audit = None) ∧
  (∀ row enf, r = Ok (row, enf) →
     ∃ claims f,
       (∃ tok, extract_raw_token bearer session = Some tok ∧ verify_token jwt_secret now_s tok = Ok claims) ∧
       (dget "role" claims = Some (JStr "admin") ∨ dget "role" claims = Some (JStr "reviewer")) ∧
       decision ∈ allowed_decisions ∧
       f ∈ rd_flags db ∧ bind_uuid flag_id = Some (rf_flag_id f) ∧
       (∀ t, dget "tenant_id" claims = Some (JStr t) → t ≠ "" → pg_uuid t = Some (rf_tenant_id f)) ∧
       hd_flag_id row = rf_flag_id f ∧ hd_decision row = decision ∧ hd_rationale row = rationale ∧
       bind_uuid (match dget "sub" claims with Some v => py_str v | None => "unknown" end) =
         Some (hd_reviewer_id row) ∧
       hd_reviewer_id row ∈ rd_users db ∧
       rd_decisions db' = rd_decisions db ++ [row] ∧ map rf_flag_id (rd_flags db') = map rf_flag_id (rd_flags db) ∧
       (∀ g, g ∈ rd_flags db → rf_flag_id g ≠ rf_flag_id f → g ∈ rd_flags db') ∧
       (∀ g, g ∈ rd_flags db' → rf_flag_id g = rf_flag_id f →
          rf_status g = "resolved" ∧ rf_resolution g = Some (_RESOLUTION_FOR decision)) ∧
       e' = (if String.eqb decision "continue" then (resume (rf_run_id f) e).1 else (abort (rf_run_id f) e).1) ∧
       (∀ t u tenant, dget "tenant_id" claims = Some (JStr t) → dget "sub" claims = Some (JStr u) →
          parse_uuid t = Some tenant →
          ∃ rq, audit = Some rq ∧ rq_tenant_id rq = tenant ∧ rq_action rq = "hitl_decision" ∧
                rq_actor_id rq = parse_uuid u ∧ rq_target_id rq = parse_uuid flag_id)).
Proof.
  unfold submit_decision. set (outcome := result_bind (require_role _ _ _ _ _) _).
  destruct outcome as [[[[setting f] reviewer_id] row0]|x] eqn:Eo; subst outcome.
  2: { intros [= <- <- <- <-]. by split; [|done]. }
  apply result_bind_ok in Eo as (claims & Hcl & Eo). destruct (bool_decide _) eqn:Hd; [|done].
  simpl negb in Eo. cbv iota in Eo. apply bool_decide_eq_true in Hd.
  apply result_bind_ok in Eo as (s & Hs & Eo). apply result_bind_ok in Eo as (flags & Hf & Eo).
  apply result_bind_ok in Eo as (o & Ho & Eo). destruct o as [g|]; [|done].
  apply result_bind_ok in Eo as (reviewer & Hrev & Eo). destruct (bool_decide (reviewer ∈ _)) eqn:Hu; [|done].
  apply bool_decide_eq_true in Hu. injection Eo as <- <- <- <-.
  destruct (_apply_enforcement _ _ _ _ _) as [e1 enf1] eqn:Een. intros [= <- <- <- <-].
  split; [done|]. intros row enf [= <- <-]. exists claims, g.
  apply get_flag_in in Ho as [Hin Hb].
  assert (g ∈ rd_flags db) as Hg.
  { unfold scoped in Hf. destruct (String.eqb s ""); [by injection Hf as <-|].
    destruct (rd_flags db) as [|g0 l] eqn:El; [injection Hf as <-; by apply elem_of_nil in Hin|].
    destruct (pg_uuid s); [|done]. injection Hf as <-. by apply elem_of_bfilter in Hin as [_ ?]. }
  apply role_claims in Hcl as [Htok Hrole].
  split_and!; try done.
  - intros t Ht Hne. unfold tenant_setting in Hs. rewrite Ht in Hs. injection Hs as <-.
    cbn [py_str] in Hf. by destruct (scoped_ok pg_uuid _ _ _ _ Hf Hne _ Hin).
  - unfold bound in Hrev. cbn [hd_reviewer_id]. by destruct (bind_uuid (match dget "sub" claims with Some v => _ | None => _ end)); simplify_eq.
  - cbn [rd_flags]. rewrite map_map. apply map_ext. intros g0. by destruct (String.eqb _ _).
  - intros g0 Hg0 Hne. simpl. apply elem_of_map. exists g0. split; [|done].
    destruct (String.eqb_spec (rf_flag_id g0) (rf_flag_id g)); [done|done].
  - simpl. intros g0 (g1 & -> & Hg1)%elem_of_map.
    destruct (String.eqb_spec (rf_flag_id g1) (rf_flag_id g)) as [Heq|Hne]; [done|]. by intros ?.
  - unfold _apply_enforcement in Een. destruct (String.eqb decision "continue") eqn:Ec; [by injection Een as <- _|].
    rewrite bool_decide_true in Een; [by injection Een as <- _|].
    unfold allowed_decisions in Hd. apply String.eqb_neq in Ec. set_solver.
  - intros t u tenant Ht Hu' Hp. unfold tenant_setting in Hs. rewrite Ht in Hs. injection Hs as <-.
    cbn [py_str]. unfold decision_audit. rewrite Hp, Hu'. cbn [mbind option_bind]. by eexists.
Qed.
End decisions.

(** ** Paging through the events of a run *)

Section paging.
Context (bind_uuid : string → option uuid).

(** A client that asks for the next page after the last time stamp it saw, until a page is empty. *)
Fixpoint read_pages (fuel : nat) (run : string) (since : option datetime) (limit : nat) (rows : list EventRow)
    : list EventRow :=
  match fuel with
  | O => []
  | S fuel' =>
      match _get_run_events bind_uuid run since limit rows with
      | Ok page => match last page with
                   | Some e => page ++ read_pages fuel' run (Some (er_ts e)) limit rows
                   | None => []
                   end
      | Raise _ => []
      end
  end.

Definition ts_lt (a b : EventRow) : Prop := er_ts a < er_ts b.

Lemma order_by_sorted {A} (key : A → Z) l : StronglySorted (λ a b, key a ≤ key b) (order_by key l).
Proof.
  assert (∀ y l, StronglySorted (λ a b, key a ≤ key b) l →
            StronglySorted (λ a b, key a ≤ key b) (insert_key_asc key y l)) as Hi.
  { intros y k Hk. induction Hk as [|z k Hk IH Hz]; simpl; [by repeat constructor|].
    destruct (key y <=? key z) eqn:E.
    - apply Z.leb_le in E. constructor; [by constructor|]. constructor; [done|].
      eapply Forall_impl; [done|]. simpl. intros w ?. lia.
    - apply Z.leb_gt in E. constructor; [done|]. apply Forall_forall. intros w Hw.
      assert (w = y ∨ w ∈ k) as [->|Hwk]; [|lia|by rewrite Forall_forall in Hz; apply Hz].
      clear -Hw. induction k as [|v k IHk]; simpl in Hw; [set_solver|].
      destruct (key y <=? key v); [set_solver|]. apply elem_of_cons in Hw as [->|Hw]; set_solver. }
  induction l as [|x l IH]; simpl; [constructor|]. by apply Hi.
Qed.

Lemma sorted_nodup_lt l :
  StronglySorted (λ a b, er_ts a ≤ er_ts b) l → NoDup (map er_ts l) → StronglySorted ts_lt l.
Proof.
  induction 1 as [|x l Hl IH Hx]; [constructor|]. simpl. intros [Hn Hnd]%NoDup_cons.
  constructor; [by apply IH|]. apply Forall_forall. intros y Hy. rewrite Forall_forall in Hx.
  specialize (Hx _ Hy). unfold ts_lt. assert (er_ts x ≠ er_ts y); [|lia].
  intros E. apply Hn. rewrite E. apply elem_of_map. eauto.
Qed.

Lemma ts_lt_unique l1 l2 : StronglySorted ts_lt l1 → StronglySorted ts_lt l2 → l1 ≡ₚ l2 → l1 = l2.
Proof.
  intros. apply (StronglySorted_unique_strong ts_lt); [|done..]. unfold ts_lt. intros. lia.
Qed.

Lemma sorted_filter {A} (R : A → A → Prop) (p : A → bool) l : StronglySorted R l → StronglySorted R (bfilter p l).
Proof.
  induction 1 as [|x l Hl IH Hx]; [constructor|]. rewrite bfilter_cons. destruct (p x); [|done].
  constructor; [done|]. rewrite Forall_forall in *. intros y [_ Hy]%elem_of_bfilter. by apply Hx.
Qed.

(** The events after a time stamp of a strictly sorted list are a suffix of it. *)
Lemma after_prefix l1 e l2 :
  StronglySorted ts_lt (l1 ++ e :: l2) → bfilter (λ x, er_ts e <? er_ts x) (l1 ++ e :: l2) = l2.
Proof.
  intros Hs. rewrite bfilter_app, bfilter_cons, Z.ltb_irrefl.
  assert (bfilter (λ x, er_ts e <? er_ts x) l1 = []) as ->.
  { apply bfilter_nil. intros x Hx. apply Z.ltb_ge.
    induction l1 as [|y l1 IH]; [by apply elem_of_nil in Hx|]. inversion Hs as [|? ? Hs' Hy]; subst.
    apply elem_of_cons in Hx as [->|Hx]; [|by apply IH].
    rewrite Forall_forall in Hy. specialize (Hy e ltac:(set_solver)). unfold ts_lt in Hy. lia. }
  simpl. apply bfilter_all. intros x Hx. apply Z.ltb_lt.
  induction l1 as [|y l1 IH]; inversion Hs as [|? ? Hs' Hy]; subst; [|by apply IH].
  rewrite Forall_forall in Hy. by apply Hy.
Qed.

Notation of_run u rows := (bfilter (λ e, String.eqb (er_run_id e) u) rows).
Notation newer since l := (match since with Some s => bfilter (λ e, s <? er_ts e) l | None => l end).

Lemma newer_order since (l : list EventRow) :
  StronglySorted ts_lt (order_by er_ts l) → order_by er_ts (newer since l) = newer since (order_by er_ts l).
Proof.
  destruct since as [s|]; [|done]. intros Hs.
  assert (NoDup (map er_ts (order_by er_ts (bfilter (λ e, s <? er_ts e) l)))) as Hnd.
  { assert (map er_ts (order_by er_ts (bfilter (λ e, s <? er_ts e) l)) ≡ₚ
            map er_ts (bfilter (λ e, s <? er_ts e) (order_by er_ts l))) as ->.
    { rewrite order_by_perm. apply Permutation_map. unfold bfilter. by rewrite (order_by_perm er_ts l). }
    apply (sorted_filter _ (λ e, s <? er_ts e)) in Hs. clear -Hs.
    induction Hs as [|x k Hk IH Hx]; simpl; constructor; [|done].
    intros (y & E & Hy)%elem_of_map. rewrite Forall_forall in Hx. specialize (Hx _ Hy). unfold ts_lt in Hx. lia. }
  apply ts_lt_unique; [by apply sorted_nodup_lt, Hnd; apply order_by_sorted|by apply sorted_filter|].
  rewrite order_by_perm. unfold bfilter. by rewrite (order_by_perm er_ts l).
Qed.

Lemma read_pages_suffix run u limit rows fuel since l1 l2 :
  bind_uuid run = Some u → (1 ≤ limit)%nat → StronglySorted ts_lt (order_by er_ts (of_run u rows)) →
  order_by er_ts (of_run u rows) = l1 ++ l2 → newer since (l1 ++ l2) = l2 → (length l2 < fuel)%nat →
  read_pages fuel run since limit rows = l2.
Proof.
  intros Hu Hlim Hs. revert since l1 l2. induction fuel as [|fuel IH]; intros since l1 l2 Ho Hn Hf; [lia|].
  cbn [read_pages]. unfold _get_run_events, bound. rewrite Hu. cbn [result_bind].
  rewrite (newer_order since _ Hs), Ho, Hn.
  destruct (take limit l2) as [|e0 page0] eqn:Ep using rev_ind.
  { destruct l2; [done|]. by destruct limit; [lia|]. }
  clear IHpage0. rename e0 into e, page0 into p. rewrite last_snoc.
  pose proof (take_drop limit l2) as Hl. rewrite Ep in Hl. set (rest := drop limit l2) in *.
  rewrite <-app_assoc in Hl. simpl in Hl.
  rewrite (IH (Some (er_ts e)) (l1 ++ p ++ [e]) rest).
  - by rewrite <-Hl, <-app_assoc.
  - by rewrite Ho, <-Hl, <-!app_assoc.
  - rewrite <-!app_assoc. simpl. rewrite app_assoc. apply after_prefix.
    rewrite <-app_assoc, Hl, <-Ho. done.
  - rewrite <-Hl, length_app in Hf. simpl in Hf. lia.
Qed.

(** Paging by time stamp reads everything exactly once when no two events of the run share a time
    stamp: with enough requests, the pages put together are the run's events in order. *)
Theorem paging_reads_everything run u limit rows fuel :
  bind_uuid run = Some u → (1 ≤ limit)%nat → NoDup (map er_ts (of_run u rows)) →
  (length (of_run u rows) < fuel)%nat →
  read_pages fuel run None limit rows = order_by er_ts (of_run u rows).
Proof.
  intros Hu Hlim Hnd Hf.
  assert (StronglySorted ts_lt (order_by er_ts (of_run u rows))) as Hs.
  { apply sorted_nodup_lt; [apply order_by_sorted|].
    assert (map er_ts (order_by er_ts (of_run u rows)) ≡ₚ map er_ts (of_run u rows)) as ->; [|done].
    apply Permutation_map, order_by_perm. }
  eapply (read_pages_suffix run u limit rows fuel None [] _ Hu Hlim Hs); [done|done|].
  by rewrite order_by_perm.
Qed.

(** The trace of a flag's detail page is the oldest 500 events of the run, not the most recent. *)
Lemma detail_trace_is_oldest u rows l :
  bind_uuid u = Some u → _get_run_events bind_uuid u None 500 rows = Ok l →
  l = take 500 (order_by er_ts (of_run u rows)).
Proof. intros Hu. unfold _get_run_events, bound. rewrite Hu. cbn [result_bind]. by intros [= <-]. Qed.
End paging.

(** ** The live channel *)

Inductive channel_step : FlagBroadcaster → FlagBroadcaster → Prop :=
| ch_subscribe b t q : queues b !! q = None → channel_step b (subscribe t q b)
| ch_unsubscribe b t q : channel_step b (unsubscribe t q b)
| ch_publish b flag : channel_step b (publish flag b)
| ch_get b q : channel_step b (get q b).1.

(** Each queue belongs to one tenant, holds at most its capacity, and only flags of that tenant. *)
Definition channel_inv (b : FlagBroadcaster) : Prop :=
  ∃ owner : nat → string,
    (∀ t bucket q, _subscribers b !! t = Some bucket → q ∈ bucket → owner q = t ∧ is_Some (queues b !! q)) ∧
    (∀ q l, queues b !! q = Some l → (length l ≤ queue_maxsize)%nat ∧ ∀ f, f ∈ l → flag_tenant f = owner q).

Lemma put_nowait_spec flag l :
  (length l ≤ queue_maxsize)%nat →
  (length (put_nowait flag l) ≤ queue_maxsize)%nat ∧ ∀ f, f ∈ put_nowait flag l → f = flag ∨ f ∈ l.
Proof.
  intros Hl. unfold put_nowait. destruct (Nat.ltb_spec (length l) queue_maxsize); [|by split; [|right]].
  rewrite length_app. simpl. split; [lia|]. intros f. rewrite elem_of_app, list_elem_of_singleton. naive_solver.
Qed.

Lemma channel_step_inv b b' : channel_inv b → channel_step b b' → channel_inv b'.
Proof.
  intros (owner & Hs & Hq) Hstep. destruct Hstep as [b t q Hn|b t q|b flag|b q].
  - exists (λ q', if decide (q' = q) then t else owner q'). unfold subscribe. split; simpl.
    + intros t' bucket q' Hb Hin. destruct (decide (q' = q)) as [->|Hne].
      * rewrite lookup_insert_eq. split; [|by eexists].
        destruct (decide (t' = t)) as [->|Ht]; [done|]. rewrite lookup_insert_ne in Hb by done.
        destruct (Hs _ _ _ Hb Hin) as [_ [? ?]]. congruence.
      * rewrite lookup_insert_ne by done. destruct (decide (t = t')) as [->|Ht].
        { rewrite lookup_insert_eq in Hb. injection Hb as <-.
          destruct (_subscribers b !! t') as [old|] eqn:E; simpl in Hin; [|set_solver].
          apply (Hs _ old); set_solver. }
        rewrite lookup_insert_ne in Hb by done. eauto.
    + intros q' l. destruct (decide (q' = q)) as [->|Hne].
      * rewrite lookup_insert_eq. intros [= <-]. split; [simpl; lia|]. by intros f ?%elem_of_nil.
      * rewrite lookup_insert_ne by done. apply Hq.
  - unfold unsubscribe. destruct (_subscribers b !! t) as [bucket|] eqn:E; [|by exists owner].
    exists owner. split; [|done]. simpl. intros t' bk q'. destruct (decide (t = t')) as [<-|Ht].
    + rewrite lookup_insert_eq. intros [= <-] Hin. apply (Hs _ bucket); set_solver.
    + rewrite lookup_insert_ne by done. apply Hs.
  - exists owner. unfold publish. simpl. split.
    + intros t bucket q Hb Hin. destruct (Hs _ _ _ Hb Hin) as [? [l Hl]]. split; [done|].
      rewrite map_lookup_imap, Hl. by eexists.
    + intros q l. rewrite map_lookup_imap. destruct (queues b !! q) as [l0|] eqn:E; [|done].
      simpl. destruct (Hq _ _ E) as [Hlen Hten]. case_bool_decide as Hb; intros [= <-]; [|done].
      destruct (put_nowait_spec flag l0 Hlen) as [H1 H2]. split; [done|].
      intros f [->|Hf]%H2; [|by apply Hten].
      destruct (_subscribers b !! flag_tenant flag) as [bucket|] eqn:Es; simpl in Hb; [|set_solver].
      symmetry. by apply (Hs _ bucket).
  - unfold get. destruct (queues b !! q) as [[|f rest]|] eqn:E; try (by exists owner). exists owner. simpl. split.
    + intros t bucket q' Hb Hin. destruct (Hs _ _ _ Hb Hin) as [? ?]. split; [done|].
      destruct (decide (q = q')) as [<-|Hne]; [rewrite lookup_insert_eq; by eexists|by rewrite lookup_insert_ne].
    + intros q' l. destruct (decide (q = q')) as [<-|Hne].
      * rewrite lookup_insert_eq. intros [= <-]. destruct (Hq _ _ E) as [Hl Ht]. simpl in Hl.
        split; [lia|]. intros g Hg. apply Ht. by right.
      * rewrite lookup_insert_ne by done. apply Hq.
Qed.

(** C36: Whatever subscriptions, publications and reads happen, in any order, every subscriber's queue holds
    at most 100 flags, all of one tenant: the one it subscribed to. *)
Theorem channel_queues_bounded b :
  rtc channel_step new_broadcaster b →
  (∀ q l, queues b !! q = Some l → (length l ≤ 100)%nat) ∧
  (∀ t bucket q l f, _subscribers b !! t = Some bucket → q ∈ bucket → queues b !! q = Some l →
     f ∈ l → flag_tenant f = t).
Proof.
  intros Hr. assert (channel_inv b) as (owner & Hs & Hq).
  { assert (channel_inv new_broadcaster) as H0.
    { exists (λ _, ""). split; [intros t bk q H|intros q l H]; cbn in H; by rewrite lookup_empty in H. }
    revert H0. induction Hr as [|b1 b2 b3 Hst _ IH]; [done|]. intros H. apply IH. by eapply channel_step_inv. }
  split; [intros q l H; by apply Hq in H as [? _]|].
  intros t bucket q l f Hb Hin Hl Hf. destruct (Hs _ _ _ Hb Hin) as [<- _]. by apply (Hq _ _ Hl).
Qed.

(** ** Witnesses *)

Definition tie_rows : list EventRow :=
  let row id t := {| er_event_id := id; er_run_id := "r"; er_tenant_id := "t"; er_span_id := id;
                     er_parent_span_id := None; er_channel := "VOLUNTARY"; er_event_type := "tool_call.start";
                     er_ts := t; er_pid := None; er_payload := []; er_payload_hash := "" |} in
  [row "e1" 1; row "e2" 2; row "e3" 2].

(** Events that share a time stamp with the last of a page are never read. *)
Example paging_loses_ties :
  map er_event_id (read_pages Some 10 "r" None 2 tie_rows) = ["e1"; "e2"].
Proof. by vm_compute. Qed.

Lemma paging_reads_everything_witness :
  NoDup (map er_ts (take 2 tie_rows)) ∧
  read_pages Some 3 "r" None 1 (take 2 tie_rows) = order_by er_ts (take 2 tie_rows).
Proof.
  split; [by_decision|].
  assert (NoDup (map er_ts (bfilter (λ e, String.eqb (er_run_id e) "r") (take 2 tie_rows)))) as Hnd by by_decision.
  pose proof (paging_reads_everything Some "r" "r" 1 (take 2 tie_rows) 3 eq_refl (le_n 1) Hnd) as H.
  apply H. apply (bool_decide_unpack _). vm_compute. exact I.
Defined.

Lemma channel_queues_bounded_witness :
  let b := publish [("tenant_id", JStr "t")] (subscribe "t" 0 new_broadcaster) in
  rtc channel_step new_broadcaster b ∧ ∀ q l, queues b !! q = Some l → (length l ≤ 100)%nat.
Proof.
  cbv zeta. assert (rtc channel_step new_broadcaster (publish [("tenant_id", JStr "t")] (subscribe "t" 0 new_broadcaster))) as Hr.
  { eapply rtc_l; [by apply (ch_subscribe _ "t" 0)|]. apply rtc_once. apply ch_publish. }
  split; [exact Hr|]. destruct (channel_queues_bounded _ Hr) as [H _]. exact H.
Defined.

Definition sample_flag (t : uuid) : FlagRecord :=
  {| rf_flag_id := "f"; rf_run_id := "r"; rf_tenant_id := t; rf_severity := "high"; rf_asi_categories := [];
     rf_status := "open"; rf_created_at := 0; rf_resolved_at := None; rf_resolution := None |}.

Definition sample_review_db : ReviewDb :=
  {| rd_flags := [sample_flag "t"; sample_flag "other"]; rd_runs := []; rd_events := []; rd_decisions := [];
     rd_users := ["someone"; "u"] |}.

Definition review_token : string := issue_token "secret" "u" "t" "reviewer" 100 1000.
Definition review_claims : list (string * json) := token_payload "u" "t" "reviewer" 100 1000.

Lemma reads_stay_in_tenant_witness :
  list_flags "secret" Some Some sample_review_db 1001 (Some review_token) None None None None = Ok [sample_flag "t"] ∧
  ∀ f, f ∈ [sample_flag "t"] → Some "t" = Some (rf_tenant_id f) ∧ f ∈ rd_flags sample_review_db.
Proof.
  assert (get_current_user "secret" 1001 (Some review_token) None = Ok review_claims) as Hu by (vm_compute; reflexivity).
  assert (list_flags "secret" Some Some sample_review_db 1001 (Some review_token) None None None None
          = Ok [sample_flag "t"]) as Hl by (vm_compute; reflexivity).
  split; [exact Hl|].
  pose proof (reads_stay_in_tenant "secret" Some Some sample_review_db 1001 (Some review_token) None review_claims "t"
    Hu eq_refl ltac:(discriminate)) as [H _].
  intros f Hf. exact (H _ _ _ _ f Hl Hf).
Defined.

(** An enforcer that records what it is told. *)
Definition record_call (name : string) (run_id' : uuid) (e : list string) : list string * result PyExn () :=
  (e ++ [name +:+ ":" +:+ run_id'], Ok tt).

Definition sample_submit : ReviewDb * list string * option AppendReq * result http_exn (HitlDecision * Enforcement) :=
  submit_decision "secret" Some Some (record_call "resume") (record_call "abort") sample_review_db [] 1001 7 "h"
    (Some review_token) None "f" "abort" None.

Lemma sample_submit_eq :
  submit_decision "secret" Some Some (record_call "resume") (record_call "abort") sample_review_db [] 1001 7 "h"
    (Some review_token) None "f" "abort" None =
  (sample_submit.1.1.1, sample_submit.1.1.2, sample_submit.1.2, sample_submit.2).
Proof. change (sample_submit = (sample_submit.1.1.1, sample_submit.1.1.2, sample_submit.1.2, sample_submit.2)).
  by destruct sample_submit as [[[? ?] ?] ?].
Qed.

Lemma submit_decision_effects_witness :
  ∃ row enf, sample_submit.2 = Ok (row, enf) ∧ rd_decisions sample_submit.1.1.1 = [] ++ [row] ∧
    hd_reviewer_id row = "u" ∧ sample_submit.1.1.2 = ["abort:r"].
Proof.
  assert (∃ row enf, sample_submit.2 = Ok (row, enf)) as (row & enf & Hr) by (do 2 eexists; vm_compute; reflexivity).
  exists row, enf. split; [exact Hr|].
  pose proof (submit_decision_effects "secret" Some Some (record_call "resume") (record_call "abort") _ _ _ _ _ _ _ _ _ _ _ _ _ _
    sample_submit_eq) as [_ H].
  destruct (H row enf Hr) as (claims & f & (tok & Ht & Hv) & _ & _ & _ & _ & _ & _ & _ & _ & Hsub & _ & Hd & _).
  injection Ht as <-. assert (verify_token "secret" 1001 review_token = Ok review_claims) as Hv'
    by (vm_compute; reflexivity). rewrite Hv' in Hv. injection Hv as <-. injection Hsub as <-.
  split; [exact Hd|]. split; [reflexivity|]. vm_compute. reflexivity.
Defined.
