(* ===== verification/Query.v ===== *)
(** * The audit query language

    Models [auditor/audit_log/query.py]: validation of a query (aliases, allow-list, limits), its
    compilation to a parameterised selection, and its execution over the rows a tenant may see.  What a
    comparison means on a row is the database's and a parameter; [row_wanted] gives the request's meaning on
    top of it, without the compiler, and the theorems relate the two. *)

From Stdlib Require Import ZArith Lia Ascii.
From Stdlib Require String.
From stdpp Require Import base tactics option list strings sets sorting.
From S2P Require Import Prelude PyStr Float64 Json Sha256 ApiAuth Incidents Events Budget Gate.
From S2P Require Import Store Scanner ReviewApi.

Local Open Scope Z_scope.

Definition DEFAULT_LIMIT : Z := 1000.
Definition MAX_LIMIT : Z := 100000.

(** ** Relative times *)

(** [^now-(\d+)(h|d)$]; the end anchor accepts one line feed after the unit. *)
Definition rel_time (value : string) : option (string * string) :=
  if starts_with "now-" value then
    let '(n, u) := span_digits (drop_str 4 value) in
    let newline := String (ascii_of_nat 10) "" in
    if negb (str_truthy n) then None
    else if bool_decide (u = "h" ∨ u = "h" +:+ newline) then Some (n, "h")
    else if bool_decide (u = "d" ∨ u = "d" +:+ newline) then Some (n, "d")
    else None
  else None.

Definition _parse_time_token (now : datetime) (value : string) : result PyExn datetime :=
  match rel_time value with
  | None => raise "ValueError" ("invalid time token " +:+ py_repr_str value +:+ "; expected 'now-Nh' or 'now-Nd'")
  | Some (n, u) =>
      if (4300 <? String.length n)%nat then
        raise "ValueError" "Exceeds the limit (4300 digits) for integer string conversion"
      else
        let delta := digits_Z n * (if String.eqb u "h" then hour else day) in
        if ((timedelta_max_days + 1) * day <=? delta) || (now - delta <? datetime_min)
        then raise "OverflowError" "date value out of range"
        else Ok (now - delta)
  end.

(** A bound value: as it came, or an instant. *)
Inductive SqlValue := VJson (v : json) | VTime (t : datetime).

Definition _coerce_time (now : datetime) (value : json) : result PyExn SqlValue :=
  match value with
  | JStr s => if starts_with "now-" s then let! t := _parse_time_token now s in Ok (VTime t) else Ok (VJson value)
  | _ => Ok (VJson value)
  end.

(** ** The allow-list *)

Inductive ColExpr :=
| Col (name : string)
| JsonPath (name : string) (keys : list string)
| TextTrue.

#[export] Instance ColExpr_eq_dec : EqDecision ColExpr.
Proof. solve_decision. Defined.

Definition columns (names : list string) : list (string * ColExpr) := map (λ n, (n, Col n)) names.

Definition _ALLOWLIST (resource : string) : option (list (string * ColExpr)) :=
  if String.eqb resource "events" then
    Some (columns ["event_id"; "run_id"; "tenant_id"; "event_type"; "channel"; "ts"] ++
          [("payload__tool_name", JsonPath "payload" ["tool_name"]);
           ("evidence__event__tool_name", JsonPath "payload" ["tool_name"])])
  else if String.eqb resource "verdicts" then
    Some (columns ["verdict_id"; "run_id"; "tenant_id"; "detector"; "asi_category"; "result"; "ts"] ++
          [("evidence__event__tool_name", JsonPath "evidence" ["event"; "tool_name"])])
  else if String.eqb resource "flags" then
    Some (columns ["flag_id"; "run_id"; "tenant_id"; "severity"; "status"; "created_at"] ++
          [("evidence__event__tool_name", TextTrue)])
  else if String.eqb resource "audit_log" then
    Some (columns ["seq"; "tenant_id"; "actor_type"; "action"; "target_type"; "ts"])
  else None.

Definition _DOT_ALIAS (resource : string) : list (string * string) :=
  let evidence := ("evidence.event.tool_name", "evidence__event__tool_name") in
  if String.eqb resource "events" then [evidence; ("payload.tool_name", "payload__tool_name")]
  else if bool_decide (resource ∈ ["flags"; "verdicts"]) then [evidence]
  else [].

(** ** Validation ([Query]) *)

Record Query := {
  q_resource : string;
  q_filter : list (string * json);
  q_limit : Z;
  q_order_by : option string;
  q_desc : bool
}.

Definition _cap_limit (v : Z) : result PyExn Z :=
  if v <? 1 then raise "ValueError" "limit must be >= 1" else Ok (Z.min v MAX_LIMIT).

Definition _normalise_filter_keys (resource : string) (f : list (string * json)) : list (string * json) :=
  foldl (λ d kv, dset (default kv.1 (dget kv.1 (_DOT_ALIAS resource))) kv.2 d) [] f.

Definition validate_query (resource : string) (f : list (string * json)) (limit : Z)
    (order_by : option string) (desc : bool) : result PyExn Query :=
  match _ALLOWLIST resource with
  | None => raise "ValueError" "resource"
  | Some allowed =>
      let! limit := _cap_limit limit in
      let f := _normalise_filter_keys resource f in
      if forallb (λ k, bool_decide (k ∈ dkeys allowed)) (dkeys f)
      then Ok {| q_resource := resource; q_filter := f; q_limit := limit; q_order_by := order_by;
                 q_desc := desc |}
      else raise "ValueError" "unknown filter field(s)"
  end.

(** ** Compilation *)

(** The operators of SQL: [>=], [<=], [=] and [IN]. *)
Inductive Op := GTE | LTE | EQ | IN.

Record Condition := { c_col : ColExpr; c_op : Op; c_val : SqlValue }.

Record Select := {
  s_resource : string;
  s_where : list Condition;
  s_order : option (ColExpr * bool);
  s_limit : Z
}.

Definition op_of (s : string) : option Op :=
  if String.eqb s "gte" then Some GTE
  else if String.eqb s "lte" then Some LTE
  else if String.eqb s "eq" then Some EQ
  else if String.eqb s "in" then Some IN
  else None.

(** One operator of an operator dictionary; its value is coerced before the operator is looked at. *)
Definition one_operator (now : datetime) (col : ColExpr) (op : string) (raw_val : json) : result PyExn Condition :=
  let! val := _coerce_time now raw_val in
  match op_of op, val with
  | Some IN, VJson (JArr _) => Ok {| c_col := col; c_op := IN; c_val := val |}
  | Some IN, VJson v => raise "ValueError" ("'in' operator requires a list, got " +:+ json_type v)
  | Some IN, VTime _ => raise "ValueError" "'in' operator requires a list, got datetime"
  | Some o, _ => Ok {| c_col := col; c_op := o; c_val := val |}
  | None, _ => raise "ValueError" ("unknown operator '" +:+ op +:+ "'; allowed: gte, lte, eq, in")
  end.

Fixpoint _apply_operator (now : datetime) (col : ColExpr) (op_dict : list (string * json))
    : result PyExn (list Condition) :=
  match op_dict with
  | [] => Ok []
  | (op, v) :: rest => let! c := one_operator now col op v in
                       let! cs := _apply_operator now col rest in Ok (c :: cs)
  end.

Definition field_conditions (now : datetime) (col : ColExpr) (raw_value : json) : result PyExn (list Condition) :=
  match col with
  | TextTrue => Ok []
  | _ => match raw_value with
         | JObj ops => _apply_operator now col ops
         | v => let! coerced := _coerce_time now v in Ok [{| c_col := col; c_op := EQ; c_val := coerced |}]
         end
  end.

Fixpoint where_clauses (now : datetime) (allowlist : list (string * ColExpr)) (f : list (string * json))
    : result PyExn (list Condition) :=
  match f with
  | [] => Ok []
  | (field, v) :: rest =>
      match dget field allowlist with
      | None => raise "KeyError" (py_repr_str field)
      | Some col => let! cs := field_conditions now col v in
                    let! more := where_clauses now allowlist rest in Ok (cs ++ more)
      end
  end.

Definition order_clause (allowlist : list (string * ColExpr)) (order_by : option string) (desc : bool)
    : result PyExn (option (ColExpr * bool)) :=
  match order_by with
  | None => Ok None
  | Some k => match dget k allowlist with
              | None => raise "ValueError" ("unknown order_by field '" +:+ k +:+ "'")
              | Some TextTrue => raise "AttributeError" "'TextClause' object has no attribute 'desc'"
              | Some col => Ok (Some (col, desc))
              end
  end.

Definition build_select (now : datetime) (q : Query) : result PyExn Select :=
  match _ALLOWLIST (q_resource q) with
  | None => raise "KeyError" (py_repr_str (q_resource q))
  | Some allowlist =>
      let! wh := where_clauses now allowlist (q_filter q) in
      let! ord := order_clause allowlist (q_order_by q) (q_desc q) in
      Ok {| s_resource := q_resource q; s_where := wh; s_order := ord; s_limit := q_limit q |}
  end.

(** ** Execution *)

Section run.
(** A row, its tenant, a comparison on it, and its place in an order. *)
Context {Row : Type} (tenant_of : Row → uuid) (sat : Condition → Row → bool)
        (sort_rows : ColExpr → bool → list Row → list Row).
Context (pg_uuid : string → option uuid).

Definition execute (s : Select) (rows : list Row) : list Row :=
  let hits := bfilter (λ r, forallb (λ c, sat c r) (s_where s)) rows in
  take (Z.to_nat (s_limit s)) (match s_order s with Some (col, desc) => sort_rows col desc hits | None => hits end).

Definition run_query (now : datetime) (q : Query) (tenant_id : string) (rows : list Row)
    : result PyExn (list Row) :=
  let! s := build_select now q in
  match scoped pg_uuid tenant_of tenant_id rows with
  | Ok visible => Ok (execute s visible)
  | Raise _ => raise "DBAPIError" "invalid input syntax for type uuid"
  end.

(** ** The meaning of a filter

    Written from the request, not from the compiler: an operator's name stands for the SQL comparison, a
    text [now-Nh] or [now-Nd] for an instant, an entry's field for the column it is an alias of. *)

Definition asked_value (now : datetime) (v : json) : SqlValue :=
  match v with
  | JStr s => match rel_time s with
              | Some (n, u) => VTime (now - digits_Z n * (if String.eqb u "h" then hour else day))
              | None => VJson v
              end
  | _ => VJson v
  end.

Definition operator_holds (now : datetime) (col : ColExpr) (op : string) (v : json) (r : Row) : bool :=
  let compared o := sat {| c_col := col; c_op := o; c_val := asked_value now v |} r in
  if String.eqb op "gte" then compared GTE
  else if String.eqb op "lte" then compared LTE
  else if String.eqb op "eq" then compared EQ
  else if String.eqb op "in" then compared IN
  else false.

(** A dictionary holds when each of its operators does, anything else stands for equality; the evidence
    field of flags, [TRUE], always holds. *)
Definition field_holds (now : datetime) (col : ColExpr) (v : json) (r : Row) : bool :=
  match col, v with
  | TextTrue, _ => true
  | _, JObj ops => forallb (λ kv, operator_holds now col kv.1 kv.2 r) ops
  | _, _ => sat {| c_col := col; c_op := EQ; c_val := asked_value now v |} r
  end.

(** The entry for a field: the last one whose key is the field or an alias of it. *)
Definition asked (resource : string) (f : list (string * json)) (field : string) : option json :=
  last (omap (λ kv, if String.eqb (default kv.1 (dget kv.1 (_DOT_ALIAS resource))) field then Some kv.2 else None) f).

Definition row_wanted (now : datetime) (resource : string) (allowed : list (string * ColExpr))
    (f : list (string * json)) (r : Row) : bool :=
  forallb (λ kc, match asked resource f kc.1 with Some v => field_holds now kc.2 v r | None => true end) allowed.

Lemma coerce_time_asked now v val : _coerce_time now v = Ok val → val = asked_value now v.
Proof.
  unfold _coerce_time, asked_value. destruct v as [| | | |s| |]; try by intros [= <-].
  unfold _parse_time_token. destruct (starts_with "now-" s) eqn:Es.
  - intros (t & Ht & [= <-])%result_bind_ok. destruct (rel_time s) as [[n u]|]; [|done].
    destruct (_ <? _)%nat; [done|]. destruct (_ || _); [done|]. by injection Ht as <-.
  - intros [= <-]. unfold rel_time. by rewrite Es.
Qed.

Lemma one_operator_holds now col op v c r : one_operator now col op v = Ok c → sat c r = operator_holds now col op v r.
Proof.
  unfold one_operator, operator_holds, op_of. intros (val & ->%coerce_time_asked & H)%result_bind_ok.
  destruct (String.eqb op "gte"); [by simplify_eq/=|]. destruct (String.eqb op "lte"); [by simplify_eq/=|].
  destruct (String.eqb op "eq"); [by simplify_eq/=|]. destruct (String.eqb op "in"); [|done].
  destruct (asked_value now v) as [[]|]; by simplify_eq/=.
Qed.

Lemma field_conditions_holds now col v cs r :
  field_conditions now col v = Ok cs → forallb (λ c, sat c r) cs = field_holds now col v r.
Proof.
  assert (∀ ops cs, _apply_operator now col ops = Ok cs →
            forallb (λ c, sat c r) cs = forallb (λ kv, operator_holds now col kv.1 kv.2 r) ops) as Hops.
  { induction ops as [|[op w] ops IH]; intros cs0; simpl; [by intros [= <-]|].
    intros (c & Hc & (cs' & Hcs & [= <-])%result_bind_ok)%result_bind_ok. simpl.
    by rewrite (one_operator_holds _ _ _ _ _ r Hc), (IH _ Hcs). }
  unfold field_conditions, field_holds. destruct col; [| |by intros [= <-]];
    (destruct v; [..|apply Hops];
     intros (val & ->%coerce_time_asked & [= <-])%result_bind_ok; simpl; by rewrite andb_true_r).
Qed.

Lemma where_clauses_holds now allowed fl cs r :
  where_clauses now allowed fl = Ok cs →
  forallb (λ c, sat c r) cs =
    forallb (λ kv, match dget kv.1 allowed with Some col => field_holds now col kv.2 r | None => true end) fl.
Proof.
  revert cs. induction fl as [|[k v] fl IH]; intros cs; simpl; [by intros [= <-]|].
  destruct (dget k allowed) as [col|]; [|done].
  intros (c1 & H1 & (c2 & H2 & [= <-])%result_bind_ok)%result_bind_ok.
  rewrite forallb_app. f_equal; [by apply field_conditions_holds|by apply IH].
Qed.

(** Normalisation keeps, under each field, the last entry for it. *)
Lemma normalise_asked resource f k : dget k (_normalise_filter_keys resource f) = asked resource f k.
Proof.
  unfold _normalise_filter_keys, asked. induction f as [|kv f IH] using rev_ind; [done|].
  rewrite foldl_app, omap_app. cbn [foldl]. rewrite dget_dset. cbn [omap list_omap].
  destruct (String.eqb_spec (default kv.1 (dget kv.1 (_DOT_ALIAS resource))) k) as [E|E].
  - by rewrite decide_True, last_snoc.
  - by rewrite decide_False, app_nil_r.
Qed.

Lemma normalise_nodup resource f : NoDup (dkeys (_normalise_filter_keys resource f)).
Proof.
  unfold _normalise_filter_keys. induction f as [|kv f IH] using rev_ind; [constructor|].
  rewrite foldl_app. cbn [foldl]. by apply NoDup_dkeys_dset.
Qed.

(** Going through the entries of the filter and through the fields of the allow-list comes to the same. *)
Lemma entries_wanted now resource allowed f r :
  NoDup (dkeys allowed) → (∀ k, k ∈ dkeys (_normalise_filter_keys resource f) → k ∈ dkeys allowed) →
  forallb (λ kv, match dget kv.1 allowed with Some col => field_holds now col kv.2 r | None => true end)
    (_normalise_filter_keys resource f) = row_wanted now resource allowed f r.
Proof.
  intros Ha Hk. pose proof (normalise_nodup resource f) as Hn. apply eq_bool_prop_intro. unfold row_wanted.
  rewrite !Is_true_true, !forallb_forall. setoid_rewrite <-list_elem_of_In. split.
  - intros H [k col] Hin. cbn [fst snd]. rewrite <-normalise_asked.
    destruct (dget k (_normalise_filter_keys resource f)) as [v|] eqn:E; [|done].
    apply dget_elem_of in E. specialize (H _ E). cbn [fst snd] in H. by rewrite (elem_of_dget k col) in H.
  - intros H [k v] Hin. cbn [fst snd].
    destruct (dget k allowed) as [col|] eqn:E; [|done]. apply dget_elem_of in E. specialize (H _ E).
    cbn [fst snd] in H. rewrite <-normalise_asked in H. by rewrite (elem_of_dget k v) in H.
Qed.
End run.

(** ** Properties *)

Section properties.
Context {Row : Type} (tenant_of : Row → uuid) (sat : Condition → Row → bool)
        (sort_rows : ColExpr → bool → list Row → list Row).
Context (pg_uuid : string → option uuid).

Lemma validate_ok resource f limit ob desc q :
  validate_query resource f limit ob desc = Ok q →
  ∃ allowed, _ALLOWLIST resource = Some allowed ∧ q_resource q = resource ∧
    q_filter q = _normalise_filter_keys resource f ∧ q_order_by q = ob ∧ q_desc q = desc ∧
    1 ≤ q_limit q ≤ MAX_LIMIT ∧ (∀ k, k ∈ dkeys (q_filter q) → k ∈ dkeys allowed).
Proof.
  unfold validate_query, _cap_limit. destruct (_ALLOWLIST resource) as [allowed|]; [|done].
  destruct (Z.ltb_spec limit 1) as [|Hl]; [done|]. cbn [result_bind].
  destruct (forallb _ _) eqn:Ha; [|done]. intros [= <-]. exists allowed. cbn.
  split_and!; try done; [unfold MAX_LIMIT; lia|lia|]. intros k Hk.
  rewrite forallb_forall in Ha. apply list_elem_of_In, Ha in Hk. by apply bool_decide_eq_true in Hk.
Qed.

Lemma allowlist_nodup resource allowed : _ALLOWLIST resource = Some allowed → NoDup (dkeys allowed).
Proof. unfold _ALLOWLIST. repeat case_match; intros [= <-] || discriminate; by_decision. Qed.

(** C25: A validated query that runs answers what the request says.  Every key of its filter is a field of the
    resource's allow-list or an alias of one, and its limit was at least 1.  The answer is made of the rows
    the tenant may see that satisfy, for each field, the last entry given for it, with [gte], [lte], [eq] and
    [in] the comparisons [>=], [<=], [=] and [IN] and relative times resolved; in the order of the field
    asked for, descending as asked; and of these the first ones up to the limit asked for or [MAX_LIMIT],
    whichever is less. *)
Theorem run_query_exact resource f limit ob desc q now tenant_id rows l :
  validate_query resource f limit ob desc = Ok q →
  run_query tenant_of sat sort_rows pg_uuid now q tenant_id rows = Ok l →
  ∃ allowed visible,
    _ALLOWLIST resource = Some allowed ∧ scoped pg_uuid tenant_of tenant_id rows = Ok visible ∧
    (∀ k, k ∈ dkeys f → default k (dget k (_DOT_ALIAS resource)) ∈ dkeys allowed) ∧ 1 ≤ limit ∧
    let hits := bfilter (row_wanted sat now resource allowed f) visible in
    match ob with
    | None => l = take (Z.to_nat (Z.min limit 100000)) hits
    | Some field => ∃ col, dget field allowed = Some col ∧
                           l = take (Z.to_nat (Z.min limit 100000)) (sort_rows col desc hits)
    end.
Proof.
  intros Hval. pose proof Hval as (allowed & Ha & Hr & Hf & Hob & Hd & _ & Hk)%validate_ok.
  unfold run_query. intros (s & Hs & Hl)%result_bind_ok.
  destruct (scoped pg_uuid tenant_of tenant_id rows) as [visible|] eqn:Hv; [|done]. injection Hl as <-.
  assert (1 ≤ limit ∧ q_limit q = Z.min limit 100000) as [Hlim Hql].
  { unfold validate_query, _cap_limit in Hval. rewrite Ha in Hval. destruct (Z.ltb_spec limit 1) as [|Hge]; [done|].
    cbn [result_bind] in Hval. destruct (forallb _ _); [|done]. injection Hval as <-. by split. }
  unfold build_select in Hs. rewrite Hr, Ha in Hs.
  apply result_bind_ok in Hs as (wh & Hw & (ord & Ho & [= <-])%result_bind_ok).
  exists allowed, visible. rewrite Hf in Hk, Hw. split_and!; [done|done| |done|].
  - intros k Hin. apply Hk, elem_of_dkeys. rewrite normalise_asked. unfold asked.
    apply last_is_Some. intros E. apply elem_of_dkeys in Hin as [v Hin]. apply dget_elem_of in Hin.
    assert (v ∈ ([] : list json)) as []%elem_of_nil. rewrite <-E. apply list_elem_of_omap. exists (k, v).
    split; [done|]. cbn [fst snd]. by rewrite String.eqb_refl.
  - cbv zeta. unfold execute. cbn [s_where s_order s_limit]. rewrite Hql.
    assert (bfilter (λ r, forallb (λ c, sat c r) wh) visible = bfilter (row_wanted sat now resource allowed f) visible) as ->.
    { apply list_filter_iff. intros r. rewrite (where_clauses_holds sat _ _ _ _ r Hw).
      by rewrite (entries_wanted sat now resource allowed f r (allowlist_nodup _ _ Ha) Hk). }
    rewrite Hob, Hd in Ho. unfold order_clause in Ho. destruct ob as [field|]; [|by injection Ho as <-].
    destruct (dget field allowed) as [[]|]; try discriminate Ho; injection Ho as <-; by eexists.
Qed.

(** ** When compilation succeeds *)

Definition time_ok (now : datetime) (v : json) : bool := is_ok (_coerce_time now v).

Definition operator_ok (now : datetime) (op : string) (v : json) : bool :=
  time_ok now v &&
  match op_of op, v with
  | Some IN, JArr _ => true
  | Some IN, _ => false
  | Some _, _ => true
  | None, _ => false
  end.

Definition value_ok (now : datetime) (col : ColExpr) (v : json) : bool :=
  match col, v with
  | TextTrue, _ => true
  | _, JObj ops => forallb (λ kv, operator_ok now kv.1 kv.2) ops
  | _, _ => time_ok now v
  end.

Definition order_ok (allowed : list (string * ColExpr)) (ob : option string) : bool :=
  match ob with
  | None => true
  | Some k => match dget k allowed with Some TextTrue | None => false | Some _ => true end
  end.

Lemma one_operator_ok now col op v : is_ok (one_operator now col op v) = operator_ok now op v.
Proof.
  unfold one_operator, operator_ok, time_ok, _coerce_time.
  destruct v as [| | | |s|l|m]; cbn [result_bind is_ok andb]; try (by destruct (op_of op) as [[]|]).
  destruct (starts_with "now-" s); [|by destruct (op_of op) as [[]|]].
  destruct (_parse_time_token now s); cbn [result_bind is_ok andb]; by destruct (op_of op) as [[]|].
Qed.

Lemma is_ok_bind {E A B} (m : result E A) (k : A → result E B) (b : bool) :
  (∀ a, m = Ok a → is_ok (k a) = b) → is_ok (result_bind m k) = is_ok m && b.
Proof. destruct m; simpl; intros H; [by apply H|done]. Qed.

Lemma apply_operator_ok now col ops :
  is_ok (_apply_operator now col ops) = forallb (λ kv, operator_ok now kv.1 kv.2) ops.
Proof.
  induction ops as [|[op v] ops IH]; [done|]. cbn [_apply_operator forallb fst snd].
  rewrite <-IH, <-(one_operator_ok now col op v). apply is_ok_bind. intros c _.
  rewrite (is_ok_bind _ _ true); [by rewrite andb_true_r|done].
Qed.

Lemma field_conditions_ok now col v : is_ok (field_conditions now col v) = value_ok now col v.
Proof.
  unfold field_conditions, value_ok, time_ok. destruct col; [| |done];
    (destruct v; [..|apply apply_operator_ok];
     (rewrite (is_ok_bind _ _ true); [by rewrite andb_true_r|done])).
Qed.

(** A validated query compiles exactly when every value it filters on is well formed (operators among
    gte, lte, eq and in, lists for in, relative times that can be read) and the field it orders by is a
    column; in particular no validated query fails on a field of its filter. *)
Theorem build_select_ok_iff resource f limit ob desc q now :
  validate_query resource f limit ob desc = Ok q →
  ∃ allowed, _ALLOWLIST resource = Some allowed ∧
    is_ok (build_select now q) =
      forallb (λ kv, match dget kv.1 allowed with Some col => value_ok now col kv.2 | None => false end) (q_filter q)
      && order_ok allowed ob ∧
    ∀ k v, (k, v) ∈ q_filter q → is_Some (dget k allowed).
Proof.
  intros (allowed & Ha & Hr & _ & Hob & _ & _ & Hk)%validate_ok. exists allowed. split; [done|]. split.
  - unfold build_select. rewrite Hr, Ha, Hob.
    assert (is_ok (where_clauses now allowed (q_filter q)) =
      forallb (λ kv, match dget kv.1 allowed with Some col => value_ok now col kv.2 | None => false end) (q_filter q)) as <-.
    { clear. induction (q_filter q) as [|[k v] fl IH]; [done|]. cbn [where_clauses forallb fst snd].
      destruct (dget k allowed) as [col|]; [|done]. rewrite <-IH, <-field_conditions_ok.
      apply is_ok_bind. intros c _. rewrite (is_ok_bind _ _ true); [by rewrite andb_true_r|done]. }
    apply is_ok_bind. intros wh _. rewrite (is_ok_bind _ _ true); [|done]. rewrite andb_true_r.
    unfold order_clause, order_ok. destruct ob as [k|]; [|done]. by destruct (dget k allowed) as [[]|].
  - intros k v Hin. apply elem_of_dkeys, Hk. unfold dkeys. apply list_elem_of_fmap. by exists (k, v).
Qed.

(** On flags the evidence field restricts nothing. *)
Lemma evidence_filter_on_flags_is_noop now v (r : Row) :
  ∃ allowed, _ALLOWLIST "flags" = Some allowed ∧
    row_wanted sat now "flags" allowed [("evidence.event.tool_name", v)] r = true.
Proof. eexists. split; reflexivity. Qed.
End properties.

(** Ordering flags by it raises something else than the error the caller turns into a refusal. *)
Lemma order_by_evidence_on_flags_raises now :
  match validate_query "flags" [] DEFAULT_LIMIT (Some "evidence__event__tool_name") true with
  | Ok q => match build_select now q with Raise e => exn_class e | Ok _ => "" end
  | Raise _ => ""
  end = "AttributeError".
Proof. by vm_compute. Qed.

(** ** Witnesses *)

(** Rows with a tenant and columns; a database that compares texts for equality. *)
Definition SampleRow : Type := string * list (string * string).

Definition sample_sat (c : Condition) (r : SampleRow) : bool :=
  match c_col c, c_op c, c_val c with
  | Col n, EQ, VJson (JStr s) => bool_decide (dget n r.2 = Some s)
  | Col n, IN, VJson (JArr l) => match dget n r.2 with Some s => bool_decide (JStr s ∈ l) | None => false end
  | _, _, _ => false
  end.

Definition sample_filter : list (string * json) :=
  [("severity", JObj [("in", JArr [JStr "high"; JStr "critical"])]); ("status", JStr "open")].

Definition sample_query : Query :=
  {| q_resource := "flags"; q_filter := sample_filter; q_limit := 1000; q_order_by := None; q_desc := true |}.

Definition ordered_query : Query :=
  {| q_resource := "flags"; q_filter := sample_filter; q_limit := 1000; q_order_by := Some "severity"; q_desc := true |}.

Definition row_of_flag (t sev st : string) : SampleRow := (t, [("severity", sev); ("status", st)]).

(** Two open flags in reverse order of severity, and one of another tenant. *)
Definition by_severity (col : ColExpr) (desc : bool) (l : list SampleRow) : list SampleRow :=
  if desc then reverse l else l.

Lemma run_query_exact_witness :
  let rows := [row_of_flag "t" "critical" "open"; row_of_flag "t" "high" "open"; row_of_flag "t" "low" "open";
               row_of_flag "u" "high" "open"] in
  let answer := [row_of_flag "t" "high" "open"; row_of_flag "t" "critical" "open"] in
  run_query fst sample_sat by_severity Some 0 ordered_query "t" rows = Ok answer ∧
  answer = take 1000 (reverse (bfilter (row_wanted sample_sat 0 "flags" (default [] (_ALLOWLIST "flags")) sample_filter)
                        [row_of_flag "t" "critical" "open"; row_of_flag "t" "high" "open"; row_of_flag "t" "low" "open"])).
Proof.
  intros rows answer.
  assert (validate_query "flags" sample_filter 1000 (Some "severity") true = Ok ordered_query) as Hv by reflexivity.
  assert (run_query fst sample_sat by_severity Some 0 ordered_query "t" rows = Ok answer) as Hr by reflexivity.
  split; [exact Hr|].
  destruct (run_query_exact fst sample_sat by_severity Some _ _ _ _ _ _ _ _ _ _ Hv Hr)
    as (allowed & visible & Ha & Hs & _ & _ & col & _ & Hl).
  vm_compute in Hs. injection Hs as <-. rewrite Ha. exact Hl.
Defined.

Lemma build_select_ok_iff_witness :
  validate_query "flags" sample_filter 1000 None true = Ok sample_query ∧
  is_ok (build_select 0 sample_query) = true.
Proof.
  assert (validate_query "flags" sample_filter 1000 None true = Ok sample_query) as Hv by reflexivity.
  split; [exact Hv|].
  destruct (build_select_ok_iff _ _ _ _ _ _ 0 Hv) as (allowed & Ha & -> & _).
  vm_compute in Ha. injection Ha as <-. reflexivity.
Defined.
