(* ===== verification/Runner.v ===== *)
(** * The harness runner

    Models [auditor/harness_runner.py]: the environment given to the child process ([build_child_env]),
    the life of a [HarnessRun] from its creation to its reaping by its own thread, the registry
    [_LIVE_RUNS] with its sweep, and [terminate].  The threads are interleaved: every write of the reaper
    that another thread can observe is a step of its own.  The certificate authority, the file system and
    the creation of a process are outcomes the environment chooses; platform flags are not modelled. *)

From Stdlib Require Import ZArith Lia SpecFloat.
From Stdlib Require String.
From stdpp Require Import base tactics option list strings gmap sets.
From S2P Require Import Prelude PyStr Float64 Json Budget Gate Store.

Local Open Scope Z_scope.

(** ** The environment of the child *)

Definition _ENV_ALLOWLIST_EXACT : list string :=
  ["PATH"; "PYTHONPATH"; "PYTHONUNBUFFERED"; "HOME"; "USER"; "TZ"; "LANG";
   "SYSTEMROOT"; "WINDIR"; "COMSPEC"; "PATHEXT"; "APPDATA"; "LOCALAPPDATA"; "PROGRAMDATA";
   "PROGRAMFILES"; "PROGRAMFILES(X86)"; "TEMP"; "TMP"; "TMPDIR";
   "ANTHROPIC_API_KEY"; "LITELLM_BASE_URL"; "LITELLM_API_KEY"; "AGENT_MODEL"; "JUDGE_MODEL"].

Definition _ENV_ALLOWLIST_PREFIXES : list string := ["LC_"].

Definition _ENV_DENYLIST_PREFIXES : list string :=
  ["JWT_"; "SECRET_"; "POSTGRES_"; "DATABASE_"; "DB_"; "OIDC_"; "OAUTH_"; "OPA_"; "REDIS_"; "MINIO_";
   "S3_"; "AWS_"; "AZURE_"; "GCP_"; "GOOGLE_APPLICATION_"; "FLY_API_"; "SLACK_"].

Definition any_prefix (ps : list string) (key : string) : bool := existsb (λ p, starts_with p key) ps.

(** [out.update(overrides)] *)
Definition dict_update (out overrides : list (string * string)) : list (string * string) :=
  foldl (λ out kv, dset kv.1 kv.2 out) out overrides.

Definition build_child_env (parent_env overrides : list (string * string)) : list (string * string) :=
  let out := foldl (λ out kv,
    if any_prefix _ENV_DENYLIST_PREFIXES kv.1 then out
    else if bool_decide (kv.1 ∈ _ENV_ALLOWLIST_EXACT) || any_prefix _ENV_ALLOWLIST_PREFIXES kv.1
         then dset kv.1 kv.2 out else out) [] parent_env in
  dict_update out overrides.

(** ** A run and the process it owns *)

(** Where the reaper thread stands: not started, blocked on the child, then before each of its writes
    with the exit code it read. *)
Inductive ReaperPc :=
| RNone
| RWait
| RExit (code : Z)
| REnded (code : Z)
| RStatus (code : Z)
| RLog (code : Z)
| RDb (code : Z)
| RDone.

(** The constructor's arguments. *)
Record Request := {
  q_run_id : uuid;
  q_tenant_id : uuid;
  q_task : string;
  q_max_turns : Z
}.

Record HarnessRun := {
  request : Request;
  hr_status : string;
  exit_code : option Z;
  started_at : option datetime;
  hr_ended_at : option datetime;
  hr_pid : option Z;
  log_open : bool;
  reaper : ReaperPc
}.

(** [_proc is not None]: [_proc] and [pid] are set together. *)
Definition has_proc (r : HarnessRun) : bool := bool_decide (is_Some (hr_pid r)).

(** [from_request]; the run id is a fresh [uuid7()]. *)
Definition from_request (run_id tenant_id : uuid) (task : string) (max_turns : Z) : HarnessRun :=
  {| request := {| q_run_id := run_id; q_tenant_id := tenant_id; q_task := task; q_max_turns := max_turns |};
     hr_status := "pending"; exit_code := None; started_at := None; hr_ended_at := None; hr_pid := None;
     log_open := false; reaper := RNone |}.

(** The run objects (held by the request that made them or by the registry), the registry's keys, the
    child processes that are not yet waited for with their exit code once they have exited, the tables,
    whether the main loop is set and running, and the runs a certificate was written for. *)
Record World := {
  objs : gmap uuid HarnessRun;
  _LIVE_RUNS : gset uuid;
  children : gmap Z (option Z);
  db : Db;
  main_loop : bool;
  cert_files : list uuid
}.

Definition set_obj (rid : uuid) (r : HarnessRun) (w : World) : World :=
  {| objs := <[rid := r]> (objs w); _LIVE_RUNS := _LIVE_RUNS w; children := children w; db := db w;
     main_loop := main_loop w; cert_files := cert_files w |}.

Definition set_children (c : gmap Z (option Z)) (w : World) : World :=
  {| objs := objs w; _LIVE_RUNS := _LIVE_RUNS w; children := c; db := db w;
     main_loop := main_loop w; cert_files := cert_files w |}.

Definition set_db (d : Db) (w : World) : World :=
  {| objs := objs w; _LIVE_RUNS := _LIVE_RUNS w; children := children w; db := d;
     main_loop := main_loop w; cert_files := cert_files w |}.

Definition set_live (l : gset uuid) (w : World) : World :=
  {| objs := objs w; _LIVE_RUNS := l; children := children w; db := db w;
     main_loop := main_loop w; cert_files := cert_files w |}.

Definition set_certs (l : list uuid) (w : World) : World :=
  {| objs := objs w; _LIVE_RUNS := _LIVE_RUNS w; children := children w; db := db w;
     main_loop := main_loop w; cert_files := l |}.

(** ** The registry *)

Definition _REGISTRY_TTL_SECONDS : Z := 30 * 60.

(** [now] is [time.time()]; a time stamp is its microseconds over a million. *)
Definition expired_run (now : f64) (r : HarnessRun) : bool :=
  match hr_ended_at r with
  | Some e => fltb (of_Z _REGISTRY_TTL_SECONDS) (fsub now (ratio e 1000000))
  | None => false
  end.

Definition is_expired (now : f64) (w : World) (rid : uuid) : bool :=
  match objs w !! rid with Some r => expired_run now r | None => false end.

Definition _sweep_expired_runs (now : f64) (w : World) : World :=
  set_live (filter (λ rid, is_expired now w rid = false) (_LIVE_RUNS w)) w.

Definition get_run (run_id : uuid) (w : World) : option HarnessRun :=
  if bool_decide (run_id ∈ _LIVE_RUNS w) then objs w !! run_id else None.

(** ** [start] *)

(** What the environment answers: the certificate, the directory and log file, the process with its
    id, the reaper thread. *)
Record StartEnv := {
  se_mint : result PyExn (string * string * string);
  se_log : result PyExn ();
  se_popen : result PyExn Z;
  se_thread : result PyExn ()
}.

Definition harness_overrides (q : Request) (paths : string * string * string)
    (environ : list (string * string)) : list (string * string) :=
  [("HARNESS_MODE", "agent"); ("HARNESS_TASK", q_task q); ("HARNESS_MAX_TURNS", dec (q_max_turns q));
   ("HARNESS_CERT", paths.1.1); ("HARNESS_KEY", paths.1.2); ("HARNESS_CA", paths.2);
   ("HARNESS_RUN_ID", q_run_id q); ("HARNESS_TENANT_ID", q_tenant_id q);
   ("GATE_TIMEOUT_MS", default "500" (dget "GATE_TIMEOUT_MS" environ));
   ("IPC_MTLS_ENABLED", default "false" (dget "IPC_MTLS_ENABLED" environ))].

Definition with_log (r : HarnessRun) : HarnessRun :=
  {| request := request r; hr_status := hr_status r; exit_code := exit_code r; started_at := started_at r;
     hr_ended_at := hr_ended_at r; hr_pid := hr_pid r; log_open := true; reaper := reaper r |}.

Definition spawned (pid : Z) (now : datetime) (r : HarnessRun) : HarnessRun :=
  {| request := request r; hr_status := "running"; exit_code := exit_code r; started_at := Some now;
     hr_ended_at := hr_ended_at r; hr_pid := Some pid; log_open := log_open r; reaper := reaper r |}.

Definition with_reaper (pc : ReaperPc) (r : HarnessRun) : HarnessRun :=
  {| request := request r; hr_status := hr_status r; exit_code := exit_code r; started_at := started_at r;
     hr_ended_at := hr_ended_at r; hr_pid := hr_pid r; log_open := log_open r; reaper := pc |}.

(** [start] up to the start of the reaper thread, with the environment of the process it spawned: the
    guard against a second start, the sweep, the certificate, the log file, the process, the thread.
    The registration follows as a step of its own. *)
Definition start (e : StartEnv) (environ : list (string * string)) (now : datetime) (now_s : f64)
    (rid : uuid) (r : HarnessRun) (w : World) : World * result PyExn (list (string * string)) :=
  if has_proc r then (w, raise "RuntimeError" ("HarnessRun " +:+ rid +:+ " already started"))
  else
    let w := _sweep_expired_runs now_s w in
    match se_mint e with
    | Raise x => (w, Raise x)
    | Ok paths =>
        let w := set_certs (cert_files w ++ [rid]) w in
        let env := build_child_env environ (harness_overrides (request r) paths environ) in
        match se_log e with
        | Raise x => (w, Raise x)
        | Ok () =>
            let r := with_log r in
            match se_popen e with
            | Raise x => (set_obj rid r w, Raise x)
            | Ok pid =>
                let r := spawned pid now r in
                let w := set_children (<[pid := None]> (children w)) w in
                match se_thread e with
                | Raise x => (set_obj rid r w, Raise x)
                | Ok () => (set_obj rid (with_reaper RWait r) w, Ok env)
                end
            end
        end
    end.

Definition register (rid : uuid) (w : World) : World := set_live (_LIVE_RUNS w ∪ {[rid]}) w.

(** ** The reaper thread ([_reap]) *)

Definition terminal_status (code : Z) : string :=
  if code =? 0 then "completed" else "exited(" +:+ dec code +:+ ")".

Definition with_exit (code : Z) (r : HarnessRun) : HarnessRun :=
  {| request := request r; hr_status := hr_status r; exit_code := Some code; started_at := started_at r;
     hr_ended_at := hr_ended_at r; hr_pid := hr_pid r; log_open := log_open r; reaper := REnded code |}.

Definition with_ended (code : Z) (now : datetime) (r : HarnessRun) : HarnessRun :=
  {| request := request r; hr_status := hr_status r; exit_code := exit_code r; started_at := started_at r;
     hr_ended_at := Some now; hr_pid := hr_pid r; log_open := log_open r; reaper := RStatus code |}.

Definition with_status (code : Z) (r : HarnessRun) : HarnessRun :=
  {| request := request r; hr_status := terminal_status code; exit_code := exit_code r;
     started_at := started_at r; hr_ended_at := hr_ended_at r; hr_pid := hr_pid r; log_open := log_open r;
     reaper := RLog code |}.

Definition with_log_closed (code : Z) (r : HarnessRun) : HarnessRun :=
  {| request := request r; hr_status := hr_status r; exit_code := exit_code r; started_at := started_at r;
     hr_ended_at := hr_ended_at r; hr_pid := hr_pid r; log_open := false; reaper := RDb code |}.

(** The write of the terminal row, scheduled on the main loop when there is one; its failure is logged. *)
Definition reap_db (written : bool) (now : datetime) (rid : uuid) (w : World) : World :=
  if main_loop w && written then
    match parse_uuid rid with
    | Some u => set_db (mark_run_completed u now (db w)) w
    | None => w
    end
  else w.

(** One step of the thread.  [waited] is what [proc.wait()] does when it returns: the exit code, or an
    exception; [written] whether the database took the write. *)
Definition reap_step (wait_fails written : bool) (now : datetime) (rid : uuid) (r : HarnessRun) (w : World)
    : option World :=
  match reaper r with
  | RNone | RDone => None
  | RWait =>
      match hr_pid r with
      | None => None
      | Some pid =>
          if wait_fails then Some (set_obj rid (with_reaper (RExit (-1)) r) w)
          else match children w !! pid with
               | Some (Some code) =>
                   Some (set_obj rid (with_reaper (RExit code) r) (set_children (delete pid (children w)) w))
               | _ => None
               end
      end
  | RExit code => Some (set_obj rid (with_exit code r) w)
  | REnded code => Some (set_obj rid (with_ended code now r) w)
  | RStatus code => Some (set_obj rid (with_status code r) w)
  | RLog code => Some (set_obj rid (with_log_closed code r) w)
  | RDb code => Some (set_obj rid (with_reaper RDone r) (reap_db written now rid w))
  end.

(** ** [terminate] *)

Inductive Signal := SigTerm | SigKill.

(** The polling loop; [clock n] and [poll n] are the [n]-th readings of the clock and of the process. *)
Fixpoint terminate_loop (fuel n : nat) (deadline : f64) (clock : nat → f64) (poll : nat → option Z)
    : option (list Signal) :=
  match fuel with
  | O => None
  | S fuel' =>
      if fltb (clock n) deadline then
        match poll n with
        | Some _ => Some []
        | None => terminate_loop fuel' (S n) deadline clock poll
        end
      else Some [SigKill]
  end.

(** [terminate]: the signals sent; reading 0 is the one before the loop. *)
Definition terminate (fuel : nat) (timeout : f64) (clock : nat → f64) (poll : nat → option Z)
    (r : HarnessRun) : option (list Signal) :=
  if negb (has_proc r) || bool_decide (is_Some (poll 0%nat)) then Some []
  else cons SigTerm <$> terminate_loop fuel 1 (fadd (clock 0%nat) timeout) clock poll.

(** ** The interleaving *)

Inductive label := LReap (rid : uuid) | LOther.

Section steps.
(** The operations of the other writers of the tables. *)
Context (redact_text : string → string) (detect_entities : string → list string) (redact_at_rest : bool).

Inductive step : label → World → World → Prop :=
| step_request rid t task turns w :
    objs w !! rid = None → step LOther w (set_obj rid (from_request rid t task turns) w)
| step_start e environ now now_s rid r w :
    objs w !! rid = Some r → (∀ pid, se_popen e = Ok pid → children w !! pid = None) →
    step LOther w (start e environ now now_s rid r w).1
| step_register rid r w :
    objs w !! rid = Some r → reaper r ≠ RNone → step LOther w (register rid w)
| step_exit pid code w :
    children w !! pid = Some None → step LOther w (set_children (<[pid := Some code]> (children w)) w)
| step_reap wait_fails written now rid r w w' :
    objs w !! rid = Some r → reap_step wait_fails written now rid r w = Some w' → step (LReap rid) w w'
| step_sweep now_s w : step LOther w (_sweep_expired_runs now_s w)
| step_loop b w :
    step LOther w {| objs := objs w; _LIVE_RUNS := _LIVE_RUNS w; children := children w; db := db w;
                     main_loop := b; cert_files := cert_files w |}
| step_db op w : step LOther w (set_db (db_step redact_text detect_entities redact_at_rest (db w) op) w).

Inductive steps : list label → World → World → Prop :=
| steps_nil w : steps [] w w
| steps_cons l tr w1 w2 w3 : step l w1 w2 → steps tr w2 w3 → steps (l :: tr) w1 w3.
End steps.

(** The auditor has just booted. *)
Definition boot (d : Db) : World :=
  {| objs := ∅; _LIVE_RUNS := ∅; children := ∅; db := d; main_loop := false; cert_files := [] |}.

(** ** The child's environment *)

Lemma dget_dict_update out overrides k :
  NoDup (dkeys overrides) →
  dget k (dict_update out overrides) = match dget k overrides with Some v => Some v | None => dget k out end.
Proof.
  revert out. induction overrides as [|[k0 v0] l IH]; intros out Hn; [done|]. simpl.
  rewrite dkeys_cons in Hn. apply NoDup_cons in Hn as [Hk Hn].
  change (dict_update out ((k0, v0) :: l)) with (dict_update (dset k0 v0 out) l). rewrite IH by done.
  rewrite dget_dset. destruct (decide (k0 = k)) as [->|Hne]; [|done].
  by rewrite (proj2 (dget_None k l)) by done.
Qed.

(** What the parent's environment contributes. *)
Definition inherited (k : string) : bool :=
  negb (any_prefix _ENV_DENYLIST_PREFIXES k) &&
  (bool_decide (k ∈ _ENV_ALLOWLIST_EXACT) || any_prefix _ENV_ALLOWLIST_PREFIXES k).

Lemma filter_env_as_update parent_env out :
  foldl (λ out kv,
    if any_prefix _ENV_DENYLIST_PREFIXES kv.1 then out
    else if bool_decide (kv.1 ∈ _ENV_ALLOWLIST_EXACT) || any_prefix _ENV_ALLOWLIST_PREFIXES kv.1
         then dset kv.1 kv.2 out else out) out parent_env =
  dict_update out (bfilter (λ kv, inherited kv.1) parent_env).
Proof.
  revert out. induction parent_env as [|[k v] l IH]; intros out; [done|].
  cbn [foldl]. rewrite IH, bfilter_cons. unfold inherited. cbn [fst snd].
  destruct (any_prefix _ENV_DENYLIST_PREFIXES k); [done|].
  by destruct (bool_decide (k ∈ _ENV_ALLOWLIST_EXACT) || any_prefix _ENV_ALLOWLIST_PREFIXES k).
Qed.

Lemma dkeys_bfilter_key {V} (p : string → bool) (d : list (string * V)) :
  NoDup (dkeys d) → NoDup (dkeys (bfilter (λ kv, p kv.1) d)).
Proof.
  unfold dkeys, bfilter. intros H. eapply sublist_NoDup; [exact H|]. apply (fmap_sublist fst), sublist_filter.
Qed.

Lemma child_env_lookup parent_env overrides k :
  NoDup (dkeys parent_env) → NoDup (dkeys overrides) →
  dget k (build_child_env parent_env overrides) =
    match dget k overrides with
    | Some v => Some v
    | None => if inherited k then dget k parent_env else None
    end.
Proof.
  intros Hp Ho. unfold build_child_env. rewrite filter_env_as_update, !dget_dict_update by auto using dkeys_bfilter_key.
  destruct (dget k overrides); [done|]. rewrite dget_bfilter_key. destruct (inherited k); [|done].
  by destruct (dget k parent_env).
Qed.

Lemma overrides_keys q paths environ : dkeys (harness_overrides q paths environ) =
  ["HARNESS_MODE"; "HARNESS_TASK"; "HARNESS_MAX_TURNS"; "HARNESS_CERT"; "HARNESS_KEY"; "HARNESS_CA";
   "HARNESS_RUN_ID"; "HARNESS_TENANT_ID"; "GATE_TIMEOUT_MS"; "IPC_MTLS_ENABLED"].
Proof. done. Qed.

Lemma overrides_NoDup q paths environ : NoDup (dkeys (harness_overrides q paths environ)).
Proof. rewrite overrides_keys. by_decision. Qed.

Lemma start_ok e environ now now_s rid r w w' env :
  start e environ now now_s rid r w = (w', Ok env) →
  ∃ paths pid, has_proc r = false ∧ se_mint e = Ok paths ∧ se_popen e = Ok pid ∧
    env = build_child_env environ (harness_overrides (request r) paths environ) ∧
    w' = set_obj rid (with_reaper RWait (spawned pid now (with_log r)))
           (set_children (<[pid := None]> (children w))
              (set_certs (cert_files w ++ [rid]) (_sweep_expired_runs now_s w))).
Proof.
  unfold start. destruct (has_proc r) eqn:Hp; [done|]. destruct (se_mint e) as [paths|] eqn:Em; [|done].
  destruct (se_log e) as [[]|]; [|done]. destruct (se_popen e) as [pid|] eqn:Ep; [|done].
  destruct (se_thread e) as [[]|]; [|done]. intros [= <- <-]. eauto 10.
Qed.

(** C15: The process [start] spawns gets the ten variables of the run, and of the auditor's own
    environment exactly the variables that are allow-listed and carry no prefix of the deny-list: no
    variable of the child has such a prefix, whatever the auditor's environment holds. *)
Theorem child_env_has_no_secret e environ now now_s rid r w w' env :
  NoDup (dkeys environ) →
  start e environ now now_s rid r w = (w', Ok env) →
  (∃ paths, se_mint e = Ok paths ∧
   ∀ k, dget k env =
     match dget k (harness_overrides (request r) paths environ) with
     | Some v => Some v
     | None => if inherited k then dget k environ else None
     end) ∧
  (∀ k, k ∈ dkeys env → any_prefix _ENV_DENYLIST_PREFIXES k = false).
Proof.
  intros Hn (paths & pid & _ & Hm & _ & -> & _)%start_ok.
  assert (∀ k, dget k (build_child_env environ (harness_overrides (request r) paths environ)) =
    match dget k (harness_overrides (request r) paths environ) with
    | Some v => Some v | None => if inherited k then dget k environ else None end) as Hk.
  { intros k. apply child_env_lookup; [done|apply overrides_NoDup]. }
  split; [by exists paths|]. intros k [v Hv]%elem_of_dkeys. rewrite Hk in Hv.
  destruct (dget k (harness_overrides _ _ _)) eqn:Ho.
  - assert (k ∈ dkeys (harness_overrides (request r) paths environ)) as Hin
      by (apply elem_of_dkeys; by rewrite Ho).
    rewrite overrides_keys in Hin. clear -Hin.
    repeat (apply elem_of_cons in Hin as [->|Hin]; [by vm_compute|]). by apply elem_of_nil in Hin.
  - unfold inherited in Hv. destruct (any_prefix _ENV_DENYLIST_PREFIXES k); [done|done].
Qed.

(** ** The invariant of the interleaving *)

Definition terminal (c : Z) (r : HarnessRun) : Prop :=
  hr_status r = terminal_status c ∧ exit_code r = Some c ∧ is_Some (hr_ended_at r).

Definition unfinished (r : HarnessRun) : Prop :=
  hr_status r = "running" ∧ is_Some (hr_pid r) ∧ log_open r = true.

(** What the fields hold at each point of the reaper. *)
Definition run_inv (r : HarnessRun) : Prop :=
  match reaper r with
  | RNone => exit_code r = None ∧ hr_ended_at r = None ∧
             ((hr_status r = "pending" ∧ hr_pid r = None) ∨ (hr_status r = "running" ∧ is_Some (hr_pid r)))
  | RWait | RExit _ => unfinished r ∧ exit_code r = None ∧ hr_ended_at r = None
  | REnded c => unfinished r ∧ exit_code r = Some c ∧ hr_ended_at r = None
  | RStatus c => unfinished r ∧ exit_code r = Some c ∧ is_Some (hr_ended_at r)
  | RLog c => terminal c r ∧ is_Some (hr_pid r)
  | RDb c => terminal c r ∧ log_open r = false ∧ is_Some (hr_pid r)
  | RDone => (∃ c, terminal c r) ∧ log_open r = false ∧ is_Some (hr_pid r)
  end.

Definition waits_for (w : World) (rid : uuid) (pid : Z) : Prop :=
  ∃ r, objs w !! rid = Some r ∧ reaper r = RWait ∧ hr_pid r = Some pid.

Record world_inv (w : World) : Prop := {
  wi_runs : ∀ rid r, objs w !! rid = Some r → run_inv r;
  wi_live : ∀ rid, rid ∈ _LIVE_RUNS w → ∃ r, objs w !! rid = Some r ∧ reaper r ≠ RNone;
  wi_child : ∀ rid pid, waits_for w rid pid → is_Some (children w !! pid);
  wi_own : ∀ rid rid' pid, waits_for w rid pid → waits_for w rid' pid → rid = rid'
}.

Lemma boot_inv d : world_inv (boot d).
Proof.
  split; unfold waits_for, boot; simpl; [by intros rid r ?%lookup_empty_Some|set_solver| |];
    intros rid pid; [|intros pid']; intros (r & ?%lookup_empty_Some & _); done.
Qed.

(** Steps that leave the objects and the children alone, and drop runs from the registry at most. *)
Lemma inv_quiet w w' :
  objs w' = objs w → children w' = children w → _LIVE_RUNS w' ⊆ _LIVE_RUNS w → world_inv w → world_inv w'.
Proof.
  intros Ho Hc Hl [H1 H2 H3 H4]. split; unfold waits_for; rewrite ?Ho, ?Hc; [done| |done|done].
  intros rid Hin. apply H2. set_solver.
Qed.

(** An object that does not wait for a child replaces one of the same run. *)
Lemma inv_update rid r w c :
  world_inv w → run_inv r → reaper r ≠ RWait →
  (rid ∈ _LIVE_RUNS w → reaper r ≠ RNone) →
  (∀ rid' pid, rid' ≠ rid → waits_for w rid' pid → is_Some (c !! pid)) →
  world_inv (set_obj rid r (set_children c w)).
Proof.
  intros [H1 H2 H3 H4] Hr Hw Hl Hc.
  assert (∀ i p, waits_for (set_obj rid r (set_children c w)) i p → i ≠ rid ∧ waits_for w i p) as Hwf.
  { intros i p (x & Hx & Hx2 & Hx3). simpl in Hx. rewrite lookup_insert in Hx.
    case_decide; simplify_eq. split; [done|by exists x]. }
  split.
  - intros i x. simpl. rewrite lookup_insert. case_decide; [by intros [= <-]|apply H1].
  - intros i Hi. simpl in *. rewrite lookup_insert. case_decide as Hd; [|by apply H2].
    subst. eauto.
  - intros i p [Hi Hp]%Hwf. by eapply Hc.
  - intros i j p [_ Hi]%Hwf [_ Hj]%Hwf. by eapply H4.
Qed.

Lemma inv_update_same rid r w :
  world_inv w → run_inv r → reaper r ≠ RWait → (rid ∈ _LIVE_RUNS w → reaper r ≠ RNone) →
  world_inv (set_obj rid r w).
Proof.
  intros Hw Hr Hn Hl. apply (inv_update rid r w (children w) Hw Hr Hn Hl). intros i p _. apply Hw.
Qed.

(** A thread blocks on a process that is new. *)
Lemma inv_spawn rid r w pid :
  world_inv w → run_inv r → reaper r = RWait → hr_pid r = Some pid → children w !! pid = None →
  world_inv (set_obj rid r (set_children (<[pid := None]> (children w)) w)).
Proof.
  intros [H1 H2 H3 H4] Hr Hw Hp Hfresh.
  assert (∀ i p, waits_for (set_obj rid r (set_children (<[pid := None]> (children w)) w)) i p →
    (i = rid ∧ p = pid) ∨ (p ≠ pid ∧ waits_for w i p)) as Hwf.
  { intros i p (x & Hx & Hx2 & Hx3). simpl in Hx. rewrite lookup_insert in Hx.
    case_decide; simplify_eq; [by left|right].
    assert (waits_for w i p) as Hi by by exists x. split; [|done].
    intros ->. apply H3 in Hi. rewrite Hfresh in Hi. by destruct Hi. }
  split.
  - intros i x. simpl. rewrite lookup_insert. case_decide; [by intros [= <-]|apply H1].
  - intros i Hi. simpl in *. rewrite lookup_insert. case_decide as Hd; [|by apply H2].
    subst. eexists. split; [done|]. by rewrite Hw.
  - intros i p [[-> ->]|[Hp' Hi]]%Hwf; simpl; rewrite lookup_insert; case_decide; try congruence; eauto.
  - intros i j p [[-> ->]|[Hp' Hi]]%Hwf [[-> ?]|[Hp'' Hj]]%Hwf; simplify_eq; eauto.
Qed.

Lemma reap_db_same written now rid w :
  objs (reap_db written now rid w) = objs w ∧ children (reap_db written now rid w) = children w ∧
  _LIVE_RUNS (reap_db written now rid w) = _LIVE_RUNS w.
Proof. unfold reap_db. destruct (_ && _); [|done]. by destruct (parse_uuid rid). Qed.

Lemma start_inv e environ now now_s rid r w :
  world_inv w → objs w !! rid = Some r → (∀ pid, se_popen e = Ok pid → children w !! pid = None) →
  world_inv (start e environ now now_s rid r w).1.
Proof.
  intros Hw Hr Hfresh. unfold start. destruct (has_proc r) eqn:Hp; [done|].
  set (w1 := _sweep_expired_runs now_s w).
  assert (world_inv w1) as Hw1 by (apply (inv_quiet w); [done|done|simpl; set_solver|done]).
  destruct (se_mint e) as [paths|x]; [|done].
  set (w2 := set_certs _ w1).
  assert (world_inv w2) as Hw2 by (by apply (inv_quiet w1)).
  destruct (se_log e) as [[]|x]; [|done].
  pose proof (wi_runs _ Hw _ _ Hr) as Hinv.
  assert (reaper r = RNone ∧ exit_code r = None ∧ hr_ended_at r = None ∧ hr_status r = "pending" ∧ hr_pid r = None)
    as (Hpc & He & Hend & Hst & Hpid).
  { apply bool_decide_eq_false in Hp. unfold run_inv, unfinished in Hinv.
    destruct (reaper r); naive_solver. }
  assert (rid ∉ _LIVE_RUNS w1) as Hnl.
  { intros Hin. destruct (wi_live _ Hw1 _ Hin) as (x & Hx & Hn). simpl in Hx. by simplify_eq. }
  destruct (se_popen e) as [pid|x].
  - specialize (Hfresh pid eq_refl). destruct (se_thread e) as [[]|x]; cbn [fst].
    + by apply inv_spawn.
    + apply inv_update; try done; [| |]; simpl.
      * unfold run_inv. simpl. rewrite Hpc. split_and!; [done..|]. right. eauto.
      * by rewrite Hpc.
      * intros i p _ Hwait. rewrite lookup_insert. case_decide; [eauto|]. by apply Hw in Hwait.
  - cbn [fst]. apply inv_update_same; simpl; [done| |by rewrite Hpc|done].
    unfold run_inv. simpl. rewrite Hpc. eauto 10.
Qed.

Lemma reap_inv wait_fails written now rid r w w' :
  world_inv w → objs w !! rid = Some r → reap_step wait_fails written now rid r w = Some w' → world_inv w'.
Proof.
  intros Hw Hr Hs. pose proof (wi_runs _ Hw _ _ Hr) as Hinv. unfold reap_step in Hs.
  destruct (reaper r) as [| |c|c|c|c|c|] eqn:Hpc; unfold run_inv in Hinv; rewrite Hpc in Hinv; try done.
  - destruct (hr_pid r) as [pid|] eqn:Hpid; [|done]. destruct wait_fails; simplify_eq.
    { by apply inv_update_same. }
    destruct (children w !! pid) as [[code|]|] eqn:Hc; simplify_eq.
    apply inv_update; try done.
    intros i p Hi Hwait. rewrite lookup_delete_ne; [by eapply wi_child|]. intros <-. apply Hi.
    eapply wi_own; [done..|]. by exists r.
  - injection Hs as <-. apply inv_update_same; try done. unfold run_inv, unfinished in *. simpl. naive_solver.
  - injection Hs as <-. apply inv_update_same; try done. unfold run_inv, unfinished in *. simpl. naive_solver.
  - injection Hs as <-. apply inv_update_same; try done. unfold run_inv, unfinished, terminal in *. simpl. naive_solver.
  - injection Hs as <-. apply inv_update_same; try done. unfold run_inv, unfinished, terminal in *. simpl. naive_solver.
  - injection Hs as <-. destruct (reap_db_same written now rid w) as (E1 & E2 & E3).
    apply inv_update_same; simpl; [by apply (inv_quiet w); [..|rewrite E3|]| |done|done].
    unfold run_inv, terminal in *. simpl. naive_solver.
Qed.

(** ** Every interleaving *)

Definition reaps (rid : uuid) (l : label) : bool :=
  match l with LReap i => bool_decide (i = rid) | LOther => false end.

(** The steps the thread has left. *)
Definition left_to_do (pc : ReaperPc) : nat :=
  match pc with
  | RNone => 7 | RWait => 6 | RExit _ => 5 | REnded _ => 4 | RStatus _ => 3 | RLog _ => 2 | RDb _ => 1
  | RDone => 0
  end.

(** The process of the run has exited, or the thread is past waiting for it. *)
Definition child_exited (w : World) (r : HarnessRun) : Prop :=
  match reaper r with
  | RNone => False
  | RWait => ∃ pid code, hr_pid r = Some pid ∧ children w !! pid = Some (Some code)
  | _ => True
  end.

Lemma reap_step_effect wait_fails written now rid r w w' :
  reap_step wait_fails written now rid r w = Some w' →
  ∃ r', objs w' = <[rid := r']> (objs w) ∧ S (left_to_do (reaper r')) = left_to_do (reaper r) ∧
    reaper r' ≠ RNone ∧ reaper r' ≠ RWait.
Proof.
  unfold reap_step. destruct (reaper r) eqn:Hpc; try done.
  - destruct (hr_pid r); [|done]. destruct wait_fails; [intros [= <-]; by eexists|].
    destruct (children w !! z) as [[code|]|]; [|done..]. intros [= <-]. by eexists.
  - intros [= <-]. by eexists.
  - intros [= <-]. by eexists.
  - intros [= <-]. by eexists.
  - intros [= <-]. by eexists.
  - intros [= <-]. destruct (reap_db_same written now rid w) as (E & _ & _). simpl. rewrite E. by eexists.
Qed.

Section trace.
Context (redact_text : string → string) (detect_entities : string → list string) (redact_at_rest : bool).

Notation step := (step redact_text detect_entities redact_at_rest).
Notation steps := (steps redact_text detect_entities redact_at_rest).

Lemma step_inv l w w' : step l w w' → world_inv w → world_inv w'.
Proof.
  intros Hs Hw. destruct Hs as [rid t task turns w Hn|e environ now now_s rid r w Hr Hf|rid r w Hr Hpc
    |pid code w Hc|wf wr now rid r w w' Hr Hst|now_s w|b w|op w].
  - apply inv_update_same; try done; [by repeat split; left|].
    intros Hin. destruct (wi_live _ Hw _ Hin) as (x & Hx & _). congruence.
  - by apply start_inv.
  - destruct Hw as [H1 H2 H3 H4]. split; [done| |done|done]. intros i. simpl.
    rewrite elem_of_union, elem_of_singleton. intros [Hi| ->]; [by apply H2|eauto].
  - destruct Hw as [H1 H2 H3 H4]. split; [done|done| |done].
    intros i p Hi. simpl. rewrite lookup_insert. case_decide; [eauto|by eapply H3].
  - by eapply reap_inv.
  - apply (inv_quiet w); [done|done|simpl; set_solver|done].
  - by apply (inv_quiet w).
  - by apply (inv_quiet w).
Qed.

Lemma steps_inv tr w w' : steps tr w w' → world_inv w → world_inv w'.
Proof. induction 1; eauto using step_inv. Qed.

(** A step of another thread leaves a started run as it is; one of its own thread advances it. *)
Lemma step_run l w w' rid r :
  step l w w' → world_inv w → objs w !! rid = Some r → reaper r ≠ RNone →
  ∃ r', objs w' !! rid = Some r' ∧ reaper r' ≠ RNone ∧
    if reaps rid l then S (left_to_do (reaper r')) = left_to_do (reaper r) ∧ reaper r' ≠ RWait else r' = r.
Proof.
  intros Hs Hw Hr Hpc. destruct Hs as [i t task turns w Hn|e environ now now_s i x w Hx Hf|i x w Hx Hp
    |pid code w Hc|wf wr now i x w w' Hx Hst|now_s w|b w|op w]; simpl; eauto.
  - rewrite lookup_insert_ne by (intros ->; congruence). eauto.
  - destruct (decide (i = rid)) as [->|Hne].
    + simplify_eq. pose proof (wi_runs _ Hw _ _ Hx) as Hinv. unfold start.
      assert (has_proc x = true) as ->; [|by eauto].
      apply bool_decide_eq_true. unfold run_inv, unfinished in Hinv. destruct (reaper x); naive_solver.
    + exists r. split; [|done]. unfold start. destruct (has_proc x); [done|].
      destruct (se_mint e); [|done]. destruct (se_log e) as [[]|]; [|done].
      destruct (se_popen e); [destruct (se_thread e) as [[]|]|]; simpl; by rewrite lookup_insert_ne.
  - apply reap_step_effect in Hst as (r' & E & Hrank & Hn & Hnw). rewrite E, lookup_insert.
    case_bool_decide; case_decide; try congruence; simplify_eq; eauto 10.
Qed.

Lemma step_exited l w w' rid r r' :
  step l w w' → world_inv w → objs w !! rid = Some r → child_exited w r →
  objs w' !! rid = Some r' → child_exited w' r'.
Proof.
  intros Hs Hw Hr He Hr'.
  assert (reaper r ≠ RNone) as Hpc by (intros E; unfold child_exited in He; by rewrite E in He).
  destruct (step_run _ _ _ _ _ Hs Hw Hr Hpc) as (x & Hx & Hxn & Hcase). simplify_eq.
  destruct (reaps rid l) eqn:El.
  { unfold child_exited. destruct Hcase as [_ Hcase]. by destruct (reaper r'). }
  subst r'. unfold child_exited in *. destruct (reaper r) eqn:Ep; try done.
  destruct He as (pid & code & Hpid & Hc). exists pid, code. split; [done|].
  destruct Hs as [i t task turns w Hn|e environ now now_s i x w Hx' Hf|i x w Hx' Hp
    |pid' code' w Hc'|wf wr now i x w w' Hx' Hst|now_s w|b w|op w]; try done.
  - unfold start. destruct (has_proc x); [done|]. destruct (se_mint e); [|done].
    destruct (se_log e) as [[]|]; [|done].
    destruct (se_popen e) as [p|] eqn:Ee; [|done].
    assert (p ≠ pid) by (intros ->; specialize (Hf _ eq_refl); congruence).
    destruct (se_thread e) as [[]|]; simpl; by rewrite lookup_insert_ne.
  - simpl. rewrite lookup_insert_ne; [done|]. intros ->. congruence.
  - simpl in El. apply bool_decide_eq_false in El. unfold reap_step in Hst.
    destruct (reaper x) eqn:Epx; try done; try (by injection Hst as <-).
    + destruct (hr_pid x) as [p|] eqn:Epid; [|done]. destruct wf; [by injection Hst as <-|].
      destruct (children w !! p) as [[code'|]|]; [|done..]. injection Hst as <-. simpl.
      rewrite lookup_delete_ne; [done|]. intros ->. apply El.
      eapply (wi_own _ Hw); [by exists x|by exists r].
    + injection Hst as <-. simpl. by rewrite (proj1 (proj2 (reap_db_same wr now i w))).
Qed.

Lemma reap_enabled w rid r :
  world_inv w → objs w !! rid = Some r → child_exited w r → reaper r ≠ RDone →
  ∃ w', step (LReap rid) w w'.
Proof.
  intros Hw Hr He Hd.
  assert (∃ w', reap_step false true 0 rid r w = Some w') as [w' Hw']; [|by exists w'; econstructor].
  unfold reap_step. unfold child_exited in He. destruct (reaper r); try done; eauto.
  destruct He as (pid & code & -> & ->). eauto.
Qed.

(** C14: A run whose process has exited reaches its final state under every schedule that lets its reaper
    run.  From any reachable state, whatever the other threads do: the reaper can take its next step
    until it is done, each of its steps brings it closer and no step of another thread touches the run,
    so six steps suffice; then the status is final, the exit code and the end time are recorded and the
    log file is closed. *)
Theorem exited_run_is_reaped d tr w rid r tr' w' :
  steps tr (boot d) w → objs w !! rid = Some r → child_exited w r → steps tr' w w' →
  ∃ r', objs w' !! rid = Some r' ∧
    (left_to_do (reaper r') + length (bfilter (reaps rid) tr') = left_to_do (reaper r))%nat ∧
    (reaper r' ≠ RDone → ∃ w'', step (LReap rid) w' w'') ∧
    (reaper r' = RDone ↔ length (bfilter (reaps rid) tr') = left_to_do (reaper r)) ∧
    (left_to_do (reaper r) ≤ 6)%nat ∧
    (reaper r' = RDone → (∃ c, terminal c r') ∧ log_open r' = false).
Proof.
  intros Hb Hr He Ht. pose proof (steps_inv _ _ _ Hb (boot_inv d)) as Hw. clear Hb tr.
  assert (left_to_do (reaper r) ≤ 6)%nat as H6 by (unfold child_exited in He; destruct (reaper r); simpl; [done|lia..]).
  assert (∃ r', objs w' !! rid = Some r' ∧ child_exited w' r' ∧ world_inv w' ∧
    (left_to_do (reaper r') + length (bfilter (reaps rid) tr') = left_to_do (reaper r))%nat)
    as (r' & Hr' & He' & Hw' & Hc).
  { clear H6. revert r Hr He. induction Ht as [w|l tr w w1 w2 Hs Ht IH]; intros r Hr He.
    - exists r. simpl. by rewrite Nat.add_0_r.
    - assert (reaper r ≠ RNone) as Hpc by (intros E; unfold child_exited in He; by rewrite E in He).
      destruct (step_run _ _ _ _ _ Hs Hw Hr Hpc) as (r1 & Hr1 & Hn1 & Hcase).
      destruct (IH (step_inv _ _ _ Hs Hw) r1 Hr1 (step_exited _ _ _ _ _ _ Hs Hw Hr He Hr1))
        as (r' & Hr' & He' & Hw' & Hc).
      exists r'. split_and!; try done. rewrite bfilter_cons. destruct (reaps rid l); simpl; [lia|by subst]. }
  exists r'. split_and!; try done; [by eapply reap_enabled| |].
  - split; [intros Hd; rewrite Hd in Hc; simpl in Hc; lia|]. intros Hn.
    assert (left_to_do (reaper r') = 0)%nat as H0 by lia. by destruct (reaper r').
  - intros Hd. pose proof (wi_runs _ Hw' _ _ Hr') as Hi. unfold run_inv in Hi. rewrite Hd in Hi. naive_solver.
Qed.

(** What a reader of the registry sees is consistent in every reachable state: the run is started,
    and its status is running or else final with the exit code it names and an end time; the log file of
    a running run is open; and the sweep forgets only runs whose end time is recorded and has expired. *)
Theorem published_status_consistent d tr w rid r :
  steps tr (boot d) w → get_run rid w = Some r →
  (hr_status r = "running" ∨ ∃ c, terminal c r) ∧ is_Some (hr_pid r) ∧
  (log_open r = false → ∃ c, terminal c r) ∧
  (∀ now, get_run rid (_sweep_expired_runs now w) =
     if expired_run now r then None else Some r) ∧
  (∀ now, expired_run now r = true → is_Some (exit_code r)).
Proof.
  intros Hb Hg. pose proof (steps_inv _ _ _ Hb (boot_inv d)) as Hw.
  unfold get_run in Hg. case_bool_decide as Hin; [|done].
  destruct (wi_live _ Hw _ Hin) as (x & Hx & Hpc). rewrite Hg in Hx. injection Hx as <-.
  pose proof (wi_runs _ Hw _ _ Hg) as Hi. split_and!.
  - unfold run_inv, unfinished in Hi. destruct (reaper r); naive_solver.
  - unfold run_inv, unfinished in Hi. destruct (reaper r); naive_solver.
  - intros Hl. unfold run_inv, unfinished in Hi. destruct (reaper r); naive_solver congruence.
  - intros now. unfold get_run, _sweep_expired_runs, is_expired. simpl.
    destruct (expired_run now r) eqn:E.
    + rewrite bool_decide_eq_false_2; [done|]. rewrite elem_of_filter, Hg, E. naive_solver.
    + rewrite bool_decide_eq_true_2; [done|]. by rewrite elem_of_filter, Hg, E.
  - intros now. unfold expired_run. destruct (hr_ended_at r) eqn:E; [|done]. intros _.
    unfold run_inv, unfinished, terminal in Hi. destruct (reaper r); naive_solver.
Qed.

(** The row the reaper marked stays final. *)
Lemma steps_row tr w w' u row :
  steps tr w w' → runs_ok (db w) → runs (db w) !! u = Some row → status row ≠ "running" →
  ∃ row', runs (db w') !! u = Some row' ∧ status row' = status row.
Proof.
  induction 1 as [w|l tr w w1 w2 Hs Ht IH] in row |- *; intros Hok Hrow Hst; [eauto|].
  assert (runs_ok (db w1) ∧ ∃ row1, runs (db w1) !! u = Some row1 ∧ status row1 = status row)
    as (Hok1 & row1 & Hrow1 & Hst1).
  { assert (∀ op, runs_ok (db_step redact_text detect_entities redact_at_rest (db w) op) ∧
      ∃ row1, runs (db_step redact_text detect_entities redact_at_rest (db w) op) !! u = Some row1 ∧
              status row1 = status row) as Hop.
    { intros op. destruct (db_step_runs redact_text detect_entities redact_at_rest op _ Hok) as [H1 H2].
      split; [done|]. destruct (H2 _ _ Hrow) as (row1 & Hrow1 & _ & Hev & _). exists row1.
      split; [done|]. by apply Hev. }
    destruct Hs as [i t task turns w Hn|e environ now now_s i x w Hx Hf|i x w Hx Hp
      |pid code w Hc|wf wr now i x w w' Hx Hst'|now_s w|b w|op w]; simpl; eauto; [|].
    - unfold start. destruct (has_proc x); [by eauto|]. destruct (se_mint e); [|by eauto].
      destruct (se_log e) as [[]|]; [|by eauto].
      destruct (se_popen e); [destruct (se_thread e) as [[]|]|]; simpl; eauto.
    - unfold reap_step in Hst'. destruct (reaper x); simplify_eq/=; eauto.
      + destruct (hr_pid x); [|done]. destruct wf; simplify_eq/=; [by eauto|].
        destruct (children w !! z) as [[]|]; simplify_eq/=. eauto.
      + unfold reap_db. destruct (_ && _); [|by eauto]. destruct (parse_uuid i) as [v|]; [|by eauto].
        simpl. apply (Hop (OpComplete v now)). }
  destruct (IH row1 Hok1 Hrow1) as (row' & Hrow' & Hst'); [congruence|]. exists row'. split; [done|congruence].
Qed.

(** The reaper's write, taken by the database while the run has a row: the row is final from then on,
    whatever the other threads and the other writers do. *)
Theorem reaped_row_stays_final now rid u r w w1 tr w2 row :
  runs_ok (db w) → reaper r = RDb (default 0 (exit_code r)) →
  main_loop w = true → parse_uuid rid = Some u → runs (db w) !! u = Some row →
  reap_step false true now rid r w = Some w1 → steps tr w1 w2 →
  ∃ row', runs (db w2) !! u = Some row' ∧ status row' ≠ "running".
Proof.
  intros Hok Hpc Hm Hu Hrow Hs Ht. unfold reap_step in Hs. rewrite Hpc in Hs. injection Hs as <-.
  unfold reap_db in Ht. rewrite Hm, Hu in Ht. cbn [andb] in Ht.
  pose proof (db_step_runs redact_text detect_entities redact_at_rest (OpComplete u now) _ Hok) as [Hok1 _].
  assert (∃ row1, runs (mark_run_completed u now (db w)) !! u = Some row1 ∧ status row1 ≠ "running")
    as (row1 & Hrow1 & Hst1).
  { unfold mark_run_completed. rewrite Hrow. destruct (Hok _ _ Hrow) as (Hid & _ & _).
    destruct (String.eqb (status row) "running") eqn:E.
    - simpl. rewrite Hid, lookup_insert, decide_True by done. eauto.
    - apply String.eqb_neq in E. eauto. }
  destruct (steps_row _ _ _ u row1 Ht) as (row' & Hr' & Hs'); [done|done|done|].
  exists row'. split; [done|congruence].
Qed.
End trace.

(** ** Failures of [start] *)

(** When the process cannot be created the call raises and the run stays pending and unregistered, but
    the certificate files have been written and the log file is left open. *)
Lemma start_failure_orphans_cert e environ now now_s rid r w paths x :
  has_proc r = false → se_mint e = Ok paths → se_log e = Ok () → se_popen e = Raise x →
  ∃ w', start e environ now now_s rid r w = (w', Raise x) ∧ cert_files w' = cert_files w ++ [rid] ∧
    objs w' !! rid = Some (with_log r) ∧ children w' = children w ∧ (rid ∉ _LIVE_RUNS w → rid ∉ _LIVE_RUNS w').
Proof.
  intros Hp Hm Hl Ho. unfold start. rewrite Hp, Hm, Hl, Ho. eexists. split; [done|]. simpl.
  rewrite lookup_insert, decide_True by done. split_and!; try done. set_solver.
Qed.

(** When the thread cannot be created the process runs without an owner: no reaper will wait for it, it
    is not registered, and a second [start] refuses. *)
Lemma start_failure_orphans_process e environ now now_s rid r w paths pid x :
  has_proc r = false → se_mint e = Ok paths → se_log e = Ok () → se_popen e = Ok pid → se_thread e = Raise x →
  reaper r = RNone →
  ∃ w' r', start e environ now now_s rid r w = (w', Raise x) ∧ objs w' !! rid = Some r' ∧
    children w' !! pid = Some None ∧ reaper r' = RNone ∧ (rid ∉ _LIVE_RUNS w → rid ∉ _LIVE_RUNS w') ∧
    ∀ e' w'', ∃ y, start e' environ now now_s rid r' w'' = (w'', Raise y).
Proof.
  intros Hp Hm Hl Ho Ht Hr. unfold start at 1. rewrite Hp, Hm, Hl, Ho, Ht. do 2 eexists. split; [done|]. simpl.
  rewrite !lookup_insert, !decide_True by done. split_and!; try done; [set_solver|]. intros e' w''.
  unfold start, has_proc. simpl. by eexists.
Qed.

(** ** [terminate] *)

(** When reading [n] is the first at or past the deadline, the loop ends within its readings: with no
    signal when a poll before it saw the exit, and with SIGKILL otherwise. *)
Lemma terminate_loop_exact fuel i n deadline clock poll :
  (i ≤ n)%nat → (n - i < fuel)%nat → fltb (clock n) deadline = false →
  (∀ j, (i ≤ j < n)%nat → fltb (clock j) deadline = true) →
  terminate_loop fuel i deadline clock poll =
    Some (if existsb (λ j, bool_decide (is_Some (poll j))) (seq i (n - i)) then [] else [SigKill]).
Proof.
  revert i. induction fuel as [|fuel IH]; intros i Hi Hf Hn Hlt; [lia|]. simpl.
  destruct (decide (i = n)) as [->|Hne]; [by rewrite Hn, Nat.sub_diag|].
  rewrite Hlt by lia. replace (n - i)%nat with (S (n - S i)) by lia. simpl.
  destruct (poll i) eqn:E; [done|]. rewrite bool_decide_eq_false_2 by (by intros [??]). simpl.
  apply IH; [lia|lia|done|]. intros j Hj. apply Hlt. lia.
Qed.

(** [terminate] ends, and escalates exactly when needed: it sends nothing to a process that is not
    there or has exited; otherwise SIGTERM, followed by SIGKILL exactly when no poll before the deadline
    saw the exit.  Reading [n] of the clock is the first at or past the deadline. *)
Theorem terminate_escalates n timeout clock poll r :
  (1 ≤ n)%nat → fltb (clock n) (fadd (clock 0%nat) timeout) = false →
  (∀ j, (1 ≤ j < n)%nat → fltb (clock j) (fadd (clock 0%nat) timeout) = true) →
  ∀ fuel, (n ≤ fuel)%nat →
  terminate fuel timeout clock poll r =
    Some (if has_proc r && bool_decide (poll 0%nat = None) then
            if existsb (λ j, bool_decide (is_Some (poll j))) (seq 1 (n - 1)) then [SigTerm]
            else [SigTerm; SigKill]
          else []).
Proof.
  intros H1 Hn Hlt fuel Hf. unfold terminate. destruct (has_proc r); [|done].
  destruct (poll 0%nat) eqn:E; [done|]. simpl.
  rewrite (terminate_loop_exact fuel 1 n) by (done || lia). simpl. by destruct (existsb _ _).
Qed.

(** ** Witnesses *)

Definition sample_environ : list (string * string) :=
  [("PATH", "/bin"); ("JWT_SECRET", "s"); ("LC_ALL", "C"); ("GATE_TIMEOUT_MS", "250"); ("EDITOR", "vi")].

Definition sample_env_ok : StartEnv :=
  {| se_mint := Ok ("c.pem", "c.key", "ca.pem"); se_log := Ok (); se_popen := Ok 42; se_thread := Ok () |}.

Definition sample_rid : uuid := "00000000-0000-0000-0000-00000000000a".
Definition sample_db : Db := {| tenants := ∅; runs := ∅; event_rows := []; gate_decisions := [] |}.
Definition sample_pending : HarnessRun := from_request sample_rid "t" "say hello" 12.
Definition sample_requested : World := set_obj sample_rid sample_pending (boot sample_db).
Definition sample_start : World * result PyExn (list (string * string)) :=
  start sample_env_ok sample_environ 5 fzero sample_rid sample_pending sample_requested.

Example sample_child_env : sample_start.2 = Ok
  [("PATH", "/bin"); ("LC_ALL", "C"); ("HARNESS_MODE", "agent"); ("HARNESS_TASK", "say hello");
   ("HARNESS_MAX_TURNS", "12"); ("HARNESS_CERT", "c.pem"); ("HARNESS_KEY", "c.key"); ("HARNESS_CA", "ca.pem");
   ("HARNESS_RUN_ID", sample_rid); ("HARNESS_TENANT_ID", "t"); ("GATE_TIMEOUT_MS", "250");
   ("IPC_MTLS_ENABLED", "false")].
Proof. vm_compute. reflexivity. Qed.

Lemma child_env_has_no_secret_witness :
  ∃ w' env, sample_start = (w', Ok env) ∧ dget "JWT_SECRET" env = None ∧
    ∀ k, k ∈ dkeys env → any_prefix _ENV_DENYLIST_PREFIXES k = false.
Proof.
  destruct sample_start as [w' [env|x]] eqn:E; [|exfalso; pose proof sample_child_env as Hs; by rewrite E in Hs].
  exists w', env. split; [done|]. unfold sample_start in E.
  destruct (child_env_has_no_secret sample_env_ok sample_environ 5 fzero sample_rid sample_pending
    sample_requested w' env) as [(paths & Hm & Hk) Hd]; [by_decision|exact E|].
  split; [|exact Hd]. rewrite Hk. injection Hm as <-. reflexivity.
Defined.

(** The run is started and registered, and its process has exited with code 3. *)
Definition sample_started : World := sample_start.1.
Definition sample_exited : World :=
  set_children (<[42 := Some 3]> (children (register sample_rid sample_started))) (register sample_rid sample_started).
Definition sample_running : HarnessRun := with_reaper RWait (spawned 42 5 (with_log sample_pending)).
Definition sample_waited : World :=
  set_obj sample_rid (with_reaper (RExit 3) sample_running)
    (set_children (delete 42 (children sample_exited)) sample_exited).

Definition sample_steps := steps (λ s, s) (λ _, []) false.

Lemma sample_reaches_exited : sample_steps [LOther; LOther; LOther; LOther] (boot sample_db) sample_exited.
Proof.
  eapply steps_cons; [by apply (step_request _ _ _ sample_rid "t" "say hello" 12)|].
  eapply steps_cons; [apply (step_start _ _ _ sample_env_ok sample_environ 5 fzero sample_rid sample_pending);
                      [reflexivity|intros pid [= <-]; reflexivity]|].
  eapply steps_cons; [by apply (step_register _ _ _ sample_rid sample_running)|].
  eapply steps_cons; [by apply (step_exit _ _ _ 42 3)|]. apply steps_nil.
Qed.

Lemma sample_one_reap : sample_steps [LReap sample_rid] sample_exited sample_waited.
Proof.
  eapply steps_cons; [|apply steps_nil].
  by apply (step_reap _ _ _ false true 9 sample_rid sample_running).
Qed.

Lemma exited_run_is_reaped_witness :
  ∃ r', objs sample_waited !! sample_rid = Some r' ∧ reaper r' ≠ RDone ∧
        ∃ w'', step (λ s, s) (λ _, []) false (LReap sample_rid) sample_waited w''.
Proof.
  destruct (exited_run_is_reaped (λ s, s) (λ _, []) false sample_db [LOther; LOther; LOther; LOther]
    sample_exited sample_rid sample_running [LReap sample_rid] sample_waited sample_reaches_exited) as (r' & Hr' & _ & Hen & Hd & _);
    [reflexivity|by exists 42, 3|exact sample_one_reap|].
  assert (reaper r' ≠ RDone) as Hn by (rewrite Hd; simpl; lia). exists r'. eauto.
Defined.

Lemma published_status_consistent_witness :
  get_run sample_rid sample_exited = Some sample_running ∧
  (hr_status sample_running = "running" ∨ ∃ c, terminal c sample_running).
Proof.
  split; [reflexivity|].
  apply (published_status_consistent (λ s, s) (λ _, []) false sample_db [LOther; LOther; LOther; LOther]
           sample_exited sample_rid sample_running sample_reaches_exited). reflexivity.
Defined.

Lemma reaped_row_stays_final_witness :
  let row := {| run_id := sample_rid; run_tenant_id := "t"; status := "running"; ended_at := None;
                run_declared_goal := None; run_metadata := [] |} in
  let d := {| tenants := {["t"]}; runs := {[sample_rid := row]}; event_rows := []; gate_decisions := [] |} in
  let w := {| objs := ∅; _LIVE_RUNS := ∅; children := ∅; db := d; main_loop := true; cert_files := [] |} in
  let r := with_log_closed 0 (with_exit 0 sample_running) in
  ∃ w1, reap_step false true 7 sample_rid r w = Some w1 ∧
    ∃ row', runs (db w1) !! sample_rid = Some row' ∧ status row' ≠ "running".
Proof.
  intros row d w r.
  set (w1 := set_obj sample_rid (with_reaper RDone r) (reap_db true 7 sample_rid w)).
  exists w1. split; [reflexivity|].
  apply (reaped_row_stays_final (λ s, s) (λ _, []) false 7 sample_rid sample_rid r w w1 [] w1 row);
    try reflexivity; [|apply steps_nil].
  intros i x Hx. simpl in Hx. apply lookup_singleton_Some in Hx as [<- <-]. by split_and!; [|by_decision|].
Defined.

Lemma terminate_escalates_witness :
  terminate 3 (of_Z 5) (λ n, of_Z (10 * Z.of_nat n)) (λ _, None) sample_running = Some [SigTerm; SigKill].
Proof.
  refine (eq_trans (terminate_escalates 1 (of_Z 5) (λ n, of_Z (10 * Z.of_nat n)) (λ _, None) sample_running _ _ _ 3 _) _);
    [lia|vm_compute; reflexivity|lia|lia|reflexivity].
Defined.
