(* ===== verification/Search.v ===== *)
(** * Searching the audit data, and saved queries

    Models [auditor/api/search_routes.py]: the search route over [Query], the table of saved queries, and
    the binding of parameters ([_bind_params]), which is a textual replacement on the JSON text of the
    query; [subst] is the substitution on values it is meant to be.  Pydantic's reading of a dictionary
    as the fields of a query and the storage of JSON columns are parameters. *)

From Stdlib Require Import ZArith Lia Ascii.
From Stdlib Require String DecimalString.
From stdpp Require Import base tactics option list strings sets.
From S2P Require Import Prelude PyStr Json ApiAuth Budget Gate Store ReviewApi Query.

Local Open Scope Z_scope.

(** ** Binding parameters *)

(** [f'\"${key}\"'] *)
Definition placeholder (key : string) : string := String quote ("$" +:+ key +:+ String quote "").

Definition bind_one (raw : string) (kv : string * json) : string :=
  replace (placeholder kv.1) (dumps spaced kv.2) raw.

(** [_bind_params]; [None] when the text is no longer JSON and [json.loads] raises. *)
Definition _bind_params (query_dict params : list (string * json)) : option json :=
  loads (foldl bind_one (dumps spaced (JObj query_dict)) params).

(** ** Routes *)

Record SavedQuery := {
  sq_id : uuid;
  sq_tenant_id : uuid;
  sq_name : string;
  sq_query : list (string * json);
  sq_params : list (string * json);
  sq_created_by : option uuid
}.

(** [{**a, **b}] *)
Definition merge_params (a b : list (string * json)) : list (string * json) :=
  foldl (λ d kv, dset kv.1 kv.2 d) (foldl (λ d kv, dset kv.1 kv.2 d) [] a) b.

(** [except ValueError: raise HTTPException(422)]; anything else is a server error. *)
Definition as_http {A} (r : result PyExn A) : result http_exn A :=
  match r with
  | Ok a => Ok a
  | Raise e => if String.eqb (exn_class e) "ValueError" then Raise (HTTPException 422)
               else Raise (ServerError (exn_class e))
  end.

Section routes.
Context (jwt_secret : string) (bind_uuid pg_uuid : string → option uuid).
(** [fields d]: the fields pydantic reads, or none when it refuses the dictionary. *)
Context (fields : list (string * json) →
                  option (string * list (string * json) * Z * option string * bool)).
(** What a JSON column gives back for a dictionary. *)
Context (jsonb : list (string * json) → list (string * json)).
Context {Row : Type} (tenant_of : Row → uuid) (sat : Condition → Row → bool)
        (sort_rows : ColExpr → bool → list Row → list Row).

(** [Query.model_validate] *)
Definition model_validate (d : list (string * json)) : result PyExn Query :=
  match fields d with
  | None => raise "ValueError" "validation error"
  | Some (resource, filter, limit, order_by, desc) => validate_query resource filter limit order_by desc
  end.

(** A claim bound to a UUID column. *)
Definition tenant_claim (claims : list (string * json)) : result http_exn string :=
  match dget "tenant_id" claims with
  | Some (JStr t) => Ok t
  | Some _ => Raise (ServerError "DBAPIError")
  | None => Raise (ServerError "KeyError")
  end.

Definition search (now_s : Z) (now : datetime) (bearer session : option string)
    (body : list (string * json)) (rows : list Row) : result http_exn (list Row) :=
  let! claims := get_current_user jwt_secret now_s bearer session in
  let! q := as_http (model_validate body) in
  let! tenant_id := tenant_setting claims in
  as_http (run_query tenant_of sat sort_rows pg_uuid now q tenant_id rows).

(** [create_saved_query]: the table refuses a second query of a name for a tenant. *)
Definition create_saved_query (now_s : Z) (bearer session : option string) (fresh : uuid) (name : string)
    (query params : list (string * json)) (table : list SavedQuery)
    : list SavedQuery * result http_exn SavedQuery :=
  let outcome :=
    let! claims := require_role jwt_secret ["admin"] now_s bearer session in
    let! tenant_id := tenant_claim claims in
    let! _ := as_http (model_validate query) in
    let! tenant := bound bind_uuid tenant_id in
    let! created_by := match dget "sub" claims with
                       | Some (JStr u) => let! x := bound bind_uuid u in Ok (Some x)
                       | Some JNull | None => Ok None
                       | Some _ => Raise (ServerError "DBAPIError")
                       end in
    if existsb (λ s, String.eqb (sq_tenant_id s) tenant && String.eqb (sq_name s) name) table
    then Raise (ServerError "IntegrityError")
    else Ok {| sq_id := fresh; sq_tenant_id := tenant; sq_name := name; sq_query := jsonb query;
               sq_params := jsonb params; sq_created_by := created_by |} in
  match outcome with
  | Ok row => (table ++ [row], Ok row)
  | Raise e => (table, Raise e)
  end.

Fixpoint insert_by_name (s : SavedQuery) (l : list SavedQuery) : list SavedQuery :=
  match l with
  | [] => [s]
  | x :: l' => if String.leb (sq_name s) (sq_name x) then s :: l else x :: insert_by_name s l'
  end.

Definition list_saved_queries (now_s : Z) (bearer session : option string) (table : list SavedQuery)
    : result http_exn (list SavedQuery) :=
  let! claims := get_current_user jwt_secret now_s bearer session in
  let! tenant_id := tenant_claim claims in
  let! visible := scoped pg_uuid sq_tenant_id tenant_id table in
  let! u := bound bind_uuid tenant_id in
  Ok (foldr insert_by_name [] (bfilter (λ s, String.eqb (sq_tenant_id s) u) visible)).

Definition run_saved_query (now_s : Z) (now : datetime) (bearer session : option string) (query_id : string)
    (body_params : list (string * json)) (table : list SavedQuery) (rows : list Row)
    : result http_exn (list Row) :=
  let! claims := get_current_user jwt_secret now_s bearer session in
  let! tenant_id := tenant_setting claims in
  let! visible := scoped pg_uuid sq_tenant_id tenant_id table in
  let! u := bound bind_uuid query_id in
  match list_find (λ s, sq_id s = u) visible with
  | None => Raise (HTTPException 404)
  | Some (_, saved) =>
      let merged_params := merge_params (sq_params saved) body_params in
      match _bind_params (sq_query saved) merged_params with
      | None => Raise (ServerError "JSONDecodeError")
      | Some (JObj query_dict) =>
          as_http (let! parsed := model_validate query_dict in
                   run_query tenant_of sat sort_rows pg_uuid now parsed tenant_id rows)
      | Some _ => Raise (HTTPException 422)
      end
  end.
End routes.

(** ** Replacement in a text *)

Lemma str_drop_app a b : drop_str (String.length a) (a +:+ b) = b.
Proof. induction a; [by destruct b|done]. Qed.

Lemma starts_with_app p r : starts_with p (p +:+ r) = true.
Proof. apply starts_with_spec. by exists r. Qed.

Section replacement.
Context (old new : string) (Hold : old ≠ "").

Lemma replace_fuel_enough f1 f2 s :
  (String.length s < f1)%nat → (String.length s < f2)%nat → replace_fuel f1 old new s = replace_fuel f2 old new s.
Proof.
  revert f2 s. induction f1 as [|f1 IH]; intros [|f2] s H1 H2; simpl; try lia.
  destruct s as [|c s]; [done|]. simpl in H1, H2. destruct (starts_with old (String c s)) eqn:E.
  - f_equal. apply starts_with_spec in E as [r Hr]. rewrite Hr, str_drop_app.
    apply (f_equal String.length) in Hr. rewrite str_length_app in Hr. simpl in Hr.
    destruct old as [|c' o]; [done|]. simpl in Hr. apply IH; lia.
  - f_equal. apply IH; lia.
Qed.

Lemma replace_nil : replace old new "" = "".
Proof. done. Qed.

Lemma replace_cons c s : starts_with old (String c s) = false →
  replace old new (String c s) = String c (replace old new s).
Proof.
  intros E. unfold replace at 1. cbn [replace_fuel]. by rewrite E.
Qed.

Lemma replace_hit s : replace old new (old +:+ s) = new +:+ replace old new s.
Proof.
  assert (∃ c o, old = String c o) as (c & o & Ho) by (destruct old; eauto; done).
  assert (∃ t, old +:+ s = String c t) as [t Ht] by (rewrite Ho; cbn [String.append]; eauto).
  assert (String.length old + String.length s = S (String.length t))%nat as Hl
    by (rewrite <-str_length_app, Ht; done).
  unfold replace at 1. rewrite Ht. cbn [replace_fuel]. rewrite <-Ht, starts_with_app, str_drop_app. f_equal.
  apply replace_fuel_enough; [|lia]. rewrite Ht. rewrite Ho in Hl. simpl in *. lia.
Qed.

(** No occurrence starts in [a] when [b] follows. *)
Fixpoint clear_of (a b : string) : bool :=
  match a with
  | EmptyString => true
  | String c a' => negb (starts_with old (a +:+ b)) && clear_of a' b
  end.

Lemma replace_clear a b : clear_of a b = true → replace old new (a +:+ b) = a +:+ replace old new b.
Proof.
  induction a as [|c a IH]; [done|]. cbn [clear_of String.append].
  rewrite andb_true_iff, negb_true_iff. intros [H1 H2]. by rewrite replace_cons, IH.
Qed.
End replacement.

(** ** Replacement in JSON text is substitution in the value *)

(** A string that is exactly the placeholder becomes the parameter's value. *)
Fixpoint subst (key : string) (val v : json) : json :=
  match v with
  | JStr s => if String.eqb s ("$" +:+ key) then val else v
  | JArr l => JArr (map (subst key val) l)
  | JObj m => JObj (map (λ kv, (kv.1, subst key val kv.2)) m)
  | _ => v
  end.

Definition quote_free (s : string) : bool := negb (char_in quote s).

(** No string holds a quotation mark and no key of an object starts like a placeholder. *)
Fixpoint bindable (v : json) : bool :=
  match v with
  | JStr s | JFloat s => quote_free s
  | JArr l => forallb bindable l
  | JObj m => forallb (λ kv, quote_free kv.1 && negb (starts_with "$" kv.1) && bindable kv.2) m
  | _ => true
  end.

(** A name written in JSON as it is. *)
Definition plain_name (k : string) : bool := quote_free k && String.eqb (esc_str k) k.

(** What follows a value in the text does not start with a dollar. *)
Definition no_dollar (r : string) : bool := negb (starts_with "$" r).

Lemma esc_char_head c : c ≠ quote → esc_char c = String c "" ∨ ∃ t, esc_char c = String backslash t.
Proof.
  intros Hc. unfold esc_char, esc2.
  destruct (Nat.eqb_spec (nat_of_ascii c) 34) as [E|_].
  { exfalso. apply Hc. by rewrite <-(ascii_nat_embedding c), E. }
  repeat match goal with |- context [if ?b then _ else _] => destruct b; [right; by eexists|] end. by left.
Qed.

Lemma esc_char_quote_free c : c ≠ quote → quote_free (esc_char c) = true.
Proof.
  intros Hc. destruct c as [[] [] [] [] [] [] [] []]; try (vm_compute; reflexivity). by exfalso.
Qed.

Lemma quote_free_app a b : quote_free (a +:+ b) = quote_free a && quote_free b.
Proof. unfold quote_free. by rewrite char_in_app, negb_orb. Qed.

Lemma quote_free_cons c s : quote_free (String c s) = negb (bool_decide (c = quote)) && quote_free s.
Proof. unfold quote_free. by rewrite char_in_cons, negb_orb. Qed.

Lemma esc_quote_free s : quote_free s = true → quote_free (esc_str s) = true.
Proof.
  induction s as [|c s IH]; [done|]. rewrite quote_free_cons, andb_true_iff, negb_true_iff.
  intros [Hc%bool_decide_eq_false Hs]. cbn [esc_str]. by rewrite quote_free_app, esc_char_quote_free, IH.
Qed.

#[export] Instance esc_str_inj : Inj (=) (=) esc_str.
Proof.
  intros a b Heq. pose proof (scan_str_esc a "") as Ha. rewrite Heq, scan_str_esc in Ha. by simplify_eq.
Qed.

Lemma starts_with_close a b r :
  quote_free a = true → quote_free b = true →
  starts_with (a +:+ String quote "") (b +:+ String quote r) = String.eqb a b.
Proof.
  revert b. induction a as [|c a IH]; intros [|d b]; try done.
  - intros _. rewrite quote_free_cons, andb_true_iff. intros [Hd _]. cbn [String.append starts_with].
    destruct (ascii_dec quote d) as [<-|]; [by rewrite bool_decide_eq_true_2 in Hd|done].
  - rewrite quote_free_cons, andb_true_iff. intros [Hc _] _. cbn [String.append starts_with].
    destruct (ascii_dec c quote) as [->|]; [by rewrite bool_decide_eq_true_2 in Hc|done].
  - rewrite !quote_free_cons, !andb_true_iff. intros [_ Ha] [_ Hb]. cbn [String.append starts_with].
    rewrite IH by done. cbn [String.eqb]. destruct (ascii_dec c d) as [->|Hne].
    + by rewrite Ascii.eqb_refl.
    + by rewrite (proj2 (Ascii.eqb_neq c d)).
Qed.

Section substitution.
Context (key : string) (val : json) (Hkey : plain_name key = true).

Notation old := (placeholder key).
Notation rep := (replace old (dumps spaced val)).

Lemma placeholder_ne : old ≠ "".
Proof. done. Qed.

Lemma key_quote_free : quote_free ("$" +:+ key) = true.
Proof.
  change ("$" +:+ key) with (String "$" key). rewrite quote_free_cons.
  unfold plain_name in Hkey. by apply andb_true_iff in Hkey as [-> _].
Qed.

Lemma clear_plain a b : quote_free a = true → clear_of old a b = true.
Proof.
  induction a as [|c a IH]; [done|]. rewrite quote_free_cons, andb_true_iff, negb_true_iff.
  intros [Hc%bool_decide_eq_false Ha]. cbn [clear_of String.append].
  rewrite (IH Ha), andb_true_r. unfold placeholder. cbn [starts_with].
  destruct (ascii_dec quote c) as [<-|]; done.
Qed.

Lemma rep_plain a b : quote_free a = true → rep (a +:+ b) = a +:+ rep b.
Proof. intros Ha. apply replace_clear, clear_plain, Ha. Qed.

(** The closing quotation mark. *)
Lemma rep_close r : no_dollar r = true → rep (String quote r) = String quote (rep r).
Proof.
  intros Hr. apply replace_cons. unfold placeholder. cbn [String.append starts_with].
  destruct (ascii_dec quote quote) as [_|]; [|done]. destruct r as [|c r]; [done|].
  unfold no_dollar in Hr. cbn [starts_with] in *. by destruct (ascii_dec "$" c).
Qed.

Lemma quoted_app s r : quoted s +:+ r = String quote (esc_str s +:+ String quote r).
Proof. unfold quoted. cbn [String.append]. by rewrite <-str_app_assoc. Qed.

Lemma esc_placeholder s : quote_free s = true →
  String.eqb ("$" +:+ key) (esc_str s) = String.eqb s ("$" +:+ key).
Proof.
  intros _. assert (esc_str ("$" +:+ key) = "$" +:+ key) as E.
  { unfold plain_name in Hkey. apply andb_true_iff in Hkey as [_ Hk%String.eqb_eq].
    change (esc_str ("$" +:+ key)) with ("$" +:+ esc_str key). by rewrite Hk. }
  rewrite <-E at 1. destruct (String.eqb_spec s ("$" +:+ key)) as [->|Hne]; [apply String.eqb_refl|].
  apply String.eqb_neq. intros H%(inj esc_str). congruence.
Qed.

(** A string in the text: replaced when it is the placeholder, kept otherwise. *)
Lemma rep_quoted s r :
  quote_free s = true → no_dollar r = true →
  rep (quoted s +:+ r) = (if String.eqb s ("$" +:+ key) then dumps spaced val else quoted s) +:+ rep r.
Proof.
  intros Hs Hr. rewrite quoted_app. pose proof (esc_placeholder s Hs) as He.
  assert (∀ t, starts_with old (String quote t) = starts_with (("$" +:+ key) +:+ String quote "") t) as Hsw.
  { intros t. unfold placeholder. cbn [starts_with].
    destruct (ascii_dec quote quote) as [_|]; [|done]. by rewrite <-str_app_assoc. }
  pose proof (starts_with_close ("$" +:+ key) (esc_str s) r key_quote_free (esc_quote_free s Hs)) as Hc.
  rewrite He in Hc. destruct (String.eqb_spec s ("$" +:+ key)) as [->|Hne].
  - apply String.eqb_eq in He. rewrite <-He.
    replace (String quote (("$" +:+ key) +:+ String quote r)) with (old +:+ r); [by apply replace_hit|].
    unfold placeholder. cbn [String.append]. by rewrite <-str_app_assoc.
  - rewrite replace_cons by by rewrite Hsw.
    rewrite rep_plain, rep_close by auto using esc_quote_free. by rewrite quoted_app.
Qed.

Definition respects (v : json) : Prop :=
  ∀ r, no_dollar r = true → rep (dumps spaced v +:+ r) = dumps spaced (subst key val v) +:+ rep r.

Lemma rep_join {A} (f g : A → string) l r :
  Forall (λ x, ∀ r, no_dollar r = true → rep (f x +:+ r) = g x +:+ rep r) l → no_dollar r = true →
  rep (join ", " (map f l) +:+ r) = join ", " (map g l) +:+ rep r.
Proof.
  intros Hl Hr. induction Hl as [|x l Hx Hl IH]; [done|].
  destruct l as [|y l]; [by apply Hx|].
  change (map f (x :: y :: l)) with (f x :: map f (y :: l)).
  change (map g (x :: y :: l)) with (g x :: map g (y :: l)).
  rewrite !join_cons2 by done. rewrite <-!str_app_assoc, Hx by done.
  f_equal. rewrite rep_plain by done. f_equal. exact IH.
Qed.

Lemma dec_quote_free z : quote_free (dec z) = true.
Proof.
  unfold dec. assert (∀ u, quote_free (DecimalString.NilEmpty.string_of_uint u) = true) as Hu.
  { intros u. induction u; simpl; rewrite ?quote_free_cons; simpl; done. }
  destruct (Z.to_int z); simpl; rewrite ?quote_free_cons; simpl; apply Hu.
Qed.

Lemma rep_dumps v : bindable v = true → respects v.
Proof.
  induction v as [|b|z|lex|s|l IH|m IH] using json_ind; intros Hb r Hr.
  - by apply (rep_plain "null").
  - destruct b; by apply rep_plain.
  - apply rep_plain, dec_quote_free.
  - by apply rep_plain.
  - cbn [dumps subst]. rewrite rep_quoted by done. by destruct (String.eqb _ _).
  - cbn [dumps subst]. rewrite map_map. cbn [bindable] in Hb. rewrite forallb_forall in Hb.
    rewrite <-!str_app_assoc. rewrite (rep_plain "[") by done. f_equal.
    rewrite (rep_join (dumps spaced) (λ x, dumps spaced (subst key val x))); [|apply Forall_forall|done].
    + f_equal.
    + intros x Hx. rewrite Forall_forall in IH. apply IH; [done|]. by apply Hb, list_elem_of_In.
  - cbn [dumps subst]. rewrite map_map. cbn [bindable] in Hb. rewrite forallb_forall in Hb.
    rewrite <-!str_app_assoc. rewrite (rep_plain "{") by done. f_equal.
    rewrite (rep_join _ (λ kv, quoted kv.1 +:+ ": " +:+ dumps spaced (subst key val kv.2)));
      [|apply Forall_forall|done].
    + f_equal.
    + intros [k v] Hx r' Hr'. cbn [fst snd]. rewrite Forall_forall in IH. specialize (IH _ Hx).
      apply list_elem_of_In, Hb in Hx. cbn [fst snd] in Hx. rewrite !andb_true_iff, negb_true_iff in Hx.
      destruct Hx as [[Hk Hd] Hv]. rewrite <-!str_app_assoc. rewrite rep_quoted by done.
      destruct (String.eqb_spec k ("$" +:+ key)) as [->|_]; [done|]. f_equal.
      rewrite (rep_plain ": ") by done. f_equal. by apply IH.
Qed.
End substitution.

Lemma bindable_subst key val v : bindable val = true → bindable v = true → bindable (subst key val v) = true.
Proof.
  intros Hval. induction v as [|b|z|lex|s|l IH|m IH] using json_ind; intros Hb; try done; cbn [subst bindable] in *.
  - by destruct (String.eqb s _).
  - rewrite forallb_forall in Hb |- *. rewrite Forall_forall in IH.
    intros x (y & <- & Hy)%in_map_iff. apply IH; [by apply list_elem_of_In|by apply Hb].
  - rewrite forallb_forall in Hb |- *. rewrite Forall_forall in IH.
    intros x ([k v] & <- & Hy)%in_map_iff. pose proof (Hb _ Hy) as Hkv. cbn [fst snd] in *.
    rewrite !andb_true_iff in *. destruct Hkv as [[H1 H2] H3]. split_and!; [done..|].
    apply (IH (k, v)); [by apply list_elem_of_In|done].
Qed.

Lemma json_wf_subst key val v : json_wf val → json_wf v → json_wf (subst key val v).
Proof.
  intros Hval. induction v as [|b|z|lex|s|l IH|m IH] using json_ind; intros Hw; try done; cbn [subst].
  - by destruct (String.eqb s _).
  - rewrite json_wf_arr in Hw |- *. rewrite !Forall_forall in *.
    intros x (y & -> & Hy)%elem_of_map. auto.
  - rewrite json_wf_obj in Hw |- *. destruct Hw as [Hn Hw]. split.
    + change (map ?f m) with (f <$> m). rewrite <-list_fmap_compose. exact Hn.
    + rewrite !Forall_forall in *. intros x (y & -> & Hy)%elem_of_map. simpl. auto.
Qed.

(** What a parameter must be for its replacement in the text to be a substitution. *)
Definition param_ok (kv : string * json) : Prop :=
  plain_name kv.1 = true ∧ bindable kv.2 = true ∧ json_wf kv.2.

Lemma bind_text params v :
  Forall param_ok params → bindable v = true → json_wf v →
  foldl bind_one (dumps spaced v) params = dumps spaced (foldl (λ v kv, subst kv.1 kv.2 v) v params) ∧
  json_wf (foldl (λ v kv, subst kv.1 kv.2 v) v params).
Proof.
  intros Hp. revert v. induction Hp as [|[k w] params (Hk & Hb & Hw) _ IH]; intros v Hv Hwf; [done|].
  cbn [foldl fst snd] in *.
  assert (bind_one (dumps spaced v) (k, w) = dumps spaced (subst k w v)) as ->.
  { unfold bind_one. cbn [fst snd]. pose proof (rep_dumps k w Hk v Hv "" eq_refl) as H.
    by rewrite replace_nil, !str_app_nil_r in H. }
  apply IH; [by apply bindable_subst|by apply json_wf_subst].
Qed.

(** Binding the parameters of a saved query, which replaces placeholders in the query's JSON text and
    parses the text again, is the substitution of the parameters, one after the other, for the strings
    that are exactly their placeholders: for queries and parameters without quotation marks in their
    strings and without keys that start with a dollar, and parameter names JSON writes as they are. *)
Theorem bind_params_substitutes q params :
  json_wf (JObj q) → bindable (JObj q) = true → Forall param_ok params →
  _bind_params q params = Some (foldl (λ v kv, subst kv.1 kv.2 v) (JObj q) params).
Proof.
  intros Hwf Hb Hp. unfold _bind_params. destruct (bind_text params (JObj q) Hp Hb Hwf) as [-> Hw].
  apply loads_dumps; [apply spaced_ok|done].
Qed.

(** The replacement is not a substitution on a text that ends in a quotation mark and the placeholder:
    the inside of the string is rewritten, or the text is no longer JSON. *)
Definition quoting_query : list (string * json) :=
  [("resource", JStr "flags"); ("filter", JObj [("severity", JStr (String quote "$p"))])].

Example inner_text_is_rewritten :
  _bind_params quoting_query [("p", JStr "y")] =
    Some (JObj [("resource", JStr "flags"); ("filter", JObj [("severity", JStr (String quote "y"))])]) ∧
  _bind_params quoting_query [("p", JInt 1)] = None.
Proof. split; vm_compute; reflexivity. Qed.

(** The name of a key is replaced as well, and a name with a letter outside ASCII is never bound. *)
Example keys_are_bound :
  _bind_params [("$p", JInt 1)] [("p", JStr "resource")] = Some (JObj [("resource", JInt 1)]) ∧
  _bind_params [("a", JStr ("$" +:+ String (ascii_of_nat 233) ""))] [(String (ascii_of_nat 233) "", JInt 1)] =
    Some (JObj [("a", JStr ("$" +:+ String (ascii_of_nat 233) ""))]).
Proof. split; vm_compute; reflexivity. Qed.

(** ** The routes *)

Lemma elem_of_sorted_by_name x l : x ∈ foldr insert_by_name [] l ↔ x ∈ l.
Proof.
  assert (∀ s l, x ∈ insert_by_name s l ↔ x = s ∨ x ∈ l) as Hi.
  { intros s k. induction k as [|y k IH]; simpl; [set_solver|].
    destruct (String.leb _ _); rewrite !elem_of_cons; [done|]. rewrite IH. naive_solver. }
  induction l as [|y l IH]; [done|]. simpl. by rewrite Hi, IH, elem_of_cons.
Qed.

Section route_props.
Context (jwt_secret : string) (bind_uuid pg_uuid : string → option uuid).
Context (fields : list (string * json) →
                  option (string * list (string * json) * Z * option string * bool)).
Context (jsonb : list (string * json) → list (string * json)).
Context {Row : Type} (tenant_of : Row → uuid) (sat : Condition → Row → bool)
        (sort_rows : ColExpr → bool → list Row → list Row).
(** ORDER BY answers rows of the table. *)
Context (Hsort : ∀ c d l r, r ∈ sort_rows c d l → r ∈ l).

Lemma as_http_ok {A} (r : result PyExn A) a : as_http r = Ok a ↔ r = Ok a.
Proof. unfold as_http. destruct r as [x|e]; [naive_solver|]. by destruct (String.eqb _ _). Qed.

Lemma run_query_in_tenant now q t rows out r :
  t ≠ "" → run_query tenant_of sat sort_rows pg_uuid now q t rows = Ok out → r ∈ out →
  pg_uuid t = Some (tenant_of r) ∧ r ∈ rows.
Proof.
  intros Ht. unfold run_query. intros (s & _ & Hl)%result_bind_ok Hr.
  destruct (scoped pg_uuid tenant_of t rows) as [visible|] eqn:Hv; [|done]. injection Hl as <-.
  apply (scoped_ok pg_uuid tenant_of t rows visible Hv Ht).
  unfold execute in Hr. apply subseteq_take in Hr.
  destruct (s_order s) as [[c d]|]; [apply Hsort in Hr|]; by apply elem_of_bfilter in Hr as [_ Hr].
Qed.

(** A reader whose token names a tenant runs only that tenant's saved queries, and what a saved or
    an ad-hoc query answers are rows of that tenant, whatever the parameters are. *)
Theorem queries_stay_in_tenant now_s now bearer session claims t :
  get_current_user jwt_secret now_s bearer session = Ok claims →
  dget "tenant_id" claims = Some (JStr t) → t ≠ "" →
  (∀ body rows out r,
     search jwt_secret pg_uuid fields tenant_of sat sort_rows now_s now bearer session body rows = Ok out →
     r ∈ out → pg_uuid t = Some (tenant_of r) ∧ r ∈ rows) ∧
  (∀ query_id params table rows out,
     run_saved_query jwt_secret bind_uuid pg_uuid fields tenant_of sat sort_rows now_s now bearer session
       query_id params table rows = Ok out →
     (∃ saved, saved ∈ table ∧ bind_uuid query_id = Some (sq_id saved) ∧
               pg_uuid t = Some (sq_tenant_id saved)) ∧
     (∀ r, r ∈ out → pg_uuid t = Some (tenant_of r) ∧ r ∈ rows)) ∧
  (∀ table l s, list_saved_queries jwt_secret bind_uuid pg_uuid now_s bearer session table = Ok l →
     s ∈ l → pg_uuid t = Some (sq_tenant_id s) ∧ s ∈ table).
Proof.
  intros Hu Hd Ht. assert (tenant_setting claims = Ok t) as Hset by (unfold tenant_setting; by rewrite Hd).
  split_and!.
  - intros body rows out r. unfold search. rewrite Hu. cbn [result_bind].
    intros (q & _ & Hq)%result_bind_ok. rewrite Hset in Hq. apply as_http_ok in Hq. by apply (run_query_in_tenant _ _ _ _ _ _ Ht Hq).
  - intros query_id params table rows out. unfold run_saved_query. rewrite Hu. cbn [result_bind]. rewrite Hset. cbn [result_bind].
    intros (visible & Hv & Hr)%result_bind_ok. apply result_bind_ok in Hr as (u & Hbu & Hr).
    destruct (list_find _ visible) as [[i saved]|] eqn:Hf; [|done].
    apply list_find_Some in Hf as (Hin & Hid & _). apply list_elem_of_lookup_2 in Hin.
    split.
    + exists saved. destruct (scoped_ok pg_uuid sq_tenant_id t table visible Hv Ht saved Hin).
      split_and!; try done. unfold bound in Hbu. destruct (bind_uuid query_id); by simplify_eq.
    + destruct (_bind_params _ _) as [[]|]; try done.
      apply as_http_ok, result_bind_ok in Hr as (q & _ & Hq). intros r. by apply (run_query_in_tenant _ _ _ _ _ _ Ht Hq).
  - intros table l s. unfold list_saved_queries, tenant_claim. rewrite Hu. cbn [result_bind]. rewrite Hd. cbn [result_bind].
    intros (visible & Hv & (u & _ & [= <-])%result_bind_ok)%result_bind_ok Hs.
    apply elem_of_sorted_by_name, elem_of_bfilter in Hs as [_ Hs].
    by apply (scoped_ok pg_uuid sq_tenant_id t table visible Hv Ht).
Qed.

(** Creating a query takes an administrator, keeps the names of a tenant apart, and on any failure leaves
    the table as it was. *)
Theorem create_saved_query_exact now_s bearer session fresh name query params table table' r :
  create_saved_query jwt_secret bind_uuid fields jsonb now_s bearer session fresh name query params table =
    (table', r) →
  (∀ e, r = Raise e → table' = table) ∧
  (∀ row, r = Ok row →
     table' = table ++ [row] ∧ sq_name row = name ∧ sq_query row = jsonb query ∧
     (∃ claims, require_role jwt_secret ["admin"] now_s bearer session = Ok claims) ∧
     (∃ q, model_validate fields query = Ok q) ∧
     (NoDup (map (λ s, (sq_tenant_id s, sq_name s)) table) →
      NoDup (map (λ s, (sq_tenant_id s, sq_name s)) table'))).
Proof.
  unfold create_saved_query.
  set (outcome := result_bind (require_role _ _ _ _ _) _). destruct outcome as [row|e] eqn:E; intros [= <- <-];
    (split; [intros x Hx|intros row0 Hr]); try done. injection Hr as <-. subst outcome.
  apply result_bind_ok in E as (claims & Hc & E). apply result_bind_ok in E as (t & _ & E).
  apply result_bind_ok in E as (q & Hq%as_http_ok & E). apply result_bind_ok in E as (u & _ & E).
  apply result_bind_ok in E as (cb & _ & E). destruct (existsb _ table) eqn:Hx; [done|].
  injection E as <-. simpl. split_and!; eauto. intros Hn. rewrite map_app. apply NoDup_app. split_and!; [done| |apply NoDup_singleton].
  intros x (s & -> & Hs)%elem_of_map [= Ht Hname]%list_elem_of_singleton.
  assert (existsb (λ s, String.eqb (sq_tenant_id s) u && String.eqb (sq_name s) name) table = true) as Hex.
  { apply existsb_exists. exists s. split; [by apply list_elem_of_In|]. by rewrite Ht, Hname, !String.eqb_refl. }
  congruence.
Qed.
End route_props.

(** ** Witnesses *)

Definition sample_saved_fields : list (string * json) :=
  [("resource", JStr "flags"); ("filter", JObj [("severity", JStr "$level"); ("status", JStr "open")])].

Lemma bind_params_substitutes_witness :
  _bind_params sample_saved_fields [("level", JStr "HIGH")] =
    Some (JObj [("resource", JStr "flags"); ("filter", JObj [("severity", JStr "HIGH"); ("status", JStr "open")])]).
Proof.
  refine (eq_trans (bind_params_substitutes sample_saved_fields [("level", JStr "HIGH")] _ _ _) eq_refl).
  - apply json_wf_obj. split; [by_decision|]. repeat constructor; by_decision.
  - reflexivity.
  - repeat constructor.
Defined.

Definition sample_table : list SavedQuery :=
  [{| sq_id := "q"; sq_tenant_id := "t"; sq_name := "all"; sq_query := [("status", JStr "$level")];
      sq_params := []; sq_created_by := None |}].

(** Rows are their tenants; every row satisfies every condition. *)
Definition sample_run_saved : result http_exn (list uuid) :=
  run_saved_query "secret" Some Some (λ d, Some ("flags", d, 10, None, true)) (λ t : uuid, t) (λ _ _, true)
    (λ _ _ l, l) 1001 0 (Some review_token) None "q" [("level", JStr "HIGH")]
    sample_table ["t"; "other"].

Lemma queries_stay_in_tenant_witness :
  sample_run_saved = Ok ["t"] ∧ ∀ r, r ∈ ["t"] → Some "t" = Some r ∧ r ∈ ["t"; "other"].
Proof.
  assert (get_current_user "secret" 1001 (Some review_token) None = Ok review_claims) as Hu by (vm_compute; reflexivity).
  assert (sample_run_saved = Ok ["t"]) as Hr by (vm_compute; reflexivity).
  split; [exact Hr|].
  destruct (queries_stay_in_tenant "secret" Some Some (λ d, Some ("flags", d, 10, None, true)) (λ t : uuid, t)
    (λ _ _, true) (λ _ _ l, l) ltac:(done) 1001 0 (Some review_token) None review_claims "t" Hu eq_refl
    ltac:(discriminate)) as (_ & H & _).
  unfold sample_run_saved in Hr.
  exact (proj2 (H "q" [("level", JStr "HIGH")] sample_table ["t"; "other"] ["t"] Hr)).
Defined.
