(* ===== verification/Accounts.v ===== *)
(** * Accounts and administration

    Models [auditor/api/auth_routes.py] (development login, [/auth/me]) and [auditor/api/admin.py]: the
    granting of roles, the update of the sampler's settings (over [Sampler]), the wiping of the run data,
    the scan for data at rest (over [Scanner]) and the calibration endpoints (over [Calibration]).
    Tokens are those of [ApiAuth]. *)

From Stdlib Require Import ZArith Lia SpecFloat.
From Stdlib Require String.
From stdpp Require Import base tactics option list strings gmap sets relations.
From S2P Require Import Prelude PyStr Float64 Json ApiAuth Budget Gate Incidents Store Orchestrator Sampler Scanner Calibration.

Local Open Scope Z_scope.

Record User := {
  u_user_id : uuid;
  u_tenant_id : uuid;
  u_email : string;
  u_role : string
}.

Section accounts.
Context (jwt_secret : string) (bind_uuid : string → option uuid).

(** ** Login *)

Record LoginSettings := { auth_dev_login_enabled : bool; jwt_ttl_seconds : Z }.

(** [_find_user_by_email]: the first row the database answers. *)
Definition _find_user_by_email (email : string) (users : list User) : option User :=
  snd <$> list_find (λ u, u_email u = email) users.

(** [login]: the token, which is also the cookie, and the user it was issued for.  The password is not
    looked at. *)
Definition login (s : LoginSettings) (now_s : Z) (email password : string) (users : list User)
    : result http_exn (string * User) :=
  if negb (auth_dev_login_enabled s) then Raise (HTTPException 403)
  else match _find_user_by_email email users with
       | None => Raise (HTTPException 404)
       | Some u => Ok (issue_token jwt_secret (u_user_id u) (u_tenant_id u) (u_role u) (jwt_ttl_seconds s) now_s, u)
       end.

Fixpoint at_keys (ks : list string) (claims : list (string * json)) : result http_exn (list json) :=
  match ks with
  | [] => Ok []
  | k :: ks' => match dget k claims with
                | None => Raise (ServerError "KeyError")
                | Some v => let! vs := at_keys ks' claims in Ok (v :: vs)
                end
  end.

(** [me]: the five claims, before the response model validates them. *)
Definition me (now_s : Z) (bearer session : option string) : result http_exn (list json) :=
  let! claims := get_current_user jwt_secret now_s bearer session in
  at_keys ["sub"; "tenant_id"; "role"; "iat"; "exp"] claims.

(** ** Roles *)

Definition _VALID_ROLES : list string := ["admin"; "reviewer"; "readonly"].

Definition with_role (role : string) (u : User) : User :=
  {| u_user_id := u_user_id u; u_tenant_id := u_tenant_id u; u_email := u_email u; u_role := role |}.

(** [grant_role]: the table afterwards and the previous role. *)
Definition grant_role (now_s : Z) (bearer session : option string) (user_id role : string) (users : list User)
    : list User * result http_exn string :=
  let outcome :=
    let! claims := require_role jwt_secret ["admin"] now_s bearer session in
    if negb (bool_decide (role ∈ _VALID_ROLES)) then Raise (HTTPException 422)
    else match bind_uuid user_id with
         | None => Raise (ServerError "DBAPIError")
         | Some id => match list_find (λ u, u_user_id u = id) users with
                      | None => Raise (HTTPException 404)
                      | Some (_, u) => Ok u
                      end
         end in
  match outcome with
  | Raise e => (users, Raise e)
  | Ok u => (map (λ x, if String.eqb (u_user_id x) (u_user_id u) then with_role role x else x) users, Ok (u_role u))
  end.

(** ** The sampler's settings *)

Record SamplerSettingsBody := {
  b_mode : option string;
  b_rate : option f64;
  b_every_n : option Z;
  b_interval_seconds : option f64;
  b_critical_risk_threshold : option Z
}.

Definition merge_settings (body : SamplerSettingsBody) (current : SamplerSettings) : SamplerSettings :=
  {| mode := default (mode current) (b_mode body); rate := default (rate current) (b_rate body);
     every_n := default (every_n current) (b_every_n body);
     interval_seconds := default (interval_seconds current) (b_interval_seconds body);
     risk_threshold := default (risk_threshold current) (b_critical_risk_threshold body) |}.

Definition get_sampler (now_s : Z) (bearer session : option string) (st : PolicyState)
    : result http_exn SamplerSettings :=
  let! _ := require_role jwt_secret ["admin"; "reviewer"] now_s bearer session in Ok (settings st).

(** [update_sampler]; [st] is the state when the current settings are read and [st'] the one when the
    new ones are written. *)
Definition update_sampler (now_s : Z) (bearer session : option string) (body : SamplerSettingsBody)
    (st st' : PolicyState) : PolicyState * result http_exn SamplerSettings :=
  match require_role jwt_secret ["admin"] now_s bearer session with
  | Raise e => (st', Raise e)
  | Ok _ =>
      match set_settings (merge_settings body (settings st)) st' with
      | Ok new => (new, Ok (settings new))
      | Raise _ => (st', Raise (HTTPException 400))
      end
  end.

(** ** The scan and the calibration *)

Section scan.
Context (fromisoformat : string → option datetime) (detect : json → list string)
        (fresh : string → uuid → uuid) (accepts : VerdictRow → bool).

Definition run_pii_scanner (now_s : Z) (now : datetime) (bearer session : option string)
    (since : option string) (rows : list EventRow) (memory_rows : option (list MemoryEntry)) (db : ResultDb)
    : ResultDb * result http_exn ScanSummary :=
  let outcome :=
    let! claims := require_role jwt_secret ["admin"] now_s bearer session in
    let! since :=
      match _parse_since fromisoformat now (if ostr_truthy since then since else None) with
      | Ok s => Ok s
      | Raise e => if String.eqb (exn_class e) "ValueError" then Raise (HTTPException 400)
                   else Raise (ServerError (exn_class e))
      end in
    match get_truthy "tenant_id" claims with
    | None => Raise (HTTPException 400)
    | Some (JStr t) => match parse_uuid t with
                       | Some tenant => Ok (tenant, since)
                       | None => Raise (ServerError "ValueError")
                       end
    | Some _ => Raise (ServerError "AttributeError")
    end in
  match outcome with
  | Raise e => (db, Raise e)
  | Ok (tenant, since) =>
      let '(db', s) := run_scan detect fresh now accepts tenant since rows memory_rows db in (db', Ok s)
  end.
End scan.

Record CalibrationRun := {
  cal_ts : datetime;
  cal_report : CalibrationReport
}.

(** [ORDER BY ts DESC LIMIT 1] *)
Definition _get_latest_calibration_run (rows : list CalibrationRun) : option CalibrationRun :=
  match rows with [] => None | r :: rs => Some (max_by cal_ts r rs) end.

Definition get_latest_calibration (now_s : Z) (bearer session : option string) (rows : list CalibrationRun)
    : result http_exn (option CalibrationRun) :=
  let! _ := require_role jwt_secret ["admin"] now_s bearer session in Ok (_get_latest_calibration_run rows).

(** [run_calibration]: the job's report, stored when the database takes it, answered in any case. *)
Definition run_calibration (now_s : Z) (now : datetime) (bearer session : option string)
    (job : result PyExn CalibrationReport) (commits : bool) (rows : list CalibrationRun)
    : list CalibrationRun * result http_exn CalibrationReport :=
  match require_role jwt_secret ["admin"] now_s bearer session with
  | Raise e => (rows, Raise e)
  | Ok _ => match job with
            | Raise e => (rows, Raise (ServerError (exn_class e)))
            | Ok report => (if commits then rows ++ [{| cal_ts := now; cal_report := report |}] else rows, Ok report)
            end
  end.

(** ** Wiping the run data *)

Definition reset_wanted : list string :=
  ["incident_action_items"; "incident_comments"; "incidents"; "hitl_decisions"; "shadow_verdicts"; "verdicts";
   "flags"; "sampler_decisions"; "audit_log"; "memory_embeddings"; "memory_entries"; "events"; "runs"].

(** [reset_demo_data]: the tables of the one TRUNCATE statement. *)
Definition reset_targets (existing : list string) : list string :=
  bfilter (λ t, bool_decide (t ∈ existing)) reset_wanted.

Definition reset_demo_data (now_s : Z) (bearer session : option string) (existing : list string)
    : result http_exn (list string) :=
  let! _ := require_role jwt_secret ["admin"] now_s bearer session in Ok (reset_targets existing).
End accounts.

(** The references between the tables of [auditor/db/models.py]: the referring table first. *)
Definition foreign_keys : list (string * string) :=
  [("policies", "tenants"); ("users", "tenants"); ("runs", "tenants"); ("events", "runs");
   ("gate_decisions", "events"); ("sampler_decisions", "runs"); ("verdicts", "runs"); ("flags", "runs");
   ("hitl_decisions", "flags"); ("hitl_decisions", "users"); ("memory_embeddings", "memory_entries");
   ("incidents", "flags"); ("incidents", "users"); ("incident_comments", "incidents");
   ("incident_comments", "users"); ("incident_action_items", "incidents"); ("incident_action_items", "users");
   ("shadow_verdicts", "runs")].

(** CASCADE: the tables that refer, directly or not, to a truncated one. *)
Inductive truncated (targets : list string) : string → Prop :=
| truncated_target t : t ∈ targets → truncated targets t
| truncated_ref t t' : (t, t') ∈ foreign_keys → truncated targets t' → truncated targets t.

(** ** Roles and tokens over time *)

(** The table of users, and the tokens issued so far: each with the row it was issued from and when. *)
Record AuthState := {
  st_users : list User;
  issued : list (string * User * Z)
}.

Section auth_steps.
Context (jwt_secret : string) (bind_uuid : string → option uuid) (s : LoginSettings).

(** A login, or a request to grant a role that carries no token or one the service issued. *)
Inductive auth_step (st : AuthState) : AuthState → Prop :=
| step_login now email password tok u :
    login jwt_secret s now email password (st_users st) = Ok (tok, u) →
    auth_step st {| st_users := st_users st; issued := (tok, u, now) :: issued st |}
| step_grant now bearer session user_id role users' r :
    (∀ tok, extract_raw_token bearer session = Some tok → ∃ u t, (tok, u, t) ∈ issued st) →
    grant_role jwt_secret bind_uuid now bearer session user_id role (st_users st) = (users', r) →
    auth_step st {| st_users := users'; issued := issued st |}.

Definition token_of (u : User) (t : Z) : string :=
  issue_token jwt_secret (u_user_id u) (u_tenant_id u) (u_role u) (jwt_ttl_seconds s) t.

Definition issued_ok (st : AuthState) : Prop := ∀ tok u t, (tok, u, t) ∈ issued st → tok = token_of u t.

(** A successful grant: an administrator's token, a valid role, and the one row changed. *)
Lemma grant_role_ok now bearer session user_id role users users' prev :
  grant_role jwt_secret bind_uuid now bearer session user_id role users = (users', Ok prev) →
  ∃ claims u, require_role jwt_secret ["admin"] now bearer session = Ok claims ∧ role ∈ _VALID_ROLES ∧
    u ∈ users ∧ bind_uuid user_id = Some (u_user_id u) ∧ prev = u_role u ∧
    users' = map (λ x, if String.eqb (u_user_id x) (u_user_id u) then with_role role x else x) users.
Proof.
  unfold grant_role. set (o := result_bind (require_role _ _ _ _ _) _). destruct o as [u|e] eqn:E; intros [= <- <-].
  subst o. apply result_bind_ok in E as (claims & Hc & E). case_bool_decide as Hrole; [|done]. simpl in E.
  destruct (bind_uuid user_id) as [id|]; [|done].
  destruct (list_find _ users) as [[i u']|] eqn:Hf; [|done]. injection E as <-.
  apply list_find_Some in Hf as (Hin & Hid & _). apply list_elem_of_lookup_2 in Hin.
  exists claims, u'. split_and!; try done. congruence.
Qed.

Lemma grant_role_raise now bearer session user_id role users users' e :
  grant_role jwt_secret bind_uuid now bearer session user_id role users = (users', Raise e) → users' = users.
Proof. unfold grant_role. by destruct (result_bind (require_role _ _ _ _ _) _); intros [= <- ?]. Qed.

(** The request's own token has the role it was issued with. *)
Lemma issued_role st now bearer session claims roles :
  issued_ok st → (∀ tok, extract_raw_token bearer session = Some tok → ∃ u t, (tok, u, t) ∈ issued st) →
  require_role jwt_secret roles now bearer session = Ok claims →
  ∃ tok u t, extract_raw_token bearer session = Some tok ∧ (tok, u, t) ∈ issued st ∧ u_role u ∈ roles ∧
             now < t + jwt_ttl_seconds s.
Proof.
  intros Hok Hp (tok & Ht & Hv & Hin)%require_role_ok. destruct (Hp tok Ht) as (u & t & Hi).
  exists tok, u, t. split; [done|]. split; [done|]. rewrite (Hok _ _ _ Hi) in Hv. unfold token_of in Hv.
  rewrite issue_verify_exact in Hv. destruct (Z.ltb_spec now (t + jwt_ttl_seconds s)) as [Hlt|]; [|done].
  injection Hv as <-. split; [|done]. unfold role_in in Hin. simpl in Hin. by apply bool_decide_eq_true in Hin.
Qed.

(** In a table with a primary key, changing the rows with one id changes one row. *)
Lemma update_one (f : User → User) users i u :
  NoDup (map u_user_id users) → users !! i = Some u →
  map (λ x, if String.eqb (u_user_id x) (u_user_id u) then f x else x) users = <[i := f u]> users.
Proof.
  intros Hn Hi. apply list_eq. intros j. change (map ?g users) with (g <$> users). rewrite list_lookup_fmap.
  destruct (decide (i = j)) as [<-|Hne].
  - rewrite Hi, list_lookup_insert_eq by by eapply lookup_lt_Some. cbn. by rewrite String.eqb_refl.
  - rewrite list_lookup_insert_ne by done. destruct (users !! j) as [x|] eqn:Hj; [|done]. cbn.
    destruct (String.eqb_spec (u_user_id x) (u_user_id u)) as [E|]; [|done]. destruct Hne.
    apply (NoDup_lookup (map u_user_id users) i j (u_user_id u)); [done| |];
      change (map u_user_id users) with (u_user_id <$> users); rewrite list_lookup_fmap.
    + by rewrite Hi.
    + rewrite Hj. cbn. by rewrite E.
Qed.

Lemma issued_step st st' : auth_step st st' → issued_ok st → issued_ok st'.
Proof.
  intros [now email pw tok u Hl|now bearer session uid role users' r _ _] Hok; [|done].
  intros tok' u' t'. simpl. rewrite elem_of_cons. intros [[= -> -> ->]|Hi]; [|by apply Hok].
  unfold login in Hl. destruct (negb _); [done|]. by destruct (_find_user_by_email _ _); simplify_eq.
Qed.

Lemma reachable_issued users0 st :
  rtc auth_step {| st_users := users0; issued := [] |} st → issued_ok st.
Proof.
  remember ({| st_users := users0; issued := [] |}) as st0 eqn:E.
  assert (issued_ok st0) as H0 by (subst; intros tok u t ?%elem_of_nil; done). clear E.
  induction 1 as [|x y z Hxy _ IH]; [done|]. apply IH. by eapply issued_step.
Qed.

Definition has_admin (users : list User) : Prop := ∃ u, u ∈ users ∧ u_role u = "admin".

Definition no_admin (st : AuthState) : Prop :=
  ¬ has_admin (st_users st) ∧ ∀ tok u t, (tok, u, t) ∈ issued st → u_role u ≠ "admin".

Lemma no_admin_step st st' : issued_ok st → auth_step st st' → no_admin st → no_admin st'.
Proof.
  intros Hok [now email pw tok u Hl|now bearer session uid role users' r Hp Hg] [Hu Hi].
  - split; [done|]. intros tok' u' t'. simpl. rewrite elem_of_cons.
    intros [[= -> -> ->]|Hin]; [|by eapply Hi]. intros Ha. apply Hu. exists u. split; [|done].
    unfold login in Hl. destruct (negb _); [done|]. unfold _find_user_by_email in Hl.
    destruct (list_find _ _) as [[i x]|] eqn:Hf; [|done]. simplify_eq/=.
    apply list_find_Some in Hf as (Hin & _ & _). by apply list_elem_of_lookup_2 in Hin.
  - destruct r as [prev|e]; [|by apply grant_role_raise in Hg as ->].
    apply grant_role_ok in Hg as (claims & u & Hc & _).
    destruct (issued_role st now bearer session claims ["admin"] Hok Hp Hc) as (tok & x & t & _ & Hin & Hr & _).
    apply list_elem_of_singleton in Hr. by destruct (Hi _ _ _ Hin).
Qed.

Lemma same_users users0 st :
  rtc auth_step {| st_users := users0; issued := [] |} st →
  map u_user_id (st_users st) = map u_user_id users0.
Proof.
  intros Hr. remember ({| st_users := users0; issued := [] |}) as st0 eqn:E.
  replace users0 with (st_users st0) by by subst. clear E.
  induction Hr as [|x y z Hxy _ IH]; [done|]. rewrite IH.
  destruct Hxy as [|now bearer session uid role users' r _ Hg]; [done|]. simpl.
  destruct r as [prev|e]; [|by apply grant_role_raise in Hg as ->].
  apply grant_role_ok in Hg as (claims & u & _ & _ & _ & _ & _ & ->). rewrite map_map.
  apply map_ext. intros x'. by destruct (String.eqb _ _).
Qed.

(** C21: Nobody becomes an administrator without one.  From any table of users, after any logins and
    requests to grant roles that carry no token or one of the service: the users are the same, roles stay
    valid, and if no user was an administrator, none is and no administrator's token exists.  A request that
    grants a role carried itself a token that was issued to an administrator and had not expired; it changes
    the role of the user it names to the valid role it names, and nothing else of this or of any other user
    (user ids are a primary key). *)
Theorem no_escalation users0 st :
  rtc auth_step {| st_users := users0; issued := [] |} st →
  map u_user_id (st_users st) = map u_user_id users0 ∧
  (Forall (λ u, u_role u ∈ _VALID_ROLES) users0 → Forall (λ u, u_role u ∈ _VALID_ROLES) (st_users st)) ∧
  (¬ has_admin users0 → no_admin st) ∧
  (∀ now bearer session user_id role users' prev,
     (∀ tok, extract_raw_token bearer session = Some tok → ∃ u t, (tok, u, t) ∈ issued st) →
     grant_role jwt_secret bind_uuid now bearer session user_id role (st_users st) = (users', Ok prev) →
     (∃ tok admin t, extract_raw_token bearer session = Some tok ∧ (tok, admin, t) ∈ issued st ∧
        u_role admin = "admin" ∧ now < t + jwt_ttl_seconds s) ∧
     role ∈ ["admin"; "reviewer"; "readonly"] ∧
     (NoDup (map u_user_id users0) →
      ∃ i u, st_users st !! i = Some u ∧ bind_uuid user_id = Some (u_user_id u) ∧ u_role u = prev ∧
        users' = <[i := {| u_user_id := u_user_id u; u_tenant_id := u_tenant_id u; u_email := u_email u;
                           u_role := role |}]> (st_users st))).
Proof.
  intros Hr. pose proof (reachable_issued _ _ Hr) as Hok. pose proof (same_users _ _ Hr) as Hids.
  split_and!; [exact Hids|..].
  - clear Hok Hids. remember ({| st_users := users0; issued := [] |}) as st0 eqn:E.
    replace users0 with (st_users st0) by by subst. clear E.
    induction Hr as [|x y z Hxy _ IH]; [done|]. intros H0. apply IH.
    destruct Hxy as [|now bearer session uid role users' r _ Hg]; [done|]. simpl.
    destruct r as [prev|e]; [|by apply grant_role_raise in Hg as ->].
    apply grant_role_ok in Hg as (claims & u & _ & Hrole & _ & _ & _ & ->).
    rewrite Forall_forall in H0 |- *. intros y (x' & -> & Hx')%elem_of_map.
    destruct (String.eqb _ _); [done|by apply H0].
  - intros H0. assert (no_admin {| st_users := users0; issued := [] |}) as Hn
      by (split; [done|intros tok u t ?%elem_of_nil; done]).
    assert (issued_ok {| st_users := users0; issued := [] |}) as Hi by (intros tok u t ?%elem_of_nil; done).
    clear Hok Hids H0. induction Hr as [|x y z Hxy _ IH]; [done|].
    apply IH; [by eapply no_admin_step|by eapply issued_step].
  - intros now bearer session uid role users' prev Hp Hg.
    apply grant_role_ok in Hg as (claims & u & Hc & Hvalid & Hu & Hb & -> & ->).
    destruct (issued_role st now bearer session claims ["admin"] Hok Hp Hc) as (tok & x & t & Htok & Hin & Hrole & Ht).
    apply list_elem_of_singleton in Hrole. split_and!; [by exists tok, x, t|done|].
    intros Hn. apply list_elem_of_lookup in Hu as [i Hi]. exists i, u. split_and!; try done.
    apply (update_one (with_role role)); [by rewrite Hids|done].
Qed.
End auth_steps.

(** ** The other administrative operations *)

(** An update of the sampler: the caller is an administrator, the settings become the merge of the body
    over the settings read, with the counters reset; refused settings answer 400 and change nothing. *)
Theorem update_sampler_exact secret now_s bearer session body st st' new r :
  update_sampler secret now_s bearer session body st st' = (new, r) →
  match r with
  | Ok applied =>
      (∃ claims, require_role secret ["admin"] now_s bearer session = Ok claims) ∧
      applied = merge_settings body (settings st) ∧ settings new = applied ∧
      counter new = 0 ∧ validate_settings applied = Ok tt
  | Raise _ => new = st'
  end.
Proof.
  unfold update_sampler, set_settings. destruct (require_role _ _ _ _ _) as [claims|e]; [|by intros [= <- <-]].
  destruct (validate_settings (merge_settings body (settings st))) as [[]|e] eqn:E; cbn [result_bind];
    intros [= <- <-]; [|done]. split_and!; eauto.
Qed.

(** Whatever tables exist, wiping the run data truncates at most the thirteen tables listed and, through
    its reference to the events, the gate decisions: tenants, users, policies, saved queries, detector
    states, baselines, keys and calibration data stay. *)
Theorem reset_keeps_accounts existing t :
  truncated (reset_targets existing) t → t ∈ "gate_decisions" :: reset_wanted.
Proof.
  induction 1 as [t Ht|t t' Hfk _ IH].
  - right. by apply elem_of_bfilter in Ht as [_ Ht].
  - unfold foreign_keys in Hfk. unfold reset_wanted in *.
    repeat (apply elem_of_cons in Hfk as [[= -> ->]|Hfk];
            [first [by_decision | exfalso; revert IH; apply (bool_decide_unpack _); vm_compute; exact I]|]).
    by apply elem_of_nil in Hfk.
Qed.

(** A scan that runs is a scan of the tenant on the caller's token. *)
Lemma scan_of_own_tenant secret fromiso detect fresh accepts now_s now bearer session since rows mem db db' sum :
  run_pii_scanner secret fromiso detect fresh accepts now_s now bearer session since rows mem db = (db', Ok sum) →
  ∃ claims t tenant since', require_role secret ["admin"] now_s bearer session = Ok claims ∧
    dget "tenant_id" claims = Some (JStr t) ∧ parse_uuid t = Some tenant ∧
    (db', sum) = run_scan detect fresh now accepts tenant since' rows mem db.
Proof.
  unfold run_pii_scanner. set (o := result_bind (require_role _ _ _ _ _) _).
  destruct o as [[tenant since']|e] eqn:E; [|done].
  destruct (run_scan _ _ _ _ _ _ _ _ _) as [d x] eqn:Es. intros [= <- <-]. subst o.
  apply result_bind_ok in E as (claims & Hc & E). apply result_bind_ok in E as (si & _ & E).
  unfold get_truthy in E. destruct (dget "tenant_id" claims) as [v|] eqn:Ht; [|done].
  destruct (py_truthy v); [|done]. destruct v as [| | | |t| |]; try done.
  destruct (parse_uuid t) as [u|] eqn:Hu; [|done]. simplify_eq. eauto 10.
Qed.

(** The grant looks at the administrator's role only: an administrator of one tenant changes the role of
    another tenant's user. *)
Definition tenant_a_admin : User := {| u_user_id := "a"; u_tenant_id := "ta"; u_email := "a@x"; u_role := "admin" |}.
Definition tenant_b_user : User := {| u_user_id := "b"; u_tenant_id := "tb"; u_email := "b@x"; u_role := "readonly" |}.

Example grant_role_not_tenant_scoped :
  grant_role "secret" Some 1001 (Some (issue_token "secret" "a" "ta" "admin" 100 1000)) None "b" "admin"
    [tenant_a_admin; tenant_b_user] = ([tenant_a_admin; with_role "admin" tenant_b_user], Ok "readonly").
Proof. vm_compute. reflexivity. Qed.

(** Addresses are unique within a tenant only; the login takes the first row of any tenant. *)
Example login_ignores_tenant :
  let u t := {| u_user_id := t; u_tenant_id := t; u_email := "a@x"; u_role := "admin" |} in
  snd <$> (match login "secret" {| auth_dev_login_enabled := true; jwt_ttl_seconds := 60 |} 0 "a@x" "" [u "t1"; u "t2"] with
           | Ok x => Some x | Raise _ => None end) = Some (u "t1").
Proof. reflexivity. Qed.

(** A token keeps the role it was issued with: an administrator who was demoted still grants roles until
    the token expires. *)
Lemma demoted_admin_still_grants secret now t ttl u users role id :
  u_role u = "admin" → now < t + ttl → role ∈ _VALID_ROLES → (∃ x, x ∈ users ∧ u_user_id x = id) →
  ∃ prev, (grant_role secret Some now (Some (issue_token secret (u_user_id u) (u_tenant_id u) (u_role u) ttl t)) None
             id role users).2 = Ok prev.
Proof.
  intros Hu Ht Hr (x & Hx & Hid). unfold grant_role.
  set (tok := issue_token _ _ _ _ _ _).
  assert (verify_token secret now tok = Ok (token_payload (u_user_id u) (u_tenant_id u) (u_role u) ttl t)) as Hv.
  { unfold tok. rewrite issue_verify_exact. by rewrite (proj2 (Z.ltb_lt _ _) Ht). }
  assert (str_truthy tok = true) as Htok by (destruct tok; [by apply verify_token_ok in Hv as (? & ? & ? & _)|done]).
  assert (require_role secret ["admin"] now (Some tok) None =
          Ok (token_payload (u_user_id u) (u_tenant_id u) (u_role u) ttl t)) as ->.
  { unfold require_role, get_current_user, extract_raw_token. rewrite Htok. cbn [ostr_truthy default].
    rewrite Htok. cbn [negb from_option]. change (Datatypes.id tok) with tok. rewrite Hv. cbn [result_bind]. unfold role_in. simpl. rewrite Hu. by rewrite bool_decide_eq_true_2 by left. }
  cbn [result_bind]. rewrite bool_decide_eq_true_2 by done. simpl.
  destruct (list_find (λ y, u_user_id y = id) users) as [[i y]|] eqn:Hf; [by eexists|].
  apply list_find_None in Hf. rewrite Forall_forall in Hf. by destruct (Hf x Hx).
Qed.

(** ** Witnesses *)

Definition sample_login : LoginSettings := {| auth_dev_login_enabled := true; jwt_ttl_seconds := 100 |}.
Definition sample_users : list User := [tenant_a_admin; tenant_b_user].
Definition sample_logged_in : AuthState :=
  {| st_users := sample_users; issued := [(issue_token "secret" "a" "ta" "admin" 100 1000, tenant_a_admin, 1000)] |}.

Lemma sample_login_step :
  rtc (auth_step "secret" Some sample_login) {| st_users := sample_users; issued := [] |} sample_logged_in.
Proof.
  apply rtc_once.
  exact (step_login "secret" Some sample_login {| st_users := sample_users; issued := [] |} 1000 "a@x" "anything"
           _ tenant_a_admin eq_refl).
Qed.

Lemma no_escalation_witness :
  Forall (λ u, u_role u ∈ _VALID_ROLES) (st_users sample_logged_in) ∧
  ∃ users' prev,
    grant_role "secret" Some 1001 (Some (issue_token "secret" "a" "ta" "admin" 100 1000)) None "b" "reviewer"
      (st_users sample_logged_in) = (users', Ok prev) ∧
    ∃ i u, st_users sample_logged_in !! i = Some u ∧ u_user_id u = "b" ∧
      users' = <[i := with_role "reviewer" u]> (st_users sample_logged_in).
Proof.
  destruct (no_escalation "secret" Some sample_login sample_users sample_logged_in sample_login_step)
    as (_ & H2 & _ & H4).
  split; [apply H2; by_decision|].
  destruct (grant_role "secret" Some 1001 (Some (issue_token "secret" "a" "ta" "admin" 100 1000)) None "b"
              "reviewer" (st_users sample_logged_in)) as [users' [prev|e]] eqn:E; [|vm_compute in E; discriminate E].
  exists users', prev. split; [reflexivity|].
  destruct (H4 1001 (Some (issue_token "secret" "a" "ta" "admin" 100 1000)) None "b" "reviewer" users' prev)
    as (_ & _ & Hone).
  - intros tok [= <-]. exists tenant_a_admin, 1000. left.
  - exact E.
  - destruct Hone as (i & u & Hi & Hb & _ & Hu); [by_decision|]. exists i, u. injection Hb as Hb.
    split; [exact Hi|]. split; [symmetry; exact Hb|exact Hu].
Defined.

Definition sample_update : PolicyState * result http_exn SamplerSettings :=
  update_sampler "secret" 1001 (Some (issue_token "secret" "a" "ta" "admin" 100 1000)) None
    {| b_mode := Some "every_nth"; b_rate := None; b_every_n := Some 5; b_interval_seconds := None;
       b_critical_risk_threshold := None |}
    {| settings := default_settings; counter := 3; last_audit_ts := fzero |}
    {| settings := default_settings; counter := 3; last_audit_ts := fzero |}.

Lemma update_sampler_exact_witness :
  ∃ applied, sample_update.2 = Ok applied ∧ every_n applied = 5 ∧ counter sample_update.1 = 0.
Proof.
  assert (is_ok sample_update.2 = true) as Hr by (vm_compute; reflexivity).
  destruct sample_update as [new r] eqn:E. pose proof (update_sampler_exact _ _ _ _ _ _ _ _ _ E) as H.
  destruct r as [applied|]; [|done]. exists applied. destruct H as (_ & -> & _ & Hc & _). by split_and!.
Defined.

Lemma reset_keeps_accounts_witness :
  truncated (reset_targets ["events"; "users"]) "gate_decisions" ∧ "gate_decisions" ∈ "gate_decisions" :: reset_wanted.
Proof.
  assert (truncated (reset_targets ["events"; "users"]) "gate_decisions") as H.
  { apply (truncated_ref _ _ "events"); [by_decision|]. apply truncated_target. by_decision. }
  split; [exact H|]. exact (reset_keeps_accounts _ _ H).
Defined.
