(* ===== verification/Export.v ===== *)
(** * Replay and the export bundle

    Models [auditor/api/replay.py]: the signed bundle of a run and its verification, the text slice of a
    trace and its judging, and the replay route of [hitl_routes.py] that is meant to answer the bundle.
    Pydantic's JSON of an event is a parameter; HMAC and JSON are those of [Sha256] and [Json]. *)

From Stdlib Require Import ZArith Lia Ascii.
From Stdlib Require String.
From stdpp Require Import base tactics option list strings.
From S2P Require Import Prelude PyStr Float64 Sha256 Json Events ApiAuth Budget Gate Store Judge ReviewApi.

Local Open Scope Z_scope.

Definition _BUNDLE_VERSION : Z := 1.

Definition _canonical_json (obj : json) : string := utf8 (dumps compact (sort_keys obj)).

Definition _hmac_sign (payload : list (string * json)) (secret : string) : string :=
  to_hex (hmac_sha256 secret (_canonical_json (JObj payload))).

Definition opt_str (o : option string) : json := match o with Some s => JStr s | None => JNull end.

Section export.
(** [json.loads(event.model_dump_json())], or what the dump raises. *)
Context (model_dump : BaseEvent → result PyExn (list (string * json))).

Fixpoint events_as_dicts (evs : list BaseEvent) : result PyExn (list json) :=
  match evs with
  | [] => Ok []
  | e :: evs' => let! d := model_dump e in let! ds := events_as_dicts evs' in Ok (JObj d :: ds)
  end.

(** ** The bundle *)

Definition bundle_payload (t : Trace) (evs : list json) : list (string * json) :=
  [("version", JInt _BUNDLE_VERSION); ("run_id", JStr (t_run_id t)); ("tenant_id", JStr (t_tenant_id t));
   ("declared_goal", opt_str (declared_goal t)); ("events", JArr evs); ("metadata", JObj (metadata t))].

Definition build_export_bundle (t : Trace) (secret : string) : result PyExn (list (string * json)) :=
  let! evs := events_as_dicts (events t) in
  let payload := bundle_payload t evs in
  Ok (payload ++ [("signature", JStr (_hmac_sign payload secret))]).

(** The payload of a bundle: everything but its signature. *)
Definition unsigned (bundle : list (string * json)) : list (string * json) :=
  bfilter (λ kv, negb (String.eqb kv.1 "signature")) bundle.

(** [verify_export_bundle]; the comparison raises unless it is given two ASCII texts. *)
Definition verify_export_bundle (bundle : list (string * json)) (secret : string) : result PyExn bool :=
  let sig := jget "signature" bundle in
  if negb (py_truthy sig) then Ok false
  else match sig with
       | JStr s => match compare_digest s (_hmac_sign (unsigned bundle) secret) with
                   | Ok b => Ok b
                   | Raise _ => raise "TypeError" "comparing strings with non-ASCII characters is not supported"
                   end
       | _ => raise "TypeError" ("unsupported operand types(s) or combination of types: '"
                                 +:+ json_type sig +:+ "' and 'str'")
       end.

(** ** The slice given to the judge *)

Definition slice_skip : list string :=
  ["event_id"; "run_id"; "tenant_id"; "span_id"; "parent_span_id"; "schema_version"; "channel"; "pid"].

Definition slice_line (d : list (string * json)) : string :=
  let parts := map (λ kv, kv.1 +:+ "=" +:+ py_repr kv.2)
    (bfilter (λ kv, negb (bool_decide (kv.1 ∈ slice_skip)) && negb (bool_decide (kv.1 ∈ ["event_type"; "ts"]))
                    && negb (bool_decide (kv.2 = JNull))) d) in
  "  " +:+ py_str (default (JStr "?") (dget "event_type" d)) +:+ " ts="
    +:+ py_str (default (JStr "?") (dget "ts" d)) +:+ " " +:+ join " " parts.

Fixpoint slice_lines (evs : list BaseEvent) : result PyExn (list string) :=
  match evs with
  | [] => Ok []
  | e :: evs' => let! d := model_dump e in let! ls := slice_lines evs' in Ok (slice_line d :: ls)
  end.

Definition _trace_to_slice (t : Trace) : result PyExn string :=
  let! ls := slice_lines (events t) in
  Ok (join (String (ascii_of_nat 10) "")
        (["run_id=" +:+ t_run_id t; "tenant_id=" +:+ t_tenant_id t;
          "declared_goal=" +:+ py_repr (opt_str (declared_goal t)); "events:"] ++ ls)).

Definition replay_with_judge {W} (judge : JudgeFn W) (t : Trace) (category rubric : string) (prompt_version : Z)
    (w : W) : W * result PyExn JudgeResult :=
  match _trace_to_slice t with
  | Raise e => (w, Raise e)
  | Ok slice => judge category rubric slice prompt_version w
  end.
End export.

(** ** The route *)

(** A call of [build_export_bundle(trace, *, secret)] by position and by keyword. *)
Definition call_build_export_bundle {A} (positional : nat) (keywords : list string) (body : result PyExn A)
    : result PyExn A :=
  if (positional <=? 1)%nat && forallb (λ k, bool_decide (k ∈ ["trace"; "secret"])) keywords
     && bool_decide ("secret" ∈ keywords) && ((positional =? 1)%nat || bool_decide ("trace" ∈ keywords))
     && negb ((positional =? 1)%nat && bool_decide ("trace" ∈ keywords))
  then body else raise "TypeError" "build_export_bundle() got unexpected arguments".

Section replay_route.
Context (jwt_secret : string) (bind_uuid pg_uuid : string → option uuid).

(** [get_run_replay]: it passes the run id and the session by position; only an import or an attribute
    error is answered with the minimal envelope, the run and its events. *)
Definition get_run_replay {A} (db : ReviewDb) (now_s : Z) (bearer session : option string) (run_id' : string)
    (bundle : result PyExn A) : result http_exn (A + (Run * list EventRow)) :=
  let! claims := get_current_user jwt_secret now_s bearer session in
  let! setting := tenant_setting claims in
  let! rs := scoped pg_uuid run_tenant_id setting (rd_runs db) in
  let! run := _get_run bind_uuid run_id' rs in
  match run with
  | None => Raise (HTTPException 404)
  | Some r =>
      match call_build_export_bundle 2 [] bundle with
      | Ok b => Ok (inl b)
      | Raise e =>
          if bool_decide (exn_class e ∈ ["ImportError"; "AttributeError"]) then
            let! rows := scoped pg_uuid er_tenant_id setting (rd_events db) in
            let! evs := _get_run_events bind_uuid run_id' None 10000 rows in Ok (inr (r, evs))
          else Raise (ServerError (exn_class e))
      end
  end.
End replay_route.

(** ** Properties *)

Lemma to_hex_ascii b : is_ascii (to_hex b) = true.
Proof.
  induction b as [|c b IH]; [done|]. cbn [to_hex]. destruct c as [[] [] [] [] [] [] [] []]; exact IH.
Qed.

Lemma hmac_hex_nonempty k m : to_hex (hmac_sha256 k m) ≠ "".
Proof.
  pose proof (length_hmac k m) as Hl. destruct (hmac_sha256 k m) as [|c s]; [done|]. by cbn [to_hex].
Qed.

Lemma verify_true_iff bundle secret :
  verify_export_bundle bundle secret = Ok true ↔
  dget "signature" bundle = Some (JStr (_hmac_sign (unsigned bundle) secret)).
Proof.
  unfold verify_export_bundle, jget. set (h := _hmac_sign (unsigned bundle) secret).
  assert (is_ascii h = true) as Ha by apply to_hex_ascii. assert (h ≠ "") as Hne by apply hmac_hex_nonempty.
  split.
  - destruct (dget "signature" bundle) as [v|]; [|done]. simpl. destruct (py_truthy v); [|done]. simpl.
    destruct v as [| | | |s| |]; try done. unfold compare_digest. rewrite Ha, andb_true_r.
    destruct (is_ascii s); [|done]. intros [= Heq%String.eqb_eq]. by subst s.
  - intros ->. cbn [default from_option]. assert (py_truthy (JStr h) = true) as Ht by (by destruct h).
    change (Datatypes.id (JStr h)) with (JStr h). rewrite Ht. cbn [negb].
    unfold compare_digest. by rewrite Ha, String.eqb_refl.
Qed.

Section bundle.
Context (model_dump : BaseEvent → result PyExn (list (string * json))).

Lemma unsigned_payload t evs secret :
  unsigned (bundle_payload t evs ++ [("signature", JStr secret)]) = bundle_payload t evs.
Proof. reflexivity. Qed.

Lemma events_as_dicts_wf evs l :
  events_as_dicts model_dump evs = Ok l →
  (∀ e d, e ∈ evs → model_dump e = Ok d → json_wf (JObj d)) → Forall json_wf l.
Proof.
  revert l. induction evs as [|e evs IH]; intros l; simpl; [intros [= <-] _; constructor|].
  intros (d & Hd & (ds & Hds & [= <-])%result_bind_ok)%result_bind_ok H. constructor.
  - apply (H e); [left|done].
  - apply IH; [done|]. intros e' d' He'. apply H. by right.
Qed.

(** The bundle of a run is verified by whoever has the secret, also after it has been written as
    JSON and read back, and after the fields of the bundle have been put in another order. *)
Theorem export_bundle_roundtrip t secret b :
  build_export_bundle model_dump t secret = Ok b →
  (∀ e d, e ∈ events t → model_dump e = Ok d → json_wf (JObj d)) → json_wf (JObj (metadata t)) →
  loads (dumps spaced (JObj b)) = Some (JObj b) ∧
  ∀ b', b' ≡ₚ b → verify_export_bundle b' secret = Ok true.
Proof.
  unfold build_export_bundle. intros (evs & Hevs & [= <-])%result_bind_ok Hwf Hm.
  set (payload := bundle_payload t evs). 
  set (b := payload ++ [("signature", JStr (_hmac_sign payload secret))]).
  assert (NoDup (dkeys b)) as Hnd by (subst b payload; by_decision). split.
  - apply loads_dumps; [apply spaced_ok|]. apply json_wf_obj. split; [exact Hnd|].
    pose proof (events_as_dicts_wf _ _ Hevs Hwf) as Hl.
    apply json_wf_arr in Hl. subst b payload. unfold bundle_payload. cbn [app].
    repeat (apply Forall_cons; split); cbn [snd]; try done; by destruct (declared_goal t).
  - intros b' Hp. apply verify_true_iff.
    assert (NoDup (dkeys b')) as Hnd' by (unfold dkeys in *; by rewrite Hp).
    assert (unsigned b' ≡ₚ payload) as Hu.
    { change payload with (unsigned b). unfold unsigned, bfilter. by rewrite Hp. }
    assert (_hmac_sign (unsigned b') secret = _hmac_sign payload secret) as ->.
    { unfold _hmac_sign, _canonical_json. rewrite (sort_keys_perm (unsigned b') payload); [done| |done].
      rewrite Hu. subst payload. by_decision. }
    apply elem_of_dget; [done|]. rewrite Hp. do 6 right. left.
Qed.
End bundle.

(** C34: A bundle is verified only when its signature is the hexadecimal HMAC, under the secret, of the
    canonical JSON of its other fields.  So a signature does not fit two bundles: two verified bundles
    with one signature have the same content up to the order of keys, unless two of the texts hashed for
    the one and for the other collide. *)
Theorem export_bundle_tamper_evident secret b1 b2 :
  json_wf (JObj b1) → json_wf (JObj b2) →
  verify_export_bundle b1 secret = Ok true →
  let signed b := utf8 (dumps compact (sort_keys (JObj (unsigned b)))) in
  dget "signature" b1 = Some (JStr (to_hex (hmac_sha256 secret (signed b1)))) ∧
  (verify_export_bundle b2 secret = Ok true → dget "signature" b1 = dget "signature" b2 →
   sort_keys (JObj (unsigned b1)) = sort_keys (JObj (unsigned b2)) ∨
   collision_in (hmac_inputs secret (signed b1)) (hmac_inputs secret (signed b2))).
Proof.
  intros H1 H2 E1%verify_true_iff signed. split; [exact E1|]. rewrite E1.
  intros ->%verify_true_iff [= Hs]. unfold _hmac_sign in Hs.
  apply (inj to_hex) in Hs. apply hmac_inj_or_collision in Hs as [Hs|Hs]; [left|by right].
  assert (∀ b, json_wf (JObj b) → json_wf (sort_keys (JObj (unsigned b)))) as Hwf.
  { intros b [Hn Hw]%json_wf_obj. apply sort_keys_wf, json_wf_obj. unfold unsigned, bfilter. split.
    - eapply sublist_NoDup; [exact Hn|]. apply (fmap_sublist fst), sublist_filter.
    - rewrite Forall_forall in *. intros x [_ Hx]%list_elem_of_filter. auto. }
  unfold _canonical_json in Hs. apply (inj utf8) in Hs.
  apply (dumps_inj compact compact_ok) in Hs; auto.
Qed.

(** A signature that is not an ASCII text makes the verification raise, and an absent or empty one is
    refused. *)
Lemma verify_export_refuses bundle secret :
  (py_truthy (jget "signature" bundle) = false → verify_export_bundle bundle secret = Ok false) ∧
  (∀ s, dget "signature" bundle = Some (JStr s) → is_ascii s = false →
     ∃ e, verify_export_bundle bundle secret = Raise e).
Proof.
  unfold verify_export_bundle. split; [by intros ->|]. intros s Hd Ha. unfold jget. rewrite Hd.
  cbn [default from_option]. change (Datatypes.id (JStr s)) with (JStr s).
  assert (py_truthy (JStr s) = true) as -> by (by destruct s).
  cbn [negb]. unfold compare_digest. rewrite Ha. cbn [andb]. eauto.
Qed.

(** The export of a run fails as soon as an event cannot be dumped: pydantic writes the bytes of a model
    as UTF-8, and a digest is not UTF-8 in general. *)
Lemma undumpable_event_fails model_dump t secret e x :
  e ∈ events t → model_dump e = Raise x →
  (∃ y, build_export_bundle model_dump t secret = Raise y) ∧ ∃ y, _trace_to_slice model_dump t = Raise y.
Proof.
  intros He Hx. unfold build_export_bundle, _trace_to_slice.
  assert (∀ evs, e ∈ evs → ∃ y, events_as_dicts model_dump evs = Raise y) as H1.
  { induction evs as [|a evs IH]; [by intros ?%elem_of_nil|]. simpl. intros [->|Hin]%elem_of_cons.
    - rewrite Hx. by eexists.
    - destruct (model_dump a); [|by eexists]. destruct (IH Hin) as [y ->]. by eexists. }
  assert (∀ evs, e ∈ evs → ∃ y, slice_lines model_dump evs = Raise y) as H2.
  { induction evs as [|a evs IH]; [by intros ?%elem_of_nil|]. simpl. intros [->|Hin]%elem_of_cons.
    - rewrite Hx. by eexists.
    - destruct (model_dump a); [|by eexists]. destruct (IH Hin) as [y ->]. by eexists. }
  destruct (H1 _ He) as [y1 ->], (H2 _ He) as [y2 ->]. by split; eexists.
Qed.

(** The replay route never answers a bundle: for a run the caller may see it always fails with a
    server error, since its call does not fit the function's parameters and the handler catches other
    classes only. *)
Theorem replay_route_always_fails jwt_secret bind_uuid pg_uuid {A} db now_s bearer session rid (bundle : result PyExn A) :
  match get_run_replay jwt_secret bind_uuid pg_uuid db now_s bearer session rid bundle with
  | Ok _ => False
  | Raise e =>
      (∃ claims setting rs r, get_current_user jwt_secret now_s bearer session = Ok claims ∧
         tenant_setting claims = Ok setting ∧ scoped pg_uuid run_tenant_id setting (rd_runs db) = Ok rs ∧
         _get_run bind_uuid rid rs = Ok (Some r)) → e = ServerError "TypeError"
  end.
Proof.
  unfold get_run_replay. destruct (get_current_user _ _ _ _) as [claims|e1] eqn:E1; cbn [result_bind];
    [|by intros (? & ? & ? & ? & ? & _)].
  destruct (tenant_setting claims) as [setting|e2] eqn:E2; cbn [result_bind];
    [|intros (? & ? & ? & ? & ? & ? & _); congruence].
  destruct (scoped _ _ setting _) as [rs|e3] eqn:E3; cbn [result_bind];
    [|intros (? & ? & ? & ? & ? & ? & ? & _); congruence].
  destruct (_get_run _ _ rs) as [[r|]|e4] eqn:E4; cbn [result_bind].
  - done.
  - intros (? & ? & ? & ? & ? & ? & ? & ?). congruence.
  - intros (? & ? & ? & ? & ? & ? & ? & ?). congruence.
Qed.

(** ** Witnesses *)

Definition sample_trace : Trace :=
  {| t_run_id := "r"; t_tenant_id := "t"; declared_goal := Some "say hello"; events := []; metadata := [("k", JInt 1)] |}.

Definition sample_bundle : list (string * json) :=
  bundle_payload sample_trace [] ++ [("signature", JStr (_hmac_sign (bundle_payload sample_trace []) "key"))].

Lemma export_bundle_roundtrip_witness :
  loads (dumps spaced (JObj sample_bundle)) = Some (JObj sample_bundle) ∧
  verify_export_bundle (reverse sample_bundle) "key" = Ok true.
Proof.
  destruct (export_bundle_roundtrip (λ _, Ok []) sample_trace "key" sample_bundle) as [H1 H2];
    [reflexivity|intros e d He%elem_of_nil; done|apply json_wf_obj; split; [by_decision|by repeat constructor]|].
  split; [exact H1|]. apply H2. apply reverse_Permutation.
Defined.

Lemma export_bundle_tamper_evident_witness :
  let b := sample_bundle in
  sort_keys (JObj (unsigned b)) = sort_keys (JObj (unsigned (reverse b))) ∨
  collision_in (hmac_inputs "key" (_canonical_json (JObj (unsigned b))))
               (hmac_inputs "key" (_canonical_json (JObj (unsigned (reverse b))))).
Proof.
  intros b. assert (∀ c, c ≡ₚ b → json_wf (JObj c)) as Hw.
  { intros c Hc. apply json_wf_obj. split.
    - unfold dkeys. rewrite Hc. by_decision.
    - rewrite Hc. subst b. repeat constructor; by_decision. }
  apply (export_bundle_tamper_evident "key" b (reverse b));
    [by apply Hw|apply Hw, reverse_Permutation|apply verify_true_iff; reflexivity..|reflexivity].
Defined.
