(* ===== verification/Policy.v ===== *)
(** * The default policy of the inline gate

    Models [opa/policies/default.rego] as the policy server that [Gate] asks: the sets of reasons to deny
    and to confirm, and the decision.  An expression that is undefined in Rego makes its rule's body fail
    and its negation succeed; a set is iterated in sorted order.  How the server prints a value that is
    not a string is a parameter.  [lower] changes ASCII letters only, which is the same for the ASCII
    fragments looked for. *)

From Stdlib Require Import ZArith Lia Ascii SpecFloat.
From Stdlib Require String.
From stdpp Require Import base tactics option list strings sets.
From S2P Require Import Prelude PyStr Float64 Json Budget Gate Bridge.

Local Open Scope Z_scope.

Definition sensitive_paths : list string :=
  ["/etc/"; "/proc/"; "/sys/"; "/root/.ssh/"; "/.ssh/"; ".ssh/"; ".aws/credentials"; "/proc/self/environ"; "id_rsa"].

Definition allowlisted_dest_substrings : list string := ["127.0.0.1"; "localhost"; "api.anthropic.com"].

Definition destructive_shell_patterns : list string :=
  ["rm -rf"; "rm -r"; "rm -f"; "rmdir"; "del /"; "rd /"; "format "; "format/"; "drop table"; "drop database";
   "drop schema"; "truncate table"; "delete from"; "wipe "; "shred "; "mkfs"; ":(){:|:&};:"].

Definition is_sensitive_path (p : string) : bool := existsb (λ frag, contains (lower frag) (lower p)) sensitive_paths.

Definition is_allowlisted_dest (d : string) : bool :=
  existsb (λ a, contains (lower a) (lower d)) allowlisted_dest_substrings.

Notation input_object := (list (string * json)) (only parsing).

(** [input.k == "s"] *)
Definition input_is (k s : string) (input : input_object) : bool := bool_decide (dget k input = Some (JStr s)).

(** [input.k], where a string is needed *)
Definition input_str (k : string) (input : input_object) : option string :=
  match dget k input with Some (JStr s) => Some s | _ => None end.

(** [object.get(input.tool_args, k, d)], undefined unless the arguments are an object *)
Definition tool_arg (k : string) (d : json) (input : input_object) : option json :=
  match dget "tool_args" input with Some (JObj m) => Some (default d (dget k m)) | _ => None end.

Definition has_declared_purpose (input : input_object) : bool :=
  match dget "declared_purpose" input with
  | None | Some JNull | Some (JStr "") => false
  | Some _ => true
  end.

Definition when (b : bool) (msg : string) : list string := if b then [msg] else [].

Section policy.
(** The server's rendering of a value that is not a string. *)
Context (render_other : json → string).

(** [sprintf("%v", [v])] *)
Definition render (v : json) : string := match v with JStr s => s | _ => render_other v end.

Definition deny_reasons (input : input_object) : list string :=
  sorted_set
    ((if input_is "event_type" "syscall.openat" input then
        match input_str "path" input with
        | Some p => when (is_sensitive_path p) ("sensitive path access: " +:+ p)
        | None => []
        end
      else []) ++
     when (input_is "event_type" "tool_call.start" input && input_is "tool_name" "exec_shell" input
           && negb (has_declared_purpose input)) "exec_shell requires a declared_purpose" ++
     (if input_is "event_type" "syscall.connect" input then
        match dget "dest" input with
        | None | Some (JBool false) => []
        | Some d => when (negb (match d with JStr s => is_allowlisted_dest s | _ => false end))
                      ("egress to non-allowlisted destination: " +:+ render d)
        end
      else [])).

Definition confirm_reasons (input : input_object) : list string :=
  sorted_set
    (if input_is "event_type" "tool_call.start" input then
       (if input_is "tool_name" "send_email" input then
          match tool_arg "body" (JStr "") input with
          | Some (JStr body) => when (contains "confidential" (lower body)) "outbound email contains 'confidential'"
          | _ => []
          end
        else []) ++
       (if input_is "tool_name" "file_write" input then
          match tool_arg "content" (JStr "") input with
          | Some (JStr "") =>
              ["file_write with empty content on "
               +:+ render (default JNull (tool_arg "path" (JStr "(unknown path)") input))
               +:+ " - reviewer approval required for truncation/deletion"]
          | _ => []
          end
        else []) ++
       (if input_is "tool_name" "exec_shell" input then
          match tool_arg "command" (JStr "") input with
          | Some (JStr cmd) =>
              map (λ pat, "exec_shell destructive pattern " +:+ String quote (pat +:+ String quote "")
                          +:+ " - reviewer approval required")
                  (bfilter (λ pat, contains pat (lower cmd)) destructive_shell_patterns)
          | _ => []
          end
        else [])
     else []).

Definition decision (input : input_object) : string * list string :=
  if negb (bool_decide (deny_reasons input = [])) then ("DENY", deny_reasons input)
  else if negb (bool_decide (confirm_reasons input = [])) then ("CONFIRM", confirm_reasons input)
  else ("ALLOW", []).

(** The server's answer to a query of [data.auditor.gate.decision]; an object is read with its members
    in order, and the fields of anything else are undefined. *)
Definition default_policy (i : json) : result PyExn json :=
  let '(d, rs) := decision (match sort_keys i with JObj m => m | _ => [] end) in
  Ok (JObj [("result", JObj [("decision", JStr d); ("reasons", JArr (map JStr rs))])]).
End policy.

(** ** The input the gate builds *)

(** The members that are not null. *)
Definition nonnull (v : json) : option json := match v with JNull => None | _ => Some v end.

Lemma dget_nonnull k (l : input_object) :
  NoDup (dkeys l) → dget k (bfilter (λ kv, negb (bool_decide (kv.2 = JNull))) l) = dget k l ≫= nonnull.
Proof.
  induction l as [|[k0 v0] l IH]; [done|]. rewrite dkeys_cons, NoDup_cons. intros [Hk Hn].
  rewrite bfilter_cons. cbn [fst snd dget] in *. specialize (IH Hn).
  destruct (decide (k0 = k)) as [->|Hne].
  - destruct v0; simpl; rewrite ?decide_True by done; try done.
    rewrite IH. by rewrite (proj2 (dget_None k l)).
  - destruct (negb _); simpl; by rewrite ?decide_False by done.
Qed.

Lemma dget_sort_keys k (m : input_object) :
  NoDup (dkeys m) →
  match sort_keys (JObj m) with JObj m' => dget k m' = sort_keys <$> dget k m | _ => False end.
Proof.
  intros Hn. cbn [sort_keys]. set (m' := map _ m).
  assert (dkeys m' = dkeys m) as Hk by (unfold m', dkeys; by rewrite <-list_fmap_compose).
  assert (dget k m' = sort_keys <$> dget k m) as Hd.
  { unfold m'. clear. induction m as [|[k0 v0] m IH]; simpl; [done|]. by case_decide. }
  rewrite <-Hd. assert (NoDup (dkeys (foldr insert_key [] m'))) as Hn'.
  { unfold dkeys in *. by rewrite foldr_insert_key_perm, Hk. }
  destruct (dget k m') as [v|] eqn:E.
  - apply elem_of_dget; [done|]. rewrite foldr_insert_key_perm. by apply dget_elem_of.
  - apply dget_None. apply dget_None in E. unfold dkeys in *. by rewrite foldr_insert_key_perm.
Qed.

Lemma sort_keys_str s v : sort_keys v = JStr s ↔ v = JStr s.
Proof. destruct v; simpl; naive_solver. Qed.

Lemma jget_wf k (d : input_object) : json_wf (JObj d) → json_wf (jget k d).
Proof.
  intros [_ Hw]%json_wf_obj. unfold jget. destruct (dget k d) as [v|] eqn:E; [|done]. simpl.
  apply dget_elem_of in E. rewrite Forall_forall in Hw. exact (Hw _ E).
Qed.

(** The value the gate passes as [tool_args]. *)
Definition args_of (event : input_object) : json :=
  if py_truthy (jget "tool_args" event) then jget "tool_args" event else JObj [].

Record input_of (event m : input_object) : Prop := {
  io_type : dget "event_type" m = nonnull (jget "event_type" event);
  io_tool : dget "tool_name" m = nonnull (jget "tool_name" event);
  io_args : dget "tool_args" m = nonnull (args_of event);
  io_purpose : dget "declared_purpose" m = nonnull (jget "declared_purpose" event);
  io_path : py_truthy (jget "path" event) = true → dget "path" m = nonnull (jget "path" event);
  io_dest : py_truthy (jget "dest" event) = true → dget "dest" m = nonnull (jget "dest" event);
  io_keys : NoDup (dkeys m);
  io_wf : json_wf (JObj event) → json_wf (JObj m)
}.

Lemma py_or_ok a b v : py_or a b = Ok v → (py_truthy a = true ∧ v = a) ∨ (py_truthy a = false ∧ b () = Ok v).
Proof. unfold py_or. destruct (py_truthy a); [intros [= ->]; by left|by right]. Qed.

Lemma opa_input_ok event i : opa_input event = Ok i → ∃ m, i = JObj m ∧ input_of event m.
Proof.
  unfold opa_input. intros (args & Hargs & H)%result_bind_ok.
  apply result_bind_ok in H as (path & Hpath & H). apply result_bind_ok in H as (dest & Hdest & [= <-]).
  assert (args = args_of event) as ->.
  { unfold args_of. by apply py_or_ok in Hargs as [[-> ->]|[-> [= <-]]]. }
  eexists. split; [done|].
  assert (∀ a p d, NoDup (dkeys [("event_type", jget "event_type" event); ("tool_name", jget "tool_name" event);
     ("tool_args", a); ("declared_purpose", jget "declared_purpose" event); ("path", p : json); ("dest", d : json)])) as Hn
    by (intros; by_decision).
  assert (json_wf (JObj event) → json_wf (args_of event)) as Hwa.
  { intros Hw. unfold args_of. destruct (py_truthy _); [by apply jget_wf|]. apply json_wf_obj. split; constructor. }
  assert (∀ k v, json_wf (JObj event) → (let! a := as_dict "get" (args_of event) in Ok (jget k a)) = Ok v → json_wf v) as Hwg.
  { intros k v Hw (a & Ha & [= <-])%result_bind_ok. apply jget_wf.
    destruct (args_of event); simplify_eq/=. by apply Hwa. }
  split; rewrite ?dget_nonnull by apply Hn; try done.
  - intros Ht. apply py_or_ok in Hpath as [[_ ->]|[Hf _]]; [done|congruence].
  - intros Ht. apply py_or_ok in Hdest as [[_ ->]|[Hf _]]; [done|congruence].
  - unfold dkeys, bfilter. eapply sublist_NoDup; [apply (Hn (args_of event) path dest)|].
    apply (fmap_sublist fst), sublist_filter.
  - intros Hw. apply json_wf_obj. split.
    + unfold bfilter. eapply sublist_NoDup; [apply (Hn (args_of event) path dest)|].
      apply (fmap_sublist fst), sublist_filter.
    + apply Forall_forall. intros x [_ Hx]%elem_of_bfilter.
      assert (json_wf path ∧ json_wf dest) as [Hp Hd].
      { split.
        - apply py_or_ok in Hpath as [[_ ->]|[_ Hp]]; [by apply jget_wf|by eapply Hwg].
        - apply py_or_ok in Hdest as [[_ ->]|[_ Hd]]; [by apply jget_wf|].
          apply result_bind_ok in Hd as (u & Hu & Hd).
          apply py_or_ok in Hd as [[_ ->]|[_ Hd]]; by eapply Hwg. }
      repeat (apply elem_of_cons in Hx as [->|Hx]; [simpl; auto using jget_wf|]). by apply elem_of_nil in Hx.
Qed.

(** ** What the gate answers under the default policy *)

Section default_policy.
Context (render_other : json → string).

Notation policy := (default_policy render_other).

Lemma default_policy_unordered : unordered policy.
Proof. intros i j E. unfold default_policy. by rewrite E. Qed.

Lemma decision_deny inp msg : msg ∈ deny_reasons render_other inp → (decision render_other inp).1 = "DENY".
Proof. unfold decision. intros H. rewrite bool_decide_eq_false_2; [done|]. intros E. rewrite E in H. by apply elem_of_nil in H. Qed.

Lemma decision_confirm inp msg : msg ∈ confirm_reasons render_other inp → (decision render_other inp).1 ≠ "ALLOW".
Proof.
  unfold decision. intros H. destruct (negb _); [done|]. rewrite bool_decide_eq_false_2; [done|].
  intros E. rewrite E in H. by apply elem_of_nil in H.
Qed.

(** The fields the policy reads. *)
Lemma sorted_fields (m : input_object) :
  NoDup (dkeys m) → ∃ inp, sort_keys (JObj m) = JObj inp ∧ ∀ k, dget k inp = sort_keys <$> dget k m.
Proof.
  intros Hn. eexists. split; [reflexivity|]. intros k. apply (dget_sort_keys k m Hn).
Qed.

Lemma elem_of_when b msg x : x ∈ when b msg ↔ b = true ∧ x = msg.
Proof. unfold when. destruct b; set_solver. Qed.

Lemma input_is_true k s inp : input_is k s inp = true ↔ dget k inp = Some (JStr s).
Proof. apply bool_decide_eq_true. Qed.

(** The policy's reading of the input the gate builds from an event. *)
Record policy_input (event inp : input_object) : Prop := {
  pi_str : ∀ k s, k = "event_type" ∨ k = "tool_name" → jget k event = JStr s → dget k inp = Some (JStr s);
  pi_path : ∀ s, jget "path" event = JStr s → s ≠ "" → dget "path" inp = Some (JStr s);
  pi_dest : ∀ s, jget "dest" event = JStr s → s ≠ "" → dget "dest" inp = Some (JStr s);
  pi_purpose : jget "declared_purpose" event = JNull ∨ jget "declared_purpose" event = JStr "" →
               has_declared_purpose inp = false;
  pi_purposed : ∀ s, jget "declared_purpose" event = JStr s → s ≠ "" → has_declared_purpose inp = true;
  pi_args : ∀ a, jget "tool_args" event = JObj a → NoDup (dkeys a) →
            ∃ a', dget "tool_args" inp = Some (JObj a') ∧ ∀ k, dget k a' = sort_keys <$> dget k a
}.

Lemma policy_input_of event m inp :
  input_of event m → sort_keys (JObj m) = JObj inp → policy_input event inp.
Proof.
  intros [H1 H2 H3 H4 H5 H6 Hn _] Hs. destruct (sorted_fields m Hn) as (inp' & E & Hd).
  rewrite E in Hs. injection Hs as ->. split.
  - intros k s [-> | ->] Hk; rewrite Hd; [rewrite H1, Hk|rewrite H2, Hk]; done.
  - intros s Hs Hne. rewrite Hd, H5, Hs; [done|]. rewrite Hs. by destruct s.
  - intros s Hs Hne. rewrite Hd, H6, Hs; [done|]. rewrite Hs. by destruct s.
  - unfold has_declared_purpose. rewrite Hd, H4. by intros [-> | ->].
  - intros s Hs Hne. unfold has_declared_purpose. rewrite Hd, H4, Hs. by destruct s.
  - intros a Ha Hna. rewrite Hd, H3. unfold args_of. rewrite Ha.
    assert (∃ a2, (if py_truthy (JObj a) then JObj a else JObj []) = JObj a2 ∧ NoDup (dkeys a2) ∧
      ∀ k, dget k a2 = dget k a) as (a2 & -> & Hn2 & Hk).
    { destruct a; [by exists []|by eexists]. }
    destruct (sorted_fields a2 Hn2) as (a' & Ea & Hda). exists a'. cbn [nonnull fmap option_fmap option_map].
    rewrite Ea. split; [done|]. intros k. by rewrite Hda, Hk.
Qed.

(** The vote of the policy check: the decision on the event's fields, or a denial when the input cannot
    be built. *)
Lemma opa_check_default event now st :
  cache_sound policy st → json_wf (JObj event) →
  sd_decision (opa_check (λ i, evaluate policy i now) event st).2 = JStr "DENY" ∨
  ∃ inp, policy_input event inp ∧
    sd_decision (opa_check (λ i, evaluate policy i now) event st).2 = JStr (decision render_other inp).1.
Proof.
  intros Hst Hwf. unfold opa_check. destruct (opa_input event) as [i|e] eqn:Ei; [|by left].
  apply opa_input_ok in Ei as (m & -> & Hm). right.
  destruct (sorted_fields m (io_keys _ _ Hm)) as (inp & E & _). exists inp.
  split; [by apply (policy_input_of event m)|].
  destruct (evaluate_sound policy (JObj m) now st default_policy_unordered (io_wf _ _ Hm Hwf) Hst) as [Hr _].
  destruct (evaluate policy (JObj m) now st) as [st' r]. simpl in Hr. subst r.
  unfold default_policy. rewrite E. by destruct (decision render_other inp) as [d rs].
Qed.

(** The input is built whenever the arguments are an object. *)
Lemma opa_check_answers event now st :
  cache_sound policy st → json_wf (JObj event) → (∃ a, jget "tool_args" event = JObj a) →
  ∃ inp, policy_input event inp ∧
    sd_decision (opa_check (λ i, evaluate policy i now) event st).2 = JStr (decision render_other inp).1.
Proof.
  intros Hst Hwf [a Ha].
  assert (∃ i, opa_input event = Ok i) as [i Ei].
  { unfold opa_input, py_or. rewrite Ha. destruct (py_truthy (JObj a)); cbn [result_bind as_dict];
      repeat case_match; eexists; reflexivity. }
  pose proof Ei as Ei'. apply opa_input_ok in Ei' as (m & -> & Hm).
  destruct (sorted_fields m (io_keys _ _ Hm)) as (inp & E & _). exists inp.
  split; [by apply (policy_input_of event m)|]. unfold opa_check. rewrite Ei.
  destruct (evaluate_sound policy (JObj m) now st default_policy_unordered (io_wf _ _ Hm Hwf) Hst) as [Hr _].
  destruct (evaluate policy (JObj m) now st) as [st' r]. simpl in Hr. subst r.
  unfold default_policy. rewrite E. by destruct (decision render_other inp) as [d rs].
Qed.

(** A shell call with a purpose whose arguments have no member [command] is allowed. *)
Lemma unnamed_command_allowed event inp a :
  policy_input event inp → jget "event_type" event = JStr "tool_call.start" →
  jget "tool_name" event = JStr "exec_shell" → jget "tool_args" event = JObj a → NoDup (dkeys a) →
  (∃ s, jget "declared_purpose" event = JStr s ∧ s ≠ "") → dget "command" a = None →
  (decision render_other inp).1 = "ALLOW".
Proof.
  intros Hi Ht Hn Ha Hna (s & Hs & Hne) Hc. destruct (pi_args _ _ Hi _ Ha Hna) as (a' & Ha' & Hk).
  pose proof (pi_str _ _ Hi "event_type" _ (or_introl eq_refl) Ht) as Ht'.
  pose proof (pi_str _ _ Hi "tool_name" _ (or_intror eq_refl) Hn) as Hn'.
  assert (∀ k t u, dget k inp = Some (JStr u) → input_is k t inp = String.eqb u t) as Hin.
  { intros k t u E. unfold input_is. rewrite E. destruct (String.eqb_spec u t) as [->|Hd];
      [by apply bool_decide_eq_true|apply bool_decide_eq_false; congruence]. }
  assert (deny_reasons render_other inp = []) as Hd.
  { unfold deny_reasons. rewrite !(Hin _ _ _ Ht'), (Hin _ _ _ Hn'), (pi_purposed _ _ Hi s Hs Hne). reflexivity. }
  assert (confirm_reasons render_other inp = []) as Hf.
  { unfold confirm_reasons, tool_arg. rewrite !(Hin _ _ _ Ht'), !(Hin _ _ _ Hn'), Ha', !Hk, Hc. reflexivity. }
  unfold decision. by rewrite Hd, Hf.
Qed.

(** The rule on destinations never fires on the event of a system call: its dictionary has an address and
    no destination. *)
Lemma connect_rule_never_fires w family addr port d i :
  w_payload w = WSyscallConnect family addr port → event_to_dict w = Ok d → opa_input d = Ok i →
  wb_event_type (w_base w) = "syscall.connect" →
  ∃ inp, sort_keys i = JObj inp ∧ dget "dest" inp = None ∧ deny_reasons render_other inp = [].
Proof.
  intros Hw Hd Hi Ht. unfold event_to_dict in Hd. rewrite Hw in Hd. injection Hd as <-.
  unfold base_dict in Hi. rewrite Ht in Hi. vm_compute in Hi. injection Hi as <-.
  eexists. split; [reflexivity|]. split; reflexivity.
Qed.

(** So the policy check allows every connection that is reported. *)
Lemma connect_allowed w family addr port d now st :
  cache_sound policy st → w_payload w = WSyscallConnect family addr port → event_to_dict w = Ok d →
  wb_event_type (w_base w) = "syscall.connect" →
  sd_decision (opa_check (λ i, evaluate policy i now) d st).2 = JStr "ALLOW".
Proof.
  intros Hst Hw Hd Ht. unfold event_to_dict in Hd. rewrite Hw in Hd. injection Hd as <-.
  unfold base_dict. rewrite Ht. unfold opa_check.
  match goal with |- context [opa_input ?e] => destruct (opa_input e) as [i|] eqn:Ei end; [|by vm_compute in Ei].
  vm_compute in Ei. injection Ei as <-.
  match goal with |- context [evaluate policy ?i now st] =>
    destruct (evaluate_sound policy i now st default_policy_unordered) as [Hr _];
      [apply json_wf_obj; split; [by_decision|repeat constructor; by_decision || set_solver]|done|];
    destruct (evaluate policy i now st) as [st' r] end.
  simpl in Hr. subst r. reflexivity.
Qed.

Context {C : Type} (check : string → string → C → C * result PyExn SubDecision)
        (pii : string → result PyExn SubDecision).

Lemma gate_denies event now run_id st c o' c' g :
  cache_sound policy st → json_wf (JObj event) →
  gate_decide (λ i, evaluate policy i now) check pii event run_id st c = (o', c', Ok g) →
  (∀ inp, policy_input event inp → ∃ msg, msg ∈ deny_reasons render_other inp) → g_decision g = "DENY".
Proof.
  intros Hst Hwf Hg H. apply (gate_follows_opa _ _ _ _ _ _ _ _ _ _ Hg).
  destruct (opa_check_default event now st Hst Hwf) as [Hd|(inp & Hi & ->)]; [done|].
  destruct (H inp Hi) as [msg Hm]. by rewrite (decision_deny _ _ Hm).
Qed.

Lemma gate_stops event now run_id st c o' c' g :
  cache_sound policy st → json_wf (JObj event) →
  gate_decide (λ i, evaluate policy i now) check pii event run_id st c = (o', c', Ok g) →
  (∀ inp, policy_input event inp → ∃ msg, msg ∈ confirm_reasons render_other inp) → g_decision g ≠ "ALLOW".
Proof.
  intros Hst Hwf Hg H. apply (gate_follows_opa _ _ _ _ _ _ _ _ _ _ Hg).
  destruct (opa_check_default event now st Hst Hwf) as [->|(inp & Hi & ->)]; [done|].
  destruct (H inp Hi) as [msg Hm]. intros [= E]. by apply (decision_confirm _ _ Hm).
Qed.

(** An event of another type than a tool call gets the policy's vote. *)
Lemma gate_is_policy event now run_id st c o' c' g :
  starts_tool event = false →
  gate_decide (λ i, evaluate policy i now) check pii event run_id st c = (o', c', Ok g) →
  sd_decision (opa_check (λ i, evaluate policy i now) event st).2 = JStr (g_decision g).
Proof.
  intros Ht. unfold gate_decide, budget_vote, pii_vote. rewrite Ht. cbn [andb].
  destruct (opa_check _ event st) as [o1 d]. cbn [result_bind app]. intros [= _ _ Hg].
  unfold combine, final_decision in Hg. cbn [fmap list_fmap snd severities] in Hg.
  destruct (severity_of (sd_decision d)) as [[s n]|e] eqn:E; [|done].
  apply severity_of_ok in E as [E _]. cbn in Hg. injection Hg as <-. exact E.
Qed.

(** C5: Under the default policy, with a cache that holds its decisions, and whatever the budget and the
    scan vote: the gate denies a shell tool without a declared purpose and the opening of a sensitive
    path, and it does not allow without a reviewer a confidential mail, a file write without content and a
    destructive shell command in the argument [command].  Two of the policy's rules do not reach what
    they are written for: every connection an event reports is allowed, whatever its address, since the
    rule reads [dest] and the event carries [addr]; and the policy allows every shell call with a purpose
    whose command is passed under another name than [command], as the harness's tool passes it ([cmd]). *)
Theorem gate_enforces_default_policy event now run_id st c o' c' g :
  cache_sound policy st → json_wf (JObj event) →
  gate_decide (λ i, evaluate policy i now) check pii event run_id st c = (o', c', Ok g) →
  (jget "event_type" event = JStr "tool_call.start" → jget "tool_name" event = JStr "exec_shell" →
   jget "declared_purpose" event = JNull ∨ jget "declared_purpose" event = JStr "" → g_decision g = "DENY") ∧
  (∀ p, jget "event_type" event = JStr "syscall.openat" → jget "path" event = JStr p → p ≠ "" →
   is_sensitive_path p = true → g_decision g = "DENY") ∧
  (∀ a s, jget "event_type" event = JStr "tool_call.start" → jget "tool_args" event = JObj a →
   (jget "tool_name" event = JStr "send_email" ∧ dget "body" a = Some (JStr s) ∧ contains "confidential" (lower s) = true) ∨
   (jget "tool_name" event = JStr "file_write" ∧ (dget "content" a = None ∨ dget "content" a = Some (JStr ""))) ∨
   (jget "tool_name" event = JStr "exec_shell" ∧ dget "command" a = Some (JStr s) ∧
    ∃ pat, pat ∈ destructive_shell_patterns ∧ contains pat (lower s) = true) → g_decision g ≠ "ALLOW") ∧
  (∀ w family addr port, event_to_dict w = Ok event → wb_event_type (w_base w) = "syscall.connect" →
   w_payload w = WSyscallConnect family addr port → g_decision g = "ALLOW") ∧
  (∀ a, jget "event_type" event = JStr "tool_call.start" → jget "tool_name" event = JStr "exec_shell" →
   (∃ s, jget "declared_purpose" event = JStr s ∧ s ≠ "") →
   jget "tool_args" event = JObj a → dget "command" a = None →
   sd_decision (opa_check (λ i, evaluate policy i now) event st).2 = JStr "ALLOW").
Proof.
  intros Hst Hwf Hg. split_and!.
  - intros Ht Hn Hp. apply (gate_denies _ _ _ _ _ _ _ _ Hst Hwf Hg). intros inp Hi. eexists.
    unfold deny_reasons. rewrite elem_of_sorted_set, !elem_of_app, elem_of_when. right. left. split; [|reflexivity].
    rewrite (pi_purpose _ _ Hi Hp), andb_true_r. apply andb_true_iff.
    split; apply input_is_true; eapply pi_str; eauto.
  - intros p Ht Hp Hne Hs. apply (gate_denies _ _ _ _ _ _ _ _ Hst Hwf Hg). intros inp Hi. eexists.
    unfold deny_reasons. rewrite elem_of_sorted_set, !elem_of_app. left.
    rewrite (proj2 (input_is_true "event_type" "syscall.openat" inp)) by (eapply pi_str; eauto).
    unfold input_str. rewrite (pi_path _ _ Hi _ Hp Hne). by apply elem_of_when.
  - intros a s Ht Ha H. apply (gate_stops _ _ _ _ _ _ _ _ Hst Hwf Hg). intros inp Hi.
    assert (NoDup (dkeys a)) as Hna by (apply (jget_wf "tool_args") in Hwf; rewrite Ha in Hwf; by apply json_wf_obj in Hwf as [? _]).
    destruct (pi_args _ _ Hi _ Ha Hna) as (a' & Ha' & Hk). unfold confirm_reasons, tool_arg.
    rewrite (proj2 (input_is_true "event_type" "tool_call.start" inp)) by (eapply pi_str; eauto).
    rewrite Ha'. setoid_rewrite elem_of_sorted_set. setoid_rewrite elem_of_app. setoid_rewrite elem_of_app.
    destruct H as [(Hn & Hb & Hc)|[(Hn & Hb)|(Hn & Hb & pat & Hpat & Hc)]].
    + eexists. left. rewrite (proj2 (input_is_true "tool_name" "send_email" inp)) by (eapply pi_str; eauto).
      rewrite Hk, Hb. simpl. by apply elem_of_when.
    + eexists. right. left. rewrite (proj2 (input_is_true "tool_name" "file_write" inp)) by (eapply pi_str; eauto).
      rewrite Hk. destruct Hb as [-> | ->]; simpl; left.
    + eexists. right. right. rewrite (proj2 (input_is_true "tool_name" "exec_shell" inp)) by (eapply pi_str; eauto).
      rewrite Hk, Hb. simpl. apply elem_of_map. exists pat. split; [reflexivity|]. by apply elem_of_bfilter.
  - intros w family addr port Hd Ht Hw.
    pose proof (connect_allowed w family addr port event now st Hst Hw Hd Ht) as Ha.
    rewrite (gate_is_policy event now run_id st c o' c' g) in Ha; [by injection Ha| |done].
    apply event_to_dict_app in Hd as (p & _ & ->). unfold starts_tool, base_dict. rewrite Ht. reflexivity.
  - intros a Ht Hn Hp Ha Hc. destruct (opa_check_answers event now st Hst Hwf) as (inp & Hi & ->); [eauto|].
    rewrite (unnamed_command_allowed event inp a); try done.
    apply (jget_wf "tool_args") in Hwf. rewrite Ha in Hwf. by apply json_wf_obj in Hwf as [? _].
Qed.
End default_policy.

(** The harness's shell tool names its argument [cmd]: with a purpose declared, a destructive command is
    not seen by the policy. *)
Example destructive_command_unseen :
  decision (λ _, "") [("event_type", JStr "tool_call.start"); ("tool_name", JStr "exec_shell");
    ("tool_args", JObj [("cmd", JStr "rm -rf /")]); ("declared_purpose", JStr "cleaning")] = ("ALLOW", []).
Proof. reflexivity. Qed.

(** The allow-list is matched by substring, and an outgoing request of a tool is not checked. *)
Example destinations_by_substring :
  is_allowlisted_dest "http://localhost.evil.test" = true ∧
  decision (λ _, "") [("event_type", JStr "tool_call.start"); ("tool_name", JStr "http_post");
    ("tool_args", JObj [("url", JStr "http://evil.test")]); ("dest", JStr "http://evil.test")] = ("ALLOW", []).
Proof. split; reflexivity. Qed.

(** ** Witness *)

Definition shell_event : list (string * json) :=
  [("event_type", JStr "tool_call.start"); ("tool_name", JStr "exec_shell"); ("tool_args", JObj [("cmd", JStr "ls")]);
   ("declared_purpose", JNull)].

(** A connection to an address off the allow-list, as the bridge reports it. *)
Definition connect_wire : WireEvent :=
  {| w_base := {| wb_event_id := "e"; wb_run_id := "r1"; wb_tenant_id := "t"; wb_span_id := "s";
                  wb_parent_span_id := ""; wb_channel := 2; wb_event_type := "syscall.connect";
                  wb_ts_unix_ns := 1; wb_pid := 7 |};
     w_payload := WSyscallConnect "AF_INET" "203.0.113.9" 443 |}.

Definition sample_gate (event : list (string * json)) : OpaClient * RedisTable * result PyExn GateOutcome :=
  gate_decide (λ i, evaluate (default_policy (λ _, "")) i fzero) (λ r tool, budget_check r tool 0)
    (λ text, evaluate_outbound finds_ssn text false) event "r1" fresh_client no_keys.

Lemma gate_enforces_default_policy_witness :
  (∃ o c g, sample_gate shell_event = (o, c, Ok g) ∧ g_decision g = "DENY") ∧
  (∃ d o c g, event_to_dict connect_wire = Ok d ∧ sample_gate d = (o, c, Ok g) ∧ g_decision g = "ALLOW").
Proof.
  assert (cache_sound (default_policy (λ _, "")) fresh_client) as Hst by (intros i d x _ Hx; done).
  assert (json_wf (JObj shell_event)) as Hw1
    by (apply json_wf_obj; split; [by_decision|repeat constructor; by_decision || set_solver]).
  assert (∀ d, event_to_dict connect_wire = Ok d → json_wf (JObj d)) as Hw2.
  { intros d [= <-]. apply json_wf_obj; split; [by_decision|repeat constructor; by_decision || set_solver]. }
  split.
  - destruct (sample_gate shell_event) as [[o c] [g|e]] eqn:E; [|vm_compute in E; done].
    exists o, c, g. split; [done|]. unfold sample_gate in E.
    apply (proj1 (gate_enforces_default_policy _ _ _ _ _ _ _ _ _ _ _ Hst Hw1 E));
      [reflexivity|reflexivity|by left].
  - destruct (event_to_dict connect_wire) as [d|e] eqn:Ed; [|discriminate Ed].
    destruct (sample_gate d) as [[o c] [g|e]] eqn:E; [|injection Ed as <-; vm_compute in E; done].
    exists d, o, c, g. split; [done|]. split; [done|]. unfold sample_gate in E.
    destruct (gate_enforces_default_policy _ _ _ _ _ _ _ _ _ _ _ Hst (Hw2 d eq_refl) E)
      as (_ & _ & _ & Hc & _).
    exact (Hc connect_wire _ _ _ Ed eq_refl eq_refl).
Defined.
