(* ===== verification/AgentApi.v ===== *)
(** * The agent control plane

    Models [auditor/api/agent_routes.py]: the route that starts a run on a reviewer's task (over
    [Runner]) and the live view the reviewer polls while the run is audited, which reads the run and its
    events (over [Store]), the result of the audit (over [Orchestrator]) and the registry of live runs.
    The queries of one view read one state of the tables, in the order of the model's lists where the
    code names no order. *)

From Stdlib Require Import ZArith Lia.
From Stdlib Require String.
From stdpp Require Import base tactics option list strings gmap sets.
From S2P Require Import Prelude PyStr Float64 Json ApiAuth Verdicts Incidents Sampler Events Budget Gate.
From S2P Require Import Rules DetJudged Judge Signals Hitl Store Orchestrator Runner.

Local Open Scope Z_scope.

Definition DEMO_TENANT : uuid := "00000000-0000-0000-0000-000000000001".

(** [AgentRunRequest]'s field constraints. *)
Definition AgentRunRequest_valid (task : string) (max_turns : Z) : bool :=
  (1 <=? Z.of_nat (String.length task)) && (Z.of_nat (String.length task) <=? 4000) &&
  (1 <=? max_turns) && (max_turns <=? 30).

Definition _harness_status (run_id : string) (w : Runner.World) : string :=
  match Runner.get_run run_id w with Some r => hr_status r | None => "unknown" end.

(** ** The verdicts under the operator's checks *)

Record CheckedVerdict := {
  cv_detector : string;
  cv_asi_category : string;
  cv_result : string;
  cv_confidence : f64;
  cv_reason : json
}.

(** [(evidence[0].get("reason", "") if evidence else "")[:400]] of any JSON value. *)
Definition evidence_reason (evidence : json) : result http_exn json :=
  if negb (py_truthy evidence) then Ok (JStr "")
  else match evidence with
       | JArr (JObj d :: _) =>
           match default (JStr "") (dget "reason" d) with
           | JStr s => Ok (JStr (take_str 400 s))
           | JArr l => Ok (JArr (take 400 l))
           | JObj _ => Raise (ServerError "KeyError")
           | _ => Raise (ServerError "TypeError")
           end
       | JArr _ | JStr _ => Raise (ServerError "AttributeError")
       | JObj _ => Raise (ServerError "KeyError")
       | _ => Raise (ServerError "TypeError")
       end.

Notation Grouped := (list (string * (string * list CheckedVerdict))).

Section view.
(** The secret of the tokens; a confidence and a rate as their columns give them back. *)
Context (jwt_secret : string) (column rate_column : f64 → f64).

(** One turn of the loop over the verdicts. *)
Definition group_row (grouped : Grouped) (v : VerdictRow) : result http_exn Grouped :=
  if String.eqb (vr_result v) "OK" then Ok grouped
  else match check_for_detector (vr_detector v) (Some (vr_asi_category v)) with
       | None => Ok grouped
       | Some check =>
           let bucket := default (CHECK_TITLES check, []) (dget (Check_value check) grouped) in
           let! reason := evidence_reason (vr_evidence v) in
           Ok (dset (Check_value check)
                 (bucket.1, bucket.2 ++ [{| cv_detector := vr_detector v; cv_asi_category := vr_asi_category v;
                                            cv_result := vr_result v;
                                            cv_confidence := f_or (column (vr_confidence v)) fzero;
                                            cv_reason := reason |}]) grouped)
       end.

Fixpoint group_rows (grouped : Grouped) (vs : list VerdictRow) : result http_exn Grouped :=
  match vs with
  | [] => Ok grouped
  | v :: vs' => let! grouped := group_row grouped v in group_rows grouped vs'
  end.

(** ** The view *)

Definition rows_of {A} (run_of : A → uuid) (u : uuid) (rows : list A) : list A :=
  bfilter (λ r, String.eqb (run_of r) u) rows.

Definition sampler_of (u : uuid) (res : ResultDb) : option SamplerRow := head (rows_of sr_run_id u (sampler_rows res)).

(** [audit_complete] *)
Definition audited (u : uuid) (res : ResultDb) : bool :=
  match sampler_of u res with
  | None => false
  | Some s => String.eqb (sr_tier s) "NONE"
              || (0 <? Z.of_nat (length (rows_of vr_run_id u (verdict_rows res))))
  end.

(** The run's row is shown without its start time, which [Store] does not keep. *)
Record AgentView := {
  av_run_id : string;
  av_harness_status : string;
  av_audited : bool;
  av_run : option (string * option string * option datetime);
  av_sampler : option (string * string * option f64);
  av_events : list (uuid * datetime * string * string * list (string * json));
  av_checks : Grouped;
  av_flag : option (uuid * string * list string * string);
  av_incident : option (uuid * string * string)
}.

Definition get_agent_run (now_s : Z) (bearer session : option string) (run_id : string)
    (w : Runner.World) (res : ResultDb) : result http_exn AgentView :=
  let! _ := require_role jwt_secret ["admin"; "reviewer"] now_s bearer session in
  match parse_uuid run_id with
  | None => Raise (HTTPException 400)
  | Some u =>
      let run := runs (Runner.db w) !! u in
      if bool_decide (run = None) && bool_decide (Runner.get_run run_id w = None)
      then Raise (HTTPException 404)
      else
        let events := take 500 (order_by_ts (rows_of er_run_id u (event_rows (Runner.db w)))) in
        let flag := head (rows_of fr_run_id u (flag_rows res)) in
        let incident := f ← flag; head (bfilter (λ i, String.eqb (primary_flag_id i) (fr_flag_id f))
                                          (incident_rows res)) in
        let! grouped := group_rows [] (rows_of vr_run_id u (verdict_rows res)) in
        Ok {| av_run_id := run_id;
              av_harness_status := _harness_status run_id w;
              av_audited := audited u res;
              av_run := (λ r, (status r, run_declared_goal r, ended_at r)) <$> run;
              av_sampler := (λ s, (sr_tier s, sr_reason s, rate_column <$> sr_cohort_rate s)) <$> sampler_of u res;
              av_events := map (λ e, (er_event_id e, er_ts e, er_event_type e, er_channel e, er_payload e)) events;
              av_checks := grouped;
              av_flag := (λ f, (fr_flag_id f, fr_severity f, fr_asi_categories f, fr_status f)) <$> flag;
              av_incident := (λ i, (incident_id i, i_state i, i_severity i)) <$> incident |}
  end.

(** ** Starting a run *)

(** [UUID(claims.get("tenant_id") or str(DEMO_TENANT))] *)
Definition run_tenant (claims : list (string * json)) : result http_exn uuid :=
  match get_truthy "tenant_id" claims with
  | None => Ok DEMO_TENANT
  | Some (JStr t) => match parse_uuid t with
                     | Some u => Ok u
                     | None => Raise (ServerError "ValueError")
                     end
  | Some _ => Raise (ServerError "AttributeError")
  end.

(** [_spawn_via_harness_runner], with the environment of the process. *)
Definition _spawn_via_harness_runner (e : StartEnv) (environ : list (string * string)) (now : datetime) (now_f : f64)
    (fresh : uuid) (task : string) (max_turns : Z) (tenant_id : uuid) (w : Runner.World)
    : Runner.World * result PyExn (list (string * string)) :=
  let r := from_request fresh tenant_id task max_turns in
  let '(w, out) := start e environ now now_f fresh r (set_obj fresh r w) in
  (match out with Ok _ => register fresh w | Raise _ => w end, out).

Definition start_agent_run (e : StartEnv) (environ : list (string * string)) (now_s : Z) (now : datetime) (now_f : f64)
    (bearer session : option string) (fresh : uuid) (task : string) (max_turns : Z) (w : Runner.World)
    : Runner.World * result http_exn (uuid * uuid * string * option datetime) :=
  let checked :=
    let! claims := require_role jwt_secret ["admin"; "reviewer"] now_s bearer session in
    if negb (AgentRunRequest_valid task max_turns) then Raise (HTTPException 422) else run_tenant claims in
  match checked with
  | Raise x => (w, Raise x)
  | Ok tenant_id =>
      let '(w, out) := _spawn_via_harness_runner e environ now now_f fresh task max_turns tenant_id w in
      match out with
      | Raise x => (w, Raise (ServerError (exn_class x)))
      | Ok _ => (w, Ok (fresh, tenant_id, task, objs w !! fresh ≫= started_at))
      end
  end.
End view.

(** ** The grouping is the verdicts module's *)

(** What the view shows of a verdict. *)
Definition shown (column : f64 → f64) (v : Verdict) : CheckedVerdict :=
  {| cv_detector := v_detector v; cv_asi_category := v_asi_category v;
     cv_result := VerdictResult_value (v_result v); cv_confidence := f_or (column (v_confidence v)) fzero;
     cv_reason := JStr (match v_evidence v with [] => "" | e :: _ => take_str 400 (ev_reason e) end) |}.

(** The same findings under the same keys, in the same order, with the checks' titles. *)
Definition groups_match (column : f64 → f64) (shown_groups : Grouped) (groups : list (string * list Verdict)) : Prop :=
  dkeys shown_groups = dkeys groups ∧
  ∀ c, dget (Check_value c) shown_groups =
       (λ vs, (CHECK_TITLES c, map (shown column) vs)) <$> dget (Check_value c) groups.

Lemma stored_reason v :
  evidence_reason (_verdict_evidence_json v)
  = Ok (JStr (match v_evidence v with [] => "" | e :: _ => take_str 400 (ev_reason e) end)).
Proof. unfold evidence_reason, _verdict_evidence_json. by destruct (v_evidence v). Qed.

Lemma result_value_ok v : String.eqb (VerdictResult_value (v_result v)) "OK" = negb (not_ok v).
Proof. unfold not_ok. by destruct (v_result v). Qed.

Lemma group_row_match column gs g v :
  groups_match column gs g →
  ∃ gs', group_row column gs (verdict_row v) = Ok gs' ∧ groups_match column gs' (group_verdict g v).
Proof.
  intros Hm. pose proof Hm as [Hk Hd]. unfold group_row, group_verdict.
  cbn [verdict_row vr_result vr_detector vr_asi_category vr_confidence vr_evidence].
  rewrite result_value_ok. destruct (negb (not_ok v)); [by eauto|].
  destruct (check_for_detector _ _) as [c|]; [|by eauto].
  rewrite stored_reason. eexists. split; [done|]. split.
  { by rewrite !dkeys_dset, Hk. }
  intros c'. rewrite !dget_dset, Hd. case_decide as Hc; [|apply Hd].
  apply (inj Check_value) in Hc as <-. destruct (dget (Check_value c) g) as [vs|]; simpl; [|done].
  by rewrite map_app.
Qed.

Lemma group_rows_match column gs g vs :
  groups_match column gs g →
  ∃ gs', group_rows column gs (map verdict_row vs) = Ok gs' ∧ groups_match column gs' (foldl group_verdict g vs).
Proof.
  revert gs g. induction vs as [|v vs IH]; intros gs g Hm; [by eauto|].
  destruct (group_row_match column gs g v Hm) as (gs1 & E & Hm1). simpl. rewrite E. by apply IH.
Qed.

(** The view's lens refines the operator's checks.  For the verdicts an audit stores, the grouping the
    route computes from the rows never fails, and it has the keys, the order and, check by check, the
    findings of [checks_for_verdicts], each finding under the title of its check with the first 400
    characters of its first piece of evidence. *)
Theorem agent_view_refines_checks column vs :
  ∃ gs, group_rows column [] (map verdict_row vs) = Ok gs ∧ groups_match column gs (checks_for_verdicts vs).
Proof. by apply group_rows_match. Qed.

(** ** When the view says the audit is over *)

(** Nothing is known of the run yet. *)
Definition unaudited (u : uuid) (res : ResultDb) : Prop :=
  rows_of sr_run_id u (sampler_rows res) = [] ∧ rows_of vr_run_id u (verdict_rows res) = [].

Lemma rows_of_app {A} (run_of : A → uuid) u l1 l2 : rows_of run_of u (l1 ++ l2) = rows_of run_of u l1 ++ rows_of run_of u l2.
Proof. apply bfilter_app. Qed.

Lemma rows_of_own {A} (run_of : A → uuid) u x : run_of x = u → rows_of run_of u [x] = [x].
Proof. intros <-. unfold rows_of. by rewrite bfilter_cons, String.eqb_refl. Qed.

Lemma rows_of_verdicts u vs : rows_of vr_run_id u (map verdict_row vs) = [] ↔ ∀ v, v ∈ vs → v_run_id v ≠ u.
Proof.
  induction vs as [|v vs IH]; [split; [intros _ ? []%elem_of_nil|done]|].
  unfold rows_of in *. cbn [map]. rewrite bfilter_cons. cbn [vr_run_id verdict_row].
  destruct (String.eqb_spec (v_run_id v) u) as [E|E].
  - split; [done|]. intros H. by destruct (H v (list_elem_of_here _ _)).
  - rewrite IH. split; [intros H x [->|Hx]%elem_of_cons; auto|intros H x Hx; apply H; by right].
Qed.

Lemma NONE_value (t : Tier) : String.eqb (Tier_value t) "NONE" = bool_decide (t = NONE).
Proof. by destruct t. Qed.

Lemma policy_audit_iff now rid t sg st st' d :
  policy_decide now rid t sg st = (st', Ok d) → bool_decide (tier d = NONE) = negb (audit d).
Proof.
  unfold policy_decide. repeat match goal with
    | |- context [match hard_trigger ?a ?b with _ => _ end] => destruct (hard_trigger a b)
    | |- context [rate_cutoff ?r] => destruct (rate_cutoff r); simpl
    | |- context [if ?b then _ else _] => destruct b
    end; by intros [= <- <-].
Qed.

Section audited.
Context (accepts : VerdictRow → bool) (accepts_sampler : SamplerRow → bool).
Context {W : Type} (fresh : string → uuid) (now : datetime).
Context (publish : json → W → W * result PyExn ()) (hitl : Flag → W → W * result PyExn RoutingResult).
Context (detectors : list (Detector (W := W))).

Notation audit_run := (audit_run accepts accepts_sampler fresh now publish hitl detectors).

(** The row the sampling decision of a run makes. *)
Definition decision_row (u : uuid) (d : SamplerDecision) : SamplerRow :=
  {| sr_run_id := u; sr_tier := Tier_value (tier d); sr_reason := reason d; sr_cohort_rate := cohort_rate d |}.

Lemma persisted_sampler u d res :
  unaudited u res →
  sampler_of u (_persist_sampler_decision accepts_sampler u d res)
  = (if accepts_sampler (decision_row u d) then Some (decision_row u d) else None).
Proof.
  intros [Hs _]. unfold _persist_sampler_decision. fold (decision_row u d). unfold sampler_of.
  destruct (accepts_sampler _); [|by rewrite Hs]. cbn [sampler_rows].
  by rewrite rows_of_app, Hs, rows_of_own.
Qed.

(** C24: The view says "audited" exactly when the audit came to an end.  After the audit of a run nothing
    was known of, the flag the client polls for is set if and only if the audit returned, its sampling
    decision was stored, and it was not selected or it left a verdict of the run.  An audit that raises
    (a confidence the column refuses) leaves the flag unset. *)
Theorem audited_exact clock t s s' out policy d :
  unaudited (t_run_id t) (w_db s) →
  policy_decide clock (t_run_id t) (t_tenant_id t) (compute_run_signals t) (w_policy s) = (policy, Ok d) →
  audit_run true clock t s = (s', out) →
  audited (t_run_id t) (w_db s') = true ↔
  accepts_sampler (decision_row (t_run_id t) d) = true ∧
  ∃ o, out = Ok o ∧ (ao_sampled o = false ∨ ∃ v, v ∈ ao_verdicts o ∧ v_run_id v = t_run_id t).
Proof.
  intros Hu Hd Hrun. set (u := t_run_id t) in *. pose proof (policy_audit_iff _ _ _ _ _ _ _ Hd) as Ht.
  pose proof (persisted_sampler u d (w_db s) Hu) as Hsam.
  destruct (sampler_row_only accepts_sampler u d (w_db s)) as (Hv & _).
  unfold Orchestrator.audit_run in Hrun. fold u in Hrun. rewrite Hd in Hrun.
  unfold audited. destruct (audit d) eqn:Ea; cbn [negb] in *.
  2: { injection Hrun as <- <-. cbn [w_db]. rewrite Hsam. destruct (accepts_sampler _); [|naive_solver].
       cbn [decision_row sr_tier]. rewrite NONE_value, Ht. simpl. split; [intros _|done].
       split; [done|]. eexists. split; [done|by left]. }
  destruct (analyze_unconditional fresh now detectors t (w_world s)) as (w & os & _ & r & Hr).
  rewrite Hr in Hrun. unfold store_run_result in Hrun. destruct (forallb accepts _).
  - cbn [result_bind] in Hrun. injection Hrun as <- <-. cbn [w_db].
    change (sampler_of u {| verdict_rows := _; flag_rows := _; incident_rows := _; sampler_rows := _ |})
      with (sampler_of u (_persist_sampler_decision accepts_sampler u d (w_db s))).
    rewrite Hsam. destruct (accepts_sampler _); [|naive_solver].
    cbn [decision_row sr_tier verdict_rows]. rewrite NONE_value, Ht, Hv, rows_of_app, (proj2 Hu).
    cbn [orb app]. rewrite Z.ltb_lt. split.
    + intros Hl. split; [done|]. eexists. split; [done|]. right. cbn [ao_verdicts].
      destruct (decide (Exists (λ v, v_run_id v = u) (or_verdicts r))) as [Hx|Hx].
      * apply Exists_exists in Hx as (v & ? & ?). eauto.
      * rewrite (proj2 (rows_of_verdicts u (or_verdicts r))) in Hl; [simpl in Hl; lia|].
        intros v Hin E. apply Hx, Exists_exists. eauto.
    + intros [_ (o & [= <-] & [?|(v & Hin & E)])]; [done|]. cbn [ao_verdicts] in Hin.
      destruct (rows_of _ _ _) eqn:Er; [|simpl; lia].
      by destruct (proj1 (rows_of_verdicts u (or_verdicts r)) Er v Hin).
  - injection Hrun as <- <-. cbn [w_db]. rewrite Hsam, Hv, (proj2 Hu).
    destruct (accepts_sampler _); [|naive_solver]. cbn [decision_row sr_tier]. rewrite NONE_value, Ht.
    simpl. naive_solver.
Qed.
End audited.

(** ** A started run can be watched *)

Section watch.
Context (jwt_secret : string) (column rate_column : f64 → f64).
Context (redact_text : string → string) (detect_entities : string → list string) (redact_at_rest : bool).

Notation start_run := (start_agent_run jwt_secret).
Notation view := (get_agent_run jwt_secret column rate_column).

(** What a successful start leaves in the registry. *)
Definition started_for (tenant_id : uuid) (task : string) (max_turns : Z) (now : datetime) (r : HarnessRun) : Prop :=
  hr_status r = "running" ∧ exit_code r = None ∧ started_at r = Some now ∧ reaper r = RWait ∧
  q_tenant_id (request r) = tenant_id ∧ q_task (request r) = task ∧ q_max_turns (request r) = max_turns.

Lemma spawn_ok e environ now now_f fresh task max_turns tenant_id w w' env :
  _spawn_via_harness_runner e environ now now_f fresh task max_turns tenant_id w = (w', Ok env) →
  ∃ r, objs w' !! fresh = Some r ∧ fresh ∈ _LIVE_RUNS w' ∧ started_for tenant_id task max_turns now r ∧
    Runner.db w' = Runner.db w.
Proof.
  unfold _spawn_via_harness_runner. destruct (start _ _ _ _ _ _ _) as [w1 [env1|x]] eqn:E; intros [= <- <-].
  apply start_ok in E as (paths & pid & _ & _ & _ & _ & ->). eexists. split; [apply lookup_insert_eq|].
  split; [simpl; set_solver|]. by repeat split.
Qed.

Lemma spawn_steps e environ now now_f fresh task max_turns tenant_id w w' env :
  objs w !! fresh = None → (∀ pid, se_popen e = Ok pid → children w !! pid = None) →
  _spawn_via_harness_runner e environ now now_f fresh task max_turns tenant_id w = (w', Ok env) →
  steps redact_text detect_entities redact_at_rest [LOther; LOther; LOther] w w'.
Proof.
  intros Hn Hp Hs. pose proof (spawn_ok _ _ _ _ _ _ _ _ _ _ _ Hs) as (r & Hr & _ & (_ & _ & _ & Hpc & _) & _).
  unfold _spawn_via_harness_runner in Hs. set (w0 := set_obj _ _ w) in Hs.
  destruct (start _ _ _ _ _ _ _) as [w1 [env1|x]] eqn:E; simplify_eq.
  eapply steps_cons; [by apply (step_request _ _ _ fresh tenant_id task max_turns)|].
  eapply steps_cons; [apply (step_start _ _ _ e environ now now_f fresh (from_request fresh tenant_id task max_turns))|].
  { apply lookup_insert_eq. }
  { exact Hp. }
  fold w0. rewrite E. cbn [fst]. eapply steps_cons; [|apply steps_nil].
  apply (step_register _ _ _ fresh r); [exact Hr|by rewrite Hpc].
Qed.

(** A run started from the API can be watched at once.  A start that returns was asked for by an
    administrator or a reviewer with a task and a number of turns within their bounds, for the tenant of
    the token or else the demonstration tenant; it is a request, start and registration of the runner's
    step relation, so the runner's invariants hold of it; and the view polled with the returned id
    answers for any such token, before the run's row exists: running, not audited, with nothing found. *)
Theorem started_run_is_watched e environ now_s now now_f bearer session fresh task max_turns w w' out :
  objs w !! fresh = None → (∀ pid, se_popen e = Ok pid → children w !! pid = None) →
  start_run e environ now_s now now_f bearer session fresh task max_turns w = (w', Ok out) →
  ∃ claims tenant_id,
    require_role jwt_secret ["admin"; "reviewer"] now_s bearer session = Ok claims ∧
    run_tenant claims = Ok tenant_id ∧ AgentRunRequest_valid task max_turns = true ∧
    out = (fresh, tenant_id, task, Some now) ∧
    steps redact_text detect_entities redact_at_rest [LOther; LOther; LOther] w w' ∧
    (∃ r, Runner.get_run fresh w' = Some r ∧ started_for tenant_id task max_turns now r) ∧
    ∀ t' b' s' claims' u res,
      require_role jwt_secret ["admin"; "reviewer"] t' b' s' = Ok claims' →
      parse_uuid fresh = Some u → unaudited u res →
      ∃ v, view t' b' s' fresh w' res = Ok v ∧ av_harness_status v = "running" ∧ av_audited v = false ∧
        av_sampler v = None ∧ av_checks v = [].
Proof.
  intros Hn Hp. unfold start_agent_run.
  destruct (require_role _ _ _ _ _) as [claims|] eqn:Hc; [|done]. cbn [result_bind].
  destruct (AgentRunRequest_valid task max_turns) eqn:Hv; [|done]. cbn [negb].
  destruct (run_tenant claims) as [tenant_id|] eqn:Ht; [|done].
  destruct (_spawn_via_harness_runner _ _ _ _ _ _ _ _ _) as [w1 [env|x]] eqn:Hs; intros [= <- <-].
  pose proof (spawn_ok _ _ _ _ _ _ _ _ _ _ _ Hs) as (r & Hr & Hl & Hst & _).
  assert (Runner.get_run fresh w1 = Some r) as Hg by (unfold Runner.get_run; by rewrite bool_decide_eq_true_2).
  exists claims, tenant_id. split_and!; try done.
  - destruct Hst as (_ & _ & Ha & _). by rewrite Hr, <-Ha.
  - by eapply spawn_steps.
  - by exists r.
  - intros t' b' s' claims' u res Hc' Hu [Hus Huv]. unfold get_agent_run. rewrite Hc', Hu, Hg. cbn [result_bind].
    rewrite (bool_decide_eq_false_2 (Some r = None)) by done. rewrite andb_false_r, Huv.
    cbn [group_rows result_bind]. eexists. split; [done|].
    cbn [av_harness_status av_audited av_sampler av_checks]. unfold _harness_status, audited, sampler_of.
    rewrite Hg, Hus. cbn. by destruct Hst as (-> & _).
Qed.

(** A request that is refused or fails its validation starts nothing. *)
Lemma refused_start_changes_nothing e environ now_s now now_f bearer session fresh task max_turns w w' c :
  start_run e environ now_s now now_f bearer session fresh task max_turns w = (w', Raise (HTTPException c)) → w' = w.
Proof.
  unfold start_agent_run. destruct (result_bind _ _) as [tenant_id|x]; [|by intros [= <- _]].
  by destruct (_spawn_via_harness_runner _ _ _ _ _ _ _ _ _) as [w1 [env|y]].
Qed.

(** The view does not look at the tenant: two reviewers of different tenants read the same run. *)
Lemma agent_view_ignores_tenant t1 b1 s1 c1 t2 b2 s2 c2 run_id w res :
  require_role jwt_secret ["admin"; "reviewer"] t1 b1 s1 = Ok c1 →
  require_role jwt_secret ["admin"; "reviewer"] t2 b2 s2 = Ok c2 →
  view t1 b1 s1 run_id w res = view t2 b2 s2 run_id w res.
Proof. intros H1 H2. unfold get_agent_run. by rewrite H1, H2. Qed.

(** The registry is keyed by the text of the id: before its row exists, a run asked for by another
    writing of its id is not found. *)
Lemma other_spelling_not_found t b s claims run_id u w res :
  require_role jwt_secret ["admin"; "reviewer"] t b s = Ok claims →
  parse_uuid run_id = Some u → runs (Runner.db w) !! u = None → run_id ∉ _LIVE_RUNS w →
  view t b s run_id w res = Raise (HTTPException 404).
Proof.
  intros Hc Hu Hr Hl. unfold get_agent_run, Runner.get_run.
  by rewrite Hc, Hu, Hr, (bool_decide_eq_false_2 (run_id ∈ _)) by done.
Qed.
End watch.

(** ** Witnesses *)

Definition reviewer_token : string := issue_token "secret" "u" sample_rid "reviewer" 100 1000.

Definition sample_run_started : Runner.World * result http_exn (uuid * uuid * string * option datetime) :=
  start_agent_run "secret" sample_env_ok sample_environ 1001 5 fzero (Some reviewer_token) None sample_rid
    "say hello" 12 (boot sample_db).

Lemma reviewer_accepted : is_ok (require_role "secret" ["admin"; "reviewer"] 1001 (Some reviewer_token) None) = true.
Proof. vm_compute. reflexivity. Qed.

Lemma started_run_is_watched_witness :
  ∃ v, get_agent_run "secret" (λ x, x) (λ x, x) 1001 (Some reviewer_token) None sample_rid
         sample_run_started.1 empty_db = Ok v ∧ av_harness_status v = "running".
Proof.
  pose proof (proj1 (is_ok_spec _) reviewer_accepted) as (claims & Hc).
  destruct sample_run_started as [w' [out|x]] eqn:E.
  2: { exfalso. assert (is_ok sample_run_started.2 = true) as H by (vm_compute; reflexivity).
       rewrite E in H. discriminate H. }
  unfold sample_run_started in E.
  destruct (started_run_is_watched "secret" (λ x, x) (λ x, x) (λ s, s) (λ _, []) false sample_env_ok sample_environ
    1001 5 fzero (Some reviewer_token) None sample_rid "say hello" 12 (boot sample_db) w' out)
    as (_ & _ & _ & _ & _ & _ & _ & _ & H); [reflexivity|intros; reflexivity|exact E|].
  destruct (H 1001 (Some reviewer_token) None claims sample_rid empty_db Hc) as (v & Hv & Hs & _);
    [reflexivity|split; reflexivity|]. exists v. split; [exact Hv|exact Hs].
Defined.

Definition sample_audit (judge : JudgeFn ()) : Orchestrator.World (W := ()) * result PyExn AuditOutcome :=
  audit_run numeric_column (λ _, true) (λ s, s) 0 quiet_publish quiet_hitl (sample_detectors judge) true (of_Z 100)
    empty_trace sample_world.

(** The flag is never set for the run whose judge answers 95 for 95 percent; it is for the offline judge. *)
Lemma audited_exact_witness :
  audited (t_run_id empty_trace) (w_db (sample_audit percent_judge).1) ≠ true ∧
  audited (t_run_id empty_trace) (w_db (sample_audit (stub_judge "stub")).1) = true.
Proof.
  assert (∃ d, policy_decide (of_Z 100) (t_run_id empty_trace) (t_tenant_id empty_trace)
    (compute_run_signals empty_trace) (w_policy sample_world) = (always_policy, Ok d)) as (d & Hd).
  { eexists. vm_compute; reflexivity. }
  split.
  - intros Ha. destruct (proj1 (audited_exact numeric_column (λ _, true) (λ s, s) 0 quiet_publish quiet_hitl
      (sample_detectors percent_judge) (of_Z 100) empty_trace sample_world _ _ always_policy d
      ltac:(split; reflexivity) Hd (surjective_pairing _)) Ha) as (_ & o & Ho & _).
    assert (is_ok (sample_audit percent_judge).2 = false) as Hf by (vm_compute; reflexivity).
    unfold sample_audit in Hf. rewrite Ho in Hf. discriminate Hf.
  - apply (audited_exact numeric_column (λ _, true) (λ s, s) 0 quiet_publish quiet_hitl
      (sample_detectors (stub_judge "stub")) (of_Z 100) empty_trace sample_world _ _ always_policy d
      ltac:(split; reflexivity) Hd (surjective_pairing _)).
    split; [reflexivity|].
    assert (match (sample_audit (stub_judge "stub")).2 with
            | Ok o => existsb (λ v, String.eqb (v_run_id v) (t_run_id empty_trace)) (ao_verdicts o)
            | Raise _ => false end = true) as He by (vm_compute; reflexivity).
    unfold sample_audit in He.
    destruct (audit_run _ _ _ _ _ _ _ _ _ _ _).2 as [o|]; [|discriminate He].
    exists o. split; [reflexivity|right]. apply existsb_exists in He as (v & Hin & Hv).
    exists v. split; [by apply list_elem_of_In|by apply String.eqb_eq].
Defined.
