(* ===== verification/Tools.v ===== *)
(** * The harness's tools

    Models [harness/tools/generic/file_read.py] and [file_write.py] over a file system with symbolic
    links (with the resolution of paths as [pathlib] does it), the other tools of
    [harness/tools/registry.py], and [harness/telemetry/decorators.py], which runs a tool through the
    gate of [Sdk]; and, from [harness/main.py] and [harness/config.py], what a harness process takes from
    the environment [Runner] gave it.

    A file system maps a path, the list of its components from the root, to what is there; permissions
    and device errors are not modelled, and the texts of the file system's exceptions are abbreviated. *)

From Stdlib Require Import ZArith Lia Ascii.
From Stdlib Require String.
From stdpp Require Import base tactics option list strings gmap sets.
From S2P Require Import Prelude PyStr Float64 Sha256 Json Events Budget Gate Bridge Store Dispatch Sdk Runner.

Local Open Scope Z_scope.

(** ** Paths *)

Notation path := (list string).

Inductive node :=
| File (bytes : string)
| Dir
| Link (target : string).

Notation Fs := (gmap path node).

Definition is_absolute (s : string) : bool := starts_with "/" s.

(** The components [pathlib] keeps of a path's text: it drops empty ones and dots. *)
Definition parts (s : string) : path :=
  bfilter (λ c, negb (String.eqb c "") && negb (String.eqb c ".")) (split_on "/" s).

(** [base / s] for an absolute [base]. *)
Definition join_path (base : path) (s : string) : path := if is_absolute s then parts s else base ++ parts s.

(** The root is a directory. *)
Definition node_at (fs : Fs) (p : path) : option node := match p with [] => Some Dir | _ => fs !! p end.

Definition is_link (n : node) : bool := match n with Link _ => true | _ => false end.

Definition links (fs : Fs) : gset path := dom (filter (λ kv, is_link kv.2 = true) fs).

(** ** [Path.resolve]

    [_joinrealpath] of the standard library: [seen] maps a link to its resolution, or to nothing while it
    is being resolved.  [depth] bounds how deep links lead to links; the number of links is enough
    ([resolve_terminates]). *)

Notation Seen := (gmap path (option path)).

Inductive walk :=
| Walked (p : path) (seen : Seen)
| SymlinkLoop
| NullByte.

Definition null : ascii := "000"%char.

Section resolve.
Context (fs : Fs).

Definition follow (go : path → Seen → option walk) (self : path → path → Seen → option walk)
    (here : path) (target : string) (newpath : path) (seen : Seen) : option walk :=
  match seen !! newpath with
  | Some (Some p) => go p seen
  | Some None => Some SymlinkLoop
  | None =>
      match self (if is_absolute target then [] else here) (split_on "/" target) (<[newpath := None]> seen) with
      | Some (Walked p seen') => go p (<[newpath := Some p]> seen')
      | o => o
      end
  end.

Fixpoint walk_rest (self : path → path → Seen → option walk) (here rest : path) (seen : Seen) : option walk :=
  match rest with
  | [] => Some (Walked here seen)
  | name :: rest' =>
      if String.eqb name "" || String.eqb name "." then walk_rest self here rest' seen
      else if String.eqb name ".." then walk_rest self (removelast here) rest' seen
      else if char_in null name then Some NullByte
      else
        let newpath := here ++ [name] in
        match fs !! newpath with
        | Some (Link target) => follow (λ p s, walk_rest self p rest' s) self here target newpath seen
        | _ => walk_rest self newpath rest' seen
        end
  end.

Fixpoint _joinrealpath (depth : nat) : path → path → Seen → option walk :=
  walk_rest (match depth with
             | O => λ _ _ _, None
             | S d => _joinrealpath d
             end).
End resolve.

Definition resolve (fs : Fs) (p : path) : result PyExn path :=
  match _joinrealpath fs (size (links fs)) [] p ∅ with
  | Some (Walked q _) => Ok q
  | Some SymlinkLoop => raise "RuntimeError" "Symlink loop"
  | Some NullByte => raise "ValueError" "lstat: embedded null character in path"
  | None => raise "RecursionError" "maximum recursion depth exceeded"
  end.

(** ** The sandboxed file tools *)

(** The prefixes after both calls of [lstrip]. *)
Definition _PREFIX_STRIPS : list string :=
  map (λ p, lstrip_in "./" (lstrip_in "/" p))
    ["./data/sandbox/"; "data/sandbox/"; "/data/sandbox/"; "sandbox/"; "./sandbox/"].

Definition _normalize (path : string) : string :=
  let p := lstrip_in "./" (lstrip_in "/" path) in
  match find (λ prefix, starts_with prefix p) _PREFIX_STRIPS with
  | Some prefix => drop_str (String.length prefix) p
  | None => p
  end.

Section tools.
(** [_SANDBOX], resolved when the module is loaded. *)
Context (_SANDBOX : path).

Definition is_relative_to (p base : path) : bool := bool_decide (take (length base) p = base).

Definition outside : json := JObj [("error", JStr "path outside sandbox")].

(** Text mode reads a carriage return, alone or before a newline, as a newline. *)
Fixpoint universal_newlines (s : string) : string :=
  match s with
  | EmptyString => EmptyString
  | String c s' =>
      if Ascii.eqb c "013"%char then
        match s' with
        | String d s'' => if Ascii.eqb d "010"%char then String "010"%char (universal_newlines s'')
                          else String "010"%char (universal_newlines s')
        | EmptyString => String "010"%char EmptyString
        end
      else String c (universal_newlines s')
  end.

Definition file_read (fs : Fs) (path : string) : result PyExn json :=
  let! target := resolve fs (join_path _SANDBOX (_normalize path)) in
  if negb (is_relative_to target _SANDBOX) then Ok outside
  else match node_at fs target with
       | Some (File bytes) =>
           match utf8_decode bytes with
           | Some text => Ok (JObj [("path", JStr path); ("content", JStr (universal_newlines text))])
           | None => raise "UnicodeDecodeError" "'utf-8' codec can't decode byte"
           end
       | _ => Ok (JObj [("path", JStr path); ("content", JStr "");
                        ("error", JStr ("not found: " +:+ default "" (last target)))])
       end.

(** [mkdir(parents=True, exist_ok=True)] of a resolved path: no component of it is a link. *)
Fixpoint mkdirs (fs : Fs) (here rest : path) : result PyExn Fs :=
  match rest with
  | [] => Ok fs
  | name :: rest' =>
      let p := here ++ [name] in
      match fs !! p with
      | Some (File _) => raise (match rest' with [] => "FileExistsError" | _ => "NotADirectoryError" end)
                           (join "/" ("" :: here ++ rest))
      | Some _ => mkdirs fs p rest'
      | None => mkdirs (<[p := Dir]> fs) p rest'
      end
  end.

Definition write_text (fs : Fs) (target : path) (content : string) : Fs * result PyExn () :=
  match node_at fs target with
  | Some Dir => (fs, raise "IsADirectoryError" (join "/" ("" :: target)))
  | _ => (<[target := File (utf8 content)]> fs, Ok tt)
  end.

Definition file_write (fs : Fs) (path content : string) : Fs * result PyExn json :=
  match resolve fs (join_path _SANDBOX (_normalize path)) with
  | Raise e => (fs, Raise e)
  | Ok target =>
      if negb (is_relative_to target _SANDBOX) then (fs, Ok outside)
      else match mkdirs fs [] (removelast target) with
           | Raise e => (fs, Raise e)
           | Ok fs =>
               let '(fs, r) := write_text fs target content in
               (fs, let! _ := r in
                    Ok (JObj [("path", JStr path); ("written", JInt (Z.of_nat (String.length content)))]))
           end
  end.
End tools.

(** ** The catalogue ([registry.py]) *)

Section catalogue.
(** The sandbox; the eight hexadecimal digits of a new ticket. *)
Context (sb : path) (ticket : string).

Record ToolMeta := { meta_name : string; meta_purpose : option string }.

(** A tool: its tag, its parameters with their defaults, and its body over the arguments in order. *)
Record Tool := {
  tool_meta : ToolMeta;
  params : list (string * option json);
  tool_body : list json → Fs → Fs * result PyExn json
}.

(** [fn] called with keyword arguments: every parameter gets its argument or its default, and no other name is accepted. *)
Fixpoint bind_args (ps : list (string * option json)) (kwargs : list (string * json)) : result PyExn (list json) :=
  match ps with
  | [] => Ok []
  | (p, d) :: ps' =>
      match (match dget p kwargs with Some v => Some v | None => d end) with
      | None => raise "TypeError" "missing a required argument"
      | Some v => let! vs := bind_args ps' kwargs in Ok (v :: vs)
      end
  end.

Definition call_fn (t : Tool) (kwargs : list (string * json)) (fs : Fs) : Fs * result PyExn json :=
  if existsb (λ k, negb (bool_decide (k ∈ dkeys (params t)))) (dkeys kwargs)
  then (fs, raise "TypeError" "got an unexpected keyword argument")
  else match bind_args (params t) kwargs with
       | Raise e => (fs, Raise e)
       | Ok args => tool_body t args fs
       end.

(** A tool that only answers. *)
Definition answer (f : list json → list (string * json)) (args : list json) (fs : Fs) : Fs * result PyExn json :=
  (fs, Ok (JObj (f args))).

Definition nth_arg (n : nat) (args : list json) : json := default JNull (args !! n).

Definition kb_search : Tool :=
  {| tool_meta := {| meta_name := "kb_search"; meta_purpose := None |}; params := [("query", None)];
     tool_body := answer (λ a, [("results", JArr [JStr "KB123: reset VPN"; JStr "KB456: unlock account";
                                                  JStr "KB789: clear cache"]); ("query", nth_arg 0 a)]) |}.

Definition create_ticket : Tool :=
  {| tool_meta := {| meta_name := "create_ticket"; meta_purpose := Some "create an IT ticket" |};
     params := [("subject", None); ("body", Some (JStr "")); ("priority", Some (JStr "normal"))];
     tool_body := answer (λ a, [("ticket_id", JStr ("INC-" +:+ ticket)); ("status", JStr "open");
                                ("subject", nth_arg 0 a); ("body", nth_arg 1 a); ("priority", nth_arg 2 a)]) |}.

Definition query_employee : Tool :=
  {| tool_meta := {| meta_name := "query_employee"; meta_purpose := None |}; params := [("employee_id", None)];
     tool_body := answer (λ a, [("employee_id", nth_arg 0 a); ("name", JStr "Jane Doe"); ("department", JStr "IT")]) |}.

Definition reset_password : Tool :=
  {| tool_meta := {| meta_name := "reset_password"; meta_purpose := Some "reset an employee password" |};
     params := [("employee_id", None)];
     tool_body := answer (λ a, [("employee_id", nth_arg 0 a); ("status", JStr "reset_link_sent")]) |}.

Definition send_email : Tool :=
  {| tool_meta := {| meta_name := "send_email"; meta_purpose := Some "send a notification email" |};
     params := [("to", None); ("subject", None); ("body", Some (JStr ""))];
     tool_body := answer (λ a, [("status", JStr "queued"); ("to", nth_arg 0 a); ("subject", nth_arg 1 a)]) |}.

Definition http_get : Tool :=
  {| tool_meta := {| meta_name := "http_get"; meta_purpose := None |}; params := [("url", None)];
     tool_body := answer (λ a, [("status", JInt 200); ("url", nth_arg 0 a); ("body", JStr "<stubbed>")]) |}.

Definition http_post : Tool :=
  {| tool_meta := {| meta_name := "http_post"; meta_purpose := None |};
     params := [("url", None); ("body", Some (JStr ""))];
     tool_body := answer (λ a, [("status", JInt 200); ("url", nth_arg 0 a)]) |}.

Definition exec_shell : Tool :=
  {| tool_meta := {| meta_name := "exec_shell"; meta_purpose := None |}; params := [("cmd", None)];
     tool_body := answer (λ a, [("error", JStr "exec_shell is disabled in v1; blocked by policy"); ("cmd", nth_arg 0 a)]) |}.

(** A path that is not a text has no [lstrip]. *)
Definition no_lstrip {A} (v : json) : result PyExn A :=
  raise "AttributeError" ("'" +:+ json_type v +:+ "' object has no attribute 'lstrip'").

Definition file_read_tool : Tool :=
  {| tool_meta := {| meta_name := "file_read"; meta_purpose := None |}; params := [("path", None)];
     tool_body := λ a fs, (fs, match nth_arg 0 a with JStr p => file_read sb fs p | v => no_lstrip v end) |}.

(** [write_text] of a value that is not a text raises once the directories are made. *)
Definition file_write_tool : Tool :=
  {| tool_meta := {| meta_name := "file_write"; meta_purpose := None |};
     params := [("path", None); ("content", Some (JStr ""))];
     tool_body := λ a fs,
       match nth_arg 0 a, nth_arg 1 a with
       | JStr p, JStr content => file_write sb fs p content
       | JStr p, v =>
           match resolve fs (join_path sb (_normalize p)) with
           | Raise e => (fs, Raise e)
           | Ok target =>
               if negb (is_relative_to target sb) then (fs, Ok outside)
               else match mkdirs fs [] (removelast target) with
                    | Raise e => (fs, Raise e)
                    | Ok fs => (fs, raise "TypeError" "data must be str")
                    end
           end
       | v, _ => (fs, no_lstrip v)
       end |}.

Definition _ALL_TOOLS : list Tool :=
  [kb_search; create_ticket; query_employee; reset_password; send_email; http_get; http_post; file_read_tool;
   file_write_tool; exec_shell].

Definition get_tool (name : string) : result PyExn Tool :=
  match find (λ t, String.eqb (meta_name (tool_meta t)) name) _ALL_TOOLS with
  | Some t => Ok t
  | None => raise "KeyError" (py_repr_str name)
  end.

Definition schema_hash (t : Tool) : string :=
  to_hex (sha256 (utf8 (meta_name (tool_meta t) +:+ ":" +:+ py_repr (JArr (map JStr (sorted_set (dkeys (params t)))))))).

(** ** A tool behind the gate ([GatedToolset]) *)

Definition _summarize_result (r : json) : option string :=
  match r with
  | JNull => None
  | _ => Some (take_str 4000 (match r with JStr s => s | _ => py_repr r end))
  end.

(** How a gated call ends: the tool's result, the gate's denial, an error of the connection, or the tool's
    own exception. *)
Inductive CallEnd :=
| Returned (v : json)
| GateDenied (reasons : list string)
| ConnectionFailed (e : GateError)
| ToolRaised (e : PyExn).

(** A call: the agent, the tool, its arguments, when it asks, the reply it gets, and the fresh ids and
    clock readings of its two events. *)
Record Call := {
  c_agent : uuid;
  c_tool : Tool;
  c_kwargs : list (string * json);
  c_now : Z;
  c_reply : Reply;
  c_span : uuid;
  c_start : uuid * Z;
  c_end : uuid * Z
}.

(** [GatedToolset.call]: no schema hash is passed on. *)
Definition call_start (t : Telemetry) (c : Call) : WireEvent :=
  start_event t (c_agent c) (meta_name (tool_meta (c_tool c))) (c_kwargs c)
    (match meta_purpose (tool_meta (c_tool c)) with Some p => wire_text p | None => None end) None
    (c_span c) (c_start c).1 (c_start c).2.

Definition call_end (t : Telemetry) (c : Call) (status : string) (error summary : option string) : WireEvent :=
  end_event t (c_agent c) (c_span c) status error summary (c_end c).1 (c_end c).2.

Definition call (t : Telemetry) (timeout : Z) (c : Call) (s : Stream) (fs : Fs)
    : Stream * Fs * list WireEvent * CallEnd :=
  let '(s, o) := tool_call timeout (c_now c) (c_reply c) s in
  let asked := call_start t c in
  match o with
  | Uncaught e => (s, fs, [asked], ConnectionFailed e)
  | Denied reasons =>
      (s, fs, [asked; call_end t c "error" (Some (join "; " reasons)) None], GateDenied reasons)
  | Proceeds _ =>
      let '(fs, r) := call_fn (c_tool c) (c_kwargs c) fs in
      match r with
      | Ok v => (s, fs, [asked; call_end t c "success" None (_summarize_result v)], Returned v)
      | Raise e => (s, fs, [asked; call_end t c "error" (Some (exn_text e)) None], ToolRaised e)
      end
  end.

(** The calls of an agent, one after the other on its connection. *)
Fixpoint session (t : Telemetry) (timeout : Z) (calls : list Call) (s : Stream) (fs : Fs)
    : Fs * list WireEvent * list CallEnd :=
  match calls with
  | [] => (fs, [], [])
  | c :: calls' =>
      let '(s, fs, evs, e) := call t timeout c s fs in
      let '(fs, evs', es) := session t timeout calls' s fs in
      (fs, evs ++ evs', e :: es)
  end.
End catalogue.

(** ** What the process takes from its environment *)

(** [run_id_from_env] and [tenant_id_from_env]. *)
Definition id_from_env (k : string) (env : list (string * string)) (fresh : uuid) : result PyExn uuid :=
  match dget k env with
  | Some v => if str_truthy v then uuid_of (JStr v) else Ok fresh
  | None => Ok fresh
  end.

Definition connect_telemetry (env : list (string * string)) (fresh_run fresh_tenant : uuid) : result PyExn Telemetry :=
  let! r := id_from_env "HARNESS_RUN_ID" env fresh_run in
  let! t := id_from_env "HARNESS_TENANT_ID" env fresh_tenant in
  Ok {| tl_run_id := r; tl_tenant_id := t |}.

Inductive Activity :=
| RunAgent (task : string) (max_turns : Z)
| RunGroupchat
| RunScripted.

(** What [amain] runs once it is connected; [run_agent_task] is called with its default of 12 turns. *)
Definition amain_activity (env : list (string * string)) (live : bool) : Activity :=
  let mode := default "scripted" (dget "HARNESS_MODE" env) in
  if String.eqb mode "agent" then
    if live then
      RunAgent (match dget "HARNESS_TASK" env with
                | Some t => if str_truthy t then t else "Summarize the file work/notes.txt into work/summary.txt."
                | None => "Summarize the file work/notes.txt into work/summary.txt."
                end) 12
    else RunScripted
  else if String.eqb mode "groupchat" then if live then RunGroupchat else RunScripted
  else RunScripted.

(** ** Resolution terminates, and leaves no link *)

Lemma elem_of_links fs p : p ∈ links fs ↔ ∃ t, fs !! p = Some (Link t).
Proof.
  unfold links. rewrite elem_of_dom. unfold is_Some. setoid_rewrite map_lookup_filter_Some. simpl. split.
  - intros (n & Hn & Hl). destruct n; naive_solver.
  - naive_solver.
Qed.

(** The links whose resolution has not begun. *)
Definition unseen (fs : Fs) (seen : Seen) : gset path := links fs ∖ dom seen.

Lemma walk_rest_total fs self here rest seen :
  (∀ here' rest' seen', size (unseen fs seen') < size (unseen fs seen) → dom seen ⊆ dom seen' →
     ∃ o, self here' rest' seen' = Some o ∧ ∀ p s, o = Walked p s → dom seen' ⊆ dom s)%nat →
  ∃ o, walk_rest fs self here rest seen = Some o ∧ ∀ p s, o = Walked p s → dom seen ⊆ dom s.
Proof.
  revert here seen. induction rest as [|name rest IH]; intros here seen Hself.
  { eexists. split; [done|]. by intros p s [= <- <-]. }
  cbn [walk_rest]. destruct (_ || _); [by apply IH|]. destruct (String.eqb name ".."); [by apply IH|].
  destruct (char_in null name); [by eexists|]. set (newpath := here ++ [name]).
  assert (∃ o, walk_rest fs self newpath rest seen = Some o ∧ ∀ p s, o = Walked p s → dom seen ⊆ dom s) as Hplain
    by by apply IH.
  destruct (fs !! newpath) as [[b| |target]|] eqn:Hn; [exact Hplain|exact Hplain| |exact Hplain].
  unfold follow. destruct (seen !! newpath) as [[p|]|] eqn:Hs; [by apply IH|by eexists|].
  assert (newpath ∈ unseen fs seen) as Hu.
  { unfold unseen. rewrite elem_of_difference, elem_of_links, elem_of_dom, Hs. split; [eauto|by intros []]. }
  destruct (Hself (if is_absolute target then [] else here) (split_on "/" target) (<[newpath := None]> seen))
    as (o & -> & Ho).
  { apply subset_size. unfold unseen in *. rewrite dom_insert_L. set_solver. }
  { rewrite dom_insert_L. set_solver. }
  rewrite dom_insert_L in Ho. destruct o as [p s| |]; [|by eexists|by eexists].
  specialize (Ho p s eq_refl). destruct (IH p (<[newpath := Some p]> s)) as (o & -> & Hm).
  { intros h r s' Hl Hd. rewrite dom_insert_L in Hd. apply Hself; [|set_solver].
    eapply Nat.lt_le_trans; [exact Hl|]. apply subseteq_size. unfold unseen. rewrite dom_insert_L. set_solver. }
  eexists. split; [done|]. intros p' s' ->. specialize (Hm p' s' eq_refl). rewrite dom_insert_L in Hm. set_solver.
Qed.

Lemma joinrealpath_total fs depth here rest seen :
  (size (unseen fs seen) ≤ depth)%nat →
  ∃ o, _joinrealpath fs depth here rest seen = Some o ∧ ∀ p s, o = Walked p s → dom seen ⊆ dom s.
Proof.
  revert here rest seen. induction depth as [|d IH]; intros here rest seen Hd; apply walk_rest_total;
    intros h r s Hl _; [lia|apply IH; lia].
Qed.

(** Nothing on the way to the path is a link. *)
Definition link_free (fs : Fs) (p : path) : Prop := ∀ q, q `prefix_of` p → q ∉ links fs.

Definition resolutions_free (fs : Fs) (seen : Seen) : Prop := ∀ l p, seen !! l = Some (Some p) → link_free fs p.

Lemma link_free_prefix fs p q : q `prefix_of` p → link_free fs p → link_free fs q.
Proof. intros Hq Hp r Hr. apply Hp. by etrans. Qed.

Lemma removelast_prefix {A} (l : list A) : removelast l `prefix_of` l.
Proof.
  destruct l as [|x l] using rev_ind; [done|]. rewrite removelast_app by done. simpl. rewrite app_nil_r.
  by apply prefix_app_r.
Qed.

Lemma prefix_snoc_inv {A} (q l : list A) x : q `prefix_of` l ++ [x] → q `prefix_of` l ∨ q = l ++ [x].
Proof.
  intros [k Hk]. destruct k as [|y k _] using rev_ind; [right; by rewrite app_nil_r in Hk|left].
  rewrite app_assoc in Hk. apply app_inj_tail in Hk as [-> _]. by apply prefix_app_r.
Qed.

Lemma walk_rest_free fs self here rest seen p s :
  (∀ h r s0 p1 s1, self h r s0 = Some (Walked p1 s1) → link_free fs h → resolutions_free fs s0 →
     link_free fs p1 ∧ resolutions_free fs s1) →
  walk_rest fs self here rest seen = Some (Walked p s) → link_free fs here → resolutions_free fs seen →
  link_free fs p ∧ resolutions_free fs s.
Proof.
  intros Hself. revert here seen. induction rest as [|name rest IH]; intros here seen; [by intros [= -> ->]|].
  cbn [walk_rest]. intros Hw Hh Hs. destruct (_ || _); [by eapply IH|].
  destruct (String.eqb name "..").
  { eapply IH; [done| |done]. eapply link_free_prefix; [apply removelast_prefix|done]. }
  destruct (char_in null name); [done|].
  assert (here ++ [name] ∉ links fs → link_free fs (here ++ [name])) as Hsnoc.
  { intros Hn q [Hq| ->]%prefix_snoc_inv; [by apply Hh|done]. }
  rewrite elem_of_links in Hsnoc.
  destruct (fs !! (here ++ [name])) as [[b| |target]|] eqn:Hn;
    try (eapply IH; [done|apply Hsnoc; by intros [? ?]|done]).
  unfold follow in Hw. destruct (seen !! (here ++ [name])) as [[p'|]|] eqn:E; [|done|].
  { eapply IH; [done|by eapply Hs|done]. }
  destruct (self _ _ _) as [[p1 s1| |]|] eqn:Eself; try done.
  apply Hself in Eself as [Hp1 Hs1].
  - eapply IH; [done|done|]. intros l q. rewrite lookup_insert. case_decide; [by intros [= <-]|apply Hs1].
  - destruct (is_absolute target); [|done]. intros q Hq. apply prefix_nil_inv in Hq as ->. apply Hh.
    apply prefix_nil.
  - intros l q. rewrite lookup_insert. case_decide; [done|apply Hs].
Qed.

Lemma joinrealpath_free fs depth here rest seen p s :
  _joinrealpath fs depth here rest seen = Some (Walked p s) → link_free fs here → resolutions_free fs seen →
  link_free fs p ∧ resolutions_free fs s.
Proof.
  revert here rest seen p s. induction depth as [|d IH]; intros here rest seen p s; apply walk_rest_free.
  - done.
  - intros h r s0 p1 s1. apply IH.
Qed.

(** The components of a path the walk returns. *)
Definition normal (c : string) : Prop := c ≠ "" ∧ c ≠ "." ∧ c ≠ ".." ∧ char_in null c = false.

Definition resolutions_normal (seen : Seen) : Prop := ∀ l p, seen !! l = Some (Some p) → Forall normal p.

Lemma walk_rest_normal fs self here rest seen p s :
  (∀ h r s0 p1 s1, self h r s0 = Some (Walked p1 s1) → Forall normal h → resolutions_normal s0 →
     Forall normal p1 ∧ resolutions_normal s1) →
  walk_rest fs self here rest seen = Some (Walked p s) → Forall normal here → resolutions_normal seen →
  Forall normal p ∧ resolutions_normal s.
Proof.
  intros Hself. revert here seen. induction rest as [|name rest IH]; intros here seen; [by intros [= -> ->]|].
  cbn [walk_rest]. intros Hw Hh Hs. destruct (_ || _) eqn:E1; [by eapply IH|].
  apply orb_false_iff in E1 as [E1 E2]. destruct (String.eqb name "..") eqn:E3.
  { eapply IH; [done| |done]. destruct (removelast_prefix here) as [k Hk]. rewrite Hk in Hh.
    by apply Forall_app in Hh as [? _]. }
  destruct (char_in null name) eqn:E4; [done|].
  assert (Forall normal (here ++ [name])) as Hsnoc.
  { apply Forall_app. split; [done|]. constructor; [|done]. by repeat split; try by apply String.eqb_neq. }
  destruct (fs !! (here ++ [name])) as [[b| |target]|] eqn:Hn; try by eapply IH.
  unfold follow in Hw. destruct (seen !! (here ++ [name])) as [[p'|]|] eqn:E; [|done|].
  { eapply IH; [done|by eapply Hs|done]. }
  destruct (self _ _ _) as [[p1 s1| |]|] eqn:Eself; try done.
  apply Hself in Eself as [Hp1 Hs1].
  - eapply IH; [done|done|]. intros l q. rewrite lookup_insert. case_decide; [by intros [= <-]|apply Hs1].
  - by destruct (is_absolute target).
  - intros l q. rewrite lookup_insert. case_decide; [done|apply Hs].
Qed.

Lemma joinrealpath_normal fs depth here rest seen p s :
  _joinrealpath fs depth here rest seen = Some (Walked p s) → Forall normal here → resolutions_normal seen →
  Forall normal p ∧ resolutions_normal s.
Proof.
  revert here rest seen p s. induction depth as [|d IH]; intros here rest seen p s; apply walk_rest_normal.
  - done.
  - intros h r s0 p1 s1. apply IH.
Qed.

(** Such a path is walked component by component. *)
Lemma walk_rest_plain fs self here rest seen :
  Forall normal rest → link_free fs (here ++ rest) → walk_rest fs self here rest seen = Some (Walked (here ++ rest) seen).
Proof.
  intros Hn. revert here. induction Hn as [|name rest (H1 & H2 & H3 & H4) _ IH]; intros here Hl.
  { by rewrite app_nil_r. }
  cbn [walk_rest]. rewrite !(proj2 (String.eqb_neq _ _)) by done. cbn [orb]. rewrite H4.
  rewrite (cons_middle name here rest), app_assoc in Hl. rewrite (cons_middle name here rest), app_assoc.
  specialize (IH _ Hl). assert (here ++ [name] ∉ links fs) as Hnl by (apply Hl; by apply prefix_app_r).
  rewrite elem_of_links in Hnl.
  destruct (fs !! (here ++ [name])) as [[b| |target]|]; [done|done|by destruct Hnl; eauto|done].
Qed.

Lemma resolve_plain fs p : Forall normal p → link_free fs p → resolve fs p = Ok p.
Proof.
  intros Hn Hl. unfold resolve.
  assert (_joinrealpath fs (size (links fs)) [] p ∅ = Some (Walked p ∅)) as ->; [|done].
  destruct (size (links fs)); by apply (walk_rest_plain fs _ [] p).
Qed.

Lemma resolve_ok fs p q : [] ∉ links fs → resolve fs p = Ok q → link_free fs q ∧ Forall normal q.
Proof.
  intros Hroot. unfold resolve. destruct (_joinrealpath _ _ _ _ _) as [[p' s| |]|] eqn:E; try done. intros [= <-].
  split.
  - apply (joinrealpath_free _ _ _ _ _ _ _ E).
    + intros r Hr. by apply prefix_nil_inv in Hr as ->.
    + intros l p0 Hl. by apply lookup_empty_Some in Hl.
  - apply (joinrealpath_normal _ _ _ _ _ _ _ E); [done|]. intros l p0 Hl. by apply lookup_empty_Some in Hl.
Qed.

(** Resolving a path terminates and answers beyond every symbolic link.  In any file system, links that
    lead to links and to themselves included, the walk comes to an end within a depth of as many links as
    there are: with a path, with a report of a loop, or on a null character.  A path it returns has no
    link on the way to it, and resolving it again returns it. *)
Theorem resolve_terminates fs p :
  [] ∉ links fs →
  (resolve fs p = raise "RuntimeError" "Symlink loop" ∨
   resolve fs p = raise "ValueError" "lstat: embedded null character in path" ∨
   ∃ q, resolve fs p = Ok q) ∧
  ∀ q, resolve fs p = Ok q → link_free fs q ∧ resolve fs q = Ok q.
Proof.
  intros Hroot. split.
  - unfold resolve. destruct (joinrealpath_total fs (size (links fs)) [] p ∅) as (o & -> & _).
    { apply subseteq_size. unfold unseen. set_solver. }
    destruct o; eauto.
  - intros q Hq. apply resolve_ok in Hq as [Hl Hn]; [|done]. split; [done|by apply resolve_plain].
Qed.

(** ** The sandbox holds *)

Section sandbox.
Context (sb : path).

Notation file_read := (file_read sb).
Notation file_write := (file_write sb).

Lemma is_relative_to_spec p : is_relative_to p sb = true ↔ sb `prefix_of` p.
Proof.
  unfold is_relative_to. rewrite bool_decide_eq_true. split.
  - intros H. rewrite <-H. exists (drop (length sb) p). by rewrite take_drop.
  - intros [k ->]. apply take_app_length.
Qed.

Lemma mkdirs_changes fs here rest fs' :
  mkdirs fs here rest = Ok fs' →
  ∀ q, fs' !! q = fs !! q ∨ (fs !! q = None ∧ fs' !! q = Some Dir ∧ q `prefix_of` here ++ rest).
Proof.
  revert fs here. induction rest as [|name rest IH]; intros fs here; [intros [= <-]; by left|].
  cbn [mkdirs]. rewrite (cons_middle name here rest), app_assoc. intros H q.
  destruct (fs !! (here ++ [name])) as [[b| |t]|] eqn:E; [by destruct rest|by apply (IH fs)|by apply (IH fs)|].
  destruct (IH _ _ H q) as [Hi|(H1 & H2 & H3)].
  - rewrite Hi, lookup_insert. case_decide as Hq; [subst q|by left]. right. split_and!; [done|done|].
    by apply prefix_app_r.
  - right. split_and!; [|done|done]. rewrite lookup_insert in H1. by case_decide.
Qed.

Lemma file_write_ok fs path content fs' j :
  [] ∉ links fs → file_write fs path content = (fs', Ok j) → j ≠ outside →
  ∃ target fs1, resolve fs (join_path sb (_normalize path)) = Ok target ∧ sb `prefix_of` target ∧ target ≠ [] ∧
    mkdirs fs [] (removelast target) = Ok fs1 ∧ fs' = <[target := File (utf8 content)]> fs1 ∧
    j = JObj [("path", JStr path); ("written", JInt (Z.of_nat (String.length content)))].
Proof.
  intros Hroot. unfold Tools.file_write. destruct (resolve _ _) as [target|e] eqn:Hr; [|done].
  destruct (is_relative_to target sb) eqn:Hrel; [|by intros [= <- <-]]. apply is_relative_to_spec in Hrel.
  cbn [negb]. destruct (mkdirs _ _ _) as [fs1|e] eqn:Hm; [|done]. unfold write_text.
  destruct (node_at fs1 target) as [[b| |t]|] eqn:En; cbn [result_bind]; intros [= <- <-] _;
    exists target, fs1; by destruct target.
Qed.

(** What the tools may do to the file system: change what is under the sandbox, and create missing
    directories on the way to it. *)
Definition confined (fs fs' : Fs) : Prop :=
  ∀ q, fs' !! q = fs !! q ∨ sb `prefix_of` q ∨ (q `prefix_of` sb ∧ fs !! q = None ∧ fs' !! q = Some Dir).

Lemma confined_refl fs : confined fs fs.
Proof. intros q. by left. Qed.

Lemma confined_trans fs1 fs2 fs3 : confined fs1 fs2 → confined fs2 fs3 → confined fs1 fs3.
Proof.
  intros H1 H2 q. destruct (H1 q) as [E1|[?|(? & E1 & E1')]], (H2 q) as [E2|[?|(? & E2 & E2')]];
    try (right; by left); try (left; congruence); right; right; split_and!; congruence.
Qed.

Lemma mkdirs_confined fs target fs1 :
  sb `prefix_of` target → mkdirs fs [] (removelast target) = Ok fs1 → confined fs fs1.
Proof.
  intros Hrel Hm q. destruct (mkdirs_changes _ _ _ _ Hm q) as [?|(Hn & Hd & Hpre)]; [by left|right].
  assert (q `prefix_of` target) as Hpre' by (etrans; [exact Hpre|apply removelast_prefix]).
  destruct (prefix_weak_total _ _ _ Hpre' Hrel); [right|left]; done.
Qed.

Lemma file_write_confined fs path content fs' r : file_write fs path content = (fs', r) → confined fs fs'.
Proof.
  unfold Tools.file_write. destruct (resolve _ _) as [target|e]; [|intros [= <- <-]; apply confined_refl].
  destruct (is_relative_to target sb) eqn:Hrel; [|intros [= <- <-]; apply confined_refl].
  apply is_relative_to_spec in Hrel. cbn [negb].
  destruct (mkdirs fs [] (removelast target)) as [fs1|e] eqn:Hm; [|intros [= <- <-]; apply confined_refl].
  apply (mkdirs_confined _ _ _ Hrel) in Hm. unfold write_text. intros Hw. eapply confined_trans; [exact Hm|].
  intros q. destruct (node_at fs1 target) as [[b| |t]|]; injection Hw as <- _; [|by left|..];
    rewrite lookup_insert; case_decide as Hq; [subst q; right; by left|by left|
      subst q; right; by left|by left|subst q; right; by left|by left].
Qed.

(** The file tools stay in the sandbox.  Whatever path an agent asks for, with dots, absolute, or through
    symbolic links: a read shows the text of a file only if the file is under the sandbox and no link is
    on the way to it; and a write, whatever it answers, changes nothing but what is under the sandbox,
    except that it creates missing directories on the way to it. *)
Theorem file_tools_confined fs path :
  [] ∉ links fs →
  (∀ j, file_read fs path = Ok j →
     j = outside ∨ (∃ name, dget "error" (match j with JObj d => d | _ => [] end) = Some (JStr ("not found: " +:+ name))) ∨
     ∃ target bytes text, sb `prefix_of` target ∧ link_free fs target ∧ fs !! target = Some (File bytes) ∧
       utf8_decode bytes = Some text ∧
       j = JObj [("path", JStr path); ("content", JStr (universal_newlines text))]) ∧
  (∀ content fs' r, file_write fs path content = (fs', r) → confined fs fs').
Proof.
  intros Hroot. split; [|intros *; apply file_write_confined].
  intros j. unfold Tools.file_read. destruct (resolve _ _) as [target|e] eqn:Hr; [|done]. cbn [result_bind].
  apply resolve_ok in Hr as [Hl _]; [|done]. destruct (is_relative_to target sb) eqn:Hrel; [|intros [= <-]; by left].
  apply is_relative_to_spec in Hrel. cbn [negb]. intros Hj. right.
  destruct (node_at fs target) as [[bytes| |t]|] eqn:En; try (left; injection Hj as <-; by eexists). right.
  destruct (utf8_decode bytes) as [text|] eqn:Hd; [|done]. injection Hj as <-.
  exists target, bytes, text. split_and!; try done. by destruct target.
Qed.

(** ** What is written is what is read *)

Definition same_links (fs fs' : Fs) : Prop := ∀ p t, fs !! p = Some (Link t) ↔ fs' !! p = Some (Link t).

Lemma walk_rest_ext fs fs' self self' here rest seen :
  same_links fs fs' → (∀ h r s, self h r s = self' h r s) →
  walk_rest fs self here rest seen = walk_rest fs' self' here rest seen.
Proof.
  intros Hl Hself. revert here seen. induction rest as [|name rest IH]; intros here seen; [done|].
  cbn [walk_rest]. rewrite !IH. destruct (_ || _); [done|]. destruct (String.eqb _ _); [done|].
  destruct (char_in null name); [done|]. pose proof (Hl (here ++ [name])) as Hn.
  assert (∀ t, follow (λ p s, walk_rest fs self p rest s) self here t (here ++ [name]) seen
             = follow (λ p s, walk_rest fs' self' p rest s) self' here t (here ++ [name]) seen) as Hf.
  { intros t. unfold follow. destruct (seen !! _) as [[p|]|]; [apply IH|done|]. rewrite Hself.
    destruct (self' _ _ _) as [[p s| |]|]; [apply IH|done..]. }
  assert ((∃ t, fs !! (here ++ [name]) = Some (Link t)) ∨ ¬ ∃ t, fs !! (here ++ [name]) = Some (Link t))
    as [[t Ht]|Hno] by (destruct (fs !! _) as [[| |t]|]; naive_solver).
  - by rewrite Ht, (proj1 (Hn t) Ht).
  - assert (∀ n x (f : string → option walk), (∀ t, n ≠ Some (Link t)) →
      match n with Some (Link t) => f t | _ => x end = x) as Hd by (intros [[| |t]|] x f Hne; naive_solver).
    rewrite !Hd; [done|naive_solver|naive_solver].
Qed.

Lemma same_links_eq fs fs' : same_links fs fs' → links fs = links fs'.
Proof. intros Hl. apply set_eq. intros p. rewrite !elem_of_links. by split; intros [t Ht]; exists t; apply Hl. Qed.

Lemma resolve_ext fs fs' p : same_links fs fs' → resolve fs p = resolve fs' p.
Proof.
  intros Hl. unfold resolve. rewrite (same_links_eq _ _ Hl).
  assert (∀ d h r s, _joinrealpath fs d h r s = _joinrealpath fs' d h r s) as ->; [|done].
  induction d as [|d IH]; intros h r s; by apply walk_rest_ext.
Qed.

(** What the agent writes is what it reads back.  A write that is not refused is read back under the
    same path, whatever the path is made of: the content comes back with every carriage return, alone or
    before a newline, turned into a newline. *)
Theorem write_read_roundtrip fs path content fs' j :
  [] ∉ links fs → file_write fs path content = (fs', Ok j) → j ≠ outside →
  file_read fs' path = Ok (JObj [("path", JStr path); ("content", JStr (universal_newlines content))]).
Proof.
  intros Hroot Hw Hj. destruct (file_write_ok _ _ _ _ _ Hroot Hw Hj) as (target & fs1 & Hr & Hrel & Hne & Hm & -> & _).
  pose proof (resolve_ok _ _ _ Hroot Hr) as [Hl _]. specialize (Hl target (reflexivity _)).
  rewrite elem_of_links in Hl. unfold Tools.file_read.
  rewrite <-(resolve_ext fs); [rewrite Hr|].
  - cbn [result_bind]. rewrite (proj2 (is_relative_to_spec _)) by done. cbn [negb].
    destruct target as [|c target]; [done|]. cbn [node_at]. rewrite lookup_insert_eq. by rewrite utf8_decode_utf8.
  - intros p t. rewrite lookup_insert. case_decide as Hp; [subst p; naive_solver|].
    destruct (mkdirs_changes _ _ _ _ Hm p) as [->|(-> & -> & _)]; [done|naive_solver].
Qed.

(** ** Names *)

Lemma lstrip_twice s : lstrip_in "./" (lstrip_in "/" s) = lstrip_in "./" s.
Proof.
  induction s as [|c s IH]; [done|]. cbn [lstrip_in]. destruct (char_in c "/") eqn:E; [|done].
  assert (char_in c "./" = true) as ->; [|done].
  change "./" with (String "." "/"). by rewrite char_in_cons, E, orb_true_r.
Qed.

(** Leading dots are stripped like leading slashes: a dotted name is the name without its dots, so a write
    to [.env] overwrites [env]. *)
Lemma dotted_names_collide s : _normalize (String "." s) = _normalize s.
Proof. unfold _normalize. by rewrite !lstrip_twice. Qed.

(** ** A session of gated calls *)

Section session.
Context (ticket : string) (t : Telemetry) (timeout : Z).

Lemma mkdirs_root fs here rest fs' : mkdirs fs here rest = Ok fs' → [] ∉ links fs → [] ∉ links fs'.
Proof.
  intros Hm. rewrite !elem_of_links.
  destruct (mkdirs_changes _ _ _ _ Hm []) as [->|(-> & -> & _)]; [done|by intros _ [? ?]].
Qed.

Lemma write_text_root fs target content fs' r :
  write_text fs target content = (fs', r) → [] ∉ links fs → [] ∉ links fs'.
Proof.
  unfold write_text. rewrite !elem_of_links. destruct target as [|c target]; [by intros [= <- <-]|].
  destruct (node_at fs (c :: target)) as [[b| |l]|]; intros [= <- <-]; [|done|..]; by rewrite lookup_insert_ne.
Qed.

Lemma call_fn_confined tool kwargs fs fs' r :
  tool ∈ _ALL_TOOLS sb ticket → call_fn tool kwargs fs = (fs', r) → [] ∉ links fs →
  confined fs fs' ∧ [] ∉ links fs'.
Proof.
  intros Hin. unfold call_fn. destruct (existsb _ _); [intros [= <- <-]; by split; [apply confined_refl|]|].
  destruct (bind_args _ _) as [args|e]; [|intros [= <- <-]; by split; [apply confined_refl|]].
  intros Hb Hroot. unfold _ALL_TOOLS in Hin.
  do 10 try (apply elem_of_cons in Hin as [->|Hin]); [..|by apply elem_of_nil in Hin];
    try (injection Hb as <- <-; by split; [apply confined_refl|]).
  cbn [tool_body file_write_tool] in Hb.
  destruct (nth_arg 0 args) as [| | | |p| |]; try (injection Hb as <- <-; by split; [apply confined_refl|]).
  assert (∀ content, file_write fs p content = (fs', r) → confined fs fs' ∧ [] ∉ links fs') as Htext.
  { intros content Hw. split; [by eapply file_write_confined|]. unfold Tools.file_write in Hw.
    destruct (resolve _ _) as [target|e]; [|by injection Hw as <- <-].
    destruct (is_relative_to target sb); [|by injection Hw as <- <-]. cbn [negb] in Hw.
    destruct (mkdirs _ _ _) as [fs1|e] eqn:Hm; [|by injection Hw as <- <-].
    destruct (write_text fs1 target content) as [fs2 r2] eqn:Ht. injection Hw as <- <-.
    eapply write_text_root; [done|]. by eapply mkdirs_root. }
  assert ((match resolve fs (join_path sb (_normalize p)) with
           | Raise e => (fs, Raise e)
           | Ok target =>
               if negb (is_relative_to target sb) then (fs, Ok outside)
               else match mkdirs fs [] (removelast target) with
                    | Raise e => (fs, Raise e)
                    | Ok fs => (fs, raise "TypeError" "data must be str")
                    end
           end) = (fs', r) → confined fs fs' ∧ [] ∉ links fs') as Hother.
  { destruct (resolve _ _) as [target|e]; [|intros [= <- <-]; by split; [apply confined_refl|]].
    destruct (is_relative_to target sb) eqn:Hrel; [|intros [= <- <-]; by split; [apply confined_refl|]].
    apply is_relative_to_spec in Hrel. cbn [negb].
    destruct (mkdirs _ _ _) as [fs1|e] eqn:Hm; [|intros [= <- <-]; by split; [apply confined_refl|]].
    intros [= <- <-]. split; [by eapply mkdirs_confined|by eapply mkdirs_root]. }
  destruct (nth_arg 1 args); eauto.
Qed.

(** How a call may end, given how its block starts. *)
Definition ends_as (o : CallOutcome) (e : CallEnd) : Prop :=
  match o, e with
  | Proceeds _, Returned _ | Proceeds _, ToolRaised _ => True
  | Denied rs, GateDenied rs' => rs = rs'
  | Uncaught x, ConnectionFailed x' => x = x'
  | _, _ => False
  end.

Definition asks (calls : list Call) : list (Z * Reply) := map (λ c, (c_now c, c_reply c)) calls.

Lemma session_effect calls s fs fs' evs es :
  session t timeout calls s fs = (fs', evs, es) → (∀ c, c ∈ calls → c_tool c ∈ _ALL_TOOLS sb ticket) → [] ∉ links fs →
  confined fs fs' ∧ Forall2 ends_as (tool_calls timeout (asks calls) s) es ∧
  ((∀ d, Proceeds d ∉ tool_calls timeout (asks calls) s) → fs' = fs).
Proof.
  revert s fs fs' evs es. induction calls as [|c calls IH]; intros s fs fs' evs es.
  { intros [= <- <- <-] _ _. split_and!; [apply confined_refl|constructor|done]. }
  cbn [session asks map tool_calls]. unfold call. intros H Hin Hroot.
  destruct (tool_call timeout (c_now c) (c_reply c) s) as [s1 o] eqn:Ec.
  assert (∀ c', c' ∈ calls → c_tool c' ∈ _ALL_TOOLS sb ticket) as Hin' by (intros; apply Hin; by right).
  destruct o as [d|rs|x].
  - destruct (call_fn (c_tool c) (c_kwargs c) fs) as [fs1 r] eqn:Ef.
    destruct (call_fn_confined _ _ _ _ _ (Hin _ (list_elem_of_here _ _)) Ef Hroot) as [Hc1 Hroot1].
    destruct r as [v|e]; destruct (session t timeout calls s1 fs1) as [[fs2 evs2] es2] eqn:Es;
      injection H as <- <- <-; destruct (IH _ _ _ _ _ Es Hin' Hroot1) as (Hc & Hf & _);
      (split_and!; [by eapply confined_trans|by constructor|intros Hd; by destruct (Hd d); left]).
  - destruct (session t timeout calls s1 fs) as [[fs2 evs2] es2] eqn:Es. injection H as <- <- <-.
    destruct (IH _ _ _ _ _ Es Hin' Hroot) as (Hc & Hf & Hd). split_and!; [done|by constructor|].
    intros Hn. apply Hd. intros d Hi. apply (Hn d). by right.
  - destruct (session t timeout calls s1 fs) as [[fs2 evs2] es2] eqn:Es. injection H as <- <- <-.
    destruct (IH _ _ _ _ _ Es Hin' Hroot) as (Hc & Hf & Hd). split_and!; [done|by constructor|].
    intros Hn. apply Hd. intros d Hi. apply (Hn d). by right.
Qed.

(** C7: The gate and the sandbox together.  However an agent uses the tools of the catalogue, one gated call
    after the other: each call ends the way the gate's answer says (its tool runs exactly when the block
    starts with a decision); the file system changes under the sandbox only, up to missing directories on
    the way to it; and if every response the server sent on the connection denies, nothing changes at all,
    whatever was lost, late or closed. *)
Theorem gated_session_confined calls fs fs' evs es :
  session t timeout calls fresh_stream fs = (fs', evs, es) →
  (∀ c, c ∈ calls → c_tool c ∈ _ALL_TOOLS sb ticket) → [] ∉ links fs →
  Forall2 ends_as (tool_calls timeout (asks calls) fresh_stream) es ∧ confined fs fs' ∧
  ((∀ r, r ∈ sent (asks calls) → sdk_decision r = "DENY") → fs' = fs).
Proof.
  intros Hs Hin Hroot. destruct (session_effect _ _ _ _ _ _ Hs Hin Hroot) as (Hc & Hf & Hd).
  split_and!; [done|done|]. intros Hdeny. apply Hd. intros d Hi.
  destruct (tool_calls_sound _ _ _ _ Hi) as (r & Hr & Hdec). simpl in Hr. specialize (Hdeny r Hr).
  unfold decide_call in Hdec. by rewrite Hdeny in Hdec.
Qed.

(** ** Every event of the run says so *)

Definition of_run (w : WireEvent) : Prop :=
  wb_run_id (w_base w) = tl_run_id t ∧ wb_tenant_id (w_base w) = tl_tenant_id t.

Lemma session_of_run calls s fs fs' evs es :
  session t timeout calls s fs = (fs', evs, es) → Forall of_run evs.
Proof.
  revert s fs fs' evs es. induction calls as [|c calls IH]; intros s fs fs' evs es; [by intros [= <- <- <-]|].
  cbn [session]. destruct (call t timeout c s fs) as [[[s1 fs1] evs1] e1] eqn:Ec.
  destruct (session t timeout calls s1 fs1) as [[fs2 evs2] es2] eqn:Es. intros [= <- <- <-].
  apply Forall_app. split; [|by eapply IH]. unfold call in Ec. destruct (tool_call _ _ _ _) as [s0 [d|rs|x]].
  - destruct (call_fn _ _ _) as [fs0 [v|e]]; injection Ec as <- <- <- <-; by repeat constructor.
  - injection Ec as <- <- <- <-. by repeat constructor.
  - injection Ec as <- <- <- <-. by repeat constructor.
Qed.
End session.

(** A harness reports as the run it was started for.  The process [start] spawns reads from its
    environment, whatever the auditor's own environment holds, the run and tenant of the request; when
    a model is configured it gives the agent the request's task, for twelve turns whatever the request
    says; and every event of every gated session of it carries that run and that tenant. *)
Theorem harness_reports_as_its_run e environ now now_s rid r w w' env fresh_run fresh_tenant :
  NoDup (dkeys environ) →
  start e environ now now_s rid r w = (w', Ok env) →
  canonical (q_run_id (request r)) → canonical (q_tenant_id (request r)) → str_truthy (q_task (request r)) = true →
  ∃ t, connect_telemetry env fresh_run fresh_tenant = Ok t ∧
    amain_activity env true = RunAgent (q_task (request r)) 12 ∧ amain_activity env false = RunScripted ∧
    ∀ timeout calls s fs fs' evs es, session t timeout calls s fs = (fs', evs, es) →
      Forall (λ ev, wb_run_id (w_base ev) = q_run_id (request r) ∧
                    wb_tenant_id (w_base ev) = q_tenant_id (request r)) evs.
Proof.
  intros Hn (paths & pid & _ & Hm & _ & -> & _)%start_ok Hrun Hten Htask.
  set (over := harness_overrides (request r) paths environ).
  assert (∀ k v, dget k over = Some v → dget k (build_child_env environ over) = Some v) as Hk.
  { intros k v Hv. by rewrite child_env_lookup, Hv by first [done|apply overrides_NoDup]. }
  exists {| tl_run_id := q_run_id (request r); tl_tenant_id := q_tenant_id (request r) |}.
  split; [|split_and!].
  - unfold connect_telemetry, id_from_env.
    rewrite (Hk "HARNESS_RUN_ID" (q_run_id (request r))), (Hk "HARNESS_TENANT_ID" (q_tenant_id (request r))) by done.
    rewrite !canonical_truthy by done. unfold uuid_of. by rewrite Hrun, Hten.
  - unfold amain_activity. rewrite (Hk "HARNESS_MODE" "agent"), (Hk "HARNESS_TASK" (q_task (request r))) by done.
    cbn [default from_option]. change (id "agent") with "agent". cbn. by rewrite Htask.
  - unfold amain_activity. by rewrite (Hk "HARNESS_MODE" "agent").
  - intros timeout calls s fs fs' evs es Hs. by apply session_of_run in Hs.
Qed.

(** No gated call tells the auditor the tool's schema hash. *)
Lemma gated_calls_send_no_hash t c :
  match w_payload (call_start t c) with WToolCallStart _ _ _ _ _ hash => hash = "" | _ => False end.
Proof. done. Qed.
End sandbox.

(** ** Witnesses *)

Definition sample_sandbox : path := ["app"; "data"; "sandbox"].

(** Two links out of the sandbox, one of them through the other, a loop, and a link within. *)
Definition sample_fs : Fs :=
  list_to_map
    [(["app"], Dir); (["app"; "data"], Dir); (sample_sandbox, Dir); (["etc"], Dir);
     (["etc"; "passwd"], File "root"); (sample_sandbox ++ ["notes.txt"], File "hello");
     (sample_sandbox ++ ["out"], Link "/etc/passwd"); (sample_sandbox ++ ["up"], Link "../..");
     (sample_sandbox ++ ["loop"], Link "loop"); (sample_sandbox ++ ["here"], Link "../sandbox/./notes.txt")].

Example sample_reads :
  map (file_read sample_sandbox sample_fs) ["data/sandbox/notes.txt"; "here"; "out"; "up/data"; "/etc/passwd"; "loop"] =
  [Ok (JObj [("path", JStr "data/sandbox/notes.txt"); ("content", JStr "hello")]);
   Ok (JObj [("path", JStr "here"); ("content", JStr "hello")]);
   Ok outside; Ok outside;
   Ok (JObj [("path", JStr "/etc/passwd"); ("content", JStr ""); ("error", JStr "not found: passwd")]);
   raise "RuntimeError" "Symlink loop"].
Proof. vm_compute. reflexivity. Qed.

Lemma sample_root : [] ∉ links sample_fs.
Proof. by_decision. Qed.

Lemma resolve_terminates_witness :
  link_free sample_fs (sample_sandbox ++ ["notes.txt"]) ∧
  resolve sample_fs (sample_sandbox ++ ["notes.txt"]) = Ok (sample_sandbox ++ ["notes.txt"]).
Proof.
  apply (proj2 (resolve_terminates sample_fs (sample_sandbox ++ ["here"]) sample_root)). vm_compute. reflexivity.
Defined.

Lemma file_tools_confined_witness :
  confined sample_sandbox sample_fs (file_write sample_sandbox sample_fs "a/b.txt" "x").1 ∧
  (file_write sample_sandbox sample_fs "a/b.txt" "x").1 !! (sample_sandbox ++ ["a"; "b.txt"]) = Some (File "x").
Proof.
  split; [|vm_compute; reflexivity].
  apply (proj2 (file_tools_confined sample_sandbox sample_fs "a/b.txt" sample_root) "x" _
    (file_write sample_sandbox sample_fs "a/b.txt" "x").2). apply surjective_pairing.
Defined.

Lemma write_read_roundtrip_witness :
  file_read sample_sandbox (file_write sample_sandbox sample_fs ".env" "k=v").1 ".env" =
    Ok (JObj [("path", JStr ".env"); ("content", JStr "k=v")]).
Proof.
  apply (write_read_roundtrip sample_sandbox sample_fs ".env" "k=v" _
    (JObj [("path", JStr ".env"); ("written", JInt 3)]) sample_root); [vm_compute; reflexivity|discriminate].
Defined.

Definition sample_call (reply : Reply) : Call :=
  {| c_agent := u1; c_tool := file_write_tool sample_sandbox;
     c_kwargs := [("path", JStr "notes.txt"); ("content", JStr "gone")]; c_now := 0; c_reply := reply;
     c_span := u2; c_start := (u1, 0); c_end := (u3, 1) |}.

Lemma gated_session_confined_witness :
  (session {| tl_run_id := u1; tl_tenant_id := u2 |} 100 [sample_call (ReplyAt 10 deny); sample_call NoReply]
     fresh_stream sample_fs).1.1 = sample_fs.
Proof.
  destruct (session {| tl_run_id := u1; tl_tenant_id := u2 |} 100
    [sample_call (ReplyAt 10 deny); sample_call NoReply] fresh_stream sample_fs) as [[fs' evs] es] eqn:E.
  apply (proj2 (proj2 (gated_session_confined sample_sandbox "0" _ _ _ _ _ _ _ E
    ltac:(intros c; rewrite !elem_of_cons, elem_of_nil; intros [->|[->|[]]]; unfold _ALL_TOOLS; simpl; set_solver)
    sample_root))).
  intros r. unfold asks, sent. cbn. rewrite list_elem_of_singleton. intros ->. reflexivity.
Defined.

Definition sample_tool_run : HarnessRun := from_request sample_rid u1 "say hello" 30.
Definition sample_tool_start : Runner.World * result PyExn (list (string * string)) :=
  start sample_env_ok sample_environ 5 fzero sample_rid sample_tool_run (set_obj sample_rid sample_tool_run (boot sample_db)).

(** A request for thirty turns runs for twelve. *)
Lemma harness_reports_as_its_run_witness :
  ∃ w' env t, sample_tool_start = (w', Ok env) ∧ connect_telemetry env u2 u3 = Ok t ∧
    amain_activity env true = RunAgent "say hello" 12.
Proof.
  destruct sample_tool_start as [w' [env|x]] eqn:E.
  2: { exfalso. assert (is_ok sample_tool_start.2 = true) as H by (vm_compute; reflexivity).
       rewrite E in H. discriminate H. }
  unfold sample_tool_start in E.
  destruct (harness_reports_as_its_run sample_env_ok sample_environ 5 fzero sample_rid sample_tool_run _ w' env u2 u3
    ltac:(by_decision) E) as (t & Ht & Ha & _); [vm_compute; reflexivity..|].
  exists w', env, t. split_and!; [reflexivity|exact Ht|exact Ha].
Defined.
