(* ===== verification/Sysmon.v ===== *)
(** * Sysmon records as involuntary events

    Models [involuntary/windows_sysmon/translator.py], the filter by process of
    [involuntary/windows_sysmon/subscriber.py] and the observer of [auditor/involuntary/windows.py] that
    queues what they let through, and what [Divergence] makes of the result.  A record is the element
    tree the XML parser makes of it; the parser and the reading of Sysmon's time stamps are parameters. *)

From Stdlib Require Import ZArith Lia Ascii.
From Stdlib Require String.
From stdpp Require Import base tactics option list strings gmap sets.
From S2P Require Import Prelude PyStr Float64 Json Verdicts Events Url Divergence Budget Gate Bridge Store.

Local Open Scope Z_scope.

(** ** Elements *)

Inductive Element := Elem (tag : string) (attrs : list (string * string)) (text : option string) (children : list Element).

Definition tag_of (e : Element) : string := let '(Elem t _ _ _) := e in t.
Definition attrs_of (e : Element) : list (string * string) := let '(Elem _ a _ _) := e in a.
Definition text_of (e : Element) : option string := let '(Elem _ _ x _) := e in x.
Definition children_of (e : Element) : list Element := let '(Elem _ _ _ c) := e in c.

(** [root.iter()]: the element and its descendants in document order. *)
Fixpoint iter (e : Element) : list Element :=
  e :: (let '(Elem _ _ _ children) := e in List.flat_map iter children).

(** [tag.rsplit("}", 1)[-1]] *)
Definition _localname (tag : string) : string := default tag (last (split_on "}" tag)).

Definition _find_child (elem : option Element) (local : string) : option Element :=
  e ← elem; find (λ c, String.eqb (_localname (tag_of c)) local) (children_of e).

(** [int(text)]: a sign, and digits with single underscores between them, between white space. *)
Fixpoint dec_digits (acc : Z) (s : string) : option Z :=
  match s with
  | EmptyString => None
  | String c s' =>
      if is_digit c then
        let acc := acc * 10 + (Z.of_N (N_of_ascii c) - 48) in
        match s' with
        | EmptyString => Some acc
        | String u s'' => if ascii_dec u "_"%char then dec_digits acc s'' else dec_digits acc s'
        end
      else None
  end.

Definition py_int (s : string) : option Z :=
  match strip s with
  | String c s' => if ascii_dec c "-"%char then Z.opp <$> dec_digits 0 s'
                   else if ascii_dec c "+"%char then dec_digits 0 s' else dec_digits 0 (String c s')
  | EmptyString => None
  end.

Definition int_of (s : string) : result PyExn Z :=
  match py_int s with
  | Some z => Ok z
  | None => raise "ValueError" ("invalid literal for int() with base 10: " +:+ py_repr_str s)
  end.

(** [s.split()] *)
Fixpoint split_space (word : string) (s : string) : list string :=
  match s with
  | EmptyString => if str_truthy word then [word] else []
  | String c s' =>
      if is_space c then if str_truthy word then word :: split_space "" s' else split_space "" s'
      else split_space (word +:+ String c "") s'
  end.

Section sysmon.
Context (fromstring : string → option Element) (strptime : string → option datetime).

(** ** [parse_event_data] *)

Definition text_json (o : option string) : json := match o with Some s => JStr s | None => JNull end.

Definition data_item (d : list (string * json)) (child : Element) : list (string * json) :=
  if String.eqb (_localname (tag_of child)) "Data" then
    match dget "Name" (attrs_of child) with
    | Some name => dset name (text_json (text_of child)) d
    | None => d
    end
  else d.

Definition parse_event_data (xml_str : string) : result PyExn (list (string * json)) :=
  match fromstring xml_str with
  | None => raise "ParseError" "syntax error"
  | Some root =>
      let! event_id :=
        (match _find_child (_find_child (Some root) "System") "EventID" ≫= text_of with
         | Some s => if str_truthy s && str_truthy (strip s) then let! z := int_of (strip s) in Ok (JInt z)
                     else Ok JNull
         | None => Ok JNull
         end) in
      let data := [("event_id", event_id); ("process_id", JNull); ("image", JNull)] in
      let data := match _find_child (Some root) "EventData" with
                  | Some event_data => foldl data_item data (children_of event_data)
                  | None => data
                  end in
      let! data :=
        (match dget "ProcessId" data with
         | Some (JStr s) => if str_truthy (strip s) then let! z := int_of (strip s) in Ok (dset "process_id" (JInt z) data)
                            else Ok data
         | _ => Ok data
         end) in
      Ok (dset "image" (default JNull (dget "Image" data)) data)
  end.

(** ** [translate] *)

(** [data.get(k) or ""] *)
Definition text_at (k : string) (d : list (string * json)) : string :=
  match dget k d with Some (JStr s) => s | _ => "" end.

Definition _parse_ts (d : list (string * json)) (now : datetime) : datetime :=
  let s := text_at "UtcTime" d in
  if str_truthy s then default now (strptime (strip s)) else now.

Record Header := { h_run : uuid; h_tenant : uuid; h_event : uuid; h_span : uuid; h_ts : datetime; h_pid : option Z }.

Definition _header (d : list (string * json)) (run_id tenant_id event_id span_id : uuid) (now : datetime)
    : result PyExn Header :=
  let! pid := (match dget "process_id" d with
               | Some (JInt z) => Ok (Some z)
               | Some (JStr s) => let! z := int_of s in Ok (Some z)
               | _ => Ok None
               end) in
  Ok {| h_run := run_id; h_tenant := tenant_id; h_event := event_id; h_span := span_id;
        h_ts := _parse_ts d now; h_pid := pid |}.

Definition _argv_from_command_line (s : string) : list string :=
  if negb (str_truthy s) then []
  else match split_space "" s with [] => [s] | ws => ws end.

Definition with_body (h : Header) (b : EventBody) : BaseEvent :=
  {| event_id := h_event h; e_run_id := h_run h; e_tenant_id := h_tenant h; span_id := h_span h;
     parent_span_id := None; ts := h_ts h; pid := h_pid h; schema_version := 1; body := b |}.

(** The body of a record by its Sysmon event id; [None] for an id that is not mapped. *)
Definition event_body (event_id : Z) (d : list (string * json)) : result PyExn (option EventBody) :=
  if event_id =? 1 then
    Ok (Some (ESyscallExecve (text_at "Image" d) (_argv_from_command_line (text_at "CommandLine" d))))
  else if event_id =? 3 then
    let is_ipv6 := String.eqb (lower (strip (text_at "SourceIsIpv6" d))) "true" in
    let addr := if str_truthy (text_at "DestinationIp" d) then text_at "DestinationIp" d
                else text_at "DestinationHostname" d in
    let! port := (if str_truthy (strip (text_at "DestinationPort" d))
                  then let! z := int_of (text_at "DestinationPort" d) in Ok (Some z) else Ok None) in
    Ok (Some (ESyscallConnect (if is_ipv6 then "AF_INET6" else "AF_INET") addr port))
  else if event_id =? 11 then Ok (Some (ESyscallOpenat (text_at "TargetFilename" d) 0))
  else if event_id =? 22 then
    Ok (Some (EDnsQuery (text_at "QueryName" d)
                (bfilter str_truthy (map strip (split_on ";" (text_at "QueryResults" d))))))
  else if event_id =? 23 then Ok (Some (ESyscallOpenat (text_at "TargetFilename" d) 0))
  else Ok None.

Definition translate (xml_str : string) (run_id tenant_id event_id span_id : uuid) (now : datetime)
    : result PyExn (option BaseEvent) :=
  let! d := parse_event_data xml_str in
  match dget "event_id" d with
  | Some (JInt z) =>
      let! h := _header d run_id tenant_id event_id span_id now in
      let! b := event_body z d in
      Ok (with_body h <$> b)
  | Some (JStr _) => let! _ := _header d run_id tenant_id event_id span_id now in Ok None
  | _ => Ok None
  end.

(** ** The subscriber and the observer *)

Definition is_process_id (e : Element) : bool :=
  String.eqb (_localname (tag_of e)) "Data" && bool_decide (dget "Name" (attrs_of e) = Some "ProcessId").

(** The first [ProcessId] with a text decides. *)
Definition _extract_process_id (xml_str : string) : option Z :=
  root ← fromstring xml_str;
  match bfilter str_truthy (map (λ e, strip (default "" (text_of e))) (bfilter is_process_id (iter root))) with
  | s :: _ => py_int s
  | [] => None
  end.

Definition _matches (process_ids : option (gset Z)) (process_id : option Z) : bool :=
  match process_ids, process_id with
  | None, _ => true
  | Some ps, Some p => bool_decide (p ∈ ps)
  | Some _, None => false
  end.

(** What a delivered record puts on the queue; the observer's tenant is the run's id. *)
Definition _on_xml (process_ids : gset Z) (run_id : uuid) (xml_str : string) (event_id span_id : uuid)
    (now : datetime) : option BaseEvent :=
  if _matches (Some process_ids) (_extract_process_id xml_str) then
    match translate xml_str run_id run_id event_id span_id now with
    | Ok e => e
    | Raise _ => None
    end
  else None.

(** The queue: events and the sentinel of [stop], in the order they were put. *)
Inductive observed := Delivered (xml_str : string) (event_id span_id : uuid) (now : datetime) | Stopped.

Definition queue_items (process_ids : gset Z) (run_id : uuid) (os : list observed) : list (option BaseEvent) :=
  omap (λ o, match o with
             | Delivered x e s n => Some <$> _on_xml process_ids run_id x e s n
             | Stopped => Some None
             end) os.

(** [events()] *)
Fixpoint events_of (q : list (option BaseEvent)) : list BaseEvent :=
  match q with
  | Some e :: q' => e :: events_of q'
  | _ => []
  end.
End sysmon.

(** ** What comes out is an event of the schema *)

(** The class's own fields, as [model_dump] gives them. *)
Definition body_fields (b : EventBody) : list (string * json) :=
  match b with
  | ESyscallOpenat p f => [("path", JStr p); ("flags", JInt f)]
  | ESyscallConnect f a p =>
      [("family", JStr f); ("addr", JStr a); ("port", match p with Some z => JInt z | None => JNull end)]
  | ESyscallExecve b argv => [("binary", JStr b); ("argv", str_list argv)]
  | EDnsQuery q rs => [("query_name", JStr q); ("results", str_list rs)]
  | _ => []
  end.

Ltac read_fields :=
  repeat first [ erewrite f_lit_at by reflexivity | erewrite f_strs_at by reflexivity
               | erewrite f_int_at by reflexivity | erewrite f_str_at by reflexivity ].

Section properties.
Context (fromstring : string → option Element) (strptime : string → option datetime).

Notation translate := (translate fromstring strptime).

Lemma translate_ok xml run tenant eid sid now e :
  translate xml run tenant eid sid now = Ok (Some e) →
  ∃ d z h b, parse_event_data fromstring xml = Ok d ∧ dget "event_id" d = Some (JInt z) ∧
    _header strptime d run tenant eid sid now = Ok h ∧ event_body z d = Ok (Some b) ∧ e = with_body h b.
Proof.
  unfold Sysmon.translate. intros (d & Hd & H)%result_bind_ok. destruct (dget "event_id" d) as [v|] eqn:Hv; [|done].
  destruct v as [| |z| |s| |]; try done.
  - apply result_bind_ok in H as (h & Hh & (b & Hb & [= Hfm])%result_bind_ok).
    destruct b as [b|]; [|done]. injection Hfm as <-. eauto 10.
  - by apply result_bind_ok in H as (? & _ & [=]).
Qed.

Lemma header_ok d run tenant eid sid now h :
  _header strptime d run tenant eid sid now = Ok h →
  h_run h = run ∧ h_tenant h = tenant ∧ h_event h = eid ∧ h_span h = sid ∧
  ∀ z, dget "process_id" d = Some (JInt z) → h_pid h = Some z.
Proof. unfold _header. intros (pid & Hp & [= <-])%result_bind_ok. split_and!; try done. intros z Hz. rewrite Hz in Hp. by injection Hp as <-. Qed.

(** C23: Whatever record Sysmon renders, what the translator returns is a well-typed involuntary event: it is
    of the run and tenant it was asked for, on the involuntary channel, one of the four classes the
    detectors know, and its fields pass the class's own validation (the address family included), which
    gives the same body back. *)
Theorem translated_events_well_typed pydantic_uuid xml run tenant eid sid now e :
  translate xml run tenant eid sid now = Ok (Some e) →
  channel e = INVOLUNTARY ∧ e_run_id e = run ∧ e_tenant_id e = tenant ∧ event_id e = eid ∧ span_id e = sid ∧
  event_type e ∈ ["syscall.execve"; "syscall.connect"; "syscall.openat"; "syscall.dns"] ∧
  validate_body pydantic_uuid (event_type e) (body_fields (body e)) = Some (body e).
Proof.
  intros (d & z & h & b & _ & _ & Hh & Hb & ->)%translate_ok. apply header_ok in Hh as (<- & <- & <- & <- & _).
  unfold event_body in Hb.
  destruct (z =? 1); [injection Hb as <-|destruct (z =? 3); [apply result_bind_ok in Hb as (port & _ & [= <-])|
    destruct (z =? 11); [injection Hb as <-|destruct (z =? 22); [injection Hb as <-|
      destruct (z =? 23); [injection Hb as <-|done]]]]].
  - split_and!; try done; [by_decision|]. unfold validate_body, event_type. cbn [body with_body].
    set (data := body_fields _). closed_tests. by read_fields.
  - split_and!; try done; [cbn; set_solver|]. unfold validate_body, event_type. cbn [body with_body].
    set (family := if String.eqb _ "true" then _ else _).
    assert (family ∈ ["AF_INET"; "AF_INET6"; "AF_UNIX"]) as Hf by (unfold family; destruct (String.eqb _ _); by_decision).
    set (data := body_fields _). closed_tests. read_fields. rewrite (bool_decide_eq_true_2 _ Hf). simpl. by destruct port.
  - split_and!; try done. by_decision.
  - split_and!; try done; [by_decision|]. unfold validate_body, event_type. cbn [body with_body].
    set (data := body_fields _). closed_tests. by read_fields.
  - split_and!; try done. by_decision.
Qed.

(** ** The observer keeps to the processes it tracks *)

(** The one [ProcessId] field of a record, among its event data. *)
Definition process_field (root c : Element) : Prop :=
  bfilter is_process_id (iter root) = [c] ∧
  ∃ event_data, _find_child (Some root) "EventData" = Some event_data ∧ c ∈ children_of event_data.

Lemma dget_data_items k d cs :
  dget k (foldl data_item d cs) =
  match last (bfilter (λ c, String.eqb (_localname (tag_of c)) "Data" && bool_decide (dget "Name" (attrs_of c) = Some k)) cs) with
  | Some c => Some (text_json (text_of c))
  | None => dget k d
  end.
Proof.
  induction cs as [|c cs IH] using rev_ind; [done|]. rewrite foldl_snoc, bfilter_app. unfold data_item at 1.
  rewrite bfilter_cons. destruct (String.eqb _ "Data"); cbn [andb]; [|by rewrite app_nil_r].
  destruct (dget "Name" (attrs_of c)) as [name|] eqn:En.
  - rewrite dget_dset. case_decide as Hk.
    + subst name. rewrite (bool_decide_eq_true_2 (Some k = Some k)) by done. change (bfilter _ []) with (@nil Element).
      by rewrite last_snoc.
    + rewrite bool_decide_eq_false_2 by congruence. change (bfilter _ []) with (@nil Element). by rewrite app_nil_r.
  - rewrite bool_decide_eq_false_2 by done. change (bfilter _ []) with (@nil Element). by rewrite app_nil_r.
Qed.

Lemma find_child_in root local e : _find_child (Some root) local = Some e → e ∈ children_of root.
Proof. unfold _find_child. cbn. intros H. apply find_some in H as [H _]. by apply list_elem_of_In. Qed.

Lemma iter_self e : e ∈ iter e.
Proof. destruct e. simpl. left. Qed.

Lemma iter_child e c x : c ∈ children_of e → x ∈ iter c → x ∈ iter e.
Proof.
  destruct e as [t a o cs]. simpl. intros Hc Hx. right. apply list_elem_of_In, in_flat_map. exists c.
  by split; apply list_elem_of_In.
Qed.

Lemma process_field_last root c event_data :
  process_field root c → _find_child (Some root) "EventData" = Some event_data →
  last (bfilter is_process_id (children_of event_data)) = Some c.
Proof.
  intros (Hone & ed & Hed & Hin) Hed'. rewrite Hed in Hed'. injection Hed' as <-.
  assert (∀ x, x ∈ bfilter is_process_id (children_of ed) → x = c) as Hall.
  { intros x [Hp Hx]%elem_of_bfilter.
    assert (x ∈ bfilter is_process_id (iter root)) as Hi.
    { apply elem_of_bfilter. split; [done|]. eapply iter_child; [by eapply find_child_in|].
      eapply iter_child; [done|apply iter_self]. }
    rewrite Hone in Hi. by apply list_elem_of_singleton in Hi. }
  assert (c ∈ bfilter is_process_id (children_of ed)) as Hc.
  { apply elem_of_bfilter. split; [|done].
    assert (c ∈ bfilter is_process_id (iter root)) as Hi by (rewrite Hone; left). by apply elem_of_bfilter in Hi as [? _]. }
  destruct (last (bfilter is_process_id (children_of ed))) as [x|] eqn:El.
  - apply last_Some_elem_of in El. by rewrite (Hall x El).
  - apply last_None in El. rewrite El in Hc. by apply elem_of_nil in Hc.
Qed.

(** The pid of the event is the one the filter looked at. *)
Lemma translated_pid xml run tenant eid sid now e root c p :
  fromstring xml = Some root → process_field root c → _extract_process_id fromstring xml = Some p →
  translate xml run tenant eid sid now = Ok (Some e) → pid e = Some p.
Proof.
  intros Hx Hf Hp (d & z & h & b & Hd & _ & Hh & _ & ->)%translate_ok.
  apply header_ok in Hh as (_ & _ & _ & _ & Hpid). cbn [pid with_body]. apply Hpid.
  unfold _extract_process_id in Hp. rewrite Hx in Hp. cbn [mbind option_bind] in Hp.
  rewrite (proj1 Hf) in Hp. cbn [map] in Hp. rewrite bfilter_cons in Hp.
  destruct (str_truthy (strip (default "" (text_of c)))) eqn:Et; [|done].
  destruct (text_of c) as [s|] eqn:Es; [|by vm_compute in Et]. cbn [default from_option] in Hp, Et.
  change (id s) with s in *.
  unfold parse_event_data in Hd. rewrite Hx in Hd. apply result_bind_ok in Hd as (ev & _ & Hd).
  destruct Hf as (Hone & ed & Hed & Hin). rewrite Hed in Hd.
  set (data := foldl data_item _ _) in Hd.
  assert (dget "ProcessId" data = Some (JStr s)) as Hs.
  { unfold data. rewrite dget_data_items. change (λ c0, _ && _) with is_process_id.
    rewrite (process_field_last root c ed) by (try done; by split; [|exists ed]). by rewrite Es. }
  rewrite Hs, Et in Hd. unfold int_of in Hd. rewrite Hp in Hd. cbn [result_bind] in Hd. injection Hd as <-.
  rewrite dget_dset_ne by done. apply dget_dset_eq.
Qed.

(** The observer reports what it tracks.  Every event it yields before it is stopped comes from a
    delivered record of one of the processes it was given, and, when the record names its process once
    and among its event data, carries that process; a record of any other process is dropped. *)
Theorem observed_events_are_tracked ps run os e :
  e ∈ events_of (queue_items fromstring strptime ps run os) →
  ∃ xml eid sid now p, Delivered xml eid sid now ∈ os ∧ _extract_process_id fromstring xml = Some p ∧ p ∈ ps ∧
    translate xml run run eid sid now = Ok (Some e) ∧ e_run_id e = run ∧
    ∀ root c, fromstring xml = Some root → process_field root c → pid e = Some p.
Proof.
  unfold queue_items. induction os as [|o os IH]; [by intros ?%elem_of_nil|].
  assert (e ∈ events_of (omap (λ o, match o with
      | Delivered x e s n => Some <$> _on_xml fromstring strptime ps run x e s n
      | Stopped => Some None end) os) →
    ∃ xml eid sid now p, Delivered xml eid sid now ∈ o :: os ∧ _extract_process_id fromstring xml = Some p ∧ p ∈ ps ∧
      translate xml run run eid sid now = Ok (Some e) ∧ e_run_id e = run ∧
      ∀ root c, fromstring xml = Some root → process_field root c → pid e = Some p) as Hrest.
  { intros H. destruct (IH H) as (xml & eid & sid & now & p & Hin & Hr). exists xml, eid, sid, now, p.
    split; [by right|done]. }
  destruct o as [xml eid sid now|]; cbn [omap list_omap]; [|by intros ?%elem_of_nil].
  unfold _on_xml at 1. destruct (_matches (Some ps) (_extract_process_id fromstring xml)) eqn:Em; [|exact Hrest].
  destruct (translate xml run run eid sid now) as [[e'|]|x] eqn:Et; [|exact Hrest|exact Hrest].
  cbn [fmap option_fmap option_map events_of]. intros [->|H]%elem_of_cons; [|by apply Hrest].
  unfold _matches in Em. destruct (_extract_process_id fromstring xml) as [p|] eqn:Ep; [|done].
  apply bool_decide_eq_true in Em. exists xml, eid, sid, now, p. split_and!; try done; [left| |].
  - apply translate_ok in Et as (? & ? & h & ? & _ & _ & Hh & _ & ->). by apply header_ok in Hh as (? & _).
  - intros root c Hx Hf. by eapply translated_pid.
Qed.

(** ** What the divergence detector makes of a record *)

Lemma classify_signature bracketed_host_ok config e f kind value :
  involuntary_signature bracketed_host_ok e = Ok (kind, value) → classify_divergence bracketed_host_ok config e = Ok f →
  df_event f = e ∧ df_detail f = value ∧
  (kind = "exec" → df_severity f = CRITICAL ∧ df_asi_category f = "ASI05") ∧
  (kind = "file" → df_asi_category f = "ASI03" ∧ df_severity f = if is_sensitive value config then CRITICAL else HIGH) ∧
  (kind = "net" → df_asi_category f = "ASI01" ∧ df_severity f = if is_allowlisted value config then HIGH else CRITICAL).
Proof.
  intros Hs. unfold classify_divergence. rewrite Hs. cbn [result_bind]. intros [= <-].
  destruct (String.eqb_spec kind "exec") as [->|H1]; [by split_and!|].
  destruct (String.eqb_spec kind "file") as [->|H2]; [by destruct (is_sensitive _ _); split_and!|].
  destruct (String.eqb_spec kind "net") as [->|H3]; [by destruct (is_allowlisted _ _); split_and!|by split_and!].
Qed.

(** What a Sysmon record is worth.  An event of the translator that no voluntary event accounts for is
    classified by its Sysmon id alone: a process creation is critical; a file creation or deletion is a
    finding, critical on a sensitive path; a connection or a name query is a finding, critical unless the
    host, the address up to its first colon, is allow-listed. *)
Theorem sysmon_findings bracketed_host_ok config xml run tenant eid sid now e f :
  translate xml run tenant eid sid now = Ok (Some e) →
  classify_divergence bracketed_host_ok config e = Ok f →
  ∃ z, df_event f = e ∧
   (z = 1 ∧ df_severity f = CRITICAL ∧ df_asi_category f = "ASI05"
    ∨ (z = 11 ∨ z = 23) ∧ df_asi_category f = "ASI03" ∧
        df_severity f = (if is_sensitive (df_detail f) config then CRITICAL else HIGH) ∧
        body e = ESyscallOpenat (df_detail f) 0
    ∨ (z = 3 ∨ z = 22) ∧ df_asi_category f = "ASI01" ∧
        df_severity f = (if is_allowlisted (df_detail f) config then HIGH else CRITICAL)) ∧
   ∃ d, parse_event_data fromstring xml = Ok d ∧ dget "event_id" d = Some (JInt z).
Proof.
  intros (d & z & h & b & Hd & Hz & _ & Hb & ->)%translate_ok Hf. exists z.
  assert (∃ d, parse_event_data fromstring xml = Ok d ∧ dget "event_id" d = Some (JInt z)) as Hd' by by exists d.
  assert (∃ sig, involuntary_signature bracketed_host_ok (with_body h b) = Ok sig) as ([kind value] & Hs).
  { unfold classify_divergence in Hf. apply result_bind_ok in Hf as (sig & ? & _). by exists sig. }
  destruct (classify_signature _ _ _ _ _ _ Hs Hf) as (He & Hv & Hexec & Hfile & Hnet). split; [done|].
  split; [|done]. rewrite Hv. unfold involuntary_signature in Hs. cbn [body with_body] in *. unfold event_body in Hb.
  destruct (Z.eqb_spec z 1) as [E1|E1]; [injection Hb as <-; injection Hs as <- <-; left; by destruct Hexec|].
  destruct (Z.eqb_spec z 3) as [E3|E3].
  { apply result_bind_ok in Hb as (port & _ & [= <-]). apply result_bind_ok in Hs as (host & _ & [= <- <-]).
    right. right. destruct Hnet; auto. }
  destruct (Z.eqb_spec z 11) as [E11|E11]; [injection Hb as <-; injection Hs as <- <-; right; left; destruct Hfile; auto|].
  destruct (Z.eqb_spec z 22) as [E22|E22].
  { injection Hb as <-. apply result_bind_ok in Hs as (host & _ & [= <- <-]). right. right. destruct Hnet; auto. }
  destruct (Z.eqb_spec z 23) as [E23|E23]; [|done].
  injection Hb as <-. injection Hs as <- <-. right. left. destruct Hfile; auto.
Qed.
End properties.

(** ** Limits *)

(** A child the harness starts after the observer is not among the processes it was given: nothing the
    child does is reported. *)
Lemma late_child_unseen fromstring strptime ps run xml eid sid now p :
  _extract_process_id fromstring xml = Some p → p ∉ ps → _on_xml fromstring strptime ps run xml eid sid now = None.
Proof. intros Hp Hn. unfold _on_xml, _matches. by rewrite Hp, bool_decide_eq_false_2. Qed.

(** An IPv6 address is compared up to its first colon; the loopback address has nothing before it. *)
Lemma ipv6_truncated bracketed_host_ok group rest :
  contains "://" (group +:+ String ":" rest) = false → char_in ":" group = false →
  host_of bracketed_host_ok (group +:+ String ":" rest) = Ok (lower group).
Proof.
  intros Hc Hg. unfold host_of. destruct (String.eqb_spec (group +:+ String ":" rest) "") as [E|E].
  { by destruct group. }
  rewrite Hc. by rewrite partition_on_app.
Qed.

(** ** Witnesses *)

Definition data (name text : string) : Element := Elem "{ns}Data" [("Name", name)] (Some text) [].

Definition record (id : string) (fields : list Element) : Element :=
  Elem "{ns}Event" [] None
    [Elem "{ns}System" [] None [Elem "{ns}EventID" [] (Some id) []]; Elem "{ns}EventData" [] None fields].

(** A parser that knows four records. *)
Definition sample_xml (s : string) : option Element :=
  dget s
    [("exec", record "1" [data "ProcessId" "42"; data "Image" "cmd.exe"; data "CommandLine" "cmd /c  whoami"]);
     ("ssh", record " 11 " [data "ProcessId" "42"; data "TargetFilename" "C:\Users\a\.ssh\id_rsa"]);
     ("dns", record "22" [data "ProcessId" "42"; data "QueryName" "a.example";
                          data "QueryResults" "type:  5 a1.example.com;::ffff:1.2.3.4;"]);
     ("bad", record "3" [data "ProcessId" "42"; data "DestinationPort" "https"])].

Definition sample_translate (s : string) : result PyExn (option BaseEvent) :=
  translate sample_xml (λ _, None) s "r" "t" "e" "s" 7.

(** The annotation of a name query's result is kept; a port that is no number fails the record. *)
Example sample_records :
  map (λ s, result_map (λ e, body <$> e) (sample_translate s)) ["exec"; "dns"; "bad"] =
  [Ok (Some (ESyscallExecve "cmd.exe" ["cmd"; "/c"; "whoami"]));
   Ok (Some (EDnsQuery "a.example" ["type:  5 a1.example.com"; "::ffff:1.2.3.4"]));
   raise "ValueError" "invalid literal for int() with base 10: 'https'"].
Proof. vm_compute. reflexivity. Qed.

Definition sample_ssh_event : BaseEvent :=
  {| event_id := "e"; e_run_id := "r"; e_tenant_id := "t"; span_id := "s"; parent_span_id := None; ts := 7;
     pid := Some 42; schema_version := 1; body := ESyscallOpenat "C:\Users\a\.ssh\id_rsa" 0 |}.

Lemma sample_ssh : sample_translate "ssh" = Ok (Some sample_ssh_event).
Proof. vm_compute. reflexivity. Qed.

Lemma translated_events_well_typed_witness :
  validate_body (λ _, None) "syscall.openat" (body_fields (body sample_ssh_event)) = Some (body sample_ssh_event).
Proof. apply (translated_events_well_typed sample_xml (λ _, None) (λ _, None) "ssh" "r" "t" "e" "s" 7 _ sample_ssh). Defined.

Lemma observed_events_are_tracked_witness :
  ∃ p, p ∈ ({[ 42 ]} : gset Z) ∧ _extract_process_id sample_xml "ssh" = Some p.
Proof.
  destruct (observed_events_are_tracked sample_xml (λ _, None) {[ 42 ]} "t"
    [Delivered "bad" "b" "s" 7; Delivered "ssh" "e" "s" 7; Stopped]
    {| event_id := "e"; e_run_id := "t"; e_tenant_id := "t"; span_id := "s"; parent_span_id := None; ts := 7;
       pid := Some 42; schema_version := 1; body := ESyscallOpenat "C:\Users\a\.ssh\id_rsa" 0 |})
    as (xml & eid & sid & now & p & Hin & Hp & Hps & _).
  - assert (events_of (queue_items sample_xml (λ _, None) {[ 42 ]} "t"
      [Delivered "bad" "b" "s" 7; Delivered "ssh" "e" "s" 7; Stopped]) =
      [{| event_id := "e"; e_run_id := "t"; e_tenant_id := "t"; span_id := "s"; parent_span_id := None; ts := 7;
          pid := Some 42; schema_version := 1; body := ESyscallOpenat "C:\Users\a\.ssh\id_rsa" 0 |}]) as ->
      by (vm_compute; reflexivity).
    left.
  - rewrite !elem_of_cons, elem_of_nil in Hin. destruct Hin as [H|[H|[H|[]]]]; [| |discriminate H];
      injection H as -> _ _ _; [exists p|exists p]; split; try exact Hps; [|exact Hp].
    vm_compute in Hp. exact Hp.
Defined.

Definition sample_ssh_finding : DivergenceFinding :=
  finding CRITICAL "ASI03" "undeclared access to a sensitive path" sample_ssh_event "C:\Users\a\.ssh\id_rsa".

Lemma sample_ssh_classified : classify_divergence (λ _, true) default_config sample_ssh_event = Ok sample_ssh_finding.
Proof. vm_compute. reflexivity. Qed.

Lemma sysmon_findings_witness :
  ∃ z, df_event sample_ssh_finding = sample_ssh_event ∧
    ∃ d, parse_event_data sample_xml "ssh" = Ok d ∧ dget "event_id" d = Some (JInt z).
Proof.
  destruct (sysmon_findings sample_xml (λ _, None) (λ _, true) default_config "ssh" "r" "t" "e" "s" 7 _ _
    sample_ssh sample_ssh_classified) as (z & He & _ & Hd). exists z. split; [exact He|exact Hd].
Defined.
