(* ===== verification/Reports.v ===== *)
(** * Reports and labels

    The remaining surfaces people use: the route that adds an action item to an incident
    ([auditor/api/incidents_routes.py]), the reconstruction of an incident from a flag
    ([reconstruct_incident] of [auditor/audit_log/query.py]), the listing of shadow verdicts
    ([auditor/api/shadow_routes.py]) and the command line that labels ground truth
    ([auditor/calibration/label.py]).  The texts of times ([isoformat]) and of dates are parameters; a
    command line is what [argparse] makes of it. *)

From Stdlib Require Import ZArith Lia Ascii.
From Stdlib Require String.
From stdpp Require Import base tactics option list strings gmap sets sorting.
From S2P Require Import Prelude PyStr Float64 Json ApiAuth Verdicts Incidents Events Budget Gate.
From S2P Require Import Store Orchestrator ReviewApi.

Local Open Scope Z_scope.

(** ** Action items *)

Section action_items.
Context (jwt_secret : string) (date_fromisoformat : string → option string).

Record ActionItemRequest := { ai_description : string; ai_owner_id : option string; ai_due_date : option string }.

Definition add_action_item (db : IncidentDb) (now_s : Z) (now : datetime) (fresh : uuid)
    (bearer session : option string) (id : uuid) (body : ActionItemRequest)
    : IncidentDb * result http_exn IncidentActionItem :=
  let outcome :=
    let! claims := require_role jwt_secret ["admin"; "reviewer"] now_s bearer session in
    match get_incident_row db id with
    | None => Raise (HTTPException 404)
    | Some _ =>
        let! due := (if ostr_truthy (ai_due_date body) then
                       match date_fromisoformat (default "" (ai_due_date body)) with
                       | Some d => Ok (Some d)
                       | None => Raise (HTTPException 422)
                       end
                     else Ok None) in
        let owner := if ostr_truthy (ai_owner_id body) then Ok (ai_owner_id body)
                     else match get_truthy "sub" claims with
                          | Some (JStr s) => Ok (Some s)
                          | Some _ => Raise (ServerError "DBAPIError")
                          | None => Ok None
                          end in
        let! owner := owner in
        if match owner with Some o => member o (db_users db) | None => true end
        then Ok (build_action_item fresh now id owner (ai_description body) due)
        else Raise (ServerError "DBAPIError")
    end in
  match outcome with
  | Raise e => (db, Raise e)
  | Ok item => ({| db_incidents := db_incidents db; db_comments := db_comments db;
                   db_action_items := db_action_items db ++ [item]; db_users := db_users db |}, Ok item)
  end.
End action_items.

(** ** The reconstruction of an incident *)

(** The tables it reads; a run's start is kept beside its row. *)
Record CaseDb := {
  cd_review : ReviewDb;
  cd_verdicts : list VerdictRow;
  cd_started : list (uuid * datetime)
}.

Inductive timeline_event :=
| RunStarted (run_id : uuid)
| EventSeen (event_type : string) (event_id : uuid)
| VerdictGiven (result detector : string) (verdict_id : uuid)
| DecisionTaken (decision : string) (hitl_id : uuid).

Record TimelineEntry := { te_ts : option string; te_event : timeline_event }.

Record IncidentReport := {
  ir_flag : FlagRecord;
  ir_run : option Run;
  ir_trace : list EventRow;
  ir_verdict_chain : list VerdictRow;
  ir_hitl_decisions : list HitlDecision;
  ir_timeline : list TimelineEntry
}.

(** [timeline.sort(key=lambda x: x.get("ts") or "")]: stable. *)
Definition ts_key (e : TimelineEntry) : string := default "" (te_ts e).

Fixpoint insert_entry (e : TimelineEntry) (l : list TimelineEntry) : list TimelineEntry :=
  match l with
  | [] => [e]
  | x :: l' => if String.leb (ts_key e) (ts_key x) then e :: l else x :: insert_entry e l'
  end.

Definition sort_timeline (l : list TimelineEntry) : list TimelineEntry := foldr insert_entry [] l.

Section reconstruct.
Context (bind_uuid pg_uuid : string → option uuid) (isoformat : datetime → string).

Definition timeline_of (started : option (option datetime)) (run_id' : uuid) (events : list EventRow)
    (verdicts : list VerdictRow) (hitl : list HitlDecision) : list TimelineEntry :=
  match started with
  | Some s => [{| te_ts := isoformat <$> s; te_event := RunStarted run_id' |}]
  | None => []
  end ++
  map (λ e, {| te_ts := Some (isoformat (er_ts e)); te_event := EventSeen (er_event_type e) (er_event_id e) |}) events ++
  map (λ v, {| te_ts := Some (isoformat (vr_ts v));
               te_event := VerdictGiven (vr_result v) (vr_detector v) (vr_verdict_id v) |}) verdicts ++
  map (λ h, {| te_ts := Some (isoformat (hd_ts h)); te_event := DecisionTaken (hd_decision h) (hd_hitl_id h) |}) hitl.

(** [None]: the flag is not found.  Decisions carry no tenant and no policy; they are those of the flag. *)
Definition reconstruct_incident (db : CaseDb) (flag_id tenant_id : string) : result http_exn (option IncidentReport) :=
  let rdb := cd_review db in
  let! flags := scoped pg_uuid rf_tenant_id tenant_id (rd_flags rdb) in
  let! u := bound bind_uuid flag_id in
  match head (bfilter (λ f, String.eqb (rf_flag_id f) u) flags) with
  | None => Ok None
  | Some flag =>
      let rid := rf_run_id flag in
      let! rs := scoped pg_uuid run_tenant_id tenant_id (rd_runs rdb) in
      let run := head (bfilter (λ r, String.eqb (run_id r) rid) rs) in
      let! evs := scoped pg_uuid er_tenant_id tenant_id (rd_events rdb) in
      let events := take 1000 (order_by er_ts (bfilter (λ e, String.eqb (er_run_id e) rid) evs)) in
      let! vs := scoped pg_uuid vr_tenant_id tenant_id (cd_verdicts db) in
      let verdicts := order_by vr_ts (bfilter (λ v, String.eqb (vr_run_id v) rid) vs) in
      let hitl := order_by hd_ts (bfilter (λ h, String.eqb (hd_flag_id h) u) (rd_decisions rdb)) in
      Ok (Some {| ir_flag := flag; ir_run := run; ir_trace := events; ir_verdict_chain := verdicts;
                  ir_hitl_decisions := hitl;
                  ir_timeline := sort_timeline
                    (timeline_of ((λ _, dget rid (cd_started db)) <$> run) rid events verdicts hitl) |})
  end.
End reconstruct.

(** ** Shadow verdicts *)

Section shadow.
Context (jwt_secret : string).

Definition list_shadow_verdicts (now_s : Z) (bearer session : option string)
    (detector_name asi_category : option string) (limit : Z) (rows : list VerdictRow)
    : result http_exn (list VerdictRow) :=
  let! _ := require_role jwt_secret ["admin"; "reviewer"] now_s bearer session in
  if negb ((1 <=? limit) && (limit <=? 500)) then Raise (HTTPException 422)
  else Ok (take (Z.to_nat limit)
             (order_by (λ v, - vr_ts v)
                (filter_opt vr_asi_category asi_category (filter_opt vr_detector detector_name rows)))).
End shadow.

(** ** Labels *)

Definition VALID_CATEGORIES : list string :=
  ["ASI01"; "ASI02"; "ASI03"; "ASI04"; "ASI05"; "ASI06"; "ASI07"; "ASI08"; "ASI09"; "ASI10"].
Definition VALID_LABELS : list string := ["VIOLATION"; "OK"].

Definition upper : string → string := map_str ascii_upper.

Record GroundTruthRow := {
  gtr_gt_id : uuid;
  gtr_category : string;
  gtr_label : string;
  gtr_trace_uri : string;
  gtr_source : string;
  gtr_version : Z;
  gtr_created_at : datetime
}.

(** The arguments [_build_parser] lets through: one of the two modes, and a label among its choices. *)
Record Args := {
  ar_add : bool;
  ar_run_id : option string;
  ar_category : option string;
  ar_label : option string;
  ar_source : string
}.

Definition parser_accepts (a : Args) : bool :=
  match ar_label a with Some l => bool_decide (l ∈ VALID_LABELS) | None => true end.

(** How the command ends: its status and the lines it prints. *)
Record Exit := { status : Z; printed : list string }.

Definition usage_error : Exit := {| status := 2; printed := [] |}.

(** [f"{s:<n}"] *)
Definition ljust (n : nat) (s : string) : string := s +:+ String.concat "" (replicate (n - String.length s) " ").

Definition table_line (a b c d e : string) : string :=
  ljust 38 a +:+ "  " +:+ ljust 8 b +:+ "  " +:+ ljust 10 c +:+ "  " +:+ ljust 12 d +:+ "  " +:+ e.

Definition header : string := table_line "gt_id" "category" "label" "source" "trace_uri".

Definition _list_ground_truth (category : option string) (rows : list GroundTruthRow) : list GroundTruthRow :=
  take 50 (order_by (λ r, - gtr_created_at r)
             (match category with Some c => bfilter (λ r, String.eqb (gtr_category r) c) rows | None => rows end)).

Definition _do_list (category : option string) (rows : list GroundTruthRow) : Exit :=
  match _list_ground_truth category rows with
  | [] => {| status := 0; printed := ["(no ground truth rows found)"] |}
  | l => {| status := 0;
            printed := header :: String.concat "" (replicate (String.length header) "-") ::
              map (λ r, table_line (gtr_gt_id r) (gtr_category r) (gtr_label r) (gtr_source r) (gtr_trace_uri r)) l |}
  end.

Definition _add_ground_truth (fresh : uuid) (now : datetime) (trace_uri category label source : string) : GroundTruthRow :=
  {| gtr_gt_id := fresh; gtr_category := category; gtr_label := label; gtr_trace_uri := trace_uri;
     gtr_source := source; gtr_version := 1; gtr_created_at := now |}.

Definition main (fresh : uuid) (now : datetime) (a : Args) (rows : list GroundTruthRow)
    : list GroundTruthRow * Exit :=
  if negb (parser_accepts a) then (rows, usage_error)
  else if ar_add a then
    if negb (ostr_truthy (ar_run_id a) && ostr_truthy (ar_label a)) then (rows, usage_error)
    else if negb (ostr_truthy (ar_category a)) then (rows, usage_error)
    else
      let category := upper (default "" (ar_category a)) in
      if negb (bool_decide (category ∈ VALID_CATEGORIES)) then (rows, usage_error)
      else
        let label := upper (default "" (ar_label a)) in
        if negb (bool_decide (label ∈ VALID_LABELS)) then (rows, usage_error)
        else
          let uri := default "" (ar_run_id a) in
          (rows ++ [_add_ground_truth fresh now uri category label (ar_source a)],
           {| status := 0; printed := ["Added ground truth: gt_id=" +:+ fresh +:+ " category=" +:+ category +:+
                                       " label=" +:+ label +:+ " uri=" +:+ uri] |})
  else if ostr_truthy (ar_category a) then
    let category := upper (default "" (ar_category a)) in
    if negb (bool_decide (category ∈ VALID_CATEGORIES)) then (rows, usage_error)
    else (rows, _do_list (Some category) rows)
  else (rows, _do_list None rows).

(** ** An incident report is complete, ordered, and of one tenant *)

Lemma insert_entry_perm e l : insert_entry e l ≡ₚ e :: l.
Proof. induction l as [|x l IH]; simpl; [done|]. case_bool; [done|]. rewrite IH. apply Permutation_swap. Qed.

Lemma sort_timeline_perm l : sort_timeline l ≡ₚ l.
Proof. induction l as [|e l IH]; simpl; [done|]. rewrite insert_entry_perm. by constructor. Qed.

Definition entry_le (a b : TimelineEntry) : Prop := String.le (ts_key a) (ts_key b).

Lemma insert_entry_sorted e l : StronglySorted entry_le l → StronglySorted entry_le (insert_entry e l).
Proof.
  induction 1 as [|x l Hl IH Hx]; simpl; [by repeat constructor|]. destruct (String.leb _ _) eqn:E.
  - assert (entry_le e x) as Hex by (unfold entry_le, String.le; by rewrite E).
    constructor; [by constructor|]. constructor; [done|]. eapply Forall_impl; [exact Hx|].
    intros y Hy. unfold entry_le in *. by etrans.
  - constructor; [done|]. rewrite Forall_forall in *. intros y. rewrite insert_entry_perm.
    intros [->|Hy]%elem_of_cons; [|by apply Hx].
    unfold entry_le. destruct (total String.le (ts_key e) (ts_key x)) as [H|H]; [|done].
    unfold String.le in H. by rewrite E in H.
Qed.

Lemma sort_timeline_sorted l : StronglySorted entry_le (sort_timeline l).
Proof. induction l; simpl; [constructor|by apply insert_entry_sorted]. Qed.

Lemma sorted_take {A} (R : A → A → Prop) n l : StronglySorted R l → StronglySorted R (take n l).
Proof.
  intros H. revert n. induction H as [|x l Hl IH Hx]; intros [|n]; simpl; try constructor; [apply IH|].
  by apply Forall_take.
Qed.

Lemma sorted_lookup {A} (R : A → A → Prop) l i j x y :
  StronglySorted R l → (i < j)%nat → l !! i = Some x → l !! j = Some y → R x y.
Proof.
  intros H. revert i j. induction H as [|z l Hl IH Hz]; intros [|i] [|j] Hij Hi Hj; try lia; try done; simpl in *.
  - injection Hi as ->. rewrite Forall_forall in Hz. apply Hz. by eapply list_elem_of_lookup_2.
  - apply (IH i j); [lia|done|done].
Qed.

Section reports.
Context (bind_uuid pg_uuid : string → option uuid) (isoformat : datetime → string).

Notation reconstruct := (reconstruct_incident bind_uuid pg_uuid isoformat).

(** The rows of a tenant. *)
Definition of_tenant {A} (tenant_of : A → uuid) (t : uuid) (rows : list A) : list A :=
  bfilter (λ x, String.eqb (tenant_of x) t) rows.

Lemma scoped_tenant {A} (tenant_of : A → uuid) s t (rows l : list A) :
  s ≠ "" → pg_uuid s = Some t → scoped pg_uuid tenant_of s rows = Ok l → l = of_tenant tenant_of t rows.
Proof.
  intros Hs Ht. unfold scoped. rewrite (proj2 (String.eqb_neq s "") Hs), Ht.
  destruct rows as [|r rows]; by intros [= <-].
Qed.

Definition time_le {A} (key : A → Z) (a b : A) : Prop := key a ≤ key b.

(** The report reconstructed from a flag is of one tenant, complete and in order.  For a session of
    tenant [t], the flag is the tenant's; the verdicts are all of the flag's run and tenant, by time; the
    trace is the run's events by time, all of them or the earliest thousand; the decisions are those on
    the flag; and the timeline holds exactly one entry for the start of the run (when its row is visible)
    and for each of the events, verdicts and decisions shown, sorted by the texts of their times, hence
    by time where the texts order as the times do. *)
Theorem reconstruction_exact db flag_id tenant_id t r :
  tenant_id ≠ "" → pg_uuid tenant_id = Some t →
  reconstruct db flag_id tenant_id = Ok (Some r) →
  let rid := rf_run_id (ir_flag r) in
  let evs := bfilter (λ e, String.eqb (er_run_id e) rid) (of_tenant er_tenant_id t (rd_events (cd_review db))) in
  ir_flag r ∈ rd_flags (cd_review db) ∧ rf_tenant_id (ir_flag r) = t ∧ bind_uuid flag_id = Some (rf_flag_id (ir_flag r)) ∧
  (∀ run, ir_run r = Some run → run_id run = rid ∧ run_tenant_id run = t) ∧
  (∃ later, ir_trace r ++ later ≡ₚ evs ∧ StronglySorted (time_le er_ts) (ir_trace r ++ later) ∧
     (later = [] ∨ length (ir_trace r) = 1000%nat)) ∧
  (ir_verdict_chain r ≡ₚ bfilter (λ v, String.eqb (vr_run_id v) rid) (of_tenant vr_tenant_id t (cd_verdicts db)) ∧
   StronglySorted (time_le vr_ts) (ir_verdict_chain r)) ∧
  (ir_hitl_decisions r ≡ₚ bfilter (λ h, String.eqb (hd_flag_id h) (rf_flag_id (ir_flag r))) (rd_decisions (cd_review db)) ∧
   StronglySorted (time_le hd_ts) (ir_hitl_decisions r)) ∧
  (ir_timeline r ≡ₚ timeline_of isoformat ((λ _, dget rid (cd_started db)) <$> ir_run r) rid (ir_trace r)
                       (ir_verdict_chain r) (ir_hitl_decisions r) ∧
   StronglySorted entry_le (ir_timeline r)).
Proof.
  intros Hs Ht. unfold reconstruct_incident.
  intros (flags & Hf%(scoped_tenant _ _ _ _ _ Hs Ht) & H)%result_bind_ok.
  apply result_bind_ok in H as (u & Hu & H). destruct (head _) as [flag|] eqn:Eh; [|done].
  apply result_bind_ok in H as (rs & Hr%(scoped_tenant _ _ _ _ _ Hs Ht) & H).
  apply result_bind_ok in H as (es & He%(scoped_tenant _ _ _ _ _ Hs Ht) & H).
  apply result_bind_ok in H as (vs & Hv%(scoped_tenant _ _ _ _ _ Hs Ht) & [= <-]). subst flags rs es vs.
  apply head_in in Eh as Hin. apply elem_of_bfilter in Hin as [Hid%String.eqb_eq Hin].
  apply elem_of_bfilter in Hin as [Htn%String.eqb_eq Hin]. subst u.
  cbn [ir_flag ir_run ir_trace ir_verdict_chain ir_hitl_decisions ir_timeline].
  unfold bound in Hu. destruct (bind_uuid flag_id) as [u'|]; [injection Hu as ->|done].
  split_and!; try done.
  - intros run Hrun%head_in. apply elem_of_bfilter in Hrun as [Hri%String.eqb_eq Hrun].
    by apply elem_of_bfilter in Hrun as [?%String.eqb_eq _].
  - set (l := order_by er_ts _). exists (drop 1000 l). rewrite take_drop. split_and!.
    + apply order_by_perm.
    + apply order_by_sorted.
    + rewrite length_take. destruct (decide (length l ≤ 1000)%nat); [left; by apply drop_ge|right; lia].
  - apply order_by_perm.
  - apply order_by_sorted.
  - apply order_by_perm.
  - apply order_by_sorted.
  - apply sort_timeline_perm.
  - apply sort_timeline_sorted.
Qed.

(** Sorted by the texts, the timeline is sorted by time, since the texts of times in UTC order as the times. *)
Lemma timeline_in_time_order l a b i j :
  (∀ x y, 0 ≤ x → 0 ≤ y → String.le (isoformat x) (isoformat y) → x ≤ y) →
  StronglySorted entry_le l → 0 ≤ a → 0 ≤ b → (i < j)%nat →
  te_ts <$> l !! i = Some (Some (isoformat a)) → te_ts <$> l !! j = Some (Some (isoformat b)) → a ≤ b.
Proof.
  intros Hiso Hl Ha Hb Hij Hi Hj. apply Hiso; [done..|].
  destruct (l !! i) as [x|] eqn:Ei; [|done]. destruct (l !! j) as [y|] eqn:Ej; [|done].
  pose proof (sorted_lookup entry_le l i j x y Hl Hij Ei Ej) as H. unfold entry_le, ts_key in H.
  injection Hi as Hi. injection Hj as Hj. by rewrite Hi, Hj in H.
Qed.
End reports.

(** ** Action items and labels *)

(** Adding an action item is all or nothing: the one new item is open, on an existing incident, and owned by
    an existing user or nobody; a refusal changes nothing. *)
Lemma add_action_item_atomic secret fromiso db now_s now fresh bearer session id body db' r :
  add_action_item secret fromiso db now_s now fresh bearer session id body = (db', r) →
  match r with
  | Raise _ => db' = db
  | Ok item => db' = {| db_incidents := db_incidents db; db_comments := db_comments db;
                        db_action_items := db_action_items db ++ [item]; db_users := db_users db |} ∧
               a_status item = "open" ∧ a_incident_id item = id ∧ a_description item = ai_description body ∧
               (∃ i, i ∈ db_incidents db ∧ incident_id i = id) ∧
               (∀ o, owner_id item = Some o → o ∈ db_users db)
  end.
Proof.
  unfold add_action_item. set (outcome := result_bind (require_role _ _ _ _ _) _).
  destruct outcome as [item|e] eqn:E; intros [= <- <-]; [|done]. split; [done|]. subst outcome.
  apply result_bind_ok in E as (claims & _ & E).
  destruct (get_incident_row db id) as [i|] eqn:Ei; [|done].
  apply result_bind_ok in E as (due & _ & E). apply result_bind_ok in E as (owner & _ & E).
  destruct (match owner with Some o => _ | None => _ end) eqn:Eo; [|done]. injection E as <-.
  split_and!; try done.
  - apply head_in, elem_of_bfilter in Ei as [?%String.eqb_eq ?]. by exists i.
  - cbn [build_action_item owner_id]. intros o ->. by apply member_spec.
Qed.

(** Whatever is typed, the labels stay valid.  After any sequence of commands every row has a category
    from ASI01 to ASI10 and a label the table accepts, in upper case; a command that ends with status 2
    writes nothing, and one that lists writes nothing either. *)
Theorem labels_stay_valid cmds rows :
  Forall (λ r, gtr_category r ∈ VALID_CATEGORIES ∧ gtr_label r ∈ VALID_LABELS) rows →
  Forall (λ r, gtr_category r ∈ VALID_CATEGORIES ∧ gtr_label r ∈ VALID_LABELS)
    (foldl (λ rows c, let '(fresh, now, a) := c in (main fresh now a rows).1) rows cmds) ∧
  ∀ fresh now a, (status (main fresh now a rows).2 = 0 ∧ ar_add a = true → ∃ r, (main fresh now a rows).1 = rows ++ [r]) ∧
    (status (main fresh now a rows).2 ≠ 0 ∨ ar_add a = false → (main fresh now a rows).1 = rows).
Proof.
  intros Hrows.
  assert (∀ fresh now a rows,
    ((main fresh now a rows).1 = rows ∧ (status (main fresh now a rows).2 = 0 → ar_add a = false)) ∨
    (ar_add a = true ∧ status (main fresh now a rows).2 = 0 ∧
     ∃ r, (main fresh now a rows).1 = rows ++ [r] ∧ gtr_category r ∈ VALID_CATEGORIES ∧ gtr_label r ∈ VALID_LABELS)) as Hm.
  { clear. intros fresh now a rows. unfold main. destruct (parser_accepts a); [|by left]. cbn [negb].
    destruct (ar_add a) eqn:Ea.
    - destruct (ostr_truthy (ar_run_id a) && ostr_truthy (ar_label a)); [|by left].
      destruct (ostr_truthy (ar_category a)); [|by left]. cbn [negb].
      destruct (bool_decide (upper (default "" (ar_category a)) ∈ VALID_CATEGORIES)) eqn:Ec; [|by left].
      destruct (bool_decide (upper (default "" (ar_label a)) ∈ VALID_LABELS)) eqn:El; [|by left].
      apply bool_decide_eq_true in Ec, El. right. split_and!; [done|done|]. by eexists.
    - left. destruct (ostr_truthy (ar_category a)); [|by split].
      by destruct (bool_decide _). }
  split.
  - revert rows Hrows. induction cmds as [|[[fresh now] a] cmds IH]; intros rows Hrows; [done|]. cbn [foldl].
    apply IH. destruct (Hm fresh now a rows) as [[-> _]|(_ & _ & r & -> & Hr)]; [done|].
    apply Forall_app. by split; [|constructor].
  - intros fresh now a. destruct (Hm fresh now a rows) as [[E Hs]|(Ha & Hs & r & E & _)]; rewrite E.
    + split; [|done]. intros [H1 H2]. specialize (Hs H1). congruence.
    + split; [eauto|]. intros [?|?]; congruence.
Qed.

(** ** Witnesses *)

(** Times as texts that order as they do. *)
Definition unary (n : Z) : string := String.concat "" (replicate (Z.to_nat n) "|").

Definition sample_case_flag : FlagRecord :=
  {| rf_flag_id := u1; rf_run_id := u2; rf_tenant_id := u3; rf_severity := "high"; rf_asi_categories := ["ASI01"];
     rf_status := "open"; rf_created_at := 9; rf_resolved_at := None; rf_resolution := None |}.

Definition sample_case_event (id tenant : uuid) (t : datetime) : EventRow :=
  {| er_event_id := id; er_run_id := u2; er_tenant_id := tenant; er_span_id := u1; er_parent_span_id := None;
     er_channel := "VOLUNTARY"; er_event_type := "llm.call"; er_ts := t; er_pid := None; er_payload := [];
     er_payload_hash := "" |}.

(** Two events out of order, and one of another tenant. *)
Definition sample_case : CaseDb :=
  {| cd_review := {| rd_flags := [sample_case_flag]; rd_runs := [];
                     rd_events := [sample_case_event u1 u3 5; sample_case_event u2 u3 3; sample_case_event u3 u1 4];
                     rd_decisions := []; rd_users := [] |};
     cd_verdicts := []; cd_started := [] |}.

Definition sample_report : IncidentReport :=
  {| ir_flag := sample_case_flag; ir_run := None;
     ir_trace := [sample_case_event u2 u3 3; sample_case_event u1 u3 5];
     ir_verdict_chain := []; ir_hitl_decisions := [];
     ir_timeline := [{| te_ts := Some "|||"; te_event := EventSeen "llm.call" u2 |};
                     {| te_ts := Some "|||||"; te_event := EventSeen "llm.call" u1 |}] |}.

Lemma sample_reconstruction :
  reconstruct_incident Some Some unary sample_case u1 u3 = Ok (Some sample_report).
Proof. vm_compute. reflexivity. Qed.

Lemma reconstruction_exact_witness :
  rf_tenant_id (ir_flag sample_report) = u3 ∧ StronglySorted entry_le (ir_timeline sample_report).
Proof.
  destruct (reconstruction_exact Some Some unary sample_case u1 u3 u3 sample_report) as (_ & H1 & _ & _ & _ & _ & _ & _ & H2);
    [discriminate|reflexivity|exact sample_reconstruction|]. split; [exact H1|exact H2].
Defined.

Definition sample_args (category label : option string) : Args :=
  {| ar_add := true; ar_run_id := Some "run-1"; ar_category := category; ar_label := label; ar_source := "manual" |}.

Example sample_labels :
  map gtr_category (main u1 7 (sample_args (Some "asi06") (Some "OK")) []).1 = ["ASI06"] ∧
  map (λ a, status (main u1 7 a []).2)
    [sample_args (Some "ASI11") (Some "OK"); sample_args None (Some "OK"); sample_args (Some "ASI06") (Some "ok")] = [2; 2; 2].
Proof. vm_compute. split; reflexivity. Qed.

Lemma labels_stay_valid_witness :
  Forall (λ r, gtr_category r ∈ VALID_CATEGORIES ∧ gtr_label r ∈ VALID_LABELS)
    (main u1 7 (sample_args (Some "asi06") (Some "OK")) []).1.
Proof.
  apply (proj1 (labels_stay_valid [(u1, 7, sample_args (Some "asi06") (Some "OK"))] [] (Forall_nil_2 _))).
Defined.
