(* ===== verification/Enforcement.v ===== *)
(** * Enforcement

    The operating system's backstop against a run that misbehaves ([auditor/enforcement/]): the
    process-wide registry of runs, the Windows enforcer over process trees and job objects, the Linux
    enforcer over control groups, and the choice between them.  The machine is a state of any type that the
    calls of psutil, pywin32 and the kernel act on; whatever else runs meanwhile is part of what a call does
    to it, so that the listing of a tree and the suspension of its members may be interleaved with anything.
    [IpcResponseEnforcer] and [SeccompEnforcer] raise [NotImplementedError] in every method. *)

From Stdlib Require Import ZArith Lia.
From Stdlib Require String.
From stdpp Require Import base tactics option list strings gmap.
From S2P Require Import Prelude PyStr Json ApiAuth Verdicts Events Budget Gate Store Hitl ReviewApi.

Local Open Scope Z_scope.

(** ** Calls that act on the machine and may raise *)

Definition act (S A : Type) : Type := S → S * result PyExn A.

Definition ret {S A} (a : A) : act S A := λ s, (s, Ok a).
Definition throw {S A} (cls : string) : act S A := λ s, (s, raise cls "").
Definition bind_act {S A B} (m : act S A) (f : A → act S B) : act S B := λ s,
  match m s with
  | (s', Ok a) => f a s'
  | (s', Raise e) => (s', Raise e)
  end.
(** [try: m / except E as e: h e], where [h] answers [None] for an exception that passes. *)
Definition catch {S A} (m : act S A) (h : PyExn → option (act S A)) : act S A := λ s,
  match m s with
  | (s', Ok a) => (s', Ok a)
  | (s', Raise e) => match h e with Some k => k s' | None => (s', Raise e) end
  end.
(** [try: m / finally: f] *)
Definition finally {S A} (m : act S A) (f : act S ()) : act S A := λ s,
  let '(s1, r) := m s in
  let '(s2, q) := f s1 in
  (s2, match q with Ok _ => r | Raise e => Raise e end).

Notation "'do!' x ':=' m 'in' k" := (bind_act m (λ x, k))
  (at level 10, x binder, m at level 100, k at level 200) : auditor_scope.

Definition is_class (classes : list string) (e : PyExn) : bool := bool_decide (exn_class e ∈ classes).

(** [(psutil.NoSuchProcess, psutil.AccessDenied)]; a zombie is a [NoSuchProcess]. *)
Definition tolerated : PyExn → bool := is_class ["NoSuchProcess"; "ZombieProcess"; "AccessDenied"].

(** [OSError] and its subclasses. *)
Definition is_oserror : PyExn → bool :=
  is_class ["OSError"; "FileNotFoundError"; "PermissionError"; "ProcessLookupError"; "NotADirectoryError";
            "IsADirectoryError"; "FileExistsError"; "BlockingIOError"; "InterruptedError"; "TimeoutError"].

(** ** Windows ([windows_jobobject.py]) *)

Record Registry (J : Type) := { pids : gmap string Z; jobs : gmap string J }.
Arguments pids {J} r.
Arguments jobs {J} r.
Arguments Build_Registry {J} _ _.

(** What psutil and pywin32 offer. *)
Record WindowsApi (S J H I : Type) := {
  process_tree : Z → act S (list Z);
  proc_suspend : Z → act S ();
  proc_resume : Z → act S ();
  proc_kill : Z → act S ();
  pywin32 : bool;
  CreateJobObject : act S J;
  QueryInformationJobObject : J → act S I;
  kill_on_job_close : I → I;
  SetInformationJobObject : J → I → act S ();
  OpenProcess : Z → act S H;
  AssignProcessToJobObject : J → H → act S ();
  CloseHandle : H → act S ();
  TerminateJobObject : J → act S ()
}.
Arguments process_tree {S J H I} w.
Arguments proc_suspend {S J H I} w.
Arguments proc_resume {S J H I} w.
Arguments proc_kill {S J H I} w.
Arguments pywin32 {S J H I} w.
Arguments CreateJobObject {S J H I} w.
Arguments QueryInformationJobObject {S J H I} w.
Arguments kill_on_job_close {S J H I} w.
Arguments SetInformationJobObject {S J H I} w.
Arguments OpenProcess {S J H I} w.
Arguments AssignProcessToJobObject {S J H I} w.
Arguments CloseHandle {S J H I} w.
Arguments TerminateJobObject {S J H I} w.

Section windows.
Context {S J H I : Type} (api : WindowsApi S J H I).

Definition register (run_id : uuid) (pid : Z) (job_handle : option J) (r : Registry J) : Registry J :=
  {| pids := <[run_id := pid]> (pids r);
     jobs := match job_handle with Some j => <[run_id := j]> (jobs r) | None => jobs r end |}.

Definition unregister (run_id : uuid) (r : Registry J) : Registry J :=
  {| pids := delete run_id (pids r); jobs := delete run_id (jobs r) |}.

(** The job, with the process in it. *)
Definition attach_job (pid : Z) : act S J :=
  do! job := CreateJobObject api in
  do! info := QueryInformationJobObject api job in
  do! _ := SetInformationJobObject api job (kill_on_job_close api info) in
  do! process_handle := OpenProcess api pid in
  do! _ := finally (AssignProcessToJobObject api job process_handle) (CloseHandle api process_handle) in
  ret job.

Definition create_job_for_spawned_process (run_id : uuid) (pid : Z) (r : Registry J) (s : S) : S * Registry J * bool :=
  if negb (pywin32 api) then (s, register run_id pid None r, false)
  else match attach_job pid s with
       | (s', Ok job) => (s', register run_id pid (Some job) r, true)
       | (s', Raise _) => (s', register run_id pid None r, false)
       end.

Definition _pid (run_id : uuid) (r : Registry J) : option Z := pids r !! run_id.

(** [for p in tree: try: f(p) / except (NoSuchProcess, AccessDenied): pass] *)
Fixpoint each (f : Z → act S ()) (tree : list Z) : act S () :=
  match tree with
  | [] => ret tt
  | p :: tree' =>
      do! _ := catch (f p) (λ e, if tolerated e then Some (ret tt) else None) in
      each f tree'
  end.

Definition over_tree (f : Z → act S ()) (pid : Z) : act S () :=
  do! tree := process_tree api pid in each f tree.

Definition win_pause (run_id : uuid) (r : Registry J) : act S () :=
  match _pid run_id r with None => ret tt | Some pid => over_tree (proc_suspend api) pid end.

Definition win_resume (run_id : uuid) (r : Registry J) : act S () :=
  match _pid run_id r with None => ret tt | Some pid => over_tree (proc_resume api) pid end.

(** What [abort] does to the machine. *)
Definition stop_run (run_id : uuid) (r : Registry J) : act S () :=
  match jobs r !! run_id with
  | Some job => TerminateJobObject api job
  | None => match _pid run_id r with None => ret tt | Some pid => over_tree (proc_kill api) pid end
  end.

Definition win_abort (run_id : uuid) (r : Registry J) (s : S) : S * Registry J * result PyExn () :=
  match stop_run run_id r s with
  | (s', Ok _) => (s', unregister run_id r, Ok tt)
  | (s', Raise e) => (s', r, Raise e)
  end.

(** The kernel's and the debug helper's functions; a handle of 0 or of -1 is a failure. *)
Context (k_OpenProcess : Z → act S Z) (CreateFileW : string → act S Z) (MiniDumpWriteDump : Z → Z → Z → act S bool)
        (k_CloseHandle : Z → act S ()) (mkdir : string → act S ()).

Definition _dump (pid : Z) (out_dir dump_path : string) : act S (option string) :=
  do! _ := mkdir out_dir in
  do! h_proc := k_OpenProcess pid in
  if h_proc =? 0 then ret None
  else
    do! h_file := CreateFileW dump_path in
    if h_file =? -1 then do! _ := k_CloseHandle h_proc in ret None
    else
      do! ok := MiniDumpWriteDump h_proc pid h_file in
      do! _ := k_CloseHandle h_file in
      do! _ := k_CloseHandle h_proc in
      ret (if ok : bool then Some dump_path else None).

Definition quarantine (path_of : string → string → string) (run_id : uuid) (out_dir : string) (r : Registry J)
    : act S (option string) :=
  do! _ := win_pause run_id r in
  match _pid run_id r with
  | None => ret None
  | Some pid =>
      catch (_dump pid out_dir (path_of out_dir (run_id +:+ ".dmp")))
            (λ e, if is_oserror e then Some (ret None) else None)
  end.
End windows.

(** ** Linux ([cgroup.py]) *)

Section linux.
Context {S : Type} (write_text : string → string → act S ()) (sigkill : Z → act S ()) (cgroup_root : string).

Definition _cgroup_dir (run_id : uuid) : string := cgroup_root +:+ "/run_" +:+ run_id.

Definition _write (run_id : uuid) (filename value : string) : act S () :=
  write_text (_cgroup_dir run_id +:+ "/" +:+ filename) value.

Definition newline : string := String.String (Ascii.ascii_of_nat 10) "".

Definition cg_pause (run_id : uuid) : act S () := _write run_id "cgroup.freeze" ("1" +:+ newline).
Definition cg_resume (run_id : uuid) : act S () := _write run_id "cgroup.freeze" ("0" +:+ newline).

Definition cg_abort (run_id : uuid) (pids : gmap string Z) : act S () :=
  catch (_write run_id "cgroup.kill" ("1" +:+ newline))
    (λ e, if is_oserror e then
            Some (match pids !! run_id with
                  | Some pid => catch (sigkill pid) (λ e, if is_class ["ProcessLookupError"] e then Some (ret tt) else None)
                  | None => ret tt
                  end)
          else None).
End linux.

(** ** The process-wide enforcer ([enforcement/__init__.py]) *)

Inductive Enforcer (J : Type) :=
| WindowsJobObjectEnforcer (registry : Registry J)
| CgroupEnforcer (registered : gmap string Z).
Arguments WindowsJobObjectEnforcer {J} registry.
Arguments CgroupEnforcer {J} registered.

(** The auditor's process: the machine under it and the enforcer once it is made. *)
Record Host (S J : Type) := { machine : S; _enforcer : option (Enforcer J) }.
Arguments machine {S J} h.
Arguments _enforcer {S J} h.
Arguments Build_Host {S J} _ _.

Section host.
Context {S J H I : Type} (api : WindowsApi S J H I).
Context (write_text : string → string → act S ()) (sigkill : Z → act S ()) (platform : string).

Definition default_root : string := "/sys/fs/cgroup/auditor".

Definition get_enforcer : act (Host S J) (Enforcer J) := λ h,
  match _enforcer h with
  | Some e => (h, Ok e)
  | None =>
      let made := if String.eqb platform "win32" then Some (WindowsJobObjectEnforcer (Build_Registry ∅ ∅))
                  else if starts_with "linux" platform then Some (CgroupEnforcer ∅) else None in
      match made with
      | Some e => ({| machine := machine h; _enforcer := Some e |}, Ok e)
      | None => (h, raise "RuntimeError" "no enforcement backstop")
      end
  end.

(** A call that acts on the machine only. *)
Definition on_machine {A} (m : act S A) : act (Host S J) A := λ h,
  let '(s, r) := m (machine h) in ({| machine := s; _enforcer := _enforcer h |}, r).

Definition os_pause (run_id : uuid) : act (Host S J) () :=
  do! e := get_enforcer in
  on_machine match e with
             | WindowsJobObjectEnforcer r => win_pause api run_id r
             | CgroupEnforcer _ => cg_pause write_text default_root run_id
             end.

Definition os_resume (run_id : uuid) : act (Host S J) () :=
  do! e := get_enforcer in
  on_machine match e with
             | WindowsJobObjectEnforcer r => win_resume api run_id r
             | CgroupEnforcer _ => cg_resume write_text default_root run_id
             end.

Definition os_abort (run_id : uuid) : act (Host S J) () :=
  do! e := get_enforcer in
  match e with
  | WindowsJobObjectEnforcer r => λ h,
      let '(s, r', x) := win_abort api run_id r (machine h) in
      ({| machine := s; _enforcer := Some (WindowsJobObjectEnforcer r') |}, x)
  | CgroupEnforcer ps => on_machine (cg_abort write_text sigkill default_root run_id ps)
  end.

(** The end of [HarnessRun.start]: on Windows the process just spawned goes into a job. *)
Definition attach_spawned (run_id : uuid) (pid : Z) (h : Host S J) : Host S J :=
  if String.eqb platform "win32" then
    match get_enforcer h with
    | (h', Ok (WindowsJobObjectEnforcer r)) =>
        let '(s, r', _) := create_job_for_spawned_process api run_id pid r (machine h') in
        {| machine := s; _enforcer := Some (WindowsJobObjectEnforcer r') |}
    | (h', _) => h'
    end
  else h.
End host.

(** ** A halted tree *)

(** What a call that halts a process promises, as psutil documents it: when it returns the process is
    halted, and when it answers that there is no such process it is gone, which counts as halted.  Nothing is
    promised of a later moment: another actor, a reviewer's resume for one, may run between two calls. *)
Class Halts {S} (op : Z → act S ()) (halted : S → Z → Prop) := {
  halts_ok : ∀ p s s', op p s = (s', Ok tt) → halted s' p;
  halts_gone : ∀ p s s' e, op p s = (s', Raise e) → exn_class e ∈ ["NoSuchProcess"; "ZombieProcess"] → halted s' p
}.

(** The machine after a call for each process, in order. *)
Definition after {S} (op : Z → act S ()) (tree : list Z) (s : S) : S := foldl (λ s p, (op p s).1) s tree.

Lemma bind_act_ok {S A B} (m : act S A) (f : A → act S B) s s' b :
  bind_act m f s = (s', Ok b) → ∃ s1 a, m s = (s1, Ok a) ∧ f a s1 = (s', Ok b).
Proof. unfold bind_act. destruct (m s) as [s1 [a|e]]; intros E; [by exists s1, a|done]. Qed.

(** [each] returns exactly when every call returned or raised a tolerated exception, and it made them all. *)
Lemma each_ok {S} (op : Z → act S ()) tree s s' :
  each op tree s = (s', Ok tt) ↔
  s' = after op tree s ∧
  ∀ l1 p l2, tree = l1 ++ p :: l2 →
    match (op p (after op l1 s)).2 with Ok _ => True | Raise e => tolerated e = true end.
Proof.
  revert s. induction tree as [|q tree IH]; intros s; cbn [each].
  - split; [intros [= <-]; split; [done|]; by intros [] ? ?|by intros [-> _]].
  - unfold bind_act, catch. destruct (op q s) as [s1 r] eqn:Eq.
    assert (after op (q :: tree) s = after op tree s1) as -> by (cbn; by rewrite Eq).
    transitivity (match r with Ok _ => True | Raise e => tolerated e = true end ∧ each op tree s1 = (s', Ok tt)).
    { destruct r as [[]|e]; [tauto|]. destruct (tolerated e); [cbn [ret]; tauto|]. split; [done|by intros []]. }
    rewrite IH. split.
    + intros (Hr & -> & H). split; [done|]. intros [|q' l1] p l2 [= <- ->]; cbn; rewrite Eq; [done|]. by eapply H.
    + intros [-> H]. split; [by specialize (H [] q tree eq_refl); cbn in H; rewrite Eq in H|].
      split; [done|]. intros l1 p l2 ->. specialize (H (q :: l1) p l2 eq_refl). cbn in H. by rewrite Eq in H.
Qed.

Section halting.
Context {S : Type} {op : Z → act S ()} {halted : S → Z → Prop} `{!Halts op halted}.

(** What keeps a process halted keeps it through the calls that follow. *)
Lemma after_stays l s p :
  (∀ q s, q ∈ l → halted s p → halted (op q s).1 p) → halted s p → halted (after op l s) p.
Proof.
  revert s. induction l as [|q l IH]; intros s Hl Hp; [done|]. cbn. apply IH; [set_solver|]. apply Hl; [left|done].
Qed.

(** Its own call halted a process of the tree, or was denied. *)
Lemma each_halts tree s s' :
  each op tree s = (s', Ok tt) →
  s' = after op tree s ∧
  ∀ l1 p l2, tree = l1 ++ p :: l2 →
    (halted (after op (l1 ++ [p]) s) p ∧
     ((∀ q s, q ∈ l2 → halted s p → halted (op q s).1 p) → halted s' p)) ∨
    ∃ e, (op p (after op l1 s)).2 = Raise e ∧ exn_class e = "AccessDenied".
Proof.
  intros [-> H]%each_ok. split; [done|]. intros l1 p l2 Ht. specialize (H l1 p l2 Ht).
  assert (after op (l1 ++ [p]) s = (op p (after op l1 s)).1) as Ha by (unfold after; by rewrite foldl_app).
  assert (halted (after op (l1 ++ [p]) s) p → halted (after op (l1 ++ [p]) s) p ∧
     ((∀ q s, q ∈ l2 → halted s p → halted (op q s).1 p) → halted (after op tree s) p)) as Hk.
  { intros Hh. split; [done|]. intros Hq. subst tree. rewrite (cons_middle p l1 l2), app_assoc.
    unfold after. rewrite foldl_app. by apply after_stays. }
  rewrite Ha in *. destruct (op p (after op l1 s)) as [s1 [[]|e]] eqn:Ep; cbn [fst snd] in *.
  - left. apply Hk. by eapply halts_ok.
  - unfold tolerated, is_class in H. apply bool_decide_eq_true in H.
    destruct (decide (exn_class e = "AccessDenied")) as [Hd|Hd]; [right; by exists e|left].
    apply Hk. eapply halts_gone; [exact Ep|]. set_solver.
Qed.
End halting.

(** ** The registry over the life of the auditor *)

Inductive HostOp (S : Type) :=
| Spawned (run_id : uuid) (pid : Z)
| Pause (run_id : uuid)
| Resume (run_id : uuid)
| AbortRun (run_id : uuid)
| Elsewhere (f : S → S).
Arguments Spawned {S} run_id pid.
Arguments Pause {S} run_id.
Arguments Resume {S} run_id.
Arguments AbortRun {S} run_id.
Arguments Elsewhere {S} f.

Definition pids_of {S J} (h : Host S J) : gmap string Z :=
  match _enforcer h with
  | Some (WindowsJobObjectEnforcer r) => pids r
  | Some (CgroupEnforcer ps) => ps
  | None => ∅
  end.

Definition jobs_of {S J} (h : Host S J) : gmap string J :=
  match _enforcer h with Some (WindowsJobObjectEnforcer r) => jobs r | _ => ∅ end.

Definition fresh_host {S} J (s : S) : Host S J := {| machine := s; _enforcer := None |}.

Section life.
Context {S J H I : Type} (api : WindowsApi S J H I).
Context (write_text : string → string → act S ()) (sigkill : Z → act S ()) (platform : string).

Notation os_pause := (os_pause api write_text platform).
Notation os_resume := (os_resume api write_text platform).
Notation os_abort := (os_abort api write_text sigkill platform).

(** A step, and whether its call returned. *)
Definition host_step (op : HostOp S) (h : Host S J) : Host S J * bool :=
  match op with
  | Spawned run_id pid => (attach_spawned api platform run_id pid h, true)
  | Pause run_id => let '(h', r) := os_pause run_id h in (h', is_ok r)
  | Resume run_id => let '(h', r) := os_resume run_id h in (h', is_ok r)
  | AbortRun run_id => let '(h', r) := os_abort run_id h in (h', is_ok r)
  | Elsewhere f => ({| machine := f (machine h); _enforcer := _enforcer h |}, true)
  end.

Fixpoint host_steps (ops : list (HostOp S)) (h : Host S J) : Host S J * list (HostOp S * bool) :=
  match ops with
  | [] => (h, [])
  | op :: ops' =>
      let '(h1, ok) := host_step op h in
      let '(h2, l) := host_steps ops' h1 in (h2, (op, ok) :: l)
  end.

(** The abstract registry: what was spawned on Windows and has not been aborted since. *)
Definition spec_step (m : gmap string Z) (x : HostOp S * bool) : gmap string Z :=
  match x with
  | (Spawned run_id pid, _) => if String.eqb platform "win32" then <[run_id := pid]> m else m
  | (AbortRun run_id, true) => delete run_id m
  | _ => m
  end.

(** The enforcer is the platform's; on Linux nothing is registered and every job has a process. *)
Definition host_ok (h : Host S J) : Prop :=
  match _enforcer h with
  | None => True
  | Some (WindowsJobObjectEnforcer r) => platform = "win32" ∧ dom (jobs r) ⊆ dom (pids r)
  | Some (CgroupEnforcer ps) => platform ≠ "win32" ∧ ps = ∅
  end.

Lemma get_enforcer_cases h h' r :
  get_enforcer platform h = (h', r) → host_ok h →
  host_ok h' ∧ machine h' = machine h ∧ pids_of h' = pids_of h ∧
  ((∃ e, r = Ok e ∧ _enforcer h' = Some e) ∨ (h' = h ∧ ∃ x, r = Raise x)).
Proof.
  unfold get_enforcer. destruct h as [s [e|]]; cbn [_enforcer machine].
  { intros [= <- <-] Hok. split_and!; [done..|]. left. by exists e. }
  destruct (String.eqb platform "win32") eqn:Ew; [|destruct (starts_with "linux" platform)];
    intros [= <- <-] _.
  - apply String.eqb_eq in Ew. cbn. split_and!; try done. left. by eexists.
  - apply String.eqb_neq in Ew. cbn. split_and!; try done. left. by eexists.
  - split_and!; try done. right. split; [done|by eexists].
Qed.

Lemma on_machine_keeps {A} (m : act S A) (h : Host S J) : _enforcer (on_machine m h).1 = _enforcer h.
Proof. unfold on_machine. by destruct (m (machine h)). Qed.

Lemma via_machine (f : Enforcer J → act S ()) h h' r :
  (do! e := get_enforcer platform in on_machine (f e)) h = (h', r) → host_ok h →
  host_ok h' ∧ pids_of h' = pids_of h.
Proof.
  unfold bind_act. destruct (get_enforcer platform h) as [h1 q] eqn:Eg. intros E Hok.
  destruct (get_enforcer_cases _ _ _ Eg Hok) as (Hok1 & _ & Hp & _). destruct q as [e|x].
  - pose proof (on_machine_keeps (f e) h1) as He. rewrite E in He. cbn [fst] in He.
    unfold host_ok, pids_of in *. by rewrite He.
  - by injection E as <- _.
Qed.

Lemma attach_spawned_step run_id pid h : host_ok h →
  host_ok (attach_spawned api platform run_id pid h) ∧
  pids_of (attach_spawned api platform run_id pid h) = spec_step (pids_of h) (Spawned run_id pid, true).
Proof.
  intros Hok. unfold attach_spawned, spec_step. destruct (String.eqb platform "win32") eqn:Ew; [|done].
  destruct (get_enforcer platform h) as [h1 q] eqn:Eg. pose proof (String.eqb_eq platform "win32") as Hw.
  destruct (get_enforcer_cases _ _ _ Eg Hok) as (Hok1 & _ & Hp & [(e & -> & He)|[-> [x ->]]]).
  - unfold host_ok, pids_of in Hok1, Hp. rewrite He in Hok1, Hp. destruct e as [r|ps]; [|tauto].
    unfold create_job_for_spawned_process.
    destruct (negb (pywin32 api)); [|destruct (attach_job api pid (machine h1)) as [s' [job|x]]];
      (split; [|cbn; rewrite Hp; reflexivity]); cbn in *; set_solver.
  - unfold get_enforcer in Eg. rewrite Ew in Eg. by destruct (_enforcer h).
Qed.

Lemma os_abort_step run_id h h' r : os_abort run_id h = (h', r) → host_ok h →
  host_ok h' ∧ pids_of h' = spec_step (pids_of h) (AbortRun run_id, is_ok r).
Proof.
  unfold Enforcement.os_abort, bind_act. destruct (get_enforcer platform h) as [h1 q] eqn:Eg. intros E Hok.
  destruct (get_enforcer_cases _ _ _ Eg Hok) as (Hok1 & _ & Hp & [(e & -> & He)|[-> [x ->]]]).
  2: { injection E as <- <-. by split. }
  unfold host_ok, pids_of in Hok1, Hp. rewrite He in Hok1, Hp. destruct e as [reg|ps].
  - unfold win_abort in E. destruct (stop_run api run_id reg (machine h1)) as [s [[]|x]]; injection E as <- <-;
      (split; [|cbn; by rewrite Hp]); cbn in *; [|tauto]. rewrite !dom_delete_L. set_solver.
  - pose proof (on_machine_keeps (cg_abort write_text sigkill default_root run_id ps) h1) as Hk. rewrite E in Hk.
    cbn [fst] in Hk. destruct Hok1 as [Hw ->]. unfold host_ok, pids_of in *. rewrite Hk, He, <-Hp. cbn.
    split; [done|]. destruct (is_ok r); by rewrite ?delete_empty.
Qed.

Lemma host_step_ok op h h' ok : host_step op h = (h', ok) → host_ok h →
  host_ok h' ∧ pids_of h' = spec_step (pids_of h) (op, ok).
Proof.
  intros E Hok. destruct op as [run_id pid|run_id|run_id|run_id|f]; cbn [host_step] in E.
  - injection E as <- <-. by apply attach_spawned_step.
  - destruct (os_pause run_id h) as [h1 r] eqn:Ep. injection E as <- <-. exact (via_machine _ _ _ _ Ep Hok).
  - destruct (os_resume run_id h) as [h1 r] eqn:Ep. injection E as <- <-. exact (via_machine _ _ _ _ Ep Hok).
  - destruct (os_abort run_id h) as [h1 r] eqn:Ep. injection E as <- <-. by eapply os_abort_step.
  - by injection E as <- <-.
Qed.

Lemma host_steps_ok ops h h' l : host_steps ops h = (h', l) → host_ok h →
  host_ok h' ∧ pids_of h' = foldl spec_step (pids_of h) l.
Proof.
  revert h l. induction ops as [|op ops IH]; intros h l; cbn [host_steps]; [by intros [= <- <-]|].
  destruct (host_step op h) as [h1 ok] eqn:E1. destruct (host_steps ops h1) as [h2 l2] eqn:E2.
  intros [= <- <-] Hok. destruct (host_step_ok _ _ _ _ E1 Hok) as [Hok1 Hp].
  destruct (IH _ _ E2 Hok1) as [Hok2 Hp2]. split; [done|]. cbn [foldl]. by rewrite Hp2, Hp.
Qed.

(** The process-wide registry is what the history says.  From the start of the auditor, after any
    spawns, pauses, resumes, aborts and anything else on the machine, the registered processes are exactly
    those spawned on Windows whose abort has not returned since, each under its latest process id; every
    job belongs to a registered run.  Nothing else removes an entry: the end of a run does not. *)
Theorem registry_refines_history ops s h l :
  host_steps ops (fresh_host J s) = (h, l) →
  pids_of h = foldl spec_step ∅ l ∧ dom (jobs_of h) ⊆ dom (pids_of h) ∧
  (∀ run_id pid more h2 l2, host_steps more h = (h2, l2) → pids_of h !! run_id = Some pid →
     (∀ p, Spawned run_id p ∉ more) → AbortRun run_id ∉ more → pids_of h2 !! run_id = Some pid).
Proof.
  intros E. destruct (host_steps_ok _ _ _ _ E) as [Hok Hp]; [done|]. split_and!; [done| |].
  - unfold jobs_of, host_ok, pids_of in *. destruct (_enforcer h) as [[r|ps]|]; set_solver.
  - clear E Hp. intros run_id pid more. revert h Hok. induction more as [|op more IH]; intros h Hok h2 l2;
      cbn [host_steps]; [by intros [= <- <-]|].
    destruct (host_step op h) as [h1 ok] eqn:E1. destruct (host_steps more h1) as [h3 l3] eqn:E2.
    intros [= <- <-] Hr Hs Ha. destruct (host_step_ok _ _ _ _ E1 Hok) as [Hok1 Hp].
    eapply (IH h1); [done|exact E2| |set_solver|set_solver]. rewrite Hp.
    destruct op as [rid p|rid|rid|rid|f]; cbn [spec_step]; try done.
    + destruct (String.eqb platform "win32"); [|done]. rewrite lookup_insert_ne; [done|]. intros ->.
      apply (Hs p). left.
    + destruct ok; [|done]. rewrite lookup_delete_ne; [done|]. intros ->. apply Ha. left.
Qed.
End life.

(** ** A critical flag, and the reviewer's decision *)

Section flagged.
Context {S J H I Q : Type} (api : WindowsApi S J H I).
Context (write_text : string → string → act S ()) (sigkill : Z → act S ()) (platform : string).

(** Collaborators of the router: the enforcer acts on the host, the others on the rest. *)
Definition on_host {A} (m : act (Host S J) A) : act (Host S J * Q) A := λ '(h, q), let '(h', r) := m h in ((h', q), r).
Definition on_rest {A} (m : act Q A) : act (Host S J * Q) A := λ '(h, q), let '(q', r) := m q in ((h, q'), r).

Context (capture : uuid → uuid → act Q (option string)) (q_enqueue : Flag → Z → act Q ())
        (append_digest : Flag → act Q ()) (notify : Flag → option string → act Q bool) (ui_base_url : option string).

Definition route_flag : Flag → Host S J * Q → (Host S J * Q) * RoutingResult :=
  route (λ r t, on_rest (capture r t)) (λ r, on_host (os_pause api write_text platform r))
    (λ f ttl, on_rest (q_enqueue f ttl)) (λ f, on_rest (append_digest f)) (λ f u, on_rest (notify f u)) ui_base_url.

Lemma route_critical_host flag h q h' q' res :
  f_severity flag = CRITICAL → route_flag flag (h, q) = ((h', q'), res) →
  ∃ r, os_pause api write_text platform (f_run_id flag) h = (h', r) ∧ paused res = is_ok r ∧ pause_error res = exn_of r.
Proof.
  intros Hs. unfold route_flag, route. rewrite Hs. unfold _route_critical, on_rest, on_host.
  destruct (capture _ _ q) as [q1 u]. destruct (os_pause _ _ _ _ h) as [h1 r].
  destruct (q_enqueue _ _ q1) as [q2 e]. destruct (notify _ _ q2) as [q3 n].
  intros [= <- <- <-]. by exists r.
Qed.

Context {halted : S → Z → Prop} `{!Halts (proc_suspend api) halted}.

(** C17: A critical flag halts the run it is about.  On Windows, at any moment of the auditor's life, routing
    a critical flag of a registered run answers paused only if the tree of the run's process was listed and a
    suspension was called for every process of it, in order: right after its own call a process is halted,
    and is still when the answer is given unless something resumed it while the rest of the tree was being
    suspended; or this very call was denied by the system.  If the process is gone the answer is not paused
    and carries the error.  For a run that is not registered the answer is paused although the machine is
    untouched. *)
Theorem critical_flag_halts_tree ops s h l flag q h' q' res :
  host_steps api write_text sigkill platform ops (fresh_host J s) = (h, l) → platform = "win32" →
  f_severity flag = CRITICAL → route_flag flag (h, q) = ((h', q'), res) →
  (∀ pid, pids_of h !! f_run_id flag = Some pid →
     (paused res = true → ∃ s1 tree, process_tree api pid (machine h) = (s1, Ok tree) ∧
        machine h' = after (proc_suspend api) tree s1 ∧
        ∀ l1 p l2, tree = l1 ++ p :: l2 →
          (halted (after (proc_suspend api) (l1 ++ [p]) s1) p ∧
           ((∀ q s, q ∈ l2 → halted s p → halted (proc_suspend api q s).1 p) → halted (machine h') p)) ∨
          ∃ e, (proc_suspend api p (after (proc_suspend api) l1 s1)).2 = Raise e ∧ exn_class e = "AccessDenied") ∧
     (∀ s1 e, process_tree api pid (machine h) = (s1, Raise e) → paused res = false ∧ pause_error res = Some (exn_text e))) ∧
  (pids_of h !! f_run_id flag = None → paused res = true ∧ machine h' = machine h).
Proof.
  intros E Hw Hs (r & Ep & -> & ->)%route_critical_host; [|done].
  destruct (host_steps_ok _ _ _ _ _ _ _ _ E) as [Hok _]; [done|].
  unfold os_pause, bind_act in Ep. destruct (get_enforcer platform h) as [h1 g] eqn:Eg.
  destruct (get_enforcer_cases _ _ _ _ Eg Hok) as (Hok1 & Hm & Hp & [(e & -> & He)|[-> [x ->]]]).
  2: { unfold get_enforcer in Eg. subst platform. cbn in Eg. by destruct (_enforcer h). }
  rewrite <-Hp. unfold host_ok, pids_of in *. rewrite He in *. destruct e as [reg|ps]; [|by destruct Hok1].
  unfold on_machine, win_pause, _pid in Ep. rewrite Hm in Ep. split.
  - intros pid Hpid. rewrite Hpid in Ep. destruct (over_tree api _ pid (machine h)) as [s1 r1] eqn:Eo.
    injection Ep as <- <-. cbn [machine]. split.
    + intros [[] ->]%is_ok_spec. apply bind_act_ok in Eo as (s2 & tree & Ht & Eo). exists s2, tree.
      split; [done|]. by apply each_halts.
    + intros s2 e Ht. unfold over_tree, bind_act in Eo. rewrite Ht in Eo. by injection Eo as <- <-.
  - intros Hn. rewrite Hn in Ep. unfold ret in Ep. injection Ep as <- <-. by cbn.
Qed.
End flagged.

Section decided.
Context {S J H I : Type} (api : WindowsApi S J H I).
Context (write_text : string → string → act S ()) (sigkill : Z → act S ()) (platform : string).
Context (jwt_secret : string) (bind_uuid pg_uuid : string → option uuid).

Notation os_resume := (os_resume api write_text platform).
Notation os_abort := (os_abort api write_text sigkill platform).

Lemma submit_applies db e now_s now fresh bearer session flag_id decision rationale db' e' audit row enf :
  submit_decision jwt_secret bind_uuid pg_uuid os_resume os_abort db e now_s now fresh bearer session flag_id
    decision rationale = (db', e', audit, Ok (row, enf)) →
  ∃ rid, _apply_enforcement os_resume os_abort decision rid e = (e', enf).
Proof.
  unfold submit_decision. set (outcome := result_bind (require_role _ _ _ _ _) _).
  destruct outcome as [[[[setting f] reviewer_id] row0]|x]; [|done].
  destruct (_apply_enforcement _ _ _ _ _) as [e1 enf1] eqn:Een. intros [= _ <- _ _ <-]. eauto.
Qed.

(** C31: On Linux a reviewer's abort stops nothing and is reported as done.  No part of the program makes a
    run's control group or registers a process there, so, at any moment of the auditor's life, an accepted
    abort or quarantine answers that the enforcement succeeded and leaves the machine as it was, while a
    continue answers that it failed. *)
Theorem linux_abort_stops_nothing ops s h l db now_s now fresh bearer session flag_id decision rationale db' h' audit row enf :
  host_steps api write_text sigkill platform ops (fresh_host J s) = (h, l) →
  starts_with "linux" platform = true →
  (∀ run_id file v s, write_text (_cgroup_dir default_root run_id +:+ "/" +:+ file) v s = (s, raise "FileNotFoundError" "")) →
  submit_decision jwt_secret bind_uuid pg_uuid os_resume os_abort db h now_s now fresh bearer session flag_id
    decision rationale = (db', h', audit, Ok (row, enf)) →
  machine h' = machine h ∧
  (decision ∈ ["abort"; "quarantine"] → enf = {| en_action := "abort"; en_ok := Some true; en_error := None |}) ∧
  (decision = "continue" →
     enf = {| en_action := "resume"; en_ok := Some false; en_error := Some "FileNotFoundError" |}).
Proof.
  intros E Hl Hw (rid & Ha)%submit_applies. destruct (host_steps_ok _ _ _ _ _ _ _ _ E) as [Hok _]; [done|].
  assert (String.eqb platform "win32" = false) as Hnw.
  { apply String.eqb_neq. intros ->. done. }
  assert (∃ h1, get_enforcer platform h = (h1, Ok (CgroupEnforcer ∅)) ∧ machine h1 = machine h) as (h1 & Hg & Hm).
  { unfold get_enforcer, host_ok in *. destruct (_enforcer h) as [[r|ps]|].
    - apply String.eqb_neq in Hnw. tauto.
    - destruct Hok as [_ ->]. by exists h.
    - rewrite Hnw, Hl. by eexists. }
  unfold _apply_enforcement in Ha.
  unfold Enforcement.os_resume, Enforcement.os_abort, bind_act, on_machine, cg_resume, cg_abort, _write, catch in Ha.
  rewrite Hg, !Hw in Ha. cbn in Ha. destruct (String.eqb_spec decision "continue") as [->|Hne].
  - injection Ha as <- <-. split_and!; [done|set_solver|done].
  - case_bool_decide; injection Ha as <- <-; split_and!; done.
Qed.
End decided.

(** ** Witnesses *)

(** A machine of processes with their parents, each running or suspended; psutil lists two generations. *)
Notation Processes := (gmap Z (Z * bool)) (only parsing).

Definition children_of (p : Z) (m : Processes) : list Z := (filter (λ x : Z * (Z * bool), x.2.1 = p) (map_to_list m)).*1.

Definition list_tree (p : Z) : act Processes (list Z) := λ m,
  match m !! p with
  | Some _ => (m, Ok (p :: children_of p m ++ flat_map (λ c, children_of c m) (children_of p m)))
  | None => (m, raise "NoSuchProcess" "process PID not found")
  end.

Definition set_suspended (b : bool) (p : Z) : act Processes () := λ m,
  match m !! p with
  | Some (parent, _) => (<[p := (parent, b)]> m, Ok tt)
  | None => (m, raise "NoSuchProcess" "process PID not found")
  end.

Definition end_process (p : Z) : act Processes () := λ m,
  match m !! p with Some _ => (delete p m, Ok tt) | None => (m, raise "NoSuchProcess" "process PID not found") end.

Definition plain_windows : WindowsApi Processes () () () :=
  {| process_tree := list_tree; proc_suspend := set_suspended true; proc_resume := set_suspended false;
     proc_kill := end_process; pywin32 := false; CreateJobObject := ret tt;
     QueryInformationJobObject := λ _, ret tt; kill_on_job_close := λ i, i;
     SetInformationJobObject := λ _ _, ret tt; OpenProcess := λ _, ret tt;
     AssignProcessToJobObject := λ _ _, ret tt; CloseHandle := λ _, ret tt; TerminateJobObject := λ _, ret tt |}.

Definition not_running (m : Processes) (p : Z) : Prop := ∀ x, m !! p = Some x → x.2 = true.

#[export] Instance plain_halts : Halts (proc_suspend plain_windows) not_running.
Proof.
  split; cbn; unfold set_suspended.
  - intros p s s'. destruct (s !! p) as [[c b]|]; [|done]. intros [= <-] x. rewrite lookup_insert_eq. by intros [= <-].
  - intros p s s' e. destruct (s !! p) as [[c b]|] eqn:E; [done|]. intros [= <- <-] _ x. by rewrite E.
Qed.

Lemma plain_suspend_keeps p q (s : Processes) :
  not_running s q → not_running (proc_suspend plain_windows p s).1 q.
Proof.
  intros Hq x. cbn. unfold set_suspended. destruct (s !! p) as [[c b]|]; cbn; [|apply Hq].
  destruct (decide (p = q)) as [->|Hne]; [rewrite lookup_insert_eq; by intros [= <-]|].
  rewrite lookup_insert_ne by done. apply Hq.
Qed.

Definition no_files {S} (path v : string) : act S () := throw "FileNotFoundError".
Definition no_kill {S} (p : Z) : act S () := throw "ProcessLookupError".

Definition sample_machine : Processes := {[42 := (1, false); 43 := (42, false); 44 := (43, false); 7 := (1, false)]}.
Definition critical_flag (run_id : uuid) : Flag :=
  {| flag_id := "f"; f_run_id := run_id; f_tenant_id := "t"; f_severity := CRITICAL; f_asi_categories := [];
     f_verdict_ids := []; f_status := "open"; f_confidence := Float64.of_Z 1; f_evidence := []; f_created_at := 0 |}.

Definition sample_life : Host Processes () * list (HostOp Processes * bool) :=
  host_steps plain_windows no_files no_kill "win32" [Spawned "r" 42] (fresh_host () sample_machine).

Definition sample_route : (Host Processes () * ()) * RoutingResult :=
  route_flag plain_windows no_files "win32" (λ _ _, ret None) (λ _ _, ret tt) (λ _, ret tt) (λ _ _, ret true) None
    (critical_flag "r") (sample_life.1, tt).

Lemma critical_flag_halts_tree_witness :
  paused sample_route.2 = true ∧
  ∃ s1 tree, process_tree plain_windows 42 sample_machine = (s1, Ok tree) ∧ tree = [42; 43; 44] ∧
    ∀ p, p ∈ tree → not_running (machine sample_route.1.1) p.
Proof.
  split; [vm_compute; reflexivity|].
  destruct (proj1 (proj1 (critical_flag_halts_tree plain_windows no_files no_kill "win32"
    (λ _ _, ret None) (λ _ _, ret tt) (λ _, ret tt) (λ _ _, ret true) None [Spawned "r" 42] sample_machine
    sample_life.1 sample_life.2 (critical_flag "r") tt sample_route.1.1 tt sample_route.2
    eq_refl eq_refl eq_refl eq_refl) 42 eq_refl) eq_refl) as (s1 & tree & Ht & _ & Hp).
  exists s1, tree. split; [exact Ht|].
  assert (list_tree 42 sample_machine = (sample_machine, Ok [42; 43; 44])) as Hl by (vm_compute; reflexivity).
  change (list_tree 42 sample_machine = (s1, Ok tree)) in Ht. rewrite Hl in Ht. injection Ht as <- <-.
  split; [reflexivity|]. intros p (l1 & l2 & E)%list_elem_of_split.
  destruct (Hp l1 p l2 E) as [[_ H]|(e & He & Hd)].
  - apply H. intros q s _. apply plain_suspend_keeps.
  - exfalso. cbn in He. unfold set_suspended in He. destruct (_ !! p) as [[]|]; [discriminate He|].
    injection He as <-. discriminate Hd.
Defined.

Lemma registry_refines_history_witness :
  pids_of sample_life.1 !! "r" = Some 42 ∧
  pids_of (host_steps plain_windows no_files no_kill "win32" [Pause "r"; AbortRun "q"] sample_life.1).1 !! "r" = Some 42.
Proof.
  pose proof (registry_refines_history plain_windows no_files no_kill "win32" [Spawned "r" 42] sample_machine
    sample_life.1 sample_life.2 eq_refl) as (H1 & _ & H2).
  split; [rewrite H1; reflexivity|]. apply (H2 "r" 42 [Pause "r"; AbortRun "q"] _
    (host_steps plain_windows no_files no_kill "win32" [Pause "r"; AbortRun "q"] sample_life.1).2); [reflexivity|reflexivity| |].
  - intros p Hp. by repeat (apply elem_of_cons in Hp as [Hp|Hp]; [done|]); apply elem_of_nil in Hp.
  - intros Hp. by repeat (apply elem_of_cons in Hp as [Hp|Hp]; [done|]); apply elem_of_nil in Hp.
Defined.

Definition sample_abort :=
  submit_decision "secret" Some Some (os_resume plain_windows no_files "linux")
    (os_abort plain_windows no_files no_kill "linux") sample_review_db (fresh_host () sample_machine) 1001 7 "h"
    (Some review_token) None "f" "abort" None.

Lemma linux_abort_stops_nothing_witness :
  machine sample_abort.1.1.2 = sample_machine ∧
  match sample_abort.2 with Ok (_, enf) => en_ok enf = Some true | Raise _ => False end.
Proof.
  destruct sample_abort as [[[db' h'] audit] [[row enf]|x]] eqn:E; [|vm_compute in E; discriminate E].
  destruct (linux_abort_stops_nothing plain_windows no_files no_kill "linux" "secret" Some Some [] sample_machine
    (fresh_host () sample_machine) [] _ _ _ _ _ _ _ _ _ _ _ _ _ _ eq_refl eq_refl (λ _ _ _ _, eq_refl) E) as (H1 & H2 & _).
  split; [exact H1|]. cbn [snd]. rewrite H2; [reflexivity|by_decision].
Defined.
