(* ===== verification/Checkpoint.v ===== *)
(** * Checkpoints

    The snapshot of a run taken when a critical flag is routed ([auditor/hitl/checkpoint.py]): four JSON
    members in an archive, uploaded to the object store.  An archive is the list of its members; the
    compression and the client of the store are parameters, and so are the texts of times, of
    psutil's answers and of exceptions. *)

From Stdlib Require Import ZArith Lia.
From Stdlib Require String.
From stdpp Require Import base tactics option list strings gmap.
From S2P Require Import Prelude PyStr Float64 Json ApiAuth Verdicts Budget Gate Hitl Enforcement.

Local Open Scope Z_scope.

(** The members of the archive, in order, with their bytes. *)
Notation archive := (list (string * string)) (only parsing).

(** What is used of the object store's client. *)
Record Minio (S : Type) := {
  bucket_exists : string → act S bool;
  make_bucket : string → act S ();
  put_object : string → string → archive → act S ()
}.
Arguments bucket_exists {S} m.
Arguments make_bucket {S} m.
Arguments put_object {S} m.

Section build.
Context {J : Type}.

(** psutil on a process id: whether it exists, its status, its memory in megabytes as the text of a float. *)
Context (process : Z → result PyExn ()) (proc_status proc_memory_mb : Z → result PyExn string).

Definition _add (tar : archive) (name data : string) : archive := tar ++ [(name, utf8 data)].

Definition manifest (run_id tenant_id : uuid) (captured_at : string) (turns : list json) (in_flight_tool : option (list (string * json)))
    : list (string * json) :=
  [("run_id", JStr run_id); ("tenant_id", JStr tenant_id); ("captured_at", JStr captured_at);
   ("llm_context_turns", JInt (Z.of_nat (length turns)));
   ("has_in_flight_tool", JBool (bool_decide (is_Some in_flight_tool)))].

Definition _build_archive (run_id tenant_id : uuid) (captured_at : string) (llm_context : option (list json))
    (in_flight_tool : option (list (string * json))) (process_state_info : list (string * json)) : archive :=
  let ctx_turns := take_last 50 (default [] llm_context) in
  let tar := _add [] "llm_context.json" (dumps_indent 0 (JArr ctx_turns)) in
  let tar := _add tar "in_flight_tool.json" (dumps_indent 0 (JObj (default [] in_flight_tool))) in
  let tar := _add tar "process_state.json" (dumps_indent 0 (JObj process_state_info)) in
  _add tar "manifest.json" (dumps_indent 0 (JObj (manifest run_id tenant_id captured_at ctx_turns in_flight_tool))).

Definition type_name (e : Enforcer J) : string :=
  match e with WindowsJobObjectEnforcer _ => "WindowsJobObjectEnforcer" | CgroupEnforcer _ => "CgroupEnforcer" end.

(** [self._enforcer._pid(run_id)]: only the Windows enforcer has the method. *)
Definition enforcer_pid (e : Enforcer J) (run_id : uuid) : result PyExn (option Z) :=
  match e with
  | WindowsJobObjectEnforcer r => Ok (_pid run_id r)
  | CgroupEnforcer _ => raise "AttributeError" "'CgroupEnforcer' object has no attribute '_pid'"
  end.

Definition quarantine_capable (e : Enforcer J) : bool :=
  match e with WindowsJobObjectEnforcer _ => true | CgroupEnforcer _ => false end.

(** The body of the [try]: what it has recorded when it ends or raises. *)
Definition pid_entries (e : Enforcer J) (run_id : uuid) : list (string * json) :=
  let failed (x : PyExn) := [("pid_error", JStr (exn_text x))] in
  match enforcer_pid e run_id with
  | Raise x => failed x
  | Ok None => [("pid", JNull)]
  | Ok (Some pid) =>
      ("pid", JInt pid) ::
      match process pid with
      | Raise x => failed x
      | Ok _ =>
          match proc_status pid with
          | Raise x => failed x
          | Ok status =>
              ("proc_status", JStr status) ::
              match proc_memory_mb pid with
              | Raise x => failed x
              | Ok mb => [("proc_memory_mb", JFloat mb)]
              end
          end
      end
  end.

Definition _collect_process_state (enforcer : option (Enforcer J)) (run_id : uuid) : list (string * json) :=
  match enforcer with
  | None => [("enforcer_available", JBool false); ("note", JStr "no enforcer injected; process state unavailable")]
  | Some e =>
      [("enforcer_available", JBool true); ("enforcer_type", JStr (type_name e))] ++
      pid_entries e run_id ++ [("quarantine_capable", JBool (quarantine_capable e))]
  end.

Context {S : Type} (minio : Minio S).

(** The check of the bucket is best effort; the upload is not. *)
Definition _upload (bucket object_name : string) (data : archive) : act S () :=
  do! _ := catch (do! there := bucket_exists minio bucket in
                  if there : bool then ret tt else make_bucket minio bucket)
                 (λ _, Some (ret tt)) in
  put_object minio bucket object_name data.

Definition object_name_of (run_id tenant_id : uuid) (ts : string) : string :=
  "audit/" +:+ tenant_id +:+ "/checkpoints/" +:+ run_id +:+ "_" +:+ ts +:+ ".tar.gz".

Definition capture (enforcer : option (Enforcer J)) (bucket ts captured_at : string) (run_id tenant_id : uuid)
    (llm_context : option (list json)) (in_flight_tool : option (list (string * json))) (s : S) : S * option string :=
  let object_name := object_name_of run_id tenant_id ts in
  let data := _build_archive run_id tenant_id captured_at llm_context in_flight_tool
                (_collect_process_state enforcer run_id) in
  match _upload bucket object_name data s with
  | (s', Ok _) => (s', Some ("minio://" +:+ bucket +:+ "/" +:+ object_name))
  | (s', Raise _) => (s', None)
  end.

(** The router of the audit pipeline is made for each flag without collaborators, and makes its own
    [CheckpointCapture] from the enforcer it has then, which is none; it passes the run and the tenant only. *)
Definition pipeline_capture (bucket ts captured_at : string) (run_id tenant_id : uuid) : act S (option string) := λ s,
  let '(s', uri) := capture None bucket ts captured_at run_id tenant_id None None s in (s', Ok uri).

(** ** What an archive says *)

Definition read_member (name : string) (a : archive) : option json :=
  match dget name a with
  | Some b => match utf8_decode b with Some t => loads t | None => None end
  | None => None
  end.

Lemma build_archive_members run_id tenant_id captured_at llm tool info :
  let turns := take_last 50 (default [] llm) in
  let a := _build_archive run_id tenant_id captured_at llm tool info in
  Forall json_wf turns → json_wf (JObj (default [] tool)) → json_wf (JObj info) →
  dkeys a = ["llm_context.json"; "in_flight_tool.json"; "process_state.json"; "manifest.json"] ∧
  read_member "llm_context.json" a = Some (JArr turns) ∧
  read_member "in_flight_tool.json" a = Some (JObj (default [] tool)) ∧
  read_member "process_state.json" a = Some (JObj info) ∧
  read_member "manifest.json" a = Some (JObj (manifest run_id tenant_id captured_at turns tool)).
Proof.
  intros turns a Hturns Htool Hinfo.
  assert (json_wf (JObj (manifest run_id tenant_id captured_at turns tool))) as Hm.
  { apply json_wf_obj. split; [by_decision|by repeat constructor]. }
  apply json_wf_arr in Hturns.
  split; [done|]. unfold read_member, a, _build_archive, _add. cbn [app dget].
  repeat (rewrite ?decide_True by done; rewrite ?decide_False by done; cbv iota beta).
  by rewrite !utf8_decode_utf8, !loads_dumps_indent by done.
Qed.

Lemma process_state_wf enforcer run_id :
  (∀ pid mb, proc_memory_mb pid = Ok mb → float_lexeme mb ∧ head_ok mb) →
  json_wf (JObj (_collect_process_state enforcer run_id)).
Proof.
  intros Hmb. apply json_wf_obj. destruct enforcer as [e|]; [|split; [by_decision|by repeat constructor]].
  unfold _collect_process_state, pid_entries.
  destruct (enforcer_pid e run_id) as [[pid|]|x]; [|split; [by_decision|by repeat constructor]..].
  destruct (process pid) as [[]|x]; [|split; [by_decision|by repeat constructor]].
  destruct (proc_status pid) as [st|x]; [|split; [by_decision|by repeat constructor]].
  destruct (proc_memory_mb pid) as [mb|x] eqn:E; (split; [by_decision|]); repeat constructor; by apply (Hmb pid).
Qed.

Lemma capture_some enforcer bucket ts captured_at run_id tenant_id llm tool s s' uri :
  capture enforcer bucket ts captured_at run_id tenant_id llm tool s = (s', Some uri) →
  uri = "minio://" +:+ bucket +:+ "/" +:+ object_name_of run_id tenant_id ts ∧
  ∃ s1, put_object minio bucket (object_name_of run_id tenant_id ts)
    (_build_archive run_id tenant_id captured_at llm tool (_collect_process_state enforcer run_id)) s1 = (s', Ok tt).
Proof.
  unfold capture. destruct (_upload _ _ _ s) as [s2 [[]|x]] eqn:E; [|done]. intros [= <- <-]. split; [done|].
  apply bind_act_ok in E as (s1 & [] & _ & E). by exists s1.
Qed.

(** A checkpoint can be read back.  A capture that answers with an address has put at that address an
    archive of exactly four members, from which the last fifty turns of the context, the tool in flight, the
    state of the process and the manifest are read back as they were; the capture itself never raises, and
    a failing check of the bucket does not stop it. *)
Theorem checkpoint_roundtrip enforcer bucket ts captured_at run_id tenant_id llm tool s s' uri :
  (∀ pid mb, proc_memory_mb pid = Ok mb → float_lexeme mb ∧ head_ok mb) →
  Forall json_wf (default [] llm) → json_wf (JObj (default [] tool)) →
  capture enforcer bucket ts captured_at run_id tenant_id llm tool s = (s', Some uri) →
  ∃ a s1, put_object minio bucket (object_name_of run_id tenant_id ts) a s1 = (s', Ok tt) ∧
    uri = "minio://" +:+ bucket +:+ "/" +:+ object_name_of run_id tenant_id ts ∧
    dkeys a = ["llm_context.json"; "in_flight_tool.json"; "process_state.json"; "manifest.json"] ∧
    (∃ older recent, default [] llm = older ++ recent ∧ (length recent ≤ 50)%nat ∧
       (older = [] ∨ length recent = 50%nat) ∧
       read_member "llm_context.json" a = Some (JArr recent) ∧
       read_member "manifest.json" a = Some (JObj (manifest run_id tenant_id captured_at recent tool))) ∧
    read_member "in_flight_tool.json" a = Some (JObj (default [] tool)) ∧
    read_member "process_state.json" a = Some (JObj (_collect_process_state enforcer run_id)).
Proof.
  intros Hmb Hllm Htool (-> & s1 & Hput)%capture_some.
  destruct (build_archive_members run_id tenant_id captured_at llm tool (_collect_process_state enforcer run_id))
    as (Hk & H1 & H2 & H3 & H4); [by apply Forall_drop|done|by apply process_state_wf|].
  eexists _, s1. split_and!; try done. unfold take_last in *.
  exists (take (length (default [] llm) - 50) (default [] llm)), (drop (length (default [] llm) - 50) (default [] llm)).
  split_and!; [symmetry; apply take_drop|rewrite length_drop; lia| |done|done].
  destruct (decide (length (default [] llm) ≤ 50)%nat) as [Hle|Hgt]; [left|right; rewrite length_drop; lia].
  by replace (length (default [] llm) - 50)%nat with 0%nat by lia.
Qed.
End build.

(** ** The checkpoint of a critical flag *)

Section pipeline.
Context {S J H I Q : Type} (api : WindowsApi S J H I).
Context (write_text : string → string → act S ()) (platform : string).
Context (process : Z → result PyExn ()) (proc_status proc_memory_mb : Z → result PyExn string) (minio : Minio Q).
Context (q_enqueue : Flag → Z → act Q ()) (append_digest : Flag → act Q ()) (notify : Flag → option string → act Q bool)
        (ui_base_url : option string) (bucket ts captured_at : string).

Notation capture_of := (pipeline_capture (J := J) process proc_status proc_memory_mb minio bucket ts captured_at).

(** The checkpoint the audit takes of a critical flag is empty.  Whatever the host and the object store
    are, an archive that routing a flag leaves an address of has no turn of the context, no tool in flight
    and, for the state of the process, only the note that no enforcer was injected, also when the enforcer
    exists and the run's process is registered with it. *)
Theorem pipeline_checkpoint_is_empty flag (h : Host S J) q h' q' res uri :
  route_flag api write_text platform capture_of q_enqueue append_digest notify ui_base_url flag (h, q) = ((h', q'), res) →
  checkpoint_uri res = Some uri →
  f_severity flag = CRITICAL ∧
  ∃ a q1 q2, put_object minio bucket (object_name_of (f_run_id flag) (f_tenant_id flag) ts) a q1 = (q2, Ok tt) ∧
    uri = "minio://" +:+ bucket +:+ "/" +:+ object_name_of (f_run_id flag) (f_tenant_id flag) ts ∧
    read_member "llm_context.json" a = Some (JArr []) ∧
    read_member "in_flight_tool.json" a = Some (JObj []) ∧
    read_member "process_state.json" a =
      Some (JObj [("enforcer_available", JBool false); ("note", JStr "no enforcer injected; process state unavailable")]).
Proof.
  intros E Hu. unfold route_flag, route, on_rest in E.
  destruct (f_severity flag); unfold _route_low, _route_medium, _route_high in E.
  - injection E as _ _ <-. done.
  - destruct (append_digest flag q). by injection E as _ _ <-.
  - destruct (q_enqueue flag _ q) as [q1 e]. destruct (notify _ _ q1). by injection E as _ _ <-.
  - split; [done|]. unfold _route_critical, pipeline_capture in E.
    destruct (capture _ _ _ _ _ _ _ _ _ _ None None q) as [q1 u] eqn:Ec. unfold on_host in E.
    destruct (os_pause _ _ _ _ h) as [h1 p]. destruct (q_enqueue flag _ q1) as [q2 e]. destruct (notify _ _ q2) as [q3 n].
    injection E as _ _ <-. cbn in Hu. subst u. apply capture_some in Ec as (-> & s1 & Hput).
    destruct (build_archive_members (f_run_id flag) (f_tenant_id flag) captured_at None None
      (_collect_process_state (J := J) process proc_status proc_memory_mb None (f_run_id flag)))
      as (_ & H1 & H2 & H3 & _); [done|by apply json_wf_obj; split; constructor| |by eauto 10].
    apply json_wf_obj. split; [by_decision|by repeat constructor].
Qed.
End pipeline.

(** ** Witnesses *)

(** An object store: buckets and their objects. *)
Notation objects := (gmap string (gmap string (list (string * string)))) (only parsing).

Definition plain_minio : Minio objects :=
  {| bucket_exists := λ b s, (s, Ok (bool_decide (is_Some (s !! b))));
     make_bucket := λ b s, (<[b := ∅]> s, Ok tt);
     put_object := λ b name data s,
       match s !! b with
       | Some m => (<[b := <[name := data]> m]> s, Ok tt)
       | None => (s, raise "S3Error" "NoSuchBucket")
       end |}.

Definition no_process (pid : Z) : result PyExn () := raise "NoSuchProcess" "process PID not found".
Definition no_answer (pid : Z) : result PyExn string := raise "NoSuchProcess" "process PID not found".

Definition sample_context : list json := [JObj [("role", JStr "user"); ("content", JStr "reset my password")]].

Definition sample_capture : objects * option string :=
  capture (J := ()) no_process no_answer no_answer plain_minio None "audit-logs" "20260101T000000Z" "2026-01-01T00:00:00+00:00"
    "r" "t" (Some sample_context) None ∅.

Lemma checkpoint_roundtrip_witness : ∃ a s1,
  put_object plain_minio "audit-logs" "audit/t/checkpoints/r_20260101T000000Z.tar.gz" a s1 = (sample_capture.1, Ok tt) ∧
  read_member "in_flight_tool.json" a = Some (JObj []).
Proof.
  destruct sample_capture as [s' [uri|]] eqn:E; [|vm_compute in E; discriminate E].
  assert (∀ pid mb, no_answer pid = Ok mb → float_lexeme mb ∧ head_ok mb) as Hmb by (intros pid mb Hx; discriminate Hx).
  assert (json_wf (JObj [])) as Ho by (split; constructor).
  assert (Forall json_wf sample_context) as Hc.
  { apply Forall_cons. split; [apply json_wf_obj; split; [by_decision|repeat constructor]|constructor]. }
  destruct (checkpoint_roundtrip no_process no_answer no_answer plain_minio None "audit-logs" "20260101T000000Z"
    "2026-01-01T00:00:00+00:00" "r" "t" (Some sample_context) None ∅ s' uri Hmb Hc Ho E) as (a & s1 & H1 & _ & _ & _ & H2 & _).
  exists a, s1. split; [exact H1|exact H2].
Defined.

Definition sample_flagged :=
  route_flag plain_windows no_files "win32" (pipeline_capture (J := ()) no_process no_answer no_answer plain_minio "audit-logs"
    "20260101T000000Z" "2026-01-01T00:00:00+00:00") (λ _ _, ret tt) (λ _, ret tt) (λ _ _, ret true) None
    (critical_flag "r") (sample_life.1, (∅ : objects)).

Lemma pipeline_checkpoint_is_empty_witness :
  pids_of sample_life.1 !! "r" = Some 42 ∧
  ∃ uri a q1 q2, checkpoint_uri sample_flagged.2 = Some uri ∧
    put_object plain_minio "audit-logs" "audit/t/checkpoints/r_20260101T000000Z.tar.gz" a q1 = (q2, Ok tt) ∧
    read_member "llm_context.json" a = Some (JArr []).
Proof.
  split; [reflexivity|].
  destruct sample_flagged as [[h' q'] res] eqn:E.
  destruct (checkpoint_uri res) as [uri|] eqn:Hu;
    [|exfalso; apply (f_equal (λ x, checkpoint_uri x.2)) in E; cbn [snd] in E; rewrite Hu in E; vm_compute in E; discriminate E].
  destruct (pipeline_checkpoint_is_empty plain_windows no_files "win32" no_process no_answer no_answer plain_minio
    (λ _ _, ret tt) (λ _, ret tt) (λ _ _, ret true) None "audit-logs" "20260101T000000Z" "2026-01-01T00:00:00+00:00"
    (critical_flag "r") sample_life.1 ∅ h' q' res uri E Hu) as (_ & a & q1 & q2 & H1 & _ & H2 & _).
  exists uri, a, q1, q2. split; [exact Hu|split; [exact H1|exact H2]].
Defined.
