(* ===== verification/Startup.v ===== *)
(** * Start, stop and health

    The service's life ([auditor/main.py], with the choice of the transport in [auditor/ipc/transport.py])
    and its health report ([auditor/api/health.py]).  The services outside (object store, policy server,
    Redis, sockets) are a state that calls act on; the database is the one of [Store]; the construction of
    the clients, certificates and TLS contexts are parameters. *)

From Stdlib Require Import ZArith Lia.
From Stdlib Require String.
From stdpp Require Import base tactics option list strings gmap.
From S2P Require Import Prelude PyStr Float64 Json Budget Gate Store Enforcement Checkpoint.

Local Open Scope Z_scope.

(** ** Settings and transport *)

Record Settings := {
  st_bucket_audit : string;
  st_bucket_checkpoints : string;
  st_bucket_ground_truth : string;
  st_ipc_transport : string;
  st_ipc_unix_path : string;
  st_ipc_tcp_host : string;
  st_ipc_tcp_port : Z;
  st_ipc_mtls_enabled : bool;
  st_ipc_server_enabled : bool
}.

Inductive Transport :=
| UnixSocketTransport (path : string)
| LoopbackTcpTransport (host : string) (port : Z).

Definition describe (t : Transport) : string :=
  match t with
  | UnixSocketTransport path => "unix://" +:+ path
  | LoopbackTcpTransport host port => "tcp://" +:+ host +:+ ":" +:+ dec port
  end.

Definition resolved_ipc_transport (platform : string) (s : Settings) : string :=
  if bool_decide (st_ipc_transport s ∈ ["unix"; "tcp"]) then st_ipc_transport s
  else if String.eqb platform "win32" then "tcp" else "unix".

Definition select_transport (platform : string) (s : Settings) : result PyExn Transport :=
  if String.eqb (resolved_ipc_transport platform s) "unix" then
    if String.eqb platform "win32" then raise "RuntimeError" "unix IPC transport requested but unsupported"
    else Ok (UnixSocketTransport (st_ipc_unix_path s))
  else Ok (LoopbackTcpTransport (st_ipc_tcp_host s) (st_ipc_tcp_port s)).

(** ** The life of the service *)

(** The calls on the services outside. *)
Record Outside (O : Type) := {
  make_clients : act O ();                  (* engine, Redis and object store clients *)
  store_client : Minio O;
  policy_text : result PyExn string;        (* the file of the default policy *)
  put_policy : string → act O ();
  db_reachable : O → bool;
  ssl_context : act O ();                   (* authority, certificate and context of the server *)
  listen : Transport → bool → act O ();     (* whether with TLS *)
  close_server : act O ();
  close_opa : act O ();
  close_redis : act O ();
  dispose_engine : act O ()
}.
Arguments make_clients {O} o.
Arguments store_client {O} o.
Arguments policy_text {O} o.
Arguments put_policy {O} o.
Arguments db_reachable {O} o.
Arguments ssl_context {O} o.
Arguments listen {O} o.
Arguments close_server {O} o.
Arguments close_opa {O} o.
Arguments close_redis {O} o.
Arguments dispose_engine {O} o.

(** [app.state], and the runner's reference to the main loop. *)
Record App := { opa : OpaClient; ipc_server : option Transport; main_loop : bool }.

Record World (O : Type) := { outside : O; db : Db }.
Arguments outside {O} w.
Arguments db {O} w.
Arguments Build_World {O} _ _.

Section life.
Context {O : Type} (out : Outside O) (platform : string) (settings : Settings).

(** An exception is logged and goes no further. *)
Definition best_effort (m : act O ()) : act O () := catch m (λ _, Some (ret tt)).

Fixpoint ensure (buckets : list string) : act O () :=
  match buckets with
  | [] => ret tt
  | b :: buckets' =>
      do! there := bucket_exists (store_client out) b in
      do! _ := (if there : bool then ret tt else make_bucket (store_client out) b) in
      ensure buckets'
  end.

Definition _ensure_buckets : act O () :=
  best_effort (ensure [st_bucket_audit settings; st_bucket_checkpoints settings; st_bucket_ground_truth settings]).

(** [load_policy] clears the client's cache, which is empty at this moment anyway. *)
Definition load_policy (client : OpaClient) : act O OpaClient := λ o,
  match policy_text out with
  | Raise e => (o, Raise e)
  | Ok rego => match put_policy out rego o with
               | (o', Ok _) => (o', Ok (policy_loaded client))
               | (o', Raise e) => (o', Raise e)
               end
  end.

Definition new_opa : OpaClient := {| cache_ttl := of_Z 5; cache := [] |}.

Definition _build_gate : act O OpaClient := catch (load_policy new_opa) (λ _, Some (ret new_opa)).

Definition _server_ssl_context : act O bool :=
  if st_ipc_mtls_enabled settings then do! _ := ssl_context out in ret true else ret false.

(** The choice of the transport is outside of the [try]. *)
Definition _start_ipc_server : act O (option Transport) :=
  if negb (st_ipc_server_enabled settings) then ret None
  else match select_transport platform settings with
       | Raise e => λ o, (o, Raise e)
       | Ok transport =>
           catch (do! tls := _server_ssl_context in
                  do! _ := listen out transport tls in ret (Some transport))
                 (λ _, Some (ret None))
       end.

Definition sweep_orphans (now : datetime) (w : World O) : World O :=
  if db_reachable out (outside w) then {| outside := outside w; db := (reap_orphaned_runs now (db w)).1 |} else w.

(** [lifespan], up to its [yield]. *)
Definition lifespan_start (now : datetime) (w : World O) : World O * result PyExn App :=
  match make_clients out (outside w) with
  | (o, Raise e) => ({| outside := o; db := db w |}, Raise e)
  | (o, Ok _) =>
      let o := (_ensure_buckets o).1 in
      match _build_gate o with
      | (o, Raise e) => ({| outside := o; db := db w |}, Raise e)
      | (o, Ok client) =>
          let w := sweep_orphans now {| outside := o; db := db w |} in
          match _start_ipc_server (outside w) with
          | (o, Raise e) => ({| outside := o; db := db w |}, Raise e)
          | (o, Ok server) =>
              ({| outside := o; db := db w |}, Ok {| opa := client; ipc_server := server; main_loop := true |})
          end
      end
  end.

(** [lifespan], after its [yield]. *)
Definition lifespan_stop (app : App) : act O () :=
  do! _ := match ipc_server app with Some _ => close_server out | None => ret tt end in
  do! _ := best_effort (close_opa out) in
  do! _ := best_effort (close_redis out) in
  dispose_engine out.

(** ** Starting *)

Lemma best_effort_ok m o : (best_effort m o).2 = Ok tt.
Proof. unfold best_effort, catch. by destruct (m o) as [o' [[]|e]]. Qed.

Lemma build_gate_ok o : (_build_gate o).2 = Ok new_opa.
Proof.
  unfold _build_gate, catch, load_policy. destruct (policy_text out) as [rego|e]; [|done].
  by destruct (put_policy out rego o) as [o' [u|e]].
Qed.

Lemma start_ipc_ok o :
  (st_ipc_server_enabled settings = true → ∃ t, select_transport platform settings = Ok t) →
  ∃ o' server, _start_ipc_server o = (o', Ok server) ∧
    (∀ t, server = Some t → st_ipc_server_enabled settings = true ∧ select_transport platform settings = Ok t).
Proof.
  intros Ht. unfold _start_ipc_server. destruct (st_ipc_server_enabled settings); cbn [negb].
  - destruct (Ht eq_refl) as [t Et]. rewrite Et. unfold catch.
    destruct (bind_act _ _ o) as [o' [server|e]] eqn:E; [|by exists o', None].
    apply bind_act_ok in E as (o1 & tls & _ & (o2 & [] & _ & E)%bind_act_ok). injection E as <- <-.
    exists o2, (Some t). split; [done|]. by intros t' [= <-].
  - by exists o, None.
Qed.

(** The service starts whatever the services outside do.  When the clients can be constructed and the
    transport is one of the platform, the start returns: no failure of the object store, of the policy
    server, of the database or of the socket stops it.  The policy client starts empty; there is a server
    only where it is enabled, on the chosen transport; and the database is as it was or swept, and once
    swept no run is running and no other run has changed. *)
Theorem start_is_resilient now w o :
  make_clients out (outside w) = (o, Ok tt) →
  (st_ipc_server_enabled settings = true → ∃ t, select_transport platform settings = Ok t) →
  ∃ w' app, lifespan_start now w = (w', Ok app) ∧
    opa app = new_opa ∧ main_loop app = true ∧
    (∀ t, ipc_server app = Some t → st_ipc_server_enabled settings = true ∧ select_transport platform settings = Ok t) ∧
    (db w' = db w ∨
     (∀ rid r, runs (db w') !! rid = Some r → status r ≠ "running") ∧
     (∀ rid r, runs (db w) !! rid = Some r → status r ≠ "running" → runs (db w') !! rid = Some r) ∧
     (∀ rid r, runs (db w) !! rid = Some r → status r = "running" →
        ∃ r', runs (db w') !! rid = Some r' ∧ status r' = "aborted")) .
Proof.
  intros Hc Ht. unfold lifespan_start. rewrite Hc. set (o1 := (_ensure_buckets o).1).
  pose proof (build_gate_ok o1) as Hg. destruct (_build_gate o1) as [o2 g]. cbn [snd] in Hg. subst g.
  set (w1 := sweep_orphans now {| outside := o2; db := db w |}).
  destruct (start_ipc_ok (outside w1) Ht) as (o3 & server & -> & Hs).
  eexists _, _. split; [reflexivity|]. cbn. split_and!; [done|done|done|].
  unfold w1, sweep_orphans. cbn. destruct (db_reachable out o2); [right|by left]. cbn.
  split_and!; intros rid r; rewrite ?lookup_fmap.
  - intros (r0 & _ & ->)%fmap_Some. unfold reap. by destruct (String.eqb_spec (status r0) "running").
  - intros E Hn. apply fmap_Some. exists r. split; [exact E|]. unfold reap. by rewrite (proj2 (String.eqb_neq _ _) Hn).
  - intros E Hr. exists (reap now r). split; [apply fmap_Some; by exists r|].
    unfold reap. by rewrite (proj2 (String.eqb_eq _ _) Hr).
Qed.

(** The file of the policy is loaded best effort: with a policy server that is up and holds no policy, the
    gate's policy vote of the started service is ALLOW for every action. *)
Lemma start_without_policy_allows now w w' app event now_s :
  lifespan_start now w = (w', Ok app) →
  (evaluate (λ _, Ok (JObj [])) event now_s (opa app)).2 =
    Ok {| sd_decision := JStr "ALLOW"; sd_reasons := []; sd_rest := [] |}.
Proof.
  unfold lifespan_start. destruct (make_clients out (outside w)) as [o [u|e]]; [|done].
  set (o1 := (_ensure_buckets o).1). pose proof (build_gate_ok o1) as Hg.
  destruct (_build_gate o1) as [o2 g]. cbn [snd] in Hg. subst g.
  destruct (_start_ipc_server _) as [o3 [server|e]]; [|done]. by intros [= _ <-].
Qed.

(** A stop closes the policy client, Redis and the engine also when closing the first two fails. *)
Lemma stop_closes app o :
  ipc_server app = None →
  lifespan_stop app o = dispose_engine out (close_redis out (close_opa out o).1).1.
Proof.
  intros Hn. unfold lifespan_stop, bind_act, best_effort, catch. rewrite Hn. cbn.
  destruct (close_opa out o) as [o1 [[]|e]]; cbn; by destruct (close_redis out o1) as [o2 [[]|e2]].
Qed.
End life.

(** ** Health *)

Record ServiceReport := { sr_ok : bool; sr_detail : string; sr_required : bool }.

(** The outcome of a probe's [try] body; an exception is reported with its text. *)
Definition probe (r : result PyExn (bool * string)) : bool * string :=
  match r with Ok x => x | Raise e => (false, exn_text e) end.

Definition probe_postgres (select_1 : result PyExn ()) : bool * string := probe (result_map (λ _, (true, "ok")) select_1).
Definition probe_redis (ping : result PyExn bool) : bool * string :=
  probe (result_map (λ pong : bool, (pong, if pong then "ok" else "no pong")) ping).
Definition probe_minio (exists_audit : result PyExn bool) : bool * string :=
  probe (result_map (λ ok : bool, (ok, if ok then "ok" else "audit bucket missing")) exists_audit).
Definition probe_opa (get_health : result PyExn Z) : bool * string :=
  probe (result_map (λ code, (code =? 200, if code =? 200 then "ok" else "status " +:+ dec code)) get_health).

Definition health (postgres redis opa minio : bool * string) : Z * string * list (string * ServiceReport) :=
  let critical := [("postgres", postgres); ("redis", redis); ("opa", opa)] in
  let optional := [("minio", minio)] in
  let report required := map (λ x : string * (bool * string),
    (x.1, {| sr_ok := x.2.1; sr_detail := x.2.2; sr_required := required |})) in
  let all_critical_ok := forallb (λ x, x.2.1) critical in
  let any_optional_down := existsb (λ x, negb x.2.1) optional in
  let '(code, status) :=
    if negb all_critical_ok then (503, "degraded")
    else if any_optional_down then (200, "ok-optional-down") else (200, "ok") in
  (code, status, report true critical ++ report false optional).

(** The answer is 503 exactly when a required service is down, and then the report names it. *)
Lemma health_exact postgres redis opa minio :
  let '(code, status, services) := health postgres redis opa minio in
  (code = 503 ↔ Exists (λ x, sr_required x.2 = true ∧ sr_ok x.2 = false) services) ∧
  (code = 200 ∨ code = 503) ∧
  (status = "ok" ↔ Forall (λ x, sr_ok x.2 = true) services).
Proof.
  destruct postgres as [[] d1], redis as [[] d2], opa as [[] d3], minio as [[] d4]; cbn;
    rewrite !Exists_cons, Exists_nil, !Forall_cons, Forall_nil; cbn; naive_solver.
Qed.

(** ** The page in place of an error *)

(** [spa_html_fallback], where a build of the interface is present: the status and whether the page is served. *)
Definition spa_html_fallback (status_code : Z) (accept : option string) : Z * bool :=
  if bool_decide (status_code ∈ [401; 403; 404]) && contains "text/html" (default "" accept) then (200, true)
  else (status_code, false).

(** ** Witnesses *)

Definition sample_settings : Settings :=
  {| st_bucket_audit := "audit"; st_bucket_checkpoints := "checkpoints"; st_bucket_ground_truth := "ground-truth";
     st_ipc_transport := ""; st_ipc_unix_path := "/tmp/ai-auditor.sock"; st_ipc_tcp_host := "127.0.0.1";
     st_ipc_tcp_port := 8787; st_ipc_mtls_enabled := false; st_ipc_server_enabled := true |}.

(** Everything outside is down. *)
Definition all_down : Outside () :=
  let down {A} : act () A := throw "ConnectionError" in
  {| make_clients := ret tt;
     store_client := {| bucket_exists := λ _, down; make_bucket := λ _, down; put_object := λ _ _ _, down |};
     policy_text := Ok "package auditor.gate"; put_policy := λ _, down; db_reachable := λ _, false;
     ssl_context := down; listen := λ _ _, down; close_server := down; close_opa := down; close_redis := down;
     dispose_engine := ret tt |}.

Lemma start_is_resilient_witness : ∃ w' app,
  lifespan_start all_down "linux" sample_settings 7
    {| outside := tt; db := {| tenants := ∅; runs := ∅; event_rows := []; gate_decisions := [] |} |} = (w', Ok app) ∧
  ipc_server app = None.
Proof.
  destruct (start_is_resilient all_down "linux" sample_settings 7
    {| outside := tt; db := {| tenants := ∅; runs := ∅; event_rows := []; gate_decisions := [] |} |} tt eq_refl
    (λ _, ex_intro _ (UnixSocketTransport "/tmp/ai-auditor.sock") eq_refl)) as (w' & app & E & _).
  exists w', app. split; [exact E|]. vm_compute in E. injection E as _ <-. reflexivity.
Defined.
