(* ===== verification/Tenancy.v ===== *)
(** * Tenancy

    The migrations that set up row-level security ([auditor/db/migrations/versions/]: 0001 to 0003) and the
    sessions that rely on it ([auditor/db/tenancy.py]).  The catalog of the database server is a state the
    statements of the migrations act on; what a session reads and may write is computed from the catalog
    the way the server computes it.  The filter that the routes of [ReviewApi], [Query] and [Search] read
    through is shown to be the one the migrated catalog gives. *)

From Stdlib Require Import ZArith Lia.
From Stdlib Require String.
From stdpp Require Import base tactics option list strings gmap.
From S2P Require Import Prelude PyStr Json ApiAuth Verdicts Events Store ReviewApi.

(** ** The catalog *)

Record Table := {
  tb_tenant_column : bool;        (* the table has a column [tenant_id] *)
  tb_rls : bool;                  (* ENABLE ROW LEVEL SECURITY *)
  tb_forced : bool;
  tb_policy : option bool;        (* the tenant_isolation policy, and whether it lets NULL tenants through *)
  tb_grants : gset string         (* what auditor_api may do *)
}.

#[export] Instance Table_eq_dec : EqDecision Table.
Proof. solve_decision. Defined.

Record Catalog := { tables : gmap string Table; api_role : bool; schema_usage : bool }.

#[export] Instance Catalog_eq_dec : EqDecision Catalog.
Proof. solve_decision. Defined.

Inductive PgError := UndefinedTable | UndefinedColumn | UndefinedObject | DuplicateObject | InsufficientPrivilege | InvalidTextRepresentation.

#[export] Instance PgError_eq_dec : EqDecision PgError.
Proof. solve_decision. Defined.

(** What the migrations execute; the role is auditor_api throughout. *)
Inductive Stmt :=
| CreateRole
| GrantUsage
| Grant (privileges : list string) (table : string)
| Revoke (privileges : list string) (table : string)
| CreatePolicy (table : string) (nullable : bool)
| DropPolicy (table : string)
| RowSecurity (table : string) (enabled : bool)
| ForceRowSecurity (table : string) (forced : bool)
| DropRole.

Definition with_tables (f : gmap string Table → gmap string Table) (c : Catalog) : Catalog :=
  {| tables := f (tables c); api_role := api_role c; schema_usage := schema_usage c |}.

Definition on_table (t : string) (f : Table → result PgError Table) (c : Catalog) : result PgError Catalog :=
  match tables c !! t with
  | None => Raise UndefinedTable
  | Some r => let! r' := f r in Ok (with_tables (insert t r') c)
  end.

Definition set_grants (g : gset string) (r : Table) : Table :=
  {| tb_tenant_column := tb_tenant_column r; tb_rls := tb_rls r; tb_forced := tb_forced r;
     tb_policy := tb_policy r; tb_grants := g |}.
Definition set_policy (p : option bool) (r : Table) : Table :=
  {| tb_tenant_column := tb_tenant_column r; tb_rls := tb_rls r; tb_forced := tb_forced r;
     tb_policy := p; tb_grants := tb_grants r |}.
Definition set_rls (b : bool) (r : Table) : Table :=
  {| tb_tenant_column := tb_tenant_column r; tb_rls := b; tb_forced := tb_forced r;
     tb_policy := tb_policy r; tb_grants := tb_grants r |}.
Definition set_forced (b : bool) (r : Table) : Table :=
  {| tb_tenant_column := tb_tenant_column r; tb_rls := tb_rls r; tb_forced := b;
     tb_policy := tb_policy r; tb_grants := tb_grants r |}.

(** A statement that names the role fails when there is none. *)
Definition needs_role (c : Catalog) (k : result PgError Catalog) : result PgError Catalog :=
  if api_role c then k else Raise UndefinedObject.

Definition exec (s : Stmt) (c : Catalog) : result PgError Catalog :=
  match s with
  | CreateRole => Ok {| tables := tables c; api_role := true; schema_usage := schema_usage c |}
  | GrantUsage => needs_role c (Ok {| tables := tables c; api_role := true; schema_usage := true |})
  | Grant ps t => needs_role c (on_table t (λ r, Ok (set_grants (tb_grants r ∪ list_to_set ps) r)) c)
  | Revoke ps t => needs_role c (on_table t (λ r, Ok (set_grants (tb_grants r ∖ list_to_set ps) r)) c)
  | CreatePolicy t nullable =>
      (* its expression names the column [tenant_id] *)
      needs_role c (on_table t (λ r, if negb (tb_tenant_column r) then Raise UndefinedColumn
                                     else match tb_policy r with
                                          | Some _ => Raise DuplicateObject
                                          | None => Ok (set_policy (Some nullable) r)
                                          end) c)
  | DropPolicy t => match tables c !! t with None => Ok c | Some r => Ok (with_tables (insert t (set_policy None r)) c) end
  | RowSecurity t b => on_table t (λ r, Ok (set_rls b r)) c
  | ForceRowSecurity t b => on_table t (λ r, Ok (set_forced b r)) c
  | DropRole =>
      if api_role c then
        Ok {| tables := (λ r, set_grants ∅ (set_policy None r)) <$> tables c; api_role := false; schema_usage := false |}
      else Ok c
  end.

(** A migration runs in a transaction: an error leaves the catalog as it was. *)
Fixpoint exec_all (l : list Stmt) (c : Catalog) : result PgError Catalog :=
  match l with
  | [] => Ok c
  | s :: l' => let! c' := exec s c in exec_all l' c'
  end.

(** ** The model's tables ([auditor/db/models.py]) *)

(** Every table and its tenant column: none, required, or nullable. *)
Definition model_tables : list (string * option bool) :=
  [("tenants", None); ("policies", Some false); ("users", Some false); ("runs", Some false); ("events", Some false);
   ("gate_decisions", None); ("sampler_decisions", None); ("verdicts", Some false); ("flags", Some false);
   ("hitl_decisions", None); ("audit_log", Some false); ("ground_truth", None); ("calibration_runs", None);
   ("memory_entries", Some false); ("memory_embeddings", None); ("incidents", Some false);
   ("incident_comments", None); ("incident_action_items", None); ("shadow_verdicts", Some false);
   ("detector_lifecycle", Some true); ("agent_baselines", Some false); ("agent_signing_keys", Some false);
   ("saved_queries", Some false)].

Definition RLS_TABLES : list string :=
  ["events"; "verdicts"; "flags"; "memory_entries"; "memory_embeddings"; "runs"; "gate_decisions"; "sampler_decisions";
   "hitl_decisions"; "audit_log"; "incidents"; "incident_comments"; "incident_action_items"; "shadow_verdicts";
   "detector_lifecycle"; "agent_baselines"; "agent_signing_keys"; "ground_truth"; "calibration_runs"; "policies";
   "users"; "saved_queries"].

Definition present (names : list string) (c : Catalog) : list string :=
  bfilter (λ n, bool_decide (is_Some (tables c !! n))) names.

(** ** 0001 *)

Definition new_table (tenant_column : option bool) : Table :=
  {| tb_tenant_column := bool_decide (is_Some tenant_column); tb_rls := false; tb_forced := false;
     tb_policy := None; tb_grants := ∅ |}.

(** [create_all(checkfirst=True)], without the table of vectors where the extension is missing. *)
Definition create_all (has_vector : bool) (c : Catalog) : Catalog :=
  with_tables (λ m, foldl (λ m x, match m !! x.1 with Some _ => m | None => <[x.1 := new_table x.2]> m end) m
    (bfilter (λ x, has_vector || negb (String.eqb x.1 "memory_embeddings")) model_tables)) c.

Definition upgrade_0001 (has_vector : bool) (c : Catalog) : result PgError Catalog :=
  let c := create_all has_vector c in
  exec_all (map (λ t, RowSecurity t true) (present RLS_TABLES c)) c.

Definition downgrade_0001 (c : Catalog) : result PgError Catalog :=
  Ok (with_tables (λ m, foldl (λ m n, delete n m) m (model_tables.*1)) c).

(** ** 0002 *)

Definition _TENANT_TABLES : list string :=
  ["runs"; "events"; "verdicts"; "flags"; "memory_entries"; "audit_log"; "incidents"; "shadow_verdicts";
   "agent_baselines"; "agent_signing_keys"; "policies"; "users"; "saved_queries"].

Definition _NULLABLE_TENANT_TABLES : list string := ["detector_lifecycle"].

Definition _FK_TABLES : list string :=
  ["tenants"; "hitl_decisions"; "gate_decisions"; "sampler_decisions"; "incident_comments"; "incident_action_items";
   "ground_truth"; "calibration_runs"; "memory_embeddings"].

Definition dml : list string := ["SELECT"; "INSERT"; "UPDATE"; "DELETE"].

Definition upgrade_0002 (c : Catalog) : result PgError Catalog :=
  exec_all
    ([CreateRole; GrantUsage] ++
     map (Grant dml) (present (_TENANT_TABLES ++ _NULLABLE_TENANT_TABLES) c) ++
     map (Grant ["SELECT"]) (present _FK_TABLES c) ++
     flat_map (λ t, [CreatePolicy t false; ForceRowSecurity t true]) (present _TENANT_TABLES c) ++
     flat_map (λ t, [CreatePolicy t true; ForceRowSecurity t true]) (present _NULLABLE_TENANT_TABLES c)) c.

Definition downgrade_0002 (c : Catalog) : result PgError Catalog :=
  exec_all
    (flat_map (λ t, [ForceRowSecurity t false; DropPolicy t]) (_TENANT_TABLES ++ _NULLABLE_TENANT_TABLES) ++ [DropRole]) c.

(** ** 0003 *)

Definition _API_WRITABLE_FK_TABLES : list string :=
  ["hitl_decisions"; "gate_decisions"; "sampler_decisions"; "incident_comments"; "incident_action_items";
   "ground_truth"; "memory_embeddings"; "calibration_runs"].

Definition upgrade_0003 (c : Catalog) : result PgError Catalog :=
  exec_all (flat_map (λ t, [Grant ["INSERT"; "UPDATE"; "DELETE"] t; RowSecurity t false])
              (present _API_WRITABLE_FK_TABLES c)) c.

Definition downgrade_0003 (c : Catalog) : result PgError Catalog :=
  exec_all (flat_map (λ t, [RowSecurity t true; Revoke ["INSERT"; "UPDATE"; "DELETE"] t]) _API_WRITABLE_FK_TABLES) c.

(** All three, on an empty database of a server that may have the role already. *)
Definition fresh_database (role : bool) : Catalog := {| tables := ∅; api_role := role; schema_usage := false |}.

Definition upgrade_head (has_vector : bool) (c : Catalog) : result PgError Catalog :=
  let! c := upgrade_0001 has_vector c in
  let! c := upgrade_0002 c in
  upgrade_0003 c.

(** ** Sessions *)

(** The role of the transaction, and its [app.tenant_id]. *)
Record Session := { as_api : bool; setting : option string }.

(** The connection's own role is a superuser, which no policy binds. *)
Definition tenant_scope (tenant_id : string) : Session := {| as_api := true; setting := Some tenant_id |}.

(** The terms of the policy's [OR], as they are written. *)
Inductive Disjunct := SettingIsNull | SettingIsEmpty | TenantIsNull | TenantMatches.

#[export] Instance Disjunct_eq_dec : EqDecision Disjunct.
Proof. solve_decision. Defined.

Definition as_written : list Disjunct := [SettingIsNull; SettingIsEmpty; TenantIsNull; TenantMatches].

Section access.
(** PostgreSQL leaves the order in which the terms of an [OR] are evaluated open. *)
Context (order : list Disjunct) (pg_uuid : string → option uuid).

(** A term is true or it is not (false or NULL), or the cast of the setting fails. *)
Definition disjunct (s : option string) (row_tenant : option uuid) (d : Disjunct) : result PgError bool :=
  match d with
  | SettingIsNull => Ok (bool_decide (s = None))
  | SettingIsEmpty => Ok (bool_decide (s = Some ""))
  | TenantIsNull => Ok (bool_decide (row_tenant = None))
  | TenantMatches => match s with
                     | None => Ok false
                     | Some s => match pg_uuid s with
                                 | Some t => Ok (bool_decide (row_tenant = Some t))
                                 | None => Raise InvalidTextRepresentation
                                 end
                     end
  end.

(** Evaluation stops at the first term that is true or fails. *)
Fixpoint any_true (p : Disjunct → result PgError bool) (ds : list Disjunct) : result PgError bool :=
  match ds with
  | [] => Ok false
  | d :: ds' => let! b := p d in if b : bool then Ok true else any_true p ds'
  end.

(** The [USING] expression of [_create_policy] on a row's tenant. *)
Definition policy_using (nullable : bool) (s : option string) (row_tenant : option uuid) : result PgError bool :=
  any_true (disjunct s row_tenant)
    (bfilter (λ d, nullable || negb (match d with TenantIsNull => true | _ => false end)) order).

Fixpoint filter_rows {A} (p : A → result PgError bool) (rows : list A) : result PgError (list A) :=
  match rows with
  | [] => Ok []
  | r :: rows' =>
      let! b := p r in
      let! l := filter_rows p rows' in
      Ok (if b : bool then r :: l else l)
  end.

(** [SELECT]: without a policy a table under row-level security shows nothing. *)
Definition select_rows {A} (s : Session) (c : Catalog) (t : string) (tenant_of : A → option uuid) (rows : list A)
    : result PgError (list A) :=
  match tables c !! t with
  | None => Raise UndefinedTable
  | Some r =>
      if negb (as_api s) then Ok rows
      else if negb (schema_usage c && bool_decide ("SELECT" ∈ tb_grants r)) then Raise InsufficientPrivilege
      else if negb (tb_rls r) then Ok rows
      else match tb_policy r with
           | None => Ok []
           | Some nullable => filter_rows (λ x, policy_using nullable (setting s) (tenant_of x)) rows
           end
  end.

(** [INSERT]: the policy has no [WITH CHECK], so its [USING] is the check; a violation is reported as a
    lack of privilege. *)
Definition insert_row (s : Session) (c : Catalog) (t : string) (row_tenant : option uuid) : result PgError () :=
  match tables c !! t with
  | None => Raise UndefinedTable
  | Some r =>
      if negb (as_api s) then Ok tt
      else if negb (schema_usage c && bool_decide ("INSERT" ∈ tb_grants r)) then Raise InsufficientPrivilege
      else if negb (tb_rls r) then Ok tt
      else match tb_policy r with
           | None => Raise InsufficientPrivilege
           | Some nullable =>
               let! b := policy_using nullable (setting s) row_tenant in
               if b : bool then Ok tt else Raise InsufficientPrivilege
           end
  end.
End access.

(** ** The migrated catalog *)

Definition ok_or {E A} (d : A) (r : result E A) : A := match r with Ok a => a | Raise _ => d end.

Definition head (has_vector role : bool) : Catalog :=
  ok_or (fresh_database role) (upgrade_head has_vector (fresh_database role)).

Definition tenant_table (nullable : bool) : Table :=
  {| tb_tenant_column := true; tb_rls := true; tb_forced := true; tb_policy := Some nullable; tb_grants := list_to_set dml |}.

(** A table without a tenant column is open to the role: the tenants are read only. *)
Definition open_table (t : string) : Table :=
  {| tb_tenant_column := false; tb_rls := false; tb_forced := false; tb_policy := None;
     tb_grants := list_to_set (if String.eqb t "tenants" then ["SELECT"] else dml) |}.

Definition expected_table (has_vector : bool) (x : string * option bool) : option Table :=
  match x.2 with
  | Some nullable => Some (tenant_table nullable)
  | None => if has_vector || negb (String.eqb x.1 "memory_embeddings") then Some (open_table x.1) else None
  end.

Lemma upgrade_head_ok has_vector role : upgrade_head has_vector (fresh_database role) = Ok (head has_vector role).
Proof. destruct has_vector, role; vm_compute; reflexivity. Qed.

Lemma head_usage has_vector role : schema_usage (head has_vector role) = true.
Proof. destruct has_vector, role; vm_compute; reflexivity. Qed.

Lemma head_tables has_vector role x :
  x ∈ model_tables → tables (head has_vector role) !! x.1 = expected_table has_vector x.
Proof.
  intros Hx. assert (Forall (λ x, tables (head has_vector role) !! x.1 = expected_table has_vector x) model_tables) as H.
  { destruct has_vector, role; apply (bool_decide_unpack _); vm_compute; exact I. }
  rewrite Forall_forall in H. by apply H.
Qed.

Lemma head_tenant_table has_vector role t nullable :
  (t, Some nullable) ∈ model_tables → tables (head has_vector role) !! t = Some (tenant_table nullable).
Proof. intros H. exact (head_tables has_vector role _ H). Qed.

(** *** Evaluating an [OR] in any order *)

Lemma any_true_total p f ds : (∀ d, d ∈ ds → p d = Ok (f d)) → any_true p ds = Ok (existsb f ds).
Proof.
  induction ds as [|d ds IH]; intros H; [done|]. cbn [any_true existsb]. rewrite (H d) by left.
  cbn [result_bind]. destruct (f d); [done|]. apply IH. intros x Hx. apply H. by right.
Qed.

Lemma any_true_fails p ds e :
  (∃ d, d ∈ ds ∧ p d = Raise e) → (∀ d, d ∈ ds → p d = Ok false ∨ p d = Raise e) → any_true p ds = Raise e.
Proof.
  induction ds as [|d ds IH]; intros (x & Hx & Hp) H; [by apply elem_of_nil in Hx|]. cbn [any_true].
  destruct (H d ltac:(left)) as [E|E]; rewrite E; [|done]. cbn [result_bind]. apply IH.
  - exists x. split; [|done]. apply elem_of_cons in Hx as [->|Hx]; [congruence|done].
  - intros y Hy. apply H. by right.
Qed.

Lemma existsb_true {A} (f : A → bool) l : existsb f l = true ↔ ∃ x, x ∈ l ∧ f x = true.
Proof. rewrite existsb_exists. by setoid_rewrite <-list_elem_of_In. Qed.

Section isolation.
Context (order : list Disjunct) (order_all : order ≡ₚ as_written).
Context (pg_uuid : string → option uuid) (has_vector role : bool).

Notation db := (head has_vector role).
Notation select := (select_rows order pg_uuid).

Lemma in_order d : d ∈ order.
Proof using order_all. rewrite order_all. destruct d; by_decision. Qed.

Lemma elem_of_terms nullable d :
  d ∈ bfilter (λ d, nullable || negb (match d with TenantIsNull => true | _ => false end)) order ↔
  (d = TenantIsNull → nullable = true).
Proof using order_all.
  rewrite elem_of_bfilter. pose proof (in_order d) as Hd. destruct d, nullable; simpl; naive_solver.
Qed.

(** Whether a session of tenant [t] may see or write a row of this tenant. *)
Definition allowed (nullable : bool) (t : uuid) (row_tenant : option uuid) : bool :=
  bool_decide (row_tenant = Some t) || (nullable && bool_decide (row_tenant = None)).

Lemma policy_using_setting nullable s t r :
  s ≠ "" → pg_uuid s = Some t → policy_using order pg_uuid nullable (Some s) r = Ok (allowed nullable t r).
Proof using order_all.
  intros Hs Ht. unfold policy_using.
  rewrite (any_true_total _ (λ d, match d with
                                  | TenantIsNull => bool_decide (r = None)
                                  | TenantMatches => bool_decide (r = Some t)
                                  | _ => false
                                  end)).
  - f_equal. apply eq_bool_prop_intro. rewrite !Is_true_true, existsb_true. unfold allowed.
    setoid_rewrite elem_of_terms. rewrite orb_true_iff, andb_true_iff, !bool_decide_eq_true. split.
    + intros ([] & Hd & Hf); try done; apply bool_decide_eq_true in Hf; naive_solver.
    + intros [H|[Hn H]]; [exists TenantMatches|exists TenantIsNull]; (split; [naive_solver|]);
        by apply bool_decide_eq_true.
  - intros [] _; cbn [disjunct]; rewrite ?Ht; try done. f_equal. apply bool_decide_eq_false_2. congruence.
Qed.

(** A term that is always true: the setting is missing, or it is the empty text and its cast is not met. *)
Lemma policy_using_unset nullable r : policy_using order pg_uuid nullable None r = Ok true.
Proof using order_all.
  unfold policy_using.
  rewrite (any_true_total _ (λ d, match d with
                                  | SettingIsNull => true
                                  | TenantIsNull => bool_decide (r = None)
                                  | _ => false
                                  end)).
  - f_equal. apply existsb_true. exists SettingIsNull. by rewrite elem_of_terms.
  - by intros [] _.
Qed.

Lemma policy_using_empty nullable r :
  policy_using order pg_uuid nullable (Some "") r = Ok true ∨
  (pg_uuid "" = None ∧ order ≠ as_written ∧
   policy_using order pg_uuid nullable (Some "") r = Raise InvalidTextRepresentation).
Proof using order_all.
  destruct (pg_uuid "") as [t|] eqn:E.
  - left. unfold policy_using.
    rewrite (any_true_total _ (λ d, match d with
                                    | SettingIsNull => false
                                    | SettingIsEmpty => true
                                    | TenantIsNull => bool_decide (r = None)
                                    | TenantMatches => bool_decide (r = Some t)
                                    end)).
    + f_equal. apply existsb_true. exists SettingIsEmpty. by rewrite elem_of_terms.
    + intros [] _; cbn [disjunct]; rewrite ?E; done.
  - assert (∀ ds, SettingIsEmpty ∈ ds → any_true (disjunct pg_uuid (Some "") r) ds = Ok true ∨
              any_true (disjunct pg_uuid (Some "") r) ds = Raise InvalidTextRepresentation) as H.
    { induction ds as [|d ds IH]; intros Hd; [by apply elem_of_nil in Hd|]. cbn [any_true].
      destruct d; cbn [disjunct result_bind]; rewrite ?E; cbn [result_bind].
      - rewrite bool_decide_false by done. apply IH. set_solver.
      - left. done.
      - case_bool_decide; [by left|]. apply IH. set_solver.
      - by right. }
    destruct (decide (order = as_written)) as [->|Hne].
    + left. unfold policy_using. destruct nullable; cbn; reflexivity.
    + destruct (H (bfilter (λ d, nullable || negb (match d with TenantIsNull => true | _ => false end)) order))
        as [Hok|Hr]; [by rewrite elem_of_terms|by left|by right].
Qed.

Lemma filter_rows_ok {A} (p : A → result PgError bool) (f : A → bool) rows :
  (∀ r, p r = Ok (f r)) → filter_rows p rows = Ok (bfilter f rows).
Proof.
  intros H. induction rows as [|r rows IH]; [done|]. cbn [filter_rows]. rewrite H, IH. cbn [result_bind].
  unfold bfilter. cbn [filter list_filter]. by destruct (f r).
Qed.

Lemma dml_allowed p : p ∈ dml → bool_decide (p ∈ (list_to_set dml : gset string)) = true.
Proof. intros H. apply bool_decide_eq_true. by apply elem_of_list_to_set. Qed.

(** Reading and writing a table with a tenant column, in any session of the role. *)
Lemma select_tenant_table {A} setting t nullable (tenant_of : A → option uuid) rows :
  (t, Some nullable) ∈ model_tables →
  select {| as_api := true; setting := setting |} db t tenant_of rows =
    filter_rows (λ x, policy_using order pg_uuid nullable setting (tenant_of x)) rows.
Proof.
  intros Ht. unfold select_rows. rewrite (head_tenant_table has_vector role _ _ Ht). cbn -[policy_using filter_rows].
  rewrite head_usage, dml_allowed by by_decision. done.
Qed.

Lemma insert_tenant_table setting t nullable r :
  (t, Some nullable) ∈ model_tables →
  insert_row order pg_uuid {| as_api := true; setting := setting |} db t r =
    (let! b := policy_using order pg_uuid nullable setting r in if b : bool then Ok tt else Raise InsufficientPrivilege).
Proof.
  intros Ht. unfold insert_row. rewrite (head_tenant_table has_vector role _ _ Ht). cbn -[policy_using].
  rewrite head_usage, dml_allowed by by_decision. done.
Qed.

(** A table without a tenant column, to any session. *)
Lemma open_table_access {A} sess t (tenant_of : A → option uuid) rows r :
  tables db !! t = Some (open_table t) →
  select sess db t tenant_of rows = Ok rows ∧
  insert_row order pg_uuid sess db t r =
    (if as_api sess && String.eqb t "tenants" then Raise InsufficientPrivilege else Ok tt).
Proof.
  intros Ht. unfold select_rows, insert_row. rewrite Ht. destruct (as_api sess); [|done].
  cbn [negb tb_rls tb_grants open_table andb]. rewrite head_usage. cbn [andb].
  rewrite bool_decide_eq_true_2 by (destruct (String.eqb t "tenants"); by_decision). split; [done|].
  destruct (String.eqb t "tenants"); [rewrite bool_decide_eq_false_2 by by_decision|
    rewrite bool_decide_eq_true_2 by by_decision]; done.
Qed.

Lemma select_outside {A} sess t r (tenant_of : A → option uuid) rows x :
  tables db !! t = Some r → as_api sess = false →
  select sess db t tenant_of rows = Ok rows ∧ insert_row order pg_uuid sess db t x = Ok tt.
Proof. intros Ht Hs. unfold select_rows, insert_row. by rewrite Ht, Hs. Qed.

(** C39: The migrations isolate tenants, in whatever order the server evaluates the terms of the policy.  On
    the migrated database, with or without the vector extension and whether or not the server had the role: a
    table of the model with a tenant column is there, has row-level security forced and the policy; a session
    scoped to a tenant reads from it exactly the rows of that tenant (with those of no tenant where the column
    is nullable), and may insert a row exactly if it would see it; a session of the role without a setting,
    and one that keeps the connection's own role, read and write every row; and one scoped to the empty text
    does too, unless the server casts the setting first, which fails.  A table without a tenant column has no
    policy, and is there unless it is the one of vectors on a server without the extension; then every session
    reads all of it, and writes it unless it is the table of tenants and the session has the role. *)
Theorem migrations_isolate_tenants x :
  x ∈ model_tables →
  match x.2 with
  | Some nullable =>
      (∃ r, tables db !! x.1 = Some r ∧ tb_policy r = Some nullable ∧ tb_rls r = true ∧ tb_forced r = true) ∧
      ∀ A (tenant_of : A → option uuid) rows,
        (∀ s t, s ≠ "" → pg_uuid s = Some t →
           select (tenant_scope s) db x.1 tenant_of rows = Ok (bfilter (λ r, allowed nullable t (tenant_of r)) rows) ∧
           ∀ r, insert_row order pg_uuid (tenant_scope s) db x.1 r = Ok tt ↔ allowed nullable t r = true) ∧
        (∀ sess, as_api sess = false ∨ setting sess = None →
           select sess db x.1 tenant_of rows = Ok rows ∧ ∀ r, insert_row order pg_uuid sess db x.1 r = Ok tt) ∧
        (select (tenant_scope "") db x.1 tenant_of rows = Ok rows ∨
         (pg_uuid "" = None ∧ order ≠ as_written ∧
          select (tenant_scope "") db x.1 tenant_of rows = Raise InvalidTextRepresentation))
  | None =>
      (tables db !! x.1 = None ↔ has_vector = false ∧ x.1 = "memory_embeddings") ∧
      ∀ r, tables db !! x.1 = Some r →
        tb_policy r = None ∧
        ∀ A (tenant_of : A → option uuid) rows sess y,
          select sess db x.1 tenant_of rows = Ok rows ∧
          insert_row order pg_uuid sess db x.1 y =
            (if as_api sess && String.eqb x.1 "tenants" then Raise InsufficientPrivilege else Ok tt)
  end.
Proof using order_all.
  destruct x as [t [nullable|]]; intros Hx; cbn [fst snd].
  - split; [eexists; by rewrite (head_tenant_table has_vector role _ _ Hx)|].
    intros A tenant_of rows. split_and!.
    + intros s u Hs Hu. split.
      * unfold tenant_scope. rewrite (select_tenant_table _ _ nullable) by done.
        apply filter_rows_ok. intros r. by apply policy_using_setting.
      * intros r. unfold tenant_scope. rewrite (insert_tenant_table _ _ nullable) by done.
        rewrite (policy_using_setting _ _ u) by done. cbn. by destruct (allowed nullable u r).
    + intros [[] st] Hs; cbn in Hs; [destruct Hs as [Hs | ->]; [done|]|].
      * rewrite (select_tenant_table _ _ nullable) by done. split.
        -- rewrite (filter_rows_ok _ (λ _, true)); [by rewrite bfilter_all|]. intros. apply policy_using_unset.
        -- intros r. by rewrite (insert_tenant_table _ _ nullable), policy_using_unset.
      * pose proof (head_tenant_table has_vector role _ _ Hx) as Ht. split.
        -- by apply (select_outside _ t _ tenant_of rows None Ht).
        -- intros r. by apply (select_outside _ t _ (λ _ : A, None) rows r Ht).
    + unfold tenant_scope. rewrite (select_tenant_table _ _ nullable) by done.
      induction rows as [|y rows IH]; [by left|]. cbn [filter_rows].
      destruct (policy_using_empty nullable (tenant_of y)) as [->|(He & Ho & ->)]; [|by right].
      cbn [result_bind]. destruct IH as [->|(He & Ho & ->)]; [by left|by right].
  - pose proof (head_tables has_vector role _ Hx) as He. unfold expected_table in He. cbn [fst snd] in He.
    destruct (has_vector || negb (String.eqb t "memory_embeddings")) eqn:Ev; rewrite He.
    + split.
      * split; [done|]. intros [-> ->]. done.
      * intros r [= <-]. split; [done|]. intros. by apply open_table_access.
    + split; [|done]. split; [|done]. intros _. apply orb_false_iff in Ev as [-> Ev].
      split; [done|]. by apply negb_false_iff, String.eqb_eq in Ev.
Qed.

(** C32: The filter of the routes is the one of the server.  Whatever the setting is, also one that is no
    UUID, reading a table with a required tenant column through a scoped session of the migrated database
    gives what [ReviewApi.scoped] gives, row for row, or the error where that gives one; for a setting that is
    not the empty text in whatever order the server evaluates the policy, and for the empty text when it
    evaluates it as it is written. *)
Theorem scoped_is_row_level_security {A} t (tenant_of : A → uuid) s rows :
  (t, Some false) ∈ model_tables → s ≠ "" ∨ order = as_written →
  select (tenant_scope s) db t (λ r, Some (tenant_of r)) rows =
    match scoped pg_uuid tenant_of s rows with
    | Ok l => Ok l
    | Raise _ => Raise InvalidTextRepresentation
    end.
Proof using order_all.
  intros Ht Hs0. unfold tenant_scope. rewrite (select_tenant_table _ _ false) by done. unfold scoped.
  destruct (String.eqb_spec s "") as [->|Hs].
  { assert (order = as_written) as Hw by (destruct Hs0; done).
    induction rows as [|r rows IH]; [done|]. cbn [filter_rows].
    destruct (policy_using_empty false (Some (tenant_of r))) as [->|(_ & Hne & _)]; [|done].
    cbn [result_bind]. by rewrite IH. }
  destruct (pg_uuid s) as [u|] eqn:Hu.
  - rewrite (filter_rows_ok _ (λ r, String.eqb (tenant_of r) u)); [by destruct rows|].
    intros r. rewrite (policy_using_setting _ _ u) by done. unfold allowed. rewrite orb_false_r. f_equal.
    destruct (String.eqb_spec (tenant_of r) u) as [->|Hne]; [by rewrite bool_decide_eq_true_2|].
    rewrite bool_decide_eq_false_2; [done|]. by intros [= ?].
  - destruct rows as [|r rows]; [done|]. cbn [filter_rows]. unfold policy_using.
    rewrite (any_true_fails _ _ InvalidTextRepresentation); [done| |].
    + exists TenantMatches. rewrite elem_of_terms. cbn [disjunct]. by rewrite Hu.
    + intros [] Hd; cbn [disjunct]; rewrite ?Hu; [by left|left|left; done|by right].
      rewrite bool_decide_eq_false_2; [done|congruence].
Qed.
End isolation.

(** ** Between the migrations, and back *)

Definition at_0001 : Catalog := ok_or (fresh_database false) (upgrade_0001 true (fresh_database false)).

Definition at_0002 (role : bool) : Catalog :=
  ok_or (fresh_database role) (let! c := upgrade_0001 true (fresh_database role) in upgrade_0002 c).

Definition closed_table : Table :=
  {| tb_tenant_column := false; tb_rls := true; tb_forced := false; tb_policy := None; tb_grants := {["SELECT"]} |}.

(** After 0002 and before 0003 the tables without a tenant are closed: a read answers no rows, without an
    error, and an insertion is refused. *)
Lemma linked_tables_closed_at_0002 order pg_uuid role s t (row : option uuid) :
  t ∈ _API_WRITABLE_FK_TABLES →
  (let! c := upgrade_0001 true (fresh_database role) in upgrade_0002 c) = Ok (at_0002 role) ∧
  select_rows order pg_uuid (tenant_scope s) (at_0002 role) t (λ r : option uuid, r) [row] = Ok [] ∧
  insert_row order pg_uuid (tenant_scope s) (at_0002 role) t row = Raise InsufficientPrivilege.
Proof.
  intros Ht. split; [destruct role; vm_compute; reflexivity|].
  assert (schema_usage (at_0002 role) = true) as Hu by (destruct role; vm_compute; reflexivity).
  assert (Forall (λ t, tables (at_0002 role) !! t = Some closed_table) _API_WRITABLE_FK_TABLES) as H.
  { destruct role; apply (bool_decide_unpack _); vm_compute; exact I. }
  rewrite Forall_forall in H. unfold select_rows, insert_row. rewrite (H t Ht), Hu. by split.
Qed.

Definition downgrade_all (c : Catalog) : result PgError Catalog :=
  let! c := downgrade_0003 c in
  let! c := downgrade_0002 c in
  downgrade_0001 c.

(** The migrations can be undone where the vector extension is.  Each downgrade of the migrated
    database gives back the database before the upgrade, down to the empty one.  Without the extension
    the table of embeddings is missing, the upgrades skip it, and the first downgrade fails on it. *)
Theorem migrations_undone :
  (upgrade_0001 true (fresh_database false) = Ok at_0001 ∧ upgrade_0002 at_0001 = Ok (at_0002 false) ∧
   upgrade_0003 (at_0002 false) = Ok (head true false) ∧
   downgrade_0003 (head true false) = Ok (at_0002 false) ∧ downgrade_0002 (at_0002 false) = Ok at_0001 ∧
   downgrade_0001 at_0001 = Ok (fresh_database false)) ∧
  (∀ role, upgrade_head false (fresh_database role) = Ok (head false role) ∧
     downgrade_all (head false role) = Raise UndefinedTable).
Proof.
  split; [by_decision|].
  intros role. split; [apply upgrade_head_ok|]. destruct role; by_decision.
Qed.

(** A second run of 0002 fails on the policies of the first. *)
Lemma upgrade_0002_not_repeatable has_vector role : upgrade_0002 (head has_vector role) = Raise DuplicateObject.
Proof. destruct has_vector, role; vm_compute; reflexivity. Qed.

(** ** Witnesses *)

Definition sample_tenants : list (option uuid) := [Some "t"; Some "u"; None].

(** A server that casts the setting before it looks whether it is empty. *)
Definition cast_first : list Disjunct := [TenantMatches; SettingIsNull; SettingIsEmpty; TenantIsNull].

Lemma cast_first_all : cast_first ≡ₚ as_written.
Proof. unfold cast_first, as_written. solve_Permutation. Qed.

Lemma migrations_isolate_tenants_witness :
  select_rows cast_first Some (tenant_scope "t") (head true false) "detector_lifecycle" (λ r, r) sample_tenants =
    Ok (bfilter (allowed true "t") sample_tenants) ∧
  bfilter (allowed true "t") sample_tenants = [Some "t"; None].
Proof.
  split; [|reflexivity].
  destruct (migrations_isolate_tenants cast_first cast_first_all Some true false ("detector_lifecycle", Some true)
    ltac:(by_decision)) as [_ H].
  destruct (H _ (λ r, r) sample_tenants) as [Hs _]. apply (Hs "t" "t" ltac:(discriminate) eq_refl).
Defined.

Lemma scoped_is_row_level_security_witness :
  select_rows cast_first Some (tenant_scope "t") (head false true) "runs" (λ r : uuid, Some r) ["t"; "u"; "t"] =
    Ok ["t"; "t"].
Proof.
  rewrite (scoped_is_row_level_security cast_first cast_first_all Some false true "runs" (λ r, r) "t" ["t"; "u"; "t"]
    ltac:(by_decision) ltac:(left; discriminate)).
  reflexivity.
Defined.
