(* ===== verification/Agents.v ===== *)
(** * The agents of the harness

    Models [harness/agents/]: the configuration of the model, the agents and their gated tools, the run
    of a task ([base.py], [itsm_triage.py], [itsm_resolver.py], [generic_executor.py]), and the modes of
    [harness/main.py].  The agent framework (AG2) and the model behind it are not part of the repository:
    what they do in a chat is an arbitrary list of attempts to call registered functions, and an
    arbitrary history of messages. *)

From Stdlib Require Import ZArith Lia Ascii.
From Stdlib Require String.
From stdpp Require Import base tactics option list strings gmap sets.
From S2P Require Import Prelude PyStr Float64 Json Verdicts Events Budget Gate Ipc Bridge Store Dispatch Sdk Rules DetJudged Runner Tools.

Local Open Scope Z_scope.

(** ** The model's configuration *)

Record LlmConfig := {
  api_type : string;
  model : string;
  base_url : option string;
  api_key : string
}.

(** [EnvVarBackend.get] *)
Definition get_secret (name : string) (environ : list (string * string)) : option string := dget name environ.

(** [SecretsBackend.require] *)
Definition require_secret (name : string) (environ : list (string * string)) : result PyExn string :=
  match get_secret name environ with
  | Some v => if str_truthy v then Ok v else raise "SecretNotFoundError" (py_repr_str name)
  | None => raise "SecretNotFoundError" (py_repr_str name)
  end.

(** [get_secrets_backend]: only the environment is implemented. *)
Definition get_secrets_backend (backend : string) : result PyExn (string → list (string * string) → option string) :=
  if String.eqb backend "env" then Ok get_secret
  else raise "NotImplementedError" ("secrets backend " +:+ py_repr_str backend +:+ " not implemented in v1 (use 'env')").

Definition build_llm_config (environ : list (string * string)) (litellm_base_url : option string)
    (agent_model : string) : LlmConfig :=
  let key := match get_secret "ANTHROPIC_API_KEY" environ with
             | Some k => if str_truthy k then k else "not-needed"
             | None => "not-needed"
             end in
  let proxy_url := rstrip_in "/" (strip (default "" litellm_base_url)) in
  if str_truthy proxy_url
  then {| api_type := "openai"; model := agent_model; base_url := Some (proxy_url +:+ "/v1"); api_key := key |}
  else {| api_type := "anthropic"; model := agent_model; base_url := None; api_key := key |}.

(** ** Agents and their functions *)

(** What is registered for execution, by name; and the names the model is told of. *)
Record Agent := {
  agent_name : string;
  functions : list (string * Tool);
  exposed : list string
}.

(** Registering a gated tool, under its catalogue name: the last one of a name stays. *)
Definition register (a : Agent) (fn : Tool) : Agent :=
  let name := meta_name (tool_meta fn) in
  {| agent_name := agent_name a; functions := dset name fn (functions a);
     exposed := if bool_decide (name ∈ exposed a) then exposed a else exposed a ++ [name] |}.

Definition build_gated_agent (name : string) (tools : list Tool) : Agent :=
  foldl register {| agent_name := name; functions := []; exposed := [] |} tools.

Section agents.
(** The sandbox, and the digits of a new ticket. *)
Context (sb : path) (ticket : string).

Definition build_triage_agent : Agent :=
  build_gated_agent "itsm_triage" [kb_search; create_ticket ticket; query_employee].

Definition build_resolver_agent : Agent :=
  build_gated_agent "itsm_resolver" [reset_password; send_email; kb_search].

Definition build_generic_agent : Agent :=
  build_gated_agent "generic_executor" [http_get; http_post; file_read_tool sb; file_write_tool sb].

(** The executor of [run_agent_task]; an empty list of tools is the default one. *)
Definition task_agent (tools : list Tool) : Agent :=
  build_gated_agent "executor"
    (match tools with
     | [] => [kb_search; http_get; http_post; file_read_tool sb; file_write_tool sb; send_email]
     | _ => tools
     end).

(** ** A chat *)

(** The framework calls a function by its name; a name that is not registered runs nothing. *)
Record Attempt := {
  at_name : string;
  at_kwargs : list (string * json);
  at_now : Z;
  at_reply : Reply;
  at_span : uuid;
  at_start : uuid * Z;
  at_end : uuid * Z
}.

Definition gated (agent_id : uuid) (a : Agent) (x : Attempt) : option Call :=
  tool ← dget (at_name x) (functions a);
  Some {| c_agent := agent_id; c_tool := tool; c_kwargs := at_kwargs x; c_now := at_now x; c_reply := at_reply x;
          c_span := at_span x; c_start := at_start x; c_end := at_end x |}.

Definition chat (t : Telemetry) (timeout : Z) (agent_id : uuid) (a : Agent) (attempts : list Attempt)
    (s : Stream) (fs : Fs) : Fs * list WireEvent * list CallEnd :=
  session t timeout (omap (gated agent_id a) attempts) s fs.

(** [_is_done]: the text of the content, when it is truthy. *)
Definition _is_done (message : list (string * json)) : bool :=
  let content := jget "content" message in
  contains "TERMINATE" (if py_truthy content then py_str content else "").

(** The text [run_agent_task] returns: that of the last message, [None] included. *)
Definition final_text (history : list (list (string * json))) : string :=
  match last history with
  | Some m => py_str (default (JStr "") (dget "content" m))
  | None => ""
  end.

(** The group chat of a ticket: each turn is the triage agent's or ([false]) the resolver's. *)
Definition itsm_calls (triage_id resolver_id : uuid) (turns : list (bool * Attempt)) : list Call :=
  omap (λ '(triage, x), if triage : bool then gated triage_id build_triage_agent x
                        else gated resolver_id build_resolver_agent x) turns.

(** [run_itsm_groupchat]: the last message of the group, else of the user's own history. *)
Definition run_itsm_groupchat (t : Telemetry) (timeout : Z) (triage_id resolver_id : uuid) (turns : list (bool * Attempt))
    (messages chat_history : list (list (string * json))) (s : Stream) (fs : Fs) : Fs * list WireEvent * string :=
  let '(fs, evs, _) := session t timeout (itsm_calls triage_id resolver_id turns) s fs in
  (fs, evs, match messages with [] => final_text chat_history | _ => final_text messages end).

(** ** The modes ([main.py]) *)

(** The fresh identifiers and clock readings of an intent event: span, event, nanoseconds. *)
Record Stamp := { st_span : uuid; st_event : uuid; st_ns : Z }.

Definition declare_intent (t : Telemetry) (agent_id : uuid) (intent : string) (plan : list string) (st : Stamp)
    : WireEvent :=
  intent_event t agent_id intent plan (st_span st) (st_event st) (st_ns st).

(** [_run_agent]: the task is declared, the agent works, its answer is declared. *)
Definition _run_agent (t : Telemetry) (timeout : Z) (agent_id : uuid) (task : string) (st1 st2 : Stamp)
    (attempts : list Attempt) (history : list (list (string * json))) (s : Stream) (fs : Fs)
    : Fs * list WireEvent :=
  let '(fs, evs, _) := chat t timeout agent_id (task_agent []) attempts s fs in
  let response_text := strip (final_text history) in
  (fs, [declare_intent t agent_id task [task] st1] ++ evs ++
       (if str_truthy response_text
        then [declare_intent t agent_id ("[response] " +:+ take_str 3500 response_text) [] st2] else [])).

(** How the scripted mode ends. *)
Inductive Ended := Clean | RaisedDenied (reasons : list string) | RaisedLost (e : GateError).

(** The three calls of [_run_scripted], as the gate's answers let them go. *)
Definition _run_scripted (kb ticket_call shell : CallOutcome) : Ended :=
  match kb with
  | Denied rs => RaisedDenied rs
  | Uncaught e => RaisedLost e
  | Proceeds _ =>
      match ticket_call with
      | Denied rs => RaisedDenied rs
      | Uncaught e => RaisedLost e
      | Proceeds _ => match shell with Uncaught e => RaisedLost e | _ => Clean end
      end
  end.

(** The status of the process: an exception that leaves [amain] is a status of 1, as is a failed connection. *)
Definition exit_status (connected : bool) (e : Ended) : Z :=
  if connected then match e with Clean => 0 | _ => 1 end else 1.
End agents.

(** ** An agent keeps to its tools *)

Lemma build_gated_functions name tools n tool :
  dget n (functions (build_gated_agent name tools)) = Some tool → tool ∈ tools ∧ n = meta_name (tool_meta tool).
Proof.
  unfold build_gated_agent. induction tools as [|fn tools IH] using rev_ind; [done|].
  rewrite foldl_snoc. cbn [functions register]. rewrite dget_dset. case_decide as Hd.
  - intros [= <-]. split; [apply elem_of_app; right; by apply list_elem_of_singleton|done].
  - intros H. destruct (IH H) as [? ?]. split; [apply elem_of_app; by left|done].
Qed.

Lemma gated_tool agent_id name tools (attempts : list Attempt) c :
  c ∈ (omap (gated agent_id (build_gated_agent name tools)) attempts : list Call) → c_tool c ∈ tools.
Proof.
  intros (x & _ & Hx)%list_elem_of_omap. unfold gated in Hx.
  destruct (dget _ _) as [tool|] eqn:E; [|done]. injection Hx as <-. by apply build_gated_functions in E as [? _].
Qed.

Section sessions.
Context (t : Telemetry) (timeout : Z).

(** The tools a list of events says were called. *)
Definition names_in (names : list string) (ev : WireEvent) : Prop :=
  match w_payload ev with WToolCallStart _ name _ _ _ _ => name ∈ names | _ => True end.

Lemma call_events (P : WireEvent → Prop) c s fs s' fs' evs e :
  P (call_start t c) → (∀ st er su, P (call_end t c st er su)) → call t timeout c s fs = (s', fs', evs, e) → Forall P evs.
Proof.
  intros H1 H2. unfold call. destruct (tool_call _ _ _ _) as [s0 [d|rs|x]].
  - destruct (call_fn _ _ _) as [fs0 [v|ex]]; intros [= _ _ <- _]; by repeat constructor.
  - intros [= _ _ <- _]. by repeat constructor.
  - intros [= _ _ <- _]. by repeat constructor.
Qed.

Lemma session_events (P : WireEvent → Prop) calls s fs fs' evs es :
  (∀ c, c ∈ calls → P (call_start t c) ∧ ∀ st er su, P (call_end t c st er su)) →
  session t timeout calls s fs = (fs', evs, es) → Forall P evs.
Proof.
  revert s fs fs' evs es. induction calls as [|c calls IH]; intros s fs fs' evs es Hc; [by intros [= _ <- _]|].
  cbn [session]. destruct (call t timeout c s fs) as [[[s1 fs1] evs1] e1] eqn:Ec.
  destruct (session t timeout calls s1 fs1) as [[fs2 evs2] es2] eqn:Es. intros [= _ <- _].
  destruct (Hc c ltac:(left)) as [H1 H2]. apply Forall_app. split; [by eapply call_events|].
  eapply IH; [|done]. intros c' Hc'. apply Hc. by right.
Qed.

(** A tool that leaves the files alone, whatever it is called with. *)
Definition keeps_files (tool : Tool) : Prop := ∀ kwargs fs, (call_fn tool kwargs fs).1 = fs.

Lemma answering_keeps m ps f : keeps_files {| tool_meta := m; params := ps; tool_body := answer f |}.
Proof. intros kwargs fs. unfold call_fn. destruct (existsb _ _); [done|]. by destruct (bind_args _ _). Qed.

Lemma session_keeps calls s fs fs' evs es :
  (∀ c, c ∈ calls → keeps_files (c_tool c)) → session t timeout calls s fs = (fs', evs, es) → fs' = fs.
Proof.
  revert s fs fs' evs es. induction calls as [|c calls IH]; intros s fs fs' evs es Hc; [by intros [= <- _ _]|].
  cbn [session]. destruct (call t timeout c s fs) as [[[s1 fs1] evs1] e1] eqn:Ec.
  destruct (session t timeout calls s1 fs1) as [[fs2 evs2] es2] eqn:Es. intros [= <- _ _].
  assert (fs1 = fs) as ->.
  { pose proof (Hc c ltac:(left) (c_kwargs c) fs) as Hk. unfold call in Ec.
    destruct (tool_call _ _ _ _) as [s0 [d|rs|x]]; [|by injection Ec..].
    destruct (call_fn _ _ _) as [fs0 [v|ex]]; injection Ec as _ <- _ _; exact Hk. }
  eapply IH; [|done]. intros c' Hc'. apply Hc. by right.
Qed.
End sessions.

Section keep.
Context (sb : path) (ticket : string) (t : Telemetry) (timeout : Z) (agent_id : uuid).

Lemma chat_within name tools attempts s fs fs' evs es :
  (∀ tool, tool ∈ tools → tool ∈ _ALL_TOOLS sb ticket) →
  chat t timeout agent_id (build_gated_agent name tools) attempts s fs = (fs', evs, es) → [] ∉ links fs →
  Forall (names_in (map (λ f, meta_name (tool_meta f)) tools)) evs ∧ confined sb fs fs'.
Proof.
  intros Hall Hc Hroot. unfold chat in Hc. split.
  - eapply session_events; [|exact Hc]. intros c Hin%gated_tool. split; [|done].
    cbn. apply elem_of_map. by exists (c_tool c).
  - eapply (session_effect sb ticket); [exact Hc| |done]. intros c Hin%gated_tool. by apply Hall.
Qed.

(** The names of the tools of the agents. *)
Definition triage_tools : list string := ["kb_search"; "create_ticket"; "query_employee"].
Definition resolver_tools : list string := ["reset_password"; "send_email"; "kb_search"].
Definition generic_tools : list string := ["http_get"; "http_post"; "file_read"; "file_write"].
Definition general_tools : list string := ["kb_search"; "http_get"; "http_post"; "file_read"; "file_write"; "send_email"].

(** C20: Each agent of the harness keeps to its tools.  Whatever functions the model asks for, with whatever
    arguments and whatever the gate answers: every call the auditor is told of is of a tool of that agent,
    and so never of the shell; the help-desk agents leave the file system as it is, and the others change
    it under the sandbox only. *)
Theorem agents_keep_to_their_tools attempts s fs fs' evs es :
  [] ∉ links fs →
  (chat t timeout agent_id (build_triage_agent ticket) attempts s fs = (fs', evs, es) →
     Forall (names_in triage_tools) evs ∧ fs' = fs) ∧
  (chat t timeout agent_id build_resolver_agent attempts s fs = (fs', evs, es) →
     Forall (names_in resolver_tools) evs ∧ fs' = fs) ∧
  (chat t timeout agent_id (build_generic_agent sb) attempts s fs = (fs', evs, es) →
     Forall (names_in generic_tools) evs ∧ confined sb fs fs') ∧
  (chat t timeout agent_id (task_agent sb []) attempts s fs = (fs', evs, es) →
     Forall (names_in general_tools) evs ∧ confined sb fs fs') ∧
  ∀ names, names ∈ [triage_tools; resolver_tools; generic_tools; general_tools] → "exec_shell" ∉ names.
Proof.
  intros Hroot. split_and!.
  - intros Hc. split.
    + eapply (chat_within _ [kb_search; create_ticket ticket; query_employee]); [|exact Hc|done].
      unfold _ALL_TOOLS. set_solver.
    + eapply session_keeps; [|exact Hc]. intros c Hin%gated_tool.
      repeat (apply elem_of_cons in Hin as [->|Hin]; [apply answering_keeps|]). by apply elem_of_nil in Hin.
  - intros Hc. split.
    + eapply (chat_within _ [reset_password; send_email; kb_search]); [|exact Hc|done]. unfold _ALL_TOOLS. set_solver.
    + eapply session_keeps; [|exact Hc]. intros c Hin%gated_tool.
      repeat (apply elem_of_cons in Hin as [->|Hin]; [apply answering_keeps|]). by apply elem_of_nil in Hin.
  - intros Hc. eapply (chat_within _ [http_get; http_post; file_read_tool sb; file_write_tool sb]); [|exact Hc|done].
    unfold _ALL_TOOLS. set_solver.
  - intros Hc. eapply (chat_within _ [kb_search; http_get; http_post; file_read_tool sb; file_write_tool sb; send_email]);
      [|exact Hc|done]. unfold _ALL_TOOLS. set_solver.
  - intros names Hn. repeat (apply elem_of_cons in Hn as [->|Hn]; [by_decision|]). by apply elem_of_nil in Hn.
Qed.

(** However the two agents of a group chat take turns, the tools that are called are theirs, and no file is
    touched. *)
Lemma groupchat_keeps_files triage_id resolver_id turns messages history s fs fs' evs text :
  run_itsm_groupchat ticket t timeout triage_id resolver_id turns messages history s fs = (fs', evs, text) →
  fs' = fs ∧ Forall (names_in (triage_tools ++ resolver_tools)) evs.
Proof.
  unfold run_itsm_groupchat. destruct (session _ _ _ s fs) as [[fs1 evs1] es] eqn:Es. intros [= <- <- _].
  assert (∀ c, c ∈ itsm_calls ticket triage_id resolver_id turns →
    c_tool c ∈ [kb_search; create_ticket ticket; query_employee] ++ [reset_password; send_email; kb_search]) as Hc.
  { intros c ([triage x] & _ & Hx)%list_elem_of_omap. apply elem_of_app.
    destruct triage; [left; eapply (gated_tool triage_id "itsm_triage" _ [x])|right; eapply (gated_tool resolver_id "itsm_resolver" _ [x])];
      apply list_elem_of_omap; exists x; (split; [left|exact Hx]). }
  split.
  - eapply session_keeps; [|exact Es]. intros c Hin%Hc. cbn [app] in Hin.
    repeat (apply elem_of_cons in Hin as [->|Hin]; [apply answering_keeps|]). by apply elem_of_nil in Hin.
  - eapply session_events; [|exact Es]. intros c Hin%Hc. split; [|done]. unfold names_in, call_start. cbn.
    apply (list_elem_of_fmap_2 (λ f, meta_name (tool_meta f))) in Hin. exact Hin.
Qed.
End keep.

(** ** The instruction of a run is kept *)

Section instruction.
Context (redact : string → string) (detect : string → list string).
Context {G : Type} (decide_event : list (string * json) → string → G → G * result PyExn GateOutcome).
Notation Disp := (Dispatcher G Db).
Notation db := Dispatch.db.
Notation steps := (foldl (db_step redact detect true)).

(** What a frame does to the tables, by the operations of the store. *)
Definition by_ops (db db' : Db) : Prop := ∃ ops, db' = steps db ops.

#[export] Instance by_ops_preorder : PreOrder by_ops.
Proof.
  split; [intros db; by exists []|]. intros db1 db2 db3 [o1 ->] [o2 ->]. exists (o1 ++ o2). by rewrite foldl_app.
Qed.

Lemma by_op op db : by_ops db (db_step redact detect true db op).
Proof. by exists [op]. Qed.

Section frame.
Context (now : datetime) (fresh : uuid).
#[local] Instance store_at : RunStore Db := Db_store redact detect now fresh.

Lemma ensure_by_ops rid tid (s : Disp) : by_ops (db s) (db (_ensure_run_row rid tid s)).
Proof.
  unfold _ensure_run_row. destruct rid as [| | | |r| |], tid as [| | | |t| |]; try done.
  destruct (_ || _); [done|]. destruct (parse_id r) as [ru|e]; [|done]. destruct (parse_id t) as [tu|e]; [|done].
  pose proof (by_op (OpUpsert ru tu None) (db s)) as Hop. cbn [db_step] in Hop.
  cbn [db_upsert_run store_at Db_store]. destruct (upsert_run ru tu None (db s)) as [d o]. cbn [fst] in Hop.
  destruct (is_ok o); exact Hop.
Qed.

Lemma store_event_by_ops e d : by_ops d (store_event redact detect true e now fresh d).1.
Proof. exact (by_op (OpEvent e now fresh) d). Qed.

Lemma frame_by_ops f (s : Disp) : by_ops (db s) (db (on_frame decide_event f s).1).
Proof.
  destruct f as [ev|ev| |]; [..|done|done]; cbn [on_frame].
  - unfold _store. destruct (event_to_dict ev) as [d|e]; [|done].
    set (s1 := _ensure_run_row _ _ s). pose proof (ensure_by_ops (jget "run_id" d) (jget "tenant_id" d) s) as H1.
    cbn [db_store_event store_at Db_store]. pose proof (store_event_by_ops d (db s1)) as H2.
    destruct (store_event redact detect true d now fresh (db s1)) as [d2 o]. cbn [fst] in H2.
    assert (by_ops (db s) d2) as H12 by (etrans; [exact H1|exact H2]).
    destruct o as [eid|e]; [|exact H12]. case_bool_decide; [|exact H12].
    destruct (jget "run_id" d) as [| | | |r| |]; try exact H12.
    destruct (jget "intent" d) as [| | | |i| |]; try exact H12.
    destruct (_ && _); [|exact H12]. destruct (parse_id r) as [ru|e]; [|exact H12].
    etrans; [exact H12|]. exact (by_op (OpGoal ru i) d2).
  - unfold _gate. destruct (event_to_dict ev) as [d|e]; [|done].
    set (s1 := _ensure_run_row _ _ s). pose proof (ensure_by_ops (jget "run_id" d) (jget "tenant_id" d) s) as H1.
    cbn [db_store_event store_at Db_store]. pose proof (store_event_by_ops d (db s1)) as H2.
    destruct (store_event redact detect true d now fresh (db s1)) as [d2 o]. cbn [fst] in H2.
    assert (by_ops (db s) d2) as H12 by (etrans; [exact H1|exact H2]).
    destruct (decide_event d _ _) as [g' [outcome|e]]; [|exact H12].
    destruct o as [eid|e]; [|exact H12]. cbn [fst with_db db db_store_gate_decision store_at Db_store].
    etrans; [exact H12|]. pose proof (by_op (OpDecision eid (g_decision outcome) (g_votes outcome) 0 fresh) d2) as H3.
    cbn [db_step] in H3. by destruct (store_gate_decision eid _ _ 0 fresh d2) as [d3 o3].
Qed.
End frame.

Lemma by_ops_runs db db' : by_ops db db' → runs_ok db → runs_ok db' ∧ run_steps db db'.
Proof.
  intros [ops ->] Hok. induction ops as [|op ops IH] using rev_ind; [split; [done|]; intros rid r Hr; by exists r|].
  rewrite foldl_snoc. destruct IH as [H1 H2]. destruct (db_step_runs redact detect true op _ H1) as [H3 H4].
  split; [done|]. intros rid r Hr. destruct (H2 _ _ Hr) as (r1 & Hr1 & He1).
  destruct (H4 _ _ Hr1) as (r2 & Hr2 & He2). exists r2. split; [done|]. by etrans.
Qed.

(** The frames of a connection, each handled at its time with its fresh identifier. *)
Definition on_frames (frames : list (datetime * uuid * Frame)) (s : Disp) : Disp :=
  foldl (λ s x, (@on_frame G Db (Db_store redact detect x.1.1 x.1.2) decide_event x.2 s).1) s frames.

Lemma frames_by_ops frames (s : Disp) : by_ops (db s) (db (on_frames frames s)).
Proof.
  unfold on_frames. induction frames as [|[[now fresh] f] frames IH] using rev_ind; [done|].
  rewrite foldl_snoc. etrans; [exact IH|]. apply frame_by_ops.
Qed.

Lemma event_row_run rar e now fresh row :
  event_row redact detect rar e now fresh = Ok row → uuid_of (jget "run_id" e) = Ok (er_run_id row).
Proof.
  unfold event_row. destruct (_redact_payload _ _ _ _) as [stored n]. intros (eid & _ & H)%result_bind_ok.
  apply result_bind_ok in H as (rid & Hk & H). apply result_bind_ok in H as (ru & Hru & H).
  repeat (apply result_bind_ok in H as (? & _ & H)).
  unfold at_key in Hk. unfold jget. destruct (dget "run_id" e) as [v|]; [|done]. injection Hk as ->.
  cbn [default from_option id]. repeat case_match; simplify_eq; done.
Qed.

Lemma ensure_rows now fresh rid tid (s : Disp) :
  let s1 := @_ensure_run_row G Db (Db_store redact detect now fresh) rid tid s in
  event_rows (db s1) = event_rows (db s) ∧
  ∀ i r, runs (db s1) !! i = Some r → runs (db s) !! i = Some r ∨ (runs (db s) !! i = None ∧ run_declared_goal r = None).
Proof.
  unfold _ensure_run_row. destruct rid as [| | | |r| |], tid as [| | | |t| |]; cbv zeta; try (split; [done|by left]).
  destruct (_ || _); [split; [done|by left]|].
  destruct (parse_id r) as [ru|e]; [|split; [done|by left]]. destruct (parse_id t) as [tu|e]; [|split; [done|by left]].
  cbn [db_upsert_run Db_store]. unfold upsert_run. destruct (runs (db s) !! ru) eqn:Er.
  { cbn [is_ok]. split; [done|by left]. }
  case_bool_decide; cbn [is_ok with_known with_db db set_run event_rows runs]; (split; [done|]); [|by left].
  intros i x. cbn [Store.run_id]. rewrite lookup_insert. case_decide as Hd; [|by left]. intros [= <-]. subst. by right.
Qed.

(** The row a frame that declares an instruction leaves. *)
Lemma declared_goal_recorded now fresh t agent_id intent plan st (s : Disp) :
  canonical (tl_run_id t) → str_truthy intent = true → runs_ok (db s) →
  let ev := declare_intent t agent_id intent plan st in
  let s' := (@on_frame G Db (Db_store redact detect now fresh) decide_event (FEvent ev) s).1 in
  event_rows (db s') ≠ event_rows (db s) →
  (∀ r, runs (db s) !! tl_run_id t = Some r → ostr_truthy (run_declared_goal r) = false) →
  ∃ r, runs (db s') !! tl_run_id t = Some r ∧ run_declared_goal r = Some (take_str 1000 intent).
Proof.
  intros Hcan Hint Hok ev s' Hrow Hgoal. subst s'. revert Hrow. cbn [on_frame]. unfold _store.
  set (d := base_dict (w_base ev) ++ [("agent_id", or_none agent_id); ("intent", JStr intent); ("plan_steps", str_list plan)]).
  assert (event_to_dict ev = Ok d) as -> by (apply event_to_dict_app; eexists; split; reflexivity).
  change (jget "run_id" d) with (JStr (tl_run_id t)). change (jget "event_type" d) with (JStr "intent.declare").
  change (jget "intent" d) with (JStr intent).
  set (s1 := _ensure_run_row _ _ s). destruct (ensure_rows now fresh (JStr (tl_run_id t)) (jget "tenant_id" d) s) as [He Hr].
  fold s1 in He, Hr. cbn [db_store_event Db_store]. unfold store_event.
  destruct (event_row redact detect true d now fresh) as [row|e] eqn:Erow.
  2: { intros Hrow. exfalso. apply Hrow. exact He. }
  apply event_row_run in Erow. change (jget "run_id" d) with (JStr (tl_run_id t)) in Erow.
  cbn [uuid_of] in Erow. rewrite Hcan in Erow. injection Erow as Erow.
  destruct (bool_decide (er_event_id row ∈ _) || _ || _) eqn:Eb.
  { intros Hrow. exfalso. apply Hrow. exact He. }
  intros _. apply orb_false_iff in Eb as [[_ Eb]%orb_false_iff _]. apply negb_false_iff, bool_decide_eq_true in Eb.
  rewrite <-Erow in Eb. destruct Eb as [r1 Hr1]. rewrite bool_decide_true by done.
  rewrite (canonical_truthy _ Hcan), Hint. cbn [andb]. unfold parse_id, uuid_of. rewrite Hcan.
  cbn [fst with_db db db_update_goal Db_store]. unfold update_run_declared_goal. cbn [runs]. rewrite Hr1.
  assert (ostr_truthy (run_declared_goal r1) = false) as ->.
  { destruct (Hr _ _ Hr1) as [H|[_ H]]; [by apply Hgoal|by rewrite H]. }
  cbn [set_run runs Store.run_id].
  assert (runs_ok (db s1)) as Hok1 by (eapply (by_ops_runs (db s)); [apply ensure_by_ops|done]).
  destruct (Hok1 _ _ Hr1) as [Hid _]. rewrite Hid. eexists. split; [apply lookup_insert_eq|done].
Qed.

Lemma take_str_truthy n s : (0 < n)%nat → str_truthy s = true → str_truthy (take_str n s) = true.
Proof. destruct n, s; by try lia. Qed.

(** The instruction of a run is kept.  When the auditor stores the declaration of its task, and the run
    had no goal, the task (its first thousand characters) is the goal of the run, and stays it through
    everything the auditor is sent afterwards, by whatever client: declarations of other intents, the
    agent's own answer among them, tool calls, frames of other runs. *)
Theorem instruction_kept now fresh t agent_id task plan st (s : Disp) frames :
  canonical (tl_run_id t) → str_truthy task = true → runs_ok (db s) →
  (∀ r, runs (db s) !! tl_run_id t = Some r → ostr_truthy (run_declared_goal r) = false) →
  let ev := FEvent (declare_intent t agent_id task plan st) in
  let s' := (@on_frame G Db (Db_store redact detect now fresh) decide_event ev s).1 in
  event_rows (db s') ≠ event_rows (db s) →
  (∃ r, runs (db (on_frames frames s')) !! tl_run_id t = Some r ∧
        run_declared_goal r = Some (take_str 1000 task)) ∧
  runs_ok (db (on_frames frames s')).
Proof.
  intros Hcan Htask Hok Hgoal ev s' Hrow.
  destruct (declared_goal_recorded now fresh t agent_id task plan st s Hcan Htask Hok Hrow Hgoal) as (r & Hr & Hg).
  assert (runs_ok (db s')) as Hok' by (eapply (by_ops_runs (db s)); [apply frame_by_ops|done]).
  destruct (by_ops_runs _ _ (frames_by_ops frames s') Hok') as [H1 H2]. split; [|done].
  destruct (H2 _ _ Hr) as (r' & Hr' & _ & _ & He). exists r'. split; [done|]. rewrite He; [done|].
  rewrite Hg. change (str_truthy (take_str 1000 task) = true). apply take_str_truthy; [lia|done].
Qed.
End instruction.

(** ** The answer of an agent *)

(** The declared answer is what the judge of instructions reads as an output. *)
Lemma response_is_output e agent_id text :
  body e = EIntentDeclaration {| intent_agent_id := agent_id; intent := "[response] " +:+ text; plan_steps := [] |} →
  output_of e = Some text.
Proof.
  intros H. unfold output_of. rewrite H. cbn [intent]. unfold response_prefix.
  change (starts_with "[response] " ("[response] " +:+ text)) with (starts_with "" text).
  change (drop_str _ ("[response] " +:+ text)) with (drop_str 0 text). by destruct text.
Qed.

(** So is a task that happens to begin like one. *)
Example task_read_as_output e agent_id :
  body e = EIntentDeclaration {| intent_agent_id := agent_id; intent := "[response] all done"; plan_steps := ["x"] |} →
  output_of e = Some "all done".
Proof. intros H. unfold output_of. by rewrite H. Qed.

(** A chat cut off at a tool call answers with the text of a missing content. *)
Example cut_off_answers_none : final_text [[("role", JStr "assistant"); ("content", JNull)]] = "None".
Proof. reflexivity. Qed.

(** ** The model's configuration *)

(** With a proxy every call goes to it, under one slash; without, to the provider; and there is always a key
    to send. *)
Lemma llm_config_exact environ url agent_model :
  let c := build_llm_config environ url agent_model in
  str_truthy (api_key c) = true ∧ model c = agent_model ∧
  (base_url c = None ↔ api_type c = "anthropic") ∧
  (base_url c = None ↔ rstrip_in "/" (strip (default "" url)) = "").
Proof.
  unfold build_llm_config. cbv zeta.
  assert (str_truthy (match get_secret "ANTHROPIC_API_KEY" environ with
                      | Some k => if str_truthy k then k else "not-needed"
                      | None => "not-needed"
                      end) = true) as Hk.
  { destruct (get_secret _ _) as [k|]; [|done]. by destruct (str_truthy k) eqn:E. }
  destruct (rstrip_in "/" _) as [|c u]; cbn [str_truthy String.eqb negb base_url api_type api_key model]; by split_and!.
Qed.

(** ** Witnesses *)

Definition sample_attempt (name : string) (reply : Reply) (kwargs : list (string * json)) : Attempt :=
  {| at_name := name; at_kwargs := kwargs; at_now := 0; at_reply := reply; at_span := u2; at_start := (u1, 0);
     at_end := (u3, 1) |}.

(** An attempt at the shell runs nothing, and one at a file is gated. *)
Definition sample_attempts : list Attempt :=
  [sample_attempt "exec_shell" (ReplyAt 10 allow) [("cmd", JStr "id")];
   sample_attempt "file_write" (ReplyAt 10 allow) [("path", JStr "notes.txt"); ("content", JStr "x")]].

Lemma agents_keep_to_their_tools_witness :
  let r := chat {| tl_run_id := u1; tl_tenant_id := u2 |} 100 u3 (task_agent sample_sandbox []) sample_attempts
             fresh_stream sample_fs in
  Forall (names_in general_tools) r.1.2 ∧ confined sample_sandbox sample_fs r.1.1 ∧ length r.1.2 = 2%nat.
Proof.
  destruct (chat _ _ _ _ _ _ _) as [[fs' evs] es] eqn:E. cbn [fst snd].
  destruct (proj1 (proj2 (proj2 (proj2 (agents_keep_to_their_tools sample_sandbox "0" {| tl_run_id := u1; tl_tenant_id := u2 |}
    100 u3 sample_attempts fresh_stream sample_fs fs' evs es sample_root)))) E) as [H1 H2].
  split; [exact H1|]. split; [exact H2|]. apply (f_equal (λ r, r.1.2)) in E. cbn [fst snd] in E.
  rewrite <-E. vm_compute. reflexivity.
Defined.

Definition sample_dispatcher : Dispatcher () Db :=
  {| gate_state := tt; Dispatch.db := example_db; _known_runs := ∅; audits := [] |}.

Definition no_gate (d : list (string * json)) (run : string) (g : ()) : () * result PyExn GateOutcome :=
  (g, raise "RuntimeError" "no gate").

Definition sample_client : Telemetry := {| tl_run_id := u2; tl_tenant_id := u3 |}.
Definition sample_stamp (event : uuid) : Stamp := {| st_span := u1; st_event := event; st_ns := 0 |}.

Lemma instruction_kept_witness :
  ∃ r, runs (Dispatch.db (on_frames tag_text tag_entities no_gate
         [(6, u1, FEvent (declare_intent sample_client u1 "[response] sent to attacker.com" [] (sample_stamp u3)))]
         (@on_frame () Db (Db_store tag_text tag_entities 5 u1) no_gate
            (FEvent (declare_intent sample_client u1 "say hello" ["say hello"] (sample_stamp u1))) sample_dispatcher).1))
       !! u2 = Some r ∧ run_declared_goal r = Some "say hello".
Proof.
  refine (proj1 (instruction_kept tag_text tag_entities no_gate 5 u1 sample_client u1 "say hello" ["say hello"]
    (sample_stamp u1) sample_dispatcher _ _ _ _ _ _)).
  - vm_compute. reflexivity.
  - reflexivity.
  - intros i r Hr. change ((∅ : gmap uuid Run) !! i = Some r) in Hr. by rewrite lookup_empty in Hr.
  - intros r Hr. change ((∅ : gmap uuid Run) !! u2 = Some r) in Hr. by rewrite lookup_empty in Hr.
  - intros H. apply (f_equal length) in H. vm_compute in H. discriminate H.
Defined.
