(* ===== verification/Ids.v ===== *)
(** * Identifiers and embeddings

    Models [auditor/ids.py], with the text of a UUID as [PyStr] reads it back, and
    [auditor/embeddings/]: the offline embedder, the check of the dimensions and the choice of a backend
    (the local model and the fastembed library are parameters).  The system time and the operating
    system's random bytes are arguments. *)

From Stdlib Require Import ZArith Lia Ascii SpecFloat.
From Stdlib Require String.
From stdpp Require Import base tactics option list strings gmap.
From S2P Require Import Prelude PyStr Float64 Sha256 Json Budget Gate.

Local Open Scope Z_scope.

(** ** Bytes *)

(** [z.to_bytes(n, "big")] *)
Definition to_bytes (n : nat) (z : Z) : result PyExn string :=
  if z <? 0 then raise "OverflowError" "can't convert negative int to unsigned"
  else if z <? 256 ^ Z.of_nat n then Ok (be_bytes n z)
  else raise "OverflowError" "int too big to convert".

(** [data[i] = f(data[i])] on a bytearray that has an index [i]. *)
Definition update_byte (i : nat) (f : N → N) (data : string) : string :=
  take_str i data +:+
  match drop_str i data with
  | EmptyString => EmptyString
  | String c rest => String (ascii_of_N (f (N_of_ascii c))) rest
  end.

(** ** UUIDv7 *)

(** [int(time.time() * 1000)], for a clock that is a finite number. *)
Definition unix_ms (time : f64) : result PyExn Z :=
  match ftrunc (fmul time (of_Z 1000)) with
  | Some z => Ok z
  | None => raise "OverflowError" "cannot convert float infinity to integer"
  end.

(** The bytes of [uuid7()], at [time], with the ten bytes of [os.urandom]. *)
Definition uuid7_bytes (time : f64) (random : string) : result PyExn string :=
  let! ms := unix_ms time in
  let! head := to_bytes 6 ms in
  let data := head +:+ random in
  let data := update_byte 6 (λ b, N.lor (N.land b 15) 112) data in
  Ok (update_byte 8 (λ b, N.lor (N.land b 63) 128) data).

Definition uuid7 (time : f64) (random : string) : result PyExn string :=
  let! data := uuid7_bytes time random in Ok (uuid_text (be_int 0 data)).

(** ** The offline embedder *)

Definition embed_byte (c : ascii) : f64 := fsub (fdiv (of_Z (Z.of_N (N_of_ascii c))) (ratio 1275 10)) (of_Z 1).

(** The inner loop: the bytes of a block until the vector is full. *)
Fixpoint fill (dim : nat) (out : list f64) (block : string) : list f64 :=
  match block with
  | EmptyString => out
  | String c rest =>
      let out := out ++ [embed_byte c] in
      if (dim <=? length out)%nat then out else fill dim out rest
  end.

(** The outer loop; running out of fuel is not answering. *)
Fixpoint vector_loop (fuel dim : nat) (seed : string) (counter : Z) (out : list f64) : option (result PyExn (list f64)) :=
  if (dim <=? length out)%nat then Some (Ok out)
  else match fuel with
       | O => None
       | S fuel =>
           match to_bytes 4 counter with
           | Raise e => Some (Raise e)
           | Ok suffix => vector_loop fuel dim seed (counter + 1) (fill dim out (sha256 (seed +:+ suffix)))
           end
       end.

(** [HashEmbedder(dim)._vector(text)], for the text's UTF-8 bytes. *)
Definition _vector (fuel dim : nat) (text : string) : option (result PyExn (list f64)) :=
  vector_loop fuel dim (utf8 text) 0 [].

(** ** The backends *)

Definition _KNOWN_DIMS : list (string * Z) :=
  [("BAAI/bge-small-en-v1.5", 384); ("BAAI/bge-base-en-v1.5", 768); ("sentence-transformers/all-MiniLM-L6-v2", 384)].

Inductive Embedder :=
| HashEmbedder (dim : Z)
| VoyageEmbedder (model : string) (dim : Z)
| LocalFastEmbedEmbedder (model : string) (dim : Z).

Definition dim_of (e : Embedder) : Z :=
  match e with HashEmbedder d | VoyageEmbedder _ d | LocalFastEmbedEmbedder _ d => d end.

Definition new_fastembed (model : string) (dim : Z) : result PyExn Embedder :=
  match dget model _KNOWN_DIMS with
  | Some expected =>
      if expected =? dim then Ok (LocalFastEmbedEmbedder model dim)
      else raise "ValueError" ("EMBEDDING_DIM=" +:+ dec dim +:+ " does not match model " +:+ py_repr_str model
                               +:+ " native dim " +:+ dec expected)
  | None => Ok (LocalFastEmbedEmbedder model dim)
  end.

Definition get_embedder (backend model : string) (dim : Z) : result PyExn Embedder :=
  if String.eqb backend "stub" then Ok (HashEmbedder dim)
  else if String.eqb backend "voyage" then Ok (VoyageEmbedder model dim)
  else new_fastembed model dim.

Section embed.
(** The vectors the local model gives for texts. *)
Context (fastembed : string → list string → result PyExn (list (list f64))).

(** [embed(texts)]; the fuel of the offline embedder is its dimension. *)
Definition embed (e : Embedder) (texts : list string) : option (result PyExn (list (list f64))) :=
  match e with
  | HashEmbedder dim =>
      foldr (λ t acc, v ← _vector (S (Z.to_nat dim)) (Z.to_nat dim) t;
                      vs ← acc;
                      Some (let! v := v in let! vs := vs in Ok (v :: vs))) (Some (Ok [])) texts
  | VoyageEmbedder _ _ =>
      Some (raise "NotImplementedError"
              "Voyage backend is not implemented in v1 (local-only). Use EMBEDDING_BACKEND=fastembed.")
  | LocalFastEmbedEmbedder model _ => Some (fastembed model texts)
  end.
End embed.

(** ** The offline embedder answers vectors of its dimension *)

Definition in_range (x : f64) : bool := fleb (of_Z (-1)) x && fleb x (of_Z 1).

Lemma embed_byte_range c : in_range (embed_byte c) = true.
Proof. destruct c as [[] [] [] [] [] [] [] []]; vm_compute; reflexivity. Qed.

Lemma fill_spec dim out block : (length out < dim)%nat → Forall (λ x, in_range x = true) out →
  length (fill dim out block) = (dim `min` (length out + String.length block))%nat ∧
  Forall (λ x, in_range x = true) (fill dim out block).
Proof.
  revert out. induction block as [|c block IH]; intros out Hl Hr; cbn [fill String.length]; [split; [lia|done]|].
  assert (Forall (λ x, in_range x = true) (out ++ [embed_byte c])) as Hr'.
  { apply Forall_app. split; [done|]. constructor; [apply embed_byte_range|constructor]. }
  assert (length (out ++ [embed_byte c]) = S (length out)) as Hl' by (rewrite length_app; simpl; lia).
  rewrite Hl'. destruct (dim <=? S (length out))%nat eqn:E.
  - apply Nat.leb_le in E. split; [rewrite Hl'; lia|done].
  - apply Nat.leb_gt in E. destruct (IH (out ++ [embed_byte c])) as [H1 H2]; [lia|done|].
    split; [rewrite H1, Hl'; lia|done].
Qed.

Lemma to_bytes_ok n z : 0 ≤ z < 256 ^ Z.of_nat n → to_bytes n z = Ok (be_bytes n z).
Proof.
  intros Hz. unfold to_bytes. rewrite (proj2 (Z.ltb_ge _ _)), (proj2 (Z.ltb_lt _ _)) by lia. done.
Qed.

Lemma vector_loop_spec fuel dim seed counter out :
  Z.of_nat dim ≤ 2 ^ 32 → (dim - length out <= fuel)%nat → (length out <= dim)%nat →
  0 ≤ counter ≤ Z.of_nat (length out) → Forall (λ x, in_range x = true) out →
  ∃ v, vector_loop fuel dim seed counter out = Some (Ok v) ∧ length v = dim ∧ Forall (λ x, in_range x = true) v.
Proof.
  intros Hd. revert counter out. induction fuel as [|fuel IH]; intros counter out Hf Hl Hc Hr; cbn [vector_loop].
  - rewrite (proj2 (Nat.leb_le _ _)) by lia. exists out. split_and!; [done|lia|done].
  - destruct (dim <=? length out)%nat eqn:E.
    { apply Nat.leb_le in E. exists out. split_and!; [done|lia|done]. }
    apply Nat.leb_gt in E. rewrite to_bytes_ok by (change (256 ^ Z.of_nat 4) with (2 ^ 32); lia).
    destruct (fill_spec dim out (sha256 (seed +:+ be_bytes 4 counter)) E Hr) as [Hlen Hr'].
    rewrite length_sha256 in Hlen. apply IH; [lia..|done].
Qed.

(** The offline embedder answers, for a dimension its four-byte counter allows: one vector per text, each
    of exactly the configured dimension (none for a negative one), with components between -1 and 1. *)
Theorem hash_embedder_total fastembed dim texts : dim ≤ 2 ^ 32 →
  ∃ vs, embed fastembed (HashEmbedder dim) texts = Some (Ok vs) ∧ length vs = length texts ∧
        Forall (λ v, length v = Z.to_nat dim ∧ Forall (λ x, in_range x = true) v) vs.
Proof.
  intros Hd. unfold embed. induction texts as [|t texts (vs & IH & Hl & Hv)]; [by exists []|].
  cbn [foldr]. destruct (vector_loop_spec (S (Z.to_nat dim)) (Z.to_nat dim) (utf8 t) 0 []) as (v & H1 & H2 & H3);
    [lia|simpl; lia|simpl; lia|simpl; lia|constructor|].
  change (_vector (S (Z.to_nat dim)) (Z.to_nat dim) t = Some (Ok v)) in H1. rewrite H1. cbn [mbind option_bind]. rewrite IH. cbn [mbind option_bind result_bind].
  exists (v :: vs). split_and!; [done|simpl; lia|by constructor].
Qed.

Lemma hash_embedder_total_witness :
  ∃ vs, embed (λ _ _, Ok []) (HashEmbedder 40) ["hello"; ""] = Some (Ok vs) ∧ length vs = 2%nat ∧
        Forall (λ v, length v = Z.to_nat 40 ∧ Forall (λ x, in_range x = true) v) vs.
Proof. apply (hash_embedder_total (λ _ _, Ok []) 40 ["hello"; ""]). lia. Defined.

(** The configured dimension is the backend's; a known local model is only taken with its own. *)
Lemma get_embedder_dim backend model dim e : get_embedder backend model dim = Ok e →
  dim_of e = dim ∧
  (∀ expected, backend ≠ "stub" → backend ≠ "voyage" → dget model _KNOWN_DIMS = Some expected → expected = dim).
Proof.
  unfold get_embedder, new_fastembed. destruct (String.eqb_spec backend "stub") as [->|H1]; [intros [= <-]; by split|].
  destruct (String.eqb_spec backend "voyage") as [->|H2]; [intros [= <-]; by split|].
  destruct (dget model _KNOWN_DIMS) as [x|].
  - destruct (x =? dim) eqn:E; [|done]. intros [= <-]. split; [done|]. intros y _ _ [= <-]. by apply Z.eqb_eq.
  - intros [= <-]. by split.
Qed.

(** ** The text of a UUID is read back *)

Definition is_hex (c : ascii) : bool := bool_decide (is_Some (unhex_digit c)).

Fixpoint all_chars (p : ascii → bool) (s : string) : bool :=
  match s with EmptyString => true | String c s' => p c && all_chars p s' end.

Lemma all_chars_app p a b : all_chars p (a +:+ b) = all_chars p a && all_chars p b.
Proof. induction a as [|c a IH]; [done|]. simpl. by rewrite IH, andb_assoc. Qed.

Lemma all_chars_take p n s : all_chars p s = true → all_chars p (take_str n s) = true.
Proof. intros H. rewrite <-(take_drop_str n s), all_chars_app in H. by apply andb_true_iff in H as [? _]. Qed.

Lemma all_chars_drop p n s : all_chars p s = true → all_chars p (drop_str n s) = true.
Proof. intros H. rewrite <-(take_drop_str n s), all_chars_app in H. by apply andb_true_iff in H as [_ ?]. Qed.

Lemma all_chars_impl (p q : ascii → bool) s :
  (∀ c, p c = true → q c = true) → all_chars p s = true → all_chars q s = true.
Proof. intros H. induction s as [|c s IH]; [done|]. simpl. rewrite !andb_true_iff. naive_solver. Qed.

Lemma replace_absent fuel c old new s p :
  all_chars p s = true → p c = false → replace_fuel fuel (String c old) new s = s.
Proof.
  intros Hs Hc. revert fuel. induction s as [|x s IH]; intros [|fuel]; try done. cbn [replace_fuel starts_with].
  apply andb_true_iff in Hs as [Hx Hs]. destruct (ascii_dec c x) as [->|]; [congruence|]. by rewrite IH.
Qed.

Lemma replace_none c old new s p : all_chars p s = true → p c = false → replace (String c old) new s = s.
Proof. apply replace_absent. Qed.

(** A character no text of the class holds is stripped from neither side. *)
Lemma strip_in_absent cs s p : all_chars p s = true → (∀ c, p c = true → char_in c cs = false) → strip_in cs s = s.
Proof.
  intros Hs Hp. unfold strip_in. assert (lstrip_in cs s = s) as ->.
  { destruct s as [|c s]; [done|]. apply andb_true_iff in Hs as [Hc _]. simpl. by rewrite Hp. }
  induction s as [|c s IH]; [done|]. apply andb_true_iff in Hs as [Hc Hs]. cbn [rstrip_in].
  rewrite (IH Hs). destruct s; [by rewrite Hp|done].
Qed.

Lemma strip_absent s p : all_chars p s = true → (∀ c, p c = true → is_space c = false) → strip s = s.
Proof.
  intros Hs Hp. unfold strip. assert (lstrip s = s) as ->.
  { destruct s as [|c s]; [done|]. apply andb_true_iff in Hs as [Hc _]. simpl. by rewrite Hp. }
  induction s as [|c s IH]; [done|]. apply andb_true_iff in Hs as [Hc Hs]. cbn [rstrip].
  rewrite (IH Hs). destruct s; [by rewrite Hp|done].
Qed.

Lemma replace_dash a s f : all_chars is_hex a = true →
  replace_fuel (String.length a + S f) "-" "" (a +:+ String "-" s) = a +:+ replace_fuel f "-" "" s.
Proof.
  induction a as [|c a IH]; intros Ha; [done|]. apply andb_true_iff in Ha as [Hc Ha].
  cbn [String.length Nat.add String.append replace_fuel starts_with].
  destruct (ascii_dec "-" c) as [<-|]; [done|]. by rewrite IH.
Qed.

Lemma hex_digit_spec z : unhex_digit (hex_digit (Z.to_N (z mod 16))) = Some (Z.to_N (z mod 16)).
Proof.
  pose proof (Z.mod_pos_bound z 16 ltac:(lia)) as Hm. remember (z mod 16) as d eqn:E. clear E.
  assert (∀ n, (n < 16)%nat → unhex_digit (hex_digit (N.of_nat n)) = Some (N.of_nat n)) as H.
  { intros n Hn. do 16 (destruct n as [|n]; [reflexivity|]). lia. }
  specialize (H (Z.to_nat d) ltac:(lia)). by rewrite Z_nat_N in H.
Qed.

Lemma hex_of_Z_chars n z : all_chars is_hex (hex_of_Z n z) = true.
Proof.
  revert z. induction n as [|n IH]; intros z; [done|]. cbn [hex_of_Z]. rewrite all_chars_app, IH. cbn [andb all_chars].
  rewrite andb_true_r. apply bool_decide_eq_true. rewrite hex_digit_spec. by eexists.
Qed.

Lemma length_hex_of_Z n z : String.length (hex_of_Z n z) = n.
Proof.
  revert z. induction n as [|n IH]; intros z; [done|]. cbn [hex_of_Z]. rewrite str_length_app, IH. simpl. lia.
Qed.

Lemma hex_digits_snoc acc a c d : a ≠ "" → all_chars is_hex a = true → unhex_digit c = Some d →
  hex_digits acc (a +:+ String c "") = (λ v, v * 16 + Z.of_N d) <$> hex_digits acc a.
Proof.
  intros Hne Ha Hc. revert acc Hne. induction a as [|x a IH]; intros acc Hne; [done|].
  apply andb_true_iff in Ha as [Hx Ha]. apply bool_decide_eq_true in Hx as [dx Hx].
  cbn [String.append hex_digits]. rewrite Hx. destruct a as [|y a].
  - cbn [String.append]. destruct (ascii_dec c "_") as [->|]; [done|]. cbn [hex_digits]. by rewrite Hc.
  - cbn [String.append]. destruct (ascii_dec y "_") as [->|]; [apply andb_true_iff in Ha as [Hy _]; done|].
    apply (IH Ha). done.
Qed.

Lemma hex_digits_hex n z : 0 ≤ z < 16 ^ Z.of_nat (S n) → hex_digits 0 (hex_of_Z (S n) z) = Some z.
Proof.
  revert z. induction n as [|n IH]; intros z Hz.
  - cbn [hex_of_Z String.append hex_digits]. rewrite hex_digit_spec. f_equal. change (16 ^ Z.of_nat 1) with 16 in Hz.
    rewrite Z2N.id by (apply Z.mod_pos_bound; lia). rewrite Z.mod_small; lia.
  - change (hex_of_Z (S (S n)) z) with (hex_of_Z (S n) (z / 16) +:+ String (hex_digit (Z.to_N (z mod 16))) "").
    assert (hex_of_Z (S n) (z / 16) ≠ "") as Hne.
    { intros H. apply (f_equal String.length) in H. by rewrite length_hex_of_Z in H. }
    rewrite (hex_digits_snoc 0 _ _ _ Hne (hex_of_Z_chars (S n) (z / 16)) (hex_digit_spec z)).
    rewrite Nat2Z.inj_succ, Z.pow_succ_r in Hz by lia.
    rewrite IH by (split; [apply Z.div_pos; lia|apply Z.div_lt_upper_bound; lia]).
    cbn. f_equal. rewrite Z2N.id by (apply Z.mod_pos_bound; lia). pose proof (Z.div_mod z 16 ltac:(lia)). lia.
Qed.

Lemma drop_str_drop n m s : drop_str n (drop_str m s) = drop_str (m + n) s.
Proof. revert s. induction m as [|m IH]; intros s; [done|]. destruct s as [|c s]; [by destruct n|]. apply IH. Qed.

Lemma is_hex_not_space c : is_hex c = true → is_space c = false.
Proof. destruct c as [[] [] [] [] [] [] [] []]; by vm_compute. Qed.

Lemma int16_hex z : 0 ≤ z < 2 ^ 128 → int16 (hex_of_Z 32 z) = Some z.
Proof.
  intros Hz. unfold int16. pose proof (hex_of_Z_chars 32 z) as Hc.
  rewrite (strip_absent _ _ Hc is_hex_not_space).
  pose proof (hex_digits_hex 31 z Hz) as Hd. pose proof (length_hex_of_Z 32 z) as Hl.
  revert Hc Hd Hl. generalize (hex_of_Z 32 z). intros h Hc Hd Hl.
  destruct h as [|c0 [|c1 h]]; [done|done|].
  pose proof Hc as Hc'. cbn [all_chars] in Hc'. rewrite !andb_true_iff in Hc'. destruct Hc' as (H0 & H1 & _).
  destruct (ascii_dec c0 "-") as [->|_]; [done|]. destruct (ascii_dec c0 "+") as [->|_]; [done|].
  assert (∀ x, is_hex x = false → starts_with (String "0" (String x "")) (String c0 (String c1 h)) = false) as Hx.
  { intros x Hx. cbn [starts_with]. destruct (ascii_dec "0" c0); [|done]. destruct (ascii_dec x c1) as [->|]; [congruence|done]. }
  rewrite (Hx "x"%char eq_refl), (Hx "X"%char eq_refl). cbn [orb]. by rewrite Hd.
Qed.

(** A character of a UUID's text. *)
Definition uuid_char (c : ascii) : bool := is_hex c || (if ascii_dec c "-" then true else false).

Lemma uuid_char_no_brace c : uuid_char c = true → char_in c "{}" = false.
Proof. destruct c as [[] [] [] [] [] [] [] []]; by vm_compute. Qed.

Lemma replace_dashes a1 a2 a3 a4 a5 :
  all_chars is_hex (a1 +:+ a2 +:+ a3 +:+ a4 +:+ a5) = true →
  replace "-" "" (a1 +:+ "-" +:+ a2 +:+ "-" +:+ a3 +:+ "-" +:+ a4 +:+ "-" +:+ a5) = a1 +:+ a2 +:+ a3 +:+ a4 +:+ a5.
Proof.
  rewrite !all_chars_app, !andb_true_iff. intros (H1 & H2 & H3 & H4 & H5). unfold replace.
  assert (∀ a b s, (a + String.length (s +:+ String "-" b) = String.length s + S (a + String.length b))%nat) as Hl.
  { intros. rewrite str_length_app. simpl. lia. }
  change (S (String.length ?s)) with (1 + String.length s)%nat. cbn [String.append].
  rewrite Hl, replace_dash by done. rewrite Hl, replace_dash by done.
  rewrite Hl, replace_dash by done. rewrite Hl, replace_dash by done.
  by rewrite (replace_absent _ "-"%char "" "" _ is_hex H5).
Qed.

Lemma split_five h : h = take_str 8 h +:+ take_str 4 (drop_str 8 h) +:+ take_str 4 (drop_str 12 h)
                        +:+ take_str 4 (drop_str 16 h) +:+ drop_str 20 h.
Proof.
  pose proof (drop_str_drop 4 16 h) as H1. pose proof (drop_str_drop 4 12 h) as H2.
  pose proof (drop_str_drop 4 8 h) as H3. cbn [Nat.add] in H1, H2, H3.
  by rewrite <-H1, take_drop_str, <-H2, take_drop_str, <-H3, !take_drop_str.
Qed.

(** The text of every 128-bit number is the canonical text of a UUID. *)
Lemma parse_uuid_text z : 0 ≤ z < 2 ^ 128 → parse_uuid (uuid_text z) = Some (uuid_text z).
Proof.
  intros Hz. set (h := hex_of_Z 32 z).
  assert (h = take_str 8 h +:+ take_str 4 (drop_str 8 h) +:+ take_str 4 (drop_str 12 h)
              +:+ take_str 4 (drop_str 16 h) +:+ drop_str 20 h) as Hh.
  { apply split_five. }
  pose proof (hex_of_Z_chars 32 z : all_chars is_hex h = true) as Hc. rewrite Hh in Hc.
  assert (all_chars uuid_char (uuid_text z) = true) as Hu.
  { unfold uuid_text. change (hex_of_Z 32 z) with h. rewrite !all_chars_app, !andb_true_iff in Hc.
    rewrite !all_chars_app, !andb_true_iff. destruct Hc as (H1 & H2 & H3 & H4 & H5).
    assert (∀ s, all_chars is_hex s = true → all_chars uuid_char s = true) as Hi.
    { intros s. apply all_chars_impl. intros c. unfold uuid_char. intros ->. done. }
    split_and!; first [by apply Hi | reflexivity]. }
  unfold parse_uuid.
  rewrite (replace_none "u"%char "rn:" "" _ uuid_char Hu eq_refl).
  rewrite (replace_none "u"%char "uid:" "" _ uuid_char Hu eq_refl).
  rewrite (strip_in_absent "{}" _ uuid_char Hu uuid_char_no_brace).
  assert (replace "-" "" (uuid_text z) = h) as ->.
  { unfold uuid_text. change (hex_of_Z 32 z) with h. rewrite (replace_dashes _ _ _ _ _ Hc). by rewrite <-Hh. }
  unfold h. rewrite length_hex_of_Z. cbn [Nat.eqb negb]. rewrite (int16_hex z Hz).
  by rewrite (proj2 (Z.leb_le _ _)), (proj2 (Z.ltb_lt _ _)) by lia.
Qed.

(** ** The bits of a UUIDv7 *)

Lemma be_int_acc acc b : be_int acc b = acc * 256 ^ Z.of_nat (String.length b) + be_int 0 b.
Proof.
  revert acc. induction b as [|c b IH]; intros acc; [simpl; lia|].
  cbn [be_int String.length]. rewrite IH, (IH (0 * 256 + _)), Nat2Z.inj_succ, Z.pow_succ_r by lia. ring.
Qed.

Lemma be_int_app acc a b : be_int acc (a +:+ b) = be_int (be_int acc a) b.
Proof. revert acc. induction a as [|c a IH]; intros acc; [done|]. apply IH. Qed.

Lemma update_byte_at n a c b f : String.length a = n →
  update_byte n f (a +:+ String c b) = a +:+ String (ascii_of_N (f (N_of_ascii c))) b.
Proof. intros <-. unfold update_byte. by rewrite take_str_app, drop_str_app. Qed.

Lemma version_byte c : ∃ d, 0 ≤ d < 16 ∧
  Z.of_N (N_of_ascii (ascii_of_N (N.lor (N.land (N_of_ascii c) 15) 112))) = 7 * 16 + d.
Proof.
  exists (Z.of_N (N_of_ascii (ascii_of_N (N.lor (N.land (N_of_ascii c) 15) 112))) - 7 * 16).
  split; [|lia]. destruct c as [[] [] [] [] [] [] [] []]; vm_compute; split; congruence.
Qed.

Lemma variant_byte c : ∃ d, 0 ≤ d < 64 ∧
  Z.of_N (N_of_ascii (ascii_of_N (N.lor (N.land (N_of_ascii c) 63) 128))) = 2 * 64 + d.
Proof.
  exists (Z.of_N (N_of_ascii (ascii_of_N (N.lor (N.land (N_of_ascii c) 63) 128))) - 2 * 64).
  split; [|lia]. destruct c as [[] [] [] [] [] [] [] []]; vm_compute; split; congruence.
Qed.

(** The number of a UUIDv7: the milliseconds, the version, 12 random bits, the variant, 62 random bits. *)
Definition layout (ms z : Z) : Prop :=
  ∃ a b, 0 ≤ a < 2 ^ 12 ∧ 0 ≤ b < 2 ^ 62 ∧ z = ms * 2 ^ 80 + 7 * 2 ^ 76 + a * 2 ^ 64 + 2 * 2 ^ 62 + b.

Lemma uuid7_bytes_layout time random ms :
  unix_ms time = Ok ms → 0 ≤ ms < 2 ^ 48 → String.length random = 10%nat →
  ∃ data, uuid7_bytes time random = Ok data ∧ layout ms (be_int 0 data).
Proof.
  intros Hms Hb Hr. unfold uuid7_bytes. rewrite Hms. cbn [result_bind].
  rewrite (to_bytes_ok 6 ms Hb). cbn [result_bind]. eexists. split; [reflexivity|].
  pose proof (length_be_bytes 6 ms) as Hl. pose proof (be_int_be_bytes 6 ms 0 Hb) as Hi.
  destruct random as [|c0 [|c1 [|c2 rest]]]; [done..|]. injection Hr as Hr.
  rewrite (update_byte_at 6 _ _ _ _ Hl).
  set (v := ascii_of_N (N.lor (N.land (N_of_ascii c0) 15) 112)).
  replace (be_bytes 6 ms +:+ String v (String c1 (String c2 rest)))
    with ((be_bytes 6 ms +:+ String v (String c1 "")) +:+ String c2 rest) by (by rewrite <-str_app_assoc).
  assert (String.length (be_bytes 6 ms +:+ String v (String c1 "")) = 8%nat) as Hl8
    by (rewrite str_length_app, Hl; done).
  rewrite (update_byte_at 8 _ _ _ _ Hl8).
  set (w := ascii_of_N (N.lor (N.land (N_of_ascii c2) 63) 128)).
  rewrite !be_int_app, Hi. cbn [be_int]. rewrite be_int_acc, Hr.
  destruct (version_byte c0) as (d & Hd & Hv). destruct (variant_byte c2) as (e & He & Hw). fold v in Hv. fold w in Hw.
  rewrite Hv, Hw. pose proof (ascii_bound c1) as H1. destruct (be_int_bound 0 rest ltac:(lia)) as [Hn Hn'].
  rewrite Hr in Hn'. change (256 ^ Z.of_nat 7) with (2 ^ 56) in *. 
  exists (d * 256 + Z.of_N (N_of_ascii c1)), (e * 2 ^ 56 + be_int 0 rest). split_and!; lia.
Qed.

Lemma layout_bounds ms z : 0 ≤ ms < 2 ^ 48 → layout ms z → 0 ≤ z < 2 ^ 128 ∧ z / 2 ^ 80 = ms.
Proof.
  intros Hms (a & b & Ha & Hb & ->). split; [lia|].
  symmetry. apply (Z.div_unique _ _ _ (7 * 2 ^ 76 + a * 2 ^ 64 + 2 * 2 ^ 62 + b)); lia.
Qed.

(** C38: Every UUIDv7 is the canonical text of a 128-bit number that holds the milliseconds of the clock in its
    upper 48 bits, the version 7 and the variant of RFC 9562 at their places, and it is read back as
    itself; a later millisecond gives a greater number whatever the random bytes are. *)
Theorem uuid7_time_ordered t1 t2 r1 r2 m1 m2 :
  unix_ms t1 = Ok m1 → unix_ms t2 = Ok m2 → 0 ≤ m1 → m1 < m2 → m2 < 2 ^ 48 →
  String.length r1 = 10%nat → String.length r2 = 10%nat →
  ∃ z1 z2, uuid7 t1 r1 = Ok (uuid_text z1) ∧ uuid7 t2 r2 = Ok (uuid_text z2) ∧
    layout m1 z1 ∧ layout m2 z2 ∧ z1 < z2 ∧
    parse_uuid (uuid_text z1) = Some (uuid_text z1) ∧ parse_uuid (uuid_text z2) = Some (uuid_text z2).
Proof.
  intros H1 H2 Hm1 Hlt Hm2 Hr1 Hr2.
  destruct (uuid7_bytes_layout t1 r1 m1 H1 ltac:(lia) Hr1) as (d1 & E1 & L1).
  destruct (uuid7_bytes_layout t2 r2 m2 H2 ltac:(lia) Hr2) as (d2 & E2 & L2).
  exists (be_int 0 d1), (be_int 0 d2). unfold uuid7. rewrite E1, E2. cbn [result_bind].
  destruct (layout_bounds m1 _ ltac:(lia) L1) as [B1 D1]. destruct (layout_bounds m2 _ ltac:(lia) L2) as [B2 D2].
  split_and!; [done..| |by apply parse_uuid_text|by apply parse_uuid_text].
  apply Z.nle_gt. intros Hle. apply (Z.div_le_mono _ _ (2 ^ 80)) in Hle; lia.
Qed.

(** Outside the 48 bits (before 1970, or after the year 10889) the code raises. *)
Lemma uuid7_out_of_range time random ms : unix_ms time = Ok ms → ms < 0 ∨ 2 ^ 48 ≤ ms →
  uuid7 time random = raise "OverflowError" (if ms <? 0 then "can't convert negative int to unsigned"
                                             else "int too big to convert").
Proof.
  intros H Hr. unfold uuid7, uuid7_bytes, to_bytes. rewrite H. cbn [result_bind].
  destruct (ms <? 0) eqn:E; [done|]. apply Z.ltb_ge in E.
  rewrite (proj2 (Z.ltb_ge ms (256 ^ Z.of_nat 6))); [done|]. change (256 ^ Z.of_nat 6) with (2 ^ 48). lia.
Qed.

(** Two identifiers of one millisecond may come in either order: the bits after the time are random. *)
Example same_millisecond_unordered :
  uuid7 (of_Z 1700000000) "zzzzzzzzzz" = Ok "018bcfe5-6800-7a7a-ba7a-7a7a7a7a7a7a" ∧
  uuid7 (of_Z 1700000000) "aaaaaaaaaa" = Ok "018bcfe5-6800-7161-a161-616161616161".
Proof. split; vm_compute; reflexivity. Qed.

Lemma uuid7_time_ordered_witness :
  ∃ z1 z2, uuid7 (of_Z 1700000000) "zzzzzzzzzz" = Ok (uuid_text z1) ∧
    uuid7 (of_Z 1700000001) "aaaaaaaaaa" = Ok (uuid_text z2) ∧
    layout 1700000000000 z1 ∧ layout 1700000001000 z2 ∧ z1 < z2 ∧
    parse_uuid (uuid_text z1) = Some (uuid_text z1) ∧ parse_uuid (uuid_text z2) = Some (uuid_text z2).
Proof.
  apply (uuid7_time_ordered (of_Z 1700000000) (of_Z 1700000001) "zzzzzzzzzz" "aaaaaaaaaa"
           1700000000000 1700000001000); [by vm_compute|by vm_compute|lia|lia|lia|reflexivity|reflexivity].
Defined.
