(* ===== verification/Certs.v ===== *)
(** * The certificate authority of the control plane

    Models [auditor/auth/ca.py] and the contexts of [auditor/ipc/auth.py]: the key pair of the authority
    and its two files, the leaf minted for a run, the contexts of both ends and what a handshake between
    them comes to, and its use by [auditor/main.py], [auditor/harness_runner.py] and
    [harness/main.py].  The file system is the directory [<data_dir>/certs], a map from names.

    The cryptography library is a parameter: key pairs, signatures and the PEM texts of keys and
    certificates.  [sign] stands for building and signing a certificate, and raises where the library
    refuses one (a common name of more than 64 bytes among others).  Times are whole seconds, the
    resolution of a certificate. *)

From Stdlib Require Import ZArith Lia Ascii.
From Stdlib Require String.
From stdpp Require Import base tactics option list strings gmap.
From S2P Require Import Prelude PyStr Ipc Budget Gate.

Local Open Scope Z_scope.

(** ** Certificates *)

(** What is signed; [extended_key_usage] and [key_usage] are [None] without the extension. *)
Record TBS {P : Type} := {
  subject : string; issuer : string; public_key_of : P; serial_number : Z;
  not_valid_before : Z; not_valid_after : Z; is_ca : bool; path_length : option Z;
  key_usage : option (list string); subject_alt_name : list (string * string);
  extended_key_usage : option (list string) }.
Arguments TBS : clear implicits.

Record Certificate {P S : Type} := { tbs : TBS P; signature : S }.
Arguments Certificate : clear implicits.

(** A file and whether only its owner reads it. *)
Record CertFile {B : Type} := { content : B; private : bool }.
Arguments CertFile : clear implicits.

Section ca.
Context {PrivateKey PublicKey Signature Pem : Type} `{EqDecision PublicKey}.
Context (public_key : PrivateKey → PublicKey).
Context (sign : PrivateKey → TBS PublicKey → result PyExn Signature).
Context (verifies : PublicKey → TBS PublicKey → Signature → bool).
Context (cert_pem : Certificate PublicKey Signature → Pem) (key_pem : PrivateKey → Pem).
Context (load_pem_certificate : Pem → result PyExn (Certificate PublicKey Signature))
        (load_pem_key : Pem → result PyExn PrivateKey).

#[local] Notation Cert := (Certificate PublicKey Signature).
#[local] Notation Fs := (gmap string (CertFile Pem)).

(** ** Files *)

(** Writing over a file leaves its mode. *)
Definition write_bytes (path : string) (data : Pem) (fs : Fs) : Fs :=
  <[path := {| content := data; private := default false (private <$> fs !! path) |}]> fs.

(** [os.chmod]; [ok] is whether the system allows it. *)
Definition chmod_0600 (path : string) (ok : bool) (fs : Fs) : Fs :=
  if ok then alter (λ f, {| content := content f; private := true |}) path fs else fs.

Definition _write_private (path : string) (data : Pem) (ok : bool) (fs : Fs) : Fs :=
  chmod_0600 path ok (write_bytes path data fs).

Definition read_bytes (path : string) (fs : Fs) : result PyExn Pem :=
  match fs !! path with
  | Some f => Ok (content f)
  | None => raise "FileNotFoundError" path
  end.

(** What a call draws: a key pair, a serial number, the clock, and whether the mode can be changed. *)
Record Draw := { new_key : PrivateKey; random_serial : Z; now : Z; chmod_ok : bool }.

(** ** The authority *)

Definition ca_cert_path : string := "ca.pem".
Definition ca_key_path : string := "ca.key".
Definition ca_name : string := "ai-auditor-ca".
Definition day : Z := 86400.

Definition ca_tbs (d : Draw) : TBS PublicKey :=
  {| subject := ca_name; issuer := ca_name; public_key_of := public_key (new_key d); serial_number := random_serial d;
     not_valid_before := now d - 60; not_valid_after := now d + 3650 * day; is_ca := true; path_length := Some 0;
     key_usage := Some ["digital_signature"; "key_cert_sign"; "crl_sign"]; subject_alt_name := [];
     extended_key_usage := None |}.

Definition ca_exists (fs : Fs) : bool :=
  bool_decide (is_Some (fs !! ca_cert_path)) && bool_decide (is_Some (fs !! ca_key_path)).

Definition init_ca (d : Draw) (fs : Fs) : result PyExn (Fs * (string * string)) :=
  if ca_exists fs then Ok (fs, (ca_cert_path, ca_key_path))
  else
    let! s := sign (new_key d) (ca_tbs d) in
    let fs := write_bytes ca_cert_path (cert_pem {| tbs := ca_tbs d; signature := s |}) fs in
    let fs := _write_private ca_key_path (key_pem (new_key d)) (chmod_ok d) fs in
    Ok (fs, (ca_cert_path, ca_key_path)).

Definition load_ca (fs : Fs) : result PyExn (Cert * PrivateKey) :=
  let! pem := read_bytes ca_cert_path fs in
  let! cert := load_pem_certificate pem in
  let! pem := read_bytes ca_key_path fs in
  let! key := load_pem_key pem in
  Ok (cert, key).

(** ** Leaves *)

Record CertBundle := { cert : Cert; leaf_key : PrivateKey; leaf_ca : Cert }.

Definition leaf_tbs (d : Draw) (ca_cert : Cert) (role run_id tenant_id hostname : string) (ttl_minutes : Z) : TBS PublicKey :=
  {| subject := role +:+ "-" +:+ run_id; issuer := subject (tbs ca_cert);
     public_key_of := public_key (new_key d); serial_number := random_serial d;
     not_valid_before := now d - 60; not_valid_after := now d + 60 * ttl_minutes;
     is_ca := false; path_length := None; key_usage := None;
     subject_alt_name := [("DNS", hostname); ("URI", encode_san role run_id tenant_id)];
     extended_key_usage := Some ["serverAuth"; "clientAuth"] |}.

Definition mint_leaf (d : Draw) (role run_id tenant_id hostname : string) (ttl_minutes : Z) (fs : Fs)
    : result PyExn CertBundle :=
  let! (ca_cert, ca_key) := load_ca fs in
  let t := leaf_tbs d ca_cert role run_id tenant_id hostname ttl_minutes in
  let! s := sign ca_key t in
  Ok {| cert := {| tbs := t; signature := s |}; leaf_key := new_key d; leaf_ca := ca_cert |}.

(** The lifetime no caller overrides. *)
Definition default_ttl_minutes : Z := 240.

Definition mint_leaf_to_files (d : Draw) (role run_id tenant_id hostname : string) (ttl_minutes : Z) (fs : Fs)
    : result PyExn (Fs * (string * string * string)) :=
  let! bundle := mint_leaf d role run_id tenant_id hostname ttl_minutes fs in
  let cert_path := role +:+ "-" +:+ run_id +:+ ".pem" in
  let key_path := role +:+ "-" +:+ run_id +:+ ".key" in
  let fs := write_bytes cert_path (cert_pem (cert bundle)) fs in
  let fs := _write_private key_path (key_pem (leaf_key bundle)) (chmod_ok d) fs in
  Ok (fs, (cert_path, key_path, ca_cert_path)).

(** ** The two ends of a connection *)

Record SSLContext := { own_cert : Cert; own_key : PrivateKey; trusted : Cert; check_hostname : bool }.

(** [load_cert_chain] and [load_verify_locations]: the key has to be the certificate's. *)
Definition build_context (check : bool) (cert_path key_path ca_path : string) (fs : Fs) : result PyExn SSLContext :=
  let! pem := read_bytes cert_path fs in
  let! c := load_pem_certificate pem in
  let! pem := read_bytes key_path fs in
  let! k := load_pem_key pem in
  if negb (bool_decide (public_key k = public_key_of (tbs c))) then
    raise "SSLError" "[X509: KEY_VALUES_MISMATCH] key values mismatch"
  else
    let! pem := read_bytes ca_path fs in
    let! a := load_pem_certificate pem in
    Ok {| own_cert := c; own_key := k; trusted := a; check_hostname := check |}.

Definition build_server_context : string → string → string → Fs → result PyExn SSLContext := build_context false.
Definition build_client_context : string → string → string → Fs → result PyExn SSLContext := build_context true.

Definition valid_at (t : Z) (c : Cert) : bool := (not_valid_before (tbs c) <=? t) && (t <? not_valid_after (tbs c)).

Definition allows (usages : option (list string)) (u : string) : bool :=
  match usages with None => true | Some l => bool_decide (u ∈ l) end.

(** [CERT_REQUIRED]: the peer's certificate is one of the trusted authority's, both are in their time,
    and the certificate may be used for [purpose]. *)
Definition verify_peer (purpose : string) (t : Z) (ctx : SSLContext) (peer : Cert) : bool :=
  String.eqb (issuer (tbs peer)) (subject (tbs (trusted ctx)))
  && is_ca (tbs (trusted ctx)) && allows (key_usage (tbs (trusted ctx))) "key_cert_sign"
  && verifies (public_key_of (tbs (trusted ctx))) (tbs peer) (signature peer)
  && valid_at t (trusted ctx) && valid_at t peer && allows (extended_key_usage (tbs peer)) purpose.

(** A name without wildcards. *)
Definition match_hostname (c : Cert) (hostname : string) : bool :=
  existsb (λ '(kind, name), String.eqb kind "DNS" && String.eqb (lower name) (lower hostname)) (subject_alt_name (tbs c)).

(** A handshake at [t]: the alternative names of the client's certificate, as [getpeercert()] shows them to
    the server, or [None] when one of the ends refuses the other. *)
Definition handshake (t : Z) (server client : SSLContext) (server_hostname : string) : option (list (string * string)) :=
  if verify_peer "clientAuth" t server (own_cert client)
     && verify_peer "serverAuth" t client (own_cert server)
     && (negb (check_hostname client) || match_hostname (own_cert server) server_hostname)
  then Some (subject_alt_name (tbs (own_cert client)))
  else None.

(** ** [init_ca] one write at a time

    Between any two of these steps the process may die, or another process may run one of its own. *)

Inductive CaPc :=
| CaStart | CaWriteCert (c : Pem) | CaWriteKey | CaChmod | CaDone.

Definition ca_step (d : Draw) (pc : CaPc) (fs : Fs) : result PyExn (CaPc * Fs) :=
  match pc with
  | CaStart =>
      if ca_exists fs then Ok (CaDone, fs)
      else let! s := sign (new_key d) (ca_tbs d) in Ok (CaWriteCert (cert_pem {| tbs := ca_tbs d; signature := s |}), fs)
  | CaWriteCert c => Ok (CaWriteKey, write_bytes ca_cert_path c fs)
  | CaWriteKey => Ok (CaChmod, write_bytes ca_key_path (key_pem (new_key d)) fs)
  | CaChmod => Ok (CaDone, chmod_0600 ca_key_path (chmod_ok d) fs)
  | CaDone => Ok (CaDone, fs)
  end.

(** A call cut off after [n] steps. *)
Fixpoint ca_steps (n : nat) (d : Draw) (pc : CaPc) (fs : Fs) : result PyExn (CaPc * Fs) :=
  match n with
  | O => Ok (pc, fs)
  | S n => let! (pc, fs) := ca_step d pc fs in ca_steps n d pc fs
  end.

(** Two calls that run at the same time: [true] is a step of the first. *)
Fixpoint ca_race (order : list bool) (d1 d2 : Draw) (pc1 pc2 : CaPc) (fs : Fs) : result PyExn Fs :=
  match order with
  | [] => Ok fs
  | true :: order => let! (pc1, fs) := ca_step d1 pc1 fs in ca_race order d1 d2 pc1 pc2 fs
  | false :: order => let! (pc2, fs) := ca_step d2 pc2 fs in ca_race order d1 d2 pc1 pc2 fs
  end.

(** ** The users of the authority *)

Definition _SERVER_HOSTNAME : string := "auditor.local".
Definition _SERVER_TENANT : string := "00000000-0000-0000-0000-000000000000".

(** [_server_ssl_context] of the service, with mTLS enabled: the context is made once, at start. *)
Definition server_ssl_context (d_ca d : Draw) (fs : Fs) : result PyExn (Fs * SSLContext) :=
  let! (fs, _) := init_ca d_ca fs in
  let! (fs, (cert, key, ca)) :=
    mint_leaf_to_files d "auditor" "server" _SERVER_TENANT _SERVER_HOSTNAME default_ttl_minutes fs in
  let! ctx := build_server_context cert key ca fs in
  Ok (fs, ctx).

(** [HarnessRun.start] mints; [_client_ssl_context] of the harness reads the files back. *)
Definition harness_ssl_context (d_ca d : Draw) (run_id tenant_id : string) (fs : Fs) : result PyExn (Fs * SSLContext) :=
  let! (fs, _) := init_ca d_ca fs in
  let! (fs, (cert, key, ca)) :=
    mint_leaf_to_files d "harness" run_id tenant_id "harness.local" default_ttl_minutes fs in
  let! ctx := build_client_context cert key ca fs in
  Ok (fs, ctx).

(** ** The pair on disk *)

(** What the library documents: its own texts load back, and a signature is accepted for the key that
    made it. *)
Hypothesis load_cert_pem : ∀ c, load_pem_certificate (cert_pem c) = Ok c.
Hypothesis load_key_pem : ∀ k, load_pem_key (key_pem k) = Ok k.
Hypothesis sign_verifies : ∀ k t s, sign k t = Ok s → verifies (public_key k) t s = true.

(** The directory holds an authority whose key is its certificate's. *)
Definition ready (fs : Fs) : Prop :=
  ∃ d c f g, fs !! ca_cert_path = Some f ∧ content f = cert_pem c ∧ tbs c = ca_tbs d ∧
             fs !! ca_key_path = Some g ∧ content g = key_pem (new_key d).

(** What sequential use keeps: a key on disk is the key of the certificate on disk. *)
Definition sound (fs : Fs) : Prop := fs !! ca_key_path = None ∨ ready fs.

Lemma ready_load fs : ready fs → ∃ d c, load_ca fs = Ok (c, new_key d) ∧ tbs c = ca_tbs d.
Proof.
  intros (d & c & f & g & Hf & Ef & Hc & Hg & Eg). exists d, c. unfold load_ca, read_bytes.
  rewrite Hf, Hg. cbn [result_bind]. by rewrite Ef, Eg, load_cert_pem; cbn [result_bind]; rewrite load_key_pem.
Qed.

Lemma ready_exists fs : ready fs → ca_exists fs = true.
Proof.
  intros (d & c & f & g & Hf & _ & _ & Hg & _). unfold ca_exists. rewrite Hf, Hg.
  by rewrite !bool_decide_eq_true_2 by eauto.
Qed.

Lemma lookup_write_bytes path data (fs : Fs) x :
  write_bytes path data fs !! x
  = if decide (path = x) then Some {| content := data; private := default false (private <$> fs !! path) |} else fs !! x.
Proof. unfold write_bytes. destruct (decide (path = x)) as [<-|]; by simplify_map_eq. Qed.

Lemma lookup_chmod path ok (fs : Fs) x :
  content <$> chmod_0600 path ok fs !! x = content <$> fs !! x.
Proof.
  unfold chmod_0600. destruct ok; [|done]. destruct (decide (path = x)) as [<-|].
  - rewrite lookup_alter_eq. by destruct (fs !! path).
  - by rewrite lookup_alter_ne.
Qed.

Lemma content_Some (fs : Fs) x c : content <$> fs !! x = Some c → ∃ f : CertFile Pem, fs !! x = Some f ∧ content f = c.
Proof. destruct (fs !! x) as [f|]; [|done]. intros [= <-]. eauto. Qed.

(** Readiness speaks of the contents only. *)
Lemma ready_contents fs : ready fs ↔
  ∃ d c, content <$> fs !! ca_cert_path = Some (cert_pem c) ∧ tbs c = ca_tbs d ∧
         content <$> fs !! ca_key_path = Some (key_pem (new_key d)).
Proof.
  split.
  - intros (d & c & f & g & Hf & Ef & Hc & Hg & Eg). exists d, c. rewrite Hf, Hg. simpl. by rewrite Ef, Eg.
  - intros (d & c & Hf & Hc & Hg). apply content_Some in Hf as (f & Hf & Ef). apply content_Some in Hg as (g & Hg & Eg).
    by exists d, c, f, g.
Qed.

Lemma ready_chmod path ok fs : ready (chmod_0600 path ok fs) ↔ ready fs.
Proof. rewrite !ready_contents. by setoid_rewrite lookup_chmod. Qed.

Lemma write_same path data (fs : Fs) : content <$> write_bytes path data fs !! path = Some data.
Proof. by rewrite lookup_write_bytes, decide_True. Qed.

(** A file beside the pair leaves it as it is. *)
Lemma write_beside path data (fs : Fs) x : path ≠ x → write_bytes path data fs !! x = fs !! x.
Proof. intros H. rewrite lookup_write_bytes. by rewrite decide_False. Qed.

Lemma private_beside path data ok (fs : Fs) x : path ≠ x → content <$> _write_private path data ok fs !! x = content <$> fs !! x.
Proof. intros H. unfold _write_private. by rewrite lookup_chmod, write_beside. Qed.

(** What a caller of the authority can do to a directory that has one. *)
Inductive later : Fs → Fs → Prop :=
| later_refl fs : later fs fs
| later_init fs d fs' paths fs'' : init_ca d fs = Ok (fs', paths) → later fs' fs'' → later fs fs''
| later_mint fs d role run_id tenant_id hostname ttl fs' paths fs'' :
    mint_leaf_to_files d role run_id tenant_id hostname ttl fs = Ok (fs', paths) → later fs' fs'' → later fs fs''.

Definition same_ca (fs fs' : Fs) : Prop :=
  content <$> fs' !! ca_cert_path = content <$> fs !! ca_cert_path ∧
  content <$> fs' !! ca_key_path = content <$> fs !! ca_key_path.

Lemma same_ca_ready fs fs' : same_ca fs fs' → ready fs → ready fs'.
Proof. intros [H1 H2]. rewrite !ready_contents. by rewrite H1, H2. Qed.

Lemma same_ca_sound fs fs' : same_ca fs fs' → sound fs → sound fs'.
Proof.
  intros H [Hk|Hr]; [left|right; by apply (same_ca_ready fs)]. destruct H as [_ H]. rewrite Hk in H.
  by destruct (fs' !! ca_key_path).
Qed.

(** The name of a leaf's file has a dash, the authority's have none. *)
Lemma leaf_path_neq role run_id suffix path :
  char_in "-" path = false → role +:+ "-" +:+ run_id +:+ suffix ≠ path.
Proof. intros H <-. by rewrite char_in_app, orb_true_r in H. Qed.

Lemma pem_neq_key role run_id : role +:+ "-" +:+ run_id +:+ ".pem" ≠ role +:+ "-" +:+ run_id +:+ ".key".
Proof.
  rewrite !str_app_assoc. intros H. apply (f_equal (drop_str (String.length ((role +:+ "-") +:+ run_id)))) in H.
  by rewrite !drop_str_app in H.
Qed.

Lemma mint_files_same_ca d role run_id tenant_id hostname ttl fs fs' paths :
  mint_leaf_to_files d role run_id tenant_id hostname ttl fs = Ok (fs', paths) → same_ca fs fs'.
Proof.
  unfold mint_leaf_to_files. destruct (mint_leaf _ _ _ _ _ _ fs) as [b|]; [|done]. cbn [result_bind]. intros [= <- _].
  split; rewrite private_beside, write_beside by (by apply leaf_path_neq); done.
Qed.

(** ** Interrupted calls *)

Lemma ca_steps_init d fs :
  match ca_steps 4 d CaStart fs, init_ca d fs with
  | Ok (pc, fs1), Ok (fs2, _) => pc = CaDone ∧ fs1 = fs2
  | Raise e, Raise e' => e = e'
  | _, _ => False
  end.
Proof.
  unfold init_ca. cbn [ca_steps ca_step]. destruct (ca_exists fs); [done|].
  by destruct (sign (new_key d) (ca_tbs d)).
Qed.

Definition ca_inv (d : Draw) (pc : CaPc) (fs : Fs) : Prop :=
  match pc with
  | CaStart | CaDone => sound fs
  | CaWriteCert c => fs !! ca_key_path = None ∧ ∃ s, c = cert_pem {| tbs := ca_tbs d; signature := s |}
  | CaWriteKey => fs !! ca_key_path = None ∧
                  ∃ s, content <$> fs !! ca_cert_path = Some (cert_pem {| tbs := ca_tbs d; signature := s |})
  | CaChmod => ready fs
  end.

Lemma ca_step_inv d pc fs pc' fs' : ca_inv d pc fs → ca_step d pc fs = Ok (pc', fs') → ca_inv d pc' fs'.
Proof.
  destruct pc as [|c| | |]; cbn [ca_step ca_inv]; intros Hi.
  - destruct (ca_exists fs) eqn:E; [by intros [= <- <-]|].
    destruct (sign _ _) as [s|]; [|done]. intros [= <- <-]. cbn [ca_inv]. split; [|by eexists].
    destruct Hi as [?|Hr]; [done|]. by rewrite ready_exists in E.
  - intros [= <- <-]. cbn [ca_inv]. destruct Hi as [Hk [s ->]]. rewrite write_beside by done. split; [done|].
    exists s. by rewrite write_same.
  - intros [= <- <-]. cbn [ca_inv]. destruct Hi as [Hk [s Hc]]. apply ready_contents.
    exists d, {| tbs := ca_tbs d; signature := s |}. rewrite write_beside by done.
    split_and!; [done..|]. by rewrite write_same.
  - intros [= <- <-]. cbn [ca_inv]. right. by apply ready_chmod.
  - by intros [= <- <-].
Qed.

Lemma ca_inv_sound d pc fs : ca_inv d pc fs → sound fs.
Proof. destruct pc; cbn; unfold sound; naive_solver. Qed.

Lemma ca_steps_inv n d pc fs pc' fs' : ca_inv d pc fs → ca_steps n d pc fs = Ok (pc', fs') → ca_inv d pc' fs'.
Proof.
  revert pc fs. induction n as [|n IH]; intros pc fs Hi; cbn [ca_steps]; [by intros [= <- <-]|].
  destruct (ca_step d pc fs) as [[pc1 fs1]|] eqn:E; [|done]. cbn [result_bind]. apply IH. by eapply ca_step_inv.
Qed.

(** A directory used by one process at a time, any of whose calls may be cut off after a write. *)
Inductive solo : Fs → Prop :=
| solo_empty : solo ∅
| solo_init fs d n pc fs' : solo fs → ca_steps n d CaStart fs = Ok (pc, fs') → solo fs'
| solo_mint fs d role run_id tenant_id hostname ttl fs' paths :
    solo fs → mint_leaf_to_files d role run_id tenant_id hostname ttl fs = Ok (fs', paths) → solo fs'.

Lemma solo_sound fs : solo fs → sound fs.
Proof.
  induction 1 as [|fs d n pc fs' _ IH Hs|fs d role run_id tenant_id hostname ttl fs' paths _ IH Hm]; [by left| |].
  - eapply ca_inv_sound, ca_steps_inv; [|exact Hs]. done.
  - by eapply same_ca_sound; [eapply mint_files_same_ca|].
Qed.


(** A finished call leaves a usable authority, and keeps the one that was there. *)
Lemma init_ca_ready d fs fs' paths : sound fs → init_ca d fs = Ok (fs', paths) → ready fs'.
Proof.
  unfold init_ca, sound. intros Hs. destruct (ca_exists fs) eqn:E.
  - intros [= <- _]. destruct Hs as [Hk|?]; [|done]. unfold ca_exists in E. rewrite Hk in E.
    apply andb_true_iff in E as [_ E]. apply bool_decide_eq_true in E as [? ?]. done.
  - destruct (sign _ _) as [s|]; [|done]. intros [= <- _]. unfold _write_private. apply ready_chmod, ready_contents.
    exists d, {| tbs := ca_tbs d; signature := s |}. rewrite write_beside by done.
    by rewrite !write_same.
Qed.

Lemma init_ca_same d fs fs' paths : ready fs → init_ca d fs = Ok (fs', paths) → fs' = fs.
Proof. unfold init_ca. intros Hr. rewrite ready_exists by done. by intros [= <- _]. Qed.

Lemma later_same_ca fs fs' : later fs fs' → ready fs → same_ca fs fs'.
Proof.
  intros Hl. induction Hl as [fs|fs d fs1 paths fs2 Hi _ IH|fs d role run_id tenant_id hostname ttl fs1 paths fs2 Hm _ IH];
    intros Hr; [done| |].
  - pose proof (init_ca_same _ _ _ _ Hr Hi) as ->. by apply IH.
  - apply mint_files_same_ca in Hm. destruct (IH (same_ca_ready _ _ Hm Hr)) as [H1 H2]. destruct Hm as [H3 H4].
    split; congruence.
Qed.

(** Whatever is interrupted and however often, the next call that finishes leaves an authority whose leaves
    its own certificate vouches for. *)
Theorem interrupted_init_repaired fs d fs' paths :
  solo fs → init_ca d fs = Ok (fs', paths) →
  ready fs' ∧ ∀ role run_id tenant_id hostname ttl d' bundle,
    mint_leaf d' role run_id tenant_id hostname ttl fs' = Ok bundle →
    public_key_of (tbs (cert bundle)) = public_key (leaf_key bundle) ∧
    verifies (public_key_of (tbs (leaf_ca bundle))) (tbs (cert bundle)) (signature (cert bundle)) = true.
Proof.
  intros Hs%solo_sound Hi. pose proof (init_ca_ready _ _ _ _ Hs Hi) as Hr. split; [done|].
  intros role run_id tenant_id hostname ttl d' bundle. unfold mint_leaf.
  destruct (ready_load _ Hr) as (d0 & c0 & -> & Hc). cbn [result_bind].
  destruct (sign _ _) as [s|] eqn:Hsign; [|done]. intros [= <-]. cbn. split; [done|].
  rewrite Hc. by apply sign_verifies.
Qed.

(** ** Connections *)

(** The context an end builds from the files of a leaf just minted. *)
Lemma mint_context d role run_id tenant_id hostname ttl fs fs' cp kp ap d0 c0 check :
  load_ca fs = Ok (c0, new_key d0) →
  mint_leaf_to_files d role run_id tenant_id hostname ttl fs = Ok (fs', (cp, kp, ap)) →
  ∃ s, sign (new_key d0) (leaf_tbs d c0 role run_id tenant_id hostname ttl) = Ok s ∧
       build_context check cp kp ap fs' =
         Ok {| own_cert := {| tbs := leaf_tbs d c0 role run_id tenant_id hostname ttl; signature := s |};
               own_key := new_key d; trusted := c0; check_hostname := check |}.
Proof.
  intros Hca Hm. pose proof (mint_files_same_ca _ _ _ _ _ _ _ _ _ Hm) as [Hsame _].
  revert Hm. unfold mint_leaf_to_files, mint_leaf. rewrite Hca. cbn [result_bind].
  destruct (sign _ _) as [s|] eqn:Hs; [|done]. cbn [result_bind cert leaf_key]. intros [= <- <- <- <-]. exists s. split; [done|].
  set (fs' := _write_private _ _ _ _) in *.
  assert (∀ x b, content <$> fs' !! x = Some b → read_bytes x fs' = Ok b) as Hread.
  { intros x b Hx. apply content_Some in Hx as (f & Hf & <-). unfold read_bytes. by rewrite Hf. }
  unfold build_context.
  rewrite (Hread (role +:+ String "-" (run_id +:+ ".pem")) (cert_pem {| tbs := leaf_tbs d c0 role run_id tenant_id hostname ttl; signature := s |}));
    [|by unfold fs'; rewrite private_beside by (apply not_eq_sym, pem_neq_key); rewrite write_same].
  cbn [result_bind]. rewrite load_cert_pem. cbn [result_bind].
  rewrite (Hread (role +:+ String "-" (run_id +:+ ".key")) (key_pem (new_key d)));
    [|by unfold fs', _write_private; rewrite lookup_chmod, write_same].
  cbn [result_bind]. rewrite load_key_pem. cbn [result_bind tbs leaf_tbs public_key_of].
  rewrite bool_decide_eq_true_2 by done. cbn [negb].
  unfold load_ca, read_bytes in Hca. destruct (fs !! ca_cert_path) as [f|]; [|done]. cbn [result_bind] in Hca.
  destruct (load_pem_certificate (content f)) as [c|] eqn:Hl; [|done]. cbn [result_bind] in Hca.
  assert (c = c0) as <-.
  { destruct (fs !! ca_key_path) as [g|]; [|done]. cbn [result_bind] in Hca.
    destruct (load_pem_key (content g)); cbn [result_bind] in Hca; congruence. }
  rewrite (Hread ca_cert_path (content f)) by (by rewrite Hsame). cbn [result_bind]. by rewrite Hl.
Qed.

Lemma load_ca_same fs fs' : same_ca fs fs' → load_ca fs' = load_ca fs.
Proof.
  intros [H1 H2]. unfold load_ca, read_bytes.
  destruct (fs !! ca_cert_path) as [f|], (fs' !! ca_cert_path) as [f'|]; try done. cbn [result_bind].
  injection H1 as ->. destruct (load_pem_certificate (content f)); [|done]. cbn [result_bind].
  destruct (fs !! ca_key_path) as [g|], (fs' !! ca_key_path) as [g'|]; try done. cbn [result_bind].
  injection H2 as ->. done.
Qed.

(** The seconds of a certificate made at [m] for [len]. *)
Definition within (t m len : Z) : bool := (m - 60 <=? t) && (t <? m + len).

(** Two leaves of one authority: each end accepts the other in the common time of the three certificates. *)
Lemma leaves_accepted purpose t ctx (d0 d : Draw) c0 role run_id tenant_id hostname ttl s :
  tbs c0 = ca_tbs d0 → trusted ctx = c0 → purpose ∈ ["serverAuth"; "clientAuth"] →
  sign (new_key d0) (leaf_tbs d c0 role run_id tenant_id hostname ttl) = Ok s →
  verify_peer purpose t ctx {| tbs := leaf_tbs d c0 role run_id tenant_id hostname ttl; signature := s |}
  = within t (now d0) (3650 * day) && within t (now d) (60 * ttl).
Proof.
  intros Hc <- Hp Hs.
  assert (verifies (public_key_of (ca_tbs d0)) (leaf_tbs d (trusted ctx) role run_id tenant_id hostname ttl) s = true)
    as Hv by exact (sign_verifies _ _ _ Hs).
  unfold verify_peer, valid_at, within. cbn [tbs signature]. rewrite !Hc, Hv.
  cbn [leaf_tbs ca_tbs issuer subject is_ca key_usage not_valid_before not_valid_after extended_key_usage allows].
  rewrite Hc. cbn [ca_tbs subject]. rewrite String.eqb_refl.
  rewrite !bool_decide_eq_true_2 by (first [done|set_solver]). by rewrite andb_true_r.
Qed.

Lemma mint_sound_ready d role run_id tenant_id hostname ttl fs fs' paths :
  mint_leaf_to_files d role run_id tenant_id hostname ttl fs = Ok (fs', paths) → ready fs → ready fs' ∧ load_ca fs' = load_ca fs.
Proof. intros Hm%mint_files_same_ca Hr. split; [by apply (same_ca_ready fs)|by apply load_ca_same]. Qed.

(** The context of the service and the authority it leaves behind. *)
Lemma server_context_spec d_ca d fs fs1 server : sound fs → server_ssl_context d_ca d fs = Ok (fs1, server) →
  ready fs1 ∧ ∃ d0 c0 s, load_ca fs1 = Ok (c0, new_key d0) ∧ tbs c0 = ca_tbs d0 ∧
    let t := leaf_tbs d c0 "auditor" "server" _SERVER_TENANT _SERVER_HOSTNAME default_ttl_minutes in
    sign (new_key d0) t = Ok s ∧
    server = {| own_cert := {| tbs := t; signature := s |}; own_key := new_key d; trusted := c0; check_hostname := false |}.
Proof.
  intros Hs. unfold server_ssl_context. destruct (init_ca d_ca fs) as [[fs0 ps]|] eqn:Hi; [|done]. cbn [result_bind].
  pose proof (init_ca_ready _ _ _ _ Hs Hi) as Hr.
  destruct (mint_leaf_to_files _ _ _ _ _ _ fs0) as [[f1 [[cp kp] ap]]|] eqn:Hm; [|done]. cbn [result_bind].
  destruct (ready_load _ Hr) as (d0 & c0 & Hl & Hc). destruct (mint_sound_ready _ _ _ _ _ _ _ _ _ Hm Hr) as [Hr1 Hl1].
  destruct (mint_context _ _ _ _ _ _ _ _ _ _ _ _ _ false Hl Hm) as (s & Hsig & Hb).
  unfold build_server_context. rewrite Hb. cbn [result_bind]. intros [= <- <-]. split; [done|].
  exists d0, c0, s. by rewrite Hl1.
Qed.

Lemma harness_context_spec d_ca d run_id tenant_id fs fs1 client d0 c0 : ready fs → load_ca fs = Ok (c0, new_key d0) →
  harness_ssl_context d_ca d run_id tenant_id fs = Ok (fs1, client) →
  ∃ s, let t := leaf_tbs d c0 "harness" run_id tenant_id "harness.local" default_ttl_minutes in
    sign (new_key d0) t = Ok s ∧
    client = {| own_cert := {| tbs := t; signature := s |}; own_key := new_key d; trusted := c0; check_hostname := true |}.
Proof.
  intros Hr Hl. unfold harness_ssl_context. destruct (init_ca d_ca fs) as [[fs0 ps]|] eqn:Hi; [|done]. cbn [result_bind].
  pose proof (init_ca_same _ _ _ _ Hr Hi) as ->.
  destruct (mint_leaf_to_files _ _ _ _ _ _ fs) as [[f1 [[cp kp] ap]]|] eqn:Hm; [|done]. cbn [result_bind].
  destruct (mint_context _ _ _ _ _ _ _ _ _ _ _ _ _ true Hl Hm) as (s & Hsig & Hb).
  unfold build_client_context. rewrite Hb. cbn [result_bind]. intros [= <- <-]. by exists s.
Qed.

(** C33: In a directory whose authority no two processes made at once, and for identifiers without a semicolon
    (the separator of the name), a harness started at any later time is connected to the service exactly while the three certificates
    are in their time (the service's for four hours from its start), and is identified as the run it was
    started for; under another name the service is refused, and a harness's own certificate is never
    taken for the service's. *)
Theorem harness_identified fs d_ca d fs1 server fs2 d_ca' d' run_id tenant_id fs3 client :
  solo fs → server_ssl_context d_ca d fs = Ok (fs1, server) → later fs1 fs2 →
  harness_ssl_context d_ca' d' run_id tenant_id fs2 = Ok (fs3, client) →
  char_in ";" run_id = false → char_in ";" tenant_id = false →
  let sans := [("DNS", "harness.local"); ("URI", encode_san "harness" run_id tenant_id)] in
  (∃ made, ∀ t, handshake t server client _SERVER_HOSTNAME =
     if within t made (3650 * day) && within t (now d) 14400 && within t (now d') 14400 then Some sans else None) ∧
  parse_peer_identity (Some (Some sans)) =
    Some {| Ipc.role := "harness"; peer_run_id := run_id; peer_tenant_id := tenant_id |} ∧
  (∀ t name, lower name ≠ _SERVER_HOSTNAME → handshake t server client name = None) ∧
  (∀ t, handshake t client client _SERVER_HOSTNAME = None).
Proof.
  intros Hs%solo_sound Hserver Hl Hclient Hr Ht sans.
  destruct (server_context_spec _ _ _ _ _ Hs Hserver) as (Hr1 & d0 & c0 & s & Hca & Hc & Hsig & ->).
  pose proof (later_same_ca _ _ Hl Hr1) as Hsame. pose proof (same_ca_ready _ _ Hsame Hr1) as Hr2.
  rewrite <-(load_ca_same _ _ Hsame) in Hca.
  destruct (harness_context_spec _ _ _ _ _ _ _ _ _ Hr2 Hca Hclient) as (s' & Hsig' & ->).
  split_and!.
  - exists (now d0). intros t. unfold handshake. cbn [own_cert check_hostname negb orb].
    erewrite (leaves_accepted "clientAuth" t _ d0 d' c0); [|exact Hc|reflexivity|set_solver|exact Hsig'].
    erewrite (leaves_accepted "serverAuth" t _ d0 d c0); [|exact Hc|reflexivity|set_solver|exact Hsig].
    change (match_hostname _ _) with true. change (60 * default_ttl_minutes) with 14400. cbn [tbs leaf_tbs subject_alt_name].
    destruct (within t (now d0) _), (within t (now d) _), (within t (now d') _); done.
  - by apply san_roundtrip.
  - intros t name Hn. unfold handshake. cbn [own_cert check_hostname negb orb].
    assert (∀ c : Cert, subject_alt_name (tbs c) = [("DNS", _SERVER_HOSTNAME); ("URI", encode_san "auditor" "server" _SERVER_TENANT)] →
            match_hostname c name = false) as Hm.
    { intros c E. unfold match_hostname. rewrite E. cbn [existsb]. change (lower _SERVER_HOSTNAME) with _SERVER_HOSTNAME.
      destruct (String.eqb_spec _SERVER_HOSTNAME (lower name)) as [E'|]; [by rewrite E' in Hn|done]. }
    rewrite Hm by reflexivity. by rewrite !andb_false_r.
  - intros t. unfold handshake. cbn [own_cert check_hostname negb orb].
    change (match_hostname _ _) with false. by rewrite !andb_false_r.
Qed.

(** From four hours after the service started, no client completes a handshake with it. *)
Theorem server_certificate_expires fs d_ca d fs1 server client t name :
  solo fs → server_ssl_context d_ca d fs = Ok (fs1, server) → now d + 14400 ≤ t →
  handshake t server client name = None.
Proof.
  intros Hs%solo_sound Hserver Ht.
  destruct (server_context_spec _ _ _ _ _ Hs Hserver) as (_ & d0 & c0 & s & _ & _ & _ & ->).
  unfold handshake, verify_peer at 2. cbn [own_cert]. unfold valid_at at 2. cbn [tbs leaf_tbs not_valid_after].
  change (60 * default_ttl_minutes) with 14400. rewrite (proj2 (Z.ltb_ge _ _) Ht).
  by rewrite !andb_false_r.
Qed.

(** Two calls on an empty directory, each writing its pair: the certificate of one stays with the key of the
    other, and every later call takes the pair as it is. *)
Theorem racing_init_mismatched d1 d2 s1 s2 :
  sign (new_key d1) (ca_tbs d1) = Ok s1 → sign (new_key d2) (ca_tbs d2) = Ok s2 →
  ∃ fs, ca_race [true; false; true; false; false; true] d1 d2 CaStart CaStart ∅ = Ok fs ∧
    load_ca fs = Ok ({| tbs := ca_tbs d2; signature := s2 |}, new_key d1) ∧
    ∀ d, init_ca d fs = Ok (fs, (ca_cert_path, ca_key_path)).
Proof.
  intros H1 H2. cbn [ca_race ca_step]. change (ca_exists ∅) with false. cbn iota. rewrite H1, H2. cbn [result_bind].
  eexists. split; [reflexivity|]. set (fs := write_bytes ca_key_path (key_pem (new_key d1)) _).
  assert (content <$> fs !! ca_cert_path = Some (cert_pem {| tbs := ca_tbs d2; signature := s2 |})) as Hc.
  { unfold fs. rewrite !(write_beside ca_key_path) by done. by rewrite write_same. }
  assert (content <$> fs !! ca_key_path = Some (key_pem (new_key d1))) as Hk by (unfold fs; by rewrite write_same).
  apply content_Some in Hc as (f & Hf & Ec). apply content_Some in Hk as (g & Hg & Ek). split.
  - unfold load_ca, read_bytes. rewrite Hf, Hg. cbn [result_bind]. rewrite Ec, Ek, load_cert_pem. cbn [result_bind].
    by rewrite load_key_pem.
  - intros d. unfold init_ca, ca_exists. rewrite Hf, Hg. by rewrite !bool_decide_eq_true_2 by eauto.
Qed.

End ca.

(** ** Witnesses

    Keys are numbers, a key is its own public half and signs with itself, and texts are what they hold. *)

Definition toy_cert : Type := Certificate Z Z.
Definition toy_sign (k : Z) (t : TBS Z) : result PyExn Z :=
  if (String.length (subject t) <=? 64)%nat then Ok k else raise "ValueError" "Attribute's length must be <= 64".
Definition toy_verifies (p : Z) (_ : TBS Z) (s : Z) : bool := p =? s.

Lemma toy_sign_verifies k t s : toy_sign k t = Ok s → toy_verifies k t s = true.
Proof. unfold toy_sign. case_match; [|done]. intros [= <-]. apply Z.eqb_refl. Qed.

Definition toy_load_cert (b : toy_cert + Z) : result PyExn toy_cert :=
  match b with inl c => Ok c | inr _ => raise "ValueError" "Unable to load PEM file" end.
Definition toy_load_key (b : toy_cert + Z) : result PyExn Z :=
  match b with inr k => Ok k | inl _ => raise "ValueError" "Unable to load PEM file" end.
Definition toy_draw (k t : Z) : Draw := {| new_key := k; random_serial := k; now := t; chmod_ok := true |}.
Definition toy_verify_at := handshake (PrivateKey := Z) toy_verifies.
Definition toy_init := init_ca (λ k : Z, k) toy_sign (@inl toy_cert Z) inr.
Definition toy_server := server_ssl_context (λ k : Z, k) toy_sign (@inl toy_cert Z) inr toy_load_cert toy_load_key.
Definition toy_harness := harness_ssl_context (λ k : Z, k) toy_sign (@inl toy_cert Z) inr toy_load_cert toy_load_key.

Lemma harness_identified_witness :
  ∃ fs1 server fs3 client,
    toy_server (toy_draw 1 1000) (toy_draw 2 1000) ∅ = Ok (fs1, server) ∧
    toy_harness (toy_draw 3 2000) (toy_draw 4 2000) "r1" "t1" fs1 = Ok (fs3, client) ∧
    let sans := [("DNS", "harness.local"); ("URI", encode_san "harness" "r1" "t1")] in
    (∃ made, ∀ t, toy_verify_at t server client _SERVER_HOSTNAME =
       if within t made (3650 * day) && within t 1000 14400 && within t 2000 14400 then Some sans else None) ∧
    parse_peer_identity (Some (Some sans)) =
      Some {| Ipc.role := "harness"; peer_run_id := "r1"; peer_tenant_id := "t1" |} ∧
    (∀ t name, lower name ≠ _SERVER_HOSTNAME → toy_verify_at t server client name = None) ∧
    (∀ t, toy_verify_at t client client _SERVER_HOSTNAME = None).
Proof.
  eexists _, _, _, _. split; [vm_compute; reflexivity|]. split; [vm_compute; reflexivity|].
  eapply (harness_identified (λ k : Z, k) toy_sign toy_verifies (@inl toy_cert Z) inr toy_load_cert toy_load_key)
    with (fs := ∅) (d_ca := toy_draw 1 1000) (d := toy_draw 2 1000) (d_ca' := toy_draw 3 2000) (d' := toy_draw 4 2000);
    [done|done|exact toy_sign_verifies|constructor|vm_compute; reflexivity|constructor
    |vm_compute; reflexivity|done|done].
Defined.

Lemma server_certificate_expires_witness :
  ∃ fs1 server, toy_server (toy_draw 1 1000) (toy_draw 2 1000) ∅ = Ok (fs1, server) ∧
    toy_verify_at 15400 server server _SERVER_HOSTNAME = None.
Proof.
  eexists _, _. split; [vm_compute; reflexivity|].
  eapply (server_certificate_expires (λ k : Z, k) toy_sign toy_verifies (@inl toy_cert Z) inr toy_load_cert toy_load_key)
    with (fs := ∅) (d_ca := toy_draw 1 1000) (d := toy_draw 2 1000);
    [done|done|constructor|vm_compute; reflexivity|done].
Defined.

(** Ten minutes before, it does. *)
Example server_certificate_serves :
  match toy_server (toy_draw 1 1000) (toy_draw 2 1000) ∅ with
  | Ok (fs, server) =>
      match toy_harness (toy_draw 3 2000) (toy_draw 4 2000) "r1" "t1" fs with
      | Ok (_, client) => is_Some (toy_verify_at 14800 server client "Auditor.Local")
      | _ => False
      end
  | _ => False
  end.
Proof. vm_compute. by eexists. Qed.

Lemma racing_init_mismatched_witness :
  ∃ fs, ca_race (λ k : Z, k) toy_sign (@inl toy_cert Z) inr [true; false; true; false; false; true]
          (toy_draw 1 0) (toy_draw 2 0) CaStart CaStart ∅ = Ok fs ∧
    load_ca toy_load_cert toy_load_key fs = Ok ({| tbs := ca_tbs (λ k : Z, k) (toy_draw 2 0); signature := 2 |}, 1) ∧
    ∀ d, toy_init d fs = Ok (fs, (ca_cert_path, ca_key_path)).
Proof.
  by apply (racing_init_mismatched (λ k : Z, k) toy_sign (@inl toy_cert Z) inr toy_load_cert toy_load_key)
    with (d1 := toy_draw 1 0) (d2 := toy_draw 2 0) (s1 := 1) (s2 := 2).
Defined.

Lemma interrupted_init_repaired_witness :
  ∃ fs' paths, toy_init (toy_draw 5 10) (write_bytes ca_cert_path (inl {| tbs := ca_tbs (λ k : Z, k) (toy_draw 1 0); signature := 1 |}) ∅)
               = Ok (fs', paths) ∧ ready (λ k : Z, k) (@inl toy_cert Z) inr fs'.
Proof.
  eexists _, _. split; [vm_compute; reflexivity|].
  eapply (interrupted_init_repaired (λ k : Z, k) toy_sign toy_verifies (@inl toy_cert Z) inr toy_load_cert toy_load_key)
    with (d := toy_draw 5 10)
         (fs := write_bytes ca_cert_path (inl {| tbs := ca_tbs (λ k : Z, k) (toy_draw 1 0); signature := 1 |}) ∅);
    [done|done|exact toy_sign_verifies| |vm_compute; reflexivity].
  apply (solo_init _ _ _ _ _ _ ∅ (toy_draw 1 0) 2 CaWriteKey); [constructor|vm_compute; reflexivity].
Defined.
