(* ===== verification/Logging.v ===== *)
(** * Redaction of log lines

    Models [auditor/logging.py]: the processor that redacts the values of a log event before it is
    written, over the process's redactor of [Redact], and the correlation identifiers of a run.
    structlog itself (merging the context into an event, rendering, writing) is not modelled. *)

From Stdlib Require Import ZArith Lia.
From stdpp Require Import base tactics option list strings.
From S2P Require Import Prelude PyStr Regex Json Budget Gate Redact.

(** ** Values of a log event

    A [VOther] is a value of any other type, with the text it is rendered as. *)

Inductive log_value :=
| VStr (s : string)
| VDict (m : list (string * log_value))
| VList (l : list log_value)
| VTuple (l : list log_value)
| VOther (rendered : string).

Section log_value_ind.
Context (P : log_value → Prop) (Hstr : ∀ s, P (VStr s)) (Hdict : ∀ m, Forall (λ kv, P kv.2) m → P (VDict m))
        (Hlist : ∀ l, Forall P l → P (VList l)) (Htuple : ∀ l, Forall P l → P (VTuple l)) (Hother : ∀ s, P (VOther s)).

Fixpoint log_value_induction (v : log_value) : P v :=
  match v with
  | VStr s => Hstr s
  | VDict m => Hdict m ((fix go (m : list (string * log_value)) : Forall (λ kv, P kv.2) m :=
                           match m with
                           | [] => List.Forall_nil _
                           | kv :: m' => List.Forall_cons _ kv m' (log_value_induction kv.2) (go m')
                           end) m)
  | VList l => Hlist l ((fix go (l : list log_value) : Forall P l :=
                           match l with
                           | [] => List.Forall_nil _
                           | x :: l' => List.Forall_cons _ x l' (log_value_induction x) (go l')
                           end) l)
  | VTuple l => Htuple l ((fix go (l : list log_value) : Forall P l :=
                             match l with
                             | [] => List.Forall_nil _
                             | x :: l' => List.Forall_cons _ x l' (log_value_induction x) (go l')
                             end) l)
  | VOther s => Hother s
  end.
End log_value_ind.

Definition _STRUCTLOG_RESERVED : list string :=
  ["event"; "level"; "timestamp"; "logger"; "run_id"; "tenant_id"; "span_id"; "exc_info"; "stack_info"].

(** [result_bind] over the elements of a list, in order. *)
Definition each_value {A B} (f : A → result PyExn B) : list A → result PyExn (list B) :=
  fix go l := match l with
              | [] => Ok []
              | x :: l' => let! y := f x in let! ys := go l' in Ok (y :: ys)
              end.

Section processor.
Context (redact_text : string → result PyExn string).

Fixpoint _scrub (v : log_value) : result PyExn log_value :=
  match v with
  | VStr s => let! t := redact_text s in Ok (VStr t)
  | VDict m => let! m' := each_value (λ kv, let! v' := _scrub kv.2 in Ok (kv.1, v')) m in Ok (VDict m')
  | VList l => let! l' := each_value _scrub l in Ok (VList l')
  | VTuple _ | VOther _ => Ok v
  end.

(** One turn of the loop over the items: a value that cannot be scrubbed stays as it is. *)
Definition scrub_item (kv : string * log_value) : string * log_value :=
  if bool_decide (kv.1 ∈ _STRUCTLOG_RESERVED) then kv
  else (kv.1, match _scrub kv.2 with Ok v => v | Raise _ => kv.2 end).

Definition scrub_message (event_dict : list (string * log_value)) : list (string * log_value) :=
  match dget "event" event_dict with
  | Some (VStr s) => match redact_text s with Ok t => dset "event" (VStr t) event_dict | Raise _ => event_dict end
  | _ => event_dict
  end.

Definition scrub_event (event_dict : list (string * log_value)) : list (string * log_value) :=
  scrub_message (map scrub_item event_dict).
End processor.

Section log.
Context {R : Type} (entity_type : R → string) (presidio_loads : bool) (analyze : string → result PyExn (list R))
        (anonymize : string → list R → list (string * string) → result PyExn string).

(** [LOG_REDACT] of the environment, or its default. *)
Definition redaction_off (log_redact : option string) : bool := String.eqb (lower (strip (default "true" log_redact))) "false".

Definition redact_log_processor (log_redact : option string) (g : Globals) (event_dict : list (string * log_value))
    : Globals * list (string * log_value) :=
  if redaction_off log_redact then (g, event_dict)
  else let '(g, r) := get_log_redactor presidio_loads g in
       (g, scrub_event (redact_text entity_type analyze anonymize g r) event_dict).

End log.

(** ** Correlation identifiers *)

Definition bind_run_context (run_id tenant_id span_id : option string) (ctx : list (string * string)) : list (string * string) :=
  let put k v ctx := match v with Some x => dset k x ctx | None => ctx end in
  put "span_id" span_id (put "tenant_id" tenant_id (put "run_id" run_id ctx)).

Definition clear_run_context (ctx : list (string * string)) : list (string * string) := [].

(** ** What is written *)

(** The texts inside dictionaries and lists. *)
Fixpoint log_texts (v : log_value) : list string :=
  match v with
  | VStr s => [s]
  | VDict m => concat (map (λ kv, log_texts kv.2) m)
  | VList l => concat (map log_texts l)
  | VTuple _ | VOther _ => []
  end.

(** The texts of an event: those of the keys that are not reserved, and the message when it is a text. *)
Definition event_texts (ev : list (string * log_value)) : list string :=
  concat (map (λ kv, if bool_decide (kv.1 ∈ _STRUCTLOG_RESERVED) then [] else log_texts kv.2) ev)
  ++ match dget "event" ev with Some (VStr s) => [s] | _ => [] end.

Definition regex_text (s : string) : string := if str_truthy s then _regex_redact s else s.

Lemma regex_text_clean s :
  re_search api_key_pattern (regex_text s) = false ∧ re_search email_pattern (regex_text s) = false.
Proof.
  unfold regex_text. destruct s as [|c s]; [split; vm_compute; reflexivity|]. apply regex_redact_clean.
Qed.

Section scrubbed.
Context (redact : string → result PyExn string) (Hredact : ∀ s, redact s = Ok (regex_text s)).

Lemma each_value_ok {A B} (f : A → result PyExn B) (Q : A → B → Prop) l :
  Forall (λ x, ∃ y, f x = Ok y ∧ Q x y) l → ∃ ys, each_value f l = Ok ys ∧ Forall2 Q l ys.
Proof.
  induction 1 as [|x l (y & Hy & HQ) _ (ys & IH & Hq)]; [by exists []|].
  exists (y :: ys). cbn [each_value]. rewrite Hy. cbn [result_bind]. fold (each_value f). rewrite IH. split; [done|by constructor].
Qed.

Lemma concat_map_forall2 {A B C} (g : B → list C) (P : C → Prop) (l : list A) k :
  Forall2 (λ _ y, Forall P (g y)) l k → Forall P (concat (map g k)).
Proof. induction 1; [constructor|]. simpl. by apply Forall_app. Qed.

Definition clean (s : string) : Prop := ∃ s', s = regex_text s'.

Lemma scrub_clean v : ∃ v', _scrub redact v = Ok v' ∧ Forall clean (log_texts v').
Proof.
  induction v as [s|m IH|l IH|l IH|s] using log_value_induction.
  - exists (VStr (regex_text s)). cbn [_scrub]. rewrite Hredact. split; [done|]. repeat constructor. by exists s.
  - destruct (each_value_ok (λ kv : string * log_value, let! v' := _scrub redact kv.2 in Ok (kv.1, v'))
                (λ _ y, Forall clean (log_texts y.2)) m) as (m' & Hm & Hc).
    { eapply Forall_impl; [exact IH|]. intros kv (v' & Hv & Hc). exists (kv.1, v'). by rewrite Hv. }
    exists (VDict m'). cbn [_scrub]. rewrite Hm. split; [done|]. cbn [log_texts]. by eapply concat_map_forall2.
  - destruct (each_value_ok (_scrub redact) (λ _ y, Forall clean (log_texts y)) l) as (l' & Hl & Hc); [exact IH|].
    exists (VList l'). cbn [_scrub]. rewrite Hl. split; [done|]. cbn [log_texts]. by eapply concat_map_forall2.
  - exists (VTuple l). split; [done|constructor].
  - exists (VOther s). split; [done|constructor].
Qed.

Lemma scrub_item_clean kv :
  Forall clean (if bool_decide ((scrub_item redact kv).1 ∈ _STRUCTLOG_RESERVED) then [] else log_texts (scrub_item redact kv).2).
Proof.
  unfold scrub_item. destruct (bool_decide (kv.1 ∈ _STRUCTLOG_RESERVED)) eqn:E; cbn [fst snd]; rewrite E; [constructor|].
  by destruct (scrub_clean kv.2) as (v' & -> & Hc).
Qed.

Definition free_part (ev : list (string * log_value)) : list string :=
  concat (map (λ kv, if bool_decide (kv.1 ∈ _STRUCTLOG_RESERVED) then [] else log_texts kv.2) ev).

Lemma free_part_dset_event v ev : free_part (dset "event" v ev) = free_part ev.
Proof.
  induction ev as [|[k x] ev IH]; [done|]. unfold free_part in *. cbn [dset].
  destruct (decide (k = "event")) as [->|Hk]; [done|]. cbn [map concat fst snd]. by rewrite IH.
Qed.

Lemma dget_scrub_item ev : dget "event" (map (scrub_item redact) ev) = dget "event" ev.
Proof.
  induction ev as [|[k x] ev IH]; [done|]. cbn [map].
  destruct (scrub_item redact (k, x)) as [k' x'] eqn:E. cbn [dget]. rewrite IH.
  unfold scrub_item in E. cbn [fst snd] in E. revert E. case_bool_decide as Hr; intros [= <- <-]; [done|].
  rewrite !decide_False; [done|..]; intros ->; apply Hr; left.
Qed.

Lemma scrub_event_clean ev : Forall clean (event_texts (scrub_event redact ev)).
Proof.
  unfold event_texts, scrub_event, scrub_message. fold (free_part (map (scrub_item redact) ev)).
  assert (Forall clean (free_part (map (scrub_item redact) ev))) as Hfree.
  { unfold free_part. induction ev as [|kv ev IH]; [constructor|]. simpl. apply Forall_app. split; [apply scrub_item_clean|done]. }
  rewrite dget_scrub_item. destruct (dget "event" ev) as [[s|m|l|l|s]|] eqn:E;
    try (rewrite dget_scrub_item, E, app_nil_r; exact Hfree).
  rewrite Hredact. rewrite dget_dset_eq. fold (free_part (dset "event" (VStr (regex_text s)) (map (scrub_item redact) ev))).
  rewrite free_part_dset_event. apply Forall_app. split; [done|]. repeat constructor. by exists s.
Qed.
End scrubbed.

(** A log event as the processor leaves it holds neither a credential assignment nor an e-mail address: not
    in its message, and not in any text under a key that is not reserved, however deep in dictionaries and
    lists; the redactor of the process is then the one on the regular expressions, whatever the event
    store's is. *)
Theorem log_line_has_no_secret {R} (entity_type : R → string) presidio_loads analyze anonymize log_redact g ev :
  redaction_off log_redact = false → (∀ r, _LOG_SINGLETON g = Some r → _force_regex r = true) →
  let '(g', ev') := redact_log_processor entity_type presidio_loads analyze anonymize log_redact g ev in
  (∀ r, _LOG_SINGLETON g' = Some r → _force_regex r = true) ∧
  ∀ s, s ∈ event_texts ev' → re_search api_key_pattern s = false ∧ re_search email_pattern s = false.
Proof.
  intros Hon Hg. unfold redact_log_processor. rewrite Hon.
  pose proof (log_redactor_is_regex entity_type analyze anonymize presidio_loads g) as Hl.
  destruct (get_log_redactor presidio_loads g) as [g' r]. split.
  - destruct (Hl "" Hg) as (_ & Hr & Hf). intros r' Hr'. congruence.
  - intros s Hs. pose proof (scrub_event_clean (redact_text entity_type analyze anonymize g' r) (λ t, proj1 (Hl t Hg)) ev) as Hc.
    rewrite Forall_forall in Hc. destruct (Hc s Hs) as [s' ->]. apply regex_text_clean.
Qed.

(** What stays: tuples are not walked, the reserved keys are not looked at, and the keys of a dictionary are
    not redacted. *)
Example log_line_leaks :
  scrub_event (λ s, Ok (regex_text s))
    [("event", VStr "mail a@b.test"); ("args", VTuple [VStr "a@b.test"]); ("logger", VStr "a@b.test");
     ("seen", VDict [("a@b.test", VList [VStr "a@b.test"])])]
  = [("event", VStr "mail <EMAIL_ADDRESS>"); ("args", VTuple [VStr "a@b.test"]); ("logger", VStr "a@b.test");
     ("seen", VDict [("a@b.test", VList [VStr "<EMAIL_ADDRESS>"])])].
Proof. vm_compute. reflexivity. Qed.

Lemma log_line_has_no_secret_witness :
  let '(g', ev') := redact_log_processor (λ e : string, e) true (λ _, Ok []) (λ t _ _, Ok t) (Some " True")
                      {| _PRESIDIO_AVAILABLE := None; _SINGLETON := None; _LOG_SINGLETON := None |}
                      [("event", VStr "login"); ("note", VStr "password=aaaaaaaaaaaaaaaaaaaaaaaa")] in
  (∀ r, _LOG_SINGLETON g' = Some r → _force_regex r = true) ∧
  ∀ s, s ∈ event_texts ev' → re_search api_key_pattern s = false ∧ re_search email_pattern s = false.
Proof.
  apply (log_line_has_no_secret (λ e : string, e) true (λ _, Ok []) (λ t _ _, Ok t) (Some " True")
           {| _PRESIDIO_AVAILABLE := None; _SINGLETON := None; _LOG_SINGLETON := None |}
           [("event", VStr "login"); ("note", VStr "password=aaaaaaaaaaaaaaaaaaaaaaaa")]); [reflexivity|done].
Defined.
