(* ===== verification/Observer.v ===== *)
(** * The observers of the involuntary channel

    Models [auditor/involuntary/__init__.py], [windows.py] and [linux.py] with the subscriber of
    [involuntary/windows_sysmon/subscriber.py] as a state machine: the records the operating system
    delivers on its own thread, the calls they schedule on the event loop, the queue, and the consumer of
    [events()].  The translation of a record is [Sysmon]'s; the process tree ([psutil]) and whether a
    subscription succeeds are arguments.  What happens to a subscription that a second start replaces is
    not modelled: a start is a step of a stopped observer. *)

From Stdlib Require Import ZArith Lia.
From stdpp Require Import base tactics option list strings gmap sets.
From S2P Require Import Prelude PyStr Json Events Budget Gate Bridge Sysmon.

Local Open Scope Z_scope.

(** ** Choice of the backend *)

Inductive Backend := SysmonObserver | EbpfObserver.

Definition get_observer (platform : string) : result PyExn Backend :=
  if String.eqb platform "win32" then Ok SysmonObserver
  else if starts_with "linux" platform then Ok EbpfObserver
  else raise "RuntimeError"
         ("no involuntary telemetry backend available for platform " +:+ py_repr_str platform
          +:+ " (supported: win32 via Sysmon, linux via eBPF)").

(** ** The subscriber's native callback

    Whether the action is a delivery, the rendered record ([None] when rendering raises), the processes,
    and the user's callback, which [stop] clears before it closes the subscription. *)
Definition _on_event {S} (fromstring : string → option Element) (deliver : bool) (rendered : option string)
    (process_ids : option (gset Z)) (callback : option (string → S → S)) (s : S) : S * result PyExn Z :=
  if negb deliver then (s, Ok 0)
  else match rendered with
       | None => (s, Ok 0)
       | Some xml_str =>
           if _matches process_ids (_extract_process_id fromstring xml_str) then
             match callback with
             | Some f => (f xml_str s, Ok 0)
             | None => (s, raise "TypeError" "'NoneType' object is not callable")
             end
           else (s, Ok 0)
       end.

(** ** The state of an observer

    [queue] holds events and sentinels ([None]); [scheduled] are the calls of [put_nowait] that wait for the
    event loop; [reading] is whether a consumer is in [events()], and [yielded] what consumers got. *)
Record Observer := {
  queue : list (option BaseEvent); queue_maxsize : Z;
  subscriber : option (gset Z * uuid); run_id : option uuid; tenant_id : option uuid; started : bool;
  scheduled : list BaseEvent; reading : bool; yielded : list BaseEvent }.

Definition new_observer (queue_maxsize : Z) : Observer :=
  {| queue := []; queue_maxsize := queue_maxsize; subscriber := None; run_id := None; tenant_id := None;
     started := false; scheduled := []; reading := false; yielded := [] |}.

Definition set_queue (q : list (option BaseEvent)) (o : Observer) : Observer :=
  {| queue := q; queue_maxsize := queue_maxsize o; subscriber := subscriber o; run_id := run_id o;
     tenant_id := tenant_id o; started := started o; scheduled := scheduled o; reading := reading o; yielded := yielded o |}.

Definition set_scheduled (l : list BaseEvent) (o : Observer) : Observer :=
  {| queue := queue o; queue_maxsize := queue_maxsize o; subscriber := subscriber o; run_id := run_id o;
     tenant_id := tenant_id o; started := started o; scheduled := l; reading := reading o; yielded := yielded o |}.

Definition set_consumer (r : bool) (y : list BaseEvent) (o : Observer) : Observer :=
  {| queue := queue o; queue_maxsize := queue_maxsize o; subscriber := subscriber o; run_id := run_id o;
     tenant_id := tenant_id o; started := started o; scheduled := scheduled o; reading := r; yielded := y |}.

Definition set_run (sub : option (gset Z * uuid)) (r t : option uuid) (b : bool) (o : Observer) : Observer :=
  {| queue := queue o; queue_maxsize := queue_maxsize o; subscriber := sub; run_id := r; tenant_id := t;
     started := b; scheduled := scheduled o; reading := reading o; yielded := yielded o |}.

(** [asyncio.Queue.put_nowait]: a size of zero or less is no bound. *)
Definition full (o : Observer) : bool := (0 <? queue_maxsize o) && (queue_maxsize o <=? Z.of_nat (length (queue o))).

Definition put_nowait (x : option BaseEvent) (o : Observer) : Observer * result PyExn () :=
  if full o then (o, raise "QueueFull" "") else (set_queue (queue o ++ [x]) o, Ok tt).

(** ** The operations *)

Definition _process_tree (harness_pid : Z) (children : result PyExn (gset Z)) : gset Z :=
  match children with Ok cs => {[ harness_pid ]} ∪ cs | Raise _ => {[ harness_pid ]} end.

(** [SysmonObserver.start]; [subscribes] is what [EvtSubscribe] comes to. *)
Definition start (harness_pid : Z) (run : uuid) (children : result PyExn (gset Z)) (subscribes : result PyExn ())
    (o : Observer) : Observer * result PyExn () :=
  match subscribes with
  | Ok _ => (set_run (Some (_process_tree harness_pid children, run)) (Some run) (Some run) true o, Ok tt)
  | Raise e => (set_run (subscriber o) (Some run) (Some run) (started o) o, Raise e)
  end.

(** [EbpfObserver.start] *)
Definition ebpf_start (harness_pid : Z) (run : uuid) (o : Observer) : Observer * result PyExn () :=
  (set_run (subscriber o) (Some run) (tenant_id o) (started o) o,
   raise "NotImplementedError"
     ("Linux eBPF observer loads/attaches the Aya programs in involuntary/linux_ebpf; "
      +:+ "verified on Linux/CI (the eBPF object does not build on this platform)")).

(** [stop] of both: no step of the event loop falls between its parts. *)
Definition stop (o : Observer) : Observer * result PyExn () :=
  put_nowait None (set_run None (run_id o) (tenant_id o) false o).

Section steps.
Context (fromstring : string → option Element) (strptime : string → option datetime).

(** [_on_xml], on the thread of the operating system, for a live subscription. *)
Definition translated (xml : string) (event_id span_id : uuid) (now : datetime) (o : Observer) : list BaseEvent :=
  match subscriber o with
  | Some (pids, run) => match _on_xml fromstring strptime pids run xml event_id span_id now with Some e => [e] | None => [] end
  | None => []
  end.

Inductive op :=
| Start (harness_pid : Z) (run : uuid) (children : result PyExn (gset Z)) (subscribes : result PyExn ())
| Deliver (xml : string) (event_id span_id : uuid) (now : datetime)
| RunScheduled                             (* the event loop runs the next scheduled call *)
| Stop
| Listen                                   (* a consumer enters [events()] *)
| Next.                                    (* the consumer's next item, when there is one *)

(** The loop hands what a scheduled call raises to its exception handler, which logs it. *)
Definition step (a : op) (o : Observer) : Observer :=
  match a with
  | Start p r c s => match subscriber o with None => (start p r c s o).1 | Some _ => o end
  | Deliver x e s n => set_scheduled (scheduled o ++ translated x e s n o) o
  | RunScheduled => match scheduled o with
                    | [] => o
                    | e :: es => (put_nowait (Some e) (set_scheduled es o)).1
                    end
  | Stop => (stop o).1
  | Listen => set_consumer true (yielded o) o
  | Next =>
      if reading o then
        match queue o with
        | [] => o
        | None :: q => set_consumer false (yielded o) (set_queue q o)
        | Some e :: q => set_consumer true (yielded o ++ [e]) (set_queue q o)
        end
      else o
  end.

Definition steps (l : list op) (o : Observer) : Observer := foldl (λ o a, step a o) o l.

(** The events that deliveries made, in their order. *)
Fixpoint accepted (l : list op) (o : Observer) : list BaseEvent :=
  match l with
  | [] => []
  | a :: l' => match a with Deliver x e s n => translated x e s n o | _ => [] end ++ accepted l' (step a o)
  end.

(** ** Nothing is invented or reordered *)

Definition in_flight (o : Observer) : list BaseEvent := yielded o ++ omap id (queue o) ++ scheduled o.

Lemma maxsize_step a o : queue_maxsize (step a o) = queue_maxsize o.
Proof.
  destruct a; simpl.
  - destruct (subscriber o); [done|]. by destruct subscribes.
  - done.
  - unfold put_nowait. destruct (scheduled o); [done|]. by destruct (full _).
  - unfold stop, put_nowait. by destruct (full _).
  - done.
  - destruct (reading o); [|done]. by destruct (queue o) as [|[e|] q].
Qed.

Lemma in_flight_step a o :
  let new := match a with Deliver x e s n => translated x e s n o | _ => [] end in
  in_flight (step a o) `sublist_of` in_flight o ++ new ∧
  (queue_maxsize o ≤ 0 → in_flight (step a o) = in_flight o ++ new).
Proof.
  assert (∀ o, queue_maxsize o ≤ 0 → full o = false) as Hfull.
  { intros o' H. unfold full. by rewrite (proj2 (Z.ltb_ge 0 _) H). }
  assert (∀ l k : list BaseEvent, l = k → l `sublist_of` k ∧ (queue_maxsize o ≤ 0 → l = k)) as Heq
    by (by intros l k ->).
  destruct a as [p r c s|x e s n| | | |]; cbn zeta; rewrite ?app_nil_r.
  - apply Heq. simpl. destruct (subscriber o); [done|]. by destruct s.
  - apply Heq. unfold in_flight. simpl. by rewrite !app_assoc.
  - simpl. destruct (scheduled o) as [|e es] eqn:E; [by apply Heq|]. unfold put_nowait.
    destruct (full (set_scheduled es o)) eqn:F; unfold in_flight; simpl; rewrite E.
    + split; [apply sublist_app, sublist_app; [done|done|by apply sublist_cons]|]. intros H. by rewrite Hfull in F.
    + rewrite omap_app. simpl. rewrite <-!app_assoc. by split.
  - apply Heq. simpl. unfold stop, put_nowait. destruct (full _); unfold in_flight; simpl; [done|].
    by rewrite omap_app, app_nil_r.
  - by apply Heq.
  - apply Heq. simpl. destruct (reading o); [|done]. unfold in_flight.
    destruct (queue o) as [|[e|] q] eqn:E; simpl; rewrite ?E; [done| |done]. by rewrite <-app_assoc.
Qed.

(** C16: What consumers got, then what is queued, then what is scheduled, is a part of the events the deliveries
    made, in their order and none twice; all of them when the queue has no bound. *)
Theorem observer_keeps_events l maxsize :
  in_flight (steps l (new_observer maxsize)) `sublist_of` accepted l (new_observer maxsize) ∧
  (maxsize ≤ 0 → in_flight (steps l (new_observer maxsize)) = accepted l (new_observer maxsize)).
Proof.
  assert (∀ o, in_flight (steps l o) `sublist_of` in_flight o ++ accepted l o ∧
               (queue_maxsize o ≤ 0 → in_flight (steps l o) = in_flight o ++ accepted l o)) as H.
  { induction l as [|a l IH]; intros o; simpl; [by rewrite app_nil_r|].
    destruct (IH (step a o)) as [H1 H2]. destruct (in_flight_step a o) as [H3 H4]. rewrite maxsize_step in H2.
    rewrite app_assoc. split.
    - etrans; [exact H1|]. by apply sublist_app.
    - intros H. by rewrite H2, H4. }
  apply (H (new_observer maxsize)).
Qed.

(** ** The end of a consumer *)

Lemma steps_app l k o : steps (l ++ k) o = steps k (steps l o).
Proof. unfold steps. apply foldl_app. Qed.

Definition nexts (n : nat) (o : Observer) : Observer := steps (repeat Next n) o.

Lemma nexts_ended n o : reading o = false → nexts n o = o.
Proof. intros H. unfold nexts, steps. induction n as [|n IH]; [done|]. cbn [repeat foldl step]. by rewrite H. Qed.

(** A consumer ends at the first sentinel of the queue, after the events before it. *)
Lemma nexts_sentinel q q' n o : reading o = true → queue o = map Some q ++ None :: q' → (length q < n)%nat →
  nexts n o = set_consumer false (yielded o ++ q) (set_queue q' o).
Proof.
  revert n o. induction q as [|e q IH]; intros n o Hr Hq Hn; (destruct n as [|n]; [simpl in Hn; lia|]).
  - change (nexts (S n) o) with (nexts n (step Next o)). cbn [step]. rewrite Hr, Hq. cbn [map app].
    by rewrite nexts_ended, app_nil_r.
  - change (nexts (S n) o) with (nexts n (step Next o)). cbn [step]. rewrite Hr, Hq. cbn [map app].
    rewrite IH; [|done|done|simpl in Hn; lia]. unfold set_consumer, set_queue. simpl. by rewrite <-app_assoc.
Qed.

Lemma nexts_drain q n o : reading o = true → queue o = map Some q → (length q <= n)%nat →
  nexts n o = set_consumer true (yielded o ++ q) (set_queue [] o).
Proof.
  revert n o. induction q as [|e q IH]; intros n o Hr Hq Hn.
  - assert (nexts n o = o) as ->.
    { clear Hn. induction n as [|n IH]; [done|]. change (nexts (S n) o) with (nexts n (step Next o)). cbn [step].
      by rewrite Hr, Hq. }
    destruct o. simpl in *. subst. unfold set_consumer, set_queue. simpl. by rewrite app_nil_r.
  - destruct n as [|n]; [simpl in Hn; lia|]. change (nexts (S n) o) with (nexts n (step Next o)). cbn [step]. rewrite Hr, Hq.
    cbn [map]. rewrite IH; [|done|done|simpl in Hn; lia]. unfold set_consumer, set_queue. simpl. by rewrite <-app_assoc.
Qed.

(** The events before the first sentinel of a queue, and what is behind it. *)
Fixpoint before_sentinel (q : list (option BaseEvent)) : list BaseEvent :=
  match q with Some e :: q' => e :: before_sentinel q' | _ => [] end.

Fixpoint behind_sentinel (q : list (option BaseEvent)) : list (option BaseEvent) :=
  match q with [] => [] | None :: q' => q' | Some _ :: q' => behind_sentinel q' end.

Definition has_sentinel (q : list (option BaseEvent)) : bool :=
  existsb (λ x, match x with None => true | Some _ => false end) q.

Lemma queue_cases q :
  q = map Some (before_sentinel q) ++ (if has_sentinel q then None :: behind_sentinel q else []).
Proof. induction q as [|[e|] q IH]; [done| |done]. cbn. by rewrite IH at 1. Qed.

Lemma before_sentinel_length q : (length (before_sentinel q) ≤ length q)%nat.
Proof. induction q as [|[e|] q IH]; cbn [before_sentinel length]; lia. Qed.

(** C22: Stopping an observer puts a sentinel at the end of the queue, or raises when the queue is full; the
    queue may hold sentinels of earlier stops.  A consumer that keeps reading gets, in order, the events queued
    before the first sentinel, and then [events()] returns; what is behind that sentinel stays queued.  Only if
    the queue is full and holds no sentinel does the consumer get all of it and then wait, however long it
    reads. *)
Theorem stop_ends_consumer n o :
  reading o = true → (length (queue o) < n)%nat →
  let '(o', r) := stop o in
  yielded (nexts n o') = yielded o ++ before_sentinel (queue o) ∧
  reading (nexts n o') = full o && negb (has_sentinel (queue o)) ∧
  queue (nexts n o') = (if has_sentinel (queue o)
                        then behind_sentinel (queue o) ++ (if full o then [] else [None]) else []) ∧
  (r = Ok tt ↔ full o = false).
Proof.
  intros Hr Hn. pose proof (before_sentinel_length (queue o)) as Hl. unfold stop, put_nowait.
  change (full (set_run _ _ _ _ o)) with (full o).
  pose proof (queue_cases (queue o)) as Hq. destruct (has_sentinel (queue o)), (full o) eqn:F.
  - rewrite (nexts_sentinel (before_sentinel (queue o)) (behind_sentinel (queue o))); [|done|done|lia].
    cbn. rewrite app_nil_r. by split_and!.
  - rewrite (nexts_sentinel (before_sentinel (queue o)) (behind_sentinel (queue o) ++ [None])); [|done| |lia];
      [by split_and!|].
    cbn [queue set_queue set_run]. rewrite Hq at 1. by rewrite <-app_assoc.
  - rewrite app_nil_r in Hq. rewrite (nexts_drain (before_sentinel (queue o))); [|done|done|lia]. by split_and!.
  - rewrite app_nil_r in Hq.
    rewrite (nexts_sentinel (before_sentinel (queue o)) []); [|done| |lia]; [by split_and!|].
    cbn [queue set_queue set_run]. by rewrite <-Hq.
Qed.
End steps.

(** ** Runs that meet *)

Definition sample_deliver : op := Deliver "ssh" "e" "s" 7.
Definition sample_start (run : uuid) : op := Start 42 run (Ok ∅) (Ok tt).

(** An event the operating system delivered before the stop, but that the loop had not queued, comes after the
    sentinel: the consumer of its run never gets it, and the consumer of the observer's next run does. *)
Theorem late_event_crosses_runs :
  let first := steps sample_xml (λ _, None)
                 [sample_start "r1"; Listen; sample_deliver; Stop; RunScheduled; Next] (new_observer 0) in
  let second := steps sample_xml (λ _, None) [sample_start "r2"; Listen; Next] first in
  reading first = false ∧ yielded first = [] ∧
  map e_run_id (yielded second) = ["r1"] ∧ run_id second = Some "r2".
Proof. vm_compute. done. Qed.

(** A stop that no consumer was waiting for ends the next run's consumer before its first event. *)
Theorem stale_sentinel_ends_next_run :
  let o := steps sample_xml (λ _, None)
             [sample_start "r1"; Stop; sample_start "r2"; Listen; sample_deliver; RunScheduled; Next; Next] (new_observer 0) in
  reading o = false ∧ yielded o = [] ∧ length (queue o) = 1%nat.
Proof. vm_compute. done. Qed.

(** A record on its way while the observer stops meets a cleared callback. *)
Example callback_cleared :
  _on_event sample_xml true (Some "ssh") (Some {[ 42 ]}) (None : option (string → nat → nat)) 0%nat
  = (0%nat, raise "TypeError" "'NoneType' object is not callable").
Proof. vm_compute. reflexivity. Qed.

(** On Linux no observer ever starts. *)
Lemma linux_never_starts pid run o : get_observer "linux" = Ok EbpfObserver ∧
  ∃ e, (ebpf_start pid run o).2 = Raise e ∧ exn_class e = "NotImplementedError" ∧ started (ebpf_start pid run o).1 = started o.
Proof. split; [done|]. by eexists. Qed.

(** ** Witness *)

Lemma observer_keeps_events_witness :
  in_flight (steps sample_xml (λ _, None) [sample_start "r1"; Listen; sample_deliver; RunScheduled; Next] (new_observer 0))
  = accepted sample_xml (λ _, None) [sample_start "r1"; Listen; sample_deliver; RunScheduled; Next] (new_observer 0)
  ∧ length (accepted sample_xml (λ _, None) [sample_start "r1"; Listen; sample_deliver; RunScheduled; Next] (new_observer 0)) = 1%nat.
Proof.
  split; [|by vm_compute].
  destruct (observer_keeps_events sample_xml (λ _, None) [sample_start "r1"; Listen; sample_deliver; RunScheduled; Next] 0) as [_ H].
  apply H. done.
Defined.

Lemma stop_ends_consumer_witness :
  let o := set_consumer true [] (set_queue [Some sample_ssh_event; None; Some sample_ssh_event] (new_observer 9)) in
  let '(o', r) := stop o in
  yielded (nexts sample_xml (λ _, None) 4 o') = [sample_ssh_event] ∧
  reading (nexts sample_xml (λ _, None) 4 o') = false ∧
  queue (nexts sample_xml (λ _, None) 4 o') = [Some sample_ssh_event; None] ∧ (r = Ok tt ↔ full o = false).
Proof.
  exact (stop_ends_consumer sample_xml (λ _, None) 4
    (set_consumer true [] (set_queue [Some sample_ssh_event; None; Some sample_ssh_event] (new_observer 9)))
    eq_refl ltac:(simpl; lia)).
Defined.
